(* ===== verification/_CoqProject ===== *)
-Q . S2P
Prelude.v
JsValue.v
Json.v
Browser.v
Logic.v
Contracts.v
Frame.v
Outputs.v
Widgets.v
Utils.v
DatePairs.v
DateOrder.v
Calendar.v
Urls.v
Regex.v
DPGlobal.v
PickerText.v
DateTimePicker.v
PickerCells.v
PickerSafety.v
PickerChoice.v
Batch.v
ClusterInfo.v
Pager.v
LockNsp.v
ConfNsp.v
RangeTopo.v
CreateTable.v
Tables.v
ServerInfo.v
SqlConsole.v
Users.v
SqlApply.v
Scheduler.v
JsGrid.v
ColumnGrid.v
BootstrapTable.v
TableRefinement.v
TablePages.v
Ranges.v
Clusters.v
Metrics.v
Deploy.v
Backend.v
Creation.v
Applications.v
Workflow.v
Relay.v
Manage.v
Console.v
Served.v
Approvals.v
Operations.v
Accounts.v
