(* ===== verification/Prelude.v ===== *)
(** * SharkStore web console: verification library

    SharkStore is a distributed store; operators manage it with a web console.
    This library models the console's own scripts, under
    src/console/static/js/, the three widgets they depend on most (its table,
    its column grid and its date-time picker), the Go server behind them, under
    src/console/, and the management interface of the master server, in
    src/master-server/server/, as Rocq definitions and proves what they promise
    to the operator.  It is about the programs as they are written: their defects
    are theorems too.

    ** The program and its model

    A page of the console loads a script that fills tables, registers handlers
    and asks the server for data.  Everything after that is driven by events: a
    button, an answer to a dialog, the answer of the server.  The pages do not
    share state with each other; each of them shares the browser and a few
    helper scripts.  The console's server routes a request to an action, which
    checks its parameters and calls the service; the service works on its
    database, or signs the request and passes it on to the master server of the
    cluster.

    - [JsValue.v], [Json.v]: the JavaScript values and coercions that the
      scripts use, and [JSON.stringify] and [JSON.parse] with their round trip.
      Numbers are integers or NaN (the only division, of a table's offset by
      its page size, is exact where it is used); texts are UTF-8 byte strings, so
      lengths and positions count bytes; objects are association lists in
      insertion order.
    - [Browser.v]: a script is a tree of browser operations, [prog], with the
      callbacks it registers as subtrees.  [run] executes it on a [world]: form
      fields, script variables, a heap for captured objects, tables, the dialog
      on the screen, the pending requests and the log.  [step] is the event
      loop and [reachable] the states it can reach, for every user, every
      server ([env]) and every initial page.  jQuery's Ajax, SweetAlert's
      dialogs and bootstrap-table's methods are modelled as documented there.
    - [Logic.v]: a weakest-precondition calculus for contracts on what one
      event may log, and its soundness for the event loop.  [Contracts.v]: the
      promises of the pages as such contracts, gathered in a [policy]: what
      needs a confirmation, how many requests an event may send, which answers
      are shown, when success may be announced.  The class [Promising] is the
      interface between a page and the facts in [safe_step]; a page proves its
      instance by symbolic execution.  [Frame.v]: variables that a script does
      not write.  [Outputs.v]: what the log of a page can contain.
    - [Widgets.v], [Utils.v], [Batch.v], [DatePairs.v]: code that several
      scripts share or repeat (table columns, commons/utils.js, the batch
      buttons of the application lists, the fields of a period).  [Urls.v] and
      [Regex.v]: reading of addresses and regular expressions.

    One file per page, or per group of pages, each with a definition for each
    modelled function under the function's name, the actions of the page as an
    inductive type and the page itself:

    - [ClusterInfo.v]: cluster/loadInfoData.js
    - [RangeTopo.v]: cluster/rangetopu.js
    - [LockNsp.v], [ConfNsp.v]: apply/locknsplist.js, apply/confnsplist.js
    - [Pager.v]: apply/conflist.js, apply/locklist.js
    - [SqlApply.v]: apply/sqllist.js
    - [CreateTable.v]: createtables/createtable.js, edittable.js
    - [Tables.v]: createtables/tableslist.js, viewtablecolumn.js,
      topologymiss.js, rangedup.js
    - [ServerInfo.v]: serverInfo.js
    - [SqlConsole.v]: console/panel.js, viewconsole.js
    - [Users.v]: user/roleinfo.js, userinfo.js, userprivilege.js
    - [Scheduler.v]: system/scheduleadjust.js, schedulemanage.js,
      apply/locknspapply.js
    - [DateOrder.v]: theorems about the period fields of [DatePairs.v]
    - [Ranges.v]: range/peerinfo.js, unhealthyrange.js, unstablerange.js,
      cluster/topologylist.js, rangeopstopn.js, master/masterinfo.js
    - [Clusters.v]: bootstrap-table-demo.js (the list of clusters),
      cluster/initcluster.js, metadatacreatetable.js, index.js
    - [Metrics.v]: metric/metricmanage.js, metricserver.js
    - [Deploy.v]: cluster/source.js with its view, cluster/applycluster.js
    - [Console.v]: all pages together, one policy for each

    The table widget, plugins/bootstrap-table/bootstrap-table.min.js:

    - [BootstrapTable.v]: columns, search, filter, pages, body, selection,
      loading and removal, on a store of mutable row objects that the widget's
      two arrays share
    - [TableRefinement.v]: the simple table of [Browser.v], on which the pages
      are verified, as its abstraction
    - [TablePages.v]: selection and pages as the user sees them

    The grid of columns, plugins/jqgrid/validation/jsgrid.core.js with its fields,
    validation and load strategies:

    - [JsGrid.v]: rows on the screen and the array of items, which the page
      shares, insertion, editing, deletion, validation and pages
    - [ColumnGrid.v]: the grid as the pages that create and edit tables set it up

    The date-time picker, plugins/datapicker/bootstrap-datetimepicker.js:

    - [Calendar.v]: dates as time values, with the getters and setters of UTC
    - [DPGlobal.v]: formats, printing, parsing and the moves by months
    - [PickerText.v]: the texts of dates, read back and compared
    - [DateTimePicker.v]: the widget: a store of mutable dates (the date, the
      viewed date and the limits can be one object), its five panels, its
      operations, clicks and keys
    - [PickerCells.v], [PickerSafety.v], [PickerChoice.v]: what the panels show,
      the invariant over all actions, and a choice by three clicks

    The console's server, under src/console/:

    - [Backend.v]: errors, the routes of routers/router.go, the checks with which
      every action of controllers/ starts, Go's numbers and JSON, [handleAction]
    - [Served.v]: every page of [Console.v] composed with the routes and answers
    - [Creation.v]: the create-table page composed with the action behind it
    - [Applications.v], [Workflow.v], [Approvals.v]: the applications for
      namespaces and SQL in service/service.go, with their invariant, and the
      buttons that approve and reject them composed with the service
    - [Accounts.v]: privileges, roles and metric servers in service/service.go,
      composed with their pages and with the table widget

    The way to the master server of a cluster:

    - [Relay.v]: the methods of service/service.go that sign a request and pass
      it on, one definition each, with the address that [sendGetReq] builds
    - [Manage.v]: src/master-server/server/httpHandle.go and server.go: the
      signature, the addresses, and the reading of the parameters in each handler
      up to the call on the cluster, which is a [command]
    - [Operations.v]: a page, the console's server and the master together

    What these programs rely on and this library does not model is a parameter:
    the database ([Database], [AccountsDb] with the laws [DatabaseLaws] and
    [AccountsLaws]: an INSERT with the key of a row replaces it, a statement that
    fails changes nothing, a list is ordered and cut at its limits), the master as
    the applications see it ([Master], [MasterLaws]), the hash of a signature (a
    nonempty text without separators), the order in which Go walks through a map
    (some permutation), the network (which delivers a request and its answer), the
    time and the identifiers.  Each has an instance in memory, on which the
    witnesses of the theorems evaluate.

    ** What the theorems show

    - Safety of pages, in every reachable state ([console_safe], which covers
      every page, the [_safe] theorems, [cluster_changes_confirmed], [cluster_requests_paced],
      [cluster_answers_reported], [table_deletion_as_announced]): a request that
      changes something leaves only from the confirm button of the dialog that
      asked for it; an event sends a bounded number of requests and cancelling
      none; readable answers are shown; success is announced only if granted.
    - Payloads ([batch_buttons_outcome], [cluster_switches],
      [deploy_policy_saved], [range_requests_captured], [sql_table_target],
      [batchDeleteNode_payload], the [_deletion] theorems,
      [createTable_submission], [createip_submission], [query_submission],
      [sql_form_submission], [showRangeInfo_requests]): what is sent is what was
      selected or typed, and decodes to it; refused inputs send nothing.
    - The table widget: it refines the simple table ([widget_refines_table]);
      what is selected is what is ticked on the screen ([selected_visible]);
      its pages partition the rows, all of which can be reached
      ([pages_partition], [rows_reachable]); a list paged by the server asks for
      the right page ([server_page_asked]).
    - The date-time picker: no action throws and its state stays well formed
      ([picker_well_formed]); announced dates are within the limits
      ([announced_dates_in_range]); any shown instant can be chosen
      ([choose_instant]); the month panel is complete ([month_grid]); moving by
      months ends where it should ([moveMonth_terminates]); printed dates read
      back ([date_texts_read_back]) and are in the order of time
      ([picker_text_order]).
    - Tables and grids ([queryPut_delete_rows], [user_deletion],
      [lock_list_page_number], [pager_links], [result_grids_distinct]): what the
      page shows after the answer.
    - The grid of columns: whatever is typed, inserted, edited and deleted, the
      array that the page submits is the list of columns that the user sees
      ([grid_implements_columns], [column_entered], [column_renamed]).
    - Pages and server: what a page asks for has a handler, with the parameters
      its checks insist on ([requests_understood]); what the server answers is
      told ([server_outcomes_told]); the columns that are entered are the columns
      that the service gets ([table_creation_served]).
    - The service: the applications stay tidy under every history of requests
      ([applications_invariant]); an audit changes the selected applications and
      nothing else ([audits_end_to_end]); a list comes in pages that hold every
      application once ([namespace_pages]); a deletion of privileges, roles or
      metric servers is announced exactly if it is complete
      ([deletions_end_to_end]); a privilege that is announced is saved
      ([privilege_saved]).
    - The master: a request that the console accepts and passes on becomes the
      command that was meant, with its parameters ([commands_reach_master]); the
      refusals of the master are told, or lost, as stated ([refusals_told]).
    - Texts ([mycheck_dotted_quad], [html2Escape_shows], [copy_all_rows],
      [formatDate_order], [period_guard], [links_carry_arguments],
      [cluster_links]): round trips, escaping, and the order of printed dates,
      with the calendar of the Gregorian year proved monotone.
    - Defects ([deleteNode_row_stays], [default_period_order],
      [privilege_add_keeps_cluster], [column_after_dynamic_unchecked],
      [isIntType_only_BigInt], [edit_auto_increment_throws],
      [slave_deletion_loses_row], [disabled_previous_breaks],
      [unnamed_boxes_stay_selected], [first_year_disabled],
      [getCluster_keeps_last], [conf_refusal_unexplained],
      [html2Escape_reference_misread], [stale_row_deletes_last],
      [resubmission_drops_dynamic], [replace_range_rebuilds],
      [details_never_shown], [overlapping_applications],
      [audit_of_deleted_panics], [privilege_list_cut], [lists_refreshed],
      [name_cut], [task_operations_lost]): exact statements of where a program
      does not do what it means to.

    ** Bounds

    Loops that edit the array they walk through ([splice_loop], [split_loop])
    take as fuel the initial length of the array, which bounds their iterations
    because the index grows and the array does not ([splice_loop_enough],
    [split_columns_skip]); [Json.read] takes the length of the text, which
    [parse_stringify] shows to be enough.  The loops of the picker take constant
    fuel: 4 for the day that is beyond the end of a month, which
    [moveMonth_terminates] shows to be enough, 42 for the days of the month
    panel ([month_grid]), 60 for its minutes, because the step is at least 1.
    Printed dates are compared and read back for years of four digits.  The
    limits of the picker lie in such years, and its options are those of the
    pages ([usual] of [PickerSafety.v]).

    ** What is not modelled

    Third-party scripts (jQuery, AngularJS, SweetAlert, easyui, jqGrid, jsPlumb,
    echarts), except for the behaviour the pages rely on; of the table widget
    sorting, the card and detail views and the header; of the column grid sorting,
    filtering, loading from a server and the header; of the date-time picker
    the PHP formats, the view with am and pm, link fields, disabled dates, the
    mouse wheel and the placement on the page; drawing (connections between
    replicas, chart options), resize listeners and style classes that carry no
    state; the branches for Internet Explorer in the SQL console; the scripts that
    no page loads (task/, monitor/, the metadata pages at the root of static/js).

    Of the console's server the login, the sessions and the templates of the
    pages, and of its service the methods that are neither about applications,
    privileges, roles and metric servers nor pass a request on: the registration of
    clusters, SQL queries, locks and configuration items, the metric configuration,
    and those that put a table into the request or put the answers of the master
    together.  In [Served.v] their results are universally quantified.  Of the
    master server everything behind a [command]: the state of the cluster and its
    scheduling.  The data server, the gateway, the shared Go libraries and the
    tools are programs of their own.

    Statements are given to the database as values: what becomes of a text with a
    double quote or a backslash, which the service prints into its SQL as it is, is
    left open ([quotable] of [Accounts.v]). *)

From Stdlib Require Import Ascii DecimalString DecimalZ DecimalPos DecimalNat.
From Stdlib Require Export ZArith Lia Permutation.
From stdpp Require Export base list gmap strings option.

#[global] Open Scope Z_scope.

(** ** Automation shared by the components *)

(** [str] rewrites string concatenations to right-nested normal form. *)
Create Rewrite HintDb str.

(** Splits conjunctions and introduces binders, nothing more. *)
Ltac split_ands := repeat (match goal with |- _ /\ _ => split end).

(** Case analysis on the scrutinee of the first [match] of the goal. *)
Ltac case_goal :=
  match goal with
  | |- context [match ?x with _ => _ end] => destruct x eqn:?
  end.

(** ** Strings *)

(** Double quote, backslash and control characters have no plain literal. *)
Definition dquote : ascii := "034".
Definition backslash : ascii := "092".
Definition dq : string := String dquote EmptyString.
Definition nl : string := String "010" EmptyString.

(** Markup with its double quotes written as back quotes. *)
Fixpoint q (s : string) : string :=
  match s with
  | EmptyString => ""
  | String a s' => String (if Ascii.eqb a "`" then dquote else a) (q s')
  end.

Lemma str_app_cons a (s1 s2 : string) : String a s1 +:+ s2 = String a (s1 +:+ s2).
Proof. done. Qed.

Lemma str_app_nil_l (s : string) : "" +:+ s = s.
Proof. done. Qed.

Lemma str_app_nil_r (s : string) : s +:+ "" = s.
Proof. induction s as [|a s IH]; [done|]. by rewrite str_app_cons, IH. Qed.

Lemma str_app_assoc (s1 s2 s3 : string) : (s1 +:+ s2) +:+ s3 = s1 +:+ (s2 +:+ s3).
Proof. induction s1 as [|a s1 IH]; [done|]. by rewrite !str_app_cons, IH. Qed.

#[export] Hint Rewrite str_app_nil_r str_app_nil_l str_app_assoc : str.

Lemma str_length_app (s1 s2 : string) :
  String.length (s1 +:+ s2) = (String.length s1 + String.length s2)%nat.
Proof. induction s1 as [|a s1 IH]; [done|]. rewrite str_app_cons. cbn. by f_equal. Qed.

Lemma str_app_inj_r (s1 s2 t : string) : s1 +:+ t = s2 +:+ t -> s1 = s2.
Proof.
  intros H.
  assert (Hl : String.length s1 = String.length s2).
  { apply (f_equal String.length) in H. rewrite !str_length_app in H. lia. }
  revert s2 H Hl. induction s1 as [|a s1 IH]; intros [|b s2] H Hl; try done.
  rewrite !str_app_cons in H. cbn in Hl. simplify_eq. f_equal. apply IH; [done|lia].
Qed.

(** [str_forall p s]: every character of [s] satisfies [p]. *)
Fixpoint str_forall (p : ascii -> bool) (s : string) : bool :=
  match s with
  | EmptyString => true
  | String a s' => p a && str_forall p s'
  end.

Lemma str_forall_app p s1 s2 :
  str_forall p (s1 +:+ s2) = str_forall p s1 && str_forall p s2.
Proof.
  induction s1 as [|a s1 IH]; [done|].
  rewrite str_app_cons. cbn. by rewrite IH, andb_assoc.
Qed.

Lemma str_forall_impl (p q : ascii -> bool) s :
  (forall a, p a = true -> q a = true) -> str_forall p s = true -> str_forall q s = true.
Proof.
  intros Hpq. induction s as [|a s IH]; cbn; [done|].
  rewrite !andb_true_iff. intros [Ha Hs]. split; [by apply Hpq | by apply IH].
Qed.

(** [has_char c s]: [s] contains [c]. *)
Definition has_char (c : ascii) (s : string) : bool :=
  negb (str_forall (fun a => negb (Ascii.eqb a c)) s).

Lemma has_char_app c s1 s2 : has_char c (s1 +:+ s2) = has_char c s1 || has_char c s2.
Proof. unfold has_char. rewrite str_forall_app. by destruct (str_forall _ s1). Qed.

Lemma has_char_cons c a s : has_char c (String a s) = Ascii.eqb a c || has_char c s.
Proof. unfold has_char. cbn. by destruct (Ascii.eqb a c). Qed.

(** [str_prefix p s] is the rest of [s] after the prefix [p]. *)
Fixpoint str_prefix (p s : string) : option string :=
  match p, s with
  | EmptyString, _ => Some s
  | String a p', String b s' => if Ascii.eqb a b then str_prefix p' s' else None
  | String _ _, EmptyString => None
  end.

Lemma str_prefix_app p s : str_prefix p (p +:+ s) = Some s.
Proof.
  induction p as [|a p IH]; [done|].
  rewrite str_app_cons. cbn. by rewrite Ascii.eqb_refl.
Qed.

Lemma str_prefix_Some p s r : str_prefix p s = Some r <-> s = p +:+ r.
Proof.
  split; [|intros ->; apply str_prefix_app].
  revert s. induction p as [|a p IH]; intros s; cbn; [by intros [= ->]|].
  destruct s as [|b s]; [done|]. destruct (Ascii.eqb_spec a b) as [->|]; [|done].
  intros ->%IH. done.
Qed.

(** Joins the pieces with a separator, [Array.prototype.join]. *)
Fixpoint str_join (sep : string) (l : list string) : string :=
  match l with
  | [] => ""
  | [s] => s
  | s :: l' => s +:+ sep +:+ str_join sep l'
  end.

Lemma str_join_cons sep s t l :
  str_join sep (s :: t :: l) = s +:+ sep +:+ str_join sep (t :: l).
Proof. done. Qed.

(** ** Decimal numerals *)

Definition is_digit (a : ascii) : bool :=
  let n := Ascii.nat_of_ascii a in (48 <=? n)%nat && (n <=? 57)%nat.

(** The value of a decimal digit. *)
Definition digit_val (a : ascii) : Z := Z.of_nat (Ascii.nat_of_ascii a) - 48.

Definition string_of_Z (z : Z) : string := NilZero.string_of_int (Z.to_int z).

Lemma Z_to_int_nonnil z :
  Z.to_int z <> Decimal.Pos Decimal.Nil /\ Z.to_int z <> Decimal.Neg Decimal.Nil.
Proof.
  pose proof (DecimalZ.to_of (Z.to_int z)) as Ht. rewrite DecimalZ.of_to in Ht.
  split; intros Hz; rewrite Hz in Ht; by vm_compute in Ht.
Qed.

(** Reads back an integer literal, the inverse of [string_of_Z]. *)
Definition Z_of_string (s : string) : option Z := Z.of_int <$> NilZero.int_of_string s.

Lemma Z_of_string_of_Z z : Z_of_string (string_of_Z z) = Some z.
Proof.
  unfold Z_of_string, string_of_Z.
  rewrite NilZero.isi by apply Z_to_int_nonnil. cbn. by rewrite DecimalZ.of_to.
Qed.

Lemma string_of_Z_inj z1 z2 : string_of_Z z1 = string_of_Z z2 -> z1 = z2.
Proof.
  intros H. apply (f_equal Z_of_string) in H.
  rewrite !Z_of_string_of_Z in H. by simplify_eq.
Qed.

Lemma string_of_uint_digits d : str_forall is_digit (NilEmpty.string_of_uint d) = true.
Proof. induction d; cbn; [done| ..]; by rewrite IHd. Qed.

(** The decimal form of a natural number is a non-empty run of digits. *)
Lemma string_of_Z_digits z : 0 <= z -> str_forall is_digit (string_of_Z z) = true.
Proof.
  intros Hz. unfold string_of_Z. destruct z as [|p|p]; [done| |lia]. cbn.
  destruct (Pos.to_uint p) eqn:E; cbn; try done; apply string_of_uint_digits.
Qed.

Lemma string_of_Z_neg p : string_of_Z (Z.neg p) = String "-" (string_of_Z (Z.pos p)).
Proof. done. Qed.

Lemma string_of_Z_nonempty z : string_of_Z z <> "".
Proof.
  unfold string_of_Z. destruct (Z.to_int z) as [u|u]; [|done].
  by destruct u.
Qed.

(** ** Lists *)

(** The chunks of a list, one after the other. *)
Lemma chunks {A : Type} (l : list A) m q :
  concat ((fun i => take m (drop (i * m) l)) <$> seq 0 q) = take (q * m) l.
Proof.
  induction q as [|q IH]; [done|]. rewrite seq_S, fmap_app, concat_app, IH. cbn. rewrite app_nil_r.
  replace (m + q * m)%nat with (q * m + m)%nat by lia. by rewrite take_take_drop.
Qed.

Lemma list_filter_all {A : Type} (P : A -> Prop) `{!forall x, Decision (P x)} (l : list A) :
  (forall x, x ∈ l -> P x) -> filter P l = l.
Proof.
  induction l as [|x l IH]; intros Hl; [done|].
  rewrite filter_cons_True by (apply Hl; left). f_equal. apply IH. intros y Hy. apply Hl. by right.
Qed.

(** [List.filter] with a boolean test that reflects [P]. *)
Lemma bool_filter_spec {A : Type} (P : A -> Prop) `{!forall x, Decision (P x)} (f : A -> bool) (l : list A) :
  (forall x, x ∈ l -> f x = true <-> P x) -> List.filter f l = filter P l.
Proof.
  induction l as [|x l IH]; intros Hl; [done|]. cbn [List.filter].
  rewrite filter_cons. rewrite IH by (intros y Hy; apply Hl; by right).
  pose proof (Hl x ltac:(left)) as [H1 H2].
  destruct (f x), (decide (P x)); try done; exfalso; [by auto|]. by discriminate H2.
Qed.
