(* ===== verification/JsValue.v ===== *)
(** * JavaScript values

    The values the console scripts compute with and the operators of the
    language they use: truthiness, [===], [==], [>], string conversion,
    property access, [parseInt], [indexOf], [replace] with a string pattern,
    and jQuery's [trim].

    Strings are the UTF-8 encodings of the scripts' strings, so literals of
    the source appear verbatim.  Numbers are the integers and [NaN]: the
    scripts never compute with fractions (the one division of the code base,
    the page number of the server-side tables, is modelled over the rationals
    where it occurs), and a numeral with a fraction, an exponent or a radix
    prefix is outside the domain of [str_to_number].  Objects are association
    lists in insertion order, the order [JSON.stringify] and [for-in] see. *)

From S2P Require Import Prelude.
From Stdlib Require Import Ascii.

Inductive number : Type :=
| Fin (z : Z)
| NaN.

Unset Elimination Schemes.
Inductive val : Type :=
| Undef
| Null
| Bool (b : bool)
| Num (n : number)
| Str (s : string)
| Arr (l : list val)
| Obj (fs : list (string * val)).
Set Elimination Schemes.

(** Induction on values, with the hypothesis for every element and field. *)
Section val_ind.
Context (P : val -> Prop).
Context (Hundef : P Undef) (Hnull : P Null) (Hbool : forall b, P (Bool b))
  (Hnum : forall n, P (Num n)) (Hstr : forall s, P (Str s))
  (Harr : forall l, Forall P l -> P (Arr l))
  (Hobj : forall fs, Forall (fun kv => P kv.2) fs -> P (Obj fs)).

Fixpoint val_ind (v : val) : P v :=
  match v with
  | Undef => Hundef
  | Null => Hnull
  | Bool b => Hbool b
  | Num n => Hnum n
  | Str s => Hstr s
  | Arr l =>
      Harr l ((fix go (l : list val) : Forall P l :=
        match l with
        | [] => Forall_nil_2 _
        | w :: l' => Forall_cons_2 _ _ _ (val_ind w) (go l')
        end) l)
  | Obj fs =>
      Hobj fs ((fix go (fs : list (string * val)) : Forall (fun kv => P kv.2) fs :=
        match fs with
        | [] => Forall_nil_2 _
        | kv :: fs' => Forall_cons_2 (fun kv => P kv.2) kv fs' (val_ind kv.2) (go fs')
        end) fs)
  end.
End val_ind.

(** Integer literals. *)
Definition int (z : Z) : val := Num (Fin z).

#[export] Instance number_eq_dec : EqDecision number.
Proof. solve_decision. Defined.

(** ** Conversions *)

(** ToBoolean. *)
Definition truthy (v : val) : bool :=
  match v with
  | Undef | Null => false
  | Bool b => b
  | Num (Fin z) => negb (z =? 0)
  | Num NaN => false
  | Str s => negb (String.eqb s "")
  | Arr _ | Obj _ => true
  end.

(** [a || b] and [!a]. *)
Definition or_else (a b : val) : val := if truthy a then a else b.
Definition js_not (a : val) : val := Bool (negb (truthy a)).

Definition num_to_str (n : number) : string :=
  match n with Fin z => string_of_Z z | NaN => "NaN" end.

(** ToString; arrays join their elements with commas, with nothing for the
    elements that are [undefined] or [null]. *)
Fixpoint to_str (v : val) : string :=
  match v with
  | Undef => "undefined"
  | Null => "null"
  | Bool true => "true"
  | Bool false => "false"
  | Num n => num_to_str n
  | Str s => s
  | Arr l =>
      str_join "," (List.map (fun w => match w with Undef | Null => "" | _ => to_str w end) l)
  | Obj _ => "[object Object]"
  end.

(** White space of [\s], with the no-break space and the byte-order mark that
    jQuery's [trim] adds: the ASCII controls and blank, and the UTF-8 forms of
    U+00A0, U+FEFF, U+1680, U+2000-200A, U+2028, U+2029, U+202F, U+205F and
    U+3000.  [ws_prefix s] is the rest of [s] after one such character. *)
Definition byte (a : ascii) : nat := Ascii.nat_of_ascii a.

Definition ws_ascii (a : ascii) : bool :=
  ((9 <=? byte a) && (byte a <=? 13) || (byte a =? 32))%nat.

Definition ws_two (a b : ascii) : bool := ((byte a =? 194) && (byte b =? 160))%nat.

Definition ws_three (a b c : ascii) : bool :=
  ((byte a =? 239) && (byte b =? 187) && (byte c =? 191)
  || (byte a =? 225) && (byte b =? 154) && (byte c =? 128)
  || (byte a =? 226) && (byte b =? 128)
       && ((128 <=? byte c) && (byte c <=? 138)
           || (byte c =? 168) || (byte c =? 169) || (byte c =? 175))
  || (byte a =? 226) && (byte b =? 129) && (byte c =? 159)
  || (byte a =? 227) && (byte b =? 128) && (byte c =? 128))%nat.

Fixpoint trim_left (s : string) : string :=
  match s with
  | EmptyString => ""
  | String a s1 =>
      if ws_ascii a then trim_left s1 else
      match s1 with
      | EmptyString => s
      | String b s2 =>
          if ws_two a b then trim_left s2 else
          match s2 with
          | EmptyString => s
          | String c s3 => if ws_three a b c then trim_left s3 else s
          end
      end
  end.

(** All the characters of [s] are white space. *)
Definition all_ws (s : string) : bool := String.eqb (trim_left s) "".

Fixpoint trim_right (s : string) : string :=
  if all_ws s then "" else
  match s with
  | EmptyString => ""
  | String a s' => String a (trim_right s')
  end.

(** [$.trim] on strings. *)
Definition trim (s : string) : string := trim_right (trim_left s).

(** An optionally signed run of decimal digits. *)
Definition unsigned_of_string (s : string) : option Z :=
  if str_forall is_digit s then Z_of_string s else None.

Definition signed_of_string (s : string) : option Z :=
  match s with
  | String "-" s' => Z.opp <$> unsigned_of_string s'
  | String "+" s' => unsigned_of_string s'
  | _ => unsigned_of_string s
  end.

(** ToNumber on strings (integers). *)
Definition str_to_number (s : string) : number :=
  let t := trim s in
  if String.eqb t "" then Fin 0
  else match signed_of_string t with Some z => Fin z | None => NaN end.

(** ToNumber. *)
Definition to_number (v : val) : number :=
  match v with
  | Undef => NaN
  | Null => Fin 0
  | Bool true => Fin 1
  | Bool false => Fin 0
  | Num n => n
  | Str s => str_to_number s
  | Arr _ | Obj _ => str_to_number (to_str v)
  end.

(** ** Comparisons *)

Definition num_eqb (m n : number) : bool :=
  match m, n with Fin x, Fin y => x =? y | _, _ => false end.

(** [===]; two object references of the model are never the same object. *)
Definition strict_eq (a b : val) : bool :=
  match a, b with
  | Undef, Undef | Null, Null => true
  | Bool x, Bool y => Bool.eqb x y
  | Num m, Num n => num_eqb m n
  | Str s, Str t => String.eqb s t
  | _, _ => false
  end.

(** [==]. *)
Definition loose_eq (a b : val) : bool :=
  match a, b with
  | (Undef | Null), (Undef | Null) => true
  | (Undef | Null), _ | _, (Undef | Null) => false
  | Str s, Str t => String.eqb s t
  | (Arr _ | Obj _), (Arr _ | Obj _) => false
  | Str s, (Arr _ | Obj _) => String.eqb s (to_str b)
  | (Arr _ | Obj _), Str t => String.eqb (to_str a) t
  | _, _ => num_eqb (to_number a) (to_number b)
  end.

(** [a > b]: by code unit on two strings, by value otherwise. *)
Definition js_gt (a b : val) : bool :=
  match a, b with
  | Str s, Str t => String.ltb t s
  | _, _ =>
      match to_number a, to_number b with
      | Fin x, Fin y => y <? x
      | _, _ => false
      end
  end.

Definition js_lt (a b : val) : bool := js_gt b a.

(** ** Properties *)

Fixpoint assoc (k : string) (fs : list (string * val)) : option val :=
  match fs with
  | [] => None
  | (k', v) :: fs' => if String.eqb k k' then Some v else assoc k fs'
  end.

(** [o.k]: [None] is the TypeError of [undefined] and [null]. *)
Definition get_prop (v : val) (k : string) : option val :=
  match v with
  | Undef | Null => None
  | Obj fs => Some (default Undef (assoc k fs))
  | Arr l => Some (if String.eqb k "length" then int (Z.of_nat (length l)) else Undef)
  | Str s => Some (if String.eqb k "length" then int (Z.of_nat (String.length s)) else Undef)
  | Bool _ | Num _ => Some Undef
  end.

(** [o.k = v] on the fields of an object: in place, or at the end. *)
Fixpoint assoc_set (k : string) (v : val) (fs : list (string * val)) : list (string * val) :=
  match fs with
  | [] => [(k, v)]
  | (k', w) :: fs' =>
      if String.eqb k k' then (k', v) :: fs' else (k', w) :: assoc_set k v fs'
  end.

Definition set_prop (k : string) (v : val) (o : val) : val :=
  match o with Obj fs => Obj (assoc_set k v fs) | _ => o end.

(** The field of a row object, [undefined] where it is absent. *)
Definition field (v : val) (k : string) : val := default Undef (get_prop v k).

Lemma assoc_set_eq k v fs : assoc k (assoc_set k v fs) = Some v.
Proof.
  induction fs as [|[k' w] fs IH]; cbn; [by rewrite String.eqb_refl|].
  destruct (String.eqb k k') eqn:E; cbn; by rewrite E.
Qed.

Lemma assoc_set_ne k k' v fs : k <> k' -> assoc k' (assoc_set k v fs) = assoc k' fs.
Proof.
  intros Hne. induction fs as [|[k2 w] fs IH]; cbn.
  - destruct (String.eqb_spec k' k); congruence.
  - destruct (String.eqb_spec k k2) as [->|]; cbn.
    + destruct (String.eqb_spec k' k2); congruence.
    + by rewrite IH.
Qed.

Lemma field_set_eq k v fs : field (set_prop k v (Obj fs)) k = v.
Proof. unfold field; cbn. by rewrite assoc_set_eq. Qed.

Lemma field_set_ne k k' v o : k <> k' -> field (set_prop k v o) k' = field o k'.
Proof.
  intros Hne. destruct o; try done. unfold field; cbn. by rewrite assoc_set_ne.
Qed.

(** ** Strings *)

(** [s.indexOf(t)], as a position or [None] for -1. *)
Fixpoint index_of (t s : string) : option nat :=
  match str_prefix t s with
  | Some _ => Some 0%nat
  | None =>
      match s with
      | EmptyString => None
      | String _ s' => S <$> index_of t s'
      end
  end.

(** [s.replace(t, r)] with a string pattern: the first occurrence only. *)
Fixpoint replace_first (t r s : string) : string :=
  match str_prefix t s with
  | Some rest => r +:+ rest
  | None =>
      match s with
      | EmptyString => ""
      | String a s' => String a (replace_first t r s')
      end
  end.

(** [s.substring(i)], counted in bytes. *)
Fixpoint str_drop (n : nat) (s : string) : string :=
  match n, s with
  | O, _ => s
  | S n', String _ s' => str_drop n' s'
  | S _, EmptyString => ""
  end.

(** [s.toLowerCase()], on the ASCII letters. *)
Definition lower_ascii (a : ascii) : ascii :=
  let n := byte a in
  if ((65 <=? n) && (n <=? 90))%nat then Ascii.ascii_of_nat (n + 32) else a.

Fixpoint to_lower (s : string) : string :=
  match s with
  | EmptyString => ""
  | String a s' => String (lower_ascii a) (to_lower s')
  end.

(** The longest prefix of digits. *)
Fixpoint take_digits (s : string) : string :=
  match s with
  | String a s' => if is_digit a then String a (take_digits s') else ""
  | EmptyString => ""
  end.

(** Value of a run of digits, most significant first. *)
Fixpoint horner (acc : Z) (s : string) : Z :=
  match s with
  | String a s' => horner (10 * acc + digit_val a) s'
  | EmptyString => acc
  end.

Definition parse_nat_prefix (s : string) : number :=
  match take_digits s with
  | EmptyString => NaN
  | d => Fin (horner 0 d)
  end.

(** [parseInt(s)] on decimal text: leading white space, a sign, the longest
    run of digits; the text after it is ignored. *)
Definition parse_int_str (s : string) : number :=
  match trim_left s with
  | String "-" s' =>
      match parse_nat_prefix s' with Fin z => Fin (- z) | NaN => NaN end
  | String "+" s' => parse_nat_prefix s'
  | t => parse_nat_prefix t
  end.

Definition parse_int (v : val) : val := Num (parse_int_str (to_str v)).

(** ** Facts *)

Lemma strict_eq_int v z : strict_eq v (int z) = true <-> v = int z.
Proof.
  split; [|intros ->; cbn; apply Z.eqb_refl].
  destruct v as [| | |[x|]| | |]; cbn; try done. intros ->%Z.eqb_eq. done.
Qed.

Lemma truthy_js_not v : truthy (js_not v) = negb (truthy v).
Proof. done. Qed.

Lemma index_of_Some t s :
  is_Some (index_of t s) <-> exists s1 s2, s = s1 +:+ t +:+ s2.
Proof.
  split.
  - induction s as [|a s IH]; cbn; destruct (str_prefix t _) as [r|] eqn:E.
    + intros _. apply str_prefix_Some in E as ->. by exists "", r.
    + by intros [? ?].
    + intros _. apply str_prefix_Some in E as ->. by exists "", r.
    + intros Hs. destruct (index_of t s) as [n|] eqn:En; [|by destruct Hs].
      destruct IH as (s1 & s2 & ->); [done|]. by exists (String a s1), s2.
  - intros (s1 & s2 & ->). induction s1 as [|a s1 IH].
    + rewrite str_app_nil_l. pose proof (str_prefix_app t s2) as Hp.
      destruct (t +:+ s2); cbn; by rewrite Hp.
    + rewrite str_app_cons. cbn. destruct (str_prefix t _); [done|].
      by rewrite fmap_is_Some.
Qed.

Lemma index_of_char c s : is_Some (index_of (String c "") s) <-> has_char c s = true.
Proof.
  induction s as [|a s IH]; cbn.
  - split; [by intros [? ?]|done].
  - rewrite has_char_cons. destruct (Ascii.eqb_spec c a) as [->|Hne].
    + rewrite Ascii.eqb_refl. by destruct s.
    + rewrite fmap_is_Some, IH. by destruct (Ascii.eqb_spec a c); [congruence|].
Qed.

(** Kept folded by [cbn]: their unfoldings on open terms are large. *)
#[global] Arguments trim : simpl never.
#[global] Arguments trim_left : simpl never.
#[global] Arguments trim_right : simpl never.
#[global] Arguments str_to_number : simpl never.
#[global] Arguments parse_int_str : simpl never.
#[global] Arguments to_str : simpl never.
#[global] Arguments string_of_Z : simpl never.
#[global] Arguments Z_of_string : simpl never.
