(* ===== verification/Json.v ===== *)
(** * JSON

    [JSON.stringify], which the pages use to pack lists and objects into form
    fields, and the reader of its output.  [json_round_trip] shows that the
    reader recovers every value the printer can express. *)

From S2P Require Import Prelude JsValue.
From Stdlib Require Import Ascii.

(** ** Printing *)

Definition hex_digit (n : nat) : ascii :=
  if (n <? 10)%nat then Ascii.ascii_of_nat (48 + n) else Ascii.ascii_of_nat (87 + n).

(** The escape of one character of a string literal. *)
Definition escape_char (a : ascii) : string :=
  let n := byte a in
  if (n =? 34)%nat then String backslash (String dquote "")
  else if (n =? 92)%nat then String backslash (String backslash "")
  else if (n =? 8)%nat then String backslash "b"
  else if (n =? 9)%nat then String backslash "t"
  else if (n =? 10)%nat then String backslash "n"
  else if (n =? 12)%nat then String backslash "f"
  else if (n =? 13)%nat then String backslash "r"
  else if (n <? 32)%nat then
    String backslash
      ("u00" +:+ String (hex_digit (n / 16)) (String (hex_digit (n mod 16)) ""))
  else String a "".

Fixpoint escape (s : string) : string :=
  match s with
  | EmptyString => ""
  | String a s' => escape_char a +:+ escape s'
  end.

Definition quote (s : string) : string := dq +:+ escape s +:+ dq.

(** [JSON.stringify]: [None] for [undefined]; fields that are [undefined] are
    left out, array elements that are [undefined] and [NaN] become [null]. *)
Fixpoint stringify (v : val) : option string :=
  match v with
  | Undef => None
  | Null => Some "null"
  | Bool true => Some "true"
  | Bool false => Some "false"
  | Num (Fin z) => Some (string_of_Z z)
  | Num NaN => Some "null"
  | Str s => Some (quote s)
  | Arr l =>
      Some ("[" +:+ str_join "," (List.map (fun w => default "null" (stringify w)) l) +:+ "]")
  | Obj fs =>
      Some ("{" +:+ str_join ","
        ((fix go (fs : list (string * val)) : list string :=
            match fs with
            | [] => []
            | (k, w) :: fs' =>
                match stringify w with
                | Some t => (quote k +:+ ":" +:+ t) :: go fs'
                | None => go fs'
                end
            end) fs) +:+ "}")
  end.

(** The value of the expression [JSON.stringify(v)]. *)
Definition json (v : val) : val :=
  match stringify v with Some s => Str s | None => Undef end.

(** ** Reading *)

Definition hex_val (a : ascii) : option nat :=
  let n := byte a in
  if ((48 <=? n) && (n <=? 57))%nat then Some (n - 48)%nat
  else if ((97 <=? n) && (n <=? 102))%nat then Some (n - 87)%nat
  else None.

Definition cons_char (a : ascii) (r : option (string * string)) : option (string * string) :=
  match r with Some (s, rest) => Some (String a s, rest) | None => None end.

(** Reads the characters of a literal up to its closing quote. *)
Fixpoint read_chars (s : string) : option (string * string) :=
  match s with
  | EmptyString => None
  | String a s1 =>
      if Ascii.eqb a dquote then Some ("", s1)
      else if Ascii.eqb a backslash then
        match s1 with
        | EmptyString => None
        | String b s2 =>
            if Ascii.eqb b dquote then cons_char dquote (read_chars s2)
            else if Ascii.eqb b backslash then cons_char backslash (read_chars s2)
            else if Ascii.eqb b "b" then cons_char "008" (read_chars s2)
            else if Ascii.eqb b "t" then cons_char "009" (read_chars s2)
            else if Ascii.eqb b "n" then cons_char "010" (read_chars s2)
            else if Ascii.eqb b "f" then cons_char "012" (read_chars s2)
            else if Ascii.eqb b "r" then cons_char "013" (read_chars s2)
            else if Ascii.eqb b "u" then
              match s2 with
              | String "0" (String "0" (String c (String d s3))) =>
                  match hex_val c, hex_val d with
                  | Some x, Some y =>
                      cons_char (Ascii.ascii_of_nat (16 * x + y)) (read_chars s3)
                  | _, _ => None
                  end
              | _ => None
              end
            else None
        end
      else cons_char a (read_chars s1)
  end.

(** The rest of a text after the run of digits it starts with. *)
Fixpoint drop_digits (s : string) : string :=
  match s with
  | String a s' => if is_digit a then drop_digits s' else s
  | EmptyString => ""
  end.

Definition read_number (s : string) : option (Z * string) :=
  match s with
  | String "-" s' =>
      z ← Z_of_string (take_digits s'); Some (- z, drop_digits s')
  | _ => z ← Z_of_string (take_digits s); Some (z, drop_digits s)
  end.

(** [read n s] reads one value; [n] bounds the nesting and the lengths. *)
Fixpoint read (n : nat) (s : string) : option (val * string) :=
  match n with
  | O => None
  | S n' =>
      match s with
      | String "n" _ => rest ← str_prefix "null" s; Some (Null, rest)
      | String "t" _ => rest ← str_prefix "true" s; Some (Bool true, rest)
      | String "f" _ => rest ← str_prefix "false" s; Some (Bool false, rest)
      | String "[" (String "]" s1) => Some (Arr [], s1)
      | String "[" s1 => '(l, rest) ← read_items n' s1; Some (Arr l, rest)
      | String "{" (String "}" s1) => Some (Obj [], s1)
      | String "{" s1 => '(fs, rest) ← read_fields n' s1; Some (Obj fs, rest)
      | String a s1 =>
          if Ascii.eqb a dquote then '(t, rest) ← read_chars s1; Some (Str t, rest)
          else '(z, rest) ← read_number s; Some (int z, rest)
      | EmptyString => None
      end
  end
with read_items (n : nat) (s : string) : option (list val * string) :=
  match n with
  | O => None
  | S n' =>
      '(v, rest) ← read n' s;
      match rest with
      | String "," s1 => '(l, rest') ← read_items n' s1; Some (v :: l, rest')
      | String "]" s1 => Some ([v], s1)
      | _ => None
      end
  end
with read_fields (n : nat) (s : string) : option (list (string * val) * string) :=
  match n with
  | O => None
  | S n' =>
      match s with
      | String a s1 =>
          if Ascii.eqb a dquote then
            '(k, rest) ← read_chars s1;
            match rest with
            | String ":" s2 =>
                '(v, rest') ← read n' s2;
                match rest' with
                | String "," s3 => '(fs, rest'') ← read_fields n' s3; Some ((k, v) :: fs, rest'')
                | String "}" s3 => Some ([(k, v)], s3)
                | _ => None
                end
            | _ => None
            end
          else None
      | EmptyString => None
      end
  end.

(** [JSON.parse] on the printer's output. *)
Definition parse (s : string) : option val :=
  match read (S (String.length s)) s with
  | Some (v, EmptyString) => Some v
  | _ => None
  end.

(** ** Round trip *)

(** The values JSON can express: no [undefined] and no [NaN] inside. *)
Fixpoint clean (v : val) : bool :=
  match v with
  | Undef | Num NaN => false
  | Arr l => forallb clean l
  | Obj fs =>
      (fix go (fs : list (string * val)) : bool :=
         match fs with [] => true | (_, w) :: fs' => clean w && go fs' end) fs
  | _ => true
  end.

Lemma dq_app s : dq +:+ s = String dquote s.
Proof. done. Qed.

Lemma read_chars_escape_char a u :
  read_chars (escape_char a +:+ u) = cons_char a (read_chars u).
Proof. destruct a as [[] [] [] [] [] [] [] []]; reflexivity. Qed.

Lemma read_chars_quote s u : read_chars (escape s +:+ String dquote u) = Some (s, u).
Proof.
  induction s as [|a s IH]; [done|]. cbn [escape].
  by rewrite str_app_assoc, read_chars_escape_char, IH.
Qed.

Definition starts_number (a : ascii) : bool := is_digit a || Ascii.eqb a "-".

Lemma read_number_case n a s :
  starts_number a = true ->
  read (S n) (String a s) = ('(z, rest) ← read_number (String a s); Some (int z, rest)).
Proof. by destruct a as [[] [] [] [] [] [] [] []]. Qed.

Lemma read_items_case n a s :
  Ascii.eqb a "]" = false ->
  read (S n) (String "[" (String a s)) =
    ('(l, rest) ← read_items n (String a s); Some (Arr l, rest)).
Proof. by destruct a as [[] [] [] [] [] [] [] []]. Qed.

Lemma read_fields_case n s :
  read (S n) (String "{" (String dquote s)) =
    ('(fs, rest) ← read_fields n (String dquote s); Some (Obj fs, rest)).
Proof. done. Qed.

(** A text after which a numeral ends. *)
Definition stops (s : string) : Prop :=
  match s with EmptyString => True | String a _ => is_digit a = false end.

Lemma take_digits_app d s : str_forall is_digit d = true -> stops s -> take_digits (d +:+ s) = d.
Proof.
  intros Hd Hs. induction d as [|a d IH].
  - rewrite str_app_nil_l. destruct s as [|b s]; [done|]. cbn in *. by rewrite Hs.
  - cbn in Hd. apply andb_true_iff in Hd as [Ha Hd].
    rewrite str_app_cons. cbn. by rewrite Ha, IH.
Qed.

Lemma drop_digits_app d s : str_forall is_digit d = true -> stops s -> drop_digits (d +:+ s) = s.
Proof.
  intros Hd Hs. induction d as [|a d IH].
  - rewrite str_app_nil_l. destruct s as [|b s]; [done|]. cbn in *. by rewrite Hs.
  - cbn in Hd. apply andb_true_iff in Hd as [Ha Hd].
    rewrite str_app_cons. cbn. by rewrite Ha, IH.
Qed.

Lemma string_of_Z_first z : exists a s, string_of_Z z = String a s /\ starts_number a = true.
Proof.
  destruct (string_of_Z z) as [|a s] eqn:E; [by apply string_of_Z_nonempty in E|].
  exists a, s. split; [done|]. unfold starts_number.
  destruct (Z.leb_spec 0 z) as [Hz|Hz].
  - pose proof (string_of_Z_digits z Hz) as Hd. rewrite E in Hd. cbn in Hd.
    apply andb_true_iff in Hd as [-> _]. done.
  - destruct z as [|p|p]; [lia|lia|]. rewrite string_of_Z_neg in E. simplify_eq. done.
Qed.

Lemma read_number_digits s :
  starts_number (hd "000"%char (String.list_ascii_of_string s)) = true ->
  Ascii.eqb (hd "000"%char (String.list_ascii_of_string s)) "-" = false ->
  read_number s = (z ← Z_of_string (take_digits s); Some (z, drop_digits s)).
Proof.
  destruct s as [|a s]; [done|]. cbn [String.list_ascii_of_string hd].
  intros Ha Hm. by destruct a as [[] [] [] [] [] [] [] []].
Qed.

Lemma read_number_string_of_Z z u : stops u -> read_number (string_of_Z z +:+ u) = Some (z, u).
Proof.
  intros Hu. destruct z as [|p|p].
  - change (string_of_Z 0) with "0". rewrite str_app_cons, str_app_nil_l.
    rewrite read_number_digits by done.
    change (String "0" u) with ("0" +:+ u).
    rewrite take_digits_app, drop_digits_app by done. done.
  - pose proof (string_of_Z_digits (Z.pos p) ltac:(lia)) as Hd.
    rewrite read_number_digits.
    + rewrite take_digits_app, drop_digits_app by done. by rewrite Z_of_string_of_Z.
    + destruct (string_of_Z_first (Z.pos p)) as (a & s & -> & Ha). done.
    + destruct (string_of_Z (Z.pos p)) as [|a s] eqn:E; [by apply string_of_Z_nonempty in E|].
      cbn in *. apply andb_true_iff in Hd as [Hd _].
      by destruct a as [[] [] [] [] [] [] [] []].
  - rewrite string_of_Z_neg, str_app_cons. cbn [read_number].
    pose proof (string_of_Z_digits (Z.pos p) ltac:(lia)) as Hd.
    rewrite take_digits_app, drop_digits_app by done. by rewrite Z_of_string_of_Z.
Qed.

(** The fields of an object as [stringify] prints them. *)
Fixpoint field_texts (fs : list (string * val)) : list string :=
  match fs with
  | [] => []
  | (k, w) :: fs' =>
      match stringify w with
      | Some t => (quote k +:+ ":" +:+ t) :: field_texts fs'
      | None => field_texts fs'
      end
  end.

Definition item_text (w : val) : string := default "null" (stringify w).

Lemma stringify_Arr l :
  stringify (Arr l) = Some ("[" +:+ str_join "," (List.map item_text l) +:+ "]").
Proof. done. Qed.

Lemma stringify_Obj fs :
  stringify (Obj fs) = Some ("{" +:+ str_join "," (field_texts fs) +:+ "}").
Proof. done. Qed.

(** [reads v]: the reader recovers [v] from its text, whatever follows. *)
Definition reads (v : val) : Prop :=
  clean v = true ->
  exists t, stringify v = Some t /\
    (exists a s, t = String a s /\ Ascii.eqb a "]" = false) /\
    forall n u, (String.length t < n)%nat -> stops u -> read n (t +:+ u) = Some (v, u).

Lemma reads_text v :
  reads v -> clean v = true ->
  exists a s, item_text v = String a s /\ stringify v = Some (String a s) /\
    Ascii.eqb a "]" = false /\
    forall n u, (String.length (String a s) < n)%nat -> stops u ->
      read n (String a s +:+ u) = Some (v, u).
Proof.
  intros Hv Hc. destruct (Hv Hc) as (t & Et & (a & s & -> & Ha) & Hr).
  exists a, s. unfold item_text. by rewrite Et.
Qed.

Lemma read_items_texts l :
  l <> [] -> Forall reads l -> forallb clean l = true ->
  forall n u, (S (String.length (str_join "," (List.map item_text l))) < n)%nat ->
    read_items n (str_join "," (List.map item_text l) +:+ String "]" u) = Some (l, u).
Proof.
  intros Hne Hl. induction Hl as [|v l Hv Hl IH]; [done|]. clear Hne.
  cbn [forallb]. intros [Hc Hcl]%andb_true_iff.
  destruct (reads_text v Hv Hc) as (a & s & Et & _ & _ & Hr).
  cbn [List.map]. rewrite Et. intros [|n] u Hn; [lia|].
  destruct l as [|w l].
  - cbn in Hn |- *. rewrite Hr by (cbn; done || lia). done.
  - change (List.map item_text (w :: l)) with (item_text w :: List.map item_text l) in *.
    rewrite str_join_cons in *. rewrite !str_length_app in Hn. cbn [String.length] in Hn.
    rewrite !str_app_assoc. cbn [read_items]. rewrite Hr by (cbn [String.length]; done || lia).
    rewrite str_app_cons, str_app_nil_l. cbn [mbind option_bind].
    by rewrite (IH ltac:(done) Hcl) by lia.
Qed.

Lemma read_fields_texts fs :
  fs <> [] -> Forall (fun kv => reads kv.2) fs -> clean (Obj fs) = true ->
  forall n u, (S (String.length (str_join "," (field_texts fs))) < n)%nat ->
    read_fields n (str_join "," (field_texts fs) +:+ String "}" u) = Some (fs, u).
Proof.
  intros Hne Hl. induction Hl as [|[k v] fs Hv Hl IH]; [done|]. clear Hne.
  intros [Hc Hcl]%andb_true_iff.
  destruct (reads_text v Hv Hc) as (a & s & _ & Et & _ & Hr).
  cbn [field_texts]. rewrite Et. intros [|n] u Hn; [lia|].
  assert (exists T, field_texts fs = T /\ (fs = [] <-> T = [])) as (T & ET & HT).
  { exists (field_texts fs). split; [done|]. destruct fs as [|[k' v'] fs]; [done|].
    apply andb_true_iff in Hcl as [Hc' _]. apply Forall_cons_1 in Hl as [Hv' _].
    destruct (reads_text v' Hv' Hc') as (a' & s' & _ & Et' & _). cbn. by rewrite Et'. }
  rewrite ET in *. destruct T as [|t T].
  - destruct fs; [|discriminate (proj2 HT eq_refl)]. cbn [str_join] in *. unfold quote in *.
    rewrite !str_length_app in Hn. cbn [String.length] in Hn.
    rewrite !str_app_assoc, !dq_app.
    cbn [read_fields]. rewrite Ascii.eqb_refl.
    rewrite read_chars_quote. cbn [mbind option_bind].
    rewrite str_app_cons, str_app_nil_l, Hr by (cbn; done || lia). done.
  - rewrite str_join_cons in *. unfold quote in *.
    rewrite !str_length_app in Hn. cbn [String.length] in Hn.
    rewrite !str_app_assoc, !dq_app.
    cbn [read_fields]. rewrite Ascii.eqb_refl.
    rewrite read_chars_quote. cbn [mbind option_bind].
    rewrite str_app_cons, str_app_nil_l, Hr by (cbn [String.length]; done || lia).
    rewrite str_app_cons, str_app_nil_l. cbn [mbind option_bind]. rewrite (IH ltac:(by intros Hfs; apply HT in Hfs) Hcl) by lia. done.
Qed.

Lemma field_texts_first k v fs :
  reads v -> clean v = true ->
  exists s, str_join "," (field_texts ((k, v) :: fs)) = String dquote s.
Proof.
  intros Hv Hc. destruct (reads_text v Hv Hc) as (a & s & _ & Et & _).
  cbn [field_texts]. rewrite Et. unfold quote.
  destruct (field_texts fs); [|rewrite str_join_cons]; cbn [str_join];
    rewrite !str_app_assoc, !dq_app; eauto.
Qed.

Lemma reads_Arr l : Forall reads l -> reads (Arr l).
Proof.
  intros Hl Hc. rewrite stringify_Arr. eexists. split_and!; [done|by eexists _, _|].
  destruct l as [|v l].
  - intros [|n] u Hn _; [lia|done].
  - intros [|n] u Hn _; [lia|]. rewrite !str_length_app in Hn. cbn [String.length] in Hn.
    rewrite !str_app_assoc, !str_app_cons, !str_app_nil_l.
    pose proof (read_items_texts (v :: l) ltac:(done) Hl Hc n u ltac:(lia)) as Hr.
    assert (exists a s, str_join "," (List.map item_text (v :: l)) = String a s /\
              Ascii.eqb a "]" = false) as (a & s & E & Ha).
    { apply Forall_cons_1 in Hl as [Hv _]. apply andb_true_iff in Hc as [Hc _].
      destruct (reads_text v Hv Hc) as (a & s & Et & _ & Ha & _). cbn [List.map].
      rewrite Et. destruct (List.map item_text l); [cbn; eauto|].
      rewrite str_join_cons, str_app_cons. eauto. }
    rewrite E, !str_app_cons in *. rewrite read_items_case by done. by rewrite Hr.
Qed.

Lemma reads_Obj fs : Forall (fun kv => reads kv.2) fs -> reads (Obj fs).
Proof.
  intros Hl Hc. rewrite stringify_Obj. eexists. split_and!; [done|by eexists _, _|].
  destruct fs as [|[k v] fs].
  - intros [|n] u Hn _; [lia|done].
  - intros [|n] u Hn _; [lia|]. rewrite !str_length_app in Hn. cbn [String.length] in Hn.
    rewrite !str_app_assoc, !str_app_cons, !str_app_nil_l.
    pose proof (read_fields_texts ((k, v) :: fs) ltac:(done) Hl Hc n u ltac:(lia)) as Hr.
    apply Forall_cons_1 in Hl as [Hv _]. apply andb_true_iff in Hc as [Hc _].
    destruct (field_texts_first k v fs Hv Hc) as [s E].
    rewrite E, !str_app_cons in *. rewrite read_fields_case. by rewrite Hr.
Qed.

Lemma reads_all v : reads v.
Proof.
  induction v as [| |b|[z|]|s|l IH|fs IH] using val_ind; intros Hc; try done.
  - eexists. split_and!; [done|by eexists _, _|]. intros [|n] u; [lia|done].
  - exists (if b then "true" else "false"). destruct b;
      (split_and!; [done|by eexists _, _|]; intros [|n] u; [lia|done]).
  - destruct (string_of_Z_first z) as (a & s & E & Ha). exists (string_of_Z z).
    split_and!; [done| |].
    + exists a, s. split; [done|]. by destruct a as [[] [] [] [] [] [] [] []].
    + intros [|n] u Hn Hu; [lia|]. rewrite E, str_app_cons, read_number_case by done.
      by rewrite <- str_app_cons, <- E, read_number_string_of_Z by done.
  - exists (quote s). split_and!; [done|by eexists _, _|]. intros [|n] u Hn Hu; [lia|].
    unfold quote. rewrite !str_app_assoc, !dq_app.
    change (read (S n) (String dquote ?x))
      with ('(t, rest) ← read_chars x; Some (Str t, rest)).
    by rewrite read_chars_quote.
  - by apply reads_Arr.
  - by apply reads_Obj.
Qed.

Lemma parse_stringify v t : clean v = true -> stringify v = Some t -> parse t = Some v.
Proof.
  intros Hc Et. destruct (reads_all v Hc) as (t' & Et' & _ & Hr). simplify_eq.
  unfold parse. rewrite <- (str_app_nil_r t) at 2. by rewrite Hr by (done || lia).
Qed.

Lemma stringify_clean v : clean v = true -> exists t, stringify v = Some t.
Proof. intros Hc. destruct (reads_all v Hc) as (t & Et & _). eauto. Qed.
