(* ===== verification/Browser.v ===== *)
(** * The browser the console runs in

    The console is a set of jQuery and AngularJS pages.  A script reads form
    fields, opens SweetAlert dialogs whose buttons run a callback, sends Ajax
    requests whose answers run a callback, edits tables and navigates.  Such
    a script is a [prog]: a finite tree of browser operations, with the
    callbacks it registers as subtrees.  [run] executes a tree on a [world]
    (the page's state and the log of what it did), and [step] is the event
    loop: the user acts on the page, answers the dialog or edits a field, or
    the server answers a pending request.

    The semantics of the dialogs is that of the SweetAlert 1.x copy the pages
    load (static/js/plugins/sweetalert/sweetalert.min.js, handle-click module):
    - every [swal] call replaces the dialog on the screen;
    - the confirm button runs the callback with [true], or with the text of
      the input of an [input] dialog, and closes the dialog only if
      [closeOnConfirm] is set, so it can be pressed again otherwise;
    - the cancel button and the escape key run the callback with [false] if
      its source text declares a parameter, and always close the dialog.

    A callback that throws leaves the effects it had and ends, with the
    exception on the log; a synchronous request runs its callback before the
    next statement, and its answer is on the log. *)

From S2P Require Import Prelude JsValue.

(** ** Requests, dialogs and operations *)

Record request := Request {
  r_url : string;
  r_type : string;
  r_async : bool;
  r_ctype : string;
  r_data : val
}.

(** What the server, or the network, makes of a request. *)
Inductive ajax_result : Type :=
| Success (data : val)
| Failure (xhr : val) (status : val).

Record swal_opts := SwalOpts {
  so_title : string;
  so_text : val;
  so_type : string;
  so_html : bool;
  so_cancel : bool;
  so_color : string;
  so_confirm : string;
  so_close : bool
}.

(** The second argument of [swal], with the parameters it declares. *)
Inductive swal_fn (P : Type) : Type :=
| NoFn
| Fn0 (p : P)
| Fn1 (f : val -> P).
Scheme All for swal_fn.
Arguments NoFn {P}.
Arguments Fn0 {P} p.
Arguments Fn1 {P} f.

(** Operations without callbacks.  Elements are named by their selector. *)
Inductive op : Type :=
| OAttr (sel name : string)
| OSetAttr (sel name : string) (v : val)
| ODelAttr (sel name : string)
| OMsg (title text : val) (type : string)
| OInputError (msg : val)
| OAlert (msg : val)
| OGoto (url : string)
| OReload
| OBack
| OModal (sel : string) (shown : bool)
| OTable (tbl state : string) (rows : list val)
| OSelections (tbl : string)
| ORemoveRows (tbl fld : string) (values : val)
| ORefresh (tbl url : string)
| OVar (x : string)
| OSetVar (x : string) (v : val)
| ONew (v : val)
| OGet (l : nat)
| OPut (l : nat) (v : val)
| ONow
| ODateParse (s : string)
| OCall (f : string) (args : list val)
| OUncaught (e : val).

(** ** Scripts *)

Inductive prog (A : Type) : Type :=
| Ret (a : A)
| Throw (e : val)
| Op (o : op) (k : val -> prog A)
| Swal (o : swal_opts) (fn : swal_fn (prog unit)) (k : prog A)
| Ajax (r : request) (cb : ajax_result -> prog unit) (k : prog A).
Arguments Ret {A} a.
Arguments Throw {A} e.
Arguments Op {A} o k.
Arguments Swal {A} o fn k.
Arguments Ajax {A} r cb k.

Fixpoint bind {A B : Type} (p : prog A) (f : A -> prog B) : prog B :=
  match p with
  | Ret a => f a
  | Throw e => Throw e
  | Op o k => Op o (fun v => bind (k v) f)
  | Swal o fn k => Swal o fn (bind k f)
  | Ajax r cb k => Ajax r cb (bind k f)
  end.

(** [try { p } catch (e) { h(e) }]; callbacks run later, outside of it. *)
Fixpoint catch {A : Type} (p : prog A) (h : val -> prog A) : prog A :=
  match p with
  | Ret a => Ret a
  | Throw e => h e
  | Op o k => Op o (fun v => catch (k v) h)
  | Swal o fn k => Swal o fn (catch k h)
  | Ajax r cb k => Ajax r cb (catch k h)
  end.

Declare Scope prog_scope.
Delimit Scope prog_scope with prog.
Bind Scope prog_scope with prog.

Notation "x <- p ;; q" := (bind p (fun x => q))
  (at level 100, p at next level, right associativity) : prog_scope.
Notation "p ;; q" := (bind p (fun _ => q))
  (at level 100, q at level 200, right associativity) : prog_scope.
#[global] Open Scope prog_scope.

Definition done : prog unit := Ret tt.
Definition op1 (o : op) : prog val := Op o Ret.
Definition do_op (o : op) : prog unit := Op o (fun _ => Ret tt).

(** jQuery and browser calls, under the names the scripts use. *)
Definition val_of (sel : string) : prog val := op1 (OAttr sel "value").
Definition set_val (sel : string) (v : val) : prog unit := do_op (OSetAttr sel "value" v).
Definition set_text (sel : string) (v : val) : prog unit := do_op (OSetAttr sel "text" v).
Definition get_attr (sel name : string) : prog val := op1 (OAttr sel name).
Definition set_attr (sel name : string) (v : val) : prog unit := do_op (OSetAttr sel name v).
Definition remove_attr (sel name : string) : prog unit := do_op (ODelAttr sel name).
Definition class_attr (c : string) : string := "class " +:+ c.
Definition add_class (sel c : string) : prog unit := do_op (OSetAttr sel (class_attr c) (Bool true)).
Definition remove_class (sel c : string) : prog unit := do_op (ODelAttr sel (class_attr c)).
Definition alert (v : val) : prog unit := do_op (OAlert v).
Definition goto (url : string) : prog unit := do_op (OGoto url).
Definition reload : prog unit := do_op OReload.
Definition history_back : prog unit := do_op OBack.
Definition show_modal (sel : string) : prog unit := do_op (OModal sel true).
Definition hide_modal (sel : string) : prog unit := do_op (OModal sel false).
Definition show_input_error (v : val) : prog unit := do_op (OInputError v).
Definition bootstrap_table (tbl state : string) (rows : list val) : prog unit :=
  do_op (OTable tbl state rows).
Definition remove_rows (tbl fld : string) (values : val) : prog unit :=
  do_op (ORemoveRows tbl fld values).
Definition refresh (tbl url : string) : prog unit := do_op (ORefresh tbl url).
Definition get_var (x : string) : prog val := op1 (OVar x).
Definition set_var (x : string) (v : val) : prog unit := do_op (OSetVar x v).
Definition call (f : string) (args : list val) : prog unit := do_op (OCall f args).

(** A local variable captured by a callback lives in a heap cell. *)
Definition new_ref (v : val) : prog nat :=
  Op (ONew v) (fun l => Ret match l with Num (Fin z) => Z.to_nat z | _ => 0%nat end).
Definition get_ref (l : nat) : prog val := op1 (OGet l).
Definition put_ref (l : nat) (v : val) : prog unit := do_op (OPut l v).

(** The rows [bootstrapTable('getSelections')] returns. *)
Definition selections (tbl : string) : prog (list val) :=
  Op (OSelections tbl) (fun v => Ret match v with Arr l => l | _ => [] end).

(** [swal(title, text, type)]. *)
Definition swal3 (title : string) (text : val) (type : string) : prog unit :=
  do_op (OMsg (Str title) (or_else text (Str "")) type).
Definition swal1 (title : string) : prog unit := swal3 title (Str "") "".

(** [swal({...}, callback)]. *)
Definition swal (o : swal_opts) (fn : swal_fn (prog unit)) : prog unit := Swal o fn done.

(** The option object the pages pass: a cancel button, the console's button
    colour, and [closeOnConfirm: false]. *)
Definition ask (title : string) (text : string) (type : string) (html : bool)
    (confirm : string) : swal_opts :=
  SwalOpts title (Str text) type html true "#DD6B55" confirm false.

(** A plain [type: warning] question. *)
Definition warn (title confirm : string) : swal_opts := ask title "" "warning" false confirm.

Definition form_type : string := "application/x-www-form-urlencoded; charset=UTF-8".
Definition post (url : string) (data : list (string * val)) : request :=
  Request url "post" true form_type (Obj data).
Definition post_sync (url : string) (data : list (string * val)) : request :=
  Request url "post" false form_type (Obj data).
Definition http_get (url : string) : request := Request url "get" true "" Undef.

(** [$.ajax] with a [success] and an [error] callback. *)
Definition ajax (r : request) (success error : val -> prog unit) : prog unit :=
  Ajax r (fun res => match res with Success d => success d | Failure x _ => error x end) done.

(** A missing [error] callback, and one that ignores its argument. *)
Definition no_error (_ : val) : prog unit := done.

(** [o.k], and [o.k] used as an array. *)
Definition get (o : val) (k : string) : prog val :=
  match get_prop o k with
  | Some v => Ret v
  | None => Throw (Str ("TypeError: " +:+ k))
  end.

(** The controllers of an AngularJS page run in document order; the first one
    that throws ends the start of the page, and the error goes to the log. *)
Definition start_angular (controllers : list (prog unit)) : prog unit :=
  catch (fold_right (fun p rest => p ;; rest) done controllers)
    (fun e => do_op (OUncaught e)).

(** [for (x of l) f(x)]. *)
Fixpoint for_each {A : Type} (l : list A) (f : A -> prog unit) : prog unit :=
  match l with
  | [] => done
  | x :: l' => f x ;; for_each l' f
  end.

(** [v.length > 0]; a missing length compares false. *)
Definition nonempty (v : val) : prog bool :=
  n <- get v "length" ;; Ret (js_gt n (int 0)).

Definition elements (v : val) : list val := match v with Arr l => l | _ => [] end.

(** [data.code === z]. *)
Definition code_is (data : val) (z : Z) : prog bool :=
  c <- get data "code" ;; Ret (strict_eq c (int z)).

(** ** Worlds *)

Record dialog := DialogState {
  d_opts : swal_opts;
  d_fn : swal_fn (prog unit)
}.

Record table := Table {
  t_state : string;
  t_rows : list val
}.

(** What a script did, in order. *)
Inductive output : Type :=
| Sent (r : request)
| Answered (r : request) (res : ajax_result)
| Asked (o : swal_opts)
| Told (title text : val) (type : string)
| InputError (msg : val)
| Alerted (msg : val)
| WentTo (url : string)
| Reloaded
| WentBack
| ModalSet (sel : string) (shown : bool)
| Refreshed (tbl url : string)
| Called (f : string) (args : list val)
| Uncaught (e : val).

Record world := World {
  w_attrs : gmap (string * string) val;
  w_vars : gmap string val;
  w_heap : list val;
  w_tables : gmap string table;
  w_dialog : option dialog;
  w_pending : list (request * (ajax_result -> prog unit));
  w_out : list output
}.

(** What the scripts cannot see: the server behind the synchronous requests
    (any function of the requests so far), the clock, and the browser's
    parser of date texts, which the standard leaves open for the console's
    format. *)
Record env := Env {
  e_server : list output -> request -> ajax_result;
  e_now : list output -> Z;
  e_date_parse : string -> val
}.

Definition set_attrs a w :=
  World a (w_vars w) (w_heap w) (w_tables w) (w_dialog w) (w_pending w) (w_out w).
Definition set_vars x w :=
  World (w_attrs w) x (w_heap w) (w_tables w) (w_dialog w) (w_pending w) (w_out w).
Definition set_heap h w :=
  World (w_attrs w) (w_vars w) h (w_tables w) (w_dialog w) (w_pending w) (w_out w).
Definition set_tables t w :=
  World (w_attrs w) (w_vars w) (w_heap w) t (w_dialog w) (w_pending w) (w_out w).
Definition set_dialog d w :=
  World (w_attrs w) (w_vars w) (w_heap w) (w_tables w) d (w_pending w) (w_out w).
Definition set_pending p w :=
  World (w_attrs w) (w_vars w) (w_heap w) (w_tables w) (w_dialog w) p (w_out w).
Definition emit (o : output) w :=
  World (w_attrs w) (w_vars w) (w_heap w) (w_tables w) (w_dialog w) (w_pending w) (w_out w ++ [o]).

(** [$(sel).attr(name)], [undefined] where the element or attribute is missing. *)
Definition attr_of (w : world) (sel name : string) : val :=
  default Undef (w_attrs w !! (sel, name)).
Definition value_of (w : world) (sel : string) : val := attr_of w sel "value".
Definition rows_of (w : world) (tbl : string) : list val :=
  from_option t_rows [] (w_tables w !! tbl).

(** [$.inArray(x, values) != -1]: on something that is not an array, the
    generic [indexOf] finds the characters of a string and nothing else. *)
Fixpoint str_chars (s : string) : list val :=
  match s with
  | EmptyString => []
  | String a s' => Str (String a EmptyString) :: str_chars s'
  end.

(** [v[0], ..., v[v.length - 1]]. *)
Definition items (v : val) : list val :=
  match v with Arr l => l | Str s => str_chars s | _ => [] end.

Definition in_array (x values : val) : bool :=
  match values with
  | Arr l => existsb (strict_eq x) l
  | Str s => existsb (strict_eq x) (str_chars s)
  | _ => false
  end.

(** bootstrap-table's [remove]: drops the rows that have the field and whose
    value is found among [values]. *)
Definition row_removed (fld : string) (values row : val) : bool :=
  match row with
  | Obj fs => match assoc fld fs with Some x => in_array x values | None => false end
  | _ => false
  end.

Definition remove_from_table (fld : string) (values : val) (t : table) : table :=
  Table (t_state t) (List.filter (fun r => negb (row_removed fld values r)) (t_rows t)).

(** bootstrap-table's [getSelections]: the rows whose state field is set. *)
Definition selected_rows (t : table) : list val :=
  List.filter (fun r => truthy (field r (t_state t))) (t_rows t).

Definition message_dialog (title text : val) (type : string) : dialog :=
  DialogState (SwalOpts (to_str title) text type false false "#AEDEF4" "OK" true) NoFn.

Definition exec_op (E : env) (o : op) (w : world) : world * val :=
  match o with
  | OAttr sel name => (w, attr_of w sel name)
  | OSetAttr sel name v => (set_attrs (<[(sel, name) := v]> (w_attrs w)) w, Undef)
  | ODelAttr sel name => (set_attrs (delete (sel, name) (w_attrs w)) w, Undef)
  | OMsg title text type =>
      (emit (Told title text type) (set_dialog (Some (message_dialog title text type)) w), Undef)
  | OInputError msg => (emit (InputError msg) w, Undef)
  | OAlert msg => (emit (Alerted msg) w, Undef)
  | OGoto url => (emit (WentTo url) w, Undef)
  | OReload => (emit Reloaded w, Undef)
  | OBack => (emit WentBack w, Undef)
  | OModal sel b => (emit (ModalSet sel b) w, Undef)
  | OTable tbl state rows => (set_tables (<[tbl := Table state rows]> (w_tables w)) w, Undef)
  | OSelections tbl => (w, Arr (from_option selected_rows [] (w_tables w !! tbl)))
  | ORemoveRows tbl fld values =>
      (set_tables (alter (remove_from_table fld values) tbl (w_tables w)) w, Undef)
  | ORefresh tbl url => (emit (Refreshed tbl url) w, Undef)
  | OVar x => (w, default Undef (w_vars w !! x))
  | OSetVar x v => (set_vars (<[x := v]> (w_vars w)) w, Undef)
  | ONew v => (set_heap (w_heap w ++ [v]) w, int (Z.of_nat (length (w_heap w))))
  | OGet l => (w, default Undef (w_heap w !! l))
  | OPut l v => (set_heap (<[l := v]> (w_heap w)) w, Undef)
  | ONow => (w, int (e_now E (w_out w)))
  | ODateParse s => (w, e_date_parse E s)
  | OCall f args => (emit (Called f args) w, Undef)
  | OUncaught e => (emit (Uncaught e) w, Undef)
  end.

(** ** Execution *)

Inductive outcome (A : Type) : Type :=
| Done (a : A)
| Thrown (e : val).
Arguments Done {A} a.
Arguments Thrown {A} e.

Definition finish {A : Type} (r : world * outcome A) : world :=
  match r with
  | (w, Done _) => w
  | (w, Thrown e) => emit (Uncaught e) w
  end.

Fixpoint run {A : Type} (E : env) (p : prog A) (w : world) : world * outcome A :=
  match p with
  | Ret a => (w, Done a)
  | Throw e => (w, Thrown e)
  | Op o k => let '(w', v) := exec_op E o w in run E (k v) w'
  | Swal o fn k => run E k (emit (Asked o) (set_dialog (Some (DialogState o fn)) w))
  | Ajax r cb k =>
      if r_async r
      then run E k (emit (Sent r) (set_pending (w_pending w ++ [(r, cb)]) w))
      else let res := e_server E (w_out w) r in
           run E k (finish (run E (cb res) (emit (Answered r res) (emit (Sent r) w))))
  end.

(** One turn of the event loop: the task runs to its end. *)
Definition task (E : env) (p : prog unit) (w : world) : world := finish (run E p w).

(** ** Pages and the event loop *)

(** A page: the script that runs when it loads, and the handlers that its
    buttons, with their arguments, call. *)
Record page := Page {
  p_action : Type;
  p_load : prog unit;
  p_handler : p_action -> prog unit
}.

Inductive event (H : Type) : Type :=
| Act (h : H)
| Confirm (input : string)
| Cancel
| Reply (i : nat) (res : ajax_result)
| Edit (sel : string) (v : val)
| Check (tbl : string) (i : nat) (b : bool)
| Loaded (tbl : string) (rows : list val).
Arguments Act {H} h.
Arguments Confirm {H} input.
Arguments Cancel {H}.
Arguments Reply {H} i res.
Arguments Edit {H} sel v.
Arguments Check {H} tbl i b.
Arguments Loaded {H} tbl rows.

(** The argument the confirm button passes to the callback. *)
Definition confirm_arg (o : swal_opts) (input : string) : val :=
  if String.eqb (so_type o) "input" || String.eqb (so_type o) "prompt"
  then Str input else Bool true.

Definition press_confirm (E : env) (input : string) (w : world) : world :=
  match w_dialog w with
  | None => w
  | Some (DialogState o fn) =>
      match fn with
      | NoFn => set_dialog None w
      | Fn0 p =>
          let w' := task E p w in if so_close o then set_dialog None w' else w'
      | Fn1 f =>
          let w' := task E (f (confirm_arg o input)) w in
          if so_close o then set_dialog None w' else w'
      end
  end.

Definition press_cancel (E : env) (w : world) : world :=
  match w_dialog w with
  | None => w
  | Some (DialogState o fn) =>
      match fn with
      | NoFn | Fn0 _ => set_dialog None w
      | Fn1 f => set_dialog None (task E (f (Bool false)) w)
      end
  end.

Definition deliver (E : env) (i : nat) (res : ajax_result) (w : world) : world :=
  match w_pending w !! i with
  | None => w
  | Some (_, cb) => task E (cb res) (set_pending (delete i (w_pending w)) w)
  end.

Definition check_row (i : nat) (b : bool) (t : table) : table :=
  Table (t_state t) (alter (set_prop (t_state t) (Bool b)) i (t_rows t)).

Definition load_rows (rows : list val) (t : table) : table := Table (t_state t) rows.

Definition step (E : env) (pg : page) (w : world) (ev : event (p_action pg)) : world :=
  match ev with
  | Act h => task E (p_handler pg h) w
  | Confirm input => press_confirm E input w
  | Cancel => press_cancel E w
  | Reply i res => deliver E i res w
  | Edit sel v => set_attrs (<[(sel, "value") := v]> (w_attrs w)) w
  | Check tbl i b => set_tables (alter (check_row i b) tbl (w_tables w)) w
  | Loaded tbl rows => set_tables (alter (load_rows rows) tbl (w_tables w)) w
  end.

Definition steps (E : env) (pg : page) (w : world) (evs : list (event (p_action pg))) : world :=
  fold_left (step E pg) evs w.

(** A page freshly served: only the fields of its HTML are there. *)
Definition fresh (attrs : gmap (string * string) val) : world :=
  World attrs ∅ [] ∅ None [] [].

Definition boot (E : env) (pg : page) (attrs : gmap (string * string) val) : world :=
  task E (p_load pg) (fresh attrs).

(** The worlds a page can reach, from any HTML and for any server and user. *)
Inductive reachable (E : env) (pg : page) : world -> Prop :=
| reach_boot attrs : reachable E pg (boot E pg attrs)
| reach_step w ev : reachable E pg w -> reachable E pg (step E pg w ev).

(** The requests of a log. *)
Definition sent_of (o : output) : option request :=
  match o with Sent r => Some r | _ => None end.
Definition requests (l : list output) : list request := omap sent_of l.

(** ** Equations of execution *)

Lemma run_bind {A B : Type} E (p : prog A) (f : A -> prog B) w :
  run E (bind p f) w =
    match run E p w with
    | (w', Done a) => run E (f a) w'
    | (w', Thrown e) => (w', Thrown e)
    end.
Proof.
  revert w. induction p as [A a|A e|A o k IH|A o fn IHfn k IHk|A r cb IHcb k IHk];
    intros w; cbn; [done|done| | |].
  - destruct (exec_op E o w) as [w' v]. apply IH.
  - apply IHk.
  - destruct (r_async r); apply IHk.
Qed.

Lemma attr_of_set_vars x w sel name : attr_of (set_vars x w) sel name = attr_of w sel name.
Proof. done. Qed.

Lemma run_new_ref E v w :
  run E (new_ref v) w = (set_heap (w_heap w ++ [v]) w, Done (length (w_heap w))).
Proof. cbn. by rewrite Nat2Z.id. Qed.

Lemma run_selections E tbl w :
  run E (selections tbl) w = (w, Done (from_option selected_rows [] (w_tables w !! tbl))).
Proof. done. Qed.

Lemma run_for_each_pure {A : Type} E (f : A -> prog unit) (g : A -> world -> world) l w :
  (forall x w, run E (f x) w = (g x w, Done tt)) ->
  run E (for_each l f) w = (fold_left (fun w x => g x w) l w, Done tt).
Proof.
  intros Hf. revert w. induction l as [|x l IH]; intros w; [done|].
  cbn [for_each]. by rewrite run_bind, Hf, IH.
Qed.

Lemma attr_of_set w sel name v sel' name' :
  attr_of (set_attrs (<[(sel, name) := v]> (w_attrs w)) w) sel' name' =
  if decide ((sel, name) = (sel', name')) then v else attr_of w sel' name'.
Proof.
  unfold attr_of. cbn. destruct (decide _) as [<-|Hne]; [by rewrite lookup_insert_eq|].
  by rewrite lookup_insert_ne.
Qed.

Lemma task_ajax_sync E r cb err w :
  r_async r = false ->
  task E (ajax r cb err) w =
  task E (match e_server E (w_out w) r with Success d => cb d | Failure x _ => err x end)
    (emit (Answered r (e_server E (w_out w) r)) (emit (Sent r) w)).
Proof. intros Hr. unfold task at 1, ajax. cbn [run]. rewrite Hr. done. Qed.

(** A log whose synchronous answers belong to requests in it, and come from the server. *)
Definition asked_first (E : env) (log : list output) : Prop :=
  forall r res, Answered r res ∈ log -> Sent r ∈ log /\ exists before, res = e_server E before r.

Lemma asked_first_app E l1 l2 : asked_first E l1 -> asked_first E l2 -> asked_first E (l1 ++ l2).
Proof.
  intros H1 H2 r res. rewrite !elem_of_app. intros [H|H]; [destruct (H1 _ _ H)|destruct (H2 _ _ H)]; eauto.
Qed.

(** [w'] has the log of [w] and more. *)
Definition grows (E : env) (w w' : world) : Prop :=
  exists log, w_out w' = w_out w ++ log /\ asked_first E log.

#[export] Instance grows_preorder E : PreOrder (grows E).
Proof.
  split.
  - intros w. exists []. split; [by rewrite app_nil_r|]. intros r res H. by apply not_elem_of_nil in H.
  - intros w1 w2 w3 (l1 & H1 & A1) (l2 & H2 & A2). exists (l1 ++ l2).
    split; [by rewrite H2, H1, app_assoc|by apply asked_first_app].
Qed.

Lemma grows_emit E o w : (forall r res, o <> Answered r res) -> grows E w (emit o w).
Proof.
  intros Ho. exists [o]. split; [done|]. intros r res H%list_elem_of_singleton. by edestruct Ho.
Qed.

Lemma grows_answer E r before w : grows E w (emit (Answered r (e_server E before r)) (emit (Sent r) w)).
Proof.
  exists [Sent r; Answered r (e_server E before r)]. split; [by cbn; rewrite <- app_assoc|].
  intros r' res'. rewrite !elem_of_cons. intros [?|[[= -> ->]|?]]; [done|split; [by left|by exists before]|set_solver].
Qed.

Lemma finish_grows {A : Type} E (r : world * outcome A) : grows E r.1 (finish r).
Proof. destruct r as [w [a|e]]; cbn; [reflexivity|by apply grows_emit]. Qed.

(** A task only adds to the log. *)
Lemma run_grows {A : Type} E (p : prog A) w : grows E w (run E p w).1.
Proof.
  revert w. induction p as [A a|A e|A o k IH|A o fn IHfn k IHk|A r cb IHcb k IHk]; intros w; cbn [run].
  - reflexivity.
  - reflexivity.
  - assert (Ho : grows E w (exec_op E o w).1).
    { destruct o; cbn; first [exact (reflexivity (R := grows E) w) | by refine (grows_emit E _ w _)]. }
    destruct (exec_op E o w) as [w' v]. by etrans; [exact Ho|apply IH].
  - etrans; [|apply IHk]. exact (grows_emit E (Asked o) w ltac:(done)).
  - destruct (r_async r); (etrans; [|apply IHk]).
    + exact (grows_emit E (Sent r) w ltac:(done)).
    + cbv zeta. etrans; [apply (grows_answer E r (w_out w))|].
      etrans; [apply IHcb|apply finish_grows].
Qed.

Lemma task_grows E p w : grows E w (task E p w).
Proof.
  unfold task. etrans; [apply (run_grows E p)|apply finish_grows].
Qed.

(** So does every event. *)
Lemma step_grows E pg w ev : grows E w (step E pg w ev).
Proof.
  assert (Hc : forall w' (b : bool), grows E w w' -> grows E w (if b then set_dialog None w' else w')).
  { by intros w' [] H. }
  destruct ev as [h|input| |i res|sel v|tbl i b|tbl rows]; cbn [step]; try exact (reflexivity (R := grows E) w).
  - apply task_grows.
  - unfold press_confirm. destruct (w_dialog w) as [[o [|p|f]]|]; try exact (reflexivity (R := grows E) w); apply Hc, task_grows.
  - unfold press_cancel. destruct (w_dialog w) as [[o [|p|f]]|]; try exact (reflexivity (R := grows E) w). apply (task_grows E _ w).
  - unfold deliver. destruct (w_pending w !! i) as [[r cb]|]; [|exact (reflexivity (R := grows E) w)].
    apply (task_grows E (cb res) (set_pending (delete i (w_pending w)) w)).
Qed.

Lemma task_ajax_sent E r cb err w :
  exists log, w_out (task E (ajax r cb err) w) = w_out w ++ Sent r :: log.
Proof.
  destruct (r_async r) eqn:Hr.
  - exists []. unfold task, ajax. cbn [run]. by rewrite Hr.
  - rewrite task_ajax_sync by done.
    match goal with |- context [task E ?p (emit ?o ?v)] => destruct (task_grows E p (emit o v)) as (log & -> & _) end.
    eexists. cbn [emit w_out]. by rewrite <- !app_assoc.
Qed.

Lemma reachable_steps E pg w evs : reachable E pg w -> reachable E pg (steps E pg w evs).
Proof.
  revert w. induction evs as [|ev evs IH]; intros w Hw; [done|]. by apply IH, reach_step.
Qed.

(** An environment with a given server, at the epoch, and a session of a page
    in it. *)
Definition served (server : request -> ajax_result) : env :=
  Env (fun _ r => server r) (fun _ => 0) (fun _ => Num NaN).
Definition offline : env := served (fun _ => Failure Undef Undef).
Definition session (E : env) (pg : page) (attrs : list (string * string * val))
    (evs : list (event (p_action pg))) : world :=
  steps E pg (boot E pg (list_to_map attrs)) evs.

Lemma reachable_session E pg attrs evs : reachable E pg (session E pg attrs evs).
Proof. apply reachable_steps, reach_boot. Qed.
