(* ===== verification/Logic.v ===== *)
(** * A program logic for the scripts

    [wp S p log Q] says: whatever the form fields, tables, clock and server
    answers are, the task [p], which has logged [log] so far, ends in an
    outcome and a log that satisfy [Q]; and every callback it registers obeys
    the page's contract [S].  A contract gives, for each kind of event, the
    logs that the task started by it may leave.  [page_obeys S pg] lifts it to
    a page, and [reachable_obeys] is the soundness theorem: in every world the
    page reaches, the task of the next event leaves a log the contract allows. *)

From S2P Require Import Prelude JsValue Browser.

(** What started a task: the page's load, a button of the page, a button of
    the dialog [o], or the answer [res] to the request [r]. *)
Inductive phase : Type :=
| PLoad
| PAct
| PConfirm (o : swal_opts)
| PCancel (o : swal_opts)
| PReply (r : request) (res : ajax_result).

Definition contract : Type := phase -> list output -> Prop.

Definition op_out (o : op) : list output :=
  match o with
  | OMsg title text type => [Told title text type]
  | OInputError msg => [InputError msg]
  | OAlert msg => [Alerted msg]
  | OGoto url => [WentTo url]
  | OReload => [Reloaded]
  | OBack => [WentBack]
  | OModal sel b => [ModalSet sel b]
  | ORefresh tbl url => [Refreshed tbl url]
  | OCall f args => [Called f args]
  | OUncaught e => [Uncaught e]
  | _ => []
  end.

Definition uncaught {A : Type} (o : outcome A) : list output :=
  match o with Done _ => [] | Thrown e => [Uncaught e] end.

(** The whole log of a task meets the contract. *)
Definition ends {A : Type} (S : contract) (ph : phase) (o : outcome A) (log : list output) : Prop :=
  S ph (log ++ uncaught o).

(** The arguments a confirm button can pass. *)
Definition confirm_val (v : val) : Prop := v = Bool true \/ exists s, v = Str s.

Fixpoint wp {A : Type} (S : contract) (p : prog A) (log : list output)
    (Q : outcome A -> list output -> Prop) : Prop :=
  match p with
  | Ret a => Q (Done a) log
  | Throw e => Q (Thrown e) log
  | Op o k => forall v, wp S (k v) (log ++ op_out o) Q
  | Swal o fn k =>
      match fn with
      | NoFn => True
      | Fn0 p0 => wp S p0 [] (ends S (PConfirm o))
      | Fn1 f =>
          (forall v, confirm_val v -> wp S (f v) [] (ends S (PConfirm o))) /\
          wp S (f (Bool false)) [] (ends S (PCancel o))
      end /\ wp S k (log ++ [Asked o]) Q
  | Ajax r cb k =>
      if r_async r
      then (forall res, wp S (cb res) [] (ends S (PReply r res))) /\ wp S k (log ++ [Sent r]) Q
      else forall res, wp S (cb res) (log ++ [Sent r; Answered r res])
             (fun o log' => wp S k (log' ++ uncaught o) Q)
  end.

Definition dialog_obeys (S : contract) (d : dialog) : Prop :=
  let o := d_opts d in
  match d_fn d with
  | NoFn => True
  | Fn0 p0 => wp S p0 [] (ends S (PConfirm o))
  | Fn1 f =>
      (forall v, confirm_val v -> wp S (f v) [] (ends S (PConfirm o))) /\
      wp S (f (Bool false)) [] (ends S (PCancel o))
  end.

Lemma wp_mono {A : Type} S (p : prog A) log (Q Q' : outcome A -> list output -> Prop) :
  (forall o l, Q o l -> Q' o l) -> wp S p log Q -> wp S p log Q'.
Proof.
  revert log Q Q'. induction p as [A a|A e|A o k IH|A o fn IHfn k IHk|A r cb IHcb k IHk];
    intros log Q Q' HQ; cbn; [auto..| |].
  - intros H v. by eapply IH, H.
  - intros [Hfn Hk]. split; [done|]. by eapply IHk, Hk.
  - destruct (r_async r).
    + intros [Hcb Hk]. split; [done|]. by eapply IHk, Hk.
    + intros H res. eapply IHcb, H. cbn. intros o l. by apply IHk.
Qed.

Lemma wp_bind {A B : Type} S (p : prog A) (f : A -> prog B) log Q :
  wp S p log (fun o l =>
    match o with Done a => wp S (f a) l Q | Thrown e => Q (Thrown e) l end) ->
  wp S (bind p f) log Q.
Proof.
  revert log. induction p as [A a|A e|A o k IH|A o fn IHfn k IHk|A r cb IHcb k IHk];
    intros log; cbn; [done|done| | |].
  - intros H v. by apply IH.
  - intros [Hfn Hk]. split; [done|by apply IHk].
  - destruct (r_async r).
    + intros [Hcb Hk]. split; [done|by apply IHk].
    + intros H res. eapply wp_mono, H. cbn. intros o l. by apply IHk.
Qed.

(** The callbacks a world keeps obey the contract. *)
Definition world_obeys (S : contract) (w : world) : Prop :=
  match w_dialog w with None => True | Some d => dialog_obeys S d end /\
  Forall (fun rc : request * (ajax_result -> prog unit) =>
    forall res, wp S (rc.2 res) [] (ends S (PReply rc.1 res))) (w_pending w).

Lemma exec_op_out E o w : w_out (exec_op E o w).1 = w_out w ++ op_out o.
Proof. destruct o; cbn; by rewrite ?app_nil_r. Qed.

Lemma exec_op_obeys S E o w : world_obeys S w -> world_obeys S (exec_op E o w).1.
Proof. intros [Hd Hp]. destruct o; by split. Qed.

Lemma finish_obeys {A : Type} S (r : world * outcome A) :
  world_obeys S r.1 -> world_obeys S (finish r).
Proof. by destruct r as [w []]. Qed.

Lemma finish_out {A : Type} (r : world * outcome A) :
  w_out (finish r) = w_out r.1 ++ uncaught r.2.
Proof. destruct r as [w []]; cbn; by rewrite ?app_nil_r. Qed.

(** Soundness of [wp] for one task: [log] is what the task has logged. *)
Lemma run_wp {A : Type} S E (p : prog A) w log0 log Q :
  wp S p log Q -> world_obeys S w -> w_out w = log0 ++ log ->
  exists log', w_out (run E p w).1 = log0 ++ log' /\ Q (run E p w).2 log' /\
    world_obeys S (run E p w).1.
Proof.
  revert w log Q. induction p as [A a|A e|A o k IH|A o fn IHfn k IHk|A r cb IHcb k IHk];
    intros w log Q Hwp Hw Hlog; cbn in *; [eauto..| | |].
  - pose proof (exec_op_out E o w) as Ho. pose proof (exec_op_obeys S E o w Hw) as Hw'.
    destruct (exec_op E o w) as [w' v]; cbn in *.
    eapply IH; [apply Hwp|done|]. by rewrite Ho, Hlog, app_assoc.
  - destruct Hwp as [Hfn Hk]. eapply IHk; [done| |cbn; by rewrite Hlog, app_assoc].
    split; [done|apply Hw].
  - destruct (r_async r).
    + destruct Hwp as [Hcb Hk]. eapply IHk; [done| |cbn; by rewrite Hlog, app_assoc].
      destruct Hw as [Hd Hp]. split; [done|]. cbn. apply Forall_app. split; [done|].
      by apply Forall_singleton.
    + set (res := e_server E (w_out w) r). specialize (Hwp res).
      destruct (IHcb _ (emit (Answered r res) (emit (Sent r) w)) _ _ Hwp) as (log1 & Ho1 & HQ1 & Hw1);
        [exact Hw|cbn; by rewrite Hlog, <- !app_assoc|].
      eapply IHk; [exact HQ1|by apply finish_obeys|].
      by rewrite finish_out, Ho1, app_assoc.
Qed.

Lemma task_wp S E ph p w :
  wp S p [] (ends S ph) -> world_obeys S w ->
  exists log, w_out (task E p w) = w_out w ++ log /\ S ph log /\ world_obeys S (task E p w).
Proof.
  intros Hwp Hw.
  destruct (run_wp S E p w (w_out w) [] _ Hwp Hw) as (log & Ho & HQ & Hw');
    [by rewrite app_nil_r|].
  exists (log ++ uncaught (run E p w).2). split_ands; [|done|by apply finish_obeys].
  unfold task. by rewrite finish_out, Ho, app_assoc.
Qed.

(** ** Pages *)

Definition page_obeys (S : contract) (pg : page) : Prop :=
  wp S (p_load pg) [] (ends S PLoad) /\
  forall h, wp S (p_handler pg h) [] (ends S PAct).

(** A contract that allows a button without a listener to do nothing. *)
Definition allows_idle (S : contract) : Prop :=
  S PAct [] /\ forall o, S (PConfirm o) [] /\ S (PCancel o) [].

(** What starts the task of an event in [w]; an event nobody listens to
    counts as an act on the page. *)
Definition phase_of {H} (w : world) (ev : event H) : phase :=
  match ev with
  | Confirm _ => match w_dialog w with Some d => PConfirm (d_opts d) | None => PAct end
  | Cancel => match w_dialog w with Some d => PCancel (d_opts d) | None => PAct end
  | Reply i res => match w_pending w !! i with Some (r, _) => PReply r res | None => PAct end
  | Act _ | Edit _ _ | Check _ _ _ | Loaded _ _ => PAct
  end.

Lemma confirm_arg_val o input : confirm_val (confirm_arg o input).
Proof. unfold confirm_arg, confirm_val. case_goal; eauto. Qed.

Lemma set_dialog_None_obeys S w : world_obeys S w -> world_obeys S (set_dialog None w).
Proof. intros [_ Hp]. by split. Qed.

(** [w'] follows [w] with a log that [S] allows for [ph]. *)
Definition follows (S : contract) (ph : phase) (w w' : world) : Prop :=
  exists log, w_out w' = w_out w ++ log /\ S ph log /\ world_obeys S w'.

Lemma follows_idle S ph w w' :
  S ph [] -> w_out w' = w_out w -> world_obeys S w' -> follows S ph w w'.
Proof. intros Hi Ho Hw. exists []. by rewrite app_nil_r. Qed.

Lemma follows_close S ph w w' (b : bool) :
  follows S ph w w' -> follows S ph w (if b then set_dialog None w' else w').
Proof.
  intros (log & ? & ? & ?). exists log. destruct b; split_ands; auto using set_dialog_None_obeys.
Qed.

Lemma press_confirm_obeys {H} S E input w :
  allows_idle S -> world_obeys S w ->
  follows S (phase_of w (Confirm (H := H) input)) w (press_confirm E input w).
Proof.
  intros [Ha Hb] Hw. unfold press_confirm, phase_of. destruct (w_dialog w) as [[o fn]|] eqn:Ed.
  2:{ by apply follows_idle. }
  pose proof (proj1 Hw) as Hfn. rewrite Ed in Hfn. cbn in Hfn. destruct fn as [|p|f].
  - apply follows_idle; [apply Hb|done|by apply set_dialog_None_obeys].
  - apply follows_close. by apply task_wp.
  - apply follows_close. apply task_wp; [|done]. apply Hfn, confirm_arg_val.
Qed.

Lemma press_cancel_obeys {H} S E w :
  allows_idle S -> world_obeys S w ->
  follows S (phase_of w (Cancel (H := H))) w (press_cancel E w).
Proof.
  intros [Ha Hb] Hw. unfold press_cancel, phase_of. destruct (w_dialog w) as [[o fn]|] eqn:Ed.
  2:{ by apply follows_idle. }
  pose proof (proj1 Hw) as Hfn. rewrite Ed in Hfn. cbn in Hfn. destruct fn as [|p|f].
  1,2: apply follows_idle; [apply Hb|done|by apply set_dialog_None_obeys].
  apply (follows_close _ _ _ _ true). apply task_wp; [apply Hfn|done].
Qed.

Lemma Forall_delete_list {A : Type} (P : A -> Prop) i (l : list A) : Forall P l -> Forall P (delete i l).
Proof.
  intros Hl. revert i. induction Hl as [|x l Hx Hl IH]; intros [|i]; cbn; [constructor..|done|].
  constructor; [done|apply IH].
Qed.

Lemma deliver_obeys {H} S E i res w :
  allows_idle S -> world_obeys S w ->
  follows S (phase_of w (Reply (H := H) i res)) w (deliver E i res w).
Proof.
  intros [Ha Hb] Hw. unfold deliver, phase_of. destruct (w_pending w !! i) as [[r cb]|] eqn:Ei.
  2:{ by apply follows_idle. }
  destruct Hw as [Hd Hp]. pose proof (Forall_lookup_1 _ _ _ _ Hp Ei) as Hcb. cbn in Hcb.
  apply (task_wp S E (PReply r res) (cb res) (set_pending (delete i (w_pending w)) w)); [done|].
  split; [done|]. by apply Forall_delete_list.
Qed.

Lemma step_obeys S E pg w ev :
  allows_idle S -> page_obeys S pg -> world_obeys S w ->
  follows S (phase_of w ev) w (step E pg w ev).
Proof.
  intros Hidle [_ Hh] Hw. destruct ev as [h|input| |i res|sel v|tbl i b|tbl rows].
  - by apply task_wp.
  - by apply press_confirm_obeys.
  - by apply press_cancel_obeys.
  - by apply deliver_obeys.
  - apply follows_idle; [apply Hidle|done|done].
  - apply follows_idle; [apply Hidle|done|done].
  - apply follows_idle; [apply Hidle|done|done].
Qed.

Lemma boot_obeys S E pg attrs :
  page_obeys S pg ->
  S PLoad (w_out (boot E pg attrs)) /\ world_obeys S (boot E pg attrs).
Proof.
  intros [Hl _].
  destruct (task_wp S E PLoad (p_load pg) (fresh attrs) Hl) as (log & Ho & HS & Hw);
    [by split|].
  unfold boot. rewrite Ho. done.
Qed.

Lemma reachable_world_obeys S E pg w :
  allows_idle S -> page_obeys S pg -> reachable E pg w -> world_obeys S w.
Proof.
  intros Hidle Hpg. induction 1 as [attrs|w ev _ IH].
  - by apply boot_obeys.
  - by destruct (step_obeys S E pg w ev Hidle Hpg IH) as (_ & _ & _ & ?).
Qed.

(** What the task of [ev] adds to the log. *)
Definition news (E : env) (pg : page) (w : world) (ev : event (p_action pg)) : list output :=
  drop (length (w_out w)) (w_out (step E pg w ev)).

Lemma news_asked_first E pg w ev r res :
  Answered r res ∈ news E pg w ev -> Sent r ∈ news E pg w ev /\ exists before, res = e_server E before r.
Proof.
  destruct (step_grows E pg w ev) as (log & Ho & Hl). unfold news. rewrite Ho, drop_app_length. apply Hl.
Qed.

(** Soundness: every task of a page that obeys its contract leaves a log the
    contract allows, in every reachable world. *)
Lemma reachable_news S E pg w ev :
  allows_idle S -> page_obeys S pg -> reachable E pg w ->
  S (phase_of w ev) (news E pg w ev) /\ w_out (step E pg w ev) = w_out w ++ news E pg w ev.
Proof.
  intros Hidle Hpg Hr.
  destruct (step_obeys S E pg w ev Hidle Hpg) as (log & Ho & HS & _);
    [by eapply reachable_world_obeys|].
  unfold news. rewrite Ho, drop_app_length. done.
Qed.

(** ** Loops *)

(** A loop whose turns leave the log as it is, or throw. *)
Lemma wp_for_each {A : Type} S (f : A -> prog unit) l log Q :
  (forall x, x ∈ l -> wp S (f x) log (fun o log' =>
     match o with Done _ => log' = log | Thrown e => Q (Thrown e) log' end)) ->
  Q (Done tt) log -> wp S (for_each l f) log Q.
Proof.
  intros Hf HQ. induction l as [|x l IH]; [done|]. cbn. apply wp_bind.
  eapply wp_mono, Hf; [|left]. intros [[]|e] log'; [|done].
  intros ->. apply IH. intros y Hy. apply Hf. by right.
Qed.

(** ** Rules for the shared statements *)

(** A value JavaScript can read fields of. *)
Definition is_object (v : val) : bool := match v with Undef | Null => false | _ => true end.

Lemma get_object v k : is_object v = true -> get v k = Ret (field v k).
Proof. by destruct v. Qed.

Lemma get_prop_None v k : get_prop v k = None -> is_object v = false.
Proof. by destruct v. Qed.

Lemma wp_get S v k log Q :
  (is_object v = false -> forall e, Q (Thrown e) log) ->
  (is_object v = true -> Q (Done (field v k)) log) ->
  wp S (get v k) log Q.
Proof. intros Hn Hs. unfold get, field in *. destruct v; cbn in *; auto. Qed.

Lemma wp_code_is S v z log Q :
  (is_object v = false -> forall e, Q (Thrown e) log) ->
  (is_object v = true -> forall b, strict_eq (field v "code") (int z) = b -> Q (Done b) log) ->
  wp S (code_is v z) log Q.
Proof.
  intros Hn Hs. unfold code_is. apply wp_bind, wp_get; [by auto|]. intros Hv. by apply Hs.
Qed.

Lemma wp_selections S tbl log Q :
  (forall rows, Q (Done rows) log) -> wp S (selections tbl) log Q.
Proof. intros H v. cbn. rewrite app_nil_r. apply H. Qed.

Lemma wp_new_ref S v log Q : (forall l, Q (Done l) log) -> wp S (new_ref v) log Q.
Proof. intros H l. cbn. rewrite app_nil_r. apply H. Qed.

Lemma wp_catch {A : Type} S (p : prog A) h log Q :
  wp S p log (fun o l => match o with Done a => Q (Done a) l | Thrown e => wp S (h e) l Q end) ->
  wp S (catch p h) log Q.
Proof.
  revert log. induction p as [A a|A e|A o k IH|A o fn IHfn k IHk|A r cb IHcb k IHk];
    intros log; cbn; [done|done| | |].
  - intros H v. by apply IH.
  - intros [Hfn Hk]. split; [done|by apply IHk].
  - destruct (r_async r).
    + intros [Hcb Hk]. split; [done|by apply IHk].
    + intros H res. eapply wp_mono, H. cbn. intros o l. by apply IHk.
Qed.

(** ** Automation *)

Ltac head_of t := lazymatch t with ?f _ => head_of f | _ => t end.

(** Case analysis on a test of the script; one that computes is not split. *)
Ltac wp_case x :=
  lazymatch x with
  | context [match ?y with _ => _ end] => wp_case y
  | _ =>
    let y := eval cbn in x in
    lazymatch y with
    | true => change x with true
    | false => change x with false
    | _ => destruct x eqn:?
    end
  end; cbv beta iota.

(** The rule of a component for a loop of its own; the components set it. *)
Ltac wp_rule := fail.

(** One step of the symbolic execution of a script. *)
Ltac wp_step :=
  lazymatch goal with
  | |- forall _, _ => intro
  | |- _ /\ _ => split
  | |- True => exact I
  | |- wp _ (bind _ _) _ _ => apply wp_bind
  | |- wp _ (catch _ _) _ _ => apply wp_catch
  | |- wp _ (get _ _) _ _ => apply wp_get
  | |- wp _ (code_is _ _) _ _ => apply wp_code_is
  | |- wp _ (selections _) _ _ => apply wp_selections
  | |- wp _ (new_ref _) _ _ => apply wp_new_ref
  | |- wp _ (for_each _ _) _ _ => apply wp_for_each
  | |- wp _ (Ret _) _ _ => cbn [wp]; cbv beta iota
  | |- wp _ (Throw _) _ _ => cbn [wp]; cbv beta iota
  | |- wp _ (Op _ _) _ _ => cbn [wp op_out app]
  | |- wp _ (Swal _ _ _) _ _ => cbn [wp app]
  | |- wp _ (Ajax ?r _ _) _ _ =>
      let b := eval hnf in (r_async r) in
      cbn [wp app]; change (r_async r) with b; cbv beta iota
  | |- if r_async ?r then _ else _ =>
      let b := eval hnf in (r_async r) in change (r_async r) with b; cbv beta iota
  | |- wp _ (match ?x with _ => _ end) _ _ => wp_case x
  | |- wp _ ?p _ _ => first [wp_rule | let h := head_of p in unfold h; cbv beta]
  end.
Ltac wp_run := repeat wp_step.
