(* ===== verification/Contracts.v ===== *)
(** * Contracts of the console's pages

    The promises the pages make to the user, as contracts of the program
    logic: a request that changes something is sent only from the dialog that
    asked for it ([confirmed]); one button sends one request and closing a
    dialog or receiving an answer sends none ([paced]); an answer is reported
    ([informed]), and as a success only if the server said so ([honest]).
    [promises] is their conjunction for a page, and the lemmas at the end turn
    it into facts about every reachable world. *)

From S2P Require Import Prelude JsValue Browser Logic.

(** ** The contracts *)

(** Something the user sees. *)
Definition notice (o : output) : bool :=
  match o with
  | Told _ _ _ | Asked _ | Alerted _ | InputError _ | WentTo _ | Reloaded | WentBack => true
  | _ => false
  end.

Definition is_success (o : output) : bool :=
  match o with Told _ _ type => String.eqb type "success" | _ => false end.

(** All the requests that carry data. *)
Definition posts (r : request) : bool := String.eqb (r_type r) "post".

(** An answer that JavaScript can read fields of. *)
Definition readable (res : ajax_result) : bool :=
  match res with Success d => is_object d | Failure _ _ => true end.

(** The usual verdict of the server: [data.code === 0]. *)
Definition code_zero (data : val) : bool := strict_eq (field data "code") (int 0).

(** What a page promises:
    - [guard url] lists the titles of the dialogs that may send [url]; no
      title means that the request needs no confirmation;
    - [burst] and [follow_up] bound the requests of one button and of one answer;
    - [watched] picks the answers that are reported to the user, and [heard]
      those of the synchronous requests;
    - [verdict] tells which data mean success. *)
Record policy := Policy {
  guard : string -> list string;
  burst : nat;
  follow_up : nat;
  watched : request -> ajax_result -> bool;
  heard : request -> ajax_result -> bool;
  verdict : request -> val -> bool
}.

(** One request per button, none per answer; the readable answers to posts
    are reported; success is code 0. *)
Definition usual (g : string -> list string) : policy :=
  Policy g 1 0 (fun r res => posts r && readable res) (fun _ _ => false) (fun _ => code_zero).

(** The same for a page that also reports the answers to its synchronous posts. *)
Definition prompt (g : string -> list string) : policy :=
  Policy g 1 0 (fun r res => posts r && readable res) (fun r res => posts r && readable res) (fun _ => code_zero).

Definition confirmed (pol : policy) : contract := fun ph log =>
  Forall (fun r => match guard pol (r_url r) with
                   | [] => True
                   | titles => exists o, ph = PConfirm o /\ so_title o ∈ titles
                   end) (requests log).

Definition paced (pol : policy) : contract := fun ph log =>
  match ph with
  | PLoad => True
  | PAct | PConfirm _ => (length (requests log) <= burst pol)%nat
  | PReply _ _ => (length (requests log) <= follow_up pol)%nat
  | PCancel _ => requests log = []
  end.

(** A synchronous answer that counts is followed by a notice. *)
Fixpoint answers_told (pol : policy) (log : list output) : Prop :=
  match log with
  | [] => True
  | Answered r res :: log' => (heard pol r res = true -> existsb notice log' = true) /\ answers_told pol log'
  | _ :: log' => answers_told pol log'
  end.

Definition informed (pol : policy) : contract := fun ph log =>
  match ph with
  | PLoad => True
  | PReply r res => (watched pol r res = true -> existsb notice log = true) /\ answers_told pol log
  | _ => answers_told pol log
  end.

Definition granted (pol : policy) (r : request) (res : ajax_result) : bool :=
  match res with Success d => verdict pol r d | Failure _ _ => false end.

(** [ok] tells whether the last answer so far granted its request. *)
Fixpoint truthful (pol : policy) (ok : bool) (log : list output) : Prop :=
  match log with
  | [] => True
  | o :: log' =>
      match o with
      | Answered r res => truthful pol (granted pol r res) log'
      | _ => (is_success o = true -> ok = true) /\ truthful pol ok log'
      end
  end.

(** Success is announced only after an answer that grants it. *)
Definition honest (pol : policy) : contract := fun ph log =>
  match ph with
  | PReply r res => truthful pol (granted pol r res) log
  | PLoad => True
  | _ => truthful pol false log
  end.

Definition promises (pol : policy) : contract := fun ph log =>
  confirmed pol ph log /\ paced pol ph log /\ informed pol ph log /\ honest pol ph log.

Lemma promises_idle pol : allows_idle (promises pol).
Proof. repeat split; (done || cbn; lia || constructor). Qed.

(** ** What the contracts say of a log *)

Lemma answers_told_notice pol log r res :
  answers_told pol log -> Answered r res ∈ log -> heard pol r res = true ->
  exists o, o ∈ log /\ notice o = true.
Proof.
  intros Ht Ha Hh. induction log as [|x log IH]; [by apply not_elem_of_nil in Ha|].
  assert (answers_told pol log /\ (x = Answered r res -> exists o, o ∈ log /\ notice o = true)) as [Ht' Hx].
  { destruct x; cbn in Ht; try (split; [exact Ht|done]). destruct Ht as [Hn Ht]. split; [done|].
    intros [= -> ->]. apply existsb_exists in Hn as (o & Ho & ?); [|done]. exists o. by rewrite list_elem_of_In. }
  apply elem_of_cons in Ha as [Ha|Ha].
  - destruct Hx as (o & ? & ?); [done|]. exists o. split; [by right|done].
  - destruct IH as (o & ? & ?); [done..|]. exists o. split; [by right|done].
Qed.

Lemma truthful_success pol ok log o :
  truthful pol ok log -> o ∈ log -> is_success o = true ->
  ok = true \/ exists r res, Answered r res ∈ log /\ granted pol r res = true.
Proof.
  intros Ht Ho Hs. revert ok Ht. induction log as [|x log IH]; intros ok Ht; [by apply not_elem_of_nil in Ho|].
  assert ((exists r res, x = Answered r res /\ truthful pol (granted pol r res) log) \/
    (is_success x = true -> ok = true) /\ truthful pol ok log) as Hx.
  { destruct x; cbn in Ht; try (right; exact Ht). left. eauto. }
  apply elem_of_cons in Ho as [<-|Ho].
  - destruct Hx as [(r & res & -> & _)|[Hx _]]; [done|auto].
  - destruct Hx as [(r & res & -> & Hx)|[_ Hx]].
    + destruct (IH Ho _ Hx) as [Hg|(r' & res' & ? & ?)]; right; [exists r, res|exists r', res'];
        (split; [|done]); [by left|by right].
    + destruct (IH Ho _ Hx) as [Hg|(r' & res' & ? & ?)]; [by left|]. right. exists r', res'. split; [by right|done].
Qed.

(** ** Automation *)

Ltac split_andb :=
  repeat match goal with
         | H : (_ && _)%bool = true |- _ => apply andb_prop in H as [? ?]
         | H : negb _ = true |- _ => apply negb_true_iff in H
         end.

(** Solves the obligations that [wp_run] leaves on concrete logs. *)
Ltac kept :=
  lazymatch goal with
  | |- confirmed _ _ _ =>
      unfold confirmed; cbn [requests omap list_omap sent_of];
      repeat first [apply Forall_nil_2 | apply Forall_cons_2];
      lazy -[so_title elem_of to_str loose_eq];
      first [done | eexists; split; [reflexivity|cbn; set_solver]]
  | |- paced _ _ _ => cbn; first [lia | done]
  | |- informed _ _ _ =>
      cbn; first [done | split_ands; intros; split_andb; unfold code_zero in *; cbn in *; first [done | congruence]]
  | |- honest _ _ _ => cbn; first [done | split_ands; by intros]
  | _ => first [reflexivity | assumption]
  end.

Ltac promised := wp_run; unfold ends, promises; cbn [app uncaught]; split_ands; kept.

(** ** Scripts that run at load *)

(** An output that needs no confirmation. *)
Definition harmless (pol : policy) (o : output) : Prop :=
  match o with Sent r => guard pol (r_url r) = [] | _ => True end.

Lemma harmless_promises pol log :
  Forall (harmless pol) log -> promises pol PLoad log.
Proof.
  intros H. unfold promises. split_ands; [|done..]. induction H as [|o log Ho _ IH]; [constructor|].
  unfold confirmed, requests. destruct o; cbn in *; try apply IH.
  constructor; [by rewrite Ho|apply IH].
Qed.

(** [p] adds harmless outputs to any log. *)
Definition loads (pol : policy) (p : prog unit) : Prop :=
  forall log, Forall (harmless pol) log ->
    wp (promises pol) p log (fun o l => Forall (harmless pol) (l ++ uncaught o)).

Lemma loads_seq pol p p' :
  loads pol p -> loads pol p' -> loads pol (p ;; p').
Proof.
  intros Hp Hp' log Hlog. apply wp_bind. eapply wp_mono, Hp, Hlog. cbn.
  intros [a|e] l; cbn; rewrite ?app_nil_r; [apply Hp'|done].
Qed.

Lemma loads_start_angular pol ps :
  Forall (loads pol) ps -> loads pol (start_angular ps).
Proof.
  intros Hps log Hlog. unfold start_angular. apply wp_catch.
  assert (loads pol (fold_right (fun p rest => p ;; rest) done ps)) as Hf.
  { induction Hps as [|p ps Hp _ IH]; cbn; [|by apply loads_seq].
    intros l Hl. cbn. by rewrite app_nil_r. }
  eapply wp_mono, Hf, Hlog. cbn. intros [a|e] l Hl; [done|].
  cbn. by rewrite !app_nil_r.
Qed.

Lemma loads_promises pol p :
  loads pol p -> wp (promises pol) p [] (ends (promises pol) PLoad).
Proof.
  intros Hp. eapply wp_mono, Hp; [|constructor]. intros o l. apply harmless_promises.
Qed.

(** Symbolic execution of a load script: its requests are harmless. *)
Ltac loaded :=
  intros ? ?; wp_run; unfold ends, promises; cbn [app uncaught];
  lazymatch goal with
  | |- Forall _ _ =>
      repeat (rewrite Forall_app; split); try assumption; repeat constructor;
      try (lazy -[to_str loose_eq]; repeat case_match; done)
  | |- _ => split_ands; kept
  end.

(** One goal per element of a concrete list. *)
Ltac for_all := repeat first [apply Forall_nil_2 | apply Forall_cons_2].

(** The contract of a page, from its load script, a list of controllers or a
    plain script, and its handlers. *)
Ltac keeps_promises :=
  match goal with |- _ ?pg _ =>
    let h := head_of pg in
    split; [apply loads_promises; unfold h; cbn [p_load];
            lazymatch goal with
            | |- loads _ (start_angular _) => apply loads_start_angular; for_all; loaded
            | |- _ => loaded
            end
           |intros a; unfold h in a |- *; cbn [p_action p_handler] in a |- *; destruct a;
            match goal with |- wp _ (?f _) _ _ => unfold f end; promised]
  end.

(** ** What the user can rely on *)

(** A page with its guards and the requests whose answers it reports. *)
Class Promising (pg : page) (pol : policy) : Prop :=
  promising : page_obeys (promises pol) pg.

Section promising.
Context {pg pol} `{!Promising pg pol}.
Context (E : env) (w : world) (Hw : reachable E pg w).

Lemma news_promises ev : promises pol (phase_of w ev) (news E pg w ev).
Proof. by apply reachable_news; [apply promises_idle|apply promising|]. Qed.

(** A guarded request is sent by the confirm button of one of its dialogs. *)
Lemma sent_confirmed ev r :
  Sent r ∈ news E pg w ev -> guard pol (r_url r) <> [] ->
  exists input d, ev = Confirm input /\ w_dialog w = Some d /\
    so_title (d_opts d) ∈ guard pol (r_url r).
Proof.
  intros Hr Hg. destruct (news_promises ev) as (Hc & _).
  unfold confirmed in Hc. rewrite Forall_forall in Hc.
  assert (r ∈ requests (news E pg w ev)) as Hin.
  { apply list_elem_of_omap. by exists (Sent r). }
  apply list_elem_of_In in Hin. specialize (Hc r Hin). destruct (guard pol (r_url r)) as [|t ts] eqn:Eg; [done|].
  destruct Hc as (o & Ho & Ht). destruct ev; cbn in Ho; try done; repeat case_match; try done.
  simplify_eq. eauto.
Qed.

Lemma requests_bounded ev :
  (length (requests (news E pg w ev)) <= Nat.max (burst pol) (follow_up pol))%nat.
Proof.
  destruct (news_promises ev) as (_ & Hp & _). unfold phase_of in Hp.
  destruct ev; cbn in Hp; repeat case_match; cbn in Hp; rewrite ?Hp; cbn; lia.
Qed.

Lemma cancel_sends_nothing : requests (news E pg w Cancel) = [].
Proof.
  destruct (news_promises Cancel) as (_ & Hp & _). cbn in Hp.
  destruct (w_dialog w) as [d|] eqn:Ed; [done|].
  unfold news. cbn. unfold press_cancel. by rewrite Ed, drop_all.
Qed.

Lemma reply_bounded i res :
  (length (requests (news E pg w (Reply i res))) <= follow_up pol)%nat.
Proof.
  destruct (news_promises (Reply i res)) as (_ & Hp & _). cbn in Hp.
  destruct (w_pending w !! i) as [[r cb]|] eqn:Ei; [done|].
  unfold news. cbn. unfold deliver. rewrite Ei, drop_all. cbn. lia.
Qed.

Lemma reply_reported i res r :
  fst <$> w_pending w !! i = Some r -> watched pol r res = true ->
  exists o, o ∈ news E pg w (Reply i res) /\ notice o = true.
Proof.
  intros Hi Hr. destruct (news_promises (Reply i res)) as (_ & _ & Hn & _).
  cbn in Hn. destruct (w_pending w !! i) as [[r' cb]|]; [|done]. cbn in Hi, Hn. simplify_eq.
  apply proj1, existsb_exists in Hn as (o & Ho & Hno); [|done].
  exists o. by rewrite list_elem_of_In.
Qed.

Lemma answer_reported ev r res :
  Answered r res ∈ news E pg w ev -> heard pol r res = true ->
  exists o, o ∈ news E pg w ev /\ notice o = true.
Proof.
  intros Ha Hh. apply (answers_told_notice pol _ r res); [|done..].
  destruct (news_promises ev) as (_ & _ & Hn & _).
  destruct ev as [h|input| |i res'|sel v|tbl i b|tbl rows]; cbn in Hn; repeat case_match; try done; apply Hn.
Qed.

(** A message of success follows an answer that granted its request: the one that
    the event delivers, or one that the script waited for. *)
Lemma success_granted ev o :
  o ∈ news E pg w ev -> is_success o = true ->
  (exists i res r, ev = Reply i res /\ fst <$> w_pending w !! i = Some r /\ granted pol r res = true) \/
  (exists r res, Answered r res ∈ news E pg w ev /\ granted pol r res = true).
Proof.
  intros Ho Hs. destruct (news_promises ev) as (_ & _ & _ & Hh).
  assert (exists ok, truthful pol ok (news E pg w ev) /\
    (ok = true -> exists i res r, ev = Reply i res /\ fst <$> w_pending w !! i = Some r /\ granted pol r res = true))
    as (ok & Ht & Hok).
  { destruct ev as [h|input| |i res|sel v|tbl i b|tbl rows]; cbn in Hh; repeat case_match;
      try (by exists false). eexists. split; [exact Hh|]. intros Hg. exists i, res. eexists.
    split_ands; [done| |exact Hg]. match goal with H : w_pending w !! i = Some _ |- _ => by rewrite H end. }
  destruct (truthful_success pol ok _ o Ht Ho Hs) as [->|?]; eauto.
Qed.

(** Where answers send no requests, it is the answer that the event delivers. *)
Lemma reply_success_granted i res o :
  follow_up pol = 0%nat -> o ∈ news E pg w (Reply i res) -> is_success o = true ->
  exists r, fst <$> w_pending w !! i = Some r /\ granted pol r res = true.
Proof.
  intros Hf Ho Hs. destruct (success_granted _ _ Ho Hs) as [(i' & res' & r & [= <- <-] & ? & ?)|(r & res' & Ha & _)]; [eauto|].
  pose proof (reply_bounded i res) as Hb. apply news_asked_first in Ha as [Ha _].
  assert (r ∈ requests (news E pg w (Reply i res))) as Hin by (apply list_elem_of_omap; by exists (Sent r)).
  destruct (requests (news E pg w (Reply i res))); [by apply not_elem_of_nil in Hin|cbn in Hb; lia].
Qed.

End promising.

(** The same for one event, in one statement. *)
Definition safe_step (pol : policy) (E : env) (pg : page) (w : world) (ev : event (p_action pg)) : Prop :=
  (forall r, Sent r ∈ news E pg w ev -> guard pol (r_url r) <> [] ->
     exists input d, ev = Confirm input /\ w_dialog w = Some d /\
       so_title (d_opts d) ∈ guard pol (r_url r)) /\
  (length (requests (news E pg w ev)) <= Nat.max (burst pol) (follow_up pol))%nat /\
  (ev = Cancel -> requests (news E pg w ev) = []) /\
  (forall i res r, ev = Reply i res -> fst <$> w_pending w !! i = Some r ->
     watched pol r res = true -> exists o, o ∈ news E pg w ev /\ notice o = true) /\
  (forall r res, Answered r res ∈ news E pg w ev -> heard pol r res = true ->
     exists o, o ∈ news E pg w ev /\ notice o = true) /\
  (forall o, o ∈ news E pg w ev -> is_success o = true ->
     (exists i res r, ev = Reply i res /\ fst <$> w_pending w !! i = Some r /\ granted pol r res = true) \/
     (exists r res, Answered r res ∈ news E pg w ev /\ granted pol r res = true)).

Lemma reachable_safe_step {pg pol} `{!Promising pg pol} E w ev :
  reachable E pg w -> safe_step pol E pg w ev.
Proof.
  intros Hw. unfold safe_step. split_ands.
  - intros r. by apply sent_confirmed.
  - by apply requests_bounded.
  - intros ->. by apply cancel_sends_nothing.
  - intros i res r ->. by apply reply_reported.
  - intros r res. by apply answer_reported.
  - intros o. by apply success_granted.
Qed.

(** ** Buttons that send *)

(** A task that ends in a request has it on its log first. *)
Lemma sends_first E pg w a r cb err :
  task E (p_handler pg a) w = task E (ajax r cb err) w -> news E pg w (Act a) !! 0%nat = Some (Sent r).
Proof.
  intros Ha. unfold news. cbn [step]. rewrite Ha.
  destruct (task_ajax_sent E r cb err w) as [log ->]. by rewrite drop_app_length.
Qed.

(** A confirmation that sends [r] and nothing else. *)
Definition confirms (E : env) (pg : page) (w : world) (a : p_action pg) (title input : string) (r : request) : Prop :=
  (exists o, so_title o = title /\ news E pg w (Act a) = [Asked o]) /\
  news E pg (step E pg w (Act a)) (Confirm input) = [Sent r].

Lemma confirms_swal E pg w (a : p_action pg) o p r title input :
  task E (p_handler pg a) w = emit (Asked o) (set_dialog (Some (DialogState o (Fn0 p))) w) ->
  so_title o = title -> so_close o = false ->
  (forall w', w_vars w' = w_vars w -> w_out (task E p w') = w_out w' ++ [Sent r]) ->
  confirms E pg w a title input r.
Proof.
  intros Ha Ht Hc Hp. unfold confirms, news. cbn [step]. rewrite Ha.
  split; [exists o; split; [done|]; cbn; by rewrite drop_app_length|].
  unfold press_confirm. cbn [w_dialog emit set_dialog]. rewrite Hc, Hp by done. by rewrite drop_app_length.
Qed.
