(* ===== verification/Frame.v ===== *)
(** * Frame reasoning for the variables of a page

    A script that nowhere writes a variable, callbacks included, leaves it as it
    is.  [writes_not x p] is that syntactic condition; [run_keeps] and
    [event_keeps] lift it to tasks and to the events of a page. *)

From S2P Require Import Prelude JsValue Browser Logic.

(** [p] and the callbacks it registers never write the variable [x]. *)
Fixpoint writes_not {A : Type} (x : string) (p : prog A) : Prop :=
  match p with
  | Ret _ | Throw _ => True
  | Op o k =>
      match o with OSetVar y _ => y <> x | _ => True end /\ forall v, writes_not x (k v)
  | Swal _ fn k =>
      match fn with
      | NoFn => True
      | Fn0 p0 => writes_not x p0
      | Fn1 f => forall v, writes_not x (f v)
      end /\ writes_not x k
  | Ajax _ cb k => (forall res, writes_not x (cb res)) /\ writes_not x k
  end.

Definition dialog_writes_not (x : string) (d : dialog) : Prop :=
  match d_fn d with
  | NoFn => True
  | Fn0 p => writes_not x p
  | Fn1 f => forall v, writes_not x (f v)
  end.

(** The callbacks that a world keeps. *)
Definition world_writes_not (x : string) (w : world) : Prop :=
  match w_dialog w with None => True | Some d => dialog_writes_not x d end /\
  Forall (fun rc : request * (ajax_result -> prog unit) => forall res, writes_not x (rc.2 res))
    (w_pending w).

Definition var_of (w : world) (x : string) : option val := w_vars w !! x.

Lemma exec_op_keeps E o w x :
  match o with OSetVar y _ => y <> x | _ => True end -> world_writes_not x w ->
  var_of (exec_op E o w).1 x = var_of w x /\ world_writes_not x (exec_op E o w).1.
Proof.
  intros Ho [Hd Hp]. split; [|by destruct o]. unfold var_of.
  destruct o; cbn; try done. by rewrite lookup_insert_ne.
Qed.

Lemma run_keeps {A : Type} E (p : prog A) w x :
  writes_not x p -> world_writes_not x w ->
  var_of (run E p w).1 x = var_of w x /\ world_writes_not x (run E p w).1.
Proof.
  revert w. induction p as [A a|A e|A o k IH|A o fn IHfn k IHk|A r cb IHcb k IHk];
    intros w; cbn; [done|done| | |].
  - intros [Ho Hk] Hw. destruct (exec_op_keeps E o w x Ho Hw) as [Hv Hw'].
    destruct (exec_op E o w) as [w' v]. cbn in *. rewrite <- Hv. by apply IH.
  - intros [Hfn Hk] Hw.
    apply (IHk (emit (Asked o) (set_dialog (Some (DialogState o fn)) w)) Hk).
    split; [done|apply Hw].
  - intros [Hcb Hk] Hw. destruct (r_async r).
    + apply (IHk (emit (Sent r) (set_pending (w_pending w ++ [(r, cb)]) w)) Hk).
      destruct Hw as [Hd Hp]. split; [done|]. cbn.
      apply Forall_app. split; [done|]. by apply Forall_singleton.
    + destruct (IHcb (e_server E (w_out w) r) (emit (Answered r (e_server E (w_out w) r)) (emit (Sent r) w))) as [Hv Hw']; [done|exact Hw|].
      destruct (run E (cb _) _) as [w1 [[]|e]]; cbn in *.
      * destruct (IHk w1 Hk Hw') as [Hv2 Hw2]. split; [|done]. by rewrite Hv2.
      * destruct (IHk (emit (Uncaught e) w1)) as [Hv2 Hw2]; [done|exact Hw'|].
        split; [|done]. rewrite Hv2. exact Hv.
Qed.

Lemma task_keeps E p w x :
  writes_not x p -> world_writes_not x w ->
  var_of (task E p w) x = var_of w x /\ world_writes_not x (task E p w).
Proof.
  intros Hp Hw. destruct (run_keeps E p w x Hp Hw) as [Hv Hw'].
  unfold task. by destruct (run E p w) as [w' [[]|e]].
Qed.

(** An event whose handler does not write [x] keeps it; the others of the page
    are those of its buttons. *)
Lemma event_keeps E pg w ev x :
  (forall a, ev = Act a -> writes_not x (p_handler pg a)) -> world_writes_not x w ->
  var_of (step E pg w ev) x = var_of w x /\ world_writes_not x (step E pg w ev).
Proof.
  intros Ha Hw. destruct ev as [a|input| |i res|sel v|tbl i b|tbl rows]; cbn; try done.
  - apply task_keeps; auto.
  - unfold press_confirm. destruct (w_dialog w) as [[o fn]|] eqn:Ed; [|done].
    pose proof (proj1 Hw) as Hfn. rewrite Ed in Hfn. destruct fn as [|p|f]; cbn in Hfn.
    + split; [done|]. split; [done|apply Hw].
    + destruct (task_keeps E p w x Hfn Hw) as [Hv [Hd Hp]]. by destruct (so_close o).
    + destruct (task_keeps E (f (confirm_arg o input)) w x (Hfn _) Hw) as [Hv [Hd Hp]].
      by destruct (so_close o).
  - unfold press_cancel. destruct (w_dialog w) as [[o fn]|] eqn:Ed; [|done].
    pose proof (proj1 Hw) as Hfn. rewrite Ed in Hfn. destruct fn as [|p|f]; cbn in Hfn.
    + split; [done|]. split; [done|apply Hw].
    + split; [done|]. split; [done|apply Hw].
    + destruct (task_keeps E (f (Bool false)) w x (Hfn _) Hw) as [Hv [Hd Hp]]. by split.
  - unfold deliver. destruct (w_pending w !! i) as [[r cb]|] eqn:Ei; [|done].
    pose proof (Forall_lookup_1 _ _ _ _ (proj2 Hw) Ei) as Hcb. cbn in Hcb.
    apply (task_keeps E (cb res) (set_pending (delete i (w_pending w)) w)); [done|].
    split; [apply Hw|]. apply Forall_delete_list, Hw.
Qed.

(** A variable that no handler of the page writes. *)
Lemma steps_keep E pg x w evs :
  (forall a, writes_not x (p_handler pg a)) -> world_writes_not x w ->
  var_of (steps E pg w evs) x = var_of w x.
Proof.
  intros Ha. revert w. induction evs as [|ev evs IH]; intros w Hw; [done|].
  destruct (event_keeps E pg w ev x) as [Hv Hw']; [by intros|done|].
  cbn. change (fold_left (step E pg) evs (step E pg w ev)) with (steps E pg (step E pg w ev) evs).
  by rewrite IH.
Qed.

Lemma writes_not_bind {A B : Type} x (p : prog A) (f : A -> prog B) :
  writes_not x p -> (forall a, writes_not x (f a)) -> writes_not x (bind p f).
Proof.
  intros Hp Hf. induction p as [A a|A e|A o k IH|A o fn IHfn k IHk|A r cb IHcb k IHk]; cbn in *.
  - apply Hf.
  - done.
  - destruct Hp as [Ho Hk]. split; [done|]. intros v. by apply IH.
  - destruct Hp as [Hfn Hk]. split; [done|]. by apply IHk.
  - destruct Hp as [Hcb Hk]. split; [done|]. by apply IHk.
Qed.

Lemma writes_not_get x v k : writes_not x (get v k).
Proof. unfold get. by destruct (get_prop v k). Qed.

(** ** Automation *)

(** Symbolic execution of the condition, like [wp_run]. *)
Ltac frame_step :=
  lazymatch goal with
  | |- forall _, _ => intro
  | |- _ /\ _ => split
  | |- True => exact I
  | |- _ <> _ => discriminate
  | |- writes_not _ (bind _ _) => apply writes_not_bind
  | |- writes_not _ (get _ _) => apply writes_not_get
  | |- writes_not _ (Ret _) => exact I
  | |- writes_not _ (Throw _) => exact I
  | |- writes_not _ (Op _ _) => cbn [writes_not]
  | |- writes_not _ (Swal _ _ _) => cbn [writes_not]
  | |- writes_not _ (Ajax _ _ _) => cbn [writes_not]
  | |- writes_not _ (match ?y with _ => _ end) => wp_case y
  | |- writes_not _ ?p => let h := head_of p in unfold h; cbv beta
  end.
Ltac frame_run := repeat frame_step.
