(* ===== verification/Outputs.v ===== *)
(** * What the scripts of a page put on the log

    [says P p]: everything that [p] and the callbacks it registers put on the log
    satisfies [P].  [reachable_says] lifts it to the logs of every state that a page
    can reach, through the contracts of [Logic.v]. *)

From S2P Require Import Prelude JsValue Browser Logic.

(** Everything that [p] and its callbacks put on the log satisfies [P]. *)
Fixpoint says {A : Type} (P : output -> Prop) (p : prog A) : Prop :=
  match p with
  | Ret _ | Throw _ => True
  | Op o k => Forall P (op_out o) /\ forall v, says P (k v)
  | Swal o fn k =>
      P (Asked o) /\
      match fn with
      | NoFn => True
      | Fn0 p0 => says P p0
      | Fn1 f => forall v, says P (f v)
      end /\ says P k
  | Ajax r cb k => P (Sent r) /\ (forall res, P (Answered r res)) /\ (forall res, says P (cb res)) /\ says P k
  end.

Definition logs_only (P : output -> Prop) : contract := fun _ log => Forall P log.

Section Says.
Context (P : output -> Prop) (Huncaught : forall e, P (Uncaught e)).

Lemma says_wp {A : Type} (p : prog A) log Q :
  says P p -> Forall P log -> (forall o l, Forall P (l ++ uncaught o) -> Q o l) -> wp (logs_only P) p log Q.
Proof using Huncaught.
  revert log Q. induction p as [A a|A e|A o k IH|A o fn IHfn k IHk|A r cb IHcb k IHk]; intros log Q Hp Hl HQ; cbn in *.
  - apply HQ. cbn. by rewrite app_nil_r.
  - apply HQ. cbn. apply Forall_app. split; [done|by apply Forall_singleton].
  - destruct Hp as [Ho Hk]. intros v. apply IH; [done| |done]. by apply Forall_app.
  - destruct Hp as (Ho & Hfn & Hk). split; [|apply IHk; [done| |done]; apply Forall_app; split; [done|by apply Forall_singleton]].
    destruct IHfn as [|q IHq|f IHf]; [done|by apply IHq|split; intros; by apply IHf].
  - destruct Hp as (Hs & Ha & Hcb & Hk). destruct (r_async r).
    + split; [intros res; by apply IHcb|]. apply IHk; [done| |done]. apply Forall_app. split; [done|by apply Forall_singleton].
    + intros res. apply IHcb; [done| |].
      * apply Forall_app. split; [done|]. by repeat constructor.
      * intros o l Hol. by apply IHk.
Qed.

Lemma page_says pg : says P (p_load pg) -> (forall a, says P (p_handler pg a)) -> page_obeys (logs_only P) pg.
Proof using Huncaught. intros Hl Ha. split; [|intros a]; apply says_wp; try done; apply Ha. Qed.

(** In every reachable state the whole log satisfies it. *)
Lemma reachable_says E pg w :
  says P (p_load pg) -> (forall a, says P (p_handler pg a)) -> reachable E pg w -> Forall P (w_out w).
Proof using Huncaught.
  intros Hl Ha Hr. pose proof (page_says pg Hl Ha) as Hpg.
  assert (Hidle : allows_idle (logs_only P)) by (repeat split; constructor).
  induction Hr as [attrs|w ev Hr IH].
  - by apply (boot_obeys (logs_only P) E pg attrs).
  - destruct (reachable_news (logs_only P) E pg w ev Hidle Hpg Hr) as [Hn ->]. by apply Forall_app.
Qed.

Lemma says_bind {A B : Type} (p : prog A) (f : A -> prog B) :
  says P p -> (forall a, says P (f a)) -> says P (bind p f).
Proof.
  intros Hp Hf. induction p as [A a|A e|A o k IH|A o fn IHfn k IHk|A r cb IHcb k IHk]; cbn in *.
  - apply Hf.
  - done.
  - destruct Hp as [Ho Hk]. split; [done|]. intros v. by apply IH.
  - destruct Hp as (Ho & Hfn & Hk). split_ands; [done|done|]. by apply IHk.
  - destruct Hp as (Hs & Ha & Hcb & Hk). split_ands; [done..|]. by apply IHk.
Qed.

Lemma says_catch {A : Type} (p : prog A) (h : val -> prog A) :
  says P p -> (forall e, says P (h e)) -> says P (catch p h).
Proof.
  intros Hp Hf. induction p as [A a|A e|A o k IH|A o fn IHfn k IHk|A r cb IHcb k IHk]; cbn in *.
  - done.
  - apply Hf.
  - destruct Hp as [Ho Hk]. split; [done|]. intros v. by apply IH.
  - destruct Hp as (Ho & Hfn & Hk). split_ands; [done|done|]. by apply IHk.
  - destruct Hp as (Hs & Ha & Hcb & Hk). split_ands; [done..|]. by apply IHk.
Qed.

Lemma says_bind_bind {A B C : Type} (p : prog A) (f : A -> prog B) (g : B -> prog C) :
  says P (bind p (fun a => bind (f a) g)) -> says P (bind (bind p f) g).
Proof.
  induction p as [A a|A e|A o k IH|A o fn IHfn k IHk|A r cb IHcb k IHk]; cbn; [done|done| | |].
  - intros [Ho Hk]. split; [done|]. intros v. by apply IH.
  - intros (Ho & Hfn & Hk). split_ands; [done|done|]. by apply IHk.
  - intros (Hs & Ha & Hcb & Hk). split_ands; [done..|]. by apply IHk.
Qed.

Lemma says_get v k : says P (get v k).
Proof. unfold get. by destruct (get_prop v k). Qed.

Lemma says_for_each {A : Type} (l : list A) (f : A -> prog unit) : (forall x, says P (f x)) -> says P (for_each l f).
Proof. intros Hf. induction l as [|x l IH]; [done|]. cbn. apply says_bind; [apply Hf|done]. Qed.

Lemma says_start_angular controllers : Forall (says P) controllers -> says P (start_angular controllers).
Proof using Huncaught.
  intros Hc. apply says_catch; [|intros e; split; [by apply Forall_singleton|done]].
  induction Hc as [|p l Hp Hl IH]; [done|]. by apply says_bind.
Qed.

End Says.

(** ** Automation *)

(** The rules of components for loops of their own, and for statements whose value
    matters. *)
Ltac says_rule := fail.

(** Symbolic execution; the outputs are left as goals. *)
Ltac says_step :=
  lazymatch goal with
  | |- forall _, _ => intro
  | |- _ /\ _ => split
  | |- True => exact I
  | |- Forall _ (op_out _) => cbn [op_out]
  | |- Forall _ [] => apply Forall_nil_2
  | |- Forall _ (_ :: _) => apply Forall_cons_2
  | |- Forall (says _) ?l => let h := head_of l in unfold h
  | |- says _ (bind (bind _ _) _) => apply says_bind_bind
  | |- says _ (bind (Ret _) _) => cbn [bind]
  | |- says _ (bind _ _) => first [says_rule | apply says_bind]
  | |- says _ (catch _ _) => apply says_catch
  | |- says _ (start_angular _) => apply says_start_angular
  | |- says _ (get _ _) => apply says_get
  | |- says _ (for_each _ _) => apply says_for_each
  | |- says _ (Ret _) => exact I
  | |- says _ (Throw _) => exact I
  | |- says _ (Op _ _) => cbn [says]
  | |- says _ (Swal _ _ _) => cbn [says]
  | |- says _ (Ajax _ _ _) => cbn [says]
  | |- says _ (match ?y with _ => _ end) => wp_case y
  | |- says _ ?p => first [says_rule | let h := head_of p in unfold h; cbv beta]
  end.
Ltac says_run := repeat says_step.
