(* ===== verification/Widgets.v ===== *)
(** * Tables, buttons and notices

    The option objects the pages hand to bootstrap-table, the buttons their
    formatters print into a row, and the notices that most callbacks show. *)

From S2P Require Import Prelude JsValue Browser.

(** ** Tables *)

(** One entry of [columns].  A [formatter] gets the value, the row and the
    index. *)
Record column := Column {
  c_title : string;
  c_field : string;
  c_align : string;
  c_valign : string;
  c_checkbox : bool;
  c_formatter : option (val -> val -> Z -> val)
}.

Definition col (title fld align valign : string) : column :=
  Column title fld align valign false None.
Definition checkbox (fld align : string) : column := Column "" fld align "" true None.
(** A radio button marks its row like a checkbox. *)
Definition radio (fld align : string) : column := checkbox fld align.
Definition formatted (f : val -> val -> Z -> val) (c : column) : column :=
  Column (c_title c) (c_field c) (c_align c) (c_valign c) (c_checkbox c) (Some f).

(** The field in which bootstrap-table marks the selected rows: that of the
    last checkbox column. *)
Definition state_field (cols : list column) : string :=
  fold_left (fun s c => if c_checkbox c then c_field c else s) cols "undefined".

(** [$(tbl).bootstrapTable({data: rows, columns: cols, ...})]. *)
Definition show_table (tbl : string) (cols : list column) (rows : val) : prog unit :=
  bootstrap_table tbl (state_field cols) (elements rows).

(** The text of a cell. *)
Definition cell (c : column) (row : val) (index : Z) : val :=
  let v := field row (c_field c) in
  match c_formatter c with Some f => f v row index | None => v end.

(** [x.join('')] of the pieces a formatter lists. *)
Definition join_all (l : list string) : val := Str (str_join "" l).

(** A field of a row inside a text. *)
Definition txt (row : val) (k : string) : string := to_str (field row k).

(** ** Notices *)

(** [if (data.code === 0) swal(..., "success") else swal(..., data.msg, "error")]. *)
Definition report (ok_title ok_text fail_title : string) (data : val) : prog unit :=
  ok <- code_is data 0 ;;
  if ok then swal3 ok_title (Str ok_text) "success"
  else msg <- get data "msg" ;; swal3 fail_title msg "error".

(** [if (data.code === 0) $scope.x = data.data else swal(..., data.msg, "error")]. *)
Definition keep_data (x fail_title : string) (data : val) : prog unit :=
  ok <- code_is data 0 ;;
  if ok then d <- get data "data" ;; set_var x d
  else msg <- get data "msg" ;; swal3 fail_title msg "error".

(** [report], and a granted request loads the page again. *)
Definition report_and_reload (ok_title ok_text fail_title : string) (data : val) : prog unit :=
  ok <- code_is data 0 ;;
  if ok then swal3 ok_title (Str ok_text) "success" ;; reload
  else msg <- get data "msg" ;; swal3 fail_title msg "error".

(** The [error] callbacks: a fixed text, or the response object as it is. *)
Definition failed (title text : string) (_ : val) : prog unit := swal3 title (Str text) "error".
Definition failed_res (title : string) (res : val) : prog unit := swal3 title res "error".

(** ** Arrays *)

(** [for (i...) ids.push(rows[i].fld)]. *)
Definition pluck (fld : string) (rows : list val) : list val :=
  List.map (fun r => field r fld) rows.
