(* ===== verification/Utils.v ===== *)
(** * Shared helpers of the pages (static/js/commons/utils.js)

    [hasText], the two-argument [formatDate] with its [cfg] table and the
    regular expression that finds the runs of one letter in a format, [preId]
    and [parseIntById]. *)

From S2P Require Import Prelude JsValue Browser.
From Stdlib Require Import Ascii.

(** [typeof text == "undefined" || text == null || $.trim(text) == ""] *)
Definition hasText (text : val) : bool :=
  match text with
  | Undef | Null => false
  | _ => negb (String.eqb (trim (to_str text)) "")
  end.

(** The fields of a JavaScript [Date] in local time; months count from 0. *)
Record date := Date {
  getFullYear : Z;
  getMonth : Z;
  getDate : Z;
  getHours : Z;
  getMinutes : Z;
  getSeconds : Z
}.

(** [num.replace(/^(\d)$/, "0$1")] on the decimal form of [num]. *)
Definition paddNum (num : Z) : string :=
  match string_of_Z num with
  | String a EmptyString => if is_digit a then String "0" (String a "") else String a ""
  | s => s
  end.

(** [cfg[m]], as the text [replace] inserts for it. *)
Definition cfg (d : date) (m : string) : string :=
  if String.eqb m "yyyy" then string_of_Z (getFullYear d)
  else if String.eqb m "yy" then str_drop 2 (string_of_Z (getFullYear d))
  else if String.eqb m "M" then string_of_Z (getMonth d + 1)
  else if String.eqb m "MM" then paddNum (getMonth d + 1)
  else if String.eqb m "d" then string_of_Z (getDate d)
  else if String.eqb m "dd" then paddNum (getDate d)
  else if String.eqb m "hh" then string_of_Z (getHours d)
  else if String.eqb m "mm" then string_of_Z (getMinutes d)
  else if String.eqb m "ss" then string_of_Z (getSeconds d)
  else "undefined".

Definition is_letter (a : ascii) : bool :=
  let n := byte a in
  ((65 <=? n) && (n <=? 90) || (97 <=? n) && (n <=? 122))%nat.

(** Equality of letters under the [i] flag. *)
Definition lower (a : ascii) : nat :=
  let n := byte a in if ((65 <=? n) && (n <=? 90))%nat then (n + 32)%nat else n.
Definition same_letter (a b : ascii) : bool := (lower a =? lower b)%nat.

(** [format.replace(/([a-z])(\1)*/ig, f)]: [cur] is the run being read. *)
Fixpoint replace_runs (f : string -> string) (cur s : string) : string :=
  match s with
  | EmptyString => match cur with EmptyString => "" | _ => f cur end
  | String a s' =>
      if is_letter a then
        match cur with
        | EmptyString => replace_runs f (String a "") s'
        | String b _ =>
            if same_letter a b then replace_runs f (cur +:+ String a "") s'
            else f cur +:+ replace_runs f (String a "") s'
        end
      else match cur with EmptyString => "" | _ => f cur end +:+ String a (replace_runs f "" s')
  end.

(** [format || (format = ...)]: the empty format is replaced too. *)
Definition formatDate (d : date) (format : option string) : string :=
  let format :=
    match format with
    | None | Some EmptyString => "yyyy-MM-dd hh:mm:ss"
    | Some f => f
    end in
  replace_runs (cfg d) "" format.

Definition preId (id : string) : string :=
  match index_of "#" id with None => "#" +:+ id | Some _ => id end.

Definition parseIntById (id : string) : prog val :=
  text <- val_of (preId id) ;;
  Ret (if hasText text then parse_int text else int 1).

(** ** What the helpers guarantee *)

Lemma hasText_spec v :
  hasText v = true <-> v <> Undef /\ v <> Null /\ trim (to_str v) <> "".
Proof.
  unfold hasText. destruct v; try (rewrite negb_true_iff, String.eqb_neq);
    split; (done || by intros (? & ? & ?)).
Qed.

(** A field of a date that the scripts print. *)
Definition date_ok (d : date) : Prop :=
  1000 <= getFullYear d <= 9999 /\ 0 <= getMonth d <= 11 /\ 1 <= getDate d <= 31 /\
  0 <= getHours d <= 23 /\ 0 <= getMinutes d <= 59 /\ 0 <= getSeconds d <= 59.

Lemma formatDate_default d :
  formatDate d None =
    string_of_Z (getFullYear d) +:+ "-" +:+ paddNum (getMonth d + 1) +:+ "-" +:+
    paddNum (getDate d) +:+ " " +:+ string_of_Z (getHours d) +:+ ":" +:+
    string_of_Z (getMinutes d) +:+ ":" +:+ string_of_Z (getSeconds d).
Proof. lazy -[string_of_Z paddNum Z.add getFullYear getMonth getDate getHours getMinutes getSeconds]. reflexivity. Qed.

(** Finite enumeration of the small fields. *)
Definition zrange (a : Z) (n : nat) : list Z := (fun i => a + Z.of_nat i) <$> seq 0 n.

Lemma zrange_forall (P : Z -> bool) a n :
  forallb P (zrange a n) = true -> forall z, a <= z < a + Z.of_nat n -> P z = true.
Proof.
  intros H z Hz. rewrite forallb_forall in H. apply H.
  apply list_elem_of_In, list_elem_of_fmap. exists (Z.to_nat (z - a)).
  split; [lia|]. apply elem_of_seq. lia.
Qed.

Lemma paddNum_length n : 0 <= n <= 99 -> String.length (paddNum n) = 2%nat.
Proof.
  intros Hn.
  pose proof (zrange_forall (fun n => (String.length (paddNum n) =? 2)%nat) 0 100) as H.
  apply Nat.eqb_eq, H; [vm_compute; reflexivity|lia].
Qed.

Lemma preId_hash id : exists s, preId id = s /\ has_char "#" s = true.
Proof.
  eexists; split; [done|]. unfold preId. destruct (index_of "#" id) eqn:E.
  - apply index_of_char. by rewrite E.
  - rewrite str_app_cons, has_char_cons. done.
Qed.
