(* ===== verification/DatePairs.v ===== *)
(** * Date ranges of the monitoring and task pages

    The pages that query a period carry the same three functions
    (cluster/loadInfoData.js, cluster/rangetopu.js, task/loadtaskInfoData.js,
    the monitor pages): [padding] and [formatDate] print an instant to the
    minute, and [datePairs] fills the two fields of a period and keeps their
    order when one of them changes.  [local_date] is the standard's conversion
    of a time value to calendar fields. *)

From S2P Require Import Prelude JsValue Browser Logic Utils.

(** ** Calendar fields of a time value *)

Definition ms_per_day : Z := 86400000.

(** Days since 1970-01-01 to the proleptic Gregorian year, month (from 0) and
    day of month; years start in March inside a 400-year era. *)
Definition civil_of_days (days : Z) : Z * Z * Z :=
  let z := days + 719468 in
  let era := z / 146097 in
  let doe := z - era * 146097 in
  let yoe := (doe - doe / 1460 + doe / 36524 - doe / 146096) / 365 in
  let doy := doe - (365 * yoe + yoe / 4 - yoe / 100) in
  let mp := (5 * doy + 2) / 153 in
  let d := doy - (153 * mp + 2) / 5 + 1 in
  let m := if mp <? 10 then mp + 3 else mp - 9 in
  let y := yoe + era * 400 + (if m <=? 2 then 1 else 0) in
  (y, m - 1, d).

(** [new Date(t)] read in a zone that is [off] milliseconds ahead of UTC. *)
Definition local_date (off t : Z) : date :=
  let l := t + off in
  let '(y, m, d) := civil_of_days (l / ms_per_day) in
  Date y m d (l / 3600000 mod 24) (l / 60000 mod 60) (l / 1000 mod 60).

(** ** The functions of the pages *)

(** [if (str > 0 && str < 10) return '0' + str; else return str;] *)
Definition padding (str : Z) : string :=
  if (0 <? str) && (str <? 10) then "0" +:+ string_of_Z str else string_of_Z str.

Definition formatDate (d : date) : string :=
  let year := string_of_Z (getFullYear d) in
  let month := padding (getMonth d + 1) in
  let date := padding (getDate d) in
  let hour := padding (getHours d) in
  let minute := padding (getMinutes d) in
  year +:+ "-" +:+ month +:+ "-" +:+ date +:+ " " +:+ hour +:+ ":" +:+ minute.

(** The [changeDate] listeners of the two fields. *)
Definition changeStart (date1 date2 : string) : prog unit :=
  v1 <- val_of date1 ;;
  v2 <- val_of date2 ;;
  if js_gt v1 v2 then
    alert (Str "开始时间不能大于结束时间") ;;
    set_val date1 v2 ;;
    call "datetimepicker" [Str date1; Str "update"]
  else done.

Definition changeEnd (date1 date2 : string) : prog unit :=
  v1 <- val_of date1 ;;
  v2 <- val_of date2 ;;
  if js_gt v1 v2 then
    alert (Str "束时间不能小于开始时间") ;;
    set_val date2 v1 ;;
    call "datetimepicker" [Str date2; Str "update"]
  else done.

Definition month_ms : Z := 1000 * 60 * 60 * 24 * 30.
Definition four_hours_ms : Z := 4 * 1000 * 60 * 60.

(** The options of a picker; [off] is the zone of the browser. *)
Definition picker_options (startDate endDate : Z) : val :=
  Obj [("format", Str "yyyy-mm-dd hh:ii"); ("autoclose", Bool true); ("todayBtn", Bool true);
       ("startDate", int startDate); ("endDate", int endDate)].

Definition datePairs (off : Z) (date1 date2 : string) (start maxDate : val) : prog unit :=
  now <- op1 ONow ;;
  let nowdate := match now with Num (Fin z) => z | _ => 0 end in
  let span v d := match v with Num (Fin z) => if z =? 0 then d else z | _ => d end in
  let startDate := nowdate - span maxDate month_ms in
  let defaultEnd := formatDate (local_date off nowdate) in
  let startVal := span start four_hours_ms in
  let defaultStart := formatDate (local_date off (nowdate - startVal)) in
  call "datetimepicker" [Str date1; picker_options startDate nowdate] ;;
  call "datetimepicker" [Str date2; picker_options startDate nowdate] ;;
  set_val date1 (Str defaultStart) ;;
  call "datetimepicker" [Str date1; Str "update"] ;;
  set_val date2 (Str defaultEnd) ;;
  call "datetimepicker" [Str date2; Str "update"].
