(* ===== verification/DateOrder.v ===== *)
(** * Comparing periods as texts

    The pages compare the two fields of a period as texts.  This file relates
    that comparison to the order of the instants the fields show
    ([formatDate_order]), and shows for which defaults of [datePairs] the two
    disagree ([default_period_order]). *)

From S2P Require Import Prelude JsValue Browser Logic Utils DatePairs.
From Stdlib Require Import Ascii.

(** ** Comparison of texts *)

Definition then_cmp (c1 c2 : comparison) : comparison :=
  match c1 with Eq => c2 | _ => c1 end.

(** The order of the first position at which the texts differ. *)
Fixpoint first_diff (s1 s2 : string) : option comparison :=
  match s1, s2 with
  | String a s1', String b s2' =>
      match Ascii.compare a b with Eq => first_diff s1' s2' | c => Some c end
  | _, _ => None
  end.

Lemma ascii_compare_refl a : Ascii.compare a a = Eq.
Proof. apply N.compare_refl. Qed.

Lemma compare_app_same s t1 t2 : String.compare (s +:+ t1) (s +:+ t2) = String.compare t1 t2.
Proof.
  induction s as [|a s IH]; [done|]. rewrite !str_app_cons. cbn. by rewrite ascii_compare_refl.
Qed.

Lemma compare_first_diff s1 s2 t1 t2 c :
  first_diff s1 s2 = Some c -> String.compare (s1 +:+ t1) (s2 +:+ t2) = c.
Proof.
  revert s2. induction s1 as [|a s1 IH]; intros [|b s2]; try done.
  rewrite !str_app_cons. cbn. destruct (Ascii.compare a b); [apply IH| |]; congruence.
Qed.

(** A field of a text, ordered like the number it shows. *)
Lemma compare_field (f : Z -> string) z1 z2 t1 t2 :
  (z1 <> z2 -> first_diff (f z1) (f z2) = Some (z1 ?= z2)) ->
  String.compare (f z1 +:+ t1) (f z2 +:+ t2) = then_cmp (z1 ?= z2) (String.compare t1 t2).
Proof.
  intros H. destruct (decide (z1 = z2)) as [->|Hne].
  - by rewrite compare_app_same, Z.compare_refl.
  - rewrite (compare_first_diff _ _ _ _ _ (H Hne)). destruct (Z.compare_spec z1 z2); done.
Qed.

Lemma ascii_compare_lt a b :
  Ascii.compare a b = Lt <-> (N_of_ascii a < N_of_ascii b)%N.
Proof. apply N.compare_lt_iff. Qed.

Lemma first_diff_trans s1 s2 s3 :
  first_diff s1 s2 = Some Lt -> first_diff s2 s3 = Some Lt -> String.length s1 = String.length s2 ->
  first_diff s1 s3 = Some Lt.
Proof.
  revert s2 s3. induction s1 as [|a s1 IH]; intros [|b s2] [|c s3]; try done. cbn.
  destruct (Ascii.compare a b) eqn:E1; [|intros _|done].
  - apply Ascii.compare_eq_iff in E1 as ->. destruct (Ascii.compare b c); [|done..].
    intros H1 H2 Hl. apply (IH s2); [done|done|]. by injection Hl.
  - destruct (Ascii.compare b c) eqn:E2; [|intros _ _|done].
    + apply Ascii.compare_eq_iff in E2 as ->. by rewrite E1.
    + apply ascii_compare_lt in E1, E2.
      assert (E3 : Ascii.compare a c = Lt) by (apply ascii_compare_lt; by eapply N.lt_trans). by rewrite E3.
Qed.

(** ** Checks of finite ranges *)

Fixpoint all_from (P : Z -> bool) (a : Z) (n : nat) : bool :=
  match n with
  | O => true
  | S n' => if P a then all_from P (a + 1) n' else false
  end.

Lemma all_from_spec P a n z : all_from P a n = true -> a <= z < a + Z.of_nat n -> P z = true.
Proof.
  revert a. induction n as [|n IH]; intros a; cbn [all_from]; [lia|].
  destruct (P a) eqn:E; [|done]. intros H Hz. destruct (decide (z = a)) as [->|]; [done|].
  apply (IH (a + 1)); [done|lia].
Qed.

Lemma all_pairs_spec (P : Z -> Z -> bool) a n z1 z2 :
  all_from (fun x => all_from (P x) a n) a n = true ->
  a <= z1 < a + Z.of_nat n -> a <= z2 < a + Z.of_nat n -> P z1 z2 = true.
Proof.
  intros H H1 H2. apply (all_from_spec _ _ _ z1) in H; [|done].
  by apply (all_from_spec _ _ _ z2) in H.
Qed.

Definition cmp_eqb (c d : comparison) : bool :=
  match c, d with Eq, Eq | Lt, Lt | Gt, Gt => true | _, _ => false end.

Lemma cmp_eqb_eq c d : cmp_eqb c d = true <-> c = d.
Proof. by destruct c, d. Qed.

(** The printed field with the separator that follows it. *)
Definition ended (sep : string) (z : Z) : string := padding z +:+ sep.

Definition diff_is (f : Z -> string) (z1 z2 : Z) : bool :=
  (z1 =? z2) || match first_diff (f z1) (f z2) with Some c => cmp_eqb c (z1 ?= z2) | None => false end.

Lemma diff_is_spec f z1 z2 :
  diff_is f z1 z2 = true -> z1 <> z2 -> first_diff (f z1) (f z2) = Some (z1 ?= z2).
Proof.
  unfold diff_is. intros H Hne. apply Z.eqb_neq in Hne. rewrite Hne in H. cbn in H.
  destruct (first_diff (f z1) (f z2)) as [c|]; [|done]. apply cmp_eqb_eq in H. by subst.
Qed.

Lemma month_diff m1 m2 :
  1 <= m1 <= 12 -> 1 <= m2 <= 12 -> m1 <> m2 ->
  first_diff (ended "-" m1) (ended "-" m2) = Some (m1 ?= m2).
Proof.
  intros H1 H2. apply diff_is_spec, (all_pairs_spec _ 1 12); [vm_compute; reflexivity|lia..].
Qed.

Lemma day_diff d1 d2 :
  1 <= d1 <= 31 -> 1 <= d2 <= 31 -> d1 <> d2 ->
  first_diff (ended " " d1) (ended " " d2) = Some (d1 ?= d2).
Proof.
  intros H1 H2. apply diff_is_spec, (all_pairs_spec _ 1 31); [vm_compute; reflexivity|lia..].
Qed.

(** Midnight is printed with one digit: its order with the hours 1 to 9 is
    lost. *)
Definition hours_comparable (h1 h2 : Z) : bool :=
  negb ((h1 =? 0) && (1 <=? h2) && (h2 <=? 9) || (h2 =? 0) && (1 <=? h1) && (h1 <=? 9)).

Lemma hour_diff h1 h2 :
  0 <= h1 <= 23 -> 0 <= h2 <= 23 -> hours_comparable h1 h2 = true -> h1 <> h2 ->
  first_diff (ended ":" h1) (ended ":" h2) = Some (h1 ?= h2).
Proof.
  intros H1 H2 Hc.
  pose proof (all_pairs_spec (fun h1 h2 => negb (hours_comparable h1 h2) || diff_is (ended ":") h1 h2)
                0 24 h1 h2) as H.
  cbn beta in H. rewrite Hc in H. apply diff_is_spec, H; [vm_compute; reflexivity|lia..].
Qed.

Lemma hour_zero_after h : 1 <= h <= 9 -> first_diff (ended ":" 0) (ended ":" h) = Some Gt.
Proof.
  intros H.
  pose proof (all_from_spec (fun h => match first_diff (ended ":" 0) (ended ":" h) with
                                      | Some Gt => true | _ => false end) 1 9 h) as Hc.
  cbn beta in Hc. destruct (first_diff _ _) as [[]|]; try done;
    (discriminate Hc; [vm_compute; reflexivity|lia]).
Qed.

Lemma minute_compare m1 m2 :
  0 <= m1 <= 59 -> 0 <= m2 <= 59 -> String.compare (padding m1) (padding m2) = (m1 ?= m2).
Proof.
  intros H1 H2. apply cmp_eqb_eq.
  apply (all_pairs_spec (fun m1 m2 => cmp_eqb (String.compare (padding m1) (padding m2)) (m1 ?= m2)) 0 60);
    [vm_compute; reflexivity|lia..].
Qed.

(** Years of four digits. *)
Definition year_step (z : Z) : bool :=
  match first_diff (string_of_Z z +:+ "-") (string_of_Z (z + 1) +:+ "-") with
  | Some Lt => (String.length (string_of_Z z) =? 4)%nat
  | _ => false
  end.

Lemma year_steps : all_from year_step 1000 (Z.to_nat 8999) = true.
Proof. vm_compute. reflexivity. Qed.

Definition year_text (z : Z) : string := string_of_Z z +:+ "-".

Lemma year_step_spec z :
  1000 <= z < 9999 ->
  first_diff (year_text z) (year_text (z + 1)) = Some Lt /\ String.length (year_text z) = 5%nat.
Proof.
  intros Hz. pose proof (all_from_spec _ _ _ z year_steps ltac:(lia)) as H.
  unfold year_step in H. unfold year_text. destruct (first_diff _ _) as [[]|]; try done.
  split; [done|]. rewrite str_length_app. apply Nat.eqb_eq in H. by rewrite H.
Qed.

Lemma year_lt k z :
  1000 <= z -> z + Z.of_nat k < 9999 ->
  first_diff (year_text z) (year_text (z + Z.of_nat k + 1)) = Some Lt.
Proof.
  intros Hz. induction k as [|k IH]; intros Hk.
  - rewrite Z.add_0_r. by apply year_step_spec; lia.
  - apply (first_diff_trans _ (year_text (z + Z.of_nat k + 1))).
    + apply IH. lia.
    + replace (z + Z.of_nat (S k) + 1) with (z + Z.of_nat k + 1 + 1) by lia.
      apply year_step_spec. lia.
    + destruct (year_step_spec z) as [_ ->]; [lia|].
      by destruct (year_step_spec (z + Z.of_nat k + 1)) as [_ ->]; [lia|].
Qed.

Lemma first_diff_sym s1 s2 : first_diff s1 s2 = CompOpp <$> first_diff s2 s1.
Proof.
  revert s2. induction s1 as [|a s1 IH]; intros [|b s2]; try done. cbn.
  rewrite Ascii.compare_antisym. destruct (Ascii.compare b a); [apply IH|done..].
Qed.

Lemma year_diff y1 y2 :
  1000 <= y1 <= 9999 -> 1000 <= y2 <= 9999 -> y1 <> y2 ->
  first_diff (year_text y1) (year_text y2) = Some (y1 ?= y2).
Proof.
  intros H1 H2 Hne. destruct (Z.compare_spec y1 y2) as [|Hlt|Hgt]; [done| |].
  - pose proof (year_lt (Z.to_nat (y2 - y1 - 1)) y1) as H.
    replace (y1 + Z.of_nat (Z.to_nat (y2 - y1 - 1)) + 1) with y2 in H by lia. apply H; lia.
  - pose proof (year_lt (Z.to_nat (y1 - y2 - 1)) y2) as H.
    replace (y2 + Z.of_nat (Z.to_nat (y1 - y2 - 1)) + 1) with y1 in H by lia.
    rewrite first_diff_sym, H by lia. done.
Qed.

(** ** The printed date *)

(** Order of the fields of two dates, to the minute. *)
Definition day_cmp (d1 d2 : date) : comparison :=
  then_cmp (getFullYear d1 ?= getFullYear d2)
    (then_cmp (getMonth d1 ?= getMonth d2) (getDate d1 ?= getDate d2)).
Definition minute_cmp (d1 d2 : date) : comparison :=
  then_cmp (getHours d1 ?= getHours d2) (getMinutes d1 ?= getMinutes d2).

Lemma then_cmp_assoc c1 c2 c3 : then_cmp (then_cmp c1 c2) c3 = then_cmp c1 (then_cmp c2 c3).
Proof. by destruct c1. Qed.

(** The hour and the minute as [formatDate] prints them. *)
Definition clock (d : date) : string := ended ":" (getHours d) +:+ padding (getMinutes d).

Lemma formatDate_split d :
  DatePairs.formatDate d =
    year_text (getFullYear d) +:+ ended "-" (getMonth d + 1) +:+ ended " " (getDate d) +:+ clock d.
Proof.
  unfold DatePairs.formatDate, year_text, ended, clock, ended. by autorewrite with str.
Qed.

Lemma formatDate_compare d1 d2 :
  date_ok d1 -> date_ok d2 ->
  String.compare (DatePairs.formatDate d1) (DatePairs.formatDate d2) =
    then_cmp (day_cmp d1 d2) (String.compare (clock d1) (clock d2)).
Proof.
  intros (Hy1 & Hm1 & Hd1 & _) (Hy2 & Hm2 & Hd2 & _). rewrite !formatDate_split.
  rewrite (compare_field year_text) by (by apply year_diff).
  rewrite (compare_field (ended "-")) by (apply month_diff; lia).
  rewrite (compare_field (ended " ")) by (by apply day_diff).
  unfold day_cmp. by rewrite !then_cmp_assoc, !(Z.add_comm _ 1), Z.add_compare_mono_l.
Qed.

Lemma clock_compare d1 d2 :
  date_ok d1 -> date_ok d2 -> hours_comparable (getHours d1) (getHours d2) = true ->
  String.compare (clock d1) (clock d2) = minute_cmp d1 d2.
Proof.
  intros (_ & _ & _ & Hh1 & Hm1 & _) (_ & _ & _ & Hh2 & Hm2 & _) Hc. unfold clock.
  rewrite (compare_field (ended ":")) by (by apply hour_diff). by rewrite minute_compare.
Qed.

(** ** The calendar follows the time *)

(** First day of a year of the era, counted in days from its first March. *)
Definition year_start (y : Z) : Z := 365 * y + y / 4 - y / 100.

(** Sum of which the year of the era is the 365th part. *)
Definition year_sum (doe : Z) : Z := doe - doe / 1460 + doe / 36524 - doe / 146096.

Lemma year_sum_mono a b : 0 <= a <= b -> b <= 146096 -> year_sum a <= year_sum b.
Proof. unfold year_sum. intros. Z.to_euclidean_division_equations. lia. Qed.

Definition year_of (doe : Z) : Z := year_sum doe / 365.
Definition year_last (y : Z) : Z := if y =? 399 then 146096 else year_start (y + 1) - 1.

Lemma year_of_ends y :
  0 <= y <= 399 -> year_of (year_start y) = y /\ year_of (year_last y) = y.
Proof.
  intros Hy.
  pose proof (all_from_spec (fun y => (year_of (year_start y) =? y) && (year_of (year_last y) =? y))
                0 400 y eq_refl ltac:(lia)) as H.
  apply andb_true_iff in H as [H1 H2]. split; by apply Z.eqb_eq.
Qed.

Lemma year_of_mono a b : 0 <= a <= b -> b <= 146096 -> year_of a <= year_of b.
Proof. intros. apply Z.div_le_mono; [lia|]. by apply year_sum_mono. Qed.

Lemma year_start_range y : 0 <= y <= 399 -> 0 <= year_start y <= year_last y /\
  year_last y <= 146096 /\ year_last y - year_start y <= 365.
Proof.
  unfold year_last, year_start. intros. destruct (Z.eqb_spec y 399) as [->|]; [done|].
  Z.to_euclidean_division_equations. lia.
Qed.

(** The year of the era is the one whose days contain the day. *)
Lemma year_of_spec doe :
  0 <= doe <= 146096 ->
  0 <= year_of doe <= 399 /\ year_start (year_of doe) <= doe <= year_last (year_of doe).
Proof.
  intros Hd. pose proof (year_of_mono 0 doe ltac:(lia) ltac:(lia)) as H0.
  pose proof (year_of_mono doe 146096 ltac:(lia) ltac:(lia)) as H1.
  change (year_of 0) with 0 in H0. change (year_of 146096) with 399 in H1.
  set (y := year_of doe) in *. split; [lia|]. split; apply Z.nlt_ge; intros Hlt.
  - assert (Hy : y <> 0) by (intros ->; change (year_start 0) with 0 in Hlt; lia).
    assert (Hp : year_last (y - 1) = year_start y - 1).
    { unfold year_last. destruct (Z.eqb_spec (y - 1) 399); [lia|]. f_equal. f_equal. lia. }
    pose proof (year_start_range (y - 1) ltac:(lia)).
    pose proof (year_of_mono doe (year_last (y - 1)) ltac:(lia) ltac:(lia)) as Hm.
    destruct (year_of_ends (y - 1)) as [_ He]; [lia|]. lia.
  - unfold year_last in Hlt. destruct (Z.eqb_spec y 399); [lia|].
    pose proof (year_start_range (y + 1) ltac:(lia)).
    pose proof (year_of_mono (year_start (y + 1)) doe ltac:(lia) ltac:(lia)) as Hm.
    destruct (year_of_ends (y + 1)) as [He _]; lia.
Qed.

(** A day in the calendar of the era: its era, year, day of the year from
    March, and month from March. *)
Record march_day := MarchDay { md_era : Z; md_year : Z; md_doy : Z; md_month : Z }.

Definition march (days : Z) : march_day :=
  let z := days + 719468 in
  let era := z / 146097 in
  let doe := z - era * 146097 in
  let doy := doe - year_start (year_of doe) in
  MarchDay era (year_of doe) doy ((5 * doy + 2) / 153).

Definition month_day (m : march_day) : Z := md_doy m - (153 * md_month m + 2) / 5 + 1.

Definition march_ok (m : march_day) : Prop :=
  0 <= md_year m <= 399 /\ 0 <= md_doy m <= 365 /\ 0 <= md_month m <= 11 /\
  1 <= month_day m <= 31.

(** Months since year 0 of the calendar that [civil_of_days] returns. *)
Definition months (m : march_day) : Z := (md_year m + md_era m * 400) * 12 + md_month m + 2.

Lemma march_range days : march_ok (march days).
Proof.
  unfold march, march_ok, month_day. cbn [md_year md_doy md_month]. set (z := days + 719468).
  pose proof (Z.mod_pos_bound z 146097 ltac:(lia)) as Hz. rewrite Z.mod_eq in Hz by lia.
  destruct (year_of_spec (z - z / 146097 * 146097)) as [Hy Hd]; [lia|].
  set (doe := z - z / 146097 * 146097) in *. pose proof (year_start_range _ Hy).
  assert (Hdoy : 0 <= doe - year_start (year_of doe) <= 365) by lia.
  generalize dependent (doe - year_start (year_of doe)). intros doy Hdoy.
  Z.to_euclidean_division_equations. lia.
Qed.

Lemma civil_months y mp :
  0 <= mp <= 11 ->
  let m := if mp <? 10 then mp + 3 else mp - 9 in
  y + (if m <=? 2 then 1 else 0) = (y * 12 + mp + 2) / 12 /\ m - 1 = (y * 12 + mp + 2) mod 12.
Proof.
  intros Hm. cbv zeta. destruct (Z.ltb_spec mp 10).
  - destruct (Z.leb_spec (mp + 3) 2); Z.to_euclidean_division_equations; lia.
  - destruct (Z.leb_spec (mp - 9) 2); Z.to_euclidean_division_equations; lia.
Qed.

Lemma civil_march days :
  civil_of_days days = (months (march days) / 12, months (march days) mod 12, month_day (march days)).
Proof.
  pose proof (march_range days) as (_ & _ & Hm & _). unfold civil_of_days.
  set (z := days + 719468). set (doe := z - z / 146097 * 146097).
  change ((doe - doe / 1460 + doe / 36524 - doe / 146096) / 365) with (year_of doe).
  change (365 * year_of doe + year_of doe / 4 - year_of doe / 100) with (year_start (year_of doe)).
  unfold march, months, month_day in *. cbn [md_year md_doy md_month md_era] in *.
  fold z in Hm |- *. fold doe in Hm |- *.
  set (mp := (5 * (doe - year_start (year_of doe)) + 2) / 153) in *.
  destruct (civil_months (year_of doe + z / 146097 * 400) mp Hm) as [Hy Hmon].
  by rewrite <- Hy, <- Hmon.
Qed.

(** Later days have later calendar fields. *)
Lemma march_mono days1 days2 :
  days1 < days2 ->
  months (march days1) < months (march days2) \/
  months (march days1) = months (march days2) /\ month_day (march days1) < month_day (march days2).
Proof.
  intros Hlt. pose proof (march_range days1) as H1. pose proof (march_range days2) as H2.
  assert (Hlex : md_era (march days1) < md_era (march days2) \/
    md_era (march days1) = md_era (march days2) /\
      (md_year (march days1) < md_year (march days2) \/
       md_year (march days1) = md_year (march days2) /\ md_doy (march days1) < md_doy (march days2))).
  { unfold march. cbn [md_era md_year md_doy].
    set (z1 := days1 + 719468). set (z2 := days2 + 719468).
    assert (He : z1 / 146097 <= z2 / 146097) by (apply Z.div_le_mono; lia).
    destruct (decide (z1 / 146097 = z2 / 146097)) as [E|]; [right; split; [done|]|left; lia].
    rewrite <- E. pose proof (Z.mod_pos_bound z1 146097 ltac:(lia)) as Hz1.
    pose proof (Z.mod_pos_bound z2 146097 ltac:(lia)) as Hz2.
    rewrite Z.mod_eq in Hz1, Hz2 by lia. rewrite <- E in Hz2.
    set (doe1 := z1 - z1 / 146097 * 146097). set (doe2 := z2 - z1 / 146097 * 146097).
    pose proof (year_of_mono doe1 doe2 ltac:(lia) ltac:(lia)).
    destruct (decide (year_of doe1 = year_of doe2)) as [->|]; lia. }
  assert (Hm : forall m, md_month (march m) = (5 * md_doy (march m) + 2) / 153) by done.
  pose proof (Hm days1) as Hm1. pose proof (Hm days2) as Hm2.
  unfold march_ok, month_day, months in *. clear Hm Hlt.
  destruct (march days1) as [e1 y1 d1 m1], (march days2) as [e2 y2 d2 m2].
  cbn [md_era md_year md_doy md_month] in *. Z.to_euclidean_division_equations. lia.
Qed.

(** ** Texts and instants *)

Definition local_day (off t : Z) : Z := (t + off) / ms_per_day.
Definition local_minute (off t : Z) : Z := (t + off) / 60000.
Definition local_hour (off t : Z) : Z := getHours (local_date off t).

(** The year has four digits. *)
Definition year_ok (off t : Z) : Prop := 1000 <= getFullYear (local_date off t) <= 9999.

Lemma local_date_march off t :
  local_date off t =
    let m := march (local_day off t) in
    Date (months m / 12) (months m mod 12) (month_day m)
      ((t + off) / 3600000 mod 24) ((t + off) / 60000 mod 60) ((t + off) / 1000 mod 60).
Proof. unfold local_date. fold (local_day off t). by rewrite civil_march. Qed.

Lemma local_date_ok off t : year_ok off t -> date_ok (local_date off t).
Proof.
  unfold year_ok. rewrite local_date_march. cbv zeta.
  pose proof (march_range (local_day off t)) as (_ & _ & _ & Hd).
  unfold date_ok. cbn [getFullYear getMonth getDate getHours getMinutes getSeconds].
  intros Hy. split; [done|]. split; [|split; [done|]]; Z.to_euclidean_division_equations; lia.
Qed.

Lemma day_cmp_local off t1 t2 :
  day_cmp (local_date off t1) (local_date off t2) = (local_day off t1 ?= local_day off t2).
Proof.
  rewrite !local_date_march. unfold day_cmp. cbn [getFullYear getMonth getDate].
  assert (Hmono : forall a b, a < b ->
    then_cmp (months (march a) / 12 ?= months (march b) / 12)
      (then_cmp (months (march a) mod 12 ?= months (march b) mod 12)
         (month_day (march a) ?= month_day (march b))) = Lt).
  { intros a b Hab. pose proof (march_mono a b Hab) as Hm.
    destruct (Z.compare_spec (months (march a) / 12) (months (march b) / 12)); [|done|];
      [destruct (Z.compare_spec (months (march a) mod 12) (months (march b) mod 12)); [|done|];
        [destruct (Z.compare_spec (month_day (march a)) (month_day (march b))); [|done|]|]|];
      exfalso; Z.to_euclidean_division_equations; lia. }
  destruct (Z.compare_spec (local_day off t1) (local_day off t2)) as [->|Hlt|Hgt].
  - by rewrite !Z.compare_refl.
  - by apply Hmono.
  - apply Hmono in Hgt. revert Hgt. rewrite (Z.compare_antisym (months (march (local_day off t1)) / 12)),
      (Z.compare_antisym (months (march (local_day off t1)) mod 12)),
      (Z.compare_antisym (month_day (march (local_day off t1)))).
    by repeat destruct (_ ?= _).
Qed.

(** The fields of the clock count the minutes of the day. *)
Lemma minute_cmp_local off t1 t2 :
  then_cmp (local_day off t1 ?= local_day off t2) (minute_cmp (local_date off t1) (local_date off t2)) =
  (local_minute off t1 ?= local_minute off t2).
Proof.
  rewrite !local_date_march. unfold minute_cmp, local_day, local_minute, ms_per_day.
  cbn [getHours getMinutes]. generalize (t1 + off) (t2 + off). clear. intros l1 l2.
  destruct (Z.compare_spec (l1 / 86400000) (l2 / 86400000)); cbn [then_cmp];
    [destruct (Z.compare_spec (l1 / 3600000 mod 24) (l2 / 3600000 mod 24)); cbn [then_cmp];
      [destruct (Z.compare_spec (l1 / 60000 mod 60) (l2 / 60000 mod 60))|..]|..];
    symmetry; rewrite ?Z.compare_eq_iff, ?Z.compare_lt_iff, ?Z.compare_gt_iff;
    Z.to_euclidean_division_equations; lia.
Qed.

Lemma js_gt_compare s1 s2 : js_gt (Str s1) (Str s2) = cmp_eqb (String.compare s1 s2) Gt.
Proof.
  cbn. unfold String.ltb. rewrite String.compare_antisym. by destruct (String.compare s1 s2).
Qed.

Lemma formatDate_gt (off t1 t2 : Z) :
  year_ok off t1 -> year_ok off t2 ->
  (local_day off t1 = local_day off t2 -> hours_comparable (local_hour off t1) (local_hour off t2) = true) ->
  js_gt (Str (DatePairs.formatDate (local_date off t1))) (Str (DatePairs.formatDate (local_date off t2))) =
  (local_minute off t2 <? local_minute off t1).
Proof.
  intros H1%local_date_ok H2%local_date_ok Hc. rewrite js_gt_compare, formatDate_compare by done.
  assert (Hm := minute_cmp_local off t1 t2). rewrite day_cmp_local.
  destruct (Z.compare_spec (local_day off t1) (local_day off t2)) as [E| |]; cbn [then_cmp] in *.
  - rewrite clock_compare by auto. rewrite Hm, Z.ltb_compare, Z.compare_antisym.
    by destruct (local_minute off t2 ?= _).
  - symmetry in Hm. apply Z.compare_lt_iff in Hm. symmetry. apply Z.ltb_ge. by apply Z.lt_le_incl.
  - symmetry in Hm. apply Z.compare_gt_iff in Hm. symmetry. by apply Z.ltb_lt.
Qed.

(** C24: two instants printed by [formatDate] compare as texts as they compare in
    time, to the minute, except on one day when one is printed in hour 0 and the
    other in an hour from 1 to 9. *)
Theorem formatDate_order (off t1 t2 : Z) :
  year_ok off t1 -> year_ok off t2 ->
  (local_day off t1 = local_day off t2 -> hours_comparable (local_hour off t1) (local_hour off t2) = true) ->
  js_gt (Str (DatePairs.formatDate (local_date off t1))) (Str (DatePairs.formatDate (local_date off t2))) =
  (local_minute off t2 <? local_minute off t1).
Proof. apply formatDate_gt. Qed.

(** Applying the theorem to two instants of 13 and 15 o'clock on 2017-07-14. *)
Lemma formatDate_order_witness :
  js_gt (Str (DatePairs.formatDate (local_date 28800000 1500016800000)))
        (Str (DatePairs.formatDate (local_date 28800000 1500009600000))) =
  (local_minute 28800000 1500009600000 <? local_minute 28800000 1500016800000).
Proof.
  apply formatDate_order; [split; vm_compute; discriminate..|]. intros _. vm_compute. reflexivity.
Defined.

(** ** The fields of a period *)

Lemma value_set_eq E sel v w : value_of (task E (set_val sel v) w) sel = v.
Proof. cbn. unfold value_of, attr_of. cbn. by rewrite lookup_insert_eq. Qed.

Lemma value_set_ne E sel sel' v w :
  sel <> sel' -> value_of (task E (set_val sel v) w) sel' = value_of w sel'.
Proof. intros Hne. cbn. unfold value_of, attr_of. cbn. rewrite lookup_insert_ne; congruence. Qed.

Lemma js_gt_irrefl v : js_gt v v = false.
Proof.
  destruct v; cbn [js_gt]; try by (case_goal; rewrite ?Z.ltb_irrefl).
  unfold String.ltb. pose proof (compare_app_same s "" "") as H. rewrite !str_app_nil_r in H. by rewrite H.
Qed.

Definition default_start (off now : Z) : string := DatePairs.formatDate (local_date off (now - four_hours_ms)).
Definition default_end (off now : Z) : string := DatePairs.formatDate (local_date off now).

Lemma datePairs_values E off date1 date2 w :
  date1 <> date2 ->
  let w' := task E (datePairs off date1 date2 Undef Undef) w in
  value_of w' date1 = Str (default_start off (e_now E (w_out w))) /\
  value_of w' date2 = Str (default_end off (e_now E (w_out w))).
Proof.
  intros Hne. cbv zeta. unfold task, datePairs, op1, call, set_val, do_op.
  cbn [bind run exec_op finish int]. cbv zeta.
  unfold default_start, default_end.
  set (start := DatePairs.formatDate (local_date off (_ - four_hours_ms))).
  set (stop := DatePairs.formatDate (local_date off (e_now E (w_out w)))). clearbody start stop.
  unfold value_of, attr_of. cbn. rewrite lookup_insert_ne, !lookup_insert_eq by congruence. done.
Qed.

(** The start of the period is not after its end, as texts. *)
Definition ordered (date1 date2 : string) (w : world) : Prop :=
  js_gt (value_of w date1) (value_of w date2) = false.


Definition period_fields : world :=
  fresh (list_to_map [(("#start", "value"), Str "2017-07-14 15:00"); (("#end", "value"), Str "2017-07-14 13:00")]).


(** The day and the hour in terms of the hours since the epoch. *)
Lemma local_hour_day off t :
  local_hour off t = (t + off) / 3600000 mod 24 /\ local_day off t = (t + off) / 3600000 / 24.
Proof.
  unfold local_hour, local_day, ms_per_day. rewrite local_date_march. cbn [getHours].
  split; [done|]. by rewrite Z.div_div.
Qed.

Lemma four_hours_before off t :
  (t - four_hours_ms + off) / 3600000 = (t + off) / 3600000 - 4.
Proof.
  replace (t - four_hours_ms + off) with (t + off + (-4) * 3600000) by (unfold four_hours_ms; lia).
  by rewrite Z.div_add.
Qed.

(** Four hours before hour [h] of a day it is hour [h - 4] of that day, or
    another day. *)
Lemma four_hours_earlier off t :
  local_day off (t - four_hours_ms) = local_day off t /\ local_hour off (t - four_hours_ms) + 4 = local_hour off t \/
  local_day off (t - four_hours_ms) <> local_day off t /\ local_hour off t < 4.
Proof.
  destruct (local_hour_day off t) as [-> ->], (local_hour_day off (t - four_hours_ms)) as [-> ->].
  rewrite four_hours_before. generalize ((t + off) / 3600000). clear. intros.
  Z.to_euclidean_division_equations. lia.
Qed.

Lemma default_period_misordered off now :
  year_ok off now -> year_ok off (now - four_hours_ms) -> local_hour off now = 4 ->
  js_gt (Str (default_start off now)) (Str (default_end off now)) = true.
Proof.
  intros H2%local_date_ok H1%local_date_ok Hh.
  destruct (four_hours_earlier off now) as [[Hd H0]|[_ ?]]; [|lia].
  assert (local_hour off (now - four_hours_ms) = 0) as H0' by lia. unfold default_start, default_end.
  rewrite js_gt_compare, formatDate_compare, day_cmp_local, Hd, Z.compare_refl by done.
  unfold local_hour in *. cbn [then_cmp]. unfold clock. rewrite H0', Hh.
  rewrite (compare_first_diff _ _ _ _ Gt); [done|by apply hour_zero_after].
Qed.

(** The default period, the last four hours, has its start after its end in
    the order of the listeners exactly when the local time is between four and
    five: its start is then printed with hour [0] instead of [00]. *)
Theorem default_period_order (E : env) (off : Z) (date1 date2 : string) (w : world) :
  date1 <> date2 ->
  year_ok off (e_now E (w_out w)) -> year_ok off (e_now E (w_out w) - four_hours_ms) ->
  let w' := task E (datePairs off date1 date2 Undef Undef) w in
  js_gt (value_of w' date1) (value_of w' date2) = (local_hour off (e_now E (w_out w)) =? 4).
Proof.
  intros Hne H2 H1. cbv zeta. destruct (datePairs_values E off date1 date2 w Hne) as [-> ->].
  generalize dependent (e_now E (w_out w)). intros now H2 H1.
  destruct (Z.eqb_spec (local_hour off now) 4) as [Hh|Hh]; [by apply default_period_misordered|].
  unfold default_start, default_end. rewrite formatDate_gt; [|done..|].
  - apply Z.ltb_ge. unfold local_minute, four_hours_ms. apply Z.div_le_mono; lia.
  - intros Hd. destruct (four_hours_earlier off now) as [[_ Hs]|[? _]]; [|done].
    destruct (local_date_ok _ _ H1) as (_ & _ & _ & H0 & _). fold (local_hour off (now - four_hours_ms)) in H0.
    unfold hours_comparable. apply negb_true_iff.
    destruct (Z.eqb_spec (local_hour off (now - four_hours_ms)) 0); [lia|].
    destruct (Z.eqb_spec (local_hour off now) 0); [lia|done].
Qed.

(** At half past four, local time. *)
Definition half_past_four : env := Env (fun _ _ => Failure Undef Undef) (fun _ => 1499977800000) (fun _ => Undef).

Lemma default_period_order_witness :
  js_gt (value_of (task half_past_four (datePairs 28800000 "#start" "#end" Undef Undef) (fresh ∅)) "#start")
        (value_of (task half_past_four (datePairs 28800000 "#start" "#end" Undef Undef) (fresh ∅)) "#end")
  = (local_hour 28800000 1499977800000 =? 4) /\ local_hour 28800000 1499977800000 = 4.
Proof.
  split; [|vm_compute; reflexivity].
  apply (default_period_order half_past_four 28800000 "#start" "#end" (fresh ∅));
    [discriminate|split; vm_compute; discriminate..].
Defined.
