(* ===== verification/Calendar.v ===== *)
(** * UTC dates

    The arithmetic of JavaScript's [Date] in UTC, as the date-time picker uses it:
    a date is its time value in milliseconds, and the setters compose the standard's
    [MakeDay] and [MakeDate] with the fields they leave alone.  The calendar is that
    of [civil_of_days] in DatePairs.v; this file proves that its months are
    intervals of days, so that a date can be taken apart and put together again
    ([utc_fields], [utc_eta]), and how a day beyond the end of a month overflows
    into the next ([utc_overflow]).

    Time values are integers without the bound of 8.64e15; the picker stays in the
    years of four digits. *)

From S2P Require Import Prelude JsValue Browser Utils DatePairs DateOrder.

(** ** Months as intervals of days *)

(** First day of the month [mn], counted from January of year 0.  Months are counted
    from March inside an era of 400 years, as in [civil_of_days]. *)
Definition month_start (mn : Z) : Z :=
  let a := mn - 2 in
  let y := a / 12 in
  y / 400 * 146097 + year_start (y mod 400) + (153 * (a mod 12) + 2) / 5 - 719468.

(** Days before the month [mp] of a year that starts in March. *)
Definition march_days (mp : Z) : Z := (153 * mp + 2) / 5.

(** Length of the month [mp] of the year [yoe] of an era. *)
Definition march_length (yoe mp : Z) : Z :=
  if mp =? 11 then year_last yoe - year_start yoe + 1 - march_days 11 else march_days (mp + 1) - march_days mp.

Definition month_length (mn : Z) : Z := march_length ((mn - 2) / 12 mod 400) ((mn - 2) mod 12).

Lemma month_next mn : month_start (mn + 1) = month_start mn + month_length mn.
Proof.
  unfold month_start, month_length, march_length, march_days. cbv zeta. replace (mn + 1 - 2) with (mn - 2 + 1) by lia.
  generalize (mn - 2). clear mn. intros a. destruct (Z.eqb_spec (a mod 12) 11) as [E|E].
  - assert ((a + 1) / 12 = a / 12 + 1 /\ (a + 1) mod 12 = 0) as [-> ->] by (Z.to_euclidean_division_equations; lia).
    rewrite E. generalize (a / 12). clear. intros y. unfold year_last.
    pose proof (Z.mod_pos_bound y 400 ltac:(lia)). destruct (Z.eqb_spec (y mod 400) 399) as [E|E].
    + assert ((y + 1) / 400 = y / 400 + 1 /\ (y + 1) mod 400 = 0) as [-> ->] by (Z.to_euclidean_division_equations; lia).
      rewrite E. change (year_start 399) with 145731. change (year_start 0) with 0.
      change ((153 * 11 + 2) / 5) with 337. change ((153 * 0 + 2) / 5) with 0. lia.
    + assert ((y + 1) / 400 = y / 400 /\ (y + 1) mod 400 = y mod 400 + 1) as [-> ->] by (Z.to_euclidean_division_equations; lia).
      change ((153 * 0 + 2) / 5) with 0. lia.
  - assert ((a + 1) / 12 = a / 12 /\ (a + 1) mod 12 = a mod 12 + 1) as [-> ->] by (Z.to_euclidean_division_equations; lia).
    lia.
Qed.

Lemma year_lengths yoe :
  0 <= yoe <= 399 -> year_last yoe - year_start yoe = 364 \/ year_last yoe - year_start yoe = 365.
Proof.
  intros H. pose proof (all_from_spec (fun y => (year_last y - year_start y =? 364) || (year_last y - year_start y =? 365))
    0 400 yoe eq_refl ltac:(lia)) as [E|E]%orb_true_iff; apply Z.eqb_eq in E; lia.
Qed.

Lemma march_length_range yoe mp : 0 <= yoe <= 399 -> 0 <= mp <= 11 -> 28 <= march_length yoe mp <= 31.
Proof.
  intros Hy Hm. unfold march_length. destruct (Z.eqb_spec mp 11) as [->|Hne].
  - change (march_days 11) with 337. destruct (year_lengths yoe Hy); lia.
  - unfold march_days. Z.to_euclidean_division_equations. lia.
Qed.

Lemma month_parts mn : 0 <= (mn - 2) / 12 mod 400 <= 399 /\ 0 <= (mn - 2) mod 12 <= 11.
Proof.
  pose proof (Z.mod_pos_bound ((mn - 2) / 12) 400 ltac:(lia)). pose proof (Z.mod_pos_bound (mn - 2) 12 ltac:(lia)). lia.
Qed.

Lemma month_length_range mn : 28 <= month_length mn <= 31.
Proof. destruct (month_parts mn). by apply march_length_range. Qed.

(** The days of a month are in it. *)
Lemma march_month_start mn k :
  0 <= k < month_length mn ->
  months (march (month_start mn + k)) = mn /\ month_day (march (month_start mn + k)) = k + 1.
Proof.
  intros Hk. destruct (month_parts mn) as [Hy Hm]. unfold month_length in Hk. unfold month_start. cbv zeta.
  pose proof (Z.div_mod (mn - 2) 12 ltac:(lia)) as Ha. pose proof (Z.div_mod ((mn - 2) / 12) 400 ltac:(lia)) as Hera.
  set (mp := (mn - 2) mod 12) in *. set (y := (mn - 2) / 12) in *. set (yoe := y mod 400) in *.
  set (era := y / 400) in *. clearbody mp yoe era.
  assert (0 <= march_days mp + k <= year_last yoe - year_start yoe) as Hdoy.
  { unfold march_length, march_days in *. destruct (year_lengths yoe Hy); destruct (Z.eqb_spec mp 11) as [->|];
      Z.to_euclidean_division_equations; lia. }
  pose proof (year_start_range yoe Hy) as (Hs & Hl & _).
  unfold march. fold (march_days mp).
  replace (era * 146097 + year_start yoe + march_days mp - 719468 + k + 719468)
    with (year_start yoe + march_days mp + k + era * 146097) by lia.
  set (doe := year_start yoe + march_days mp + k) in *.
  assert ((doe + era * 146097) / 146097 = era) as -> by (rewrite Z.div_add, Z.div_small by lia; lia).
  replace (doe + era * 146097 - era * 146097) with doe by lia.
  assert (year_of doe = yoe) as ->.
  { destruct (year_of_ends yoe Hy) as [H1 H2]. pose proof (year_of_mono (year_start yoe) doe ltac:(lia) ltac:(lia)).
    pose proof (year_of_mono doe (year_last yoe) ltac:(lia) ltac:(lia)). lia. }
  assert ((5 * (doe - year_start yoe) + 2) / 153 = mp) as Hmp.
  { subst doe. unfold march_length, march_days in *. destruct (year_lengths yoe Hy); destruct (Z.eqb_spec mp 11) as [->|];
      Z.to_euclidean_division_equations; lia. }
  unfold months, month_day. cbn [md_year md_era md_month md_doy]. rewrite Hmp. fold (march_days mp). lia.
Qed.

(** Every day is a day of its month. *)
Lemma march_day_of_month z :
  z = month_start (months (march z)) + (month_day (march z) - 1) /\
  1 <= month_day (march z) <= month_length (months (march z)).
Proof.
  pose proof (march_range z) as (Hy & Hd & Hm & Hmd). unfold month_length, month_start. cbv zeta.
  replace (months (march z) - 2) with ((md_year (march z) + md_era (march z) * 400) * 12 + md_month (march z))
    by (unfold months; lia).
  set (y := md_year (march z) + md_era (march z) * 400).
  assert ((y * 12 + md_month (march z)) / 12 = y /\ (y * 12 + md_month (march z)) mod 12 = md_month (march z)) as [-> ->]
    by (Z.to_euclidean_division_equations; lia).
  assert (y / 400 = md_era (march z) /\ y mod 400 = md_year (march z)) as [-> ->]
    by (subst y; Z.to_euclidean_division_equations; lia).
  revert Hy Hd Hm Hmd. clear y. unfold march, month_day. cbn [md_year md_era md_month md_doy].
  set (q := (z + 719468) / 146097). set (doe := z + 719468 - q * 146097).
  intros Hy Hd Hm Hmd. fold (march_days ((5 * (doe - year_start (year_of doe)) + 2) / 153)) in *.
  assert (year_start (year_of doe) <= doe <= year_last (year_of doe)) as Hyd.
  { apply year_of_spec. pose proof (Z.mod_pos_bound (z + 719468) 146097 ltac:(lia)) as H. rewrite Z.mod_eq in H by lia. lia. }
  set (yoe := year_of doe) in *. set (doy := doe - year_start yoe) in *. split; [lia|]. split; [lia|].
  unfold march_length. assert (doy <= year_last yoe - year_start yoe) as Hle by lia. clearbody doy yoe.
  destruct (Z.eqb_spec ((5 * doy + 2) / 153) 11) as [E|E]; [rewrite E; lia|].
  unfold march_days. Z.to_euclidean_division_equations. lia.
Qed.

(** ** The standard's operations *)

(** Days from the epoch to day [d] of month [m] of year [y]; months and days may lie
    outside their range. *)
Definition MakeDay (y m d : Z) : Z := month_start (y * 12 + m) + d - 1.

Definition getUTCDay_number (t : Z) : Z := t / ms_per_day.
Definition TimeWithinDay (t : Z) : Z := t mod ms_per_day.

Definition getUTCFullYear (t : Z) : Z := (civil_of_days (getUTCDay_number t)).1.1.
Definition getUTCMonth (t : Z) : Z := (civil_of_days (getUTCDay_number t)).1.2.
Definition getUTCDate (t : Z) : Z := (civil_of_days (getUTCDay_number t)).2.
(** Day of the week, from Sunday; the epoch was a Thursday. *)
Definition getUTCDay (t : Z) : Z := (getUTCDay_number t + 4) mod 7.
Definition getUTCHours (t : Z) : Z := t / 3600000 mod 24.
Definition getUTCMinutes (t : Z) : Z := t / 60000 mod 60.
Definition getUTCSeconds (t : Z) : Z := t / 1000 mod 60.
Definition getUTCMilliseconds (t : Z) : Z := t mod 1000.

(** [MakeDate(MakeDay(y, m, d), tod)]. *)
Definition utc (y m d tod : Z) : Z := MakeDay y m d * ms_per_day + tod.
Definition time_of (h mi s : Z) : Z := h * 3600000 + mi * 60000 + s * 1000.

(** [new Date(Date.UTC(y, m, d, h, mi, s, 0))]; the years 0 to 99 mean 1900 to 1999. *)
Definition UTCDate (y m d h mi s : Z) : Z :=
  utc (if (0 <=? y) && (y <=? 99) then 1900 + y else y) m d (time_of h mi s).

Definition setUTCDate (t v : Z) : Z := utc (getUTCFullYear t) (getUTCMonth t) v (TimeWithinDay t).
Definition setUTCMonth (t v : Z) : Z := utc (getUTCFullYear t) v (getUTCDate t) (TimeWithinDay t).
Definition setUTCMonthDate (t m d : Z) : Z := utc (getUTCFullYear t) m d (TimeWithinDay t).
Definition setUTCFullYear (t v : Z) : Z := utc v (getUTCMonth t) (getUTCDate t) (TimeWithinDay t).
Definition setUTCHours (t v : Z) : Z :=
  getUTCDay_number t * ms_per_day + v * 3600000 + t mod 3600000.
Definition setUTCMinutes (t v : Z) : Z := t / 3600000 * 3600000 + v * 60000 + t mod 60000.
Definition setUTCSeconds (t v : Z) : Z := t / 60000 * 60000 + v * 1000 + t mod 1000.

(** ** Taking dates apart *)

Definition valid_day (y m d : Z) : Prop := 0 <= m <= 11 /\ 1 <= d <= month_length (y * 12 + m).
Definition valid_tod (tod : Z) : Prop := 0 <= tod < ms_per_day.

Lemma civil_of_MakeDay y m d : valid_day y m d -> civil_of_days (MakeDay y m d) = (y, m, d).
Proof.
  intros [Hm Hd]. rewrite civil_march. unfold MakeDay.
  replace (month_start (y * 12 + m) + d - 1) with (month_start (y * 12 + m) + (d - 1)) by lia.
  destruct (march_month_start (y * 12 + m) (d - 1)) as [-> ->]; [lia|].
  f_equal; [f_equal; Z.to_euclidean_division_equations; lia|lia].
Qed.

Lemma utc_split y m d tod :
  valid_tod tod -> getUTCDay_number (utc y m d tod) = MakeDay y m d /\ TimeWithinDay (utc y m d tod) = tod.
Proof.
  unfold getUTCDay_number, TimeWithinDay, utc, valid_tod, ms_per_day. generalize (MakeDay y m d). intros n Ht.
  Z.to_euclidean_division_equations. lia.
Qed.

Lemma utc_fields y m d tod :
  valid_day y m d -> valid_tod tod ->
  getUTCFullYear (utc y m d tod) = y /\ getUTCMonth (utc y m d tod) = m /\ getUTCDate (utc y m d tod) = d /\
  TimeWithinDay (utc y m d tod) = tod.
Proof.
  intros Hd Ht. destruct (utc_split y m d tod Ht) as [Hn ->].
  unfold getUTCFullYear, getUTCMonth, getUTCDate. rewrite Hn, civil_of_MakeDay by done. done.
Qed.

(** A date is made of its fields, and they are in range. *)
Lemma utc_eta t :
  utc (getUTCFullYear t) (getUTCMonth t) (getUTCDate t) (TimeWithinDay t) = t /\
  valid_day (getUTCFullYear t) (getUTCMonth t) (getUTCDate t) /\ valid_tod (TimeWithinDay t).
Proof.
  unfold getUTCFullYear, getUTCMonth, getUTCDate. rewrite civil_march. cbn [fst snd].
  destruct (march_day_of_month (getUTCDay_number t)) as [Hz Hd].
  set (mn := months (march (getUTCDay_number t))) in *. set (d := month_day (march (getUTCDay_number t))) in *.
  assert (mn / 12 * 12 + mn mod 12 = mn) as Hmn by (Z.to_euclidean_division_equations; lia).
  unfold utc, MakeDay, valid_day, valid_tod. rewrite Hmn.
  replace (month_start mn + d - 1) with (getUTCDay_number t) by lia.
  unfold getUTCDay_number, TimeWithinDay, ms_per_day. split_ands; Z.to_euclidean_division_equations; lia.
Qed.

(** The months that follow each other. *)
Lemma MakeDay_month y m y' m' d : y * 12 + m = y' * 12 + m' -> MakeDay y m d = MakeDay y' m' d.
Proof. unfold MakeDay. by intros ->. Qed.

(** A day after the end of its month is in the next one. *)
Lemma utc_overflow y m d tod :
  utc y m d tod = utc y (m + 1) (d - month_length (y * 12 + m)) tod.
Proof.
  unfold utc, MakeDay. replace (y * 12 + (m + 1)) with (y * 12 + m + 1) by lia. rewrite month_next. lia.
Qed.

Lemma utc_month y m y' m' d tod : y * 12 + m = y' * 12 + m' -> utc y m d tod = utc y' m' d tod.
Proof. unfold utc. intros H. by rewrite (MakeDay_month y m y' m'). Qed.
