(* ===== verification/Urls.v ===== *)
(** * Query strings

    The pages pass their arguments to the next page by concatenating them
    into its address.  [params] is what the receiver reads, for texts without
    the characters an address gives a meaning to. *)

From S2P Require Import Prelude JsValue.
From Stdlib Require Import Ascii.

(** The text before and after the first [c]. *)
Fixpoint cut (c : ascii) (s : string) : string * option string :=
  match s with
  | EmptyString => ("", None)
  | String a s' =>
      if Ascii.eqb a c then ("", Some s')
      else let '(l, r) := cut c s' in (String a l, r)
  end.

(** The pieces between the [c]s. *)
Fixpoint split_on (c : ascii) (s : string) : list string :=
  match s with
  | EmptyString => [""]
  | String a s' =>
      if Ascii.eqb a c then "" :: split_on c s'
      else match split_on c s' with
           | [] => [String a ""]
           | p :: ps => String a p :: ps
           end
  end.

Definition key_value (p : string) : string * string :=
  let '(k, v) := cut "=" p in (k, default "" v).

(** The parameters of an address. *)
Definition params (url : string) : list (string * string) :=
  match (cut "?" url).2 with
  | None => []
  | Some query => List.map key_value (split_on "&" query)
  end.

Definition build_query (fs : list (string * string)) : string :=
  str_join "&" (List.map (fun '(k, v) => k +:+ "=" +:+ v) fs).

(** No character that separates, ends or encodes a parameter. *)
Definition plain_char (a : ascii) : bool :=
  negb (existsb (Ascii.eqb a) ["&"; "="; "?"; "#"; "%"; "+"; ";"; " "]%char).
Definition plain (s : string) : bool := str_forall plain_char s.

Lemma split_on_nonempty c s : split_on c s <> [].
Proof. destruct s as [|a s]; cbn; [done|]. destruct (Ascii.eqb a c); [done|]. by destruct (split_on c s). Qed.

Lemma cut_app c s1 s2 :
  str_forall (fun a => negb (Ascii.eqb a c)) s1 = true ->
  cut c (s1 +:+ String c s2) = (s1, Some s2).
Proof.
  induction s1 as [|a s1 IH]; cbn.
  - intros _. rewrite str_app_nil_l. cbn. by rewrite Ascii.eqb_refl.
  - rewrite andb_true_iff, negb_true_iff. intros [Ha Hs]. rewrite str_app_cons. cbn.
    by rewrite Ha, IH.
Qed.

Lemma split_on_app c s1 s2 :
  str_forall (fun a => negb (Ascii.eqb a c)) s1 = true ->
  split_on c (s1 +:+ String c s2) = s1 :: split_on c s2.
Proof.
  induction s1 as [|a s1 IH]; cbn.
  - intros _. rewrite str_app_nil_l. cbn. by rewrite Ascii.eqb_refl.
  - rewrite andb_true_iff, negb_true_iff. intros [Ha Hs]. rewrite str_app_cons. cbn.
    by rewrite Ha, IH.
Qed.

Lemma split_on_none c s :
  str_forall (fun a => negb (Ascii.eqb a c)) s = true -> split_on c s = [s].
Proof.
  induction s as [|a s IH]; cbn; [done|].
  rewrite andb_true_iff, negb_true_iff. intros [Ha Hs]. by rewrite Ha, IH.
Qed.

Lemma plain_without c s :
  plain_char c = false -> plain s = true -> str_forall (fun a => negb (Ascii.eqb a c)) s = true.
Proof.
  intros Hc. apply str_forall_impl. intros a Ha. apply negb_true_iff.
  destruct (Ascii.eqb_spec a c) as [->|]; congruence.
Qed.

(** A path without a query. *)
Definition path_ok (path : string) : bool := str_forall (fun a => negb (Ascii.eqb a "?")) path.

Definition plain_field (f : string * string) : Prop := plain f.1 = true /\ plain f.2 = true.

(** An address built from plain fields is read back as those fields. *)
Lemma params_build path fs :
  path_ok path = true -> fs <> [] ->
  Forall plain_field fs ->
  params (path +:+ "?" +:+ build_query fs) = fs.
Proof.
  intros Hp Hne Hfs. unfold params. rewrite str_app_cons, str_app_nil_l, cut_app by done. cbn [snd].
  unfold build_query. induction Hfs as [|[k v] fs [Hk Hv] Hfs IH]; [done|]. cbn in Hk, Hv.
  assert (key_value (k +:+ "=" +:+ v) = (k, v)) as Hkv.
  { unfold key_value. rewrite str_app_cons, str_app_nil_l, cut_app by by apply plain_without. done. }
  assert (str_forall (fun a => negb (Ascii.eqb a "&")) (k +:+ "=" +:+ v) = true) as Hamp.
  { rewrite !str_forall_app, !andb_true_iff. split_ands; [by apply plain_without|done|by apply plain_without]. }
  destruct fs as [|[k' v'] fs].
  - cbn [List.map str_join]. rewrite split_on_none by done. cbn [List.map]. by rewrite Hkv.
  - cbn [List.map]. rewrite str_join_cons.
    rewrite (str_app_cons "&"), str_app_nil_l, split_on_app by done.
    cbn [List.map]. rewrite Hkv. f_equal. by apply IH.
Qed.

(** Numbers are plain texts. *)
Lemma plain_string_of_Z z : plain (string_of_Z z) = true.
Proof.
  assert (Hd : forall s, str_forall is_digit s = true -> plain s = true).
  { intros s. apply str_forall_impl. intros [[] [] [] [] [] [] [] []]; done. }
  destruct (decide (0 <= z)) as [Hz|Hz]; [by apply Hd, string_of_Z_digits|].
  destruct z as [|p|p]; [lia..|]. rewrite string_of_Z_neg. cbn. by apply Hd, string_of_Z_digits.
Qed.
