(* ===== verification/Regex.v ===== *)
(** * Regular expressions

    The operators the scripts' anchored expressions use: character classes,
    sequence and alternative.  [matches] decides them by derivatives, and
    [matches_lang] relates it to the language of an expression. *)

From S2P Require Import Prelude.
From Stdlib Require Import Ascii.

Inductive regex : Type :=
| Nothing
| Empty
| Class (l : list ascii)
| Seq (r1 r2 : regex)
| Alt (r1 r2 : regex).

Inductive lang : regex -> string -> Prop :=
| lang_empty : lang Empty ""
| lang_class l a : a ∈ l -> lang (Class l) (String a "")
| lang_seq r1 r2 s1 s2 : lang r1 s1 -> lang r2 s2 -> lang (Seq r1 r2) (s1 +:+ s2)
| lang_alt_l r1 r2 s : lang r1 s -> lang (Alt r1 r2) s
| lang_alt_r r1 r2 s : lang r2 s -> lang (Alt r1 r2) s.

Fixpoint nullable (r : regex) : bool :=
  match r with
  | Nothing | Class _ => false
  | Empty => true
  | Seq r1 r2 => nullable r1 && nullable r2
  | Alt r1 r2 => nullable r1 || nullable r2
  end.

(** What remains to be matched after the character [a]. *)
Fixpoint derive (a : ascii) (r : regex) : regex :=
  match r with
  | Nothing | Empty => Nothing
  | Class l => if existsb (Ascii.eqb a) l then Empty else Nothing
  | Seq r1 r2 =>
      if nullable r1 then Alt (Seq (derive a r1) r2) (derive a r2) else Seq (derive a r1) r2
  | Alt r1 r2 => Alt (derive a r1) (derive a r2)
  end.

(** [/^r$/.test(s)]. *)
Fixpoint matches (r : regex) (s : string) : bool :=
  match s with
  | EmptyString => nullable r
  | String a s' => matches (derive a r) s'
  end.

Lemma existsb_class a l : existsb (Ascii.eqb a) l = true <-> a ∈ l.
Proof.
  rewrite existsb_exists. split.
  - intros (b & Hb & ->%Ascii.eqb_eq). by apply list_elem_of_In.
  - intros Ha. exists a. rewrite Ascii.eqb_refl. by rewrite <- list_elem_of_In.
Qed.

Lemma str_app_empty s1 s2 : s1 +:+ s2 = "" -> s1 = "" /\ s2 = "".
Proof. destruct s1; [done|]. by rewrite str_app_cons. Qed.

Lemma nullable_lang r : nullable r = true <-> lang r "".
Proof.
  induction r as [| |l|r1 IH1 r2 IH2|r1 IH1 r2 IH2]; cbn.
  - split; [done|]. by inversion 1.
  - split; [constructor|done].
  - split; [done|]. by inversion 1.
  - rewrite andb_true_iff, IH1, IH2. split.
    + intros [H1 H2]. by apply (lang_seq r1 r2 "" "").
    + inversion 1 as [| |? ? s1 s2 H1 H2 Hs E| |]; subst.
      by apply str_app_empty in E as [-> ->].
  - rewrite orb_true_iff, IH1, IH2. split.
    + intros [H|H]; [by apply lang_alt_l|by apply lang_alt_r].
    + inversion 1; auto.
Qed.

Lemma derive_lang a r s : lang (derive a r) s <-> lang r (String a s).
Proof.
  revert s. induction r as [| |l|r1 IH1 r2 IH2|r1 IH1 r2 IH2]; intros s; cbn.
  - split; inversion 1.
  - split; inversion 1.
  - destruct (existsb (Ascii.eqb a) l) eqn:E.
    + apply existsb_class in E. split.
      * inversion 1. by constructor.
      * inversion 1. constructor.
    + split; [inversion 1|]. inversion 1 as [|? b Hb| | |]; subst.
      apply existsb_class in Hb. congruence.
  - assert (Hseq : lang (Seq (derive a r1) r2) s <->
      exists s1 s2, s = s1 +:+ s2 /\ lang r1 (String a s1) /\ lang r2 s2).
    { split.
      - inversion 1 as [| |? ? s1 s2 H1 H2| |]; subst. exists s1, s2. split_ands; [done| |done].
        by apply IH1.
      - intros (s1 & s2 & -> & H1 & H2). constructor; [by apply IH1|done]. }
    assert (Hgoal : lang (Seq r1 r2) (String a s) <->
      (exists s1 s2, s = s1 +:+ s2 /\ lang r1 (String a s1) /\ lang r2 s2) \/
      (lang r1 "" /\ lang r2 (String a s))).
    { split.
      - inversion 1 as [| |? ? s1 s2 H1 H2 Hs E| |]; subst. destruct s1 as [|b s1].
        + rewrite str_app_nil_l in E. subst. by right.
        + rewrite str_app_cons in E. injection E as -> <-. left. eauto.
      - intros [(s1 & s2 & -> & H1 & H2)|[H1 H2]].
        + by apply (lang_seq r1 r2 (String a s1) s2).
        + by apply (lang_seq r1 r2 "" (String a s)). }
    rewrite Hgoal. destruct (nullable r1) eqn:En.
    + apply nullable_lang in En. split.
      * inversion 1; subst; [left; by apply Hseq|right; split; [done|by apply IH2]].
      * intros [H|[_ H]]; [apply lang_alt_l; by apply Hseq|apply lang_alt_r; by apply IH2].
    + rewrite Hseq. split; [by left|]. intros [H|[H _]]; [done|].
      apply nullable_lang in H. congruence.
  - split.
    + inversion 1; subst; [apply lang_alt_l; by apply IH1|apply lang_alt_r; by apply IH2].
    + inversion 1; subst; [apply lang_alt_l; by apply IH1|apply lang_alt_r; by apply IH2].
Qed.

Lemma matches_lang r s : matches r s = true <-> lang r s.
Proof.
  revert r. induction s as [|a s IH]; intros r; cbn; [apply nullable_lang|].
  by rewrite IH, derive_lang.
Qed.

(** ** Ranges of characters *)

(** [[c1-c2]]. *)
Definition char_range (c1 c2 : ascii) : list ascii :=
  List.map Ascii.ascii_of_nat
    (seq (Ascii.nat_of_ascii c1) (S (Ascii.nat_of_ascii c2) - Ascii.nat_of_ascii c1)).

Definition digit : regex := Class (char_range "0" "9").
Definition char (a : ascii) : regex := Class [a].

(** The strings of a language without repetition. *)
Fixpoint words (r : regex) : list string :=
  match r with
  | Nothing => []
  | Empty => [""]
  | Class l => List.map (fun a => String a "") l
  | Seq r1 r2 => List.flat_map (fun s1 => List.map (fun s2 => s1 +:+ s2) (words r2)) (words r1)
  | Alt r1 r2 => words r1 ++ words r2
  end.

Lemma lang_words r s : lang r s <-> In s (words r).
Proof.
  split.
  - induction 1 as [|l a Ha|r1 r2 s1 s2 H1 IH1 H2 IH2|r1 r2 s H IH|r1 r2 s H IH]; cbn.
    + by left.
    + apply in_map_iff. exists a. split; [done|]. by apply list_elem_of_In.
    + apply in_flat_map. exists s1. split; [done|]. apply in_map_iff. by exists s2.
    + apply in_app_iff. by left.
    + apply in_app_iff. by right.
  - revert s. induction r as [| |l|r1 IH1 r2 IH2|r1 IH1 r2 IH2]; intros s; cbn.
    + done.
    + intros [<-|[]]. constructor.
    + intros (a & <- & Ha)%in_map_iff. constructor. by apply list_elem_of_In.
    + intros (s1 & H1 & (s2 & <- & H2)%in_map_iff)%in_flat_map. constructor; auto.
    + intros [H|H]%in_app_iff; [apply lang_alt_l|apply lang_alt_r]; auto.
Qed.
