(* ===== verification/DPGlobal.v ===== *)
(** * Dates and texts of the date-time picker

    The object [DPGlobal] of
    static/js/plugins/datapicker/bootstrap-datetimepicker.js: formats, the reading
    and printing of dates, and the functions [moveMinute] to [moveYear] of the
    picker.  Dates are time values in UTC (Calendar.v); the picker keeps local
    times as if they were UTC.

    The pages use the standard format type and the English names.  A [while] loop
    has fuel; [moveMonth_terminates] and [set_month_spec] show that it is enough. *)

From S2P Require Import Prelude JsValue Browser Utils DatePairs DateOrder Calendar Regex.
From Stdlib Require Import Ascii.

(** ** Names *)

Definition days_names : list string :=
  ["Sunday"; "Monday"; "Tuesday"; "Wednesday"; "Thursday"; "Friday"; "Saturday"; "Sunday"].
Definition daysShort : list string := ["Sun"; "Mon"; "Tue"; "Wed"; "Thu"; "Fri"; "Sat"; "Sun"].
Definition months_names : list string :=
  ["January"; "February"; "March"; "April"; "May"; "June"; "July"; "August"; "September"; "October"; "November"; "December"].
Definition monthsShort : list string :=
  ["Jan"; "Feb"; "Mar"; "Apr"; "May"; "Jun"; "Jul"; "Aug"; "Sep"; "Oct"; "Nov"; "Dec"].
Definition meridiem : list string := ["am"; "pm"].

Definition name_at (l : list string) (i : Z) : string := default "undefined" (l !! Z.to_nat i).

(** ** The calendar *)

Definition isLeapYear (year : Z) : bool :=
  (year mod 4 =? 0) && negb (year mod 100 =? 0) || (year mod 400 =? 0).

Definition getDaysInMonth (year month : Z) : Z :=
  default 0 ([31; if isLeapYear year then 29 else 28; 31; 30; 31; 30; 31; 31; 30; 31; 30; 31] !! Z.to_nat month).

(** ** Formats *)

Record format := Format { separators : list string; parts : list string }.

Definition doubled (a : ascii) : bool := existsb (Ascii.eqb a) ["h"; "H"; "i"; "s"; "d"; "D"; "m"; "M"]%char.
Definition single (a : ascii) : bool := doubled a || existsb (Ascii.eqb a) ["t"; "p"; "P"; "z"; "Z"]%char.

(** The text before the first part, and each part with the text after it:
    [/t|hh?|HH?|p|P|z|Z|ii?|ss?|dd?|DD?|mm?|MM?|yy(?:yy)?/g]. *)
Fixpoint scan_format (s : string) : string * list (string * string) :=
  match s with
  | String "y" (String "y" (String "y" (String "y" r))) =>
      let '(sep, l) := scan_format r in ("", ("yyyy", sep) :: l)
  | String "y" (String "y" r) =>
      let '(sep, l) := scan_format r in ("", ("yy", sep) :: l)
  | String a (String b r as s') =>
      if doubled a && Ascii.eqb a b then
        let '(sep, l) := scan_format r in ("", (String a (String b ""), sep) :: l)
      else
        let '(sep, l) := scan_format s' in
        if single a then ("", (String a "", sep) :: l) else (String a sep, l)
  | String a EmptyString => if single a then ("", [(String a "", "")]) else (String a "", [])
  | EmptyString => ("", [])
  end.

(** [None]: 'Invalid date format.' *)
Definition parseFormat (f : string) : option format :=
  let '(sep, l) := scan_format f in
  match l with [] => None | _ => Some (Format (sep :: List.map snd l) (List.map fst l)) end.

(** ** Printing *)

Definition pad2 (n : Z) : string := (if n <? 10 then "0" else "") +:+ string_of_Z n.

(** [val[part]]; [tz] is the name of the time zone. *)
Definition format_part (tz : string) (t : Z) (part : string) : string :=
  let h := getUTCHours t in
  let h12 := if h mod 12 =? 0 then 12 else h mod 12 in
  let p := name_at meridiem (if h <? 12 then 0 else 1) in
  if String.eqb part "t" then string_of_Z t
  else if String.eqb part "yy" then str_drop 2 (string_of_Z (getUTCFullYear t))
  else if String.eqb part "yyyy" then string_of_Z (getUTCFullYear t)
  else if String.eqb part "m" then string_of_Z (getUTCMonth t + 1)
  else if String.eqb part "M" then name_at monthsShort (getUTCMonth t)
  else if String.eqb part "MM" then name_at months_names (getUTCMonth t)
  else if String.eqb part "d" then string_of_Z (getUTCDate t)
  else if String.eqb part "D" then name_at daysShort (getUTCDay t)
  else if String.eqb part "DD" then name_at days_names (getUTCDay t)
  else if String.eqb part "p" then p
  else if String.eqb part "P" then (if h <? 12 then "AM" else "PM")
  else if String.eqb part "h" then string_of_Z h
  else if String.eqb part "i" then string_of_Z (getUTCMinutes t)
  else if String.eqb part "s" then string_of_Z (getUTCSeconds t)
  else if String.eqb part "z" || String.eqb part "Z" then tz
  else if String.eqb part "H" then string_of_Z h12
  else if String.eqb part "HH" then pad2 h12
  else if String.eqb part "hh" then pad2 h
  else if String.eqb part "ii" then pad2 (getUTCMinutes t)
  else if String.eqb part "ss" then pad2 (getUTCSeconds t)
  else if String.eqb part "dd" then pad2 (getUTCDate t)
  else if String.eqb part "mm" then pad2 (getUTCMonth t + 1)
  else "".

(** A separator before each part and one at the end. *)
Fixpoint format_loop (tz : string) (t : Z) (seps ps : list string) : string :=
  match ps with
  | [] => match seps with [] => "" | s :: _ => s end
  | p :: ps' =>
      match seps with
      | [] => format_part tz t p +:+ format_loop tz t [] ps'
      | s :: seps' => s +:+ format_part tz t p +:+ format_loop tz t seps' ps'
      end
  end.

Definition formatDate (tz : string) (t : Z) (f : format) : string := format_loop tz t (separators f) (parts f).

(** ** Moving *)

Definition moveMinute (minuteStep t dir : Z) : Z :=
  if dir =? 0 then t else setUTCMinutes t (getUTCMinutes t + dir * minuteStep).
Definition moveHour (t dir : Z) : Z := if dir =? 0 then t else setUTCHours t (getUTCHours t + dir).
Definition moveDate (t dir : Z) : Z := if dir =? 0 then t else setUTCDate t (getUTCDate t + dir).

(** [while (test()) { new_date.setUTCDate(--day); new_date.setUTCMonth(new_month); }] *)
Fixpoint reset_loop (fuel : nat) (test : Z -> bool) (new_month t day : Z) : option Z :=
  if test t then
    match fuel with
    | O => None
    | S fuel' => reset_loop fuel' test new_month (setUTCMonth (setUTCDate t (day - 1)) new_month) (day - 1)
    end
  else Some t.

(** At most three days are beyond the end of a month. *)
Definition reset_fuel : nat := 4.

(** One month back or forth. *)
Definition moveMonth1 (t dir : Z) : option Z :=
  let day := getUTCDate t in
  let month := getUTCMonth t in
  let new_month := month + dir in
  let new_date := setUTCMonth t new_month in
  let new_month := if (new_month <? 0) || (new_month >? 11) then (new_month + 12) mod 12 else new_month in
  let test d := if dir =? -1 then getUTCMonth d =? month else negb (getUTCMonth d =? new_month) in
  reset_loop reset_fuel test new_month new_date day.

Fixpoint repeat_month (n : nat) (t dir : Z) : option Z :=
  match n with
  | O => Some t
  | S n' => match moveMonth1 t dir with Some t' => repeat_month n' t' dir | None => None end
  end.

Definition moveMonth (t dir : Z) : option Z :=
  if dir =? 0 then Some t else
  let mag := Z.abs dir in
  let dir := if dir >? 0 then 1 else -1 in
  if mag =? 1 then moveMonth1 t dir
  else
    match repeat_month (Z.to_nat mag) t dir with
    | None => None
    | Some new_date =>
        let new_month := getUTCMonth new_date in
        reset_loop reset_fuel (fun d => negb (new_month =? getUTCMonth d)) new_month
          (setUTCDate new_date (getUTCDate t)) (getUTCDate t)
    end.

Definition moveYear (t dir : Z) : option Z := moveMonth t (dir * 12).

(** ** Reading *)

Definition two_digits : regex := Seq digit (Alt digit Empty).
Definition ymd : regex :=
  Seq (Seq digit (Seq digit (Seq digit digit))) (Seq (char "-") (Seq two_digits (Seq (char "-") two_digits))).
Definition ymd_hi : regex := Seq ymd (Seq (Class ["T"; " "]%char) (Seq two_digits (Seq (char ":") two_digits))).
Definition ymd_his : regex := Seq ymd_hi (Seq (char ":") (Seq two_digits (Alt (char "Z") Empty))).

(** A text that is a date of a common form is read with the format of that form. *)
Definition choose_format (text : string) (f : format) : option format :=
  if matches ymd_his text then parseFormat "yyyy-mm-dd hh:ii:ss"
  else if matches ymd_hi text then parseFormat "yyyy-mm-dd hh:ii"
  else if matches ymd text then parseFormat "yyyy-mm-dd"
  else Some f.

(** [/[^ -\/:-@\[-`{-~\t\n\rTZ]+/g]: the runs of characters that are no punctuation. *)
Definition punctuation (a : ascii) : bool :=
  let n := byte a in
  ((32 <=? n) && (n <=? 47) || (58 <=? n) && (n <=? 64) || (91 <=? n) && (n <=? 96) || (123 <=? n) && (n <=? 126)
   || (n =? 9) || (n =? 10) || (n =? 13) || (n =? 84) || (n =? 90))%nat.

Fixpoint runs (cur s : string) : list string :=
  match s with
  | EmptyString => if String.eqb cur "" then [] else [cur]
  | String a s' =>
      if punctuation a then (if String.eqb cur "" then runs "" s' else cur :: runs "" s')
      else runs (cur +:+ String a "") s'
  end.

(** The place of the first name that agrees with the text as far as both go. *)
Definition agrees (same : string -> string -> bool) (text name : string) : bool :=
  let m := String.substring 0 (String.length text) name in
  same m (String.substring 0 (String.length m) text).
Fixpoint place (p : string -> bool) (l : list string) (i : Z) : Z :=
  match l with [] => -1 | x :: l' => if p x then i else place p l' (i + 1) end.

(** The number a part of the text stands for. *)
Definition part_value (part text : string) : number :=
  match parse_int_str text with
  | Fin z => Fin z
  | NaN =>
      if String.eqb part "MM" then Fin (place (agrees String.eqb text) months_names 0 + 1)
      else if String.eqb part "M" then
        Fin (place (agrees (fun a b => String.eqb (to_lower a) (to_lower b)) text) monthsShort 0 + 1)
      else if String.eqb part "p" || String.eqb part "P" then
        Fin (place (String.eqb (to_lower text)) meridiem 0)
      else NaN
  end.

(** [while (d.getUTCMonth() !== v) d.setUTCDate(d.getUTCDate() - 1)]. *)
Fixpoint back_to_month (fuel : nat) (v t : Z) : option Z :=
  if getUTCMonth t =? v then Some t
  else match fuel with O => None | S fuel' => back_to_month fuel' v (setUTCDate t (getUTCDate t - 1)) end.

(** [v -= 1; while (v < 0) v += 12; v %= 12], and the loop above. *)
Definition set_month (t v : Z) : option Z :=
  let v := (v - 1) mod 12 in back_to_month reset_fuel v (setUTCMonth t v).

(** The setters, in the order in which they are applied; the names of days have
    none ([None] is the TypeError). *)
Definition setter (part : string) (t v : Z) : option Z :=
  if String.eqb part "hh" || String.eqb part "h" then Some (setUTCHours t v)
  else if String.eqb part "ii" || String.eqb part "i" then Some (setUTCMinutes t v)
  else if String.eqb part "ss" || String.eqb part "s" then Some (setUTCSeconds t v)
  else if String.eqb part "yyyy" then Some (setUTCFullYear t v)
  else if String.eqb part "yy" then Some (setUTCFullYear t (2000 + v))
  else if String.eqb part "M" || String.eqb part "MM" || String.eqb part "m" || String.eqb part "mm" then set_month t v
  else if String.eqb part "d" || String.eqb part "dd" then Some (setUTCDate t v)
  else if String.eqb part "H" || String.eqb part "HH" then Some (setUTCHours t (if v =? 12 then 0 else v))
  else if String.eqb part "p" || String.eqb part "P" then
    Some (setUTCHours t (if v =? 1 then getUTCHours t + 12 else getUTCHours t))
  else if String.eqb part "z" || String.eqb part "Z" then Some t
  else None.

Definition setters_order : list string :=
  ["hh"; "h"; "ii"; "i"; "ss"; "s"; "yyyy"; "yy"; "M"; "MM"; "m"; "mm"; "D"; "DD"; "d"; "dd"; "H"; "HH"; "p"; "P"; "z"; "Z"].

(** [parsed[part]]: the last part of that name counts. *)
Fixpoint parsed_value (part : string) (l : list (string * number)) : option number :=
  match l with
  | [] => None
  | (p, v) :: l' =>
      match parsed_value part l' with Some v' => Some v' | None => if String.eqb p part then Some v else None end
  end.

Fixpoint apply_setters (order : list string) (l : list (string * number)) (t : Z) : option Z :=
  match order with
  | [] => Some t
  | s :: order' =>
      match parsed_value s l with
      | Some (Fin v) => match setter s t v with Some t' => apply_setters order' l t' | None => None end
      | _ => apply_setters order' l t
      end
  end.

(** [/^[-+]\d+[dmwy]([\s,]+[-+]\d+[dmwy])*$/]: amounts and units. *)
Inductive offset_state : Type := OStart | OSign (neg : bool) | ONum (neg : bool) (n : Z) | OUnit | OSep.

Fixpoint read_offsets (st : offset_state) (s : string) : option (list (Z * ascii)) :=
  match s with
  | EmptyString => match st with OUnit => Some [] | _ => None end
  | String a s' =>
      match st with
      | OStart | OSep =>
          if Ascii.eqb a "-" then read_offsets (OSign true) s'
          else if Ascii.eqb a "+" then read_offsets (OSign false) s'
          else match st with OSep => if ws_ascii a || Ascii.eqb a "," then read_offsets OSep s' else None | _ => None end
      | OSign neg => if is_digit a then read_offsets (ONum neg (digit_val a)) s' else None
      | ONum neg n =>
          if is_digit a then read_offsets (ONum neg (10 * n + digit_val a)) s'
          else if existsb (Ascii.eqb a) ["d"; "m"; "w"; "y"]%char then
            (fun l => (if neg then - n else n, a) :: l) <$> read_offsets OUnit s'
          else None
      | OUnit => if ws_ascii a || Ascii.eqb a "," then read_offsets OSep s' else None
      end
  end.

Fixpoint apply_offsets (l : list (Z * ascii)) (t : Z) : option Z :=
  match l with
  | [] => Some t
  | (dir, unit) :: l' =>
      match (if Ascii.eqb unit "d" then Some (setUTCDate t (getUTCDate t + dir))
             else if Ascii.eqb unit "m" then moveMonth t dir
             else if Ascii.eqb unit "w" then Some (setUTCDate t (getUTCDate t + dir * 7))
             else moveYear t dir) with
      | Some t' => apply_offsets l' t'
      | None => None
      end
  end.

(** The date without its milliseconds. *)
Definition whole_seconds (t : Z) : Z := t - t mod 1000.

(** What a text that does not fit the format is read as: 1899-12-31. *)
Definition base_date : Z := UTCDate 1899 11 31 0 0 0.

(** [parseDate] of an instant, in a zone that is [off] milliseconds ahead of UTC. *)
Definition parse_instant (off t : Z) : Z := whole_seconds (t + off).

(** [parseDate] of a text; [None] is an exception.  [now] is the clock. *)
Definition parseDate (now : Z) (text : string) (f : format) : option Z :=
  match choose_format text f with
  | None => None
  | Some f =>
      match read_offsets OStart text with
      | Some l => whole_seconds <$> apply_offsets l now
      | None =>
          let ps := runs "" text in
          if (length ps =? length (parts f))%nat
          then apply_setters setters_order (zip_with (fun part text => (part, part_value part text)) (parts f) ps) base_date
          else Some base_date
      end
  end.

(** ** Months *)

(** The months of [getDaysInMonth] are those of the calendar. *)
Lemma leap_years yoe :
  0 <= yoe <= 399 -> year_last yoe - year_start yoe + 1 = if isLeapYear (yoe + 1) then 366 else 365.
Proof.
  intros Hy. apply Z.eqb_eq.
  exact (all_from_spec (fun y => year_last y - year_start y + 1 =? if isLeapYear (y + 1) then 366 else 365)
    0 400 yoe eq_refl ltac:(lia)).
Qed.

Lemma isLeapYear_era y e : isLeapYear (y + e * 400) = isLeapYear y.
Proof.
  unfold isLeapYear. replace ((y + e * 400) mod 4) with ((y + e * 100 * 4) mod 4) by (f_equal; lia).
  replace ((y + e * 400) mod 100) with ((y + e * 4 * 100) mod 100) by (f_equal; lia).
  by rewrite !Z.mod_add by lia.
Qed.

Lemma month_cases (P : Z -> Prop) :
  P 0 -> P 1 -> P 2 -> P 3 -> P 4 -> P 5 -> P 6 -> P 7 -> P 8 -> P 9 -> P 10 -> P 11 ->
  forall m, 0 <= m <= 11 -> P m.
Proof.
  intros. assert (m = 0 \/ m = 1 \/ m = 2 \/ m = 3 \/ m = 4 \/ m = 5 \/ m = 6 \/ m = 7 \/ m = 8 \/ m = 9 \/ m = 10 \/ m = 11)
    as Hm by lia.
  by repeat (destruct Hm as [->|Hm]; [done|]); subst.
Qed.

Lemma getDaysInMonth_length y m : 0 <= m <= 11 -> getDaysInMonth y m = month_length (y * 12 + m).
Proof.
  intros Hm. assert (m = 1 \/ m <> 1) as [->|Hne] by lia.
  - unfold month_length. assert ((y * 12 + 1 - 2) mod 12 = 11 /\ (y * 12 + 1 - 2) / 12 = y - 1) as [-> ->]
      by (Z.to_euclidean_division_equations; lia).
    unfold march_length. cbn [Z.eqb Pos.eqb]. change (march_days 11) with 337.
    pose proof (Z.mod_pos_bound (y - 1) 400 ltac:(lia)). rewrite leap_years by lia.
    rewrite <- (isLeapYear_era _ ((y - 1) / 400)).
    replace ((y - 1) mod 400 + 1 + (y - 1) / 400 * 400) with y by (Z.to_euclidean_division_equations; lia).
    unfold getDaysInMonth. cbn. by destruct (isLeapYear y).
  - unfold month_length. replace ((y * 12 + m - 2) mod 12) with ((m - 2) mod 12)
      by (Z.to_euclidean_division_equations; lia).
    generalize ((y * 12 + m - 2) / 12 mod 400). intros yoe. revert m Hm Hne.
    apply (month_cases (fun m => m <> 1 -> getDaysInMonth y m = march_length yoe ((m - 2) mod 12))); done.
Qed.

(** A month with fewer than 31 days is followed, in its year, by one with 31. *)
Lemma short_month mn : month_length mn < 31 -> month_length (mn + 1) = 31 /\ mn mod 12 <> 11.
Proof.
  intros Hs. assert (0 <= mn mod 12 <= 11) as Hm by (Z.to_euclidean_division_equations; lia).
  assert (mn = mn / 12 * 12 + mn mod 12) as He by (Z.to_euclidean_division_equations; lia).
  revert Hm Hs He. generalize (mn / 12) (mn mod 12). intros y m Hm Hs ->.
  rewrite <- getDaysInMonth_length in Hs by done.
  assert (forall m, 0 <= m <= 11 -> getDaysInMonth y m < 31 -> getDaysInMonth y (m + 1) = 31 /\ m <> 11) as H.
  { apply (month_cases (fun m => getDaysInMonth y m < 31 -> getDaysInMonth y (m + 1) = 31 /\ m <> 11));
      unfold getDaysInMonth; cbn; intros; try lia; done. }
  destruct (H m Hm Hs) as [H31 Hne]. split; [|done].
  by rewrite <- Z.add_assoc, <- getDaysInMonth_length by lia.
Qed.

(** The month of a date, counted from January of year 0. *)
Definition month_index (t : Z) : Z := getUTCFullYear t * 12 + getUTCMonth t.

(** The date [k] months away: the same day of the month, or its last one. *)
Definition shift_month (t k : Z) : Z :=
  let mn := month_index t + k in
  utc (mn / 12) (mn mod 12) (Z.min (getUTCDate t) (month_length mn)) (TimeWithinDay t).

Lemma div_mod_12 mn : mn / 12 * 12 + mn mod 12 = mn /\ 0 <= mn mod 12 <= 11.
Proof. Z.to_euclidean_division_equations. lia. Qed.

Lemma utc_index mn d tod : utc (mn / 12) (mn mod 12) d tod = utc 0 mn d tod.
Proof. apply utc_month. destruct (div_mod_12 mn). lia. Qed.

(** Fields of a date given by its month, counted from year 0. *)
Lemma index_fields mn d tod :
  1 <= d <= month_length mn -> valid_tod tod ->
  getUTCFullYear (utc 0 mn d tod) = mn / 12 /\ getUTCMonth (utc 0 mn d tod) = mn mod 12 /\
  getUTCDate (utc 0 mn d tod) = d /\ TimeWithinDay (utc 0 mn d tod) = tod.
Proof.
  intros Hd Ht. rewrite <- utc_index. destruct (div_mod_12 mn) as [He Hm].
  apply utc_fields; [|done]. split; [done|]. by rewrite He.
Qed.

Lemma index_overflow mn d tod : utc 0 mn d tod = utc 0 (mn + 1) (d - month_length mn) tod.
Proof. rewrite utc_overflow. done. Qed.

Lemma mod_12_index y k : (y * 12 + k) mod 12 = k mod 12.
Proof. by rewrite Z.add_comm, Z.mod_add. Qed.

(** The next month in a year that has one. *)
Lemma next_in_year mn : mn mod 12 <> 11 -> (mn + 1) / 12 = mn / 12.
Proof. intros. Z.to_euclidean_division_equations. lia. Qed.

Lemma next_month_differs mn : (mn + 1) mod 12 <> mn mod 12.
Proof. Z.to_euclidean_division_equations. lia. Qed.

Lemma index_eta t :
  utc 0 (month_index t) (getUTCDate t) (TimeWithinDay t) = t /\ 1 <= getUTCDate t <= month_length (month_index t) /\
  valid_tod (TimeWithinDay t).
Proof.
  destruct (utc_eta t) as (Ht & [Hm Hd] & Htod). split; [|split; [exact Hd|exact Htod]].
  etrans; [|exact Ht]. apply utc_month. unfold month_index. lia.
Qed.

Lemma index_of_index mn d tod :
  1 <= d <= month_length mn -> valid_tod tod -> month_index (utc 0 mn d tod) = mn.
Proof.
  intros Hd Ht. unfold month_index. destruct (index_fields mn d tod Hd Ht) as (-> & -> & _).
  by destruct (div_mod_12 mn).
Qed.

Lemma setUTCDate_index mn d tod v :
  1 <= d <= month_length mn -> valid_tod tod -> setUTCDate (utc 0 mn d tod) v = utc 0 mn v tod.
Proof.
  intros Hd Ht. unfold setUTCDate. destruct (index_fields mn d tod Hd Ht) as (-> & -> & _ & ->). apply utc_index.
Qed.

Lemma setUTCMonth_index mn d tod v :
  1 <= d <= month_length mn -> valid_tod tod ->
  setUTCMonth (utc 0 mn d tod) v = utc 0 (mn / 12 * 12 + v) d tod.
Proof.
  intros Hd Ht. unfold setUTCMonth. destruct (index_fields mn d tod Hd Ht) as (-> & _ & -> & ->).
  by apply utc_month.
Qed.

(** The loop that takes a day back into its month. *)
Lemma reset_loop_spec fuel test mn tod e day :
  month_length mn < day <= 31 -> (day - month_length mn <= Z.of_nat fuel) -> valid_tod tod -> 1 <= e <= 31 ->
  (forall d, 1 <= d <= month_length mn -> test (utc 0 mn d tod) = false) ->
  (forall d, 1 <= d <= 31 -> test (utc 0 (mn + 1) d tod) = true) ->
  reset_loop fuel test (mn mod 12) (utc 0 (mn + 1) e tod) day = Some (utc 0 mn (month_length mn) tod).
Proof.
  intros Hday Hf Ht He H0 H1. destruct (short_month mn) as [Hn Hm]; [lia|].
  pose proof (month_length_range mn) as Hr. destruct (div_mod_12 mn) as [Hdm _].
  revert e day Hday Hf He. induction fuel as [|fuel IH]; intros e day Hday Hf He; [lia|].
  cbn [reset_loop]. rewrite H1 by done.
  rewrite setUTCDate_index, setUTCMonth_index by (exact Ht || lia).
  rewrite next_in_year, Hdm by done.
  assert (day - 1 = month_length mn \/ month_length mn < day - 1) as [E|E] by lia.
  - rewrite E. destruct fuel; cbn [reset_loop]; by rewrite H0 by lia.
  - rewrite index_overflow. apply IH; lia.
Qed.

(** A day that the month has needs no loop. *)
Lemma reset_loop_done fuel test new_month t day : test t = false -> reset_loop fuel test new_month t day = Some t.
Proof. intros H. destruct fuel; cbn; by rewrite H. Qed.

Lemma shift_month_index t k :
  shift_month t k = utc 0 (month_index t + k) (Z.min (getUTCDate t) (month_length (month_index t + k))) (TimeWithinDay t).
Proof. unfold shift_month. cbv zeta. by rewrite utc_index. Qed.

(** Setting the day [d] in the month [mn] and taking it back if need be. *)
Lemma clamp_day test mn tod d :
  1 <= d <= 31 -> valid_tod tod ->
  (forall d, 1 <= d <= month_length mn -> test (utc 0 mn d tod) = false) ->
  (forall d, 1 <= d <= 31 -> month_length (mn + 1) = 31 -> test (utc 0 (mn + 1) d tod) = true) ->
  reset_loop reset_fuel test (mn mod 12) (utc 0 mn d tod) d = Some (utc 0 mn (Z.min d (month_length mn)) tod).
Proof.
  intros Hd Ht H0 H1. pose proof (month_length_range mn).
  assert (d <= month_length mn \/ month_length mn < d) as [E|E] by lia.
  - rewrite Z.min_l by done. apply reset_loop_done, H0. lia.
  - rewrite Z.min_r by lia. rewrite index_overflow. destruct (short_month mn) as [Hn _]; [lia|].
    apply reset_loop_spec; [lia|unfold reset_fuel; lia|exact Ht|lia|exact H0|].
    intros d' Hd'. apply H1; [exact Hd'|exact Hn].
Qed.

Lemma moveMonth1_spec t dir : dir = 1 \/ dir = -1 -> moveMonth1 t dir = Some (shift_month t dir).
Proof.
  intros Hdir. destruct (index_eta t) as (Ht & Hd & Htod). pose proof (month_length_range (month_index t)).
  rewrite shift_month_index. unfold moveMonth1.
  replace (setUTCMonth t (getUTCMonth t + dir)) with (utc 0 (month_index t + dir) (getUTCDate t) (TimeWithinDay t))
    by (symmetry; apply utc_month; unfold month_index; lia).
  assert (0 <= getUTCMonth t <= 11) as Hm by apply utc_eta.
  assert (month_index t mod 12 = getUTCMonth t) as Hmi by (unfold month_index; rewrite mod_12_index; by apply Z.mod_small; lia).
  assert ((if (getUTCMonth t + dir <? 0) || (getUTCMonth t + dir >? 11) then (getUTCMonth t + dir + 12) mod 12
           else getUTCMonth t + dir) = (month_index t + dir) mod 12) as ->.
  { replace ((month_index t + dir) mod 12) with ((getUTCMonth t + dir) mod 12)
      by (unfold month_index; by rewrite <- Z.add_assoc, mod_12_index).
    set (m := getUTCMonth t + dir).
    destruct (Z.ltb_spec m 0), (Z.gtb_spec m 11); cbn [orb];
      try (change (m + 12) with (m + 1 * 12); by rewrite Z.mod_add). by rewrite Z.mod_small by lia. }
  apply clamp_day; [lia|done|..].
  - intros d Hd'. destruct (index_fields (month_index t + dir) d _ Hd' Htod) as (_ & -> & _).
    destruct Hdir as [-> | ->]; cbn [Z.eqb Pos.eqb]; [by rewrite Z.eqb_refl|].
    apply Z.eqb_neq. rewrite <- Hmi. pose proof (next_month_differs (month_index t + -1)) as Hne.
    replace (month_index t + -1 + 1) with (month_index t) in Hne by lia. congruence.
  - intros d Hd' Hl. destruct (index_fields (month_index t + dir + 1) d _ ltac:(lia) Htod) as (_ & -> & _).
    destruct Hdir as [-> | ->]; cbn [Z.eqb Pos.eqb].
    + apply negb_true_iff, Z.eqb_neq, next_month_differs.
    + apply Z.eqb_eq. rewrite <- Hmi. f_equal. lia.
Qed.

(** Months are moved one at a time. *)
Lemma shift_month_twice t k1 k2 :
  month_index (shift_month t k1) = month_index t + k1 /\ TimeWithinDay (shift_month t k1) = TimeWithinDay t /\
  month_index (shift_month (shift_month t k1) k2) = month_index t + (k1 + k2).
Proof.
  assert (forall t k, month_index (shift_month t k) = month_index t + k /\ TimeWithinDay (shift_month t k) = TimeWithinDay t) as H.
  { clear. intros t k. destruct (index_eta t) as (_ & Hd & Htod). rewrite shift_month_index.
    pose proof (month_length_range (month_index t + k)).
    split; [apply index_of_index; [lia|exact Htod]|]. apply index_fields; [lia|exact Htod]. }
  destruct (H t k1) as [H1 H2]. destruct (H (shift_month t k1) k2) as [H3 _]. split_ands; [done|done|lia].
Qed.

Lemma repeat_month_spec n t dir :
  dir = 1 \/ dir = -1 ->
  exists t', repeat_month n t dir = Some t' /\ month_index t' = month_index t + Z.of_nat n * dir /\
    TimeWithinDay t' = TimeWithinDay t.
Proof.
  intros Hdir. revert t. induction n as [|n IH]; intros t.
  - exists t. split_ands; [done|lia|done].
  - cbn [repeat_month]. rewrite moveMonth1_spec by done.
    destruct (IH (shift_month t dir)) as (t' & -> & Hi & Ht). destruct (shift_month_twice t dir 0) as (H1 & H2 & _).
    exists t'. split_ands; [done|rewrite Hi, H1; lia|by rewrite Ht].
Qed.

(** Moving by months terminates: it keeps the time of the day and the day of the
    month, or takes the last day of a shorter month. *)
Lemma moveMonth_shift t dir : moveMonth t dir = Some (shift_month t dir).
Proof.
  unfold moveMonth. destruct (Z.eqb_spec dir 0) as [->|Hne].
  { f_equal. destruct (index_eta t) as (Ht & Hd & _). rewrite shift_month_index, Z.add_0_r, Z.min_l by lia. by rewrite Ht. }
  set (sgn := if dir >? 0 then 1 else -1).
  assert (sgn = 1 \/ sgn = -1) as Hs by (subst sgn; destruct (dir >? 0); auto).
  assert (Z.abs dir * sgn = dir) as Habs by (subst sgn; destruct (Z.gtb_spec dir 0); lia).
  destruct (Z.eqb_spec (Z.abs dir) 1) as [E|E].
  { rewrite moveMonth1_spec by done. do 2 f_equal. lia. }
  destruct (repeat_month_spec (Z.to_nat (Z.abs dir)) t sgn Hs) as (t' & -> & Hi & Ht).
  replace (Z.of_nat (Z.to_nat (Z.abs dir)) * sgn) with dir in Hi by lia.
  destruct (index_eta t) as (_ & Hd & Htod). destruct (index_eta t') as (_ & Hd' & _).
  pose proof (month_length_range (month_index t)).
  assert (getUTCMonth t' = (month_index t + dir) mod 12) as Hm.
  { rewrite <- Hi. unfold month_index. rewrite mod_12_index. symmetry. apply Z.mod_small. pose proof (utc_eta t') as (_ & [Hv _] & _). lia. }
  replace (setUTCDate t' (getUTCDate t)) with (utc 0 (month_index t + dir) (getUTCDate t) (TimeWithinDay t))
    by (unfold setUTCDate; rewrite Ht; symmetry; apply utc_month; rewrite <- Hi; unfold month_index; lia).
  rewrite Hm, shift_month_index. apply clamp_day; [lia|exact Htod|..].
  - intros d Hd0. destruct (index_fields (month_index t + dir) d _ Hd0 Htod) as (_ & -> & _). by rewrite Z.eqb_refl.
  - intros d Hd0 Hl. destruct (index_fields (month_index t + dir + 1) d _ ltac:(lia) Htod) as (_ & -> & _).
    apply negb_true_iff, Z.eqb_neq. pose proof (next_month_differs (month_index t + dir)). congruence.
Qed.

(** ** The month of a text *)

(** Going back day by day from a day after the end of a month. *)
Lemma back_to_month_spec fuel mn d tod :
  1 <= d <= 31 -> (d - month_length mn <= Z.of_nat fuel) -> valid_tod tod ->
  back_to_month fuel (mn mod 12) (utc 0 mn d tod) = Some (utc 0 mn (Z.min d (month_length mn)) tod).
Proof.
  revert d. pose proof (month_length_range mn) as Hr. induction fuel as [|fuel IH]; intros d Hd Hf Ht.
  { rewrite Z.min_l by lia. cbn [back_to_month].
    destruct (index_fields mn d tod) as (_ & -> & _); [lia|exact Ht|]. by rewrite Z.eqb_refl. }
  cbn [back_to_month]. assert (d <= month_length mn \/ month_length mn < d) as [E|E] by lia.
  - rewrite Z.min_l by lia. destruct (index_fields mn d tod) as (_ & -> & _); [lia|exact Ht|]. by rewrite Z.eqb_refl.
  - destruct (short_month mn) as [Hn _]; [lia|]. rewrite (index_overflow mn d).
    destruct (index_fields (mn + 1) (d - month_length mn) tod) as (_ & Hm & Hdt & _); [lia|exact Ht|].
    rewrite Hm, Hdt. destruct (Z.eqb_spec ((mn + 1) mod 12) (mn mod 12)) as [Hx|_]; [by destruct (next_month_differs mn)|].
    rewrite setUTCDate_index by (exact Ht || lia).
    replace (d - month_length mn - 1) with (d - 1 - month_length mn) by lia. rewrite <- index_overflow.
    rewrite IH by (exact Ht || lia). do 2 f_equal. lia.
Qed.

(** Setting the month of a date keeps its day, or takes the last one of the month. *)
Lemma set_month_spec mn d tod v :
  1 <= d <= month_length mn -> valid_tod tod ->
  let mn' := mn / 12 * 12 + (v - 1) mod 12 in
  set_month (utc 0 mn d tod) v = Some (utc 0 mn' (Z.min d (month_length mn')) tod).
Proof.
  intros Hd Ht mn'. unfold set_month. cbv zeta. rewrite setUTCMonth_index by (exact Ht || lia). fold mn'.
  replace ((v - 1) mod 12) with (mn' mod 12) by (subst mn'; by rewrite mod_12_index, Z.mod_mod).
  pose proof (month_length_range mn). pose proof (month_length_range mn').
  apply back_to_month_spec; [lia|unfold reset_fuel; lia|exact Ht].
Qed.

