(* ===== verification/PickerText.v ===== *)
(** * Reading back the picker's texts

    [DPGlobal.parseDate] on texts of the form [yyyy-mm-dd hh:ii]: what
    [DPGlobal.formatDate] and the pages' own [formatDate] (DatePairs.v) print is
    read as the instant printed, to the minute. *)

From S2P Require Import Prelude JsValue Json Browser Utils DatePairs DateOrder Calendar Regex DPGlobal.
From Stdlib Require Import Ascii DecimalString.

(** ** Numerals *)

Lemma horner_acc d acc :
  horner (Z.pos acc) (NilEmpty.string_of_uint d) = Z.pos (Pos.of_uint_acc d acc).
Proof.
  revert acc. induction d as [|d IH|d IH|d IH|d IH|d IH|d IH|d IH|d IH|d IH|d IH]; intros acc; [done|..];
    cbn [NilEmpty.string_of_uint horner Pos.of_uint_acc]; rewrite <- IH; f_equal;
    match goal with |- context [digit_val ?a] => let v := eval vm_compute in (digit_val a) in change (digit_val a) with v end;
    lia.
Qed.

Lemma horner_uint d : horner 0 (NilEmpty.string_of_uint d) = Z.of_uint d.
Proof.
  induction d as [|d IH|d IH|d IH|d IH|d IH|d IH|d IH|d IH|d IH|d IH]; [done|exact IH|..];
    unfold Z.of_uint; cbn [Pos.of_uint Z.of_N]; rewrite <- horner_acc; reflexivity.
Qed.

Lemma horner_string_of_Z z : 0 <= z -> horner 0 (string_of_Z z) = z.
Proof.
  intros Hz. unfold string_of_Z. destruct z as [|p|p]; [done| |lia].
  transitivity (Z.of_int (Z.to_int (Z.pos p))); [|apply DecimalZ.of_to].
  cbn [Z.to_int Z.of_int NilZero.string_of_int]. rewrite <- horner_uint.
  by destruct (Pos.to_uint p).
Qed.

(** A run of digits and its value. *)
Definition numeral (s : string) (v : Z) : Prop :=
  str_forall is_digit s = true /\ s <> "" /\ horner 0 s = v.

Lemma trim_left_digit a s : is_digit a = true -> trim_left (String a s) = String a s.
Proof.
  intros Ha. destruct s as [|b [|c s]]; destruct a as [[] [] [] [] [] [] [] []]; first [discriminate Ha | reflexivity].
Qed.

Lemma numeral_parse s v : numeral s v -> parse_int_str s = Fin v.
Proof.
  intros (Hd & Hne & Hh).
  assert (parse_nat_prefix s = Fin v) as Hp.
  { unfold parse_nat_prefix. pose proof (take_digits_app s "" Hd I) as Ht.
    rewrite str_app_nil_r in Ht. rewrite Ht. destruct s; [done|]. by rewrite Hh. }
  destruct s as [|a s]; [done|]. cbn in Hd. apply andb_true_iff in Hd as [Ha _].
  unfold parse_int_str. rewrite trim_left_digit by done.
  destruct a as [[] [] [] [] [] [] [] []]; first [discriminate Ha | exact Hp].
Qed.

Lemma numeral_of_Z z : 0 <= z -> numeral (string_of_Z z) z.
Proof.
  intros Hz. split; [by apply string_of_Z_digits|]. split; [apply string_of_Z_nonempty|by apply horner_string_of_Z].
Qed.

Lemma numeral_zero z : 0 <= z -> numeral ("0" +:+ string_of_Z z) z.
Proof.
  intros Hz. rewrite str_app_cons, str_app_nil_l. split; [|split; [done|by apply horner_string_of_Z]].
  by apply string_of_Z_digits.
Qed.

Lemma numeral_pad2 z : 0 <= z -> numeral (pad2 z) z.
Proof. intros Hz. unfold pad2. destruct (z <? 10); [by apply numeral_zero|by apply numeral_of_Z]. Qed.

Lemma numeral_padding z : 0 <= z -> numeral (padding z) z.
Proof. intros Hz. unfold padding. destruct (_ && _); [by apply numeral_zero|by apply numeral_of_Z]. Qed.

(** ** Runs of digits *)

Lemma digit_no_punctuation a : is_digit a = true -> punctuation a = false.
Proof. destruct a as [[] [] [] [] [] [] [] []]; first [discriminate | reflexivity]. Qed.

Lemma runs_digits cur s rest :
  str_forall is_digit s = true -> runs cur (s +:+ rest) = runs (cur +:+ s) rest.
Proof.
  revert cur. induction s as [|a s IH]; intros cur Hs.
  - by rewrite str_app_nil_r.
  - cbn in Hs. apply andb_true_iff in Hs as [Ha Hs]. rewrite str_app_cons. cbn [runs].
    rewrite digit_no_punctuation, IH by done. f_equal. by rewrite str_app_assoc.
Qed.

(** A numeral before a punctuation character, and at the end. *)
Lemma runs_field s v a rest :
  numeral s v -> punctuation a = true -> runs "" (s +:+ String a rest) = s :: runs "" rest.
Proof.
  intros (Hd & Hne & _) Ha. rewrite runs_digits, str_app_nil_l by done. cbn [runs]. rewrite Ha.
  destruct (String.eqb_spec s ""); done.
Qed.

Lemma runs_last s v : numeral s v -> runs "" s = [s].
Proof.
  intros (Hd & Hne & _). rewrite <- (str_app_nil_r s) at 1. rewrite runs_digits, str_app_nil_l by done. cbn [runs].
  destruct (String.eqb_spec s ""); done.
Qed.

(** ** The form of a text *)

Definition date_text (Y M D H I : string) : string :=
  Y +:+ "-" +:+ M +:+ "-" +:+ D +:+ " " +:+ H +:+ ":" +:+ I.

Fixpoint occurrences (c : ascii) (s : string) : nat :=
  match s with
  | EmptyString => 0
  | String a s' => (if Ascii.eqb c a then 1 else 0) + occurrences c s'
  end%nat.

(** The characters [c] that every word of an expression has. *)
Fixpoint at_least (c : ascii) (r : regex) : nat :=
  match r with
  | Class [a] => if Ascii.eqb c a then 1 else 0
  | Seq r1 r2 => at_least c r1 + at_least c r2
  | Alt r1 r2 => Nat.min (at_least c r1) (at_least c r2)
  | _ => 0
  end%nat.

Lemma occurrences_app c s1 s2 : occurrences c (s1 +:+ s2) = (occurrences c s1 + occurrences c s2)%nat.
Proof.
  induction s1 as [|a s1 IH]; [done|]. rewrite str_app_cons. cbn [occurrences]. rewrite IH. lia.
Qed.

Lemma at_least_lang c r s : lang r s -> (at_least c r <= occurrences c s)%nat.
Proof.
  induction 1 as [|l a Ha|r1 r2 s1 s2 _ IH1 _ IH2|r1 r2 s _ IH|r1 r2 s _ IH]; cbn [at_least].
  - lia.
  - destruct l as [|b [|b' l]]; try lia. apply list_elem_of_singleton in Ha as ->. cbn. lia.
  - rewrite occurrences_app. lia.
  - lia.
  - lia.
Qed.

Lemma digits_occurrences c s : is_digit c = false -> str_forall is_digit s = true -> occurrences c s = 0%nat.
Proof.
  intros Hc. induction s as [|a s IH]; intros Hs; [done|]. cbn in Hs. apply andb_true_iff in Hs as [Ha Hs].
  cbn [occurrences]. rewrite IH by done. destruct (Ascii.eqb_spec c a); [congruence|done].
Qed.

Lemma digit_class a : is_digit a = true -> lang digit (String a "").
Proof.
  intros Ha. apply lang_class, existsb_class.
  destruct a as [[] [] [] [] [] [] [] []]; first [discriminate Ha | reflexivity].
Qed.

(** One or two digits. *)
Definition short_numeral (s : string) : Prop :=
  str_forall is_digit s = true /\ (String.length s = 1 \/ String.length s = 2)%nat.

Lemma two_digits_lang s : short_numeral s -> lang two_digits s.
Proof.
  intros [Hd Hl]. destruct s as [|a [|b [|c s]]]; cbn in Hd, Hl; try lia;
    repeat (apply andb_true_iff in Hd as [? Hd]).
  - apply (lang_seq _ _ (String a "") ""); [by apply digit_class|apply lang_alt_r; constructor].
  - apply (lang_seq _ _ (String a "") (String b "")); [by apply digit_class|by apply lang_alt_l, digit_class].
Qed.

Lemma year_length y : 1000 <= y <= 9999 -> String.length (string_of_Z y) = 4%nat.
Proof.
  intros Hy. destruct (decide (y = 9999)) as [->|Hne]; [done|].
  destruct (year_step_spec y) as [_ Hl]; [lia|]. unfold year_text in Hl. rewrite str_length_app in Hl. cbn in Hl. lia.
Qed.

Lemma pad2_short z : 0 <= z <= 59 -> short_numeral (pad2 z).
Proof.
  intros Hz. split; [apply numeral_pad2; lia|]. right. apply Nat.eqb_eq.
  apply (all_from_spec (fun z => (String.length (pad2 z) =? 2)%nat) 0 60); [by vm_compute|lia].
Qed.

Lemma padding_short z : 0 <= z <= 59 -> short_numeral (padding z).
Proof.
  intros Hz. split; [apply numeral_padding; lia|].
  assert (((String.length (padding z) =? 1) || (String.length (padding z) =? 2))%nat = true) as [H|H]%orb_true_iff.
  { apply (all_from_spec (fun z => ((String.length (padding z) =? 1) || (String.length (padding z) =? 2))%nat) 0 60);
      [by vm_compute|lia]. }
  - left. by apply Nat.eqb_eq.
  - right. by apply Nat.eqb_eq.
Qed.

Section ReadText.
  Context (Y M D H I : string) (y mo d h mi : Z).
  Context (HY : numeral Y y) (HM : numeral M mo) (HD : numeral D d) (HH : numeral H h) (HI : numeral I mi).
  Context (Yl : String.length Y = 4%nat) (Ms : short_numeral M) (Ds : short_numeral D) (Hs : short_numeral H)
    (Is : short_numeral I).

Lemma date_text_ymd_hi : matches ymd_hi (date_text Y M D H I) = true.
Proof using Yl HY Ms Ds Hs Is.
  apply matches_lang. destruct HY as [Yd _]. 
  destruct Y as [|a [|b [|c [|e [|]]]]]; try discriminate Yl. cbn in Yd.
  repeat (apply andb_true_iff in Yd as [? Yd]).
  replace (date_text _ M D H I) with
    (((String a "" +:+ String b "" +:+ String c "" +:+ String e "") +:+ "-" +:+ M +:+ "-" +:+ D) +:+ " " +:+ H +:+ ":" +:+ I).
  2: by unfold date_text; rewrite !str_app_assoc.
  repeat first [by apply digit_class | by apply two_digits_lang | by apply lang_class; left | apply lang_seq
               | by apply lang_class; right; left].
Qed.

Lemma date_text_not_ymd_his : matches ymd_his (date_text Y M D H I) = false.
Proof using HY HM HD HH HI.
  apply not_true_is_false. intros Hm%matches_lang. apply (at_least_lang ":") in Hm. revert Hm.
  unfold date_text. rewrite !occurrences_app.
  rewrite (digits_occurrences ":" Y), (digits_occurrences ":" M), (digits_occurrences ":" D),
    (digits_occurrences ":" H), (digits_occurrences ":" I)
    by first [done | apply HY | apply HM | apply HD | apply HH | apply HI].
  cbn. clear. lia.
Qed.

Lemma date_text_runs : runs "" (date_text Y M D H I) = [Y; M; D; H; I].
Proof using HY HM HD HH HI.
  unfold date_text. rewrite !str_app_cons, !str_app_nil_l.
  by erewrite !runs_field, runs_last by first [reflexivity | eassumption].
Qed.

Lemma date_text_no_offset : read_offsets OStart (date_text Y M D H I) = None.
Proof using HY Yl.
  destruct HY as (Hd & Hne & _). unfold date_text. destruct Y as [|a s]; [done|]. cbn in Hd.
  apply andb_true_iff in Hd as [Ha _]. rewrite str_app_cons.
  by destruct a as [[] [] [] [] [] [] [] []].
Qed.

End ReadText.

(** ** Putting the fields together *)

Lemma valid_time h mi s : 0 <= h <= 23 -> 0 <= mi <= 59 -> 0 <= s <= 59 -> valid_tod (time_of h mi s).
Proof. unfold valid_tod, time_of, ms_per_day. lia. Qed.

Lemma base_clock h mi :
  0 <= h <= 23 -> 0 <= mi <= 59 ->
  setUTCMinutes (setUTCHours base_date h) mi = utc 1899 11 31 (time_of h mi 0).
Proof.
  intros Hh Hm. unfold setUTCMinutes, setUTCHours, time_of, utc, ms_per_day.
  change (MakeDay 1899 11 31) with (-25568). change base_date with (-25568 * 86400000).
  change (getUTCDay_number (-25568 * 86400000)) with (-25568).
  Z.to_euclidean_division_equations. lia.
Qed.

(** The setters on the fields of a text, in their order. *)
Lemma set_fields y mo d h mi :
  valid_day y (mo - 1) d -> 0 <= h <= 23 -> 0 <= mi <= 59 ->
  apply_setters setters_order [("yyyy", Fin y); ("mm", Fin mo); ("dd", Fin d); ("hh", Fin h); ("ii", Fin mi)] base_date
  = Some (utc y (mo - 1) d (time_of h mi 0)).
Proof.
  intros [Hm Hd] Hh Hi. set (tod := time_of h mi 0).
  assert (valid_tod tod) as Ht by (by apply valid_time).
  assert (forall y, month_length (y * 12 + 11) = 31) as Hl
    by (intros y'; rewrite <- getDaysInMonth_length by lia; reflexivity).
  unfold setters_order. cbn [apply_setters parsed_value String.eqb Ascii.eqb Bool.eqb setter orb].
  rewrite base_clock by done. fold tod.
  assert (setUTCFullYear (utc 1899 11 31 tod) y = utc 0 (y * 12 + 11) 31 tod) as ->.
  { unfold setUTCFullYear. destruct (utc_fields 1899 11 31 tod) as (_ & -> & -> & ->); [|exact Ht|by apply utc_month].
    split; [lia|]. rewrite Hl. lia. }
  rewrite set_month_spec by first [exact Ht | rewrite Hl; lia].
  rewrite Z.div_add_l by lia. change (11 / 12) with 0. rewrite Z.add_0_r, (Z.mod_small (mo - 1)) by lia.
  pose proof (month_length_range (y * 12 + (mo - 1))).
  by rewrite setUTCDate_index by (exact Ht || lia).
Qed.

Lemma read_date_text now f Y M D H I y mo d h mi :
  numeral Y y -> numeral M mo -> numeral D d -> numeral H h -> numeral I mi ->
  String.length Y = 4%nat -> short_numeral M -> short_numeral D -> short_numeral H -> short_numeral I ->
  valid_day y (mo - 1) d -> 0 <= h <= 23 -> 0 <= mi <= 59 ->
  parseDate now (date_text Y M D H I) f = Some (utc y (mo - 1) d (time_of h mi 0)).
Proof.
  intros HY HM HD HH HI Yl Ms Ds Hs Is Hday Hh Hmi. unfold parseDate, choose_format.
  erewrite date_text_not_ymd_his, date_text_ymd_hi by eassumption. cbn [parseFormat].
  change (parseFormat "yyyy-mm-dd hh:ii") with (Some (Format [""; "-"; "-"; " "; ":"; ""] ["yyyy"; "mm"; "dd"; "hh"; "ii"])).
  cbv iota. erewrite date_text_no_offset, date_text_runs by eassumption. cbn [length Nat.eqb parts zip_with].
  unfold part_value. erewrite !numeral_parse by eassumption. by apply set_fields.
Qed.

(** ** What is printed is read back *)

Definition minutes_format : format := Format [""; "-"; "-"; " "; ":"; ""] ["yyyy"; "mm"; "dd"; "hh"; "ii"].

Definition whole_minutes (t : Z) : Z := t - t mod 60000.

Lemma clock_fields t :
  0 <= getUTCHours t <= 23 /\ 0 <= getUTCMinutes t <= 59 /\
  TimeWithinDay (whole_minutes t) = time_of (getUTCHours t) (getUTCMinutes t) 0 /\
  getUTCDay_number (whole_minutes t) = getUTCDay_number t.
Proof.
  unfold getUTCHours, getUTCMinutes, TimeWithinDay, getUTCDay_number, whole_minutes, time_of, ms_per_day.
  Z.to_euclidean_division_equations. lia.
Qed.

Lemma whole_minutes_utc t :
  utc (getUTCFullYear t) (getUTCMonth t) (getUTCDate t) (time_of (getUTCHours t) (getUTCMinutes t) 0) = whole_minutes t.
Proof.
  destruct (clock_fields t) as (_ & _ & <- & Hn). destruct (utc_eta (whole_minutes t)) as [He _].
  unfold getUTCFullYear, getUTCMonth, getUTCDate in *. by rewrite Hn in He.
Qed.

Lemma minutes_format_parsed : parseFormat "yyyy-mm-dd hh:ii" = Some minutes_format.
Proof. reflexivity. Qed.

Lemma minutes_text tz t :
  DPGlobal.formatDate tz t minutes_format =
  date_text (string_of_Z (getUTCFullYear t)) (pad2 (getUTCMonth t + 1)) (pad2 (getUTCDate t))
    (pad2 (getUTCHours t)) (pad2 (getUTCMinutes t)).
Proof.
  unfold DPGlobal.formatDate, date_text, minutes_format. cbn [separators parts format_loop].
  unfold format_part. cbn [String.eqb Ascii.eqb Bool.eqb orb]. by rewrite !str_app_nil_l, str_app_nil_r.
Qed.

Lemma local_fields off t :
  local_date off t = Date (getUTCFullYear (t + off)) (getUTCMonth (t + off)) (getUTCDate (t + off))
    (getUTCHours (t + off)) (getUTCMinutes (t + off)) (getUTCSeconds (t + off)).
Proof.
  unfold local_date, getUTCFullYear, getUTCMonth, getUTCDate, getUTCDay_number.
  by destruct (civil_of_days _) as [[? ?] ?].
Qed.

Lemma year_ok_local off t : year_ok off t <-> 1000 <= getUTCFullYear (t + off) <= 9999.
Proof. unfold year_ok. by rewrite local_fields. Qed.

(** A text whose fields are printed by [p] is read as the instant. *)
Lemma read_printed now f p t :
  (forall z, 0 <= z <= 59 -> numeral (p z) z /\ short_numeral (p z)) ->
  1000 <= getUTCFullYear t <= 9999 ->
  parseDate now (date_text (string_of_Z (getUTCFullYear t)) (p (getUTCMonth t + 1)) (p (getUTCDate t))
                   (p (getUTCHours t)) (p (getUTCMinutes t))) f = Some (whole_minutes t).
Proof.
  intros Hp Hy. destruct (clock_fields t) as (Hh & Hmi & _). destruct (utc_eta t) as (_ & Hday & _).
  pose proof Hday as [Hm Hd]. pose proof (month_length_range (getUTCFullYear t * 12 + getUTCMonth t)).
  rewrite <- whole_minutes_utc. replace (getUTCMonth t) with (getUTCMonth t + 1 - 1) at 2 by lia.
  apply read_date_text; try (apply Hp; lia); try lia.
  - apply numeral_of_Z. lia.
  - by apply year_length.
  - by replace (getUTCMonth t + 1 - 1) with (getUTCMonth t) by lia.
Qed.

(** C21: for years of four digits, what the picker prints in the pages' format is read
    back as the instant printed, to the minute, whatever format the reader is given;
    and so is the text the pages' own [formatDate] prints, although it shows hours
    and minutes of 0 with one digit. *)
Theorem date_texts_read_back (now off t : Z) (tz : string) (f : format) :
  year_ok off t ->
  parseDate now (DPGlobal.formatDate tz (t + off) minutes_format) f = Some (whole_minutes (t + off)) /\
  parseDate now (DatePairs.formatDate (local_date off t)) f = Some (whole_minutes (t + off)).
Proof.
  intros Hy%year_ok_local. split.
  - rewrite minutes_text. apply (read_printed now f pad2 (t + off)); [|exact Hy].
    intros z Hz. split; [apply numeral_pad2; lia|by apply pad2_short].
  - rewrite local_fields. apply (read_printed now f padding (t + off)); [|exact Hy].
    intros z Hz. split; [apply numeral_padding; lia|by apply padding_short].
Qed.

(** Applying the theorem to half past midnight on 2017-07-14 in Beijing. *)
Lemma date_texts_read_back_witness :
  parseDate 0 "2017-07-14 00:30" minutes_format = Some 1499992200000 /\
  parseDate 0 "2017-07-14 0:30" minutes_format = Some 1499992200000.
Proof. apply (date_texts_read_back 0 28800000 1499963400000 "" minutes_format). by vm_compute. Defined.

(** ** The order of the picker's texts *)

Definition pclock (t : Z) : string := (pad2 (getUTCHours t) +:+ ":") +:+ pad2 (getUTCMinutes t).

Lemma pad2_padding z : 0 < z -> pad2 z = padding z.
Proof.
  intros Hz. unfold pad2, padding. rewrite (proj2 (Z.ltb_lt 0 z)) by done. by destruct (z <? 10).
Qed.

Lemma pad2_hour_diff h1 h2 :
  0 <= h1 <= 23 -> 0 <= h2 <= 23 -> h1 <> h2 ->
  first_diff (pad2 h1 +:+ ":") (pad2 h2 +:+ ":") = Some (h1 ?= h2).
Proof.
  intros H1 H2. apply (diff_is_spec (fun h => pad2 h +:+ ":")), (all_pairs_spec _ 0 24); [vm_compute; reflexivity|lia..].
Qed.

Lemma pad2_minute_compare m1 m2 :
  0 <= m1 <= 59 -> 0 <= m2 <= 59 -> String.compare (pad2 m1) (pad2 m2) = (m1 ?= m2).
Proof.
  intros H1 H2. apply cmp_eqb_eq.
  apply (all_pairs_spec (fun m1 m2 => cmp_eqb (String.compare (pad2 m1) (pad2 m2)) (m1 ?= m2)) 0 60);
    [vm_compute; reflexivity|lia..].
Qed.

Lemma minutes_text_split tz t :
  DPGlobal.formatDate tz t minutes_format =
  year_text (getUTCFullYear t) +:+ ended "-" (getUTCMonth t + 1) +:+ ended " " (getUTCDate t) +:+ pclock t.
Proof.
  destruct (utc_eta t) as (_ & [Hm Hd] & _). rewrite minutes_text, (pad2_padding (getUTCMonth t + 1)), (pad2_padding (getUTCDate t)) by lia.
  unfold date_text, year_text, ended, pclock. by autorewrite with str.
Qed.

Lemma minutes_text_compare tz t1 t2 :
  date_ok (local_date 0 t1) -> date_ok (local_date 0 t2) ->
  String.compare (DPGlobal.formatDate tz t1 minutes_format) (DPGlobal.formatDate tz t2 minutes_format) =
  then_cmp (day_cmp (local_date 0 t1) (local_date 0 t2)) (minute_cmp (local_date 0 t1) (local_date 0 t2)).
Proof.
  rewrite !local_fields, !Z.add_0_r. unfold day_cmp, minute_cmp, date_ok.
  cbn [getFullYear getMonth getDate getHours getMinutes getSeconds].
  intros (Hy1 & Hm1 & Hd1 & Hh1 & Hi1 & _) (Hy2 & Hm2 & Hd2 & Hh2 & Hi2 & _). rewrite !minutes_text_split.
  rewrite (compare_field year_text) by (by apply year_diff).
  rewrite (compare_field (ended "-")) by (apply month_diff; lia).
  rewrite (compare_field (ended " ")) by (by apply day_diff). unfold pclock.
  rewrite (compare_field (fun h => pad2 h +:+ ":")) by (by apply pad2_hour_diff).
  rewrite pad2_minute_compare by done.
  by rewrite !then_cmp_assoc, !(Z.add_comm _ 1), Z.add_compare_mono_l.
Qed.

(** The texts the picker itself writes compare as texts as the instants compare in
    time, to the minute, for all years of four digits: hours are printed with two
    digits, so the comparison of the period's fields is right once the picker has
    written both. *)
Theorem picker_text_order (t1 t2 : Z) (tz : string) :
  year_ok 0 t1 -> year_ok 0 t2 ->
  js_gt (Str (DPGlobal.formatDate tz t1 minutes_format)) (Str (DPGlobal.formatDate tz t2 minutes_format)) =
  (local_minute 0 t2 <? local_minute 0 t1).
Proof.
  intros H1%local_date_ok H2%local_date_ok.
  rewrite js_gt_compare, minutes_text_compare, day_cmp_local, minute_cmp_local by done.
  rewrite Z.ltb_compare, Z.compare_antisym. by destruct (local_minute 0 t2 ?= _).
Qed.

(** Applying the theorem to 04:30 and 00:30 on 2017-07-14, which the pages' own
    function prints in the wrong order. *)
Lemma picker_text_order_witness : js_gt (Str "2017-07-14 04:30") (Str "2017-07-14 00:30") = true.
Proof. apply (picker_text_order 1500006600000 1499992200000 ""); by vm_compute. Defined.

(** ** Texts in a field *)

Lemma trim_left_cons a s :
  trim_left (String a s) =
  if ws_ascii a then trim_left s else
  match s with
  | EmptyString => String a s
  | String b s2 =>
      if ws_two a b then trim_left s2 else
      match s2 with
      | EmptyString => String a s
      | String c s3 => if ws_three a b c then trim_left s3 else String a s
      end
  end.
Proof. reflexivity. Qed.

Lemma all_ws_end d s : is_digit d = true -> all_ws (s +:+ String d "") = false.
Proof.
  intros Hd. assert (byte d < 58)%nat as Hb.
  { unfold is_digit in Hd. apply andb_true_iff in Hd as [_ H%Nat.leb_le]. unfold byte. lia. }
  unfold all_ws. remember (String.length s) as n eqn:Hn. revert s Hn. induction n as [n IH] using lt_wf_ind. intros s ->.
  destruct s as [|a s]; [rewrite str_app_nil_l, trim_left_digit; done|]. rewrite str_app_cons, trim_left_cons.
  destruct (ws_ascii a); [apply (IH (String.length s)); [cbn; lia|done]|].
  destruct s as [|b s]; rewrite ?str_app_nil_l, ?str_app_cons.
  { unfold ws_two. by rewrite (proj2 (Nat.eqb_neq (byte d) 160)), andb_false_r by lia. }
  destruct (ws_two a b); [apply (IH (String.length s)); [cbn; lia|done]|].
  destruct s as [|c s]; rewrite ?str_app_nil_l, ?str_app_cons.
  { replace (ws_three a b d) with false; [done|]. unfold ws_three.
    repeat match goal with |- context [(byte d =? ?k)%nat] => rewrite (proj2 (Nat.eqb_neq (byte d) k)) by lia end.
    rewrite (proj2 (Nat.leb_gt 128 (byte d))) by lia. by rewrite !andb_false_r. }
  destruct (ws_three a b c); [apply (IH (String.length s)); [cbn; lia|done]|done].
Qed.

Lemma trim_right_end d s : is_digit d = true -> trim_right (s +:+ String d "") = s +:+ String d "".
Proof.
  intros Hd. induction s as [|a s IH]; pose proof (all_ws_end d) as Hw.
  - specialize (Hw "" Hd). rewrite str_app_nil_l in *. cbv [trim_right]. fold trim_right. rewrite Hw. done.
  - specialize (Hw (String a s) Hd). rewrite str_app_cons in *.
    change (trim_right (String a (s +:+ String d ""))) with
      (if all_ws (String a (s +:+ String d "")) then "" else String a (trim_right (s +:+ String d ""))).
    by rewrite Hw, IH.
Qed.

Lemma digits_end s v : numeral s v -> exists r d, s = r +:+ String d "" /\ is_digit d = true.
Proof.
  intros (Hd & Hne & _). clear v. induction s as [|a s IH]; [done|]. cbn in Hd. apply andb_true_iff in Hd as [Ha Hd].
  destruct s as [|b s]; [by exists "", a|]. destruct IH as (r & d & E & Hx); [done|done|].
  exists (String a r), d. by rewrite str_app_cons, <- E.
Qed.

Lemma trim_date_text Y M D H I y mi : numeral Y y -> numeral I mi -> trim (date_text Y M D H I) = date_text Y M D H I.
Proof.
  intros (HY & Yn & _) (r & d & -> & Hd)%digits_end. destruct Y as [|a Y]; [done|]. cbn in HY.
  apply andb_true_iff in HY as [Ha _]. unfold trim, date_text. rewrite !str_app_cons, trim_left_digit by done.
  rewrite <- !str_app_cons, <- !str_app_assoc. by apply trim_right_end.
Qed.
