(* ===== verification/DateTimePicker.v ===== *)
(** * The date-time picker

    The widget of static/js/plugins/datapicker/bootstrap-datetimepicker.js that
    fills the date fields of the console, on an [input] element: its state, what it
    draws, and its answers to clicks and keys.

    Dates are mutable objects, and the widget shares them: choosing a date makes
    [date] and [viewDate] one object, and the button 'today' may make them the
    object of a limit.  The state has a store of objects, and the fields of the
    widget are places in it.  The listeners of [changeDate] run inside the widget's
    functions; they are an argument of the model.

    Left out: the position of the widget, right-to-left texts, the [inline] form,
    components of several elements, [showMeridian], the mouse wheel, the callbacks
    [onRender*], [datesDisabled], [title] and [linkField], none of which the console
    sets. *)

From S2P Require Import Prelude JsValue Browser Utils DatePairs DateOrder Calendar Regex DPGlobal.
From Stdlib Require Import Ascii.

Module Picker.

(** ** State *)

(** A field that holds a date: undefined, null, or a place in the store. *)
Inductive dref : Type := DUndef | DNull | DRef (l : nat).

(** What the widget tells its listeners; dates as they are at the time. *)
Inductive event : Type :=
| Change
| ChangeDate (d : option Z)
| OutOfRange (d : Z)
| ChangeMode (old new : Z)
| ChangeView (type : string) (d : Z)
| Shown
| Hidden.

Record cell := Cell { classes : list string; text : string }.

(** The days' panel is a table. *)
Inductive markup : Type := RowOpen | Td (c : cell) | RowClose.

Record grid := Grid
  { days_title : string; hours_title : string; months_title : string; years_title : string;
    g_days : list markup; g_hours : list cell; g_minutes : list cell; g_months : list cell; g_years : list cell }.

Record options := Options
  { fmt : format; minuteStep : Z; weekStart : Z; minView : Z; maxView : Z; startViewMode : Z; viewSelect : Z;
    autoclose : bool; keyboardNavigation : bool; forceParse : bool; todayHighlight : bool; initialDate : Z;
    (* the zone: milliseconds ahead of UTC, and its name *)
    zone : Z; timezone : string }.

Record picker := MkPicker
  { store : list Z; date : dref; viewDate : option nat; startDate : nat; endDate : nat; viewMode : Z;
    value : string; isVisible : bool; daysOfWeekDisabled : list Z; hoursDisabled : list Z; minutesDisabled : list Z;
    arrows : bool * bool; shown : option grid; fired : list event }.

Definition set_store s p :=
  MkPicker s (date p) (viewDate p) (startDate p) (endDate p) (viewMode p) (value p) (isVisible p)
    (daysOfWeekDisabled p) (hoursDisabled p) (minutesDisabled p) (arrows p) (shown p) (fired p).
Definition put_date d p :=
  MkPicker (store p) d (viewDate p) (startDate p) (endDate p) (viewMode p) (value p) (isVisible p)
    (daysOfWeekDisabled p) (hoursDisabled p) (minutesDisabled p) (arrows p) (shown p) (fired p).
Definition put_viewDate v p :=
  MkPicker (store p) (date p) v (startDate p) (endDate p) (viewMode p) (value p) (isVisible p)
    (daysOfWeekDisabled p) (hoursDisabled p) (minutesDisabled p) (arrows p) (shown p) (fired p).
Definition put_startDate l p :=
  MkPicker (store p) (date p) (viewDate p) l (endDate p) (viewMode p) (value p) (isVisible p)
    (daysOfWeekDisabled p) (hoursDisabled p) (minutesDisabled p) (arrows p) (shown p) (fired p).
Definition put_endDate l p :=
  MkPicker (store p) (date p) (viewDate p) (startDate p) l (viewMode p) (value p) (isVisible p)
    (daysOfWeekDisabled p) (hoursDisabled p) (minutesDisabled p) (arrows p) (shown p) (fired p).
Definition put_viewMode m p :=
  MkPicker (store p) (date p) (viewDate p) (startDate p) (endDate p) m (value p) (isVisible p)
    (daysOfWeekDisabled p) (hoursDisabled p) (minutesDisabled p) (arrows p) (shown p) (fired p).
Definition put_value s p :=
  MkPicker (store p) (date p) (viewDate p) (startDate p) (endDate p) (viewMode p) s (isVisible p)
    (daysOfWeekDisabled p) (hoursDisabled p) (minutesDisabled p) (arrows p) (shown p) (fired p).
Definition put_visible b p :=
  MkPicker (store p) (date p) (viewDate p) (startDate p) (endDate p) (viewMode p) (value p) b
    (daysOfWeekDisabled p) (hoursDisabled p) (minutesDisabled p) (arrows p) (shown p) (fired p).
Definition put_disabled dows hs ms p :=
  MkPicker (store p) (date p) (viewDate p) (startDate p) (endDate p) (viewMode p) (value p) (isVisible p)
    dows hs ms (arrows p) (shown p) (fired p).
Definition put_arrows a p :=
  MkPicker (store p) (date p) (viewDate p) (startDate p) (endDate p) (viewMode p) (value p) (isVisible p)
    (daysOfWeekDisabled p) (hoursDisabled p) (minutesDisabled p) a (shown p) (fired p).
Definition put_shown g p :=
  MkPicker (store p) (date p) (viewDate p) (startDate p) (endDate p) (viewMode p) (value p) (isVisible p)
    (daysOfWeekDisabled p) (hoursDisabled p) (minutesDisabled p) (arrows p) g (fired p).
Definition trigger e p :=
  MkPicker (store p) (date p) (viewDate p) (startDate p) (endDate p) (viewMode p) (value p) (isVisible p)
    (daysOfWeekDisabled p) (hoursDisabled p) (minutesDisabled p) (arrows p) (shown p) (fired p ++ [e]).

(** The objects. *)
Definition at_ (p : picker) (l : nat) : Z := default 0 (store p !! l).
Definition alloc (t : Z) (p : picker) : picker := set_store (store p ++ [t]) p.
Definition new_place (p : picker) : nat := length (store p).
Definition poke (l : nat) (t : Z) (p : picker) : picker := set_store (<[l := t]> (store p)) p.

(** ** Drawing *)

Definition flag (b : bool) (c : string) : list string := if b then [c] else [].
Definition has_class (c : string) (x : cell) : bool := existsb (String.eqb c) (classes x).
Definition listed (z : Z) (l : list Z) : bool := existsb (Z.eqb z) l.

(** The first day the panel shows: in the week of the last day of the month before. *)
Definition first_day (weekStart year month : Z) : Z :=
  let prevMonth := UTCDate year (month - 1) 28 0 0 0 in
  let day := getDaysInMonth (getUTCFullYear prevMonth) (getUTCMonth prevMonth) in
  let prevMonth := setUTCDate prevMonth day in
  setUTCDate prevMonth (day - (getUTCDay prevMonth - weekStart + 7) mod 7).

Section Drawing.
  Context (o : options) (dows hs ms : list Z) (today d v s e : Z).

Definition day_classes (t : Z) : list string :=
  let year := getUTCFullYear v in
  let month := getUTCMonth v in
  let y := getUTCFullYear t in
  let m := getUTCMonth t in
  ["day"] ++
  (if (y <? year) || (y =? year) && (m <? month) then ["old"]
   else flag ((y >? year) || (y =? year) && (m >? month)) "new") ++
  flag (todayHighlight o && (y =? getUTCFullYear today) && (m =? getUTCMonth today)
        && (getUTCDate t =? getUTCDate today)) "today" ++
  flag (t =? UTCDate (getUTCFullYear d) (getUTCMonth d) (getUTCDate d) 0 0 0) "active" ++
  flag ((t + 86400000 <=? s) || (t >? e) || listed (getUTCDay t) dows) "disabled".

Definition day_markup (t : Z) : list markup :=
  (if getUTCDay t =? weekStart o then [RowOpen] else []) ++
  [Td (Cell (day_classes t) (string_of_Z (getUTCDate t)))] ++
  (if getUTCDay t =? (weekStart o + 6) mod 7 then [RowClose] else []).

(** [while (prevMonth.valueOf() < nextMonth)] *)
Fixpoint day_loop (fuel : nat) (t stop : Z) : option (list markup) :=
  if t <? stop then
    match fuel with
    | O => None
    | S fuel' => (fun l => day_markup t ++ l) <$> day_loop fuel' (setUTCDate t (getUTCDate t + 1)) stop
    end
  else Some [].

Definition day_fuel : nat := 42.

Definition day_panel : option (list markup) :=
  let first := first_day (weekStart o) (getUTCFullYear v) (getUTCMonth v) in
  day_loop day_fuel first (setUTCDate first (getUTCDate first + 42)).

Definition hour_cell (i : Z) : cell :=
  let actual := UTCDate (getUTCFullYear v) (getUTCMonth v) (getUTCDate v) i 0 0 in
  Cell (["hour"] ++ flag (listed i hs) "disabled" ++
        (if (actual + 3600000 <=? s) || (actual >? e) then ["disabled"] else flag (getUTCHours v =? i) "active"))
       (string_of_Z i +:+ ":00").

Definition hour_panel : list cell := List.map (fun i => hour_cell (Z.of_nat i)) (seq 0 24).

(** [onRenderMinute]. *)
Definition minute_cell (i : Z) : cell :=
  let t := setUTCSeconds (setUTCMinutes v i) 0 in
  Cell (["minute"] ++
        (if (t <? s) || (t >? e) then ["disabled"]
         else flag (getUTCMinutes d / minuteStep o =? getUTCMinutes t / minuteStep o) "active"))
       (string_of_Z (getUTCHours v) +:+ ":" +:+ pad2 i).

(** [for (var i = 0; i < 60; i += this.minuteStep)] *)
Fixpoint minute_loop (fuel : nat) (i : Z) : list cell :=
  match fuel with
  | O => []
  | S fuel' =>
      if i <? 60
      then (if listed i ms then [] else [minute_cell i]) ++ minute_loop fuel' (i + minuteStep o)
      else []
  end.

(** The step is at least 1. *)
Definition minute_panel : list cell := minute_loop 60 0.

Definition month_cell (i : Z) : cell :=
  let year := getUTCFullYear v in
  Cell (["month"] ++ flag ((getUTCFullYear d =? year) && (i =? getUTCMonth d)) "active" ++
        flag ((year <? getUTCFullYear s) || (year >? getUTCFullYear e)
              || (year =? getUTCFullYear s) && (i <? getUTCMonth s)
              || (year =? getUTCFullYear e) && (getUTCMonth e + 1 <=? i)) "disabled")
       (name_at monthsShort i).

Definition month_panel : list cell := List.map (fun i => month_cell (Z.of_nat i)) (seq 0 12).

(** [onRenderYear] of the viewed date in the year; the first and the last year get
    the class [old], the variable that holds the plugin loaded before: none. *)
Definition year_cell (t i year : Z) : cell :=
  Cell (["year"] ++ flag (getUTCFullYear d =? getUTCFullYear t) "active" ++
        flag ((t <? s) || (getUTCFullYear t >? getUTCFullYear e)) "disabled" ++
        flag ((i =? -1) || (i =? 10)) "")
       (string_of_Z year).

Fixpoint year_loop (n : nat) (t i year : Z) : list cell :=
  match n with
  | O => []
  | S n' => let t := setUTCFullYear t year in year_cell t i year :: year_loop n' t (i + 1) (year + 1)
  end.

(** [parseInt(year / 10, 10) * 10] *)
Definition decade (year : Z) : Z := Z.quot year 10 * 10.

Definition year_panel : list cell := year_loop 12 v (-1) (decade (getUTCFullYear v) - 1).

Definition render : option grid :=
  let year := string_of_Z (getUTCFullYear v) in
  let month := name_at months_names (getUTCMonth v) in
  let y := decade (getUTCFullYear v) in
  (fun days => Grid (month +:+ " " +:+ year) (string_of_Z (getUTCDate v) +:+ " " +:+ month +:+ " " +:+ year)
     year (string_of_Z y +:+ "-" +:+ string_of_Z (y + 9)) days hour_panel minute_panel month_panel year_panel)
  <$> day_panel.

(** Which of the arrows are visible; [None]: left as they are. *)
Definition navArrows (mode : Z) : option (bool * bool) :=
  let le f := f v <=? f s in
  let ge f := f v >=? f e in
  let y := le getUTCFullYear in
  let y' := ge getUTCFullYear in
  let m := y && le getUTCMonth in
  let m' := y' && ge getUTCMonth in
  let dd := m && le getUTCDate in
  let dd' := m' && ge getUTCDate in
  if mode =? 0 then Some (negb (dd && le getUTCHours), negb (dd' && ge getUTCHours))
  else if mode =? 1 then Some (negb dd, negb dd')
  else if mode =? 2 then Some (negb m, negb m')
  else if (mode =? 3) || (mode =? 4) then Some (negb y, negb y')
  else None.

End Drawing.

(** ** Operations *)

(** [None] is an exception. *)
Section Operations.
  Context (o : options) (now : Z) (changed : picker -> option picker).

Definition updateNavArrows (p : picker) : picker :=
  match viewDate p with
  | Some v =>
      match navArrows (at_ p v) (at_ p (startDate p)) (at_ p (endDate p)) (viewMode p) with
      | Some a => put_arrows a p
      | None => p
      end
  | None => p
  end.

Definition fill (p : picker) : option picker :=
  match date p, viewDate p with
  | DRef d, Some v =>
      let p := updateNavArrows p in
      g ← render o (daysOfWeekDisabled p) (hoursDisabled p) (minutesDisabled p) (now + zone o)
            (at_ p d) (at_ p v) (at_ p (startDate p)) (at_ p (endDate p));
      Some (put_shown (Some g) p)
  | _, _ => Some p
  end.

(** [Some None] is null. *)
Definition getDate (p : picker) : option (option Z) :=
  match date p with
  | DUndef => None
  | DNull => Some None
  | DRef l => Some (Some (at_ p l - zone o))
  end.

Definition getFormattedDate (p : picker) : option string :=
  match date p with
  | DUndef => None
  | DNull => Some ""
  | DRef l => Some (DPGlobal.formatDate (timezone o) (at_ p l) (fmt o))
  end.

Definition setValue (p : picker) : option picker := s ← getFormattedDate p; Some (put_value s p).

(** [^([0-9]|0[0-9]|1[0-9]|2[0-3]):[0-5][0-9]]; the form with seconds begins so too. *)
Definition hour_minute : regex :=
  Seq (Alt digit (Alt (Seq (char "0") digit) (Alt (Seq (char "1") digit) (Seq (char "2") (Class (char_range "0" "3"))))))
    (Seq (char ":") (Seq (Class (char_range "0" "5")) digit)).
Definition begins (r : regex) (s : string) : bool :=
  existsb (fun n => matches r (String.substring 0 n s)) (seq 0 (S (String.length s))).

(** The date of the field: what [update] reads. *)
Definition field_date (p : picker) : option Z :=
  if String.eqb (value p) "" then Some (parse_instant (zone o) (initialDate o))
  else
    let text := trim (value p) in
    if String.eqb text "" then Some (parse_instant (zone o) now)
    else if begins hour_minute text then
      d ← getDate p; Some (match d with Some t => parse_instant (zone o) t | None => base_date end)
    else parseDate now text (fmt o).

Definition update (p : picker) : option picker :=
  t ← field_date p;
  let p := put_date (DRef (new_place p)) (alloc t p) in
  let s := at_ p (startDate p) in
  let e := at_ p (endDate p) in
  let view := if t <? s then s else if t >? e then e else t in
  fill (put_viewDate (Some (new_place p)) (alloc view p)).

Definition showMode (dir : Z) (p : picker) : picker :=
  let p :=
    if dir =? 0 then p
    else
      let newViewMode := Z.max 0 (Z.min 4 (viewMode p + dir)) in
      if (minView o <=? newViewMode) && (newViewMode <=? maxView o)
      then put_viewMode newViewMode (trigger (ChangeMode (viewMode p) newViewMode) p)
      else p in
  updateNavArrows p.

Definition show (p : picker) : option picker :=
  p ← (if forceParse o then update p else Some p);
  Some (trigger Shown (put_visible true p)).

Definition hide (p : picker) : option picker :=
  if negb (isVisible p) then Some p
  else
    let p := showMode 0 (put_viewMode (startViewMode o) p) in
    p ← (if forceParse o && negb (String.eqb (value p) "") then setValue p else Some p);
    Some (trigger Hidden (put_visible false p)).

(** [element.change()], the event [changeDate] and its listeners. *)
Definition tell_change (p : picker) : option picker :=
  let p := trigger Change p in
  d ← getDate p;
  changed (trigger (ChangeDate d) p).

(** [_setDate(date)]: both fields are the one object. *)
Definition _setDate (l : nat) (p : picker) : option picker :=
  p ← fill (put_viewDate (Some l) (put_date (DRef l) p));
  p ← setValue p;
  tell_change p.

(** [_setDate] with a new object. *)
Definition set_new_date (t : Z) (p : picker) : option picker := _setDate (new_place p) (alloc t p).

(** [_setDate(null, 'date')]. *)
Definition reset (p : picker) : option picker :=
  p ← fill (put_date DNull p);
  p ← setValue p;
  p ← tell_change p;
  Some (put_date (match viewDate p with Some v => DRef v | None => DUndef end) p).

Definition setUTCDate (t : Z) (p : picker) : option picker :=
  if (at_ p (startDate p) <=? t) && (t <=? at_ p (endDate p)) then
    let l := new_place p in
    p ← setValue (put_date (DRef l) (alloc t p));
    fill (put_viewDate (Some l) p)
  else Some (trigger (OutOfRange t) p).

(** The greatest date stands for no limit and is not read. *)
Definition no_end : Z := 8639968443048000.
Definition limit (t : option Z) (current : nat) (p : picker) : nat * picker :=
  let v := match t with Some t => t | None => at_ p current end in
  if v =? no_end then match t with Some _ => (new_place p, alloc v p) | None => (current, p) end
  else (new_place p, alloc (parse_instant (zone o) v) p).

Definition setStartDate (t : option Z) (p : picker) : option picker :=
  let '(l, p) := limit t (startDate p) p in
  p ← update (put_startDate l p);
  Some (updateNavArrows p).

Definition setEndDate (t : option Z) (p : picker) : option picker :=
  let '(l, p) := limit t (endDate p) p in
  p ← update (put_endDate l p);
  Some (updateNavArrows p).

Definition set_disabled (dows hs ms : list Z) (p : picker) : option picker :=
  p ← update (put_disabled dows hs ms p);
  Some (updateNavArrows p).

(** The constructor, on a field with a text. *)
Definition create (text : string) (starts ends : option Z) : option picker :=
  let p := MkPicker [- no_end; no_end] DUndef None 0 1 (startViewMode o) text false [] [] [] (true, true) None [] in
  p ← setStartDate starts p;
  p ← setEndDate ends p;
  p ← set_disabled [] [] [] p; (* setDatesDisabled *)
  p ← set_disabled [] [] [] p; (* setDaysOfWeekDisabled *)
  p ← set_disabled [] [] [] p; (* setMinutesDisabled *)
  p ← set_disabled [] [] [] p; (* setHoursDisabled *)
  p ← update p;
  Some (showMode 0 p).

(** ** Clicks *)

Inductive span_kind : Type := MonthSpan | YearSpan | HourSpan | MinuteSpan.

(** What is clicked: a head or foot cell, a span of a panel, a day, or the ground
    between the spans. *)
Inductive target : Type :=
| ThSwitch | ThPrev | ThNext | ThClear | ThToday
| Span (kind : span_kind) (i : nat)
| Day (i : nat)
| Ground.

Definition convertViewModeText (m : Z) : string := name_at ["hour"; "day"; "month"; "year"; "decade"] m.

(** The step of an arrow, by mode. *)
Definition navStep (m : Z) : Z := if m =? 4 then 10 else 1.

Definition navigate (back : bool) (p : picker) : option picker :=
  v ← viewDate p;
  let t := at_ p v in
  let dir := navStep (viewMode p) * (if back then -1 else 1) in
  let m := viewMode p in
  t' ← (if m =? 0 then Some (moveHour t dir) else if m =? 1 then Some (moveDate t dir)
        else if m =? 2 then moveMonth t dir else moveYear t dir);
  p ← fill (put_viewDate (Some (new_place p)) (alloc t' p));
  Some (trigger (ChangeView ((if back then "prev" else "next") +:+ ":" +:+ convertViewModeText m) t') p).

Definition click_today (p : picker) : option picker :=
  let c := local_date (zone o) now in
  let t := UTCDate (getFullYear c) (getMonth c) (Utils.getDate c) (getHours c) (getMinutes c) (getSeconds c) in
  (* Respect startDate and endDate. *)
  let '(l, p) :=
    if t <? at_ p (startDate p) then (startDate p, p)
    else if t >? at_ p (endDate p) then (endDate p, p)
    else (new_place p, alloc t p) in
  p ← _setDate l (showMode 0 (put_viewMode (startViewMode o) p));
  p ← fill p;
  if autoclose o then hide p else Some p.

(** [parseInt(text, 10) || d] *)
Definition parse_or (d : Z) (s : string) : Z :=
  match parse_int_str s with Fin z => if z =? 0 then d else z | NaN => d end.

Fixpoint after_colon (s : string) : string :=
  match s with
  | EmptyString => ""
  | String a s' => if Ascii.eqb a ":" then s' else after_colon s'
  end.

(** The finer panel; the finest one closes the widget. *)
Definition next_panel (p : picker) : option picker :=
  let oldViewMode := viewMode p in
  p ← fill (showMode (-1) p);
  if (oldViewMode =? viewMode p) && autoclose o then hide p else Some p.

Definition after_span (p : picker) : option picker :=
  if negb (viewMode p =? 0) then next_panel p
  else p ← fill p; if autoclose o then hide p else Some p.

Definition pick_span (kind : span_kind) (i : nat) (c : cell) (p : picker) : option picker :=
  v ← viewDate p;
  let t := at_ p v in
  let year := getUTCFullYear t in
  let month := getUTCMonth t in
  let day := getUTCDate t in
  let hours := getUTCHours t in
  let minutes := getUTCMinutes t in
  let seconds := getUTCSeconds t in
  match kind with
  | MonthSpan =>
      let month := Z.of_nat i in
      let t := setUTCMonth (Calendar.setUTCDate t 1) month in
      let p := trigger (ChangeView "changeMonth" t) (poke v t p) in
      if 3 <=? viewSelect o then set_new_date (UTCDate year month 1 hours minutes seconds) p else Some p
  | YearSpan =>
      let year := parse_or 0 (text c) in
      let t := setUTCFullYear (Calendar.setUTCDate t 1) year in
      let p := trigger (ChangeView "changeYear" t) (poke v t p) in
      if 4 <=? viewSelect o then set_new_date (UTCDate year month day hours minutes seconds) p else Some p
  | HourSpan =>
      let hours := parse_or 0 (text c) in
      let t := setUTCHours t hours in
      let p := trigger (ChangeView "changeHour" t) (poke v t p) in
      if 1 <=? viewSelect o then set_new_date (UTCDate year month day hours minutes seconds) p else Some p
  | MinuteSpan =>
      let minutes := parse_or 0 (after_colon (text c)) in
      let t := setUTCMinutes t minutes in
      let p := trigger (ChangeView "changeMinute" t) (poke v t p) in
      if 0 <=? viewSelect o then set_new_date (UTCDate year month day hours minutes seconds) p else Some p
  end.

Definition pick_day (c : cell) (p : picker) : option picker :=
  v ← viewDate p;
  let t := at_ p v in
  let day := parse_or 1 (text c) in
  let year := getUTCFullYear t in
  let month := getUTCMonth t in
  let '(year, month) :=
    if has_class "old" c then (if month =? 0 then (year - 1, 11) else (year, month - 1))
    else if has_class "new" c then (if month =? 11 then (year + 1, 0) else (year, month + 1))
    else (year, month) in
  let t' := setUTCMonthDate (setUTCFullYear t year) month day in
  let p := trigger (ChangeView "changeDay" t') (poke v t' p) in
  if 2 <=? viewSelect o
  then set_new_date (UTCDate year month day (getUTCHours t) (getUTCMinutes t) (getUTCSeconds t)) p
  else Some p.

Definition cells (l : list markup) : list cell := omap (fun m => match m with Td c => Some c | _ => None end) l.

(** The spans of the panel that is shown. *)
Definition span_cell (kind : span_kind) (i : nat) (p : picker) : option cell :=
  g ← shown p;
  match kind with
  | MonthSpan => if viewMode p =? 3 then g_months g !! i else None
  | YearSpan => if viewMode p =? 4 then g_years g !! i else None
  | HourSpan => if viewMode p =? 1 then g_hours g !! i else None
  | MinuteSpan => if viewMode p =? 0 then g_minutes g !! i else None
  end.
Definition day_cell (i : nat) (p : picker) : option cell :=
  g ← shown p; if viewMode p =? 2 then cells (g_days g) !! i else None.

Definition out_of_range (p : picker) : picker :=
  match viewDate p with Some v => trigger (OutOfRange (at_ p v)) p | None => p end.

(** A click on the widget; nothing is there to be clicked while it is hidden. *)
Definition click (x : target) (p : picker) : option picker :=
  if negb (isVisible p) then Some p
  else
    match x with
    | ThSwitch => Some (showMode 1 p)
    | ThPrev => if (arrows p).1 then navigate true p else Some p
    | ThNext => if (arrows p).2 then navigate false p else Some p
    | ThClear => p ← reset p; if autoclose o then hide p else Some p
    | ThToday => click_today p
    | Span kind i =>
        match span_cell kind i p with
        | None => Some p
        | Some c => if has_class "disabled" c then Some (out_of_range p) else p ← pick_span kind i c p; after_span p
        end
    | Day i =>
        match day_cell i p with
        | None => Some p
        | Some c => if has_class "disabled" c then Some (out_of_range p) else p ← pick_day c p; next_panel p
        end
    | Ground => next_panel p
    end.

(** ** Keys *)

Inductive key : Type := Escape | Tab | Enter | Left | Right | Up | Down | OtherKey.

(** The date an arrow key leads to, by mode; [Some None] is undefined. *)
Definition key_move (vertical : bool) (mode dir t : Z) : option (option Z) :=
  if mode =? 4 then Some <$> moveYear t dir
  else if mode =? 3 then Some <$> moveMonth t dir
  else if mode =? 2 then Some (Some (moveDate t (if vertical then dir * 7 else dir)))
  else if mode =? 1 then Some (Some (moveHour t (if vertical then dir * 4 else dir)))
  else if mode =? 0 then Some (Some (moveMinute (minuteStep o) t (if vertical then dir * 4 else dir)))
  else Some None.

Definition dateWithinRange (p : picker) (t : Z) : bool := (at_ p (startDate p) <=? t) && (t <=? at_ p (endDate p)).

Definition arrow_key (vertical : bool) (dir : Z) (ctrl shift : bool) (p : picker) : option picker :=
  if negb (keyboardNavigation o) then Some p
  else
    let mode := viewMode p + (if ctrl then 2 else if shift then 1 else 0) in
    match date p, viewDate p with
    | DRef d, Some v =>
        newDate ← key_move vertical mode dir (at_ p d);
        newViewDate ← key_move vertical mode dir (at_ p v);
        match newDate, newViewDate with
        | Some t, Some t' =>
            if dateWithinRange p t then
              let p := put_date (DRef (new_place p)) (alloc t p) in
              p ← setValue (put_viewDate (Some (new_place p)) (alloc t' p));
              p ← update p;
              tell_change p
            else Some p
        | _, _ => Some p
        end
    | _, _ => None
    end.

Definition keydown (k : key) (ctrl shift : bool) (p : picker) : option picker :=
  if negb (isVisible p) then match k with Escape => show p | _ => Some p end
  else
    match k with
    | Escape | Tab => hide p
    | Left => arrow_key false (-1) ctrl shift p
    | Right => arrow_key false 1 ctrl shift p
    | Up => arrow_key true (-1) ctrl shift p
    | Down => arrow_key true 1 ctrl shift p
    | Enter => after_span p
    | OtherKey => Some p
    end.

(** ** What happens to a widget *)

Inductive action : Type :=
| Focus                         (* the field gets the focus *)
| Typed (s : string)            (* a key is released in the field *)
| Written (s : string)          (* a script sets the field and calls 'update' *)
| Click (x : target)
| KeyDown (k : key) (ctrl shift : bool)
| ClickOutside
| SetUTCDate (t : Z).

Definition act (a : action) (p : picker) : option picker :=
  match a with
  | Focus => show p
  | Typed s | Written s => update (put_value s p)
  | Click x => click x p
  | KeyDown k ctrl shift => keydown k ctrl shift p
  | ClickOutside => hide p
  | SetUTCDate t => setUTCDate t p
  end.

End Operations.

(** The actions with the clock at each. *)
Fixpoint acts (o : options) (changed : Z -> picker -> option picker) (l : list (Z * action)) (p : picker) : option picker :=
  match l with
  | [] => Some p
  | (now, a) :: l' => p ← act o now (changed now) a p; acts o changed l' p
  end.

End Picker.
