(* ===== verification/PickerCells.v ===== *)
(** * The panels of the date-time picker

    What the panels show and what a click on one of their cells chooses: the days'
    panel is a table of six weeks around the viewed month, and a click on a day, an
    hour and a minute writes that instant into the field. *)

From S2P Require Import Prelude JsValue Json Browser Utils DatePairs DateOrder Calendar Regex DPGlobal PickerText DateTimePicker.
From Stdlib Require Import Ascii.
Import Picker.

(** ** Days after a day *)

Definition day_after (t : Z) (k : nat) : Z := t + Z.of_nat k * ms_per_day.

Lemma day_after_add t a b : day_after (day_after t a) b = day_after t (a + b).
Proof. unfold day_after. lia. Qed.

Lemma utc_add y m d k tod : utc y m (d + k) tod = utc y m d tod + k * ms_per_day.
Proof. unfold utc, MakeDay. lia. Qed.

Lemma setUTCDate_add t k : Calendar.setUTCDate t (getUTCDate t + k) = t + k * ms_per_day.
Proof.
  unfold Calendar.setUTCDate. rewrite utc_add. destruct (utc_eta t) as [-> _]. reflexivity.
Qed.

Lemma day_loop_spec o dows today d v s e n fuel t :
  (n <= fuel)%nat ->
  day_loop o dows today d v s e fuel t (day_after t n) =
  Some (List.concat (List.map (fun k => day_markup o dows today d v s e (day_after t k)) (seq 0 n))).
Proof.
  revert fuel t. induction n as [|n IH]; intros fuel t Hf.
  - unfold day_after. rewrite Z.mul_0_l, Z.add_0_r. destruct fuel; cbn [day_loop]; by rewrite Z.ltb_irrefl.
  - destruct fuel as [|fuel]; [lia|]. cbn [day_loop].
    rewrite (proj2 (Z.ltb_lt _ _)) by (unfold day_after, ms_per_day; lia).
    rewrite setUTCDate_add, Z.mul_1_l.
    replace (day_after t (S n)) with (day_after (t + ms_per_day) n) by (unfold day_after; lia).
    rewrite IH by lia. cbn [fmap option_fmap option_map seq List.map List.concat]. f_equal. f_equal.
    + f_equal. unfold day_after. lia.
    + rewrite <- seq_shift, List.map_map. f_equal. apply List.map_ext. intros k. f_equal. unfold day_after. lia.
Qed.

(** ** The table of days *)

(** The days of the viewed month, counted from the epoch. *)
Definition month_first (v : Z) : Z := MakeDay (getUTCFullYear v) (getUTCMonth v) 1.

Lemma month_first_index v : month_first v = month_start (month_index v).
Proof. unfold month_first, MakeDay, month_index. lia. Qed.

Lemma getUTCDay_utc y m d : getUTCDay (utc y m d 0) = (MakeDay y m d + 4) mod 7.
Proof.
  unfold getUTCDay. by rewrite (proj1 (utc_split y m d 0 ltac:(unfold valid_tod, ms_per_day; lia))).
Qed.

Lemma first_day_spec ws v :
  0 <= ws <= 6 -> 100 <= getUTCFullYear v ->
  exists n, first_day ws (getUTCFullYear v) (getUTCMonth v) = n * ms_per_day /\ (n + 4) mod 7 = ws /\
  n < month_first v <= n + 7.
Proof.
  intros Hws Hy. destruct (utc_eta v) as (_ & [Hm _] & _).
  set (y := getUTCFullYear v) in *. set (m := getUTCMonth v) in *. set (mn := y * 12 + (m - 1)).
  pose proof (month_length_range mn) as Hl.
  assert (valid_tod 0) as Ht by (unfold valid_tod, ms_per_day; lia).
  unfold first_day. cbv zeta. unfold UTCDate.
  rewrite (proj2 (Z.leb_le 0 y)), (proj2 (Z.leb_gt y 99)) by lia. cbn [andb].
  change (time_of 0 0 0) with 0. rewrite (utc_month y (m - 1) 0 mn) by lia.
  destruct (index_fields mn 28 0) as (-> & -> & _); [lia|exact Ht|].
  rewrite getDaysInMonth_length, (proj1 (div_mod_12 mn)) by apply div_mod_12.
  rewrite setUTCDate_index by (exact Ht || lia).
  rewrite getUTCDay_utc. set (last := MakeDay 0 mn (month_length mn)). set (k := (_ + 7) mod 7).
  rewrite setUTCDate_index by (exact Ht || lia).
  assert (month_first v = last + 1) as Hf.
  { unfold month_first, last, MakeDay. fold y m. replace (y * 12 + m) with (mn + 1) by lia.
    replace (0 * 12 + mn) with mn by lia. rewrite month_next. lia. }
  exists (last - k). split.
  - unfold last, utc, MakeDay. lia.
  - rewrite Hf. clearbody last. subst k. Z.to_euclidean_division_equations. lia.
Qed.

(** The day that the cell [k] of the panel shows. *)
Definition shown_day (o : options) (v : Z) (k : nat) : Z :=
  day_after (first_day (weekStart o) (getUTCFullYear v) (getUTCMonth v)) k.

Definition day_box (o : options) (dows : list Z) (today d v s e t : Z) : cell :=
  Cell (day_classes o dows today d v s e t) (string_of_Z (getUTCDate t)).

(** A week of the panel, from the day [t]. *)
Definition week (o : options) (dows : list Z) (today d v s e t : Z) : list markup :=
  RowOpen :: List.map (fun j => Td (day_box o dows today d v s e (day_after t j))) (seq 0 7) ++ [RowClose].

Definition weeks_shown (o : options) (dows : list Z) (today d v s e : Z) : list markup :=
  List.concat (List.map (fun w => week o dows today d v s e (shown_day o v (7 * w))) (seq 0 6)).

Lemma weekday_ends ws j :
  0 <= ws <= 6 -> (j < 7)%nat ->
  ((ws + Z.of_nat j) mod 7 =? ws) = (j =? 0)%nat /\ ((ws + Z.of_nat j) mod 7 =? (ws + 6) mod 7) = (j =? 6)%nat.
Proof.
  intros Hw Hj. destruct (j =? 0)%nat eqn:E0; destruct (j =? 6)%nat eqn:E6;
    rewrite ?Nat.eqb_eq, ?Nat.eqb_neq, ?Z.eqb_eq, ?Z.eqb_neq in *; split; try lia;
    Z.to_euclidean_division_equations; lia.
Qed.

Lemma six_weeks : seq 0 42 = List.concat (List.map (fun w => List.map (fun j => (7 * w + j)%nat) (seq 0 7)) (seq 0 6)).
Proof. reflexivity. Qed.

Section Days.
  Context (o : options) (dows : list Z) (today d v s e : Z).
  Context (Hws : 0 <= weekStart o <= 6) (Hy : 100 <= getUTCFullYear v).

Lemma shown_day_number : exists n, (n + 4) mod 7 = weekStart o /\ n < month_first v <= n + 7 /\
  forall k, shown_day o v k = (n + Z.of_nat k) * ms_per_day.
Proof using Hws Hy.
  destruct (first_day_spec (weekStart o) v) as (n & Hn & Hd & Hm); [done|done|].
  exists n. split_ands; [done|lia|lia|]. intros k. unfold shown_day, day_after. rewrite Hn. lia.
Qed.

Lemma day_markup_week w j :
  (j < 7)%nat ->
  day_markup o dows today d v s e (shown_day o v (7 * w + j)) =
  (if (j =? 0)%nat then [RowOpen] else []) ++ [Td (day_box o dows today d v s e (shown_day o v (7 * w + j)))] ++
  (if (j =? 6)%nat then [RowClose] else []).
Proof using Hws Hy.
  intros Hj. destruct shown_day_number as (n & Hn & _ & Hk). unfold day_markup.
  assert (getUTCDay (shown_day o v (7 * w + j)) = (weekStart o + Z.of_nat j) mod 7) as ->.
  { rewrite Hk. unfold getUTCDay, getUTCDay_number. rewrite Z.div_mul by (unfold ms_per_day; lia).
    rewrite <- Hn. Z.to_euclidean_division_equations. lia. }
  destruct (weekday_ends (weekStart o) j) as [-> ->]; done.
Qed.

Lemma day_panel_days :
  day_panel o dows today d v s e =
  Some (List.concat (List.map (fun k => day_markup o dows today d v s e (shown_day o v k)) (seq 0 42))).
Proof.
  unfold day_panel, shown_day. generalize (first_day (weekStart o) (getUTCFullYear v) (getUTCMonth v)). intros first.
  cbv zeta. rewrite setUTCDate_add.
  replace (first + 42 * ms_per_day) with (day_after first 42) by (unfold day_after; lia).
  rewrite day_loop_spec by (unfold day_fuel; lia). reflexivity.
Qed.

Lemma concat_weeks {A : Type} (f : nat -> list A) (g : nat -> list A) :
  (forall w, List.concat (List.map (fun j => f (7 * w + j)%nat) (seq 0 7)) = g w) ->
  List.concat (List.map f (seq 0 42)) = List.concat (List.map g (seq 0 6)).
Proof.
  intros H. rewrite six_weeks, List.concat_map, List.map_map. induction (seq 0 6) as [|w l IH]; [done|].
  cbn [List.map List.concat]. rewrite List.concat_app, IH, List.map_map. by rewrite H.
Qed.

Lemma day_panel_weeks : day_panel o dows today d v s e = Some (weeks_shown o dows today d v s e).
Proof using Hws Hy.
  rewrite day_panel_days. unfold weeks_shown. f_equal. apply concat_weeks. intros w.
  cbn [seq List.map List.concat]. rewrite !day_markup_week by lia. cbn [Nat.eqb app].
  unfold week, shown_day. cbn [seq List.map app]. rewrite !day_after_add. reflexivity.
Qed.

(** The months of the days shown: the viewed one and its neighbours. *)
Lemma shown_month k :
  (k < 42)%nat -> exists j dd, -1 <= j <= 1 /\ 1 <= dd <= month_length (month_index v + j) /\
  shown_day o v k = utc 0 (month_index v + j) dd 0.
Proof using Hws Hy.
  intros Hk. destruct shown_day_number as (n & _ & Hm & ->). rewrite month_first_index in Hm.
  generalize dependent (month_index v). intros mn Hm.
  pose proof (month_length_range (mn + -1)). pose proof (month_length_range mn). pose proof (month_length_range (mn + 1)).
  pose proof (month_next (mn + -1)) as Hp. pose proof (month_next mn) as Hn.
  replace (mn + -1 + 1) with mn in Hp by lia.
  unfold utc, MakeDay. set (x := n + Z.of_nat k - month_start mn + 1).
  assert (x < 1 \/ 1 <= x <= month_length mn \/ month_length mn < x) as [Hx|[Hx|Hx]] by lia.
  - exists (-1), (x + month_length (mn + -1)). split; [lia|]. split; [lia|].
    replace (0 * 12 + (mn + -1)) with (mn + -1) by lia. f_equal. lia.
  - exists 0, x. rewrite Z.add_0_r. split; [lia|]. split; [lia|]. replace (0 * 12 + mn) with mn by lia. lia.
  - exists 1, (x - month_length mn). split; [lia|]. split; [lia|].
    replace (0 * 12 + (mn + 1)) with (mn + 1) by lia. lia.
Qed.

(** Every day of the viewed month is shown. *)
Lemma month_shown dd :
  1 <= dd <= month_length (month_index v) ->
  exists k, (k < 42)%nat /\ shown_day o v k = utc (getUTCFullYear v) (getUTCMonth v) dd 0.
Proof using Hws Hy.
  intros Hdd. destruct shown_day_number as (n & _ & Hm & Hk). pose proof (month_length_range (month_index v)).
  exists (Z.to_nat (month_first v + dd - 1 - n)). rewrite Hk. split; [lia|].
  rewrite Z2Nat.id by lia. rewrite month_first_index. unfold utc, MakeDay, month_index.
  generalize (month_start (getUTCFullYear v * 12 + getUTCMonth v)). lia.
Qed.
End Days.

(** ** Choosing a day *)

Lemma month_order a b : (a / 12 <? b / 12) || (a / 12 =? b / 12) && (a mod 12 <? b mod 12) = (a <? b).
Proof.
  destruct (Z.ltb_spec a b); rewrite ?orb_true_iff, ?orb_false_iff, ?andb_true_iff, ?andb_false_iff,
    ?Z.ltb_lt, ?Z.eqb_eq, ?Z.ltb_ge, ?Z.eqb_neq; Z.to_euclidean_division_equations; lia.
Qed.

Lemma month_order_gt a b : (a / 12 >? b / 12) || (a / 12 =? b / 12) && (a mod 12 >? b mod 12) = (b <? a).
Proof. by rewrite <- (month_order b a), !Z.gtb_ltb, (Z.eqb_sym (a / 12)). Qed.

Lemma month_index_fields t : getUTCFullYear t = month_index t / 12 /\ getUTCMonth t = month_index t mod 12.
Proof.
  destruct (utc_eta t) as (_ & [Hm _] & _). unfold month_index. rewrite mod_12_index, Z.mod_small by lia.
  rewrite Z.div_add_l, Z.div_small by lia. lia.
Qed.

Lemma has_class_app c l1 l2 txt : has_class c (Cell (l1 ++ l2) txt) = has_class c (Cell l1 txt) || has_class c (Cell l2 txt).
Proof. apply existsb_app. Qed.

Lemma has_class_flag c b x txt : has_class c (Cell (flag b x) txt) = b && String.eqb c x.
Proof. destruct b; cbn; [|done]. by rewrite orb_false_r. Qed.

(** The classes [old] and [new] of a day tell its month from the viewed one. *)
Lemma day_classes_month o dows today d v s e t :
  has_class "old" (day_box o dows today d v s e t) = (month_index t <? month_index v) /\
  has_class "new" (day_box o dows today d v s e t) = (month_index v <? month_index t).
Proof.
  unfold day_box, day_classes. cbv zeta. rewrite !has_class_app, !has_class_flag.
  destruct (month_index_fields t) as [-> ->], (month_index_fields v) as [-> ->].
  rewrite month_order, month_order_gt. cbn [String.eqb Ascii.eqb Bool.eqb]. rewrite !andb_false_r, !orb_false_r.
  destruct (Z.ltb_spec (month_index t) (month_index v)); [|destruct (Z.ltb_spec (month_index v) (month_index t)); done].
  rewrite (proj2 (Z.ltb_ge (month_index v) (month_index t))) by lia. done.
Qed.

Lemma parse_or_numeral d s v : numeral s v -> parse_or d s = if v =? 0 then d else v.
Proof. intros Hn. unfold parse_or. by rewrite (numeral_parse s v). Qed.

Lemma setUTCFullYear_same t : setUTCFullYear t (getUTCFullYear t) = t.
Proof. unfold setUTCFullYear. by destruct (utc_eta t) as [-> _]. Qed.

(** Setting the year and then month and day gives that day, when a change of year
    only comes from the turn of December. *)
Lemma set_year_month_day t y m dd :
  (y = getUTCFullYear t \/ getUTCMonth t = 0 \/ getUTCMonth t = 11) ->
  setUTCMonthDate (setUTCFullYear t y) m dd = utc y m dd (TimeWithinDay t).
Proof.
  intros H. unfold setUTCMonthDate. destruct (utc_eta t) as (_ & [Hm Hd] & Ht).
  assert (y = getUTCFullYear t \/ y <> getUTCFullYear t /\ (getUTCMonth t = 0 \/ getUTCMonth t = 11)) as [->|[_ H']] by lia.
  { by rewrite setUTCFullYear_same. }
  unfold setUTCFullYear. destruct (utc_fields y (getUTCMonth t) (getUTCDate t) (TimeWithinDay t)) as (-> & _ & _ & ->);
    [|exact Ht|reflexivity].
  split; [exact Hm|]. pose proof (month_length_range (getUTCFullYear t * 12 + getUTCMonth t)).
  assert (month_length (y * 12 + getUTCMonth t) = 31) as ->; [|lia].
  rewrite <- getDaysInMonth_length by lia. destruct H' as [-> | ->]; reflexivity.
Qed.

(** The month one before or after, as [pick_day] finds it. *)
Definition neighbour (old new : bool) (year month : Z) : Z * Z :=
  if old then (if month =? 0 then (year - 1, 11) else (year, month - 1))
  else if new then (if month =? 11 then (year + 1, 0) else (year, month + 1))
  else (year, month).

Lemma neighbour_spec j year month :
  -1 <= j <= 1 -> 0 <= month <= 11 ->
  let '(y, m) := neighbour (j <? 0) (0 <? j) year month in
  y * 12 + m = year * 12 + month + j /\ (y = year \/ month = 0 \/ month = 11).
Proof.
  intros Hj Hm. assert (j = -1 \/ j = 0 \/ j = 1) as [->|[->| ->]] by lia; cbn;
    repeat match goal with |- context [?a =? ?b] => destruct (Z.eqb_spec a b) end; lia.
Qed.

(** What a day's cell stands for is the day it shows, at the viewed time of day. *)
Lemma pick_day_spec o now changed dows today d v s e k p l :
  0 <= weekStart o <= 6 -> 100 <= getUTCFullYear v -> (k < 42)%nat -> viewSelect o < 2 ->
  viewDate p = Some l -> at_ p l = v ->
  let t := shown_day o v k + TimeWithinDay v in
  pick_day o now changed (day_box o dows today d v s e (shown_day o v k)) p =
  Some (trigger (ChangeView "changeDay" t) (poke l t p)).
Proof.
  intros Hws Hy Hk Hsel Hl Hv. unfold pick_day. rewrite Hl. cbn [mbind option_bind]. rewrite Hv.
  destruct (shown_month o v Hws Hy k Hk) as (j & dd & Hj & Hdd & Ht).
  destruct (utc_eta v) as (_ & [Hm _] & _).
  assert (valid_tod 0) as H0 by (unfold valid_tod, ms_per_day; lia).
  destruct (day_classes_month o dows today d v s e (shown_day o v k)) as [-> ->].
  rewrite Ht. rewrite index_of_index by (exact H0 || exact Hdd).
  cbn [text day_box]. destruct (index_fields (month_index v + j) dd 0 Hdd H0) as (_ & _ & -> & _).
  rewrite (parse_or_numeral 1 _ dd), (proj2 (Z.eqb_neq dd 0)) by first [lia | apply numeral_of_Z; lia].
  replace (month_index v + j <? month_index v) with (j <? 0) by (destruct (Z.ltb_spec j 0); symmetry; [apply Z.ltb_lt|apply Z.ltb_ge]; lia).
  replace (month_index v <? month_index v + j) with (0 <? j) by (destruct (Z.ltb_spec 0 j); symmetry; [apply Z.ltb_lt|apply Z.ltb_ge]; lia).
  fold (neighbour (j <? 0) (0 <? j) (getUTCFullYear v) (getUTCMonth v)).
  pose proof (neighbour_spec j (getUTCFullYear v) (getUTCMonth v) Hj Hm) as Hn.
  destruct (neighbour _ _ _ _) as [y m]. destruct Hn as [Hym Hturn].
  rewrite (proj2 (Z.leb_gt 2 (viewSelect o))) by lia.
  rewrite set_year_month_day by exact Hturn.
  replace (utc y m dd (TimeWithinDay v)) with (utc 0 (month_index v + j) dd 0 + TimeWithinDay v); [reflexivity|].
  rewrite (utc_month y m 0 (month_index v + j)) by (unfold month_index; lia). unfold utc. lia.
Qed.

(** ** Choosing a minute *)

Lemma day_cmp_year d1 d2 : getFullYear d2 < getFullYear d1 -> day_cmp d1 d2 = Gt.
Proof. intros H. unfold day_cmp. by rewrite (proj2 (Z.compare_gt_iff _ _)). Qed.

Lemma local_year t : getFullYear (local_date 0 t) = getUTCFullYear t.
Proof. rewrite local_fields. cbn [getFullYear]. by rewrite Z.add_0_r. Qed.

Lemma year_mono t1 t2 : t1 <= t2 -> getUTCFullYear t1 <= getUTCFullYear t2.
Proof.
  intros Ht. rewrite <- !local_year. apply Z.nlt_ge. intros H%day_cmp_year. rewrite day_cmp_local in H.
  apply Z.compare_gt_iff in H. revert H. apply Z.le_ngt. unfold local_day, ms_per_day. apply Z.div_le_mono; lia.
Qed.

Lemma same_day_year t1 t2 : getUTCDay_number t1 = getUTCDay_number t2 -> getUTCFullYear t1 = getUTCFullYear t2.
Proof. unfold getUTCFullYear. by intros ->. Qed.

Definition at_minute (v i : Z) : Z := setUTCSeconds (setUTCMinutes v i) 0.

Lemma UTCDate_utc y m d h mi s : 100 <= y -> UTCDate y m d h mi s = utc y m d (time_of h mi s).
Proof. intros Hy. unfold UTCDate. by rewrite (proj2 (Z.leb_gt y 99)), andb_false_r by lia. Qed.

Lemma at_minute_day v i : 0 <= i <= 59 -> getUTCDay_number (at_minute v i) = getUTCDay_number v.
Proof.
  intros Hi. unfold at_minute, setUTCSeconds, setUTCMinutes, getUTCDay_number, ms_per_day.
  Z.to_euclidean_division_equations. lia.
Qed.

(** The date made from the fields of a view is in the minute its cell is drawn for. *)
Lemma minute_date v i :
  100 <= getUTCFullYear v -> 0 <= i <= 59 ->
  UTCDate (getUTCFullYear v) (getUTCMonth v) (getUTCDate v) (getUTCHours v) i (getUTCSeconds v) / 60000 =
  at_minute v i / 60000.
Proof.
  intros Hy Hi. rewrite UTCDate_utc by done. destruct (utc_eta v) as (Hv & _ & Ht).
  destruct (utc_split (getUTCFullYear v) (getUTCMonth v) (getUTCDate v) (TimeWithinDay v) Ht) as [Hn _].
  rewrite Hv in Hn. unfold utc. rewrite <- Hn.
  unfold time_of, at_minute, setUTCSeconds, setUTCMinutes, getUTCDay_number, getUTCHours, getUTCSeconds, ms_per_day.
  clear. Z.to_euclidean_division_equations. lia.
Qed.

Lemma after_colon_digits s rest : str_forall is_digit s = true -> after_colon (s +:+ String ":" rest) = rest.
Proof.
  induction s as [|a s IH]; intros Hs; [done|]. cbn in Hs. apply andb_true_iff in Hs as [Ha Hs].
  rewrite str_app_cons. cbn [after_colon]. destruct (Ascii.eqb_spec a ":"); [by subst|]. by apply IH.
Qed.

(** The minutes drawn, and the minute a cell stands for. *)
Lemma minute_loop_elem o ms d v s e n i c :
  1 <= minuteStep o -> 0 <= i -> c ∈ minute_loop o ms d v s e n i -> exists i, 0 <= i <= 59 /\ c = minute_cell o d v s e i.
Proof.
  intros Hstep. revert i. induction n as [|n IH]; intros i Hi; cbn [minute_loop]; [by intros ?%elem_of_nil|].
  destruct (Z.ltb_spec i 60); [|by intros ?%elem_of_nil]. rewrite elem_of_app. intros [Hc|Hc].
  - destruct (listed i ms); [by apply elem_of_nil in Hc|]. apply list_elem_of_singleton in Hc. exists i. split; [lia|done].
  - apply (IH (i + minuteStep o)); [lia|done].
Qed.

Lemma minute_cell_spec o d v s e i :
  0 <= i <= 59 ->
  parse_or 0 (after_colon (text (minute_cell o d v s e i))) = i /\
  has_class "disabled" (minute_cell o d v s e i) = negb ((s <=? at_minute v i) && (at_minute v i <=? e)).
Proof.
  intros Hi. split.
  - cbn [text minute_cell]. change (":" +:+ pad2 i) with (String ":" (pad2 i)).
    rewrite after_colon_digits by (apply string_of_Z_digits; apply clock_fields).
    rewrite (parse_or_numeral 0 _ i) by (apply numeral_pad2; lia). by destruct (Z.eqb_spec i 0).
  - unfold minute_cell. cbv zeta. fold (at_minute v i). rewrite has_class_app, Z.gtb_ltb, Z.ltb_antisym, (Z.ltb_antisym (at_minute v i)).
    destruct (s <=? at_minute v i), (at_minute v i <=? e); try reflexivity. cbn [orb negb]. by rewrite has_class_flag, andb_false_r.
Qed.

(** The panels that are drawn. *)
Lemma render_panels o dows hs ms today d v s e g :
  render o dows hs ms today d v s e = Some g ->
  Some (g_days g) = day_panel o dows today d v s e /\ g_hours g = hour_panel hs v s e /\
  g_minutes g = minute_panel o ms d v s e.
Proof.
  unfold render. destruct (day_panel o dows today d v s e) as [l|]; [|discriminate]. cbv zeta. cbn [fmap option_fmap option_map].
  generalize (hour_panel hs v s e) (minute_panel o ms d v s e) (month_panel d v s e) (year_panel d v s e).
  intros h m mo y H. by injection H as <-.
Qed.

(** ** Years *)

Lemma setUTCFullYear_fields t y :
  getUTCDate t <= 28 ->
  setUTCFullYear t y = utc y (getUTCMonth t) (getUTCDate t) (TimeWithinDay t) /\
  getUTCMonth (setUTCFullYear t y) = getUTCMonth t /\ getUTCDate (setUTCFullYear t y) = getUTCDate t /\
  getUTCFullYear (setUTCFullYear t y) = y /\ TimeWithinDay (setUTCFullYear t y) = TimeWithinDay t.
Proof.
  intros Hd. destruct (utc_eta t) as (_ & [Hm Hd1] & Ht). split; [reflexivity|]. unfold setUTCFullYear.
  destruct (utc_fields y (getUTCMonth t) (getUTCDate t) (TimeWithinDay t)) as (-> & -> & -> & ->); [|exact Ht|done].
  split; [exact Hm|]. pose proof (month_length_range (y * 12 + getUTCMonth t)). lia.
Qed.

Lemma setUTCFullYear_twice t y y' : getUTCDate t <= 28 -> setUTCFullYear (setUTCFullYear t y) y' = setUTCFullYear t y'.
Proof.
  intros Hd. destruct (setUTCFullYear_fields t y Hd) as (_ & Hm & Hd' & _ & Ht).
  unfold setUTCFullYear at 1. rewrite Hm, Hd', Ht. reflexivity.
Qed.

Lemma year_loop_lookup d s e n t i year k :
  getUTCDate t <= 28 -> (k < n)%nat ->
  year_loop d s e n t i year !! k =
  Some (year_cell d s e (setUTCFullYear t (year + Z.of_nat k)) (i + Z.of_nat k) (year + Z.of_nat k)).
Proof.
  revert t i year k. induction n as [|n IH]; intros t i year k Hd Hk; [lia|]. cbn [year_loop].
  destruct k as [|k]; cbn [lookup list_lookup].
  - by rewrite !Z.add_0_r.
  - destruct (setUTCFullYear_fields t year Hd) as (_ & _ & Hd' & _).
    rewrite IH, setUTCFullYear_twice by lia. do 2 f_equal; [f_equal; lia|lia|lia].
Qed.

(** C38: the days' panel is a table of six weeks of seven days each, from the first day
    of the week on; each day follows the one before, and every day of the viewed month
    is among them.  The loop that draws it ends. *)
Theorem month_grid (o : options) (dows : list Z) (today d v s e : Z) :
  0 <= weekStart o <= 6 -> 100 <= getUTCFullYear v ->
  day_panel o dows today d v s e = Some (weeks_shown o dows today d v s e) /\
  getUTCDay (shown_day o v 0) = weekStart o /\
  (forall k, shown_day o v (S k) = Calendar.setUTCDate (shown_day o v k) (getUTCDate (shown_day o v k) + 1)) /\
  (forall dd, 1 <= dd <= getDaysInMonth (getUTCFullYear v) (getUTCMonth v) ->
   exists k, (k < 42)%nat /\ shown_day o v k = utc (getUTCFullYear v) (getUTCMonth v) dd 0).
Proof.
  intros Hws Hy. split; [by apply day_panel_weeks|]. destruct (shown_day_number o v Hws Hy) as (n & Hn & _ & Hk).
  split_ands.
  - rewrite Hk. unfold getUTCDay, getUTCDay_number. rewrite Z.div_mul by (unfold ms_per_day; lia). by rewrite Z.add_0_r.
  - intros k. rewrite setUTCDate_add, !Hk. lia.
  - intros dd Hdd. apply month_shown; [done|done|]. destruct (utc_eta v) as (_ & [Hm _] & _).
    rewrite getDaysInMonth_length in Hdd by exact Hm. exact Hdd.
Qed.

(** A widget with the console's options, viewing 2017-07-14. *)
Definition sunday_options : options := Options minutes_format 5 0 0 4 2 0 true true true false 0 0 "".

Lemma month_grid_witness :
  day_panel sunday_options [] 0 0 1500045600000 0 1500045600000 =
    Some (weeks_shown sunday_options [] 0 0 1500045600000 0 1500045600000) /\
  getUTCDay (shown_day sunday_options 1500045600000 0) = 0.
Proof.
  destruct (month_grid sunday_options [] 0 0 1500045600000 0 1500045600000) as (H1 & H2 & _); [cbn; lia|vm_compute; discriminate|].
  split; [exact H1|exact H2].
Defined.

(** In the years' panel the year of the lower limit is disabled whenever the viewed
    day of that year lies before the limit, although the limit itself and what follows
    it in that year may be chosen. *)
Theorem first_year_disabled (d v s e : Z) :
  let y := getUTCFullYear s in
  let first := decade (getUTCFullYear v) - 1 in
  getUTCDate v <= 28 -> first <= y < first + 12 -> s <= e -> setUTCFullYear v y < s ->
  exists c, year_panel d v s e !! Z.to_nat (y - first) = Some c /\ text c = string_of_Z y /\ has_class "disabled" c = true.
Proof.
  intros y first Hd Hy Hse Hlt. eexists. split; [apply year_loop_lookup; [done|lia]|].
  replace (decade (getUTCFullYear v) - 1 + Z.of_nat (Z.to_nat (y - first))) with y by lia. split; [done|].
  unfold year_cell. rewrite !has_class_app, !has_class_flag, (proj2 (Z.ltb_lt _ _) Hlt).
  cbn [orb andb String.eqb Ascii.eqb Bool.eqb]. by rewrite !orb_true_r.
Qed.

(** Applying the theorem to a page opened on 2018-01-10, whose period may begin on
    2017-12-11, viewing 2018-01-05. *)
Lemma first_year_disabled_witness :
  exists c, year_panel 1515110400000 1515110400000 1512950400000 1515542400000 !! 8%nat = Some c /\
  text c = "2017" /\ has_class "disabled" c = true.
Proof. apply (first_year_disabled 1515110400000 1515110400000 1512950400000 1515542400000); vm_compute; (done || (split; done)). Defined.
