(* ===== verification/PickerSafety.v ===== *)
(** * The date-time picker keeps to its limits

    Invariants of the widget over all its actions: no function throws, the panels
    show the viewed date, the limits stay what they were set to although the widget
    may share their objects, and every date it announces lies within them, to the
    minute. *)

From S2P Require Import Prelude JsValue Json Browser Utils DatePairs DateOrder Calendar Regex DPGlobal PickerText DateTimePicker PickerCells.
From Stdlib Require Import Ascii.
Import Picker.

(** ** Running *)

(** The function returns, and its result satisfies [Q]. *)
Definition yields (m : option picker) (Q : picker -> Prop) : Prop := exists p, m = Some p /\ Q p.

Lemma yields_ret p (Q : picker -> Prop) : Q p -> yields (Some p) Q.
Proof. by exists p. Qed.

Lemma yields_bind m f (P Q : picker -> Prop) :
  yields m P -> (forall p, P p -> yields (f p) Q) -> yields (p ← m; f p) Q.
Proof. intros (p & -> & Hp) Hf. by apply Hf. Qed.

Lemma yields_mono m (P Q : picker -> Prop) : yields m P -> (forall p, P p -> Q p) -> yields m Q.
Proof. intros (p & Hm & Hp) HPQ. exists p. auto. Qed.

Lemma yields_if (b : bool) m p (Q : picker -> Prop) : yields m Q -> Q p -> yields (if b then m else Some p) Q.
Proof. destruct b; [done|]. intros _. apply yields_ret. Qed.

(** ** Reading never throws *)

Lemma render_some o dows hs ms today d v s e : exists g, render o dows hs ms today d v s e = Some g.
Proof. unfold render. cbv zeta. rewrite day_panel_days. cbn [fmap option_fmap option_map]. by eexists. Qed.

Lemma set_month_total t v : exists t', set_month t v = Some t'.
Proof.
  destruct (index_eta t) as (He & Hd & Ht). rewrite <- He.
  rewrite set_month_spec by (exact Ht || exact Hd). by eexists.
Qed.

Definition plain_parts : list string := ["yyyy"; "mm"; "dd"; "hh"; "ii"; "ss"].

Lemma apply_setters_total order l t :
  (forall p v, parsed_value p l = Some v -> p ∈ plain_parts) -> exists t', apply_setters order l t = Some t'.
Proof.
  intros Hl. revert t. induction order as [|s order IH]; intros t; [by eexists|]. cbn [apply_setters].
  destruct (parsed_value s l) as [[z|]|] eqn:E; [|apply IH..].
  assert (exists t', setter s t z = Some t') as [t' ->]; [|apply IH].
  apply Hl in E. unfold plain_parts in E. rewrite !elem_of_cons, elem_of_nil in E.
  destruct E as [->|[->|[->|[->|[->|[->|[]]]]]]]; first [by eexists | apply set_month_total].
Qed.

Lemma parsed_value_parts f ps p v :
  parsed_value p (zip_with (fun part text => (part, part_value part text)) f ps) = Some v -> p ∈ f.
Proof.
  revert ps. induction f as [|x f IH]; intros [|y ps]; cbn; try done. intros H.
  destruct (parsed_value p (zip_with _ f ps)) eqn:E; [simplify_eq; right; by eapply IH|].
  destruct (String.eqb_spec x p); [subst; left|done].
Qed.

Lemma apply_offsets_total l t : exists t', apply_offsets l t = Some t'.
Proof.
  revert t. induction l as [|[n a] l IH]; intros t; [by eexists|]. cbn [apply_offsets]. unfold moveYear.
  rewrite !moveMonth_shift. repeat case_match; simplify_eq; apply IH.
Qed.

Lemma parseDate_total now text f :
  (forall p, p ∈ parts f -> p ∈ plain_parts) -> exists t, parseDate now text f = Some t.
Proof.
  intros Hf. unfold parseDate.
  assert (exists f', choose_format text f = Some f' /\ forall p, p ∈ parts f' -> p ∈ plain_parts) as (f' & -> & Hf').
  { unfold choose_format. repeat case_match; eexists; (split; [reflexivity|]); [..|exact Hf];
      intros p; cbn; unfold plain_parts; rewrite !elem_of_cons, !elem_of_nil; tauto. }
  destruct (read_offsets OStart text) as [l|].
  - destruct (apply_offsets_total l now) as [t ->]. by eexists.
  - cbv zeta. case_match; [|by eexists]. apply apply_setters_total. intros p v Hp. by eapply Hf', parsed_value_parts.
Qed.

Lemma minutes_plain p : p ∈ parts minutes_format -> p ∈ plain_parts.
Proof. cbn. unfold plain_parts. rewrite !elem_of_cons, !elem_of_nil. tauto. Qed.

(** ** The text of a date in the field *)

Definition hour_part : regex :=
  Alt digit (Alt (Seq (char "0") digit) (Alt (Seq (char "1") digit) (Seq (char "2") (Class (char_range "0" "3"))))).

Lemma hour_part_length h : lang hour_part h -> String.length h = 1%nat \/ String.length h = 2%nat.
Proof.
  intros Hh%lang_words.
  assert (forallb (fun h => (String.length h =? 1) || (String.length h =? 2))%nat (words hour_part) = true) as Hw by reflexivity.
  rewrite forallb_forall in Hw. apply Hw, orb_true_iff in Hh as [H|H]; apply Nat.eqb_eq in H; auto.
Qed.

Lemma lang_seq_inv r1 r2 s : lang (Seq r1 r2) s -> exists s1 s2, s = s1 +:+ s2 /\ lang r1 s1 /\ lang r2 s2.
Proof. inversion 1; subst. eauto. Qed.

Lemma lang_class_inv l s : lang (Class l) s -> exists a, s = String a "" /\ a ∈ l.
Proof. inversion 1; subst. eauto. Qed.

(** A text that begins with three digits is no hour and minute. *)
Lemma no_hour_minute a b c s :
  is_digit b = true -> is_digit c = true -> begins hour_minute (String a (String b (String c s))) = false.
Proof.
  intros Hb Hc. apply not_true_is_false. unfold begins. rewrite existsb_exists. intros (n & _ & Hm%matches_lang).
  remember (String.substring 0 n _) as tx eqn:E. unfold hour_minute in Hm. fold hour_part in Hm.
  apply lang_seq_inv in Hm as (h & r & -> & Hh%hour_part_length & Hr).
  apply lang_seq_inv in Hr as (x & r2 & -> & Hx & _). apply lang_class_inv in Hx as (y & -> & ->%list_elem_of_singleton).
  destruct h as [|x [|y [|z h]]]; cbn in Hh; try lia; rewrite ?str_app_cons, ?str_app_nil_l in E;
    destruct n as [|[|[|n]]]; cbn in E; simplify_eq; done.
Qed.

Lemma digits_cons s v : numeral s v -> String.length s = 4%nat ->
  exists a b c r, s = String a (String b (String c r)) /\ is_digit b = true /\ is_digit c = true.
Proof.
  intros (Hd & _ & _) Hl. destruct s as [|a [|b [|c r]]]; try discriminate Hl. cbn in Hd.
  repeat (apply andb_true_iff in Hd as [? Hd]). by exists a, b, c, r.
Qed.

(** A text whose fields are printed by [pr] is read as the date, to the minute. *)
Lemma field_date_printed o now p pr t :
  (forall z, 0 <= z <= 59 -> numeral (pr z) z /\ short_numeral (pr z)) -> 1000 <= getUTCFullYear t <= 9999 ->
  value p = date_text (string_of_Z (getUTCFullYear t)) (pr (getUTCMonth t + 1)) (pr (getUTCDate t))
              (pr (getUTCHours t)) (pr (getUTCMinutes t)) ->
  field_date o now p = Some (whole_minutes t).
Proof.
  intros Hpr Hy Hv. unfold field_date. rewrite Hv. cbv zeta.
  assert (numeral (string_of_Z (getUTCFullYear t)) (getUTCFullYear t)) as HY by (apply numeral_of_Z; lia).
  destruct (clock_fields t) as (_ & Hmi & _).
  rewrite (trim_date_text _ _ _ _ _ (getUTCFullYear t) (getUTCMinutes t)) by first [exact HY | by apply Hpr].
  destruct (digits_cons _ _ HY (year_length _ Hy)) as (a & b & c & r & E & Hb & Hc).
  replace (String.eqb (date_text _ _ _ _ _) "") with false by (rewrite E; done).
  replace (begins hour_minute _) with false by (rewrite E; symmetry; by apply no_hour_minute).
  by apply (read_printed now (fmt o) pr).
Qed.

(** So the texts the widget writes, and those the pages write. *)
Lemma field_date_text o now p t :
  1000 <= getUTCFullYear t <= 9999 ->
  value p = DPGlobal.formatDate (timezone o) t minutes_format -> field_date o now p = Some (whole_minutes t).
Proof.
  intros Hy Hv. apply (field_date_printed o now p pad2); [|exact Hy|by rewrite Hv, minutes_text].
  intros z Hz. split; [apply numeral_pad2; lia|by apply pad2_short].
Qed.

Lemma field_date_page o now p off t :
  year_ok off t -> value p = DatePairs.formatDate (local_date off t) -> field_date o now p = Some (whole_minutes (t + off)).
Proof.
  intros Hy%year_ok_local Hv. apply (field_date_printed o now p padding); [|exact Hy|].
  - intros z Hz. split; [apply numeral_padding; lia|by apply padding_short].
  - rewrite Hv, local_fields. reflexivity.
Qed.

(** ** The invariant *)

(** Minutes of a local instant. *)
Definition minute_of (t : Z) : Z := t / 60000.

Section Invariant.
  Context (o : options) (s0 e0 : Z).

(** An announced date lies within the limits, to the minute. *)
Definition in_range (ev : event) : Prop :=
  match ev with
  | ChangeDate (Some t) => minute_of s0 <= minute_of (t + zone o) <= minute_of e0
  | _ => True
  end.

Record core (p : picker) : Prop := Core
  { core_start : (startDate p < length (store p))%nat;
    core_end : (endDate p < length (store p))%nat;
    core_view : exists l, viewDate p = Some l /\ (l < length (store p))%nat;
    core_date : match date p with DRef l => (l < length (store p))%nat | DNull => True | DUndef => False end;
    core_s : at_ p (startDate p) = s0;
    core_e : at_ p (endDate p) = e0;
    core_mode : minView o <= viewMode p <= maxView o;
    core_events : Forall in_range (fired p) }.

(** The part of it that does not depend on the date and the view. *)
Record base (p : picker) : Prop := Base
  { base_start : (startDate p < length (store p))%nat;
    base_end : (endDate p < length (store p))%nat;
    base_s : at_ p (startDate p) = s0;
    base_e : at_ p (endDate p) = e0;
    base_mode : minView o <= viewMode p <= maxView o;
    base_events : Forall in_range (fired p) }.

Lemma core_base p : core p -> base p.
Proof. intros [H1 H2 H3 H4 H5 H6 H7 H8]. by split. Qed.

(** The panels show the viewed date. *)
Definition drawn (p : picker) : Prop :=
  exists l today d, viewDate p = Some l /\
  shown p = render o (daysOfWeekDisabled p) (hoursDisabled p) (minutesDisabled p) today d (at_ p l) s0 e0.

(** The viewed date is no limit's object. *)
Definition apart (p : picker) : Prop :=
  forall l, viewDate p = Some l -> l <> startDate p /\ l <> endDate p.

(** *** The store *)

Lemma at_alloc p t l : (l < length (store p))%nat -> at_ (alloc t p) l = at_ p l.
Proof. intros Hl. unfold at_, alloc, set_store. cbn [store]. by rewrite lookup_app_l. Qed.

Lemma at_new p t : at_ (alloc t p) (new_place p) = t.
Proof. unfold at_, alloc, set_store, new_place. cbn [store]. by rewrite list_lookup_middle. Qed.

Lemma at_poke p l l' t : l <> l' -> at_ (poke l t p) l' = at_ p l'.
Proof. intros Hl. unfold at_, poke, set_store. cbn [store]. by rewrite list_lookup_insert_ne. Qed.

Lemma at_poked p l t : (l < length (store p))%nat -> at_ (poke l t p) l = t.
Proof. intros Hl. unfold at_, poke, set_store. cbn [store]. by rewrite list_lookup_insert_eq. Qed.

Lemma alloc_length t p : length (store (alloc t p)) = S (length (store p)).
Proof. unfold alloc, set_store. cbn [store]. rewrite length_app. cbn. lia. Qed.

Lemma core_alloc t p : core p -> core (alloc t p).
Proof.
  intros [H1 H2 (l & Hl & H3) H4 H5 H6 H7 H8].
  split; rewrite ?alloc_length; cbn [alloc set_store startDate endDate viewDate date viewMode fired]; try lia; try done.
  - exists l. split; [done|lia].
  - destruct (date p); lia || done.
  - by rewrite (at_alloc p t (startDate p)).
  - by rewrite (at_alloc p t (endDate p)).
Qed.

Lemma core_poke l t p : core p -> apart p -> viewDate p = Some l -> core (poke l t p).
Proof.
  intros [H1 H2 H3 H4 H5 H6 H7 H8] Ha Hl. destruct (Ha l Hl) as [Hs He].
  split; cbn [poke set_store startDate endDate viewDate date viewMode fired store]; rewrite ?length_insert; try done.
  - by rewrite (at_poke p l (startDate p)).
  - by rewrite (at_poke p l (endDate p)).
Qed.

Lemma core_put_date l p : core p -> (l < length (store p))%nat -> core (put_date (DRef l) p).
Proof. intros [H1 H2 H3 H4 H5 H6 H7 H8] Hl. by split. Qed.

Lemma core_put_null p : core p -> core (put_date DNull p).
Proof. intros [H1 H2 H3 H4 H5 H6 H7 H8]. by split. Qed.

Lemma core_put_view l p : core p -> (l < length (store p))%nat -> core (put_viewDate (Some l) p).
Proof. intros [H1 H2 H3 H4 H5 H6 H7 H8] Hl. split; try done. by exists l. Qed.

Lemma core_put_value v p : core p -> core (put_value v p).
Proof. intros [H1 H2 H3 H4 H5 H6 H7 H8]. by split. Qed.

Lemma core_put_visible b p : core p -> core (put_visible b p).
Proof. intros [H1 H2 H3 H4 H5 H6 H7 H8]. by split. Qed.

Lemma core_put_arrows a p : core p -> core (put_arrows a p).
Proof. intros [H1 H2 H3 H4 H5 H6 H7 H8]. by split. Qed.

Lemma core_put_shown g p : core p -> core (put_shown g p).
Proof. intros [H1 H2 H3 H4 H5 H6 H7 H8]. by split. Qed.

Lemma core_put_mode m p : core p -> minView o <= m <= maxView o -> core (put_viewMode m p).
Proof. intros [H1 H2 H3 H4 H5 H6 H7 H8] Hm. by split. Qed.

Lemma core_trigger ev p : core p -> in_range ev -> core (trigger ev p).
Proof.
  intros [H1 H2 H3 H4 H5 H6 H7 H8] He. split; try done. apply Forall_app. split; [done|]. by constructor.
Qed.

(** The panels do not depend on the other fields. *)
Lemma drawn_as p p' :
  drawn p -> store p' = store p -> viewDate p' = viewDate p -> shown p' = shown p ->
  daysOfWeekDisabled p' = daysOfWeekDisabled p -> hoursDisabled p' = hoursDisabled p ->
  minutesDisabled p' = minutesDisabled p -> drawn p'.
Proof.
  intros (l & today & d & Hl & Hs) H1 H2 H3 H4 H5 H6. exists l, today, d. unfold at_. by rewrite H1, H2, H3, H4, H5, H6.
Qed.

End Invariant.

Create HintDb picker.
#[export] Hint Resolve core_alloc core_poke core_put_date core_put_null core_put_view core_put_value core_put_visible
  core_put_arrows core_put_shown core_put_mode core_trigger : picker.

(** ** Operations *)

(** Only what is drawn differs. *)
Definition redrawn (p p' : picker) : Prop := exists a g, p' = put_shown g (put_arrows a p).

(** The date is an object. *)
Definition refd (p : picker) : Prop := exists l, date p = DRef l.

(** The objects are the same. *)
Definition alike (p p' : picker) : Prop :=
  store p' = store p /\ date p' = date p /\ viewDate p' = viewDate p /\ startDate p' = startDate p /\
  endDate p' = endDate p /\ isVisible p' = isVisible p.

Lemma alike_apart p p' : alike p p' -> apart p -> apart p'.
Proof. intros (_ & _ & Hv & Hs & He & _) Ha l. rewrite Hv, Hs, He. apply Ha. Qed.

Lemma alike_refd p p' : alike p p' -> refd p -> refd p'.
Proof. intros (_ & Hd & _) [l Hl]. exists l. by rewrite Hd. Qed.

Lemma redrawn_alike p p' : redrawn p p' -> alike p p'.
Proof. by intros (a & g & ->). Qed.

Lemma redrawn_refl p : redrawn p p.
Proof. exists (arrows p), (shown p). by destruct p. Qed.

Lemma updateNavArrows_spec p : exists a, updateNavArrows p = put_arrows a p.
Proof.
  assert (p = put_arrows (arrows p) p) as He by (by destruct p).
  unfold updateNavArrows. destruct (viewDate p) as [v|]; [|by eexists]. destruct (navArrows _ _ _ _); by eexists.
Qed.

(** What the listeners of [changeDate] may do. *)
Class Listener (o : options) (s0 e0 : Z) (changed : picker -> option picker) : Prop :=
  listener p : core o s0 e0 p -> drawn o s0 e0 p ->
  yields (changed p) (fun p' => core o s0 e0 p' /\ drawn o s0 e0 p' /\ isVisible p' = isVisible p /\
                                (apart p -> apart p') /\ (refd p -> refd p')).

(** The configurations of the theorems. *)
Record usual (o : options) (s0 e0 : Z) : Prop := Usual
  { us_format : fmt o = minutes_format;
    us_modes : minView o <= startViewMode o <= maxView o;
    us_select : viewSelect o = 0;
    us_close : autoclose o = true;
    us_parse : forceParse o = true;
    us_step : 1 <= minuteStep o;
    us_order : s0 <= e0;
    us_first : 1000 <= getUTCFullYear s0;
    us_last : getUTCFullYear e0 <= 9999 }.

(** Reading a field never throws. *)
Lemma field_date_total_format o s0 e0 now p :
  fmt o = minutes_format -> core o s0 e0 p -> exists t, field_date o now p = Some t.
Proof.
  intros Hf Hc. unfold field_date. destruct (String.eqb _ _); [by eexists|]. cbv zeta. destruct (String.eqb _ _); [by eexists|].
  destruct (begins _ _).
  - destruct Hc as [_ _ _ Hd _ _ _ _]. unfold getDate. destruct (date p); [done|..]; by eexists.
  - apply parseDate_total. rewrite Hf. apply minutes_plain.
Qed.

Section Actions.
  Context (o : options) (s0 e0 : Z) (Hu : usual o s0 e0) (now : Z).

Local Abbreviation core := (core o s0 e0).
Local Abbreviation drawn := (drawn o s0 e0).

Lemma fill_yields p :
  core p -> refd p \/ drawn p ->
  yields (fill o now p) (fun p' => core p' /\ drawn p' /\ redrawn p p').
Proof.
  intros Hc Hd. pose proof Hc as [_ _ (l & Hl & _) Hdate Hs He _ _]. unfold fill. rewrite Hl.
  destruct (date p) as [| |dl] eqn:Ed; [done|..].
  { destruct Hd as [[l' Hl']|Hd]; [congruence|]. apply yields_ret. split_ands; [done|done|apply redrawn_refl]. }
  destruct (updateNavArrows_spec p) as [a Ha]. rewrite Ha. cbv zeta.
  edestruct render_some as [g Hg]. rewrite Hg. apply yields_ret.
  split; [eauto with picker|]. split; [|by exists a, (Some g)].
  exists l, (now + zone o), (at_ p dl). split; [done|]. rewrite <- Hs, <- He. symmetry. exact Hg.
Qed.

Lemma setValue_yields p :
  core p -> yields (setValue o p) (fun p' => exists s, getFormattedDate o p = Some s /\ p' = put_value s p).
Proof.
  intros [_ _ _ Hd _ _ _ _]. unfold setValue, getFormattedDate. destruct (date p); [done|..]; cbn; eexists; split; eauto.
Qed.

Lemma field_date_total p : core p -> exists t, field_date o now p = Some t.
Proof using Hu. apply (field_date_total_format o s0 e0), Hu. Qed.

(** [update] makes new objects for the date and the view. *)
Lemma update_base p t :
  base o s0 e0 p -> field_date o now p = Some t ->
  yields (update o now p) (fun p' => core p' /\ drawn p' /\ apart p' /\ isVisible p' = isVisible p /\ value p' = value p /\
    exists l, date p' = DRef l /\ field_date o now p = Some (at_ p' l)).
Proof.
  intros [H1 H2 H3 H4 H5 H6] Ht. unfold update. rewrite Ht. cbn [mbind option_bind].
  set (p1 := put_date _ _). set (v := if _ <? _ then _ else _). set (p2 := put_viewDate _ _).
  assert (length (store p1) = S (length (store p))) as Hl1 by apply alloc_length.
  assert (length (store p2) = S (length (store p1))) as Hl2 by apply alloc_length.
  assert (forall l, (l < length (store p))%nat -> at_ p2 l = at_ p l) as Hat.
  { intros l Hl. change (at_ (alloc v p1) l = at_ p l). rewrite at_alloc by lia. by apply (at_alloc p t). }
  assert (core p2) as Hc2.
  { split; rewrite ?Hl2, ?Hl1; cbn [p2 p1 put_viewDate put_date alloc set_store startDate endDate viewDate date viewMode fired];
      try lia; try done.
    - exists (new_place p1). split; [done|unfold new_place; lia].
    - unfold new_place. lia.
    - by rewrite (Hat (startDate p)).
    - by rewrite (Hat (endDate p)). }
  eapply yields_mono; [apply fill_yields; [exact Hc2|left; by eexists]|].
  intros p' (Hc' & Hd' & a & g & ->). split; [exact Hc'|]. split; [exact Hd'|]. split_ands; [|done|done|].
  - intros l [= <-]. unfold new_place. cbn in *. lia.
  - exists (new_place p). split; [done|]. f_equal.
    change (t = at_ (alloc v p1) (new_place p)). rewrite at_alloc by (rewrite Hl1; unfold new_place; lia).
    symmetry. apply (at_new p t).
Qed.

Lemma update_yields p :
  core p ->
  yields (update o now p) (fun p' => core p' /\ drawn p' /\ apart p' /\ isVisible p' = isVisible p /\ value p' = value p /\
    exists l, date p' = DRef l /\ field_date o now p = Some (at_ p' l)).
Proof using Hu.
  intros Hc. destruct (field_date_total p Hc) as [t Ht]. apply (update_base p t); [by apply core_base|done].
Qed.

Lemma showMode_spec dir p :
  core p -> core (showMode o dir p) /\ alike p (showMode o dir p) /\ (drawn p -> drawn (showMode o dir p)).
Proof.
  intros Hc. unfold showMode. cbv zeta.
  set (p1 := if dir =? 0 then p else _). destruct (updateNavArrows_spec p1) as [a ->].
  assert (core p1 /\ (p1 = p \/ exists m ev, p1 = put_viewMode m (trigger ev p))) as [Hc1 Hp1].
  { subst p1. destruct (dir =? 0); [by auto|]. destruct (_ && _) eqn:E; [|by auto].
    apply andb_true_iff in E as [E1%Z.leb_le E2%Z.leb_le]. split; [|by eauto].
    apply core_put_mode; [by apply core_trigger|lia]. }
  split; [by apply core_put_arrows|].
  destruct Hp1 as [->|(m & ev & ->)]; (split; [done|intros Hd; by eapply (drawn_as o s0 e0 p)]).
Qed.

(** [hide] leaves the widget hidden. *)
Lemma hide_yields p :
  core p -> drawn p -> refd p -> yields (hide o p) (fun p' => core p' /\ drawn p' /\ refd p' /\ isVisible p' = false).
Proof using Hu.
  intros Hc Hd Hr. unfold hide. destruct (isVisible p) eqn:Ev; cbn [negb]; [|by apply yields_ret].
  assert (core (put_viewMode (startViewMode o) p)) as Hc0 by (apply core_put_mode; [done|apply Hu]).
  assert (drawn (put_viewMode (startViewMode o) p)) as Hd0 by (by eapply (drawn_as o s0 e0 p)).
  destruct (showMode_spec 0 _ Hc0) as (Hc1 & Ha1 & Hd1). specialize (Hd1 Hd0).
  assert (refd (showMode o 0 (put_viewMode (startViewMode o) p))) as Hr1 by (by eapply alike_refd).
  set (p1 := showMode _ _ _) in *. clearbody p1.
  eapply (yields_bind _ _ (fun p' => core p' /\ drawn p' /\ refd p')).
  - apply yields_if; [|done]. eapply yields_mono; [by apply setValue_yields|].
    intros p' (s & _ & ->). split_ands; [by apply core_put_value|by eapply (drawn_as o s0 e0 p1)|done].
  - intros p' (Hc2 & Hd2 & Hr2). apply yields_ret. split_ands; [|by eapply (drawn_as o s0 e0 p')|done|done].
    apply core_trigger; [by apply core_put_visible|done].
Qed.

(** [show] reads the field again, so that the view is an object of its own. *)
Lemma show_yields p : core p -> yields (show o now p) (fun p' => core p' /\ drawn p' /\ refd p' /\ apart p').
Proof using Hu.
  intros Hc. unfold show. rewrite (us_parse _ _ _ Hu). eapply yields_bind; [by apply update_yields|].
  intros p' (Hc' & Hd' & Ha' & _ & _ & l & Hl & _). apply yields_ret.
  split_ands; [|by eapply (drawn_as o s0 e0 p')|by exists l|done].
  apply core_trigger; [by apply core_put_visible|done].
Qed.

(** ** Choosing *)

Definition announced (p : picker) : Prop :=
  forall l, date p = DRef l -> minute_of s0 <= minute_of (at_ p l) <= minute_of e0.

Context (changed : picker -> option picker) (HL : Listener o s0 e0 changed).

Lemma tell_change_yields p :
  core p -> drawn p -> announced p ->
  yields (tell_change o changed p) (fun p' => core p' /\ drawn p' /\ isVisible p' = isVisible p /\
    (apart p -> apart p') /\ (refd p -> refd p')).
Proof using HL.
  intros Hc Hd Ha. unfold tell_change. cbv zeta.
  assert (exists d, getDate o (trigger Change p) = Some d /\ in_range o s0 e0 (ChangeDate d)) as (d & -> & Hr).
  { unfold getDate. cbn [date trigger]. destruct Hc as [_ _ _ H _ _ _ _]. destruct (date p) as [| |l] eqn:E; [done|by eexists|].
    eexists. split; [done|]. cbn [in_range]. rewrite Z.sub_add. by apply Ha. }
  cbn [mbind option_bind]. eapply yields_mono; [apply listener|].
  - apply core_trigger; [by apply core_trigger|exact Hr].
  - by eapply (drawn_as o s0 e0 p).
  - intros p' (? & ? & ? & ? & ?). done.
Qed.

Lemma setDate_yields l p :
  core p -> (l < length (store p))%nat -> minute_of s0 <= minute_of (at_ p l) <= minute_of e0 ->
  yields (_setDate o now changed l p) (fun p' => core p' /\ drawn p' /\ refd p' /\ isVisible p' = isVisible p /\
    (l <> startDate p /\ l <> endDate p -> apart p')).
Proof using HL.
  intros Hc Hl Hm. unfold _setDate. eapply yields_bind.
  { apply fill_yields; [by apply core_put_view; [apply core_put_date|]|left; by eexists]. }
  intros p1 (Hc1 & Hd1 & a & g & ->). eapply yields_bind; [by apply setValue_yields|].
  intros p2 (v & _ & ->). eapply yields_mono.
  { apply tell_change_yields; [by apply core_put_value|by eapply (drawn_as o s0 e0 _ _ Hd1)|].
    intros l' [= <-]. exact Hm. }
  intros p' (Hc' & Hd' & Hv' & Ha' & Hr'). split_ands; [done|done|apply Hr'; by exists l|done|].
  intros [H1 H2]. apply Ha'. by intros l' [= <-].
Qed.

Lemma set_new_date_yields t p :
  core p -> minute_of s0 <= minute_of t <= minute_of e0 ->
  yields (set_new_date o now changed t p) (fun p' => core p' /\ drawn p' /\ refd p' /\ isVisible p' = isVisible p /\ apart p').
Proof using HL.
  intros Hc Ht. pose proof Hc as [Hs He _ _ _ _ _ _]. eapply yields_mono.
  { apply setDate_yields; [by apply core_alloc|rewrite alloc_length; unfold new_place; lia|by rewrite at_new]. }
  intros p' (? & ? & ? & ? & Ha). split_ands; try done. apply Ha. unfold new_place. cbn. lia.
Qed.

Lemma reset_yields p :
  core p -> drawn p ->
  yields (reset o now changed p) (fun p' => core p' /\ drawn p' /\ refd p' /\ isVisible p' = isVisible p /\ (apart p -> apart p')).
Proof using HL.
  intros Hc Hd. unfold reset. assert (drawn (put_date DNull p)) as Hd0 by (by eapply (drawn_as o s0 e0 p)).
  eapply yields_bind; [apply fill_yields; [by apply core_put_null|by right]|].
  intros p1 (Hc1 & Hd1 & a & g & ->). eapply yields_bind; [by apply setValue_yields|].
  intros p2 (v & _ & ->). eapply yields_bind.
  { apply tell_change_yields; [by apply core_put_value|by eapply (drawn_as o s0 e0 _ _ Hd1)|done]. }
  intros p3 (Hc3 & Hd3 & Hv3 & Ha3 & _). apply yields_ret. pose proof Hc3 as [_ _ (l & Hl & Hlen) _ _ _ _ _]. rewrite Hl.
  split_ands; [by apply core_put_date|by eapply (drawn_as o s0 e0 p3)|by exists l|done|].
  intros Ha l' Hl'. by apply (Ha3 Ha).
Qed.

(** ** Clicks *)

Definition good (p : picker) : Prop := core p /\ drawn p /\ refd p /\ (isVisible p = true -> apart p).

Lemma good_intro p : core p -> drawn p -> refd p -> (isVisible p = true -> apart p) -> good p.
Proof. by split. Qed.

Lemma hide_good p : core p -> drawn p -> refd p -> yields (hide o p) good.
Proof using Hu.
  intros Hc Hd Hr. eapply yields_mono; [by apply hide_yields|]. intros p' (? & ? & ? & Hv). apply good_intro; try done. congruence.
Qed.

(** Drawing the panel of a chosen view, and closing. *)
Lemma fill_close p (b : bool) : core p -> refd p -> apart p -> yields (p ← fill o now p; if b then hide o p else Some p) good.
Proof using Hu.
  intros Hc Hr Ha. eapply yields_bind; [apply fill_yields; [done|by left]|].
  intros p' (Hc' & Hd' & Hp'%redrawn_alike). assert (refd p') as Hr' by (by eapply alike_refd).
  apply yields_if; [by apply hide_good|]. apply good_intro; try done. intros _. by eapply alike_apart.
Qed.

Lemma next_panel_yields p : core p -> refd p -> apart p -> yields (next_panel o now p) good.
Proof using Hu.
  intros Hc Hr Ha. unfold next_panel. cbv zeta. destruct (showMode_spec (-1) p Hc) as (Hc1 & Ha1 & _).
  eapply yields_bind; [apply fill_yields; [done|left; by eapply alike_refd]|].
  intros p' (Hc' & Hd' & Hp'%redrawn_alike).
  assert (refd p') as Hr' by (eapply alike_refd; [done|]; by eapply alike_refd).
  apply yields_if; [by apply hide_good|]. apply good_intro; try done.
  intros _. eapply alike_apart; [done|]. by eapply alike_apart.
Qed.

Lemma after_span_yields p : core p -> refd p -> apart p -> yields (after_span o now p) good.
Proof using Hu.
  intros Hc Hr Ha. unfold after_span. destruct (negb _); [by apply next_panel_yields|by apply fill_close].
Qed.

Lemma navigate_yields back p : good p -> yields (navigate o now back p) good.
Proof.
  intros (Hc & Hd & Hr & _). unfold navigate. pose proof Hc as [Hs He (v & Hv & _) _ _ _ _ _]. rewrite Hv.
  cbn [mbind option_bind]. unfold moveYear. rewrite !moveMonth_shift. set (t' := if _ =? 0 then _ else _).
  assert (exists t, t' = Some t) as [t ->] by (subst t'; repeat destruct (_ =? _); by eexists).
  eapply yields_bind.
  { apply fill_yields; [|by left]. apply core_put_view; [by apply core_alloc|]. rewrite alloc_length. unfold new_place. lia. }
  intros p' (Hc' & Hd' & Hp'%redrawn_alike). apply yields_ret.
  apply good_intro; [by apply core_trigger|by eapply (drawn_as o s0 e0 p')|..].
  - change (refd p'). by eapply alike_refd.
  - intros _. change (apart p'). eapply alike_apart; [done|]. intros l [= <-]. unfold new_place. cbn. lia.
Qed.

Lemma today_yields p : good p -> yields (click_today o now changed p) good.
Proof using Hu HL.
  intros (Hc & Hd & Hr & _). pose proof Hc as [Hs He _ _ Hs0 He0 _ _]. unfold click_today. cbv zeta.
  set (t := UTCDate _ _ _ _ _ _). rewrite Hs0, He0. set (x := if _ <? _ then _ else _).
  assert (core x.2 /\ (x.1 < length (store x.2))%nat /\ s0 <= at_ x.2 x.1 <= e0) as (Hcx & Hlx & Hrx).
  { pose proof (us_order _ _ _ Hu). subst x. destruct (Z.ltb_spec t s0); [cbn [fst snd]; rewrite Hs0; done|].
    rewrite Z.gtb_ltb. destruct (Z.ltb_spec e0 t); [cbn [fst snd]; rewrite He0; done|]. cbn [fst snd].
    split_ands; [by apply core_alloc|rewrite alloc_length; unfold new_place; lia|..]; rewrite at_new; lia. }
  destruct x as [l p1]. cbn [fst snd] in *. 
  assert (core (put_viewMode (startViewMode o) p1)) as Hc1 by (apply core_put_mode; [done|apply Hu]).
  destruct (showMode_spec 0 _ Hc1) as (Hc2 & (Hst & _) & _). rewrite (us_close _ _ _ Hu).
  eapply yields_bind.
  { apply (setDate_yields l); [done|by rewrite Hst|]. replace (at_ _ l) with (at_ p1 l) by (unfold at_; by rewrite Hst).
    unfold minute_of. split; apply Z.div_le_mono; lia. }
  intros p3 (Hc3 & Hd3 & Hr3 & _). eapply yields_bind; [apply fill_yields; [done|by left]|].
  intros p4 (Hc4 & Hd4 & Hp4%redrawn_alike). apply hide_good; [done|done|by eapply alike_refd].
Qed.

(** A change of the viewed date in place. *)
Lemma poke_yields l t ev p :
  core p -> refd p -> apart p -> viewDate p = Some l -> in_range o s0 e0 ev ->
  let p' := trigger ev (poke l t p) in core p' /\ refd p' /\ apart p'.
Proof. intros Hc Hr Ha Hl He p'. split; [|done]. apply core_trigger; [by apply core_poke|done]. Qed.

(** An enabled minute lies within the limits. *)
Lemma minute_span p i c l :
  drawn p -> viewDate p = Some l -> span_cell MinuteSpan i p = Some c -> has_class "disabled" c = false ->
  let v := at_ p l in
  exists m, parse_or 0 (after_colon (text c)) = m /\ 0 <= m <= 59 /\ s0 <= at_minute v m <= e0.
Proof using Hu.
  intros (l' & today & d & Hl' & Hs) Hl Hc Hd. rewrite Hl in Hl'. injection Hl' as <-. cbv zeta.
  unfold span_cell in Hc. edestruct render_some as [g Hg]. rewrite Hs, Hg in Hc. cbn [mbind option_bind] in Hc.
  destruct (render_panels _ _ _ _ _ _ _ _ _ _ Hg) as (_ & _ & Hm0). rewrite Hm0 in Hc. destruct (viewMode p =? 0); [|done].
  apply list_elem_of_lookup_2, minute_loop_elem in Hc as (m & Hm & ->); [|apply Hu|lia].
  destruct (minute_cell_spec o d (at_ p l) s0 e0 m Hm) as [Ht Hx]. rewrite Hd in Hx. exists m. split; [done|]. split; [done|].
  symmetry in Hx. apply negb_false_iff, andb_true_iff in Hx as [H1%Z.leb_le H2%Z.leb_le]. done.
Qed.

Lemma minute_span_range v m :
  0 <= m <= 59 -> s0 <= at_minute v m <= e0 ->
  minute_of s0 <=
    minute_of (UTCDate (getUTCFullYear v) (getUTCMonth v) (getUTCDate v) (getUTCHours v) m (getUTCSeconds v)) <= minute_of e0.
Proof using Hu.
  intros Hm Hr. unfold minute_of. rewrite minute_date; [split; apply Z.div_le_mono; lia| |done].
  pose proof (us_first _ _ _ Hu). pose proof (year_mono s0 (at_minute v m) ltac:(lia)) as Hy.
  rewrite (same_day_year (at_minute v m) v) in Hy by (by apply at_minute_day). lia.
Qed.

Lemma pick_span_yields kind i c p :
  good p -> isVisible p = true -> span_cell kind i p = Some c -> has_class "disabled" c = false ->
  yields (pick_span o now changed kind i c p) (fun p' => core p' /\ refd p' /\ apart p').
Proof using Hu HL.
  intros (Hc & Hd & Hr & Ha) Hv Hcell Hdis. specialize (Ha Hv). unfold pick_span.
  pose proof Hc as [_ _ (l & Hl & _) _ _ _ _ _]. rewrite Hl. cbn [mbind option_bind]. rewrite (us_select _ _ _ Hu).
  destruct kind; cbn [Z.leb Z.compare]; try (apply yields_ret; by apply poke_yields).
  destruct (minute_span p i c l Hd Hl Hcell Hdis) as (m & -> & Hm & Hrange).
  eapply yields_mono.
  - apply set_new_date_yields; [apply core_trigger; [by apply core_poke|done]|by apply minute_span_range].
  - intros p' (? & _ & ? & _ & ?). done.
Qed.

Lemma pick_day_yields c p :
  good p -> isVisible p = true -> yields (pick_day o now changed c p) (fun p' => core p' /\ refd p' /\ apart p').
Proof using Hu.
  intros (Hc & Hd & Hr & Ha) Hv. specialize (Ha Hv). unfold pick_day.
  pose proof Hc as [_ _ (l & Hl & _) _ _ _ _ _]. rewrite Hl. cbn [mbind option_bind]. cbv zeta.
  destruct (if has_class "old" c then _ else _) as [y m]. rewrite (us_select _ _ _ Hu). cbn [Z.leb Z.compare].
  apply yields_ret. by apply poke_yields.
Qed.

Lemma good_trigger ev p : good p -> in_range o s0 e0 ev -> good (trigger ev p).
Proof.
  intros (Hc & Hd & Hr & Ha) He. apply good_intro; [by apply core_trigger|by eapply (drawn_as o s0 e0 p)|done|done].
Qed.

Lemma click_yields x p : good p -> yields (click o now changed x p) good.
Proof using Hu HL.
  intros Hg. unfold click. destruct (isVisible p) eqn:Hv; cbn [negb]; [|by apply yields_ret].
  pose proof Hg as (Hc & Hd & Hr & Ha). specialize (Ha Hv).
  assert (good (out_of_range p)) as Hout by (unfold out_of_range; destruct (viewDate p); [by apply good_trigger|done]).
  destruct x as [| | | | |kind i|i|].
  - apply yields_ret. destruct (showMode_spec 1 p Hc) as (? & Hal & ?).
    apply good_intro; [done|auto|by eapply alike_refd|intros _; by eapply alike_apart].
  - apply yields_if; [by apply navigate_yields|done].
  - apply yields_if; [by apply navigate_yields|done].
  - eapply yields_bind; [by apply reset_yields|]. intros p' (? & ? & ? & ? & Ha'). apply yields_if; [by apply hide_good|].
    apply good_intro; auto.
  - by apply today_yields.
  - destruct (span_cell kind i p) as [c|] eqn:E; [|by apply yields_ret].
    destruct (has_class "disabled" c) eqn:Ed; [by apply yields_ret|].
    eapply yields_bind; [by eapply pick_span_yields|]. intros p' (? & ? & ?). by apply after_span_yields.
  - destruct (day_cell i p) as [c|]; [|by apply yields_ret]. destruct (has_class "disabled" c); [by apply yields_ret|].
    eapply yields_bind; [by apply pick_day_yields|]. intros p' (? & ? & ?). by apply next_panel_yields.
  - by apply next_panel_yields.
Qed.

(** ** Keys *)

Lemma key_move_total vertical mode dir t : exists t', key_move o vertical mode dir t = Some t'.
Proof. unfold key_move, moveYear. rewrite !moveMonth_shift. repeat destruct (_ =? _); by eexists. Qed.

Lemma minutes_kept t : s0 <= t <= e0 -> minute_of s0 <= minute_of (whole_minutes t) <= minute_of e0.
Proof. unfold minute_of, whole_minutes. intros Ht. Z.to_euclidean_division_equations. lia. Qed.

(** Moving the date with the keyboard: the text is written and read again. *)
Lemma arrow_key_yields vertical dir ctrl shift p : good p -> yields (arrow_key o now changed vertical dir ctrl shift p) good.
Proof using Hu HL.
  intros Hg. pose proof Hg as (Hc & Hd & [d Hr] & _). pose proof Hc as [_ _ (l & Hl & _) _ Hs He _ _].
  unfold arrow_key. destruct (keyboardNavigation o); cbn [negb]; [|by apply yields_ret]. cbv zeta. rewrite Hr, Hl.
  set (mode := viewMode p + _). destruct (key_move_total vertical mode dir (at_ p d)) as [nd ->].
  destruct (key_move_total vertical mode dir (at_ p l)) as [nv ->]. cbn [mbind option_bind].
  destruct nd as [t|]; [|by apply yields_ret]. destruct nv as [t'|]; [|by apply yields_ret].
  destruct (dateWithinRange p t) eqn:Hw; [|by apply yields_ret].
  unfold dateWithinRange in Hw. rewrite Hs, He in Hw. apply andb_true_iff in Hw as [H1%Z.leb_le H2%Z.leb_le].
  set (p1 := put_date _ _). set (p2 := put_viewDate _ _).
  assert (core p2) as Hc2.
  { apply core_put_view; [apply core_alloc, core_put_date; [by apply core_alloc|]|]; rewrite alloc_length; unfold new_place; lia. }
  eapply yields_bind; [by apply setValue_yields|]. intros p3 (v & Hv & ->).
  assert (getFormattedDate o p2 = Some (DPGlobal.formatDate (timezone o) t minutes_format)) as Hv2.
  { unfold getFormattedDate. cbn [date p2 p1 put_viewDate put_date alloc set_store]. do 2 f_equal; [|apply Hu].
    change (at_ (alloc t' p1) (new_place p) = t). rewrite at_alloc; [|cbn; rewrite length_app; cbn; unfold new_place; lia].
    apply (at_new p t). }
  rewrite Hv2 in Hv. injection Hv as <-.
  eapply yields_bind; [by apply update_yields, core_put_value|]. intros p4 (Hc4 & Hd4 & Ha4 & _ & _ & l4 & Hl4 & Hf).
  rewrite (field_date_text o now _ t) in Hf; [| |done].
  2:{ pose proof (year_mono s0 t H1). pose proof (year_mono t e0 H2). pose proof (us_first _ _ _ Hu). pose proof (us_last _ _ _ Hu). lia. }
  eapply yields_mono; [apply tell_change_yields; [done|done|]|].
  { intros l' Hl'. rewrite Hl4 in Hl'. injection Hl' as <-. injection Hf as <-. by apply minutes_kept. }
  intros p5 (? & ? & _ & Ha5 & Hr5). apply good_intro; [done|done|apply Hr5; by exists l4|auto].
Qed.

Lemma keydown_yields k ctrl shift p : good p -> yields (keydown o now changed k ctrl shift p) good.
Proof using Hu HL.
  intros Hg. pose proof Hg as (Hc & Hd & Hr & Ha). unfold keydown. destruct (isVisible p) eqn:Hv; cbn [negb].
  - destruct k; first [by apply hide_good | by apply arrow_key_yields | apply after_span_yields; auto | by apply yields_ret].
  - destruct k; [|by apply yields_ret..]. eapply yields_mono; [by apply show_yields|].
    intros p' (? & ? & ? & ?). by apply good_intro.
Qed.

Lemma setUTCDate_yields t p : good p -> yields (setUTCDate o now t p) good.
Proof.
  intros Hg. pose proof Hg as (Hc & _). pose proof Hc as [Hs He _ _ _ _ _ _]. unfold setUTCDate. destruct (_ && _).
  - cbv zeta. set (p1 := put_date _ _). assert (core p1) as Hc1.
    { apply core_put_date; [by apply core_alloc|]. rewrite alloc_length. unfold new_place. lia. }
    eapply yields_bind; [by apply setValue_yields|]. intros p2 (v & _ & ->). eapply yields_mono.
    { apply fill_yields; [|left; by eexists]. apply core_put_view; [by apply core_put_value|].
      change (new_place p < length (store (alloc t p)))%nat. rewrite alloc_length. unfold new_place. lia. }
    intros p' (Hc' & Hd' & Hp'%redrawn_alike). apply good_intro; [done|done|eapply alike_refd; [done|by eexists]|].
    intros _. eapply alike_apart; [done|]. intros l [= <-]. unfold new_place. cbn. lia.
  - apply yields_ret. by apply good_trigger.
Qed.

Lemma act_yields a p : good p -> yields (act o now changed a p) good.
Proof using Hu HL.
  intros Hg. pose proof Hg as (Hc & Hd & Hr & _).
  assert (forall v, yields (update o now (put_value v p)) good) as Hup.
  { intros v. eapply yields_mono; [by apply update_yields, core_put_value|].
    intros p' (? & ? & ? & _ & _ & l & ? & _). apply good_intro; [done|done|by exists l|done]. }
  destruct a; cbn [act]; [|done|done|by apply click_yields|by apply keydown_yields|by apply hide_good|by apply setUTCDate_yields].
  eapply yields_mono; [by apply show_yields|]. intros p' (? & ? & ? & ?). by apply good_intro.
Qed.

End Actions.

Lemma acts_yields o s0 e0 changed l p :
  usual o s0 e0 -> (forall now, Listener o s0 e0 (changed now)) -> good o s0 e0 p -> yields (acts o changed l p) (good o s0 e0).
Proof.
  intros Hu HL. revert p. induction l as [|[now a] l IH]; intros p Hg; [by apply yields_ret|].
  cbn [acts]. eapply yields_bind; [by apply act_yields|exact IH].
Qed.

(** ** The constructor *)

Lemma updateNavArrows_core o s0 e0 p :
  core o s0 e0 p -> drawn o s0 e0 p -> refd p ->
  core o s0 e0 (updateNavArrows p) /\ drawn o s0 e0 (updateNavArrows p) /\ refd (updateNavArrows p) /\
  value (updateNavArrows p) = value p /\ isVisible (updateNavArrows p) = isVisible p.
Proof.
  intros Hc Hd Hr. destruct (updateNavArrows_spec p) as [a ->].
  split_ands; [by apply core_put_arrows|by eapply (drawn_as o s0 e0 p)|done..].
Qed.

(** What reading the field does not change. *)
Definition settings (p : picker) : string * bool * list event * Z * list Z * list Z * list Z :=
  (value p, isVisible p, fired p, viewMode p, daysOfWeekDisabled p, hoursDisabled p, minutesDisabled p).

Lemma fill_redrawn o now p p' : fill o now p = Some p' -> redrawn p p'.
Proof.
  unfold fill. destruct (date p) as [| |d]; [by intros [= <-]; apply redrawn_refl..|].
  destruct (viewDate p) as [v|]; [|by intros [= <-]; apply redrawn_refl].
  destruct (updateNavArrows_spec p) as [a ->]. cbv zeta.
  destruct (render _ _ _ _ _ _ _ _ _) as [g|]; cbn [mbind option_bind]; intros [= <-]. by exists a, (Some g).
Qed.

Lemma update_settings o now p p' : update o now p = Some p' -> settings p' = settings p.
Proof.
  unfold update. destruct (field_date o now p) as [t|]; [|done]. cbn [mbind option_bind].
  intros (a & g & ->)%fill_redrawn. reflexivity.
Qed.

(** The view is the date of the field, moved between the limits. *)
Definition clamp (s e t : Z) : Z := if t <? s then s else if t >? e then e else t.

Lemma update_view o s0 e0 now p p' t :
  base o s0 e0 p -> field_date o now p = Some t -> update o now p = Some p' ->
  exists l, viewDate p' = Some l /\ at_ p' l = clamp s0 e0 t.
Proof.
  intros [H1 H2 H3 H4 _ _] Ht. unfold update. rewrite Ht. cbn [mbind option_bind].
  set (p1 := put_date _ _). intros (a & g & ->)%fill_redrawn. exists (new_place p1). split; [done|].
  assert (at_ p1 (startDate p1) = s0) as Hs by (rewrite <- H3; exact (at_alloc p t (startDate p) H1)).
  assert (at_ p1 (endDate p1) = e0) as He by (rewrite <- H4; exact (at_alloc p t (endDate p) H2)).
  rewrite Hs, He. exact (at_new p1 (clamp s0 e0 t)).
Qed.

(** A stage of the constructor: the field is empty and the widget hidden. *)
Definition at_first (o : options) : string * bool * list event * Z * list Z * list Z * list Z :=
  ("", false, [], startViewMode o, [], [], []).
Definition stage (o : options) (s0 e0 : Z) (p : picker) : Prop :=
  core o s0 e0 p /\ drawn o s0 e0 p /\ refd p /\ settings p = at_first o.

Lemma field_date_empty o now p : settings p = at_first o -> field_date o now p = Some (parse_instant (zone o) (initialDate o)).
Proof. intros [= Hv _ _ _ _ _ _]. unfold field_date. by rewrite Hv. Qed.

Lemma update_stage o s0 e0 now p :
  base o s0 e0 p -> settings p = at_first o -> yields (p ← update o now p; Some (updateNavArrows p)) (stage o s0 e0).
Proof.
  intros Hb Hs. destruct (update_base o s0 e0 now p _ Hb (field_date_empty o now p Hs))
    as (p' & Hup & Hc & Hd & _ & _ & _ & l & Hl & _).
  rewrite Hup. apply yields_ret. destruct (updateNavArrows_core o s0 e0 p' Hc Hd) as (? & ? & ? & _); [by exists l|].
  unfold stage. split_ands; [done|done|done|]. rewrite <- Hs, <- (update_settings o now p p' Hup).
  destruct (updateNavArrows_spec p') as [a ->]. reflexivity.
Qed.

Lemma set_disabled_stage o s0 e0 now p : stage o s0 e0 p -> yields (set_disabled o now [] [] [] p) (stage o s0 e0).
Proof.
  intros ([H1 H2 _ _ H3 H4 H5 H6] & _ & _ & Hs). apply update_stage; [done|].
  injection Hs as E1 E2 E3 E4 _ _ _. unfold settings, at_first. cbn. by rewrite E1, E2, E3, E4.
Qed.

Lemma create_stage o now st en :
  minView o <= startViewMode o <= maxView o -> st <> no_end -> en <> no_end ->
  yields (create o now "" (Some st) (Some en)) (fun p =>
    good o (parse_instant (zone o) st) (parse_instant (zone o) en) p /\ settings p = at_first o).
Proof.
  intros Hm Hst Hen. unfold create. cbv zeta. set (s0 := parse_instant (zone o) st). set (e0 := parse_instant (zone o) en).
  eapply yields_bind.
  { unfold setStartDate, limit. rewrite (proj2 (Z.eqb_neq st no_end)) by done. fold s0.
    apply (update_stage o s0 no_end); [|done]. split; cbn; try lia; try done. }
  intros p1 (Hc1 & _ & _ & Hs1). pose proof Hs1 as [= Hv1 Hi1 Hf1 Hm1 Hx1 Hx2 Hx3]. eapply yields_bind.
  { unfold setEndDate, limit. rewrite (proj2 (Z.eqb_neq en no_end)) by done. fold e0.
    apply (update_stage o s0 e0); [|exact Hs1]. pose proof Hc1 as [H1 _ _ _ H3 _ H5 H6].
    split; cbn [put_endDate startDate endDate store viewMode fired alloc set_store]; rewrite ?length_app; cbn [length];
      unfold new_place; try lia; try done.
    - change (at_ (alloc e0 p1) (startDate p1) = s0). by rewrite at_alloc.
    - apply (at_new p1 e0).
    - by rewrite Hf1. }
  intros p2 Hp2. do 4 (eapply yields_bind; [by apply set_disabled_stage|]; clear p2 Hp2; intros p2 Hp2).
  destruct Hp2 as (Hc & Hd & Hr & Hs).
  destruct (update_base o s0 e0 now p2 _ (core_base _ _ _ _ Hc) (field_date_empty o now p2 Hs))
    as (p3 & Hup & Hc3 & Hd3 & Ha3 & _ & _ & l & Hl & _).
  rewrite Hup. apply yields_ret. destruct (showMode_spec o s0 e0 0 p3 Hc3) as (? & Hal & ?).
  split; [apply good_intro; [done|auto|eapply alike_refd; [done|by exists l]|intros _; by eapply alike_apart]|].
  rewrite <- Hs, <- (update_settings o now p2 p3 Hup). unfold showMode. cbn [Z.eqb].
  destruct (updateNavArrows_spec p3) as [a ->]. reflexivity.
Qed.

(** ** Listeners *)

#[export] Instance no_listener o s0 e0 : Listener o s0 e0 (fun p => Some p).
Proof. intros p Hc Hd. by apply yields_ret. Qed.

(** The listeners of the pages' [datePairs] on one of the two fields, with the text
    of the other one: the field is given the other's text if their order is wrong. *)
Definition keep_order (o : options) (starts : bool) (other : string) (now : Z) (p : picker) : option picker :=
  if (if starts then js_gt (Str (value p)) (Str other) else js_gt (Str other) (Str (value p)))
  then update o now (put_value other p)
  else Some p.

#[export] Instance keep_order_listener o s0 e0 starts other now :
  fmt o = minutes_format -> Listener o s0 e0 (keep_order o starts other now).
Proof.
  intros Hf p Hc Hd. unfold keep_order. destruct (if starts then _ else _); [|by apply yields_ret].
  assert (exists t, field_date o now (put_value other p) = Some t) as [t Ht] by (apply (field_date_total_format o s0 e0); [done|by apply core_put_value]).
  eapply yields_mono; [apply (update_base o s0 e0 now _ t); [by apply core_base, core_put_value|done]|].
  intros p' (? & ? & ? & ? & _ & l & ? & _). split_ands; try done. intros _. by exists l.
Qed.

(** ** Theorems *)

(** The options of the console's pages, on a field of a browser in a zone. *)
Definition console_options (opened zone : Z) (tz : string) : options :=
  Options minutes_format 5 0 0 4 2 0 true true true false opened zone tz.

(** A widget from its construction on an empty field. *)
Definition session (o : options) (changed : Z -> picker -> option picker) (opened st en : Z) (l : list (Z * action)) :
    option picker :=
  p ← create o opened "" (Some st) (Some en); acts o changed l p.

Lemma session_yields o changed opened st en l :
  let s0 := parse_instant (zone o) st in
  let e0 := parse_instant (zone o) en in
  usual o s0 e0 -> st <> no_end -> en <> no_end -> (forall now, Listener o s0 e0 (changed now)) ->
  yields (session o changed opened st en l) (good o s0 e0).
Proof.
  intros s0 e0 Hu Hst Hen HL. eapply yields_bind; [apply create_stage; [apply Hu|done|done]|].
  intros p [Hp _]. by apply acts_yields.
Qed.

Lemma usual_console st en opened zone tz :
  st <= en -> 1000 <= getUTCFullYear (parse_instant zone st) -> getUTCFullYear (parse_instant zone en) <= 9999 ->
  usual (console_options opened zone tz) (parse_instant zone st) (parse_instant zone en).
Proof.
  intros Hle H1 H2. split; try reflexivity; try assumption; [cbn; lia..|]. unfold parse_instant, whole_seconds. clear - Hle.
  Z.to_euclidean_division_equations. lia.
Qed.


(** A page opened on 2017-07-14 15:20 in Beijing: 5 July, 3:10 is chosen, and the
    listener knows that the period ends on the day of opening. *)
Definition opening : Z := 1500016800000.
Definition month_before : Z := opening - 2592000000.
Definition july_options : options := console_options opening 28800000 "CST".
Definition july_actions : list (Z * action) :=
  List.map (fun a => (opening + 60000, a))
    [Focus; Click (Day 10); Click (Span HourSpan 3); Click (Span MinuteSpan 2); Focus; KeyDown Left false false;
     Click ThToday; Focus; Click ThClear].
Definition july_session : option picker :=
  session july_options (keep_order july_options true "2017-07-14 15:20") opening month_before opening july_actions.

Lemma july_usual : usual july_options (parse_instant 28800000 month_before) (parse_instant 28800000 opening).
Proof. apply (usual_console month_before opening); vm_compute; congruence. Qed.



