(* ===== verification/PickerChoice.v ===== *)
(** * Choosing an instant with the date-time picker

    The three clicks by which a user chooses a date: on a day, an hour and a minute.
    Each opens the next panel, and the last one writes the instant into the field,
    tells the listeners and closes the widget. *)

From S2P Require Import Prelude JsValue Json Browser Utils DatePairs DateOrder Calendar Regex DPGlobal PickerText DateTimePicker PickerCells PickerSafety.
From Stdlib Require Import Ascii.
Import Picker.

(** ** The cells of a drawn widget *)

Lemma cells_app l1 l2 : cells (l1 ++ l2) = cells l1 ++ cells l2.
Proof. apply omap_app. Qed.

Lemma cells_week o dows today d v s e t :
  cells (week o dows today d v s e t) = List.map (fun j => day_box o dows today d v s e (day_after t j)) (seq 0 7).
Proof. reflexivity. Qed.

Lemma cells_weeks o dows today d v s e :
  cells (weeks_shown o dows today d v s e) =
  List.map (fun k => day_box o dows today d v s e (shown_day o v k)) (seq 0 42).
Proof.
  unfold weeks_shown. rewrite six_weeks, List.concat_map, List.map_map.
  induction (seq 0 6) as [|w l IH]; [done|]. cbn [List.map List.concat]. rewrite cells_app, cells_week, IH. f_equal.
  rewrite List.map_map. apply List.map_ext. intros j. unfold shown_day. by rewrite day_after_add.
Qed.

Lemma lookup_map_seq {A : Type} (f : nat -> A) n k : (k < n)%nat -> List.map f (seq 0 n) !! k = Some (f k).
Proof. intros Hk. change ((f <$> seq 0 n) !! k = Some (f k)). by rewrite list_lookup_fmap, lookup_seq_lt. Qed.

Lemma minute_loop_lookup o d v s e n i j :
  1 <= minuteStep o -> (j < n)%nat -> i + Z.of_nat j * minuteStep o < 60 ->
  minute_loop o [] d v s e n i !! j = Some (minute_cell o d v s e (i + Z.of_nat j * minuteStep o)).
Proof.
  intros Hs. revert i j. induction n as [|n IH]; intros i j Hj Hi; [lia|]. cbn [minute_loop].
  rewrite (proj2 (Z.ltb_lt i 60)) by nia. cbn [listed existsb app]. destruct j as [|j].
  - cbn. do 2 f_equal. lia.
  - cbn [lookup list_lookup]. rewrite IH by lia. do 2 f_equal. lia.
Qed.

Lemma numeral_prefix s v r : numeral s v -> parse_int_str (s +:+ String ":" r) = Fin v.
Proof.
  intros (Hd & Hne & Hh).
  assert (parse_nat_prefix (s +:+ String ":" r) = Fin v) as Hp.
  { unfold parse_nat_prefix. rewrite take_digits_app by done. destruct s; [done|]. by rewrite Hh. }
  destruct s as [|a s]; [done|]. cbn in Hd. apply andb_true_iff in Hd as [Ha _].
  rewrite str_app_cons in *. unfold parse_int_str. rewrite trim_left_digit by done.
  destruct a as [[] [] [] [] [] [] [] []]; first [discriminate Ha | exact Hp].
Qed.

Lemma hour_text h : 0 <= h -> parse_or 0 (string_of_Z h +:+ ":00") = h.
Proof.
  intros Hh. unfold parse_or. rewrite (numeral_prefix _ h) by (by apply numeral_of_Z). by destruct (Z.eqb_spec h 0).
Qed.

(** ** Enabled cells *)

Lemma day_enabled o today d v s e t :
  t <= e -> s < t + 86400000 -> has_class "disabled" (day_box o [] today d v s e t) = false.
Proof.
  intros H1 H2. unfold day_box, day_classes. cbv zeta. rewrite !has_class_app, !has_class_flag.
  rewrite (proj2 (Z.leb_gt (t + 86400000) s)), (Z.gtb_ltb t e), (proj2 (Z.ltb_ge e t)) by done.
  cbn [listed existsb orb andb]. cbn [String.eqb Ascii.eqb Bool.eqb]. rewrite !andb_false_r, !orb_false_r.
  change (has_class "disabled" (Cell ["day"] _)) with false. cbn [orb].
  destruct ((_ <? _) || _); [done|]. by rewrite has_class_flag, andb_false_r.
Qed.

Lemma day_number_fields t : MakeDay (getUTCFullYear t) (getUTCMonth t) (getUTCDate t) = getUTCDay_number t.
Proof.
  destruct (utc_eta t) as (Ht & _ & Htod). rewrite <- Ht at 4. symmetry. by apply utc_split.
Qed.

Lemma hour_enabled v s e i :
  0 <= i -> 100 <= getUTCFullYear v ->
  (let t := getUTCDay_number v * ms_per_day + i * 3600000 in s < t + 3600000 /\ t <= e) ->
  has_class "disabled" (hour_cell [] v s e i) = false.
Proof.
  intros Hi Hy [H1 H2]. unfold hour_cell. cbv zeta. rewrite UTCDate_utc by done. unfold utc. rewrite day_number_fields.
  change (time_of i 0 0) with (i * 3600000 + 0 + 0). rewrite !Z.add_0_r.
  rewrite !has_class_app. cbn [listed existsb flag].
  rewrite (proj2 (Z.leb_gt _ s)), Z.gtb_ltb, (proj2 (Z.ltb_ge e _)) by lia. cbn [orb].
  rewrite has_class_flag, andb_false_r. reflexivity.
Qed.

(** ** The clicks *)

(** A widget that shows the view [m] of the instant [v], as the invariant has it. *)
Definition viewing (o : options) (s0 e0 : Z) (m v : Z) (p : picker) : Prop :=
  core o s0 e0 p /\ drawn o s0 e0 p /\ refd p /\ apart p /\ isVisible p = true /\ viewMode p = m /\
  daysOfWeekDisabled p = [] /\ hoursDisabled p = [] /\ minutesDisabled p = [] /\
  exists l, viewDate p = Some l /\ at_ p l = v.

Section Choice.
  Context (o : options) (s0 e0 : Z) (Hu : usual o s0 e0) (Hmin : minView o = 0) (Hmax : 2 <= maxView o <= 4).
  Context (Hws : 0 <= weekStart o <= 6).

(** A change of the view in place, and the next finer panel. *)
Lemma finer_panel now m t ev l p :
  core o s0 e0 p -> refd p -> apart p -> isVisible p = true -> viewMode p = m -> 1 <= m <= 2 ->
  daysOfWeekDisabled p = [] -> hoursDisabled p = [] -> minutesDisabled p = [] ->
  viewDate p = Some l -> in_range o s0 e0 ev ->
  yields (next_panel o now (trigger ev (poke l t p))) (viewing o s0 e0 (m - 1) t).
Proof using Hmin Hmax Hu.
  intros Hc Hr Ha Hv Hm Hm' H1 H2 H3 Hl Hev. pose proof Hc as [_ _ (l' & Hl' & Hlen) _ _ _ _ _].
  rewrite Hl in Hl'. injection Hl' as <-.
  set (p1 := trigger _ _). assert (core o s0 e0 p1) as Hc1 by (apply core_trigger; [by apply core_poke|done]).
  unfold next_panel. cbv zeta. change (viewMode p1) with (viewMode p). rewrite Hm.
  assert (exists a ev', showMode o (-1) p1 = put_arrows a (put_viewMode (m - 1) (trigger ev' p1))) as (a & ev' & Hs).
  { unfold showMode. cbn [Z.eqb]. change (viewMode p1) with (viewMode p). rewrite Hm, Hmin.
    replace (Z.max 0 (Z.min 4 (m + -1))) with (m - 1) by lia.
    rewrite (proj2 (Z.leb_le 0 (m - 1))), (proj2 (Z.leb_le (m - 1) (maxView o))) by lia. cbn [andb].
    destruct (updateNavArrows_spec (put_viewMode (m - 1) (trigger (ChangeMode m (m - 1)) p1))) as [a ->]. by eauto. }
  destruct (showMode_spec o s0 e0 (-1) p1 Hc1) as (Hc2 & _ & _). rewrite Hs in *.
  eapply yields_bind; [apply fill_yields; [exact Hc2|left; exact Hr]|].
  intros p' (Hc' & Hd' & a' & g & ->). change (viewMode (put_shown _ _)) with (m - 1).
  rewrite (proj2 (Z.eqb_neq m (m - 1))) by lia. apply yields_ret. unfold viewing. split_ands; try done.
  exists l. split; [done|]. by apply (at_poked p).
Qed.

(** The first click: a day. *)
Lemma click_day_yields now changed k v p :
  viewing o s0 e0 2 v p -> 100 <= getUTCFullYear v -> (k < 42)%nat ->
  shown_day o v k <= e0 -> s0 < shown_day o v k + 86400000 ->
  yields (click o now changed (Day k) p) (viewing o s0 e0 1 (shown_day o v k + TimeWithinDay v)).
Proof using Hmin Hmax Hu Hws.
  intros (Hc & Hd & Hr & Ha & Hv & Hm & H1 & H2 & H3 & l & Hl & Hat) Hy Hk He Hs.
  unfold click. rewrite Hv. cbn [negb]. unfold day_cell. rewrite Hm. destruct Hd as (l' & today & d & Hl' & Hg).
  rewrite Hl in Hl'. injection Hl' as <-. rewrite Hat, H1 in Hg. edestruct render_some as [g Hg']. rewrite Hg, Hg'.
  destruct (render_panels _ _ _ _ _ _ _ _ _ _ Hg') as (Hdays & _). rewrite day_panel_weeks in Hdays by done.
  injection Hdays as Hdays. cbn [mbind option_bind Z.eqb Pos.eqb]. rewrite Hdays, cells_weeks, lookup_map_seq by done.
  rewrite day_enabled by done.
  rewrite (pick_day_spec o now changed [] today d v s0 e0 k p l) by first [done | rewrite (us_select _ _ _ Hu); lia].
  by apply (finer_panel now 2).
Qed.

(** The second click: an hour. *)
Lemma click_hour_yields now changed h v p :
  viewing o s0 e0 1 v p -> 100 <= getUTCFullYear v -> (h < 24)%nat ->
  (let t := getUTCDay_number v * ms_per_day + Z.of_nat h * 3600000 in s0 < t + 3600000 /\ t <= e0) ->
  yields (click o now changed (Span HourSpan h) p) (viewing o s0 e0 0 (setUTCHours v (Z.of_nat h))).
Proof using Hmin Hmax Hu.
  intros (Hc & Hd & Hr & Ha & Hv & Hm & H1 & H2 & H3 & l & Hl & Hat) Hy Hh Hin.
  unfold click. rewrite Hv. cbn [negb]. unfold span_cell. rewrite Hm. destruct Hd as (l' & today & d & Hl' & Hg).
  rewrite Hl in Hl'. injection Hl' as <-. rewrite Hat, H2 in Hg. edestruct render_some as [g Hg']. rewrite Hg, Hg'.
  destruct (render_panels _ _ _ _ _ _ _ _ _ _ Hg') as (_ & Hhours & _).
  cbn [mbind option_bind Z.eqb Pos.eqb]. unfold hour_panel in Hhours. rewrite Hhours, lookup_map_seq by done.
  rewrite hour_enabled by first [done | lia]. unfold pick_span. rewrite Hl. cbn [mbind option_bind].
  rewrite (us_select _ _ _ Hu). cbn [Z.leb Z.compare text hour_cell]. rewrite hour_text, Hat by lia.
  cbn [mbind option_bind]. unfold after_span. change (viewMode (trigger _ _)) with (viewMode p). rewrite Hm. cbn [Z.eqb negb]. by apply (finer_panel now 1).
Qed.

(** What choosing an instant leaves: its text in the field, the widget closed, and the
    listeners told. *)
Definition chosen (T : Z) (p : picker) : Prop :=
  value p = DPGlobal.formatDate (timezone o) T minutes_format /\ isVisible p = false /\
  (exists l, date p = DRef l /\ at_ p l = T) /\ ChangeDate (Some (T - zone o)) ∈ fired p.

Lemma hide_chosen p l T :
  core o s0 e0 p -> isVisible p = true -> date p = DRef l -> at_ p l = T ->
  value p = DPGlobal.formatDate (timezone o) T minutes_format -> ChangeDate (Some (T - zone o)) ∈ fired p ->
  yields (hide o p) (chosen T).
Proof using Hu.
  intros Hc Hv Hd Hat Hval Hf. unfold hide. rewrite Hv. cbn [negb]. cbv zeta.
  assert (exists a, showMode o 0 (put_viewMode (startViewMode o) p) = put_arrows a (put_viewMode (startViewMode o) p)) as [a ->].
  { unfold showMode. cbn [Z.eqb]. apply updateNavArrows_spec. }
  eapply (yields_bind _ _ (fun p' => p' = put_value (value p) (put_arrows a (put_viewMode (startViewMode o) p)))).
  - set (p1 := put_arrows _ _). assert (put_value (value p) p1 = p1) as E by (by destruct p). rewrite E. apply yields_if; [|done].
    unfold setValue, getFormattedDate. change (date p1) with (date p). rewrite Hd, (us_format _ _ _ Hu).
    change (at_ p1 l) with (at_ p l). rewrite Hat, <- Hval. cbn [mbind option_bind]. exists p1. by rewrite E.
  - intros p' ->. apply yields_ret. unfold chosen. split_ands; [done|done|by exists l|]. apply elem_of_app. by left.
Qed.

Lemma set_new_date_quiet now changed T p :
  core o s0 e0 p -> minute_of s0 <= minute_of T <= minute_of e0 ->
  (forall q, value q = DPGlobal.formatDate (timezone o) T minutes_format -> changed q = Some q) ->
  yields (set_new_date o now changed T p) (fun p' => core o s0 e0 p' /\ isVisible p' = isVisible p /\ viewMode p' = viewMode p /\
    (exists l, date p' = DRef l /\ at_ p' l = T) /\ apart p' /\
    value p' = DPGlobal.formatDate (timezone o) T minutes_format /\ ChangeDate (Some (T - zone o)) ∈ fired p').
Proof using Hu.
  intros Hc HT Hq. pose proof Hc as [Hs He _ _ _ _ _ _]. unfold set_new_date, _setDate.
  assert ((new_place p < length (store (alloc T p)))%nat) as Hlen by (rewrite alloc_length; unfold new_place; lia).
  eapply yields_bind.
  { apply (fill_yields o s0 e0); [|left; by eexists]. apply core_put_view; [apply core_put_date; [by apply core_alloc|done]|done]. }
  intros p1 (Hc1 & _ & a & g & ->). unfold setValue, getFormattedDate.
  cbn [date put_shown put_arrows put_viewDate put_date mbind option_bind].
  change (at_ _ (new_place p)) with (at_ (alloc T p) (new_place p)). rewrite at_new, (us_format _ _ _ Hu).
  unfold tell_change, getDate. cbn [date put_value put_shown put_arrows put_viewDate put_date trigger mbind option_bind].
  change (at_ _ (new_place p)) with (at_ (alloc T p) (new_place p)). rewrite at_new, Hq by done. apply yields_ret.
  split_ands; try done.
  - apply core_trigger; [apply core_trigger; [by apply core_put_value|done]|]. cbn [in_range]. by rewrite Z.sub_add.
  - exists (new_place p). split; [done|]. exact (at_new p T).
  - intros l [= <-]. unfold new_place. cbn. lia.
  - apply elem_of_app. right. apply list_elem_of_here.
Qed.

(** The third click: a minute. *)
Lemma click_minute_yields now changed j v p :
  let i := Z.of_nat j * minuteStep o in
  let T := UTCDate (getUTCFullYear v) (getUTCMonth v) (getUTCDate v) (getUTCHours v) i (getUTCSeconds v) in
  viewing o s0 e0 0 v p -> i < 60 -> s0 <= at_minute v i <= e0 ->
  (forall q, value q = DPGlobal.formatDate (timezone o) T minutes_format -> changed q = Some q) ->
  yields (click o now changed (Span MinuteSpan j) p) (chosen T).
Proof using Hu.
  intros i T (Hc & Hd & Hr & Ha & Hv & Hm & H1 & H2 & H3 & l & Hl & Hat) Hi Hin Hq.
  pose proof (us_step _ _ _ Hu) as Hstep. assert (0 <= i <= 59) as Hi' by (subst i; lia).
  unfold click. rewrite Hv. cbn [negb]. unfold span_cell. rewrite Hm. destruct Hd as (l' & today & d & Hl' & Hg).
  rewrite Hl in Hl'. injection Hl' as <-. rewrite Hat, H3 in Hg. edestruct render_some as [g Hg']. rewrite Hg, Hg'.
  destruct (render_panels _ _ _ _ _ _ _ _ _ _ Hg') as (_ & _ & Hmin').
  cbn [mbind option_bind Z.eqb]. unfold minute_panel in Hmin'.
  rewrite Hmin', minute_loop_lookup, Z.add_0_l by (subst i; nia). fold i.
  destruct (minute_cell_spec o d v s0 e0 i Hi') as [Ht ->].
  rewrite (proj2 (Z.leb_le s0 _)), (proj2 (Z.leb_le _ e0)) by lia. cbn [andb negb].
  unfold pick_span. rewrite Hl. cbn [mbind option_bind]. rewrite (us_select _ _ _ Hu), Ht, Hat. cbn [Z.leb Z.compare]. fold T.
  eapply yields_bind.
  { apply set_new_date_quiet; [apply core_trigger; [by apply core_poke|done]|by apply (minute_span_range o s0 e0 Hu)|exact Hq]. }
  intros p1 (Hc1 & Hv1 & Hm1 & (l1 & Hd1 & Hat1) & Ha1 & Hval & Hf). unfold after_span. rewrite Hm1.
  change (viewMode (trigger _ _)) with (viewMode p). rewrite Hm. cbn [Z.eqb negb]. rewrite (us_close _ _ _ Hu).
  eapply yields_bind; [apply fill_yields; [exact Hc1|left; by exists l1]|].
  intros p2 (Hc2 & _ & a & g2 & ->). apply (hide_chosen _ l1); try done. etrans; [exact Hv1|exact Hv].
Qed.

(** The view after the click on a day, and after the one on an hour. *)
Lemma day_hour_view n v h i :
  0 <= h <= 23 -> 0 <= i <= 59 ->
  let v1 := n * ms_per_day + TimeWithinDay v in
  let v2 := setUTCHours v1 h in
  getUTCDay_number v1 = n /\ getUTCDay_number v2 = n /\ getUTCHours v2 = h /\ getUTCSeconds v2 = getUTCSeconds v /\
  at_minute v2 i = n * ms_per_day + time_of h i 0 + v mod 1000.
Proof.
  intros Hh Hi v1 v2. unfold at_minute, setUTCSeconds, setUTCMinutes, time_of, getUTCHours, getUTCSeconds.
  assert (getUTCDay_number v1 = n) as H1.
  { unfold v1, getUTCDay_number, TimeWithinDay, ms_per_day. Z.to_euclidean_division_equations. lia. }
  assert (v2 = n * 86400000 + h * 3600000 + v mod 3600000) as H2.
  { unfold v2, setUTCHours. rewrite H1. unfold v1, TimeWithinDay, ms_per_day. f_equal.
    Z.to_euclidean_division_equations. lia. }
  split; [exact H1|]. rewrite H2. unfold getUTCDay_number, ms_per_day. clear - Hh Hi. split_ands; Z.to_euclidean_division_equations; lia.
Qed.

End Choice.

(** ** From the page to the chosen instant *)

(** A page of the console makes the widget and writes the text of the instant [w]; the
    user goes to the field. *)
Lemma page_viewing o changed opened st en w n0 n1 :
  let s0 := parse_instant (zone o) st in
  let e0 := parse_instant (zone o) en in
  usual o s0 e0 -> startViewMode o = 2 -> st <> no_end -> en <> no_end -> year_ok (zone o) w ->
  yields (session o changed opened st en [(n0, Written (DatePairs.formatDate (local_date (zone o) w))); (n1, Focus)])
         (viewing o s0 e0 2 (clamp s0 e0 (whole_minutes (w + zone o)))).
Proof.
  intros s0 e0 Hu H2 Hst Hen Hw. eapply yields_bind; [apply create_stage; [apply Hu|done|done]|].
  intros p [(Hc & _) Hs]. cbn [acts act].
  remember (DatePairs.formatDate (local_date (zone o) w)) as txt eqn:Etxt.
  assert (core o s0 e0 (put_value txt p)) as Hc0 by (by apply core_put_value).
  destruct (update_yields o s0 e0 Hu n0 _ Hc0) as (p1 & Hup1 & Hc1 & _ & _ & _ & Hv1 & _). rewrite Hup1.
  cbn [mbind option_bind]. unfold show. rewrite (us_parse _ _ _ Hu).
  assert (field_date o n1 p1 = Some (whole_minutes (w + zone o))) as Hf.
  { apply (field_date_page o n1 p1 (zone o) w Hw). rewrite Hv1, <- Etxt. reflexivity. }
  destruct (update_base o s0 e0 n1 p1 _ (core_base _ _ _ _ Hc1) Hf) as (p2 & Hup2 & Hc2 & Hd2 & Ha2 & _ & _ & l & Hl & _).
  rewrite Hup2. cbn [mbind option_bind]. apply yields_ret.
  destruct (update_view o s0 e0 n1 p1 p2 _ (core_base _ _ _ _ Hc1) Hf Hup2) as (lv & Hlv & Hat).
  pose proof (update_settings o n1 p1 p2 Hup2) as E2. rewrite (update_settings o n0 _ p1 Hup1) in E2.
  injection E2 as _ _ _ Em Ed Eh Emi. injection Hs as _ _ _ Hm Hd Hh Hmi. cbn in Em, Ed, Eh, Emi.
  split; [apply core_trigger; [by apply core_put_visible|done]|]. split; [by eapply (drawn_as o s0 e0 p2)|].
  split; [by exists l|]. split; [exact Ha2|]. split; [done|]. cbn [viewMode daysOfWeekDisabled hoursDisabled minutesDisabled trigger put_visible].
  split_ands; [congruence..|]. by exists lv.
Qed.

Lemma acts_app o changed l1 l2 p : acts o changed (l1 ++ l2) p = (q ← acts o changed l1 p; acts o changed l2 q).
Proof.
  revert p. induction l1 as [|[n a] l1 IH]; intros p; [done|]. cbn [acts app].
  destruct (act o n (changed n) a p) as [q|]; [apply IH|done].
Qed.

Lemma session_app o changed opened st en l1 l2 :
  session o changed opened st en (l1 ++ l2) = (q ← session o changed opened st en l1; acts o changed l2 q).
Proof. unfold session. destruct (create o opened "" (Some st) (Some en)) as [p|]; [apply acts_app|done]. Qed.

Lemma clamp_whole s0 e0 t :
  s0 <= e0 -> s0 mod 1000 = 0 -> e0 mod 1000 = 0 ->
  clamp s0 e0 (whole_minutes t) mod 1000 = 0 /\ s0 <= clamp s0 e0 (whole_minutes t) <= e0.
Proof.
  intros H Hs He. unfold clamp, whole_minutes. destruct (Z.ltb_spec (t - t mod 60000) s0); [lia|].
  rewrite Z.gtb_ltb. destruct (Z.ltb_spec e0 (t - t mod 60000)); [lia|]. split; [|lia].
  Z.to_euclidean_division_equations. lia.
Qed.

Lemma instant_whole zone t : parse_instant zone t mod 1000 = 0.
Proof. unfold parse_instant, whole_seconds. Z.to_euclidean_division_equations. lia. Qed.

(** C18: any minute between the limits that the days' panel shows can be chosen: on a
    page that wrote an instant into the field, a click on the day, one on the hour and
    one on the minute write that instant, announce it and close the widget. *)
Theorem choose_instant (o : options) (changed : Z -> picker -> option picker) (opened st en w n0 n1 n2 n3 n4 : Z) (k h j : nat) :
  let s0 := parse_instant (zone o) st in
  let e0 := parse_instant (zone o) en in
  let v := clamp s0 e0 (whole_minutes (w + zone o)) in
  let i := Z.of_nat j * minuteStep o in
  let day := shown_day o v k in
  let T := day + time_of (Z.of_nat h) i (getUTCSeconds v) in
  usual o s0 e0 -> minView o = 0 -> startViewMode o = 2 -> 2 <= maxView o <= 4 -> 0 <= weekStart o <= 6 ->
  st <> no_end -> en <> no_end -> year_ok (zone o) w ->
  (k < 42)%nat -> (h < 24)%nat -> i < 60 -> s0 <= day + time_of (Z.of_nat h) i 0 <= e0 ->
  (forall q, value q = DPGlobal.formatDate (timezone o) T minutes_format -> changed n4 q = Some q) ->
  exists p,
    session o changed opened st en
      [(n0, Written (DatePairs.formatDate (local_date (zone o) w))); (n1, Focus);
       (n2, Click (Day k)); (n3, Click (Span HourSpan h)); (n4, Click (Span MinuteSpan j))] = Some p /\
    chosen o T p.
Proof.
  intros s0 e0 v i day T Hu Hmin H2 Hmax Hws Hst Hen Hw Hk Hh Hi Hin Hq.
  destruct (clamp_whole s0 e0 (w + zone o) (us_order _ _ _ Hu) (instant_whole _ _) (instant_whole _ _)) as [Hms Hv].
  fold v in Hms, Hv. pose proof (us_first _ _ _ Hu) as Hy0. pose proof (year_mono s0 v ltac:(lia)) as Hyv.
  destruct (shown_day_number o v Hws ltac:(lia)) as (n & _ & _ & Hday).
  assert (day = (n + Z.of_nat k) * ms_per_day) as Hd by apply Hday. clear Hday. set (nk := n + Z.of_nat k) in *.
  pose proof (us_step _ _ _ Hu) as Hstep.
  destruct (day_hour_view nk v (Z.of_nat h) i) as (Hd1 & Hd2 & Hh2 & Hs2 & Hm2); [lia|subst i; lia|].
  rewrite Hms, Z.add_0_r, <- Hd in Hm2. rewrite <- Hd in *.
  set (v1 := day + TimeWithinDay v) in *. set (v2 := setUTCHours v1 (Z.of_nat h)) in *.
  assert (0 <= time_of (Z.of_nat h) i 0 < 86400000 /\ Z.of_nat h * 3600000 <= time_of (Z.of_nat h) i 0 < Z.of_nat h * 3600000 + 3600000)
    as Htod by (unfold time_of; subst i; lia).
  assert (getUTCFullYear v2 = getUTCFullYear (at_minute v2 i)) as Hy2
    by (apply same_day_year; symmetry; apply at_minute_day; subst i; lia).
  pose proof (year_mono s0 (at_minute v2 i) ltac:(lia)) as Hym.
  assert (getUTCFullYear v1 = getUTCFullYear v2) as Hy1 by (apply same_day_year; congruence).
  assert (UTCDate (getUTCFullYear v2) (getUTCMonth v2) (getUTCDate v2) (getUTCHours v2) i (getUTCSeconds v2) = T) as HT.
  { rewrite UTCDate_utc by lia. unfold utc. rewrite day_number_fields, Hd2, Hh2, Hs2. subst T. by rewrite Hd. }
  change [_; _; _; _; _] with ([(n0, Written (DatePairs.formatDate (local_date (zone o) w))); (n1, Focus)] ++
    [(n2, Click (Day k)); (n3, Click (Span HourSpan h)); (n4, Click (Span MinuteSpan j))]).
  rewrite session_app. eapply yields_bind; [by apply page_viewing|]. intros p0 Hp0. cbn [acts act].
  eapply yields_bind; [apply (click_day_yields o s0 e0 Hu Hmin Hmax Hws n2 (changed n2) k v p0 Hp0); unfold day in *; lia|].
  intros p1 Hp1. eapply yields_bind.
  { apply (click_hour_yields o s0 e0 Hu Hmin Hmax n3 (changed n3) h v1 p1 Hp1); [lia|done|].
    cbv zeta. rewrite Hd1, <- Hd. lia. }
  intros p2 Hp2. eapply yields_bind; [|intros p3 Hp3; apply yields_ret; exact Hp3].
  rewrite <- HT. apply (click_minute_yields o s0 e0 Hu n4 (changed n4) j v2 p2 Hp2); [done|fold i; lia|fold i; by rewrite HT].
Qed.

(** Applying the theorem to 5 July 2017, 3:10, on a page opened on the 14th that wrote
    the instant four hours before, with the listener of the period's start. *)
Lemma choose_instant_witness :
  exists p,
    session july_options (keep_order july_options true "2017-07-14 15:20") opening month_before opening
      [(opening, Written (DatePairs.formatDate (local_date 28800000 (opening - 14400000)))); (opening, Focus);
       (opening, Click (Day 10)); (opening, Click (Span HourSpan 3)); (opening, Click (Span MinuteSpan 2))] = Some p /\
    value p = "2017-07-05 03:10" /\ isVisible p = false.
Proof.
  destruct (choose_instant july_options (keep_order july_options true "2017-07-14 15:20") opening month_before opening
              (opening - 14400000) opening opening opening opening opening 10 3 2) as (p & Hp & Hval & Hvis & _).
  1: exact july_usual.
  1-3: cbn; lia.
  1: cbn; lia.
  1-2: discriminate.
  1: vm_compute; split; discriminate.
  1-2: lia.
  1: reflexivity.
  1: vm_compute; split; discriminate.
  { intros q Hq. unfold keep_order. rewrite Hq.
    replace (js_gt _ _) with false by (vm_compute; reflexivity). reflexivity. }
  exists p. split; [exact Hp|]. split; [|exact Hvis]. rewrite Hval. vm_compute. reflexivity.
Defined.
