(* ===== verification/Batch.v ===== *)
(** * Batches of applications

    The lists of applications (for locks, configuration and SQL) share their
    batch buttons: collect the ids of the selected rows, stop at the first row
    whose status does not fit, ask, and post the ids as a JSON text.  They also
    share the table that the server pages, with its query parameters. *)

From S2P Require Import Prelude JsValue Json Browser Logic Contracts Widgets Utils DatePairs.

(** ** Collecting ids *)

(** [for (...) { if (refused(rows[i].status)) return; ids.push(rows[i].id); }] *)
Fixpoint collect_ids (refused : val -> bool) (rows ids : list val) : option (list val) :=
  match rows with
  | [] => Some ids
  | r :: rows' =>
      if refused (field r "status") then None
      else collect_ids refused rows' (ids ++ [field r "id"])
  end.

(** [!(status == n)], [status > n] and [status == n]. *)
Definition not_status (n : Z) (status : val) : bool := negb (loose_eq status (int n)).
Definition above_status (n : Z) (status : val) : bool := js_gt status (int n).
Definition is_status (n : Z) (status : val) : bool := loose_eq status (int n).

(** A batch button: [none] and [bad] are shown when nothing, or a row that does
    not fit, is selected. *)
Definition batch (tbl : string) (refused : val -> bool) (none bad : string * string)
    (opts : swal_opts) (send : list val -> prog unit) : prog unit :=
  rows <- selections tbl ;;
  if (length rows =? 0)%nat then swal3 none.1 (Str none.2) "error" else
  match collect_ids refused rows [] with
  | None => swal3 bad.1 (Str bad.2) "error"
  | Some ids => if (length ids =? 0)%nat then done else swal opts (Fn0 (send ids))
  end.

(** ** Tables paged by the server *)

(** Division of numbers; a quotient that is not an integer is not a value of
    the model and is taken for [NaN]. *)
Definition js_div (x y : Z) : val :=
  if (y =? 0) || negb (x mod y =? 0) then Num NaN else int (x / y).

Definition js_add1 (v : val) : val :=
  match to_number v with Fin z => int (z + 1) | NaN => Num NaN end.

(** [queryParams]: the page number from the offset. *)
Definition queryParams (limit offset : Z) (sort order : val) : val :=
  Obj [("rows", int limit); ("page", js_add1 (js_div offset limit)); ("sort", sort);
       ("sortOrder", order)].

(** [responseHandler]: the total and the rows of an answer. *)
Definition responseHandler (res : val) : prog val :=
  ok <- code_is res 0 ;;
  data <- get res "data" ;;
  if ok then
    total <- get data "total" ;;
    rows <- get data "data" ;;
    Ret (Obj [("total", total); ("rows", rows)])
  else
    msg <- get res "msg" ;;
    swal3 "失败" msg "error" ;;
    Ret (Obj [("total", int 0); ("rows", data)]).

(** The options of such a table besides its columns and callbacks. *)
Definition server_options (url toolbar : string) : val :=
  Obj [("url", Str url); ("striped", Bool true); ("cache", Bool false); ("pagination", Bool true);
       ("pageNumber", int 1); ("pageSize", int 10);
       ("pageList", Arr [int 10; int 25; int 50; int 100]); ("sidePagination", Str "server");
       ("clickToSelect", Bool true); ("iconSize", Str "outline"); ("toolbar", Str toolbar);
       ("height", int 500); ("icons", Obj [("refresh", Str "glyphicon-repeat")])].

(** Creates the table; it is empty until its first answer. *)
Definition server_table (tbl url toolbar : string) (cols : list column) : prog unit :=
  call "bootstrapTable" [Str tbl; server_options url toolbar] ;;
  bootstrap_table tbl (state_field cols) [].

(** The table loads what the handler returns; without rows it keeps its own. *)
Definition table_response (tbl state : string) (res : val) : prog unit :=
  r <- responseHandler res ;;
  rows <- get r "rows" ;;
  if truthy rows then bootstrap_table tbl state (elements rows) else done.

(** [formatDate(new Date(value * 1000), "yyyy-MM-dd hh:mm:ss")]. *)
Definition seconds_text (off : Z) (value row : val) (index : Z) : val :=
  match to_number value with
  | Fin z => Str (Utils.formatDate (local_date off (z * 1000)) (Some "yyyy-MM-dd hh:mm:ss"))
  | NaN => Str "NaN-NaN-NaN NaN:NaN:NaN"
  end.

(** The state of an application; anything else shows nothing. *)
Definition apply_status (value row : val) (index : Z) : val :=
  if loose_eq value (int 1) then Str "待审核"
  else if loose_eq value (int 2) then Str "通过并创建"
  else if loose_eq value (int 3) then Str "驳回"
  else Undef.

(** ** Rows and details *)

(** A button of a row; [arg] is the argument list of its handler. *)
Definition row_button (id value func arg label tail : string) : string :=
  q "<button id=`" +:+ id +:+ q "` class=`btn btn-primary btn-rounded` type=`button` value==`" +:+
  value +:+ q "` onclick=`" +:+ func +:+ "(" +:+ arg +:+ q ");`>" +:+ label +:+ "</button>" +:+ tail.

Definition sq (s : string) : string := "'" +:+ s +:+ "'".

(** The table of a cluster's details. *)
Definition cluster_html (c : val) : prog string :=
  id <- get c "id" ;;
  name <- get c "name" ;;
  master_url <- get c "master_url" ;;
  Ret ("<table><tr><td>集群id：</td><td>" +:+ to_str id +:+ "</td></tr>" +:+
       "<tr><td>集群名：</td><td>" +:+ to_str name +:+ "</td></tr>" +:+
       "<tr><td>访问地址：</td><td>" +:+ to_str master_url +:+ "</td></tr>" +:+
       "</table>").

(** [if (!inputValue) ...]. *)
Definition falsy (v : val) : bool := negb (truthy v).

(** ** Facts *)

Lemma collect_ids_acc refused rows ids :
  collect_ids refused rows ids =
    if existsb (fun r => refused (field r "status")) rows then None
    else Some (ids ++ pluck "id" rows).
Proof.
  revert ids. induction rows as [|r rows IH]; intros ids; cbn; [by rewrite app_nil_r|].
  destruct (refused (field r "status")); [done|]. rewrite IH, <- app_assoc. done.
Qed.

(** The loop collects the ids of all rows, if all rows fit. *)
Lemma collect_ids_spec refused rows :
  collect_ids refused rows [] =
    if existsb (fun r => refused (field r "status")) rows then None else Some (pluck "id" rows).
Proof. apply collect_ids_acc. Qed.

(** What a batch button does, in its three cases. *)
Lemma batch_run E tbl refused none bad opts send w :
  let rows := from_option selected_rows [] (w_tables w !! tbl) in
  run E (batch tbl refused none bad opts send) w =
    if (length rows =? 0)%nat then run E (swal3 none.1 (Str none.2) "error") w
    else if existsb (fun r => refused (field r "status")) rows
         then run E (swal3 bad.1 (Str bad.2) "error") w
         else run E (swal opts (Fn0 (send (pluck "id" rows)))) w.
Proof.
  intros rows. unfold batch. rewrite run_bind, run_selections. fold rows.
  destruct (length rows =? 0)%nat eqn:El; [done|]. rewrite collect_ids_spec.
  destruct (existsb _ rows); [done|]. unfold pluck at 1. by rewrite List.length_map, El.
Qed.

(** The page number the server gets for the [n]-th page. *)
Lemma queryParams_page limit n sort order :
  limit <> 0 -> field (queryParams limit ((n - 1) * limit) sort order) "page" = int n.
Proof.
  intros Hl. unfold queryParams, js_div. rewrite Z.mod_mul, Z.div_mul by done.
  destruct (Z.eqb_spec limit 0); [done|]. cbn. unfold int. do 2 f_equal. lia.
Qed.

(** What the user gets from a batch button on the selection [rows]: an error
    for an empty selection and for one with a row that does not fit; otherwise
    the question [opts], whose confirmation posts [mk text] where [text] is a
    JSON text of the ids of the selected rows. *)
Definition batch_outcome (E : env) (pg : page) (w : world) (a : p_action pg) (input : string)
    (rows : list val) (refused : val -> bool) (none bad : string * string) (opts : swal_opts)
    (mk : val -> request) : Prop :=
  (rows = [] -> news E pg w (Act a) = [Told (Str none.1) (Str none.2) "error"]) /\
  (rows <> [] -> Exists (fun r => refused (field r "status") = true) rows ->
     news E pg w (Act a) = [Told (Str bad.1) (Str bad.2) "error"]) /\
  (rows <> [] -> Forall (fun r => refused (field r "status") = false) rows ->
     news E pg w (Act a) = [Asked opts] /\
     exists text, news E pg (step E pg w (Act a)) (Confirm input) = [Sent (mk (Str text))] /\
       parse text = Some (Arr (pluck "id" rows))).

Lemma existsb_refused (refused : val -> bool) rows :
  existsb (fun r => refused (field r "status")) rows = true <->
  Exists (fun r => refused (field r "status") = true) rows.
Proof.
  by rewrite existsb_exists, Exists_exists.
Qed.

Lemma existsb_accepted (refused : val -> bool) rows :
  existsb (fun r => refused (field r "status")) rows = false <->
  Forall (fun r => refused (field r "status") = false) rows.
Proof.
  rewrite <- not_true_iff_false, existsb_refused. split.
  - intros H. apply Forall_forall. intros r Hr. apply not_true_iff_false. intros Hf.
    apply H, Exists_exists. eauto.
  - intros H [r [Hr Hf]]%Exists_exists. rewrite Forall_forall in H.
    specialize (H r Hr). congruence.
Qed.

Lemma batch_news E pg w (a : p_action pg) tbl refused none bad opts mk ok err input t :
  p_handler pg a =
    batch tbl refused none bad opts (fun ids => ajax (mk (json (Arr ids))) ok err) ->
  w_tables w !! tbl = Some t -> clean (Arr (pluck "id" (selected_rows t))) = true ->
  none.2 <> "" -> bad.2 <> "" -> (forall v, r_async (mk v) = true) ->
  batch_outcome E pg w a input (selected_rows t) refused none bad opts mk.
Proof.
  intros Ha Ht Hc Hn Hb Hmk. set (rows := selected_rows t) in *.
  pose proof (batch_run E tbl refused none bad opts (fun ids => ajax (mk (json (Arr ids))) ok err) w) as Hr.
  cbv zeta in Hr. rewrite Ht in Hr. cbn [from_option] in Hr. fold rows in Hr.
  assert (Htold : forall s : string * string, s.2 <> "" -> run E (swal3 s.1 (Str s.2) "error") w =
    (emit (Told (Str s.1) (Str s.2) "error")
       (set_dialog (Some (message_dialog (Str s.1) (Str s.2) "error")) w), Done tt)).
  { intros [s1 s2] Hs. cbn in Hs |- *. unfold or_else. cbn. by destruct (String.eqb_spec s2 ""). }
  unfold batch_outcome, news. cbn [step]. unfold task. rewrite Ha, Hr. split_ands.
  - intros ->. cbn [length Nat.eqb]. rewrite Htold by done. cbn. by rewrite drop_app_length.
  - intros Hne Hex. apply existsb_refused in Hex. rewrite Hex.
    destruct rows; [done|]. cbn [length Nat.eqb]. rewrite Htold by done. cbn. by rewrite drop_app_length.
  - intros Hne Hall. apply existsb_accepted in Hall. rewrite Hall.
    destruct (stringify_clean _ Hc) as (text & Htext).
    assert (Hl : (length rows =? 0)%nat = false) by by destruct rows. rewrite Hl. clear Hr Hl Hall.
    split; [cbn; by rewrite drop_app_length|]. exists text.
    split; [|by apply parse_stringify].
    cbn -[json]. unfold task, ajax. cbn -[json]. rewrite Hmk. unfold json. rewrite Htext.
    destruct (so_close opts); cbn; by rewrite drop_app_length.
Qed.

(** Sample applications and the server's answer with them. *)
Definition apply_row (id status : Z) (b : bool) : val :=
  Obj [("id", int id); ("status", int status); ("", Bool b)].
Definition apply_answer (rows : list val) : val :=
  Obj [("code", int 0); ("data", Obj [("total", int (Z.of_nat (length rows))); ("data", Arr rows)])].
