(* ===== verification/ClusterInfo.v ===== *)
(** * The cluster page (static/js/cluster/loadInfoData.js)

    The page of one cluster: its databases, its nodes with the operations on
    them, its monitoring panels, its tasks and its events.  Each function of
    the script is a definition of the same name; each AngularJS controller is
    the script it runs when the page loads, and the functions it puts on its
    scope.  [cluster_page] collects the buttons of the page. *)

From S2P Require Import Prelude JsValue Json Browser Logic Contracts Widgets Utils DatePairs Urls.

(** ** Addresses *)

Definition getMonitorUrl (dashboardName panelId : string) (clusterId startTime endTime : val)
    (type : string) : string :=
  "/page/monitor/cluster?clusterId=" +:+ to_str clusterId +:+
  "&dashboardName=" +:+ dashboardName +:+ "&panelId=" +:+ panelId +:+
  "&startTime=" +:+ to_str startTime +:+ "&endTime=" +:+ to_str endTime +:+ "&type=" +:+ type.

Definition viewConsole (dbId dbName : val) : prog unit :=
  clusterId <- val_of "#clusterId" ;;
  goto ("/page/db/viewConsole?dbName=" +:+ to_str dbName +:+ "&dbId=" +:+ to_str dbId +:+
        "&clusterId=" +:+ to_str clusterId).

Definition getTableInfo (dbId dbName : val) : prog unit :=
  clusterId <- val_of "#clusterId" ;;
  goto ("/page/tables/tablelist?dbName=" +:+ to_str dbName +:+ "&dbId=" +:+ to_str dbId +:+
        "&clusterId=" +:+ to_str clusterId).

Definition dbmonitor (dbId dbName : val) : prog unit :=
  clusterId <- val_of "#clusterId" ;;
  goto ("/monitor/dbmonitor?dbId=" +:+ to_str dbId +:+ "&dbName=" +:+ to_str dbName +:+
        "&clusterId=" +:+ to_str clusterId).

Definition viewNodeMonitor (nodeId host : val) : prog unit :=
  clusterId <- val_of "#clusterId" ;;
  goto ("/monitor/nodeMonitor?nodeId=" +:+ to_str nodeId +:+ "&host=" +:+ to_str host +:+
        "&clusterId=" +:+ to_str clusterId).

Definition getConfigOfNode (nodeId : val) : prog unit :=
  clusterId <- val_of "#clusterId" ;;
  goto ("/node/goConfigPage?clusterId=" +:+ to_str clusterId +:+ "&nodeId=" +:+ to_str nodeId +:+
        "&isGet=true").

Definition setConfigOfNode (nodeId : val) : prog unit :=
  clusterId <- val_of "#clusterId" ;;
  goto ("/node/goConfigPage?clusterId=" +:+ to_str clusterId +:+ "&nodeId=" +:+ to_str nodeId +:+
        "&isGet=false").

(** ** Events of the cluster *)

Definition event_columns : list column :=
  [ col "数据库名" "dbName" "left" "left";
    col "表名" "tableName" "left" "left";
    col "rangeId" "rangeId" "center" "middle";
    col "nodeId" "nodeId" "center" "middle";
    col "类型" "statisticsType" "center" "middle";
    col "开始时间" "startTime" "center" "middle";
    col "结束时间" "endTime" "center" "middle";
    col "持续时间（纳秒）" "continuedTime" "center" "middle" ].

Definition clusterEvent : prog unit :=
  clusterId <- val_of "#clusterId" ;;
  startTime <- val_of "#startEvent" ;;
  endTime <- val_of "#endEvent" ;;
  options_data <- new_ref (Arr []) ;;
  ajax (post_sync "/cluster/getClusterEvent"
          [("clusterId", clusterId); ("startTime", startTime); ("endTime", endTime)])
    (fun data =>
       ok <- code_is data 0 ;;
       if ok then attach <- get data "attach" ;; put_ref options_data attach else done)
    no_error ;;
  rows <- get_ref options_data ;;
  show_table "#viewclustereventlist" event_columns rows.

(** ** Monitoring *)

Definition load_frame (sel src : string) : prog unit :=
  set_attr sel "src" (Str src) ;; call "load" [Str sel].

Definition date_parse (v : val) : prog val := op1 (ODateParse (to_str v)).

(** The period of a query: [undefined] twice with the default options. *)
Definition period (type start stop : string) : prog (val * val) :=
  if String.eqb type "defaultOptions" then Ret (Undef, Undef) else
  s <- val_of start ;; startTime <- date_parse s ;;
  e <- val_of stop ;; endTime <- date_parse e ;;
  Ret (startTime, endTime).

Definition load_monitor_data (type : string) : prog unit :=
  clusterId <- val_of "#clusterId" ;;
  p <- period type "#startMonitor" "#endMonitor" ;;
  let '(startTime, endTime) := p in
  let url panel := getMonitorUrl "ji-qun-gai-kuang" panel clusterId startTime endTime "" in
  load_frame "#clusterSummary" (url "1") ;;
  load_frame "#clientNum" (url "5") ;;
  load_frame "#capacity" (url "9") ;;
  load_frame "#tps" (url "3") ;;
  load_frame "#tp999" (url "8") ;;
  load_frame "#tpStd" (url "4").

(** [queryFilter] of the monitoring tab. *)
Definition myClusterMonitor_queryFilter : prog unit := load_monitor_data "setOptions".

(** ** Databases *)

Definition db_buttons (value row : val) (index : Z) : val :=
  join_all
    [ q "<button id=`dbconsole` class=`btn btn-primary btn-rounded` type=`button` value=`控制台` onclick=`viewConsole('" +:+ txt row "id" +:+ "','" +:+ txt row "name" +:+ q "');`>控制台</button>&nbsp;&nbsp;";
      q "<button id=`updatenode` class=`btn btn-primary btn-rounded` type=`button` value=`查看表` onclick=`getTableInfo('" +:+ txt row "id" +:+ "','" +:+ txt row "name" +:+ q "');`>查看表</button>&nbsp;&nbsp;";
      q "<button id=`deleteDb` class=`btn btn-primary btn-rounded` type=`button` value=`删库` onclick=`deleteDb('" +:+ txt row "name" +:+ q "');`>删库</button>&nbsp;&nbsp;";
      q "<button id=`viewdbmonitor` class=`btn btn-primary btn-rounded` type=`button` value=`监控` onclick=`dbmonitor('" +:+ txt row "id" +:+ "','" +:+ txt row "name" +:+ q "');`>监控</button>" ].

Definition db_columns : list column :=
  [ col "ID" "id" "center" "middle";
    col "数据库名" "name" "center" "middle";
    formatted db_buttons (col "操作" "操作" "center" "") ].

Definition myClusterDbList : prog unit :=
  clusterId <- val_of "#clusterId" ;;
  bt_data <- new_ref (Arr []) ;;
  ajax (post_sync "/metadata/dbDataGetAll" [("clusterId", clusterId)])
    (fun data =>
       code <- get data "code" ;;
       if loose_eq code (int 0) then
         rows <- get data "data" ;;
         some <- nonempty rows ;;
         if some then put_ref bt_data rows else done
       else done)
    no_error ;;
  rows <- get_ref bt_data ;;
  show_table "#viewdbList" db_columns rows.

Definition deleteDb (dbName : val) : prog unit :=
  swal (ask "删库操作" "没有表的库才能删除" "" false "执行")
    (Fn0 (clusterId <- val_of "#clusterId" ;;
          ajax (post "/metadata/deleteDb" [("dbName", dbName); ("clusterId", clusterId)])
            (report "删库成功！" "删库成功!" "删库失败！")
            (failed "删库失败！" "请联系管理员!"))).

(** ** Nodes *)

(** The name of a node state. *)
Definition node_state (value row : val) (index : Z) : val :=
  if loose_eq value (int 0) then Str "N_Invalid"
  else if loose_eq value (int 1) then Str "N_Login"
  else if loose_eq value (int 2) then Str "N_Logout"
  else if loose_eq value (int 3) then Str "N_Offline"
  else if loose_eq value (int 4) then Str "N_Tombstone"
  else if loose_eq value (int 5) then Str "N_Upgrade"
  else if loose_eq value (int 6) then Str "N_Initial"
  else value.

(** A button of a node's row whose handler takes the id as a text. *)
Definition node_button (id value arg label : string) : string :=
  q "<button id=`" +:+ id +:+ q "` class=`btn btn-primary btn-rounded` type=`button` value==`" +:+
  value +:+ q "` onclick=`" +:+ id +:+ "(" +:+ arg +:+ q ");`>" +:+ label +:+ "</button>&nbsp;&nbsp;".

Definition node_buttons (value row : val) (index : Z) : val :=
  let id := txt row "id" in
  let quoted := "'" +:+ id +:+ "'" in
  join_all
    [ node_button "upgradeNode" "升级" quoted "升级";
      node_button "viewNodeMonitor" "监控" (quoted +:+ ",'" +:+ txt row "server_addr" +:+ "'") "监控";
      node_button "updateNodeStatus" "修改状态" quoted "状态修改";
      node_button "deleteNode" "删除" id "删除";
      node_button "updateNodeLogLevel" "修改日志级别" quoted "设置日志级别";
      node_button "getRangeTopoOfNode" "查看range" quoted "查看range";
      node_button "getConfigOfNode" "查看config" quoted "查看config";
      node_button "setConfigOfNode" "设置config" quoted "设置config";
      node_button "getDsInfoOfNode" "DS运行信息" quoted "DS运行信息";
      node_button "clearQueueOfNode" "清理Queue" quoted "清理Queue";
      node_button "getPendingQueuesOfNode" "查看Pending任务" quoted "查看Pending任务";
      node_button "flushDBOfNode" "FlushDB" quoted "FlushDB" ].

Definition node_columns : list column :=
  [ checkbox "" "center";
    col "ID" "id" "center" "middle";
    col "server_address" "server_addr" "center" "middle";
    col "admin_addr" "admin_addr" "center" "middle";
    col "replicate_addr" "raft_addr" "center" "middle";
    col "opsStat_max" "version" "center" "middle";
    formatted node_state (col "状态" "state" "center" "middle");
    formatted node_buttons (col "操作" "操作" "center" "") ].

Definition myClusterNodeInfo : prog unit :=
  bt_data <- new_ref Undef ;;
  clusterId <- val_of "#clusterId" ;;
  ajax (post_sync "/node/nodeInfoGetAll" [("clusterId", clusterId)])
    (fun data =>
       ok <- code_is data 0 ;;
       if ok then rows <- get data "data" ;; put_ref bt_data rows else done)
    no_error ;;
  rows <- get_ref bt_data ;;
  show_table "#viewnodeList" node_columns rows.

(** [<select class='form-control' id=... style='height: 33px'>] with options. *)
Definition select_html (id : string) (options : list (string * string)) : string :=
  "<select class='form-control' id='" +:+ id +:+ "' style='height: 33px'>" +:+
  str_join "" (List.map (fun '(v, l) => "<option value='" +:+ v +:+ "'>" +:+ l +:+ "</option>") options) +:+
  "</select>".

Definition updateNodeStatus (nodeId : val) : prog unit :=
  swal (ask "实例状态操作"
          (select_html "selectNodeStatus" [("1", "force上线"); ("2", "下线")]) "" true "执行")
    (Fn0 (status <- val_of "#selectNodeStatus" ;;
          if negb (hasText status) then swal1 "请选择要修改的节点状态" else
          clusterId <- val_of "#clusterId" ;;
          ajax (post "/node/nodeStatusUpdate"
                  [("nodeId", nodeId); ("clusterId", clusterId); ("status", status)])
            (report "节点状态修改成功！" "节点状态修改成功!" "节点状态修改失败！")
            (failed "状态修改失败！" "请联系管理员!"))).

(** The callback of the dialog. *)
Definition batchDeleteNode_send (nodeIds : list val) : prog unit :=
  clusterId <- val_of "#clusterId" ;;
  ajax (post "/node/deleteNode" [("clusterId", clusterId); ("nodeIds", json (Arr nodeIds))])
    (fun data =>
       ok <- code_is data 0 ;;
       if ok then
         swal3 "删除成功！" (Str "删除成功!") "success" ;;
         for_each nodeIds (fun id => remove_rows "#viewnodeList" "id" id)
       else msg <- get data "msg" ;; swal3 "删除失败！" msg "error")
    (failed "删除失败！" "请联系管理员!").

Definition batchDeleteNode : prog unit :=
  selectedNodeRows <- selections "#viewnodeList" ;;
  if Z.of_nat (length selectedNodeRows) <=? 0 then
    swal3 "批量删除实例" (Str "请选择要删除的实例") "error"
  else
    swal (warn "批量删除实例, 只有logout的节点才能被删除" "执行")
      (Fn0 (batchDeleteNode_send (pluck "id" selectedNodeRows))).

(** The success callback of [deleteNode]. *)
Definition deleteNode_done (nodeId data : val) : prog unit :=
  ok <- code_is data 0 ;;
  if ok then
    swal3 "删除成功！" (Str "删除成功!") "success" ;;
    remove_rows "#viewnodeList" "id" nodeId
  else msg <- get data "msg" ;; swal3 "删除失败！" msg "error".

Definition deleteNode (nodeId : val) : prog unit :=
  let nodeIds := [nodeId] in
  swal (warn "删除实例操作, 只有logout的节点才能被删除" "执行")
    (Fn0 (clusterId <- val_of "#clusterId" ;;
          ajax (post "/node/deleteNode"
                  [("nodeIds", json (Arr nodeIds)); ("clusterId", clusterId)])
            (deleteNode_done nodeId)
            (failed "删除失败！" "请联系管理员!"))).

Definition upgradeNode (nodeId : val) : prog unit :=
  swal (warn "您确定要升级吗?" "执行")
    (Fn0 (clusterId <- val_of "#clusterId" ;;
          ajax (post "/node/nodeStatusUpdate"
                  [("nodeId", nodeId); ("clusterId", clusterId); ("status", int 3)])
            (report "节点升级成功！" "节点升级成功!" "节点升级失败！")
            (failed "状态升级失败！" "请联系管理员!"))).

Definition updateNodeLogLevel (nodeId : val) : prog unit :=
  swal (ask "日志级别设置"
          (select_html "selectLogLevel"
             [("debug", "debug"); ("info", "info"); ("warn", "warn"); ("error", "error")])
          "" true "执行")
    (Fn0 (logLevel <- val_of "#selectLogLevel" ;;
          if negb (hasText logLevel) then swal1 "请选择要设置的日志级别" else
          clusterId <- val_of "#clusterId" ;;
          ajax (post "/node/nodeLogLevelUpdate"
                  [("nodeId", nodeId); ("clusterId", clusterId); ("logLevel", logLevel)])
            (report "节点日志级别修改成功！" "节点日志级别修改成功!" "节点日志级别修改失败！")
            (failed "节点日志级别修改失败！" "请联系管理员!"))).

Definition getRangeTopoOfNode (nodeId : val) : prog unit :=
  swal (ask "查看range" "若range较多，页面加载耗时可能需要较长时间。" "" false "继续查看")
    (Fn0 (clusterId <- val_of "#clusterId" ;;
          goto ("/node/getRangeTopo?clusterId=" +:+ to_str clusterId +:+ "&nodeId=" +:+ to_str nodeId))).

Definition getDsInfoOfNode (nodeId : val) : prog unit :=
  swal (ask "获取DS运行信息" "输入path查询，为空返回server信息" "input" false "查询")
    (Fn1 (fun inputValue =>
       if strict_eq inputValue (Bool false) then done else
       let path := if strict_eq inputValue (Str "") then Str "server" else inputValue in
       clusterId <- val_of "#clusterId" ;;
       ajax (post "/node/getDsInfoOfNode"
               [("nodeId", nodeId); ("clusterId", clusterId); ("dsInfoPath", path)])
         (fun data =>
            ok <- code_is data 0 ;;
            if ok then
              info <- get data "data" ;;
              let info_html :=
                "<textarea style='overflow: auto;width: 100%;height: 100px' readonly >" +:+
                to_str info +:+ "</textarea>" in
              swal (SwalOpts "info" (Str info_html) "success" true false "#AEDEF4" "OK" true) NoFn
            else msg <- get data "msg" ;; swal3 "获取DS运行信息失败！" msg "error")
         (failed_res "获取DS运行信息失败！"))).

Definition clearQueueOfNode (nodeId : val) : prog unit :=
  swal (ask "选择清理类型"
          (select_html "selectQueueType"
             [("0", "ALL"); ("1", "FAST_WORKER"); ("2", "SLOW_WORKER")]) "" true "执行")
    (Fn0 (queueType <- val_of "#selectQueueType" ;;
          if negb (hasText queueType) then swal1 "请选择要清理的任务类型" else
          clusterId <- val_of "#clusterId" ;;
          ajax (post "/node/clearQueueOfNode"
                  [("nodeId", nodeId); ("clusterId", clusterId); ("queueType", queueType)])
            (fun data =>
               ok <- code_is data 0 ;;
               if ok then
                 cleared <- get data "data" ;;
                 swal3 "清理DS任务队列成功！" (Str ("cleared=" +:+ to_str cleared)) "success"
               else msg <- get data "msg" ;; swal3 "清理DS任务队列失败！" msg "error")
            (failed_res "清理DS任务队列失败！"))).

Definition getPendingQueuesOfNode (nodeId : val) : prog unit :=
  swal (ask "请指定类型和数量"
          (select_html "selectPendingType"
             [("0", "ALL"); ("1", "INSERT"); ("2", "SELECT"); ("3", "POINT_SELECT");
              ("4", "RANGE_SELECT")]) "input" true "执行")
    (Fn1 (fun inputValue =>
       pendingType <- val_of "#selectPendingType" ;;
       if negb (hasText pendingType) then swal1 "请选择要查看的Pending任务类型"
       else if strict_eq inputValue (Bool false) then done
       else if strict_eq inputValue (Str "") then show_input_error (Str "请输入数量")
       else
         let count := inputValue in
         clusterId <- val_of "#clusterId" ;;
         ajax (post "/node/getPendingQueuesOfNode"
                 [("nodeId", nodeId); ("clusterId", clusterId); ("pendingType", pendingType);
                  ("count", count)])
           (fun data =>
              ok <- code_is data 0 ;;
              if ok then
                queues <- get data "data" ;; swal3 "获取Pending任务队列成功！" queues "success"
              else msg <- get data "msg" ;; swal3 "获取Pending任务队列失败！" msg "error")
           (failed_res "获取Pending任务队列失败！"))).

Definition flushDBOfNode (nodeId : val) : prog unit :=
  swal (ask "Wait FlushDB?"
          (select_html "selectWaitType" [("true", "True"); ("false", "False")]) "" true "执行")
    (Fn0 (waitType <- val_of "#selectWaitType" ;;
          if negb (hasText waitType) then swal1 "请选择是否等待" else
          clusterId <- val_of "#clusterId" ;;
          ajax (post "/node/flushDBOfNode"
                  [("nodeId", nodeId); ("clusterId", clusterId); ("wait", waitType)])
            (report "Flush DB 成功！" "Flush DB 成功!" "Flush DB 失败！")
            (failed_res "Flush DB 失败！"))).

(** ** Tasks *)

Definition historyClusterTask : prog unit :=
  clusterId <- val_of "#clusterId" ;;
  ajax (http_get ("/task/getTypeAll?clusterId=" +:+ to_str clusterId))
    (fun data =>
       ok <- code_is data 0 ;;
       if ok then
         types <- get data "data" ;;
         set_var "historyClusterTask.taskTypes" types ;;
         set_var "historyClusterTask.item" (Str "所有")
       else msg <- get data "msg" ;; swal3 "获取失败" msg "error")
    no_error.

Definition load_history_task (type : string) : prog unit :=
  clusterId <- val_of "#clusterId" ;;
  p <- period type "#startTask" "#endTask" ;;
  let '(startTime, endTime) := p in
  taskType <- val_of "#taskType" ;;
  (if negb (hasText taskType) then
     set_attr "#historyTask" "src"
       (Str (getMonitorUrl "li-shi-ren-wu-lie-biao-cluster" "1" clusterId startTime endTime ""))
   else
     chosen <- get_attr "#taskType option:selected" "text" ;;
     set_attr "#historyTask" "src"
       (Str (getMonitorUrl "li-shi-ren-wu-lie-biao-cluster-type" "1" clusterId startTime endTime
               (to_str chosen)))) ;;
  call "load" [Str "#historyTask"].

Definition historyClusterTask_queryFilter : prog unit := load_history_task "setOptions".

Definition present_columns : list column :=
  [ col "任务ID" "id" "left" "left";
    col "rangeID" "range_id" "left" "left";
    col "类型" "type" "center" "middle";
    col "任务描述" "describe" "left" "left";
    col "状态" "state" "center" "middle";
    checkbox "操作" "center" ].

(** The rows the controller shows, and the cluster it keeps for [queryPut]. *)
Definition presentClusterTask : prog unit :=
  clusterId <- val_of "#clusterId" ;;
  set_var "presentClusterTask.clusterId" clusterId ;;
  options_data <- new_ref (Arr []) ;;
  ajax (post_sync "/task/getPresentTaskById" [("type", Str "allTask"); ("clusterId", clusterId)])
    (fun data =>
       ok <- code_is data 0 ;;
       if ok then
         rows <- get data "data" ;;
         if loose_eq rows Null then done else
         some <- nonempty rows ;;
         if some then put_ref options_data rows else done
       else done)
    no_error ;;
  rows <- get_ref options_data ;;
  show_table "#viewpresentlist" present_columns rows.

(** [for (j = 0; j < ids.length; j++) if (x == ids[j]) ids.splice(j, 1)]:
    the index moves on after a splice too.  [n] bounds the turns. *)
Fixpoint splice_loop (n : nat) (x : val) (j : nat) (ids : list val) : list val :=
  match n with
  | O => ids
  | S n' =>
      match ids !! j with
      | None => ids
      | Some y => splice_loop n' x (S j) (if loose_eq x y then delete j ids else ids)
      end
  end.

(** The two loops that take the failed tasks out of [ids]. *)
Fixpoint drop_failed (failed ids : list val) : list val :=
  match failed with
  | [] => ids
  | x :: failed' => drop_failed failed' (splice_loop (length ids) x 0 ids)
  end.

(** [ids] is the array the callback captures. *)
Definition queryPut_done (selectTask : val) (ids : nat) (data : val) : prog unit :=
  ok <- code_is data 0 ;;
  if ok then
    failed <- get data "data" ;;
    msg <- get data "msg" ;;
    some <- nonempty failed ;;
    (if some then
       swal3 "结果" (Str (to_str msg +:+ nl +:+ " 失败任务ID：" +:+ to_str failed)) "info" ;;
       l <- get_ref ids ;;
       put_ref ids (Arr (drop_failed (items failed) (elements l)))
     else swal3 "成功" msg "info") ;;
    if loose_eq selectTask (Str "delete") then
      l <- get_ref ids ;; remove_rows "#viewpresentlist" "id" l
    else done
  else done.

(** The callback of the dialog. *)
Definition queryPut_send (selectTask : val) (ids : nat) : prog unit :=
  clusterId <- get_var "presentClusterTask.clusterId" ;;
  l <- get_ref ids ;;
  ajax (post_sync "/task/taskOperationById"
          [("type", selectTask); ("clusterId", clusterId); ("taskId", json l)])
    (queryPut_done selectTask ids)
    (failed_res "操作失败").

Definition queryPut : prog unit :=
  selectedTaskRows <- selections "#viewpresentlist" ;;
  if (length selectedTaskRows =? 0)%nat then alert (Str "请选择任务!") else
  ids <- new_ref (Arr (pluck "id" selectedTaskRows)) ;;
  selectTask <- val_of "#selectTask" ;;
  swal (warn "任务操作" "执行") (Fn0 (queryPut_send selectTask ids)).

(** ** Tabs *)

Definition showTabs (tabsId url : val) : prog unit :=
  call "tab" [Str ("a[href='#" +:+ to_str tabsId +:+ "']"); Str "show"].

(** Returns [false] to stop the link. *)
Definition tabsHandler (event : val) : prog val :=
  data <- get event "data" ;;
  id <- get data "id" ;;
  url <- get data "url" ;;
  showTabs id url ;;
  Ret (Bool false).

(** ** The page *)

(** The two fields of a period. *)
Inductive period_fields : Type := Monitor | Task | GateWay | Event.

Definition start_of (p : period_fields) : string :=
  match p with
  | Monitor => "#startMonitor" | Task => "#startTask"
  | GateWay => "#startGateWay" | Event => "#startEvent"
  end.
Definition end_of (p : period_fields) : string :=
  match p with
  | Monitor => "#endMonitor" | Task => "#endTask"
  | GateWay => "#endGateWay" | Event => "#endEvent"
  end.

(** The ready handler. *)
Definition set_periods (off : Z) : prog unit :=
  datePairs off (start_of Monitor) (end_of Monitor) Undef Undef ;;
  datePairs off (start_of Task) (end_of Task) Undef Undef ;;
  datePairs off (start_of GateWay) (end_of GateWay) Undef Undef ;;
  datePairs off (start_of Event) (end_of Event) Undef Undef.

(** The buttons and listeners of views/cluster_info.html and of the rows. *)
Inductive action : Type :=
| AViewConsole (dbId dbName : val) | AGetTableInfo (dbId dbName : val)
| ADeleteDb (dbName : val) | ADbmonitor (dbId dbName : val)
| AViewNodeMonitor (nodeId host : val) | AUpdateNodeStatus (nodeId : val)
| ABatchDeleteNode | ADeleteNode (nodeId : val) | AUpgradeNode (nodeId : val)
| AUpdateNodeLogLevel (nodeId : val) | AGetRangeTopoOfNode (nodeId : val)
| AGetConfigOfNode (nodeId : val) | ASetConfigOfNode (nodeId : val)
| AGetDsInfoOfNode (nodeId : val) | AClearQueueOfNode (nodeId : val)
| AGetPendingQueuesOfNode (nodeId : val) | AFlushDBOfNode (nodeId : val)
| AMonitorFilter | AHistoryFilter | AQueryPut | ATabs (event : val)
| AChangeStart (p : period_fields) | AChangeEnd (p : period_fields).

Definition handler (a : action) : prog unit :=
  match a with
  | AViewConsole i n => viewConsole i n
  | AGetTableInfo i n => getTableInfo i n
  | ADeleteDb n => deleteDb n
  | ADbmonitor i n => dbmonitor i n
  | AViewNodeMonitor i h => viewNodeMonitor i h
  | AUpdateNodeStatus i => updateNodeStatus i
  | ABatchDeleteNode => batchDeleteNode
  | ADeleteNode i => deleteNode i
  | AUpgradeNode i => upgradeNode i
  | AUpdateNodeLogLevel i => updateNodeLogLevel i
  | AGetRangeTopoOfNode i => getRangeTopoOfNode i
  | AGetConfigOfNode i => getConfigOfNode i
  | ASetConfigOfNode i => setConfigOfNode i
  | AGetDsInfoOfNode i => getDsInfoOfNode i
  | AClearQueueOfNode i => clearQueueOfNode i
  | AGetPendingQueuesOfNode i => getPendingQueuesOfNode i
  | AFlushDBOfNode i => flushDBOfNode i
  | AMonitorFilter => myClusterMonitor_queryFilter
  | AHistoryFilter => historyClusterTask_queryFilter
  | AQueryPut => queryPut
  | ATabs e => tabsHandler e ;; done
  | AChangeStart p => changeStart (start_of p) (end_of p)
  | AChangeEnd p => changeEnd (start_of p) (end_of p)
  end.

(** The controllers in document order; AngularJS, whose script comes first,
    starts them before the ready handler of this script runs. *)
Definition controllers : list (prog unit) :=
  [myClusterDbList; myClusterNodeInfo; historyClusterTask; presentClusterTask; clusterEvent].

Definition load (off : Z) : prog unit := start_angular controllers ;; set_periods off.

Definition cluster_page (off : Z) : page :=
  {| p_action := action; p_load := load off; p_handler := handler |}.

(** The dialogs from which the requests that change the cluster are sent. *)
Definition changes (url : string) : list string :=
  if String.eqb url "/metadata/deleteDb" then ["删库操作"]
  else if String.eqb url "/node/deleteNode" then
    ["批量删除实例, 只有logout的节点才能被删除"; "删除实例操作, 只有logout的节点才能被删除"]
  else if String.eqb url "/node/nodeStatusUpdate" then ["实例状态操作"; "您确定要升级吗?"]
  else if String.eqb url "/node/nodeLogLevelUpdate" then ["日志级别设置"]
  else if String.eqb url "/node/clearQueueOfNode" then ["选择清理类型"]
  else if String.eqb url "/node/flushDBOfNode" then ["Wait FlushDB?"]
  else if String.eqb url "/task/taskOperationById" then ["任务操作"]
  else [].

Definition cluster_policy : policy := usual changes.

(** ** The page keeps its promises *)

Lemma cluster_handler_promises a : wp (promises cluster_policy) (handler a) [] (ends (promises cluster_policy) PAct).
Proof. destruct a; cbn [handler]; promised. Qed.

Lemma datePairs_loads off d1 d2 : loads cluster_policy (datePairs off d1 d2 Undef Undef).
Proof. loaded. Qed.

Lemma load_promises off : loads cluster_policy (load off).
Proof.
  apply loads_seq.
  - apply loads_start_angular. for_all; loaded.
  - repeat (apply loads_seq; [apply datePairs_loads|]). apply datePairs_loads.
Qed.

#[export] Instance cluster_page_promising off : Promising (cluster_page off) cluster_policy.
Proof. split; [apply loads_promises, load_promises|apply cluster_handler_promises]. Qed.

(** ** Failed tasks *)

(** The inner loop without its index: the element after a match is kept
    without being looked at. *)
Fixpoint splice_skip (x : val) (ids : list val) : list val :=
  match ids with
  | [] => []
  | y :: r =>
      if loose_eq x y then
        match r with [] => [] | z :: r' => z :: splice_skip x r' end
      else y :: splice_skip x r
  end.

Lemma splice_loop_skip n x pre ids :
  (length ids <= n)%nat ->
  splice_loop n x (length pre) (pre ++ ids) = pre ++ splice_skip x ids.
Proof.
  revert pre ids. induction n as [|n IH]; intros pre ids Hn.
  { destruct ids; [done|cbn in Hn; lia]. }
  destruct ids as [|y r].
  { cbn [splice_loop]. rewrite app_nil_r, lookup_ge_None_2 by done. by rewrite app_nil_r. }
  cbn [splice_loop splice_skip]. rewrite list_lookup_middle by done.
  destruct (loose_eq x y); cbn in Hn.
  - rewrite delete_middle. destruct r as [|z r]; cbn in Hn.
    + rewrite app_nil_r. destruct n; cbn; [done|]. by rewrite lookup_ge_None_2 by lia.
    + replace (S (length pre)) with (length (pre ++ [z])) by (rewrite length_app; cbn; lia).
      change (z :: r) with ([z] ++ r). rewrite app_assoc, IH by lia. by rewrite <- app_assoc.
  - replace (S (length pre)) with (length (pre ++ [y])) by (rewrite length_app; cbn; lia).
    change (y :: r) with ([y] ++ r). rewrite app_assoc, IH by lia. by rewrite <- app_assoc.
Qed.

(** The fuel of [drop_failed] lets the loop run to its end. *)
Lemma splice_loop_enough n x ids :
  (length ids <= n)%nat -> splice_loop n x 0 ids = splice_loop (length ids) x 0 ids.
Proof.
  intros Hn. pose proof (splice_loop_skip n x [] ids Hn) as H1.
  pose proof (splice_loop_skip (length ids) x [] ids ltac:(done)) as H2. cbn in *. congruence.
Qed.

Lemma loose_eq_int x y : loose_eq (int x) (int y) = (x =? y).
Proof. done. Qed.

Lemma splice_skip_absent x zs : x ∉ zs -> splice_skip (int x) (int <$> zs) = int <$> zs.
Proof.
  induction zs as [|y zs IH]; intros Hx; [done|]. rewrite not_elem_of_cons in Hx.
  destruct Hx as [Hne Hx]. cbn [fmap list_fmap splice_skip]. rewrite loose_eq_int.
  destruct (Z.eqb_spec x y); [done|]. f_equal. by apply IH.
Qed.

Lemma splice_skip_NoDup x zs :
  NoDup zs -> splice_skip (int x) (int <$> zs) = int <$> filter (fun z => z <> x) zs.
Proof.
  induction 1 as [|y zs Hy Hzs IH]; [done|].
  cbn [fmap list_fmap splice_skip]. rewrite loose_eq_int, filter_cons.
  destruct (Z.eqb_spec x y) as [->|Hne].
  - rewrite decide_False by (intros []; done). rewrite list_filter_all by set_solver.
    destruct zs as [|z zs]; [done|]. cbn [fmap list_fmap].
    rewrite splice_skip_absent; [done|]. set_solver.
  - rewrite decide_True by done. cbn. by f_equal.
Qed.

(** On distinct ids the two loops compute the set difference, in order. *)
Lemma drop_failed_spec failed zs :
  NoDup zs ->
  drop_failed (int <$> failed) (int <$> zs) = int <$> filter (fun z => z ∉ failed) zs.
Proof.
  revert zs. induction failed as [|x failed IH]; intros zs Hzs.
  - cbn. by rewrite list_filter_all by set_solver.
  - cbn [drop_failed fmap list_fmap].
    pose proof (splice_loop_skip (length (int <$> zs)) (int x) [] (int <$> zs) ltac:(done)) as Hl.
    cbn [app length] in Hl. rewrite Hl, splice_skip_NoDup by done.
    change (drop_failed (int <$> failed) (int <$> filter (fun z => z <> x) zs) =
      int <$> filter (fun z => z ∉ x :: failed) zs).
    rewrite IH by by apply list.NoDup_filter. f_equal. rewrite list_filter_filter.
    apply list_filter_iff. intros z. rewrite not_elem_of_cons. tauto.
Qed.

(** What [remove] with a list of numbers takes out. *)
Lemma row_removed_ints zs row :
  row_removed "id" (Arr (int <$> zs)) row = true <->
  exists z fs, row = Obj fs /\ assoc "id" fs = Some (int z) /\ z ∈ zs.
Proof.
  unfold row_removed. destruct row as [| | | | | |fs]; try (split; [done|by intros (? & ? & ? & _)]).
  destruct (assoc "id" fs) as [x|] eqn:Ex; [|split; [done|intros (? & ? & [= ->] & ? & _); congruence]].
  cbn [in_array]. rewrite existsb_exists. split.
  - intros (y & Hy & Hxy). apply list_elem_of_In, list_elem_of_fmap in Hy as (z & -> & Hz).
    exists z, fs. split_ands; [done| |done]. destruct x as [| | |[x|]| | |]; try done.
    cbn in Hxy. apply Z.eqb_eq in Hxy as ->. done.
  - intros (z & fs' & [= ->] & Hz & Hin). simplify_eq. exists (int z). split.
    + apply list_elem_of_In, list_elem_of_fmap. eauto.
    + apply Z.eqb_refl.
Qed.

Lemma heap_last (h : list val) v : (h ++ [v]) !! length h = Some v.
Proof. by rewrite list_lookup_middle. Qed.

Lemma heap_put_last (h : list val) v v' : <[length h := v']> (h ++ [v]) = h ++ [v'].
Proof. by rewrite insert_app_r_alt, Nat.sub_diag by done. Qed.

(** The button asks before the operation is sent for the selected tasks. *)
Lemma queryPut_asks E w t ids op :
  w_tables w !! "#viewpresentlist" = Some t -> pluck "id" (selected_rows t) = ids -> ids <> [] ->
  value_of w "#selectTask" = op ->
  task E queryPut w =
    emit (Asked (warn "任务操作" "执行"))
      (set_dialog (Some (DialogState (warn "任务操作" "执行") (Fn0 (queryPut_send op (length (w_heap w))))))
        (set_heap (w_heap w ++ [Arr ids]) w)).
Proof.
  intros Ht Hsel Hne Hop. unfold task, queryPut. rewrite run_bind, run_selections, Ht. cbn [from_option].
  destruct (selected_rows t) as [|r rs] eqn:Er; [by destruct Hne; rewrite <- Hsel|].
  cbn [length Nat.eqb]. rewrite run_bind, run_new_ref, Hsel.
  unfold value_of in Hop. cbn. unfold attr_of in *. cbn. by rewrite Hop.
Qed.

Section delete_tasks.
Context (E : env) (w : world) (t : table) (zs failed : list Z) (msg : val).
Context (Ht : w_tables w !! "#viewpresentlist" = Some t).
Context (Hsel : pluck "id" (selected_rows t) = int <$> zs) (Hne : zs <> []) (Hnd : NoDup zs).
Context (Hdel : value_of w "#selectTask" = Str "delete").
Context (Hserver : forall log r, e_server E log r =
  Success (Obj [("code", int 0); ("msg", msg); ("data", Arr (int <$> failed))])).

Lemma queryPut_done_rows w' h :
  w_tables w' !! "#viewpresentlist" = Some t -> w_heap w' = h ++ [Arr (int <$> zs)] ->
  rows_of (task E (queryPut_done (Str "delete") (length h)
                     (Obj [("code", int 0); ("msg", msg); ("data", Arr (int <$> failed))])) w')
    "#viewpresentlist" =
  List.filter (fun r => negb (row_removed "id" (Arr (int <$> filter (fun z => z ∉ failed) zs)) r))
    (t_rows t).
Proof.
  intros Ht' Hh. unfold task, queryPut_done, code_is, get, nonempty. cbn.
  set (ok := 0 <? Z.of_nat (length (int <$> failed))).
  assert (ok = match failed with [] => false | _ => true end) as -> by by destruct failed.
  destruct failed as [|f fs]; cbn.
  - rewrite Hh, heap_last. unfold rows_of. cbn. rewrite lookup_alter_eq, Ht'. cbn.
    by rewrite list_filter_all by set_solver.
  - rewrite Hh, heap_last, heap_put_last. cbn. rewrite heap_last.
    unfold rows_of. cbn. rewrite lookup_alter_eq, Ht'. cbn.
    pose proof (drop_failed_spec (f :: fs) zs Hnd) as Hd. cbn in Hd. by rewrite Hd.
Qed.

Lemma queryPut_send_rows w' h :
  w_tables w' !! "#viewpresentlist" = Some t -> w_heap w' = h ++ [Arr (int <$> zs)] ->
  rows_of (task E (queryPut_send (Str "delete") (length h)) w') "#viewpresentlist" =
  List.filter (fun r => negb (row_removed "id" (Arr (int <$> filter (fun z => z ∉ failed) zs)) r))
    (t_rows t).
Proof.
  intros Ht' Hh. unfold task, queryPut_send, ajax. cbn -[queryPut_done json].
  rewrite Hserver. cbn -[queryPut_done json].
  match goal with |- rows_of (finish (run E (queryPut_done _ _ _) ?w1)) _ = _ =>
    exact (queryPut_done_rows w1 h Ht' Hh) end.
Qed.

Lemma queryPut_delete_rows_left off input :
  rows_of (steps E (cluster_page off) w [Act AQueryPut; Confirm input]) "#viewpresentlist" =
  List.filter (fun r => negb (row_removed "id" (Arr (int <$> filter (fun z => z ∉ failed) zs)) r))
    (t_rows t).
Proof.
  cbn [steps fold_left step p_handler cluster_page handler].
  rewrite (queryPut_asks E w t (int <$> zs) (Str "delete")) by (done || by destruct zs).
  unfold press_confirm. cbn [w_dialog emit set_dialog so_close warn ask].
  by apply queryPut_send_rows.
Qed.
End delete_tasks.

(** ** Theorems *)

(** C8: In every state the cluster page can reach, for every server and user, a
    request that changes the cluster (dropping a database, deleting nodes,
    changing a node's state or log level, clearing its queues, flushing it,
    operating on tasks) is sent only by the confirm button of a dialog that
    asked for that very operation. *)
Theorem cluster_changes_confirmed off E w ev r :
  reachable E (cluster_page off) w ->
  Sent r ∈ news E (cluster_page off) w ev -> changes (r_url r) <> [] ->
  exists input d, ev = Confirm input /\ w_dialog w = Some d /\
    so_title (d_opts d) ∈ changes (r_url r).
Proof. intros Hw. by apply (sent_confirmed (pol := cluster_policy)). Qed.

(** A session in which the user asked to drop a database. *)
Definition asked_to_drop : world :=
  session offline (cluster_page 0) [("#clusterId", "value", Str "7")] [Act (ADeleteDb (Str "db1"))].
Definition drop_request : request :=
  post "/metadata/deleteDb" [("dbName", Str "db1"); ("clusterId", Str "7")].

Lemma cluster_changes_confirmed_witness :
  exists input d, Confirm "" = Confirm (H := action) input /\ w_dialog asked_to_drop = Some d /\
    so_title (d_opts d) ∈ changes (r_url drop_request).
Proof.
  apply (cluster_changes_confirmed 0 offline asked_to_drop (Confirm "") drop_request).
  - apply reachable_session.
  - vm_compute. left.
  - done.
Defined.

(** On the cluster page no event sends more than one request, and neither
    closing a dialog nor receiving an answer sends any. *)
Theorem cluster_requests_paced off E w ev :
  reachable E (cluster_page off) w ->
  (length (requests (news E (cluster_page off) w ev)) <= 1)%nat /\
  requests (news E (cluster_page off) w Cancel) = [] /\
  forall i res, requests (news E (cluster_page off) w (Reply i res)) = [].
Proof.
  intros Hw. split_ands; [by apply (requests_bounded (pol := cluster_policy))|by apply cancel_sends_nothing|].
  intros i res. pose proof (reply_bounded E w Hw i res) as Hl. cbn in Hl.
  by destruct (requests _); [|cbn in Hl; lia].
Qed.

Lemma cluster_requests_paced_witness :
  (length (requests (news offline (cluster_page 0) asked_to_drop (Confirm ""))) <= 1)%nat /\
  requests (news offline (cluster_page 0) asked_to_drop Cancel) = [] /\
  forall i res, requests (news offline (cluster_page 0) asked_to_drop (Reply i res)) = [].
Proof. apply (cluster_requests_paced 0 offline), reachable_session. Defined.

(** On the cluster page every readable answer to a pending post, failures
    included, is shown to the user, and a success message appears only in
    answer to a response whose code is 0. *)
Theorem cluster_answers_reported off E w i res r :
  reachable E (cluster_page off) w -> fst <$> w_pending w !! i = Some r -> posts r = true ->
  readable res = true ->
  (exists o, o ∈ news E (cluster_page off) w (Reply i res) /\ notice o = true) /\
  ((exists o, o ∈ news E (cluster_page off) w (Reply i res) /\ is_success o = true) ->
   exists data, res = Success data /\ code_zero data = true).
Proof.
  intros Hw Hi Hr Hres. split.
  { eapply reply_reported; [done|done|]. cbn. by rewrite Hr, Hres. }
  intros (o & Ho & Hs).
  destruct (reply_success_granted (pol := cluster_policy) E w Hw _ _ _ eq_refl Ho Hs) as (r' & _ & Hg).
  destruct res as [data|]; [by exists data|done].
Qed.

(** The session in which the request is under way; the task types of the
    history tab are pending before it. *)
Definition dropping : world :=
  step offline (cluster_page 0) asked_to_drop (Confirm "").

Lemma cluster_answers_reported_witness :
  (exists o, o ∈ news offline (cluster_page 0) dropping (Reply 1 (Failure Undef Undef)) /\
     notice o = true) /\
  ((exists o, o ∈ news offline (cluster_page 0) dropping (Reply 1 (Failure Undef Undef)) /\
      is_success o = true) ->
   exists data, Failure Undef Undef = Success data /\ code_zero data = true).
Proof.
  apply (cluster_answers_reported 0 offline dropping 1 (Failure Undef Undef) drop_request).
  - apply reach_step, reachable_session.
  - vm_compute. reflexivity.
  - reflexivity.
  - reflexivity.
Defined.

(** C15: After the user confirms the deletion of the selected tasks and the
    server answers with the ids that failed, exactly the selected tasks that
    did not fail have left the table, although the script edits the array of
    ids while it walks through it. *)
Theorem queryPut_delete_rows off E w t zs failed msg input :
  w_tables w !! "#viewpresentlist" = Some t ->
  pluck "id" (selected_rows t) = int <$> zs -> zs <> [] -> NoDup zs ->
  value_of w "#selectTask" = Str "delete" ->
  (forall log r, e_server E log r =
     Success (Obj [("code", int 0); ("msg", msg); ("data", Arr (int <$> failed))])) ->
  let w' := steps E (cluster_page off) w [Act AQueryPut; Confirm input] in
  forall row, row ∈ rows_of w' "#viewpresentlist" <->
    row ∈ t_rows t /\
    forall z fs, row = Obj fs -> assoc "id" fs = Some (int z) -> z ∈ zs -> z ∈ failed.
Proof.
  intros Ht Hsel Hne Hnd Hdel Hserver w' row. unfold w'.
  rewrite (queryPut_delete_rows_left E w t zs failed msg) by done.
  rewrite list_elem_of_In, filter_In, <- list_elem_of_In, negb_true_iff.
  rewrite <- not_true_iff_false, row_removed_ints. apply and_iff_compat_l. split.
  - intros Hn z fs -> Hz Hin. destruct (decide (z ∈ failed)) as [|Hf]; [done|].
    destruct Hn. exists z, fs. split_ands; [done..|]. by apply list_elem_of_filter.
  - intros Hall (z & fs & -> & Hz & [Hf Hin]%list_elem_of_filter). by eapply Hf, Hall.
Qed.

(** Three tasks of which two are selected; task 2 cannot be deleted. *)
Definition task_row (id : Z) (b : bool) : val := Obj [("id", int id); ("操作", Bool b)].
Definition task_rows : list val := [task_row 1 true; task_row 2 true; task_row 3 false].
Definition task_server : env :=
  served (fun _ => Success (Obj [("code", int 0); ("msg", Str "ok"); ("data", Arr [int 2])])).
Definition task_world : world :=
  World (list_to_map [(("#selectTask", "value"), Str "delete")]) ∅ []
    (list_to_map [("#viewpresentlist", Table "操作" task_rows)]) None [] [].

Lemma queryPut_delete_rows_witness :
  task_row 2 true ∈ rows_of (steps task_server (cluster_page 0) task_world
                               [Act AQueryPut; Confirm ""]) "#viewpresentlist" <->
    task_row 2 true ∈ task_rows /\
    forall z fs, task_row 2 true = Obj fs -> assoc "id" fs = Some (int z) -> z ∈ [1; 2] -> z ∈ [2].
Proof.
  apply (queryPut_delete_rows 0 task_server task_world (Table "操作" task_rows) [1; 2] [2] (Str "ok") "");
    try reflexivity; [done|].
  repeat constructor; rewrite ?list_elem_of_singleton, ?elem_of_nil; lia.
Defined.

(** ** Links *)

(** Where a link of the page leads, with its parameters. *)
Definition link_of (a : action) (clusterId : val) : option (string * list (string * string)) :=
  let c := to_str clusterId in
  match a with
  | AViewConsole i n =>
      Some ("/page/db/viewConsole", [("dbName", to_str n); ("dbId", to_str i); ("clusterId", c)])
  | AGetTableInfo i n =>
      Some ("/page/tables/tablelist", [("dbName", to_str n); ("dbId", to_str i); ("clusterId", c)])
  | ADbmonitor i n =>
      Some ("/monitor/dbmonitor", [("dbId", to_str i); ("dbName", to_str n); ("clusterId", c)])
  | AViewNodeMonitor i h =>
      Some ("/monitor/nodeMonitor", [("nodeId", to_str i); ("host", to_str h); ("clusterId", c)])
  | AGetConfigOfNode i =>
      Some ("/node/goConfigPage", [("clusterId", c); ("nodeId", to_str i); ("isGet", "true")])
  | ASetConfigOfNode i =>
      Some ("/node/goConfigPage", [("clusterId", c); ("nodeId", to_str i); ("isGet", "false")])
  | _ => None
  end.

Lemma link_url E w a path fs :
  link_of a (value_of w "#clusterId") = Some (path, fs) ->
  run E (handler a) w = (emit (WentTo (path +:+ "?" +:+ build_query fs)) w, Done tt) /\ fs <> [] /\
  path_ok path = true.
Proof.
  destruct a; cbn [link_of]; intros [= <- <-];
    (split_ands; [|done|vm_compute; reflexivity]); cbn -[to_str]; unfold build_query;
    cbn [List.map str_join]; rewrite !str_app_assoc; reflexivity.
Qed.

(** A link of the cluster page to a console, table list, monitor or
    configuration page hands its arguments over intact: the receiver reads
    from the address the database or node of the row and the current cluster,
    for texts free of the characters an address reserves. *)
Theorem links_carry_arguments off E w a path fs :
  link_of a (value_of w "#clusterId") = Some (path, fs) -> Forall plain_field fs ->
  exists url, news E (cluster_page off) w (Act a) = [WentTo url] /\ params url = fs.
Proof.
  intros Ha Hfs. destruct (link_url E w a path fs Ha) as (Hrun & Hne & Hp).
  eexists. split; [|by apply params_build].
  unfold news. cbn [step cluster_page p_handler]. unfold task. rewrite Hrun. cbn. by rewrite drop_app_length.
Qed.

Lemma links_carry_arguments_witness :
  exists url, news offline (cluster_page 0) asked_to_drop (Act (AViewConsole (int 3) (Str "db1"))) =
    [WentTo url] /\ params url = [("dbName", "db1"); ("dbId", "3"); ("clusterId", "7")].
Proof.
  apply (links_carry_arguments 0 offline asked_to_drop (AViewConsole (int 3) (Str "db1"))
           "/page/db/viewConsole").
  - vm_compute. reflexivity.
  - repeat constructor.
Defined.

(** Deleting the selected nodes posts one request, only after the user
    confirmed, whose [nodeIds] field is a JSON text that decodes to the ids of
    the selected rows in table order. *)
Theorem batchDeleteNode_payload off E w t input :
  w_tables w !! "#viewnodeList" = Some t -> selected_rows t <> [] ->
  clean (Arr (pluck "id" (selected_rows t))) = true ->
  news E (cluster_page off) w (Act ABatchDeleteNode) =
    [Asked (warn "批量删除实例, 只有logout的节点才能被删除" "执行")] /\
  exists text,
    news E (cluster_page off) (step E (cluster_page off) w (Act ABatchDeleteNode)) (Confirm input) =
      [Sent (post "/node/deleteNode"
               [("clusterId", value_of w "#clusterId"); ("nodeIds", Str text)])] /\
    parse text = Some (Arr (pluck "id" (selected_rows t))).
Proof.
  intros Ht Hne Hc. destruct (stringify_clean _ Hc) as (text & Htext).
  assert (Hrun : run E batchDeleteNode w = run E
    (swal (warn "批量删除实例, 只有logout的节点才能被删除" "执行")
       (Fn0 (batchDeleteNode_send (pluck "id" (selected_rows t))))) w).
  { unfold batchDeleteNode. rewrite run_bind, run_selections, Ht. cbn [from_option].
    destruct (selected_rows t) as [|r rs]; done. }
  unfold news. cbn [step cluster_page p_handler handler]. unfold task. rewrite Hrun. cbn -[json].
  split; [by rewrite drop_app_length|]. exists text. split; [|by apply parse_stringify].
  rewrite drop_app_length. unfold json. by rewrite Htext.
Qed.

Definition node_row (id : Z) (b : bool) : val := Obj [("id", int id); ("", Bool b)].
Definition node_world : world :=
  World (list_to_map [(("#clusterId", "value"), Str "7")]) ∅ []
    (list_to_map [("#viewnodeList", Table "" [node_row 4 true; node_row 5 false; node_row 6 true])])
    None [] [].

Lemma batchDeleteNode_payload_witness :
  news offline (cluster_page 0) node_world (Act ABatchDeleteNode) =
    [Asked (warn "批量删除实例, 只有logout的节点才能被删除" "执行")] /\
  exists text,
    news offline (cluster_page 0) (step offline (cluster_page 0) node_world (Act ABatchDeleteNode))
        (Confirm "") =
      [Sent (post "/node/deleteNode" [("clusterId", Str "7"); ("nodeIds", Str text)])] /\
    parse text = Some (Arr [int 4; int 6]).
Proof.
  apply (batchDeleteNode_payload 0 offline node_world
           (Table "" [node_row 4 true; node_row 5 false; node_row 6 true]) "");
    [reflexivity|discriminate|reflexivity].
Defined.

(** ** Deleted nodes and the table *)

(** [remove] looks its [values] up as in an array; a number has no elements. *)
Lemma remove_number fld z t : remove_from_table fld (int z) t = t.
Proof.
  destruct t as [st rows]. unfold remove_from_table. cbn. f_equal.
  rewrite (bool_filter_spec (fun _ => True)); [by rewrite list_filter_all|].
  intros r _. split; [done|]. intros _. destruct r as [| | | | | |fs]; try reflexivity.
  cbn. by destruct (assoc fld fs).
Qed.

Lemma rows_of_remove_number fld z tbl w :
  rows_of (set_tables (alter (remove_from_table fld (int z)) tbl (w_tables w)) w) tbl = rows_of w tbl.
Proof.
  unfold rows_of. cbn. rewrite lookup_alter_eq. destruct (w_tables w !! tbl); [|done].
  cbn [from_option fmap option_fmap option_map]. by rewrite remove_number.
Qed.

Lemma deleteNode_sent off E w nodeId input :
  exists r cb, let w1 := steps E (cluster_page off) w [Act (ADeleteNode nodeId); Confirm input] in
    w_pending w1 = w_pending w ++ [(r, cb)] /\ w_tables w1 = w_tables w /\
    forall data, cb (Success data) = deleteNode_done nodeId data.
Proof. eexists _, _. cbn -[json]. split_ands; reflexivity. Qed.

(** When the server has granted the deletion of a node, the page announces
    success but the row stays in the table: the script passes a single id where
    the table's remove takes a list of ids. *)
Theorem deleteNode_row_stays off E w z input :
  let answer := Success (Obj [("code", int 0)]) in
  let w1 := steps E (cluster_page off) w [Act (ADeleteNode (int z)); Confirm input] in
  let w2 := step E (cluster_page off) w1 (Reply (length (w_pending w)) answer) in
  rows_of w2 "#viewnodeList" = rows_of w "#viewnodeList" /\
  news E (cluster_page off) w1 (Reply (length (w_pending w)) answer) =
    [Told (Str "删除成功！") (Str "删除成功!") "success"].
Proof.
  destruct (deleteNode_sent off E w (int z) input) as (r & cb & Hp & Ht & Hcb).
  intros answer w1 w2. unfold w2, news. cbn [step]. fold w1 in Hp, Ht. unfold deliver.
  rewrite Hp, list_lookup_middle by done. unfold answer. rewrite Hcb. cbn. split; [|by rewrite drop_app_length].
  rewrite <- (rows_of_remove_number "id" z "#viewnodeList" w). unfold rows_of. cbn. reflexivity.
Qed.
