(* ===== verification/Pager.v ===== *)
(** * Paged lists of configurations and locks (static/js/apply/conflist.js, locklist.js)

    The two lists carry the same pager: the page number and size live in the
    variables [pageIndex] and [pageSize], the server's answer sets them, and the
    links of the pager are switched on and off by editing their [onclick]
    attribute and the class of their list item.  locklist.js adds the forced
    release of a lock. *)

From S2P Require Import Prelude JsValue Json Browser Logic Contracts Frame Widgets Utils DatePairs Urls.

(** ** Arithmetic of the page number *)

(** [v + 1]: a text is extended, anything else is a number. *)
Definition plus_one (v : val) : val :=
  match v with
  | Str s => Str (s +:+ "1")
  | _ => match to_number v with Fin z => int (z + 1) | NaN => Num NaN end
  end.
Definition minus_one (v : val) : val :=
  match to_number v with Fin z => int (z - 1) | NaN => Num NaN end.

(** ** Cells *)

(** [!hasText(value) || value == 0]. *)
Definition blank (value : val) : bool := negb (hasText value) || loose_eq value (int 0).

(** [formatDate(new Date(value), ...)]; [parse] is the browser's reading of a
    date text. *)
Definition millis_text (off : Z) (parse : string -> option Z) (value row : val) (index : Z) : val :=
  if blank value then Str "" else
  match (match value with Str s => parse s | _ => match to_number value with Fin z => Some z | NaN => None end end) with
  | Some z => Str (Utils.formatDate (local_date off z) (Some "yyyy-MM-dd hh:mm:ss"))
  | None => Str "NaN-NaN-NaN NaN:NaN:NaN"
  end.

Definition expired_text (value row : val) (index : Z) : val :=
  if blank value then Str "" else Str (to_str value +:+ "ms").

(** ** The pager *)

Section pager.
(** The address of the list and the selector of its table. *)
Context (path tbl : string).

Definition getUrl : prog string :=
  clusterId <- val_of "#clusterId" ;;
  dbName <- val_of "#dbName" ;;
  tableName <- val_of "#tableName" ;;
  pageIndex <- get_var "pageIndex" ;;
  pageSize <- get_var "pageSize" ;;
  Ret (path +:+ "?clusterId=" +:+ to_str clusterId +:+ "&dbName=" +:+ to_str dbName +:+
       "&tableName=" +:+ to_str tableName +:+ "&page=" +:+ to_str pageIndex +:+
       "&rows=" +:+ to_str pageSize).

Definition refreshLockList : prog unit := url <- getUrl ;; refresh tbl url.

Definition refreshPageFirst : prog unit := set_var "pageIndex" (int 1) ;; refreshLockList.

Definition refreshPagePre : prog unit :=
  pageIndex <- get_var "pageIndex" ;;
  (if js_gt pageIndex (int 1) then set_var "pageIndex" (minus_one pageIndex) else done) ;;
  refreshLockList.

Definition refreshPageNext : prog unit :=
  pageIndex <- get_var "pageIndex" ;;
  set_var "pageIndex" (plus_one pageIndex) ;;
  refreshLockList.

Definition setPageDisable : prog unit :=
  pageIndex <- get_var "pageIndex" ;;
  set_text "#currentPage" pageIndex ;;
  if loose_eq pageIndex (int 1) then
    add_class "li.page-first" "disabled" ;;
    add_class "li.page-pre" "disabled" ;;
    remove_attr "li.page-first a" "onclick" ;;
    remove_attr "li.page-pre a" "onclick" ;;
    set_attr "li.page-next a" "onclick" (Str "refreshPageNext();")
  else if js_gt pageIndex (int 1) then
    remove_class "li.page-first" "disabled" ;;
    remove_class "li.page-pre" "disabled" ;;
    remove_class "li.page-next" "disabled" ;;
    set_attr "li.page-first a" "onclick" (Str "refreshPageFirst();") ;;
    set_attr "li.page-pre a" "onclick" (Str "refreshPagePre();") ;;
    set_attr "li.page-next a" "onclick" (Str "refreshPageNext();")
  else done.

(** The handler of an answer, and the rows the table then shows. *)
Definition responseHandler (res : val) : prog val :=
  ok <- code_is res 0 ;;
  if ok then
    data <- get res "data" ;;
    pageIndex <- get data "pageIndex" ;;
    set_var "pageIndex" pageIndex ;;
    pageSize <- get data "pageSize" ;;
    set_var "pageSize" pageSize ;;
    setPageDisable ;;
    total <- get data "total" ;;
    (if js_lt total (int 10) then
       add_class "li.page-next" "disabled" ;;
       remove_attr "li.page-next a" "onclick"
     else done) ;;
    rows <- get data "data" ;;
    Ret (Obj [("total", total); ("rows", rows)])
  else
    set_var "pageIndex" (int 1) ;;
    set_var "pageSize" (int 10) ;;
    msg <- get res "msg" ;;
    swal3 "失败" msg "error" ;;
    setPageDisable ;;
    data <- get res "data" ;;
    Ret (Obj [("total", int 0); ("rows", data)]).

Definition on_response (state : string) (res : val) : prog unit :=
  r <- responseHandler res ;;
  rows <- get r "rows" ;;
  bootstrap_table tbl state (elements rows).

(** A link works if it has an [onclick]. *)
Definition click (link : string) (f : prog unit) : prog unit :=
  onclick <- get_attr link "onclick" ;; if truthy onclick then f else done.

Definition table_options (url toolbar : string) : val :=
  Obj [("url", Str url); ("striped", Bool true); ("cache", Bool false);
       ("sidePagination", Str "server"); ("clickToSelect", Bool true); ("iconSize", Str "outline");
       ("toolbar", Str toolbar); ("height", int 500);
       ("icons", Obj [("refresh", Str "glyphicon-repeat")])].

Definition load_list (toolbar : string) (cols : list column) : prog unit :=
  set_var "pageIndex" (int 1) ;;
  set_var "pageSize" (int 10) ;;
  url <- getUrl ;;
  call "bootstrapTable" [Str tbl; table_options url toolbar] ;;
  bootstrap_table tbl (state_field cols) [].
End pager.

(** ** The list of configurations (conflist.js) *)

Definition conf_path : string := "/configure/queryList".

Definition conf_columns (off : Z) (parse : string -> option Z) : list column :=
  [ radio "" "center"; col "key" "k" "center" ""; col "配置" "v" "center" "";
    col "版本" "version" "center" ""; col "扩展" "extend" "center" "";
    formatted (millis_text off parse) (col "过期时间" "create_time" "center" "");
    formatted (millis_text off parse) (col "更新时间" "upd_time" "center" "");
    col "客户端ip" "creator" "center" "" ].

Inductive conf_action : Type :=
| CResponse (res : val) | CRefresh | CFirst | CPre | CNext.

Definition conf_handler (a : conf_action) : prog unit :=
  match a with
  | CResponse res => on_response "#confLists" "" res
  | CRefresh => refreshLockList conf_path "#confLists"
  | CFirst => click "li.page-first a" (refreshPageFirst conf_path "#confLists")
  | CPre => click "li.page-pre a" (refreshPagePre conf_path "#confLists")
  | CNext => click "li.page-next a" (refreshPageNext conf_path "#confLists")
  end.

Definition conf_list_page (off : Z) (parse : string -> option Z) : page :=
  {| p_action := conf_action;
     p_load := load_list conf_path "#confLists" "#confListsToolbar" (conf_columns off parse);
     p_handler := conf_handler |}.

(** ** The list of locks (locklist.js) *)

Definition lock_path : string := "/lock/lock/queryList".

Definition lock_columns (off : Z) (parse : string -> option Z) : list column :=
  [ radio "" "center"; col "key" "k" "center" ""; col "配置" "v" "center" "";
    col "版本" "version" "center" ""; col "扩展" "extend" "center" "";
    col "锁id" "lock_id" "center" "";
    formatted expired_text (col "过期时间" "expired_time" "center" "");
    formatted (millis_text off parse) (col "更新时间" "upd_time" "center" "");
    col "客户端ip" "creator" "center" "" ].

Definition forceUnLock : prog unit :=
  rows <- selections "#lockLists" ;;
  match rows with
  | [row] =>
      key <- get row "k" ;;
      clusterId <- val_of "#clusterId" ;;
      dbName <- val_of "#dbName" ;;
      tableName <- val_of "#tableName" ;;
      if negb (hasText key) || negb (hasText clusterId) || negb (hasText dbName) || negb (hasText tableName)
      then swal3 "强制解锁" (Str "请选择要解锁的lock") "error"
      else
        swal (warn "强制解锁" "确认")
          (Fn0 (ajax (post "/lock/lock/forceUnLock"
                        [("clusterId", clusterId); ("dbName", dbName); ("tableName", tableName);
                         ("key", key)])
                  (fun data =>
                     ok <- code_is data 0 ;;
                     msg <- get data "msg" ;;
                     if ok then
                       swal3 "强制解锁成功!" msg "success" ;;
                       goto ("/page/lock/viewLock?clusterId=" +:+ to_str clusterId +:+ "&dbName=" +:+
                             to_str dbName +:+ "&tableName=" +:+ to_str tableName)
                     else swal3 "强制解锁失败" msg "error")
                  (failed_res "强制解锁失败")))
  | _ => swal3 "强制解锁" (Str "请选择且只选单个要强制解锁的记录") "error"
  end.

Inductive lock_action : Type :=
| LResponse (res : val) | LRefresh | LFirst | LPre | LNext | LForceUnLock.

Definition lock_handler (a : lock_action) : prog unit :=
  match a with
  | LResponse res => on_response "#lockLists" "" res
  | LRefresh => refreshLockList lock_path "#lockLists"
  | LFirst => click "li.page-first a" (refreshPageFirst lock_path "#lockLists")
  | LPre => click "li.page-pre a" (refreshPagePre lock_path "#lockLists")
  | LNext => click "li.page-next a" (refreshPageNext lock_path "#lockLists")
  | LForceUnLock => forceUnLock
  end.

Definition lock_list_page (off : Z) (parse : string -> option Z) : page :=
  {| p_action := lock_action;
     p_load := load_list lock_path "#lockLists" "#lockListsToolbar" (lock_columns off parse);
     p_handler := lock_handler |}.

(** ** Contracts *)

Definition lock_changes (url : string) : list string :=
  if String.eqb url "/lock/lock/forceUnLock" then ["强制解锁"] else [].
Definition list_policy : policy := usual lock_changes.

Lemma lock_list_promises a :
  wp (promises list_policy) (lock_handler a) [] (ends (promises list_policy) PAct).
Proof. destruct a; cbn [lock_handler]; promised. Qed.

#[export] Instance lock_list_promising off parse : Promising (lock_list_page off parse) list_policy.
Proof.
  split; [|apply lock_list_promises]. apply loads_promises. cbn [p_load lock_list_page]. loaded.
Qed.

(** ** The page number *)

(** Answers that name a page from 1 on. *)
Definition good_answer (res : val) : Prop :=
  code_zero res = true -> exists n, 1 <= n /\ field (field res "data") "pageIndex" = int n.

(** The states that good answers lead to. *)
Inductive paged (E : env) (off : Z) (parse : string -> option Z) : world -> Prop :=
| paged_boot attrs : paged E off parse (boot E (lock_list_page off parse) attrs)
| paged_step w ev :
    paged E off parse w -> (forall res, ev = Act (LResponse res) -> good_answer res) ->
    paged E off parse (step E (lock_list_page off parse) w ev).

Definition at_page (w : world) (n : Z) : Prop := var_of w "pageIndex" = Some (int n).

Definition page_inv (w : world) : Prop :=
  (exists n, 1 <= n /\ at_page w n) /\ world_writes_not "pageIndex" w.

(** A script that writes the page number first and then leaves it alone. *)
Lemma set_page_inv {A : Type} E (p : prog A) w n :
  writes_not "pageIndex" p -> 1 <= n -> world_writes_not "pageIndex" w ->
  page_inv (finish (run E (Op (OSetVar "pageIndex" (int n)) (fun _ => p)) w)).
Proof.
  intros Hp Hn Hw.
  destruct (run_keeps E p (set_vars (<["pageIndex" := int n]> (w_vars w)) w) "pageIndex" Hp Hw) as [Hv Hw'].
  cbn. destruct (run E p _) as [w' [a|e]]; cbn in *; (split; [exists n; split; [done|]|done]);
    unfold at_page; cbn; (etrans; [exact Hv|]); unfold var_of; cbn; apply lookup_insert_eq.
Qed.

(** A script that leaves the page number alone. *)
Lemma keep_page_inv {A : Type} E (p : prog A) w :
  writes_not "pageIndex" p -> page_inv w -> page_inv (finish (run E p w)).
Proof.
  intros Hp [(n & Hn & Hat) Hw]. destruct (run_keeps E p w "pageIndex" Hp Hw) as [Hv Hw'].
  destruct (run E p w) as [w' [a|e]]; cbn in *; (split; [exists n; split; [done|]|done]);
    unfold at_page; cbn; (etrans; [exact Hv|exact Hat]).
Qed.

Lemma on_response_inv E tbl st res w :
  good_answer res -> page_inv w -> page_inv (task E (on_response tbl st res) w).
Proof.
  intros Hg Hw. unfold task, on_response, responseHandler, code_is.
  destruct (is_object res) eqn:Ho.
  2:{ apply keep_page_inv; [|done]. by destruct res. }
  rewrite !(get_object res) by done. cbn [bind].
  destruct (strict_eq (field res "code") (int 0)) eqn:Ec.
  - destruct (Hg Ec) as (n & Hn & En). destruct (is_object (field res "data")) eqn:Hd.
    2:{ apply keep_page_inv; [|done]. by destruct (field res "data"). }
    rewrite !(get_object (field res "data")) by done. rewrite En. cbn [bind].
    cbn [bind set_var do_op]. apply set_page_inv; [|done|apply Hw]. frame_run.
  - cbn [bind set_var do_op]. apply set_page_inv; [|lia|apply Hw]. frame_run.
Qed.

Lemma click_inv E link f w :
  (page_inv (finish (run E f w))) -> page_inv w -> page_inv (task E (click link f) w).
Proof.
  intros Hf Hw. unfold task, click. cbn. by destruct (truthy _).
Qed.

Lemma refresh_writes_not path tbl : writes_not "pageIndex" (refreshLockList path tbl).
Proof. frame_run. Qed.

Lemma pre_inv E path tbl w : page_inv w -> page_inv (finish (run E (refreshPagePre path tbl) w)).
Proof.
  intros Hw. pose proof Hw as [(n & Hn & Hat) Hcb]. unfold refreshPagePre. cbn [bind get_var op1 run exec_op].
  unfold at_page, var_of in Hat. rewrite Hat. cbn [default from_option id].
  destruct (js_gt (int n) (int 1)) eqn:Eg.
  - cbn in Eg. apply Z.ltb_lt in Eg. cbn [bind set_var do_op minus_one to_number int].
    apply set_page_inv; [apply refresh_writes_not|lia|done].
  - cbn [bind done]. apply keep_page_inv; [apply refresh_writes_not|done].
Qed.

Lemma next_inv E path tbl w : page_inv w -> page_inv (finish (run E (refreshPageNext path tbl) w)).
Proof.
  intros Hw. pose proof Hw as [(n & Hn & Hat) Hcb]. unfold refreshPageNext. cbn [bind get_var op1 run exec_op].
  unfold at_page, var_of in Hat. rewrite Hat. cbn [default from_option id].
  cbn [bind set_var do_op plus_one to_number int].
  apply set_page_inv; [apply refresh_writes_not|lia|done].
Qed.

Lemma first_inv E path tbl w : page_inv w -> page_inv (finish (run E (refreshPageFirst path tbl) w)).
Proof.
  intros Hw. unfold refreshPageFirst. cbn [bind set_var do_op].
  apply set_page_inv; [apply refresh_writes_not|lia|apply Hw].
Qed.

Lemma event_inv E pg w (ev : event (p_action pg)) :
  (forall a, ev <> Act a) -> page_inv w -> page_inv (step E pg w ev).
Proof.
  intros Ha [(n & Hn & Hat) Hw].
  destruct (event_keeps E pg w ev "pageIndex") as [Hv Hw']; [by intros a ->; destruct (Ha a)|done|].
  split; [|done]. exists n. split; [done|]. unfold at_page. by rewrite Hv.
Qed.

Lemma paged_inv E off parse w : paged E off parse w -> page_inv w.
Proof.
  induction 1 as [attrs|w ev Hw IH Hg].
  - unfold boot, task. cbn [p_load lock_list_page load_list bind set_var do_op].
    apply set_page_inv; [frame_run|lia|by split].
  - destruct ev as [a| | | | | |]; [|by apply event_inv..]. destruct a.
    + by apply on_response_inv; [apply Hg|].
    + apply keep_page_inv; [apply refresh_writes_not|done].
    + apply click_inv; [by apply first_inv|done].
    + apply click_inv; [by apply pre_inv|done].
    + apply click_inv; [by apply next_inv|done].
    + apply keep_page_inv; [|done]. cbn [p_handler lock_list_page lock_handler]. frame_run.
Qed.

(** ** Theorems *)

(** The address of page [n] of the list. *)
Definition page_url (path : string) (w : world) (n : Z) : string :=
  path +:+ "?" +:+ build_query
    [("clusterId", to_str (value_of w "#clusterId")); ("dbName", to_str (value_of w "#dbName"));
     ("tableName", to_str (value_of w "#tableName")); ("page", string_of_Z n);
     ("rows", to_str (default Undef (var_of w "pageSize")))].

(** C20: On the list of locks, as long as the server answers with page numbers
    from 1 on, the page number stays a number from 1 on through any sequence of
    paging, answers, errors and unlock dialogs, and reloading asks for that page. *)
Theorem lock_list_page_number E off parse w :
  paged E off parse w ->
  exists n, 1 <= n /\ at_page w n /\
    news E (lock_list_page off parse) w (Act LRefresh) =
      [Refreshed "#lockLists" (page_url lock_path w n)].
Proof.
  intros Hw. destruct (paged_inv _ _ _ _ Hw) as [(n & Hn & Hat) _]. exists n. split_ands; [done|done|].
  unfold news. cbn -[to_str build_query]. unfold at_page, var_of in Hat. rewrite Hat.
  rewrite drop_app_length. unfold page_url, build_query. cbn -[to_str]. rewrite !str_app_assoc. done.
Qed.

Lemma lock_list_page_number_witness :
  exists n, 1 <= n /\ at_page (boot offline (lock_list_page 0 (fun _ => None)) ∅) n /\
    news offline (lock_list_page 0 (fun _ => None)) (boot offline (lock_list_page 0 (fun _ => None)) ∅)
      (Act LRefresh) =
      [Refreshed "#lockLists" (page_url lock_path (boot offline (lock_list_page 0 (fun _ => None)) ∅) n)].
Proof. apply (lock_list_page_number offline 0 (fun _ => None)), paged_boot. Defined.

(** An answer with page [n], [total] entries and [rows]. *)
Definition page_answer (n total : Z) (size : val) (rows : list val) : val :=
  Obj [("code", int 0);
       ("data", Obj [("pageIndex", int n); ("pageSize", size); ("total", int total);
                     ("data", Arr rows)])].

Definition onclick (w : world) (li : string) : val := attr_of w (li +:+ " a") "onclick".
Definition disabled (w : world) (li : string) : val := attr_of w li (class_attr "disabled").

Ltac lookups :=
  unfold attr_of, rows_of; cbn;
  repeat first [ rewrite lookup_insert_eq | rewrite lookup_delete_eq
               | rewrite lookup_insert_ne by done | rewrite lookup_delete_ne by done ].

(** After an answer for page [n] the links to the first and the previous
    page work exactly if [n] is above 1, and look it; the link to the next page
    works exactly if the page has ten entries or more; and on the first page a
    next link that looked switched off goes on looking so although it works. *)
Theorem pager_links E tbl st n total size rows w :
  1 <= n ->
  let w' := task E (on_response tbl st (page_answer n total size rows)) w in
  onclick w' "li.page-first" = (if n =? 1 then Undef else Str "refreshPageFirst();") /\
  onclick w' "li.page-pre" = (if n =? 1 then Undef else Str "refreshPagePre();") /\
  disabled w' "li.page-first" = (if n =? 1 then Bool true else Undef) /\
  disabled w' "li.page-pre" = (if n =? 1 then Bool true else Undef) /\
  onclick w' "li.page-next" = (if total <? 10 then Undef else Str "refreshPageNext();") /\
  disabled w' "li.page-next" =
    (if total <? 10 then Bool true else if n =? 1 then disabled w "li.page-next" else Undef) /\
  rows_of w' tbl = rows.
Proof.
  intros Hn w'. subst w'. unfold task, on_response, responseHandler, code_is, onclick, disabled.
  cbn. rewrite lookup_insert_ne, lookup_insert_eq by done. cbn. unfold setPageDisable.
  assert (Hgt : n <> 1 -> (1 <? n) = true) by (intros ?; apply Z.ltb_lt; lia).
  change ("li.page-first" +:+ " a") with "li.page-first a".
  change ("li.page-pre" +:+ " a") with "li.page-pre a".
  change ("li.page-next" +:+ " a") with "li.page-next a".
  destruct (Z.eqb_spec n 1) as [->|Hne]; [|rewrite Hgt by done];
    destruct (total <? 10); split_ands; lookups; done.
Qed.

Lemma pager_links_witness :
  onclick (task offline (on_response "#lockLists" "" (page_answer 1 10 (int 10) [])) (fresh ∅))
    "li.page-first" = Undef /\
  onclick (task offline (on_response "#lockLists" "" (page_answer 1 10 (int 10) [])) (fresh ∅))
    "li.page-next" = Str "refreshPageNext();".
Proof.
  pose proof (pager_links offline "#lockLists" "" 1 10 (int 10) [] (fresh ∅) ltac:(lia)) as H.
  cbv zeta in H. destruct H as (H1 & _ & _ & _ & H5 & _). split; [exact H1|exact H5].
Defined.

(** On the list of locks, in every reachable state: a lock is released only
    by the confirm button of the release dialog; one button sends at most one
    request and cancelling none; readable answers are shown, and success only
    after code 0. *)
Theorem lock_list_safe off parse E w ev :
  reachable E (lock_list_page off parse) w -> safe_step list_policy E (lock_list_page off parse) w ev.
Proof. apply reachable_safe_step. Qed.

Lemma lock_list_safe_witness :
  safe_step list_policy offline (lock_list_page 0 (fun _ => None))
    (session offline (lock_list_page 0 (fun _ => None)) [] [Act LForceUnLock]) Cancel.
Proof. apply (lock_list_safe 0 (fun _ => None) offline), reachable_session. Defined.
