(* ===== verification/LockNsp.v ===== *)
(** * Applications for lock namespaces (static/js/apply/locknsplist.js)

    The list of applications, paged by the server, with its batch buttons
    (approve, reject, delete) and the buttons of a row. *)

From S2P Require Import Prelude JsValue Json Browser Logic Contracts Widgets Utils DatePairs Urls Batch.

Definition list_url : string := "/lock/namespace/queryList".

(** ** The table *)

Definition row_buttons (value row : val) (index : Z) : val :=
  let buttonS :=
    row_button "updateOwner" "修改负责人" "updateOwner" (sq (txt row "id")) "修改负责人" "&nbsp;&nbsp;" +:+
    row_button "viewCluster" "集群详情" "viewCluster" (sq (txt row "cluster_id")) "集群详情" "&nbsp;&nbsp;" in
  if loose_eq (field row "status") (int 2) then
    Str (buttonS +:+
         row_button "viewLock" "lock详情" "viewLock"
           (sq (txt row "db_name") +:+ "," +:+ sq (txt row "table_name") +:+ "," +:+
            sq (txt row "cluster_id")) "lock详情" "&nbsp;&nbsp;" +:+
         row_button "viewToken" "查看token" "viewToken"
           (sq (txt row "db_id") +:+ "," +:+ sq (txt row "table_id")) "token详情" "")
  else Str buttonS.

Definition columns (off : Z) : list column :=
  [ checkbox "" "center";
    col "库名" "db_name" "center" "";
    col "表名" "table_name" "center" "";
    col "集群Id" "cluster_id" "center" "";
    col "申请人" "applyer" "center" "";
    formatted (seconds_text off) (col "申请时间" "create_time" "center" "");
    formatted apply_status (col "状态" "status" "center" "");
    formatted row_buttons (col "操作" "操作" "center" "") ].

Definition load (off : Z) : prog unit :=
  server_table "#nspApplyLists" list_url "#nspApplyListsToolbar" (columns off).

(** ** Operations *)

Definition updateOwner (applyId : val) : prog unit :=
  swal (ask "编辑" "修改所属人" "input" false "执行")
    (Fn1 (fun inputValue =>
       if falsy inputValue then swal1 "请先录入该namespace的所属人！" else
       ajax (post "/lock/namespace/update" [("id", applyId); ("applyer", inputValue)])
         (fun data =>
            ok <- code_is data 0 ;;
            msg <- get data "msg" ;;
            if ok then swal3 "更新成功!" msg "success" ;; refresh "#nspApplyLists" list_url
            else swal3 "更新失败" msg "error")
         (failed_res "更新namespace的所属人失败"))).

Definition viewCluster (clusterId : val) : prog unit :=
  ajax (post "/lock/cluster/getInfo" [("clusterId", clusterId)])
    (fun data =>
       ok <- code_is data 0 ;;
       if ok then
         c <- get data "data" ;;
         innerhtml <- cluster_html c ;;
         swal (SwalOpts "集群详情" (Str innerhtml) "" true false "#AEDEF4" "OK" true) NoFn
       else msg <- get data "msg" ;; swal3 "查询失败" msg "error")
    (failed_res "查询失败").

Definition viewLock (dbName tableName clusterId : val) : prog unit :=
  goto ("/page/lock/viewLock?clusterId=" +:+ to_str clusterId +:+ "&dbName=" +:+ to_str dbName +:+
        "&tableName=" +:+ to_str tableName).

Definition viewToken (dbId tableId : val) : prog unit :=
  ajax (post "/lock/client/getToken" [("dbId", dbId); ("tableId", tableId)])
    (fun data =>
       ok <- code_is data 0 ;;
       if ok then token <- get data "data" ;; swal3 "客户端token" token "success"
       else msg <- get data "msg" ;; swal3 "获取token失败！" msg "warning")
    (failed "获取token失败！" "请联系管理员!").

(** Reports, and loads the list again after a success. *)
Definition report_refresh (ok_title ok_text fail_title : string) (data : val) : prog unit :=
  ok <- code_is data 0 ;;
  if ok then swal3 ok_title (Str ok_text) "success" ;; refresh "#nspApplyLists" list_url
  else msg <- get data "msg" ;; swal3 fail_title msg "error".

Definition auditNsp_send (ids : list val) : prog unit :=
  ajax (post "/lock/namespace/audit" [("ids", json (Arr ids)); ("status", int 2)])
    (report_refresh "审批成功！" "审批成功!" "审批失败！")
    (failed "审批失败！" "请联系管理员!").

Definition auditNsp : prog unit :=
  batch "#nspApplyLists" (not_status 1)
    ("审批申请", "请选择要审批的申请记录") ("审批申请", "请选择待审核状态的申请记录")
    (warn "审批操作" "通过") auditNsp_send.

Definition rejectNsp_send (ids : list val) : prog unit :=
  ajax (post "/lock/namespace/audit" [("ids", json (Arr ids)); ("status", int 3)])
    (report_refresh "驳回成功！" "驳回成功!" "驳回失败！")
    (failed "驳回失败！" "请联系管理员!").

Definition rejectNsp : prog unit :=
  batch "#nspApplyLists" (above_status 1)
    ("驳回申请", "请选择要驳回的申请记录") ("驳回申请", "请选择待审核状态的申请记录")
    (warn "驳回操作" "驳回") rejectNsp_send.

Definition applyNsp : prog unit := goto "/page/lock/applyNamespace".

Definition deleteNsp_send (ids : list val) : prog unit :=
  ajax (post "/lock/namespace/delete" [("ids", json (Arr ids))])
    (fun data =>
       ok <- code_is data 0 ;;
       msg <- get data "msg" ;;
       if ok then swal3 "删除成功！" msg "success" ;; refresh "#nspApplyLists" list_url
       else swal3 "删除失败！" msg "error")
    (failed "删除失败！" "请联系管理员!").

Definition deleteNsp : prog unit :=
  batch "#nspApplyLists" (is_status 2)
    ("驳回申请", "请选择要驳回的申请记录") ("删除", "请选择待审核、驳回状态的记录操作")
    (warn "删除操作" "确认") deleteNsp_send.

(** ** The page *)

Inductive action : Type :=
| AResponse (res : val)
| AUpdateOwner (applyId : val) | AViewCluster (clusterId : val)
| AViewLock (dbName tableName clusterId : val) | AViewToken (dbId tableId : val)
| AAudit | AReject | AApply | ADelete.

Definition handler (a : action) : prog unit :=
  match a with
  | AResponse res => table_response "#nspApplyLists" "" res
  | AUpdateOwner id => updateOwner id
  | AViewCluster id => viewCluster id
  | AViewLock d t c => viewLock d t c
  | AViewToken d t => viewToken d t
  | AAudit => auditNsp
  | AReject => rejectNsp
  | AApply => applyNsp
  | ADelete => deleteNsp
  end.

Definition lock_page (off : Z) : page :=
  {| p_action := action; p_load := load off; p_handler := handler |}.

Definition changes (url : string) : list string :=
  if String.eqb url "/lock/namespace/update" then ["编辑"]
  else if String.eqb url "/lock/namespace/audit" then ["审批操作"; "驳回操作"]
  else if String.eqb url "/lock/namespace/delete" then ["删除操作"]
  else [].

(** The details of a cluster are reported only if the answer carries them. *)
Definition lock_policy : policy := {|
  guard := changes;
  burst := 1;
  follow_up := 0;
  watched := fun r res =>
    posts r && readable res &&
    match res with
    | Success d => negb (String.eqb (r_url r) "/lock/cluster/getInfo") || is_object (field d "data")
    | _ => true
    end;
  heard := fun _ _ => false;
  verdict := fun _ => code_zero
|}.

Lemma lock_handler_promises a :
  wp (promises lock_policy) (handler a) [] (ends (promises lock_policy) PAct).
Proof. destruct a; cbn [handler]; promised. Qed.

#[export] Instance lock_page_promising off : Promising (lock_page off) lock_policy.
Proof. split; [|apply lock_handler_promises]. apply loads_promises. cbn [p_load lock_page]. loaded. Qed.

(** ** Theorems *)

(** On the list of lock namespaces, in every reachable state: changing an
    owner, approving, rejecting and deleting are requested only by the confirm
    button of the dialog that asked for it; one button sends at most one
    request and cancelling none; readable answers are always shown, and success
    only after code 0. *)
Theorem lock_page_safe off E w ev :
  reachable E (lock_page off) w -> safe_step lock_policy E (lock_page off) w ev.
Proof. apply reachable_safe_step. Qed.

Definition two_pending : list val := [apply_row 1 1 true; apply_row 2 2 false; apply_row 3 1 true].
Definition lock_session (evs : list (event action)) : world :=
  session offline (lock_page 0) [] (Act (AResponse (apply_answer two_pending)) :: evs).

Lemma lock_page_safe_witness :
  safe_step lock_policy offline (lock_page 0) (lock_session [Act AAudit]) (Confirm "").
Proof. apply (lock_page_safe 0 offline), reachable_session. Defined.

Definition audit_request (status : Z) (ids : val) : request :=
  post "/lock/namespace/audit" [("ids", ids); ("status", int status)].
Definition delete_request (ids : val) : request := post "/lock/namespace/delete" [("ids", ids)].

(** The batch buttons of the lock namespaces: approving takes only
    applications that are waiting (status 1), rejecting only those not above 1,
    deleting only those not approved; a selection that breaks the rule, or an
    empty one, ends in an error message and no request; otherwise the confirmed
    request carries a JSON text that decodes to exactly the selected ids, with
    the status of the operation. *)
Theorem lock_batches off E w t input :
  w_tables w !! "#nspApplyLists" = Some t ->
  clean (Arr (pluck "id" (selected_rows t))) = true ->
  batch_outcome E (lock_page off) w AAudit input (selected_rows t) (not_status 1)
    ("审批申请", "请选择要审批的申请记录") ("审批申请", "请选择待审核状态的申请记录")
    (warn "审批操作" "通过") (audit_request 2) /\
  batch_outcome E (lock_page off) w AReject input (selected_rows t) (above_status 1)
    ("驳回申请", "请选择要驳回的申请记录") ("驳回申请", "请选择待审核状态的申请记录")
    (warn "驳回操作" "驳回") (audit_request 3) /\
  batch_outcome E (lock_page off) w ADelete input (selected_rows t) (is_status 2)
    ("驳回申请", "请选择要驳回的申请记录") ("删除", "请选择待审核、驳回状态的记录操作")
    (warn "删除操作" "确认") delete_request.
Proof. intros Ht Hc. split_ands; (eapply batch_news; [reflexivity|exact Ht|exact Hc|done..]). Qed.

Lemma lock_batches_witness :
  batch_outcome offline (lock_page 0) (lock_session []) AAudit "" [apply_row 1 1 true; apply_row 3 1 true]
    (not_status 1)
    ("审批申请", "请选择要审批的申请记录") ("审批申请", "请选择待审核状态的申请记录")
    (warn "审批操作" "通过") (audit_request 2).
Proof.
  apply (lock_batches 0 offline (lock_session []) (Table "" two_pending) "");
    vm_compute; reflexivity.
Defined.
