(* ===== verification/ConfNsp.v ===== *)
(** * Applications for configuration namespaces (static/js/apply/confnsplist.js)

    The list of applications, with its batch buttons, the buttons of a row and
    the form for a new application.  The list of clusters of that form is filled
    by a loop that keeps only its last option ([getCluster_keeps_last]). *)

From S2P Require Import Prelude JsValue Json Browser Logic Contracts Widgets Utils DatePairs Urls Batch.

Definition list_url : string := "/configure/namespace/queryList".

(** ** The table *)

Definition row_buttons (value row : val) (index : Z) : val :=
  let buttonS :=
    row_button "updateOwner" "修改负责人" "updateOwner" (sq (txt row "id")) "修改负责人" "&nbsp;&nbsp;" +:+
    row_button "viewCluster" "集群详情" "viewCluster" (sq (txt row "cluster_id")) "集群详情" "&nbsp;&nbsp;" in
  if loose_eq (field row "status") (int 2) then
    Str (buttonS +:+
         row_button "viewConfigure" "配置详情" "viewConfigure"
           (sq (txt row "db_name") +:+ "," +:+ sq (txt row "table_name") +:+ "," +:+
            sq (txt row "cluster_id")) "配置详情" "&nbsp;&nbsp;" +:+
         row_button "viewToken" "查看token" "viewClientToken"
           (sq (txt row "db_id") +:+ "," +:+ sq (txt row "table_id")) "token详情" "")
  else Str buttonS.

Definition columns (off : Z) : list column :=
  [ checkbox "" "center";
    col "库名" "db_name" "center" "";
    col "表名" "table_name" "center" "";
    col "集群Id" "cluster_id" "center" "";
    col "申请人" "applyer" "center" "";
    formatted (seconds_text off) (col "申请时间" "create_time" "center" "");
    formatted apply_status (col "状态" "status" "center" "");
    formatted row_buttons (col "操作" "操作" "center" "") ].

Definition load (off : Z) : prog unit :=
  server_table "#nspApplyLists" list_url "#nspApplyListsToolbar" (columns off).

(** ** Operations *)

Definition updateOwner (applyId : val) : prog unit :=
  swal (ask "编辑" "修改所属人" "input" false "执行")
    (Fn1 (fun inputValue =>
       if falsy inputValue then swal1 "请先录入该namespace的所属人！" else
       ajax (post "/configure/namespace/update" [("id", applyId); ("applyer", inputValue)])
         (fun data =>
            ok <- code_is data 0 ;;
            msg <- get data "msg" ;;
            if ok then swal3 "更新成功!" msg "success" ;; refresh "#nspApplyLists" list_url
            else swal3 "更新失败" msg "error")
         (failed_res "更新namespace的所属人失败"))).

Definition viewCluster (clusterId : val) : prog unit :=
  ajax (post "/configure/cluster/getInfo" [("clusterId", clusterId)])
    (fun data =>
       ok <- code_is data 0 ;;
       if ok then
         c <- get data "data" ;;
         innerhtml <- cluster_html c ;;
         swal (SwalOpts "集群详情" (Str innerhtml) "" true false "#AEDEF4" "OK" true) NoFn
       else msg <- get data "msg" ;; swal3 "查询失败" msg "error")
    (failed_res "查询失败").

Definition viewConfigure (dbName tableName clusterId : val) : prog unit :=
  goto ("/page/configure/viewList?clusterId=" +:+ to_str clusterId +:+ "&dbName=" +:+ to_str dbName +:+
        "&tableName=" +:+ to_str tableName).

Definition viewClientToken (dbId tableId : val) : prog unit :=
  ajax (post "/lock/client/getToken" [("dbId", dbId); ("tableId", tableId)])
    (fun data =>
       ok <- code_is data 0 ;;
       if ok then token <- get data "data" ;; swal3 "客户端token" token "success"
       else msg <- get data "msg" ;; swal3 "获取token失败！" msg "warning")
    (failed "获取token失败！" "请联系管理员!").

(** Reports, and loads the list again after a success.  A failure is shown with
    the answer's field [message]. *)
Definition report_refresh (ok_title ok_text fail_title : string) (data : val) : prog unit :=
  ok <- code_is data 0 ;;
  if ok then swal3 ok_title (Str ok_text) "success" ;; refresh "#nspApplyLists" list_url
  else message <- get data "message" ;; swal3 fail_title message "error".

Definition auditNsp_send (ids : list val) : prog unit :=
  ajax (post "/configure/namespace/audit" [("ids", json (Arr ids)); ("status", int 2)])
    (report_refresh "审批成功！" "审批成功!" "审批失败！")
    (failed "审批失败！" "请联系管理员!").

Definition auditNsp : prog unit :=
  batch "#nspApplyLists" (not_status 1)
    ("审批申请", "请选择要审批的申请记录") ("审批申请", "请选择待审核状态的申请记录")
    (warn "审批操作" "通过") auditNsp_send.

Definition rejectNsp_send (ids : list val) : prog unit :=
  ajax (post "/configure/namespace/audit" [("ids", json (Arr ids)); ("status", int 3)])
    (report_refresh "驳回成功！" "驳回成功!" "驳回失败！")
    (failed "驳回失败！" "请联系管理员!").

Definition rejectNsp : prog unit :=
  batch "#nspApplyLists" (above_status 1)
    ("驳回申请", "请选择要驳回的申请记录") ("驳回申请", "请选择待审核状态的申请记录")
    (warn "驳回操作" "驳回") rejectNsp_send.

(** The options of a [select] are kept in the attribute [options]. *)
Definition empty_select (sel : string) : prog unit := set_attr sel "options" (Arr []).
Definition append_option (sel : string) (option : val) : prog unit :=
  options <- get_attr sel "options" ;;
  set_attr sel "options" (Arr (elements options ++ [option])).

(** [for (...) option = $("<option>").val(l[i].id).text(l[i].name);] *)
Fixpoint last_option (option : val) (l : list val) : prog val :=
  match l with
  | [] => Ret option
  | c :: l' =>
      id <- get c "id" ;;
      name <- get c "name" ;;
      last_option (Obj [("value", id); ("text", name)]) l'
  end.

Definition getCluster_done (data : val) : prog unit :=
  ok <- code_is data 0 ;;
  if ok then
    l <- get data "data" ;;
    some <- nonempty l ;;
    if some then option <- last_option Undef (items l) ;; append_option "#clusterSelect" option
    else done
  else msg <- get data "msg" ;; swal3 "获取集群列表失败" msg "error".

Definition getCluster : prog unit :=
  empty_select "#clusterSelect" ;;
  ajax (http_get "/configure/cluster/getList") getCluster_done (failed_res "获取集群列表失败").

Definition applyNsp : prog unit :=
  set_val "#dbName" (Str "") ;;
  set_val "#tableName" (Str "") ;;
  getCluster ;;
  set_attr "#saveButton" "style" (Str "") ;;
  show_modal "#nspApplyModal".

Definition saveApply : prog unit :=
  clusterId <- val_of "#clusterSelect" ;;
  if negb (hasText clusterId) then swal1 "请选择对应的集群信息，如果可选集群列表，请联系开发人员" else
  dbName <- val_of "#dbName" ;;
  tableName <- val_of "#tableName" ;;
  if negb (hasText dbName) || negb (hasText tableName) then
    swal3 "申请" (Str "请先填写库名、表名") "error"
  else
    swal (warn "申请配置 namespace?" "确认")
      (Fn0 (ajax (post "/configure/namespace/apply"
                    [("dbName", dbName); ("tableName", tableName); ("clusterId", clusterId)])
              (fun data =>
                 ok <- code_is data 0 ;;
                 msg <- get data "msg" ;;
                 if ok then
                   swal3 "申请成功!" msg "success" ;;
                   hide_modal "#nspApplyModal" ;;
                   refresh "#nspApplyLists" list_url
                 else swal3 "申请失败" msg "error")
              (failed_res "申请配置 namespace失败"))).

Definition deleteNsp_send (ids : list val) : prog unit :=
  ajax (post "/configure/namespace/delete" [("ids", json (Arr ids))])
    (fun data =>
       ok <- code_is data 0 ;;
       msg <- get data "msg" ;;
       if ok then swal3 "删除成功！" msg "success" ;; refresh "#nspApplyLists" list_url
       else swal3 "删除失败！" msg "error")
    (failed "删除失败！" "请联系管理员!").

Definition deleteNsp : prog unit :=
  batch "#nspApplyLists" (is_status 2)
    ("驳回申请", "请选择要驳回的申请记录") ("删除", "请选择待审核、驳回状态的记录操作")
    (warn "删除操作" "确认") deleteNsp_send.

(** ** The page *)

Inductive action : Type :=
| AResponse (res : val)
| AUpdateOwner (applyId : val) | AViewCluster (clusterId : val)
| AViewConfigure (dbName tableName clusterId : val) | AViewClientToken (dbId tableId : val)
| AAudit | AReject | AApply | ASaveApply | ADelete.

Definition handler (a : action) : prog unit :=
  match a with
  | AResponse res => table_response "#nspApplyLists" "" res
  | AUpdateOwner id => updateOwner id
  | AViewCluster id => viewCluster id
  | AViewConfigure d t c => viewConfigure d t c
  | AViewClientToken d t => viewClientToken d t
  | AAudit => auditNsp
  | AReject => rejectNsp
  | AApply => applyNsp
  | ASaveApply => saveApply
  | ADelete => deleteNsp
  end.

Definition conf_page (off : Z) : page :=
  {| p_action := action; p_load := load off; p_handler := handler |}.

Definition changes (url : string) : list string :=
  if String.eqb url "/configure/namespace/update" then ["编辑"]
  else if String.eqb url "/configure/namespace/audit" then ["审批操作"; "驳回操作"]
  else if String.eqb url "/configure/namespace/delete" then ["删除操作"]
  else if String.eqb url "/configure/namespace/apply" then ["申请配置 namespace?"]
  else [].

(** The details of a cluster are reported only if the answer carries them. *)
Definition conf_policy : policy := {|
  guard := changes;
  burst := 1;
  follow_up := 0;
  watched := fun r res =>
    posts r && readable res &&
    match res with
    | Success d => negb (String.eqb (r_url r) "/configure/cluster/getInfo") || is_object (field d "data")
    | _ => true
    end;
  heard := fun _ _ => false;
  verdict := fun _ => code_zero
|}.

Lemma wp_last_option S o l log Q :
  (forall o, Q (Done o) log) -> (forall e, Q (Thrown e) log) -> wp S (last_option o l) log Q.
Proof.
  intros Hd Ht. revert o. induction l as [|c l IH]; intros o; [apply Hd|].
  cbn [last_option]. wp_run; auto.
Qed.

Ltac wp_rule ::= lazymatch goal with |- wp _ (last_option _ _) _ _ => apply wp_last_option end.

Lemma conf_handler_promises a :
  wp (promises conf_policy) (handler a) [] (ends (promises conf_policy) PAct).
Proof. destruct a; cbn [handler]; promised. Qed.

#[export] Instance conf_page_promising off : Promising (conf_page off) conf_policy.
Proof. split; [|apply conf_handler_promises]. apply loads_promises. cbn [p_load conf_page]. loaded. Qed.

(** ** Theorems *)

(** On the list of configuration namespaces, in every reachable state: changing an
    owner, approving, rejecting, deleting and applying are requested only by the confirm
    button of the dialog that asked for it; one button sends at most one
    request and cancelling none; readable answers are always shown, and success
    only after code 0. *)
Theorem conf_page_safe off E w ev :
  reachable E (conf_page off) w -> safe_step conf_policy E (conf_page off) w ev.
Proof. apply reachable_safe_step. Qed.

Definition two_pending : list val := [apply_row 1 1 true; apply_row 2 2 false; apply_row 3 1 true].
Definition conf_session (evs : list (event action)) : world :=
  session offline (conf_page 0) [] (Act (AResponse (apply_answer two_pending)) :: evs).

Lemma conf_page_safe_witness :
  safe_step conf_policy offline (conf_page 0) (conf_session [Act AAudit]) (Confirm "").
Proof. apply (conf_page_safe 0 offline), reachable_session. Defined.

Definition audit_request (status : Z) (ids : val) : request :=
  post "/configure/namespace/audit" [("ids", ids); ("status", int status)].
Definition delete_request (ids : val) : request := post "/configure/namespace/delete" [("ids", ids)].

(** The batch buttons of the configuration namespaces: approving takes only
    applications that are waiting (status 1), rejecting only those not above 1,
    deleting only those not approved; a selection that breaks the rule, or an
    empty one, ends in an error message and no request; otherwise the confirmed
    request carries a JSON text that decodes to exactly the selected ids, with
    the status of the operation. *)
Theorem conf_batches off E w t input :
  w_tables w !! "#nspApplyLists" = Some t ->
  clean (Arr (pluck "id" (selected_rows t))) = true ->
  batch_outcome E (conf_page off) w AAudit input (selected_rows t) (not_status 1)
    ("审批申请", "请选择要审批的申请记录") ("审批申请", "请选择待审核状态的申请记录")
    (warn "审批操作" "通过") (audit_request 2) /\
  batch_outcome E (conf_page off) w AReject input (selected_rows t) (above_status 1)
    ("驳回申请", "请选择要驳回的申请记录") ("驳回申请", "请选择待审核状态的申请记录")
    (warn "驳回操作" "驳回") (audit_request 3) /\
  batch_outcome E (conf_page off) w ADelete input (selected_rows t) (is_status 2)
    ("驳回申请", "请选择要驳回的申请记录") ("删除", "请选择待审核、驳回状态的记录操作")
    (warn "删除操作" "确认") delete_request.
Proof. intros Ht Hc. split_ands; (eapply batch_news; [reflexivity|exact Ht|exact Hc|done..]). Qed.

Lemma conf_batches_witness :
  batch_outcome offline (conf_page 0) (conf_session []) AAudit "" [apply_row 1 1 true; apply_row 3 1 true]
    (not_status 1)
    ("审批申请", "请选择要审批的申请记录") ("审批申请", "请选择待审核状态的申请记录")
    (warn "审批操作" "通过") (audit_request 2).
Proof.
  apply (conf_batches 0 offline (conf_session []) (Table "" two_pending) "");
    vm_compute; reflexivity.
Defined.

(** ** The list of clusters *)

Definition cluster_option (c : val) : val := Obj [("value", field c "id"); ("text", field c "name")].

Lemma run_last_option E o l c w :
  Forall (fun c => is_object c = true) (l ++ [c]) ->
  run E (last_option o (l ++ [c])) w = (w, Done (cluster_option c)).
Proof.
  revert o. induction l as [|d l IH]; intros o Hl; cbn [app] in *;
    apply Forall_cons_1 in Hl as [Hd Hl]; cbn [last_option];
    repeat (rewrite get_object by done; cbn [bind]); [done|by apply IH].
Qed.

(** The form for a new application offers only one cluster, however many
    the server lists: the loop overwrites its option and the last one is
    appended after it. *)
Theorem getCluster_keeps_last off E w l c :
  Forall (fun c => is_object c = true) (l ++ [c]) ->
  let answer := Obj [("code", int 0); ("data", Arr (l ++ [c]))] in
  attr_of (steps E (conf_page off) w [Act AApply; Reply (length (w_pending w)) (Success answer)])
    "#clusterSelect" "options" = Arr [cluster_option c].
Proof.
  intros Hl answer. cbn [steps fold_left]. unfold step at 1. unfold deliver.
  cbn -[getCluster_done]. rewrite list_lookup_middle by done. unfold task, getCluster_done, answer.
  assert (Hn : (0 <? Z.of_nat (length (l ++ [c]))) = true) by (apply Z.ltb_lt; rewrite length_app; cbn; lia).
  cbn. rewrite Hn. rewrite run_bind, run_last_option by done. cbn. unfold attr_of. cbn.
  rewrite lookup_insert_eq. cbn. rewrite (lookup_insert_ne _ ("#saveButton", "style")) by done.
  by rewrite lookup_insert_eq.
Qed.

Definition sample_cluster (i : Z) (n : string) : val := Obj [("id", int i); ("name", Str n)].

Lemma getCluster_keeps_last_witness :
  attr_of (steps offline (conf_page 0) (fresh ∅)
             [Act AApply;
              Reply 0 (Success (Obj [("code", int 0);
                ("data", Arr ([sample_cluster 1 "a"; sample_cluster 2 "b"] ++ [sample_cluster 3 "z"]))]))])
    "#clusterSelect" "options" = Arr [cluster_option (sample_cluster 3 "z")].
Proof.
  apply (getCluster_keeps_last 0 offline (fresh ∅) [sample_cluster 1 "a"; sample_cluster 2 "b"]).
  by repeat constructor.
Defined.

(** When the server refuses an approval or a rejection of configuration
    namespaces and explains it in [msg], the error shown has no text: the
    script reads [message], a field the answer does not have. *)
Theorem conf_refusal_unexplained E w code msg title ok_title ok_text :
  code <> 0 ->
  w_out (task E (report_refresh ok_title ok_text title (Obj [("code", int code); ("msg", Str msg)])) w) =
    w_out w ++ [Told (Str title) (Str "") "error"].
Proof.
  intros Hc. unfold task, report_refresh, code_is, get. cbn.
  destruct (Z.eqb_spec code 0); [done|]. done.
Qed.

Lemma conf_refusal_unexplained_witness :
  w_out (task offline (report_refresh "审批成功！" "审批成功!" "审批失败！"
           (Obj [("code", int 1); ("msg", Str "no permission")])) (fresh ∅)) =
    [] ++ [Told (Str "审批失败！") (Str "") "error"].
Proof. by apply (conf_refusal_unexplained offline (fresh ∅) 1 "no permission"). Defined.
