(* ===== verification/RangeTopo.v ===== *)
(** * The topology of ranges (static/js/cluster/rangetopu.js)

    The page draws the replicas of the ranges of a table, a node or a single
    range, offers the operations on replicas, and shows the details and the
    monitoring charts of the replica that is clicked.  The click travels
    through AngularJS events: [showRangeInfo] emits [subChange], whose listener
    in [ParentCtrl] broadcasts [subChangeP] to the detail and chart
    controllers. *)

From S2P Require Import Prelude JsValue Json Browser Logic Contracts Widgets Utils DatePairs Urls.

(** ** The ranges shown *)

Definition getRangeAllUrl (dbName tableName clusterId rangeId source : val) : string :=
  if loose_eq source (Str "range") then
    "/range/getRangeTopoByRange?rangeId=" +:+ to_str rangeId +:+ "&clusterId=" +:+ to_str clusterId
  else if loose_eq source (Str "node") then
    "/node/getRangeTopoByNode?nodeId=" +:+ to_str rangeId +:+ "&clusterId=" +:+ to_str clusterId
  else
    "/range/getRangeByBbTable?dbName=" +:+ to_str dbName +:+ "&tableName=" +:+ to_str tableName +:+
    "&clusterId=" +:+ to_str clusterId.

(** [rangeTreeArr]: the array the server sent, or a single object in an array. *)
Definition range_tree_arr (rangeTree : val) : val :=
  match rangeTree with Arr l => Arr l | v => Arr [v] end.

Definition init (url : string) : prog unit :=
  ajax (http_get url)
    (fun data =>
       ok <- code_is data 0 ;;
       if ok then
         rangeTree <- get data "data" ;;
         set_var "rangeTree" rangeTree ;;
         set_var "rangeTreeArr" (range_tree_arr rangeTree)
       else done)
    no_error.

Definition rangeTopoCtrl : prog unit :=
  call "jsPlumb.getInstance" [] ;;
  dbName <- val_of "#dbName" ;;
  tableName <- val_of "#tableName" ;;
  clusterId <- val_of "#clusterId" ;;
  rangeId <- val_of "#rangeId" ;;
  source <- val_of "#source" ;;
  init (getRangeAllUrl dbName tableName clusterId rangeId source).

(** ** Operations on replicas *)

(** [o.a.b]. *)
Definition get2 (o : val) (a b : string) : prog val := x <- get o a ;; get x b.

Definition splitInstance (rangeLeaderRoot : val) : prog unit :=
  clusterId <- val_of "#clusterId" ;;
  dbName <- val_of "#dbName" ;;
  tableName <- val_of "#tableName" ;;
  swal (warn "分裂?" "分裂")
    (Fn0 (id <- get2 rangeLeaderRoot "leader" "id" ;;
          ajax (post "/range/split"
                  [("clusterId", clusterId); ("rangeId", id); ("dbName", dbName);
                   ("tableName", tableName)])
            (fun data =>
               attach <- get data "attach" ;;
               ok <- code_is attach 0 ;;
               message <- get attach "message" ;;
               if ok then swal3 "分裂成功!" message "success"
               else swal3 "分裂失败" message "error")
            (failed_res "分裂失败"))).

Definition moveInstance (rangeLeaderRoot : val) : prog unit :=
  clusterId <- val_of "#clusterId" ;;
  swal (warn "删除分片?" "删除分片")
    (Fn0 (rangeId <- get2 rangeLeaderRoot "range" "id" ;;
          peerId <- get2 rangeLeaderRoot "leader" "id" ;;
          ajax (post "/range/peerDel"
                  [("clusterId", clusterId); ("rangeId", rangeId); ("peerId", peerId)])
            (report "删除成功!" "删除成功" "删除失败")
            (failed_res "删除失败"))).

(** [swal(..., "success"); window.location.reload()] or the message. *)
Definition report_reload (ok_title ok_text fail_title : string) (data : val) : prog unit :=
  ok <- code_is data 0 ;;
  if ok then swal3 ok_title (Str ok_text) "success" ;; reload
  else msg <- get data "msg" ;; swal3 fail_title msg "error".

Definition addInstance (rangeLeaderRoot : val) : prog unit :=
  clusterId <- val_of "#clusterId" ;;
  swal (warn "添加副本?" "添加副本")
    (Fn0 (rangeId <- get2 rangeLeaderRoot "range" "id" ;;
          ajax (post "/range/peerAdd" [("clusterId", clusterId); ("rangeId", rangeId)])
            (report_reload "添加成功!" "添加成功" "添加失败")
            (failed_res "添加失败"))).

Definition offlineRange (rangeLeaderRoot : val) : prog unit :=
  clusterId <- val_of "#clusterId" ;;
  dbName <- val_of "#dbName" ;;
  tableName <- val_of "#tableName" ;;
  swal (warn "下线range?" "下线range")
    (Fn0 (rangeId <- get2 rangeLeaderRoot "range" "id" ;;
          peerId <- get2 rangeLeaderRoot "leader" "id" ;;
          ajax (post "/range/offlineRange"
                  [("clusterId", clusterId); ("dbName", dbName); ("tableName", tableName);
                   ("rangeId", rangeId); ("peerId", peerId)])
            (report_reload "下线成功!" "下线成功!" "下线失败")
            (failed "下线失败" "请联系管理员!"))).

Definition changeLeaderInstance (rangeLeaderRoot rangeId : val) : prog unit :=
  clusterId <- val_of "#clusterId" ;;
  swal (warn "切换为主?" "切换为主")
    (Fn0 (peerId <- get rangeLeaderRoot "id" ;;
          ajax (post "/range/changeLeader"
                  [("clusterId", clusterId); ("rangeId", rangeId); ("peerId", peerId)])
            (report "切换成功!" "切换成功" "切换失败")
            (failed_res "切换失败"))).

Definition moveReplicateInstance (rangeLeaderRoot rangeId : val) : prog unit :=
  clusterId <- val_of "#clusterId" ;;
  swal (warn "删除副本?" "删除副本")
    (Fn0 (peerId <- get rangeLeaderRoot "id" ;;
          ajax (post "/range/peerDel"
                  [("clusterId", clusterId); ("rangeId", rangeId); ("peerId", peerId)])
            (report "删除成功!" "删除成功" "删除失败")
            (failed_res "删除失败"))).

Definition transferInstance (rangeLeaderRoot rangeId : val) : prog unit :=
  clusterId <- val_of "#clusterId" ;;
  swal (warn "迁移?" "迁移")
    (Fn0 (peerId <- get rangeLeaderRoot "id" ;;
          ajax (post "/range/transfer"
                  [("clusterId", clusterId); ("rangeId", rangeId); ("peerId", peerId)])
            (report "迁移成功!" "迁移成功" "迁移失败")
            (failed_res "迁移失败"))).

(** ** Details and charts of a replica *)

Definition jsplumbmoreCtrl_subChangeP (ipport rangeId peerId : val) : prog unit :=
  set_var "jsplumbmoreCtrl.ipport" ipport ;;
  set_var "jsplumbmoreCtrl.rangeId" rangeId.

(** [Object.keys(v)]; a primitive that is not [null] or [undefined] has no
    keys here but its characters or positions. *)
Definition object_keys (v : val) : prog (list string) :=
  match v with
  | Undef | Null => Throw (Str "TypeError: keys")
  | Obj fs => Ret (List.map fst fs)
  | Arr l => Ret (List.map (fun i => string_of_Z (Z.of_nat i)) (seq 0 (length l)))
  | Str s => Ret (List.map (fun i => string_of_Z (Z.of_nat i)) (seq 0 (String.length s)))
  | _ => Ret []
  end.

(** [detail[item + 'subkeys'] = Object.keys(detail[item])] for every key. *)
Definition add_subkeys (keys : list string) : prog unit :=
  for_each keys (fun item =>
    detail <- get_var "subdetailCtrl.detail" ;;
    x <- get detail item ;;
    ks <- object_keys x ;;
    set_var "subdetailCtrl.detail"
      (set_prop (item +:+ "subkeys") (Arr (List.map Str ks)) detail)).

Definition show_details (data : val) : prog unit :=
  ok <- code_is data 200 ;;
  if ok then
    detail <- get data "attach" ;;
    set_var "subdetailCtrl.detail" detail ;;
    keys <- object_keys detail ;;
    set_var "subdetailCtrl.detailkeys" (Arr (List.map Str keys)) ;;
    add_subkeys keys
  else done.

(** The scope of the details inherits [rangeId] from [jsplumbmoreCtrl]. *)
Definition subdetailCtrl_subChangeP (ipport rangeId peerId : val) : prog unit :=
  dbName <- val_of "#dbName" ;;
  tableName <- val_of "#tableName" ;;
  clusterId <- val_of "#clusterId" ;;
  scope_rangeId <- get_var "jsplumbmoreCtrl.rangeId" ;;
  ajax (http_get ("/range/getRangeInfoById?rangeId=" +:+ to_str scope_rangeId +:+
                  "&peerId=" +:+ to_str peerId +:+ "&dbName=" +:+ to_str dbName +:+
                  "&tableName=" +:+ to_str tableName +:+ "&clusterId=" +:+ to_str clusterId))
    show_details
    no_error.

Definition show_loading (chart text : string) : prog unit :=
  call "showLoading" [Str chart; Str text].
Definition hide_loading (chart : string) : prog unit := call "hideLoading" [Str chart].
Definition add_series (chart : string) (series : val) : prog unit :=
  call "addSeries" [Str chart; series].

(** [s.name = prefix + s.name + suffix]. *)
Definition rename (prefix suffix : string) (s : val) : prog val :=
  name <- get s "name" ;;
  Ret (set_prop "name" (Str (prefix +:+ to_str name +:+ suffix)) s).

Definition draw_charts (data0 : val) : prog unit :=
  data <- get data0 "attach" ;;
  if loose_eq data Null then
    show_loading "container_ops" "没有数据!" ;;
    show_loading "container_outper_inper" "没有数据!" ;;
    show_loading "container_size" "没有数据!"
  else
    ops <- get data "ops" ;;
    ops <- rename "分片ID:" "" ops ;;
    add_series "container_ops" ops ;;
    bytes_out <- get data "bytes_out_per_sec" ;;
    bytes_out <- rename "分片ID:" " 出流量" bytes_out ;;
    bytes_in <- get data "bytes_in_per_sec" ;;
    bytes_in <- rename "分片ID:" " 入流量" bytes_in ;;
    add_series "container_outper_inper" bytes_out ;;
    add_series "container_outper_inper" bytes_in ;;
    size <- get data "size" ;;
    size <- rename "分片ID:" "" size ;;
    add_series "container_size" size ;;
    hide_loading "container_ops" ;;
    hide_loading "container_outper_inper" ;;
    hide_loading "container_size".

Definition load_monitor_data (rangeId : val) (type : string) : prog unit :=
  call "Highcharts.setOptions" [Obj [("useUTC", Bool false)]] ;;
  call "Highcharts.Chart" [Str "container_ops"] ;;
  call "Highcharts.Chart" [Str "container_outper_inper"] ;;
  call "Highcharts.Chart" [Str "container_size"] ;;
  clusterId <- val_of "#clusterId" ;;
  p <- (if String.eqb type "defaultOptions" then Ret (Str "", Str "")
        else s <- val_of "#start" ;; e <- val_of "#end" ;; Ret (s, e)) ;;
  let '(startTime, endTime) := p in
  show_loading "container_ops" "Loading...." ;;
  show_loading "container_outper_inper" "Loading...." ;;
  show_loading "container_size" "Loading...." ;;
  ajax (post "/monitor/getRangeData"
          [("clusterId", clusterId); ("rangeId", rangeId); ("startTime", startTime);
           ("endTime", endTime)])
    draw_charts no_error.

(** The listener also puts [queryFilter] on the scope. *)
Definition monitorCtrl_subChangeP (ipport rangeId : val) : prog unit :=
  set_var "monitorCtrl.rangeId" rangeId ;;
  set_var "monitorCtrl.queryFilter" (Bool true) ;;
  load_monitor_data rangeId "defaultOptions".

Definition monitorCtrl_queryFilter : prog unit :=
  defined <- get_var "monitorCtrl.queryFilter" ;;
  if truthy defined then
    rangeId <- get_var "monitorCtrl.rangeId" ;; load_monitor_data rangeId "setOptions"
  else done.

(** AngularJS runs the listeners in scope order and logs what they throw. *)
Definition listener (p : prog unit) : prog unit := catch p (fun e => do_op (OUncaught e)).

Definition ParentCtrl_subChange (ipport rangeId peerId : val) : prog unit :=
  set_var "ParentCtrl.ipport" ipport ;;
  set_var "ParentCtrl.rangeId" rangeId ;;
  set_var "ParentCtrl.peerId" peerId ;;
  listener (jsplumbmoreCtrl_subChangeP ipport rangeId peerId) ;;
  listener (subdetailCtrl_subChangeP ipport rangeId peerId) ;;
  listener (monitorCtrl_subChangeP ipport rangeId).

Definition showRangeInfo (rangeLeaderRoot type : val) : prog unit :=
  show_modal "#subDetail" ;;
  peer <- (if loose_eq type (Str "leader") then get rangeLeaderRoot "leader" else Ret rangeLeaderRoot) ;;
  ipport <- (n <- get peer "node" ;; get n "server_addr") ;;
  peerId <- (n <- get peer "node" ;; get n "id") ;;
  rangeId <- get peer "id" ;;
  listener (ParentCtrl_subChange ipport rangeId peerId).

(** ** The page *)

Inductive action : Type :=
| AShowRangeInfo (root type : val)
| ASplit (root : val) | AMove (root : val) | AAdd (root : val) | AOffline (root : val)
| AChangeLeader (peer rangeId : val) | AMoveReplicate (peer rangeId : val)
| ATransfer (peer rangeId : val)
| AQueryFilter | AChangeStart | AChangeEnd.

Definition handler (a : action) : prog unit :=
  match a with
  | AShowRangeInfo root type => showRangeInfo root type
  | ASplit root => splitInstance root
  | AMove root => moveInstance root
  | AAdd root => addInstance root
  | AOffline root => offlineRange root
  | AChangeLeader p id => changeLeaderInstance p id
  | AMoveReplicate p id => moveReplicateInstance p id
  | ATransfer p id => transferInstance p id
  | AQueryFilter => monitorCtrl_queryFilter
  | AChangeStart => changeStart "#start" "#end"
  | AChangeEnd => changeEnd "#start" "#end"
  end.

Definition range_page (off : Z) : page :=
  {| p_action := action;
     p_load := start_angular [rangeTopoCtrl] ;; datePairs off "#start" "#end" Undef Undef;
     p_handler := handler |}.

(** ** Contract *)

Definition changes (url : string) : list string :=
  if String.eqb url "/range/split" then ["分裂?"]
  else if String.eqb url "/range/peerDel" then ["删除分片?"; "删除副本?"]
  else if String.eqb url "/range/peerAdd" then ["添加副本?"]
  else if String.eqb url "/range/offlineRange" then ["下线range?"]
  else if String.eqb url "/range/changeLeader" then ["切换为主?"]
  else if String.eqb url "/range/transfer" then ["迁移?"]
  else [].

(** The answer to a split is wrapped in [attach]; the charts' data are not
    reported in a dialog. *)
Definition is_split (r : request) : bool := String.eqb (r_url r) "/range/split".

Definition range_policy : policy := {|
  guard := changes;
  burst := 2;
  follow_up := 0;
  watched := fun r res =>
    posts r && readable res && negb (String.eqb (r_url r) "/monitor/getRangeData") &&
    match res with Success d => negb (is_split r) || is_object (field d "attach") | _ => true end;
  heard := fun _ _ => false;
  verdict := fun r d => code_zero (if is_split r then field d "attach" else d)
|}.

Lemma range_handler_promises a :
  wp (promises range_policy) (handler a) [] (ends (promises range_policy) PAct).
Proof. destruct a; cbn [handler]; promised. Qed.

#[export] Instance range_page_promising off : Promising (range_page off) range_policy.
Proof.
  split; [|apply range_handler_promises]. apply loads_promises, loads_seq.
  - apply loads_start_angular. for_all; loaded.
  - loaded.
Qed.

(** ** Theorems *)

(** On the topology page, in every reachable state: splitting, deleting,
    adding, moving or promoting a replica is requested only by the confirm
    button of the dialog that asked for it; a button sends at most two requests
    (details and charts of a replica) and cancelling none; the answers to the
    operations are always shown; and success is announced only after an answer
    that grants the operation (for a split, the code inside [attach]). *)
Theorem range_page_safe off E w ev :
  reachable E (range_page off) w -> safe_step range_policy E (range_page off) w ev.
Proof. apply reachable_safe_step. Qed.

Definition peer : val :=
  Obj [("id", int 11);
       ("node", Obj [("id", int 5); ("server_addr", Str "10.0.0.5:6060")])].
Definition leader_root : val := Obj [("leader", peer); ("range", Obj [("id", int 9)])].

Definition split_session : world :=
  session offline (range_page 0) [("#clusterId", "value", Str "7")] [Act (ASplit leader_root)].

Lemma range_page_safe_witness :
  safe_step range_policy offline (range_page 0) split_session (Confirm "").
Proof. apply (range_page_safe 0 offline), reachable_session. Defined.

(** The replica that a click means: the leader of a root, or the object itself. *)
Definition clicked (root : val) (leader : bool) : val := if leader then field root "leader" else root.

(** The requests for the details and the charts of a replica. *)
Definition details_url (w : world) (p : val) : string :=
  "/range/getRangeInfoById?" +:+
  build_query [("rangeId", to_str (field p "id")); ("peerId", to_str (field (field p "node") "id"));
               ("dbName", to_str (value_of w "#dbName"));
               ("tableName", to_str (value_of w "#tableName"));
               ("clusterId", to_str (value_of w "#clusterId"))].
Definition charts_request (w : world) (p : val) : request :=
  post "/monitor/getRangeData"
    [("clusterId", value_of w "#clusterId"); ("rangeId", field p "id");
     ("startTime", Str ""); ("endTime", Str "")].

Lemma run_showRangeInfo E w root leader :
  is_object root = true -> is_object (clicked root leader) = true ->
  is_object (field (clicked root leader) "node") = true ->
  run E (showRangeInfo root (Str (if leader then "leader" else "replicate"))) w =
  run E (show_modal "#subDetail" ;;
         listener (ParentCtrl_subChange (field (field (clicked root leader) "node") "server_addr")
                     (field (clicked root leader) "id") (field (field (clicked root leader) "node") "id"))) w.
Proof.
  intros Hr Hp Hn. unfold showRangeInfo. destruct leader; cbn [clicked] in *.
  - change (loose_eq (Str "leader") (Str "leader")) with true. cbv iota.
    cbn [bind]. by repeat (rewrite get_object by done; cbn [bind]).
  - change (loose_eq (Str "replicate") (Str "leader")) with false. cbv iota.
    cbn [bind]. by repeat (rewrite get_object by done; cbn [bind]).
Qed.

(** A click on a replica shows the modal and asks the server for the
    details and the charts of exactly that replica: the id that travels from
    [showRangeInfo] through the parent's event to the two listeners is the
    clicked one, whatever replica was shown before. *)
Theorem showRangeInfo_requests off E w root leader :
  is_object root = true -> is_object (clicked root leader) = true ->
  is_object (field (clicked root leader) "node") = true ->
  let a := AShowRangeInfo root (Str (if leader then "leader" else "replicate")) in
  requests (news E (range_page off) w (Act a)) =
    [http_get (details_url w (clicked root leader)); charts_request w (clicked root leader)].
Proof.
  intros Hr Hp Hn a. unfold news. cbn [step range_page p_handler]. unfold a. cbn [handler].
  unfold task. rewrite run_showRangeInfo by done. generalize (clicked root leader) as p. intros p.
  cbn -[to_str details_url].
  rewrite lookup_insert_eq, <- !app_assoc, drop_app_length.
  unfold details_url, build_query. cbn -[to_str]. by autorewrite with str.
Qed.

(** The two requests are left pending; the first answer is for [show_details]. *)
Lemma showRangeInfo_pending off E w root leader :
  is_object root = true -> is_object (clicked root leader) = true ->
  is_object (field (clicked root leader) "node") = true ->
  exists charts,
    w_pending (step E (range_page off) w (Act (AShowRangeInfo root (Str (if leader then "leader" else "replicate"))))) =
    w_pending w ++ [(http_get (details_url w (clicked root leader)),
                     fun res => match res with Success d => show_details d | Failure x _ => no_error x end); charts].
Proof.
  intros Hr Hp Hn. cbn [step range_page p_handler handler]. unfold task. rewrite run_showRangeInfo by done.
  generalize (clicked root leader) as p. intros p. eexists. cbn -[to_str details_url show_details no_error].
  rewrite lookup_insert_eq, <- !app_assoc. cbn -[to_str details_url show_details no_error].
  unfold details_url, build_query. cbn -[to_str show_details no_error]. autorewrite with str. reflexivity.
Qed.

Definition table_session : world :=
  session offline (range_page 0)
    [("#clusterId", "value", Str "7"); ("#dbName", "value", Str "d"); ("#tableName", "value", Str "t")] [].

Lemma showRangeInfo_requests_witness :
  requests (news offline (range_page 0) table_session (Act (AShowRangeInfo leader_root (Str "leader")))) =
    [http_get (details_url table_session peer); charts_request table_session peer].
Proof. by apply (showRangeInfo_requests 0 offline table_session leader_root true). Defined.
