(* ===== verification/CreateTable.v ===== *)
(** * Creating and editing tables (static/js/createtables/createtable.js, edittable.js)

    Both pages edit the columns of a table in a grid whose rows are an array of
    objects shared with the script, and submit it with [createDataBaseTable]:
    the columns are checked, the dynamic ones ([regxs]) are moved to a list of
    their own by splicing the array inside the loop that walks through it, and
    the two lists are posted as JSON texts.

    The array is the variable [data] of the page.  The functions of the two
    files differ in [isIntType], which edittable.js calls but no script of its
    page defines, and in the request. *)

From S2P Require Import Prelude JsValue Json Browser Logic Contracts Widgets Utils.
From Stdlib Require Import Ascii.

(** ** The grid *)

(** The types of a column and their codes. *)
Definition dataTypes : list (string * Z) :=
  [ ("Tinyint", 1); ("Smallint", 2); ("Int", 3); ("BigInt", 4); ("Float", 5); ("Double", 6);
    ("Varchar", 7); ("Binary", 8); ("Date", 9); ("TimeStamp", 10) ].

(** The fields of the grid: title, name and type. *)
Definition fields (auto_title : string) : list (string * string * string) :=
  [ ("列名", "name", "text"); ("类型", "data_type", "select"); ("Unsigned", "unsigned", "checkbox");
    ("是否为主键", "primary_key", "checkbox"); (auto_title, "auto_increment", "checkbox");
    ("动态列", "regxs", "checkbox") ].

Definition grid_options (auto_title : string) (data : val) : val :=
  Obj [("width", Str "100%"); ("data", data); ("editing", Bool true); ("inserting", Bool true);
       ("fields", Arr (List.map (fun '(t, n, ty) =>
          Obj [("title", Str t); ("name", Str n); ("type", Str ty)]) (fields auto_title)));
       ("items", Arr (List.map (fun '(n, v) => Obj [("name", Str n); ("value", int v)]) dataTypes))].

(** ** Checks *)

(** [x.replace(/^\s+|\s+$/gm, '')]; the text fields it is used on have no line
    breaks, where this is trimming. *)
Definition myTrim (x : string) : string := trim x.

(** [switch (dataType) { case 1, 2, 3, 4: ... }]: the comma expression is 4. *)
Definition isIntType (dataType : val) : bool := strict_eq dataType (int 4).

Section checks.
(** The [isIntType] in scope. *)
Context (isInt : val -> prog bool).

(** The loop over primary and auto-increment keys; it returns [pkFlg],
    [incFlg] and [incCount]. *)
Fixpoint check_keys (rows : list val) (pkFlg : bool) (incCount : Z) : prog (bool * bool * Z) :=
  match rows with
  | [] => Ret (pkFlg, true, incCount)
  | r :: rows' =>
      let primary := truthy (field r "primary_key") in
      let auto := truthy (field r "auto_increment") in
      let pkFlg' := pkFlg || primary in
      bad <- (if auto then
                b <- isInt (or_else (field r "data_type") (js_not (field r "primary_key"))) ;;
                Ret (negb b)
              else Ret false) ;;
      if bad then Ret (pkFlg', false, incCount)
      else check_keys rows' pkFlg' (if primary && auto then incCount + 1 else incCount)
  end.
End checks.

(** ** Dynamic columns *)

Definition has_dash (s : string) : bool := has_char "-" s.

(** [data[i].index = true; data[i].primary_key = primary_key ? 1 : 0]. *)
Definition normalise (r : val) : val :=
  let r1 := set_prop "index" (Bool true) r in
  set_prop "primary_key" (int (if truthy (field r1 "primary_key") then 1 else 0)) r1.

Definition is_dynamic (r : val) : bool := loose_eq (field r "regxs") (int 1).

(** How the second loop ends: at a name with a dash, at a name that is no
    string, or with the columns and the dynamic columns. *)
Inductive split_result : Type :=
| Dashed (data : list val)
| NoName (data : list val)
| Split (data regxsList : list val).

(** The loop from index [i] on; [n] bounds its turns. *)
Fixpoint split_loop (n i : nat) (data regxsList : list val) : split_result :=
  match n with
  | O => Split data regxsList
  | S n' =>
      match data !! i with
      | None => Split data regxsList
      | Some r =>
          match field r "name" with
          | Str columnName =>
              if has_dash columnName then Dashed data else
              let r' := normalise r in
              let data' := <[i := r']> data in
              if is_dynamic r'
              then split_loop n' (S i) (delete i data') (regxsList ++ [r'])
              else split_loop n' (S i) data' regxsList
          | _ => NoName data
          end
      end
  end.

Definition split_columns (data : list val) : split_result := split_loop (length data) 0 data [].

(** The checks before the form is read: [Some regxsList] if they pass. *)
Definition check_columns (isInt : val -> prog bool) : prog (option (list val)) :=
  v <- get_var "data" ;;
  let data := elements v in
  if (length data =? 0)%nat then swal1 "至少添加一列" ;; Ret None else
  flags <- check_keys isInt data false 0 ;;
  let '(pkFlg, incFlg, incCount) := flags in
  if negb pkFlg then swal1 "至少有一个主键" ;; Ret None
  else if negb incFlg then swal1 "只能设置int类型的主键为自增列" ;; Ret None
  else if 1 <? incCount then swal1 "只能有一个int类型的列为自增列" ;; Ret None
  else match split_columns data with
  | Dashed data' => set_var "data" (Arr data') ;; swal1 "列名不能有“-”" ;; Ret None
  | NoName data' => set_var "data" (Arr data') ;; Throw (Str "TypeError: indexOf")
  | Split data' regxsList => set_var "data" (Arr data') ;; Ret (Some regxsList)
  end.

(** [myTrim] of a field; a missing field has no [replace]. *)
Definition trimmed (v : val) : prog val :=
  match v with Str s => Ret (Str (myTrim s)) | _ => Throw (Str "TypeError: replace") end.

(** [name == undefined || name == null || name == ""] *)
Definition no_name (name : val) : bool :=
  loose_eq name Undef || loose_eq name Null || loose_eq name (Str "").

(** ** createtable.js *)

(** The confirmed submission reads the array as it is then. *)
Definition create_send (dbName name rangeKeys clusterId policy : val) (regxsList : list val) : prog unit :=
  data <- get_var "data" ;;
  ajax (post "/metadata/createTable"
          [("dbName", dbName); ("name", name); ("columns", json data);
           ("regxs", json (Arr regxsList)); ("rangeKeys", rangeKeys);
           ("clusterId", clusterId); ("policy", policy)])
    (fun data =>
       ok <- code_is data 0 ;;
       if ok then swal3 "创建成功!" (Str "表创建成功") "success" ;; history_back
       else msg <- get data "msg" ;; swal3 "创建表失败" msg "error")
    (failed_res "创建表失败").

Definition createDataBaseTable : prog unit :=
  checked <- check_columns (fun v => Ret (isIntType v)) ;;
  match checked with
  | None => done
  | Some regxsList =>
      rangeKeys <- val_of "#rangeKeys" ;;
      rangeKeys <- trimmed rangeKeys ;;
      dbName <- val_of "#dbName" ;;
      name <- val_of "#name" ;;
      clusterId <- val_of "#clusterId" ;;
      if no_name name then swal1 "表名必须填写" else
      policy <- val_of "#policy" ;;
      swal (warn "创建表?" "创建") (Fn0 (create_send dbName name rangeKeys clusterId policy regxsList))
  end.

(** ** edittable.js *)

(** No script of the page defines [isIntType]. *)
Definition no_isIntType (v : val) : prog bool :=
  Throw (Str "ReferenceError: isIntType is not defined").

Definition editDataBaseTable : prog unit :=
  checked <- check_columns no_isIntType ;;
  match checked with
  | None => done
  | Some regxsList =>
      rangeKeys <- val_of "#rangeKeys" ;;
      rangeKeys <- trimmed rangeKeys ;;
      dbName <- val_of "#dbName" ;;
      name <- val_of "#name" ;;
      clusterId <- val_of "#clusterId" ;;
      if no_name name then swal1 "表名必须填写" else
      swal (warn "修改表?" "修改")
        (Fn0 (data <- get_var "data" ;;
              ajax (post "/metadata/editTable"
                      [("dbName", dbName); ("name", name); ("columns", json data);
                       ("regxs", json (Arr regxsList)); ("rangeKeys", rangeKeys);
                       ("clusterId", clusterId)])
                (report "修改成功!" "表修改成功" "修改表失败")
                (failed_res "修改表失败")))
  end.

(** The ready handler: the columns of the table, and the dynamic ones, which
    are read but not shown. *)
Definition edit_load : prog unit :=
  dbName <- val_of "#dbName" ;;
  name <- val_of "#name" ;;
  clusterId <- val_of "#clusterId" ;;
  columnsArray <- new_ref (Arr []) ;;
  regxsArray <- new_ref (Arr []) ;;
  ajax (post_sync "/metadata/getTableColumns"
          [("dbName", dbName); ("name", name); ("clusterId", clusterId)])
    (fun data =>
       ok <- code_is data 0 ;;
       if ok then
         d <- get data "data" ;;
         columns <- get d "columns" ;;
         get columns "length" ;;
         put_ref columnsArray (Arr (items columns)) ;;
         regxs <- get d "regxs" ;;
         if loose_eq regxs Null then done else
         get regxs "length" ;;
         put_ref regxsArray (Arr (items regxs))
       else msg <- get data "msg" ;; swal3 "获取失败" msg "error")
    (failed_res "获取失败") ;;
  columns <- get_ref columnsArray ;;
  set_var "data" columns ;;
  call "jsGrid" [Str "#jsGrid"; grid_options "自增id" columns].

(** ** The pages *)

(** The grid changes the shared array: a row is added, replaced or removed. *)
Inductive action : Type :=
| ASubmit
| AInsert (r : val)
| AUpdate (i : nat) (r : val)
| ARemove (i : nat).

Definition grid (f : list val -> list val) : prog unit :=
  data <- get_var "data" ;; set_var "data" (Arr (f (elements data))).

Definition handler (submit : prog unit) (a : action) : prog unit :=
  match a with
  | ASubmit => submit
  | AInsert r => grid (fun l => l ++ [r])
  | AUpdate i r => grid (fun l => <[i := r]> l)
  | ARemove i => grid (delete i)
  end.

(** The ready handler of createtable.js: an empty grid. *)
Definition create_load : prog unit :=
  set_var "data" (Arr []) ;; call "jsGrid" [Str "#jsGrid"; grid_options "自增" (Arr [])].

Definition create_page : page :=
  {| p_action := action; p_load := create_load; p_handler := handler createDataBaseTable |}.
Definition edit_page : page :=
  {| p_action := action; p_load := edit_load; p_handler := handler editDataBaseTable |}.

(** ** The second loop without its index *)

(** The column after a dynamic one is kept without being looked at. *)
Fixpoint split_skip (data : list val) : split_result :=
  match data with
  | [] => Split [] []
  | r :: rest =>
      match field r "name" with
      | Str columnName =>
          if has_dash columnName then Dashed (r :: rest) else
          let r' := normalise r in
          if is_dynamic r' then
            match rest with
            | [] => Split [] [r']
            | s :: rest' =>
                match split_skip rest' with
                | Dashed d => Dashed (s :: d)
                | NoName d => NoName (s :: d)
                | Split d l => Split (s :: d) (r' :: l)
                end
            end
          else
            match split_skip rest with
            | Dashed d => Dashed (r' :: d)
            | NoName d => NoName (r' :: d)
            | Split d l => Split (r' :: d) l
            end
      | _ => NoName (r :: rest)
      end
  end.

(** What the loop does with its first column. *)
Lemma split_skip_cons r rest :
  split_skip (r :: rest) =
    match field r "name" with
    | Str columnName =>
        if has_dash columnName then Dashed (r :: rest)
        else if is_dynamic (normalise r) then
          match rest with
          | [] => Split [] [normalise r]
          | s :: rest' =>
              match split_skip rest' with
              | Dashed d => Dashed (s :: d)
              | NoName d => NoName (s :: d)
              | Split d l => Split (s :: d) (normalise r :: l)
              end
          end
        else
          match split_skip rest with
          | Dashed d => Dashed (normalise r :: d)
          | NoName d => NoName (normalise r :: d)
          | Split d l => Split (normalise r :: d) l
          end
    | _ => NoName (r :: rest)
    end.
Proof. done. Qed.

(** Puts what the loop has passed in front. *)
Definition after (pre regxs : list val) (res : split_result) : split_result :=
  match res with
  | Dashed d => Dashed (pre ++ d)
  | NoName d => NoName (pre ++ d)
  | Split d l => Split (pre ++ d) (regxs ++ l)
  end.

Lemma split_loop_skip n pre data regxs :
  (length data <= n)%nat ->
  split_loop n (length pre) (pre ++ data) regxs = after pre regxs (split_skip data).
Proof.
  revert pre data regxs. induction n as [|n IH]; intros pre data regxs Hn.
  { destruct data; [|cbn in Hn; lia]. cbn. by rewrite !app_nil_r. }
  destruct data as [|r rest].
  { cbn [split_loop]. rewrite app_nil_r, lookup_ge_None_2 by done. cbn. by rewrite !app_nil_r. }
  cbn in Hn. cbn [split_loop split_skip]. rewrite list_lookup_middle by done.
  destruct (field r "name") as [| | | |s| |]; try done. destruct (has_dash s); [done|].
  rewrite insert_app_r_alt, Nat.sub_diag by done. cbn [list_insert insert].
  assert (Hcons : forall (x : val) l, pre ++ x :: l = (pre ++ [x]) ++ l /\ S (length pre) = length (pre ++ [x])).
  { intros x l. rewrite length_app, <- app_assoc. cbn. split; [done|lia]. }
  destruct (is_dynamic (normalise r)).
  - rewrite delete_middle. destruct rest as [|s' rest].
    + rewrite app_nil_r. destruct n; cbn; [by rewrite app_nil_r|].
      rewrite lookup_ge_None_2 by lia. by rewrite app_nil_r.
    + destruct (Hcons s' rest) as [-> ->]. cbn in Hn. rewrite IH by lia.
      destruct (split_skip rest); cbn; by rewrite <- !app_assoc.
  - destruct (Hcons (normalise r) rest) as [-> ->]. rewrite IH by lia.
    destruct (split_skip rest); cbn; by rewrite <- !app_assoc.
Qed.

(** The fuel of [split_columns] is enough. *)
Lemma split_columns_skip data : split_columns data = split_skip data.
Proof.
  unfold split_columns. rewrite (split_loop_skip _ [] data []) by done.
  by destruct (split_skip data).
Qed.

(** ** Contract *)

Definition changes (url : string) : list string :=
  if String.eqb url "/metadata/createTable" then ["创建表?"]
  else if String.eqb url "/metadata/editTable" then ["修改表?"]
  else [].
Definition table_policy : policy := usual changes.

(** The key check leaves no trace; it may throw. *)
Lemma wp_check_keys S isInt rows pk n log Q :
  (forall v Q', (forall b, Q' (Done b) log) -> (forall e, Q' (Thrown e) log) ->
     wp S (isInt v) log Q') ->
  (forall x, Q (Done x) log) -> (forall e, Q (Thrown e) log) ->
  wp S (check_keys isInt rows pk n) log Q.
Proof.
  intros Hi Hd Ht. revert pk n. induction rows as [|r rows IH]; intros pk n; [apply Hd|].
  cbn [check_keys]. apply wp_bind. destruct (truthy (field r "auto_increment")).
  - apply wp_bind, Hi; [|auto]. intros b. cbn. destruct b; cbn; auto.
  - cbn. apply IH.
Qed.

Ltac wp_rule ::=
  lazymatch goal with
  | |- wp _ (check_keys _ _ _ _) _ _ => apply wp_check_keys; [by intros; cbn|..]
  end.

Lemma create_promises a :
  wp (promises table_policy) (handler createDataBaseTable a) [] (ends (promises table_policy) PAct).
Proof. destruct a; cbn [handler]; promised. Qed.

Lemma edit_promises a :
  wp (promises table_policy) (handler editDataBaseTable a) [] (ends (promises table_policy) PAct).
Proof. destruct a; cbn [handler]; promised. Qed.

#[export] Instance create_page_promising : Promising create_page table_policy.
Proof. split; [|apply create_promises]. apply loads_promises. cbn [p_load create_page]. loaded. Qed.

#[export] Instance edit_page_promising : Promising edit_page table_policy.
Proof. split; [|apply edit_promises]. apply loads_promises. cbn [p_load edit_page]. loaded. Qed.

(** ** Facts about the checks *)

Definition primary (r : val) : bool := truthy (field r "primary_key").
Definition auto (r : val) : bool := truthy (field r "auto_increment").

Lemma isIntType_spec v : isIntType v = true <-> v = int 4.
Proof.
  split; [|by intros ->]. destruct v as [| | |[z|]| | |]; try done.
  unfold isIntType, int. cbn. by intros ->%Z.eqb_eq.
Qed.

(** The argument [data_type || !primary_key] passes only as a data type. *)
Lemma isIntType_or v b : isIntType (or_else v (js_not b)) = true <-> v = int 4.
Proof.
  rewrite isIntType_spec. unfold or_else. destruct (truthy v) eqn:Ev; [done|].
  split; [done|]. by intros ->.
Qed.

(** Columns whose auto-increment flag passes the check. *)
Definition auto_ok (r : val) : bool := negb (auto r) || isIntType (field r "data_type").

Lemma check_keys_spec rows pk n p i k :
  check_keys (fun v => Ret (isIntType v)) rows pk n = Ret (p, i, k) ->
  i = true ->
  p = pk || existsb primary rows /\ forallb auto_ok rows = true /\
  k = n + Z.of_nat (length (List.filter (fun r => primary r && auto r) rows)).
Proof.
  revert pk n. induction rows as [|r rows IH]; intros pk n; cbn [check_keys].
  { intros [= <- <- <-] _. rewrite orb_false_r. split_ands; [done|done|cbn; lia]. }
  fold (primary r). fold (auto r). cbn [existsb forallb List.filter]. unfold auto_ok at 1.
  destruct (auto r) eqn:Ea; cbn [bind andb negb orb].
  - destruct (isIntType (or_else (field r "data_type") (js_not (field r "primary_key")))) eqn:Ei;
      cbn [negb].
    + intros H Hi. apply isIntType_or in Ei. rewrite Ei. change (isIntType (int 4)) with true.
      destruct (IH _ _ H Hi) as (-> & -> & ->). rewrite orb_assoc, !andb_true_r.
      split_ands; [done|done|]. destruct (primary r); cbn [length]; lia.
    + intros [= <- <- <-]. done.
  - intros H Hi. destruct (IH _ _ H Hi) as (-> & -> & ->). rewrite orb_assoc, !andb_false_r.
    done.
Qed.

Lemma check_keys_Ret rows pk n :
  exists p i k, check_keys (fun v => Ret (isIntType v)) rows pk n = Ret (p, i, k).
Proof.
  revert pk n. induction rows as [|r rows IH]; intros pk n; cbn [check_keys]; [eauto|].
  destruct (truthy (field r "auto_increment")); cbn [bind].
  - destruct (isIntType _); cbn [negb]; [apply IH|eauto].
  - apply IH.
Qed.

(** What the columns satisfy when the checks of keys pass. *)
Definition keys_ok (data : list val) : Prop :=
  data <> [] /\ (exists r, r ∈ data /\ primary r = true) /\
  (forall r, r ∈ data -> auto r = true -> field r "data_type" = int 4) /\
  (length (List.filter (fun r => primary r && auto r) data) <= 1)%nat.

Lemma keys_ok_intro data pk k :
  data <> [] -> pk = true -> k <= 1 ->
  check_keys (fun v => Ret (isIntType v)) data false 0 = Ret (pk, true, k) -> keys_ok data.
Proof.
  intros Hne -> Hk H. destruct (check_keys_spec _ _ _ _ _ _ H eq_refl) as (Hp & Ha & Hc).
  unfold keys_ok. split_ands; [done| | |lia].
  - symmetry in Hp. cbn in Hp. apply existsb_exists in Hp as (r & Hr & Hpr).
    exists r. by rewrite list_elem_of_In.
  - intros r Hr Har. rewrite forallb_forall in Ha. specialize (Ha r (proj1 (list_elem_of_In _ _) Hr)).
    unfold auto_ok in Ha. rewrite Har in Ha. by apply isIntType_spec.
Qed.

(** ** Facts about the dynamic columns *)

Lemma field_normalise r k :
  k <> "index" -> k <> "primary_key" -> field (normalise r) k = field r k.
Proof. intros H1 H2. unfold normalise. by rewrite !field_set_ne by congruence. Qed.

Lemma is_dynamic_normalise r : is_dynamic (normalise r) = is_dynamic r.
Proof. unfold is_dynamic. by rewrite field_normalise. Qed.

(** Induction by one or two elements, the steps of [split_skip]. *)
Lemma list_two_ind {A : Type} (P : list A -> Prop) :
  P [] -> (forall x, P [x]) -> (forall x y l, P l -> P (y :: l) -> P (x :: y :: l)) -> forall l, P l.
Proof.
  intros H0 H1 H2 l. enough (P l /\ forall x, P (x :: l)) as [? _] by done.
  induction l as [|y l [IH1 IH2]]; [by auto|]. split; [apply IH2|]. intros x. by apply H2.
Qed.

(** Nothing is lost or doubled: the two lists hold the columns that were there,
    field by field; and the second holds dynamic columns only. *)
Lemma split_skip_conserves data d l k :
  k <> "index" -> k <> "primary_key" -> split_skip data = Split d l ->
  Permutation (pluck k d ++ pluck k l) (pluck k data) /\ Forall (fun r => is_dynamic r = true) l.
Proof.
  intros H1 H2. revert d l. induction data as [|r|r s rest IH1 IH2] using list_two_ind; intros d l.
  - intros [= <- <-]. done.
  - cbn. destruct (field r "name"); try done. destruct (has_dash _); [done|].
    destruct (is_dynamic (normalise r)) eqn:Ed; intros [= <- <-]; cbn; rewrite field_normalise by done; auto.
  - rewrite split_skip_cons. destruct (field r "name"); try done. destruct (has_dash _); [done|].
    destruct (is_dynamic (normalise r)) eqn:Ed.
    + destruct (split_skip rest) as [| |d' l'] eqn:E; try done. intros [= <- <-].
      destruct (IH1 _ _ eq_refl) as [HP HF]. split; [|by constructor]. cbn.
      rewrite field_normalise by done. rewrite <- Permutation_middle, HP. apply Permutation_swap.
    + destruct (split_skip (s :: rest)) as [| |d' l'] eqn:E; try done. intros [= <- <-].
      destruct (IH2 _ _ eq_refl) as [HP HF]. split; [|done]. cbn.
      rewrite field_normalise by done. by rewrite HP.
Qed.

Lemma clean_set_prop k v o : clean v = true -> clean o = true -> clean (set_prop k v o) = true.
Proof.
  intros Hv. destruct o as [| | | | | |fs]; try done. cbn.
  induction fs as [|[k' x] fs IH]; cbn; [by rewrite Hv|].
  rewrite andb_true_iff. intros [Hx Hfs]. destruct (String.eqb k k'); cbn.
  - by rewrite Hv, Hfs.
  - rewrite Hx. by apply IH.
Qed.

Lemma clean_normalise r : clean r = true -> clean (normalise r) = true.
Proof. intros Hr. apply clean_set_prop; [done|]. by apply clean_set_prop. Qed.

Lemma split_skip_clean data d l :
  split_skip data = Split d l -> forallb clean data = true ->
  forallb clean d = true /\ forallb clean l = true.
Proof.
  revert d l. induction data as [|r|r s rest IH1 IH2] using list_two_ind; intros d l.
  - by intros [= <- <-].
  - cbn. destruct (field r "name"); try done. destruct (has_dash _); [done|].
    rewrite andb_true_r.
    destruct (is_dynamic (normalise r)); intros [= <- <-] Hr; cbn; by rewrite clean_normalise.
  - rewrite split_skip_cons. destruct (field r "name"); try done. destruct (has_dash _); [done|].
    cbn [forallb]. rewrite !andb_true_iff.
    destruct (is_dynamic (normalise r)).
    + destruct (split_skip rest) as [| |d' l'] eqn:E; try done. intros [= <- <-] (Hr & Hs & Hrest).
      destruct (IH1 _ _ eq_refl Hrest) as [Hd Hl]. cbn. by rewrite Hs, Hd, clean_normalise, Hl.
    + destruct (split_skip (s :: rest)) as [| |d' l'] eqn:E; try done. intros [= <- <-] (Hr & Hs & Hrest).
      destruct (IH2 _ _ eq_refl) as [Hd Hl]; [cbn; by rewrite Hs, Hrest|].
      cbn. by rewrite Hd, clean_normalise, Hl.
Qed.

(** ** Submitting *)

Definition create_dialog : swal_opts := warn "创建表?" "创建".

(** The request of a submission with the texts of the two lists. *)
Definition create_request (w : world) (keys columns regxs : string) : request :=
  post "/metadata/createTable"
    [("dbName", value_of w "#dbName"); ("name", value_of w "#name"); ("columns", Str columns);
     ("regxs", Str regxs); ("rangeKeys", Str (myTrim keys)); ("clusterId", value_of w "#clusterId");
     ("policy", value_of w "#policy")].

(** Which messages and dialogs a submission can log, and when it asks. *)
Lemma check_columns_cases E w data :
  w_vars w !! "data" = Some (Arr data) ->
  (exists t, run E (check_columns (fun v => Ret (isIntType v))) w = run E (swal1 t ;; Ret None) w) \/
  (exists t d, run E (check_columns (fun v => Ret (isIntType v))) w =
     run E (set_var "data" (Arr d) ;; swal1 t ;; Ret None) w) \/
  (exists d, run E (check_columns (fun v => Ret (isIntType v))) w =
     run E (set_var "data" (Arr d) ;; Throw (Str "TypeError: indexOf")) w) \/
  (exists d l, keys_ok data /\ split_columns data = Split d l /\
     run E (check_columns (fun v => Ret (isIntType v))) w =
       run E (set_var "data" (Arr d) ;; Ret (Some l)) w).
Proof.
  intros Hd. unfold check_columns. cbn [bind get_var op1 run exec_op]. rewrite Hd. cbn [default id elements from_option].
  destruct (length data =? 0)%nat eqn:El; [by left; eexists|].
  destruct (check_keys_Ret data false 0) as (p & i & k & Hk). rewrite Hk. cbn [bind].
  destruct p; cbn [negb]; [|by left; eexists].
  destruct i; cbn [negb]; [|by left; eexists].
  destruct (Z.ltb_spec 1 k) as [|Hk1]; [by left; eexists|].
  assert (keys_ok data) by (eapply keys_ok_intro; [by intros ->|done|exact Hk1|done]).
  destruct (split_columns data) as [d|d|d l]; right; [left; by eexists _, _|right; left; by eexists|].
  right; right. eexists _, _. by split_ands.
Qed.

(** A submission that asks has passed the checks, and has left the columns that
    are not dynamic in the array. *)
Lemma submit_asked E w data keys :
  w_vars w !! "data" = Some (Arr data) -> value_of w "#rangeKeys" = Str keys ->
  Asked create_dialog ∈ news E create_page w (Act ASubmit) ->
  exists d l, keys_ok data /\ no_name (value_of w "#name") = false /\ split_columns data = Split d l /\
    step E create_page w (Act ASubmit) =
      emit (Asked create_dialog)
        (set_dialog (Some (DialogState create_dialog
           (Fn0 (create_send (value_of w "#dbName") (value_of w "#name") (Str (myTrim keys)) (value_of w "#clusterId")
                   (value_of w "#policy") l))))
           (set_vars (<["data" := Arr d]> (w_vars w)) w)).
Proof.
  intros Hd Hkeys. unfold news. cbn [step create_page p_handler handler]. unfold task, createDataBaseTable.
  rewrite run_bind.
  destruct (check_columns_cases E w data Hd) as [(t & ->)|[(t & d & ->)|[(d & ->)|(d & l & Hok & Hs & ->)]]].
  1-3: cbn; rewrite drop_app_length; intros H; repeat (apply elem_of_cons in H as [H|H]; [done|]);
    by apply elem_of_nil in H.
  unfold value_of in *. cbn -[no_name trimmed create_send attr_of]. rewrite attr_of_set_vars, Hkeys.
  cbn -[no_name create_send attr_of]. rewrite !attr_of_set_vars.
  destruct (no_name (attr_of w "#name" "value")) eqn:En.
  { cbn. rewrite drop_app_length. intros H. apply elem_of_cons in H as [H|H]; [done|].
    by apply elem_of_nil in H. }
  intros _. exists d, l. split_ands; [done|done|done|]. cbn -[no_name create_send attr_of]. by rewrite !attr_of_set_vars.
Qed.

(** Confirming then posts the texts of the two lists, which read back. *)
Lemma submit_confirmed E w data keys input d l :
  forallb clean data = true -> split_columns data = Split d l ->
  step E create_page w (Act ASubmit) =
    emit (Asked create_dialog)
      (set_dialog (Some (DialogState create_dialog
         (Fn0 (create_send (value_of w "#dbName") (value_of w "#name") (Str (myTrim keys)) (value_of w "#clusterId")
                 (value_of w "#policy") l))))
         (set_vars (<["data" := Arr d]> (w_vars w)) w)) ->
  exists columns regxs,
    news E create_page (step E create_page w (Act ASubmit)) (Confirm input) =
      [Sent (create_request w keys columns regxs)] /\
    parse columns = Some (Arr d) /\ parse regxs = Some (Arr l) /\
    Permutation (pluck "name" d ++ pluck "name" l) (pluck "name" data) /\
    Forall (fun r => is_dynamic r = true) l.
Proof.
  intros Hc Hs ->. rewrite split_columns_skip in Hs. destruct (split_skip_clean _ _ _ Hs Hc) as [Hcd Hcl].
  destruct (stringify_clean (Arr d) Hcd) as (columns & Ecol). destruct (stringify_clean (Arr l) Hcl) as (regxs & Ereg).
  exists columns, regxs. split_ands.
  - unfold news, value_of. cbn -[json attr_of]. rewrite lookup_insert_eq. cbn -[json attr_of]. unfold json. rewrite Ecol, Ereg.
    by rewrite drop_app_length.
  - by apply parse_stringify.
  - by apply parse_stringify.
  - by eapply split_skip_conserves.
  - by eapply (split_skip_conserves _ _ _ "name").
Qed.

(** Closing the dialog, or confirming it and waiting for the answer, leaves the
    form and the array as they are. *)
Lemma after_submission E w d l dialog_fn db nm keys cl pol evs :
  dialog_fn = Fn0 (create_send db nm keys cl pol l) ->
  (evs = [Cancel] \/ exists i res, evs = [Confirm i; Reply (length (w_pending w)) res]) ->
  let w1 := emit (Asked create_dialog)
              (set_dialog (Some (DialogState create_dialog dialog_fn)) (set_vars (<["data" := Arr d]> (w_vars w)) w)) in
  let w' := steps E create_page w1 evs in
  w_vars w' !! "data" = Some (Arr d) /\ forall sel, value_of w' sel = value_of w sel.
Proof.
  intros -> Hevs w1 w'. set (kept := fun v : world => (w_vars v !! "data", w_attrs v)).
  enough (Hk : kept w' = (Some (Arr d), w_attrs w)).
  { unfold kept in Hk. injection Hk as Hd Ha. split; [done|]. intros sel. unfold value_of, attr_of. by rewrite Ha. }
  destruct Hevs as [->|(i & res & ->)]; [by unfold kept; cbn; rewrite lookup_insert_eq|].
  unfold w', w1. cbn [steps fold_left step]. unfold press_confirm. cbn [w_dialog emit set_dialog].
  unfold create_send, task. rewrite run_bind. cbn [run get_var op1 exec_op w_vars emit set_dialog set_vars bind].
  rewrite lookup_insert_eq. cbn -[json code_is kept]. unfold deliver. cbn -[json code_is kept].
  rewrite list_lookup_middle by done. unfold task.
  destruct res as [data|x st]; cbn -[code_is kept].
  - unfold code_is. rewrite run_bind. unfold get. destruct (get_prop data "code") as [c|]; cbn -[strict_eq kept].
    + destruct (strict_eq c (int 0)); cbn -[kept]; [|destruct (get_prop data "msg"); cbn -[kept]];
        unfold kept; cbn; by rewrite lookup_insert_eq.
    + unfold kept. cbn. by rewrite lookup_insert_eq.
  - unfold kept. cbn. by rewrite lookup_insert_eq.
Qed.

(** ** Theorems *)


Definition column_row (name : string) (pk : bool) (type : Z) (dynamic : bool) : val :=
  Obj [("name", Str name); ("data_type", int type); ("primary_key", Bool pk);
       ("auto_increment", Bool pk); ("regxs", Bool dynamic)].
Definition sample_columns : list val :=
  [column_row "id" true 4 false; column_row "tag" false 7 true; column_row "v" false 7 false].
Definition sample_world : world :=
  World (list_to_map [(("#rangeKeys", "value"), Str " a,b "); (("#name", "value"), Str "t1");
                      (("#dbName", "value"), Str "db"); (("#clusterId", "value"), Str "1")])
    (list_to_map [("data", Arr sample_columns)]) [] ∅ None [] [].


(** A second submission loses the dynamic columns.  The first one takes them out
    of the array of the grid; if the operator then closes the dialog, or the server
    does not create the table, the next submission that asks sends only the columns
    that were left, and the dynamic columns of the first are in neither list. *)
Theorem resubmission_drops_dynamic E w data keys evs input :
  w_vars w !! "data" = Some (Arr data) -> forallb clean data = true ->
  value_of w "#rangeKeys" = Str keys ->
  Asked create_dialog ∈ news E create_page w (Act ASubmit) ->
  (evs = [Cancel] \/ exists i res, evs = [Confirm i; Reply (length (w_pending w)) res]) ->
  let w' := steps E create_page w (Act ASubmit :: evs) in
  Asked create_dialog ∈ news E create_page w' (Act ASubmit) ->
  exists d l d' l' columns regxs,
    split_columns data = Split d l /\
    Permutation (pluck "name" d ++ pluck "name" l) (pluck "name" data) /\
    news E create_page (step E create_page w' (Act ASubmit)) (Confirm input) =
      [Sent (create_request w' keys columns regxs)] /\
    parse columns = Some (Arr d') /\ parse regxs = Some (Arr l') /\
    Permutation (pluck "name" d' ++ pluck "name" l') (pluck "name" d).
Proof.
  intros Hd Hc Hkeys Hask Hevs w' Hask'.
  destruct (submit_asked E w data keys Hd Hkeys Hask) as (d & l & _ & _ & Hs & Hstep).
  assert (Hw' : w_vars w' !! "data" = Some (Arr d) /\ forall sel, value_of w' sel = value_of w sel).
  { unfold w'. cbn [steps fold_left]. rewrite Hstep. by eapply (after_submission E w d l). }
  destruct Hw' as [Hd' Hv]. rewrite <- Hv in Hkeys.
  destruct (submit_asked E w' d keys Hd' Hkeys Hask') as (d' & l' & _ & _ & Hs' & Hstep').
  pose proof Hs as Hs0. rewrite split_columns_skip in Hs0.
  destruct (split_skip_clean _ _ _ Hs0 Hc) as [Hcd _].
  destruct (submit_confirmed E w' d keys input d' l' Hcd Hs' Hstep') as (columns & regxs & H1 & H2 & H3 & H4 & _).
  exists d, l, d', l', columns, regxs. split_ands; try done. by eapply (split_skip_conserves data d l "name").
Qed.

Definition retried_world : world := steps offline create_page sample_world [Act ASubmit; Cancel].

Lemma resubmission_drops_dynamic_witness :
  exists d l d' l' columns regxs,
    split_columns sample_columns = Split d l /\
    Permutation (pluck "name" d ++ pluck "name" l) (pluck "name" sample_columns) /\
    news offline create_page (step offline create_page retried_world (Act ASubmit)) (Confirm "") =
      [Sent (create_request retried_world " a,b " columns regxs)] /\
    parse columns = Some (Arr d') /\ parse regxs = Some (Arr l') /\
    Permutation (pluck "name" d' ++ pluck "name" l') (pluck "name" d).
Proof.
  apply (resubmission_drops_dynamic offline sample_world sample_columns " a,b " [Cancel] "");
    [reflexivity|reflexivity|reflexivity|vm_compute; left|by left|vm_compute; left].
Defined.

(** The column that follows a dynamic one escapes the loop of
    [createDataBaseTable]: whatever it is, it is passed on as it was, without the
    check of its name, without its index and key set, and without being moved if
    it is dynamic itself. *)
Theorem column_after_dynamic_unchecked d s rest name :
  field d "name" = Str name -> has_dash name = false -> is_dynamic d = true ->
  split_columns (d :: s :: rest) = after [s] [normalise d] (split_columns rest).
Proof.
  intros Hn Hd Hdyn. rewrite !split_columns_skip, split_skip_cons, Hn, Hd.
  rewrite is_dynamic_normalise, Hdyn. by destruct (split_skip rest).
Qed.

Lemma column_after_dynamic_unchecked_witness :
  split_columns [column_row "tag" false 7 true; column_row "a-b" false 7 false] =
    after [column_row "a-b" false 7 false] [normalise (column_row "tag" false 7 true)] (split_columns []).
Proof. by apply (column_after_dynamic_unchecked _ _ _ "tag"). Defined.

(** Of the types the grid offers, [isIntType] accepts BigInt alone; an
    auto-increment key of type Tinyint, Smallint or Int is refused, because the
    case label with four numbers is a comma expression whose value is 4. *)
Theorem isIntType_only_BigInt name code :
  (name, code) ∈ dataTypes -> isIntType (int code) = true <-> name = "BigInt".
Proof.
  intros H. unfold dataTypes in H.
  repeat (apply elem_of_cons in H as [[= -> ->]|H]; [by vm_compute|]). by apply elem_of_nil in H.
Qed.

Lemma isIntType_only_BigInt_witness : isIntType (int 3) = true <-> "Int" = "BigInt".
Proof. apply (isIntType_only_BigInt "Int" 3). vm_compute. by do 2 right; left. Defined.

(** Submitting the edit-table page with an auto-increment column in the grid
    throws: the page has no [isIntType], so the submission ends with no message,
    dialog or request. *)
Theorem edit_auto_increment_throws E w data r :
  w_vars w !! "data" = Some (Arr data) -> r ∈ data -> auto r = true ->
  news E edit_page w (Act ASubmit) = [Uncaught (Str "ReferenceError: isIntType is not defined")].
Proof.
  intros Hd Hr Ha. unfold news. cbn [step edit_page p_handler handler].
  unfold task, editDataBaseTable, check_columns.
  assert (Hk : forall pk n, check_keys no_isIntType data pk n =
    Throw (Str "ReferenceError: isIntType is not defined")).
  { clear Hd. induction data as [|x data IH]; [by apply elem_of_nil in Hr|]. intros pk n. cbn [check_keys].
    destruct (truthy (field x "auto_increment")) eqn:Ex; [done|]. cbn [bind].
    apply elem_of_cons in Hr as [->|Hr]; [by unfold auto in Ha; rewrite Ex in Ha|]. by apply IH. }
  cbn [bind get_var op1 run exec_op]. rewrite Hd. cbn [default id elements from_option].
  destruct data as [|x data]; [by apply elem_of_nil in Hr|]. cbn [length Nat.eqb].
  rewrite Hk. cbn. by rewrite drop_app_length.
Qed.

Lemma edit_auto_increment_throws_witness :
  news offline edit_page sample_world (Act ASubmit) =
    [Uncaught (Str "ReferenceError: isIntType is not defined")].
Proof.
  apply (edit_auto_increment_throws offline sample_world sample_columns (column_row "id" true 4 false));
    [reflexivity|left|reflexivity].
Defined.

(** On the pages that create and edit a table, in every reachable state: the
    table is created or changed only by the confirm button of the dialog that
    asked for it; one button sends at most one request and cancelling none; the
    readable answers are shown, and success only after code 0. *)
Theorem table_pages_safe E w ev w' ev' :
  reachable E create_page w -> reachable E edit_page w' ->
  safe_step table_policy E create_page w ev /\ safe_step table_policy E edit_page w' ev'.
Proof. intros Hw Hw'. split; by apply reachable_safe_step. Qed.

Definition insert_session : world :=
  session offline create_page [] [Act (AInsert (column_row "id" true 4 false))].

Lemma table_pages_safe_witness :
  safe_step table_policy offline create_page insert_session (Act ASubmit) /\
  safe_step table_policy offline edit_page (session offline edit_page [] []) Cancel.
Proof. apply (table_pages_safe offline); apply reachable_session. Defined.
