(* ===== verification/Tables.v ===== *)
(** * Tables of a database (static/js/createtables/tableslist.js,
    viewtablecolumn.js, topologymiss.js, rangedup.js)

    The list of tables with the links and operations of a table, and the pages
    behind its links: the columns of a table, the gaps in the key space of its
    ranges and its duplicate ranges. *)

From S2P Require Import Prelude JsValue Json Browser Logic Contracts Widgets Utils Urls CreateTable.

(** ** The list of tables (tableslist.js) *)

(** The controller keeps the cluster for the functions on its scope. *)
Definition mytables : prog unit :=
  dbId <- val_of "#dbId" ;;
  dbName <- val_of "#dbName" ;;
  clusterId <- val_of "#clusterId" ;;
  set_var "mytables.clusterId" clusterId ;;
  ajax (http_get ("/metadata/dbTablesDataGetByDbName?dbId=" +:+ to_str dbId +:+ "&dbName=" +:+
                  to_str dbName +:+ "&clusterId=" +:+ to_str clusterId))
    (fun data =>
       ok <- code_is data 0 ;;
       if ok then tables <- get data "data" ;; set_var "tableList" tables
       else msg <- get data "msg" ;; swal3 "获取失败1" msg "error")
    no_error.

(** [window.location.href = path + "?" + k1 + "=" + table.db_name + ...]. *)
Definition table_link (path db_key name_key : string) (table : val) : prog unit :=
  db_name <- get table "db_name" ;;
  name <- get table "name" ;;
  clusterId <- get_var "mytables.clusterId" ;;
  goto (path +:+ "?" +:+ db_key +:+ "=" +:+ to_str db_name +:+ "&" +:+ name_key +:+ "=" +:+
        to_str name +:+ "&clusterId=" +:+ to_str clusterId).

Definition viewRangePage : val -> prog unit := table_link "/range/viewRangeInfo" "db_name" "name".

Definition getTableMonitorInfo (table : val) : prog unit :=
  db_name <- get table "db_name" ;;
  name <- get table "name" ;;
  id <- get table "id" ;;
  clusterId <- get_var "mytables.clusterId" ;;
  goto ("/monitor/viewTableMonitor?dbName=" +:+ to_str db_name +:+ "&tableName=" +:+ to_str name +:+
        "&tableId=" +:+ to_str id +:+ "&clusterId=" +:+ to_str clusterId).

Definition getColumnsView : val -> prog unit :=
  table_link "/page/metadata/viewTableColumns" "db_name" "name".
Definition getTableEditView : val -> prog unit :=
  table_link "/page/metadata/edittable" "dbName" "tableName".
Definition getRangeDuplicateView : val -> prog unit :=
  table_link "/page/table/duplicateRange" "dbName" "tableName".
Definition getTopologyMissingView : val -> prog unit :=
  table_link "/page/table/topology" "dbName" "tableName".
Definition getUnstableRangeView : val -> prog unit :=
  table_link "/page/range/unstable" "dbName" "tableName".

(** [swal(ok, data.msg, "success")] or [swal(fail, data.msg, "error")]. *)
Definition report_msg (ok_title fail_title : string) (data : val) : prog unit :=
  ok <- code_is data 0 ;;
  msg <- get data "msg" ;;
  if ok then swal3 ok_title msg "success" else swal3 fail_title msg "error".

Definition checkTopology (table : val) : prog unit :=
  clusterId <- get_var "mytables.clusterId" ;;
  db_name <- get table "db_name" ;;
  name <- get table "name" ;;
  ajax (post "/topology/check" [("clusterId", clusterId); ("dbName", db_name); ("tableName", name)])
    (report_msg "拓扑正确!" "拓扑检查失败") (failed_res "拓扑检查失败").

Definition getAbnormalRangeView (table : val) : prog unit :=
  swal (ask "异常range or 查询单个range" "请输入一个rangeId来查询" "input" false "查询")
    (Fn1 (fun inputValue =>
       if strict_eq inputValue (Bool false) then done else
       let rangeId := inputValue in
       db_name <- get table "db_name" ;;
       name <- get table "name" ;;
       clusterId <- get_var "mytables.clusterId" ;;
       goto ("/page/range/unhealthy?dbName=" +:+ to_str db_name +:+ "&tableName=" +:+ to_str name +:+
             "&clusterId=" +:+ to_str clusterId +:+ "&rangeId=" +:+ to_str rangeId))).

(** The callback of the two deletions; [flag] asks for the fast one. *)
Definition delTable (table : val) (flag : bool) : prog unit :=
  clusterId <- get_var "mytables.clusterId" ;;
  db_name <- get table "db_name" ;;
  name <- get table "name" ;;
  ajax (post "/metadata/delTable"
          [("clusterId", clusterId); ("dbName", db_name); ("tableName", name); ("flag", Bool flag)])
    (fun data =>
       ok <- code_is data 0 ;;
       msg <- get data "msg" ;;
       if ok then swal3 "删除成功!" msg "success" ;; reload else swal3 "删除失败" msg "error")
    (failed_res "删除失败").

Definition deleteRow (table : val) : prog unit :=
  swal (warn "删除表?" "删除") (Fn0 (delTable table false)).

Definition fastDeleteRow (table : val) : prog unit :=
  swal (warn "快速删除表?【一个周期清表】" "删除") (Fn0 (delTable table true)).

Definition rwPolicys (table : val) : prog unit :=
  rw <- get table "RwPolicy" ;;
  policy <- get rw "policy" ;;
  let policyObject := Obj [("policy", parse_int policy)] in
  clusterId <- get_var "mytables.clusterId" ;;
  db_name <- get table "db_name" ;;
  name <- get table "name" ;;
  ajax (post "/metadata/tableRwPolicy"
          [("option", Str "set"); ("clusterId", clusterId); ("dbName", db_name);
           ("tableName", name); ("policy", json policyObject)])
    (fun data =>
       attach <- get data "attach" ;;
       ok <- code_is attach 0 ;;
       message <- get attach "message" ;;
       if ok then swal3 "设置成功!" message "success" else swal3 "设置失败" message "error")
    (failed_res "设置失败").

(** The filter that names the state of a table. *)
Definition tableStatus (input : val) : val :=
  if loose_eq input (int 3) then Str "正常"
  else if loose_eq input (int 1) then Str "初始化"
  else if loose_eq input (int 2) then Str "补分片ing"
  else if loose_eq input (int 4) then Str "Delete"
  else if loose_eq input (int 5) then Str "Deleting"
  else if loose_eq input (int 0) then Str "invalid"
  else input.

Inductive tables_action : Type :=
| AViewRange (t : val) | AMonitor (t : val) | AColumns (t : val) | AEdit (t : val)
| ACheck (t : val) | ADuplicate (t : val) | AMissing (t : val) | AAbnormal (t : val)
| AUnstable (t : val) | ADeleteRow (t : val) | AFastDeleteRow (t : val) | ARwPolicys (t : val).

Definition tables_handler (a : tables_action) : prog unit :=
  match a with
  | AViewRange t => viewRangePage t
  | AMonitor t => getTableMonitorInfo t
  | AColumns t => getColumnsView t
  | AEdit t => getTableEditView t
  | ACheck t => checkTopology t
  | ADuplicate t => getRangeDuplicateView t
  | AMissing t => getTopologyMissingView t
  | AAbnormal t => getAbnormalRangeView t
  | AUnstable t => getUnstableRangeView t
  | ADeleteRow t => deleteRow t
  | AFastDeleteRow t => fastDeleteRow t
  | ARwPolicys t => rwPolicys t
  end.

Definition tables_page : page :=
  {| p_action := tables_action; p_load := start_angular [mytables]; p_handler := tables_handler |}.

(** ** The columns of a table (viewtablecolumn.js) *)

(** The choices of the grid's select fields. *)
Definition yes_no (yes no : val) : val :=
  Arr [Obj [("name", Str "是"); ("value", yes)]; Obj [("name", Str "否"); ("value", no)]].
Definition type_items : val :=
  Arr (List.map (fun '(n, v) => Obj [("name", Str n); ("value", int v)]) dataTypes).

Definition name_field : val :=
  Obj [("title", Str "列名"); ("name", Str "name"); ("type", Str "text");
       ("validate", Str "required"); ("width", int 100); ("align", Str "center")].
Definition select_field (title name : string) (choices : val) : val :=
  Obj [("title", Str title); ("name", Str name); ("type", Str "select"); ("items", choices);
       ("valueField", Str "value"); ("textField", Str "name"); ("width", int 80);
       ("align", Str "center")].

(** The fields of the two read-only grids. *)
Definition view_fields : val :=
  Arr [name_field; select_field "类型" "data_type" type_items;
       select_field "Unsigned" "unsigned" (yes_no (Bool true) (Bool false));
       select_field "是否为主键" "primary_key" (yes_no (int 1) (int 0));
       select_field "自增id" "auto_increment" (yes_no (Bool true) (Bool false))].
Definition regxs_fields : val := Arr [name_field; select_field "类型" "data_type" type_items].

(** Unlike edittable.js it reads the length of [regxs] without a test. *)
Definition view_columns : prog unit :=
  dbName <- val_of "#dbName" ;;
  name <- val_of "#name" ;;
  clusterId <- val_of "#clusterId" ;;
  columnsArray <- new_ref (Arr []) ;;
  regxsArray <- new_ref (Arr []) ;;
  ajax (post_sync "/metadata/getTableColumns"
          [("dbName", dbName); ("name", name); ("clusterId", clusterId)])
    (fun data =>
       ok <- code_is data 0 ;;
       if ok then
         d <- get data "data" ;;
         columns <- get d "columns" ;;
         get columns "length" ;;
         put_ref columnsArray (Arr (items columns)) ;;
         regxs <- get d "regxs" ;;
         get regxs "length" ;;
         put_ref regxsArray (Arr (items regxs))
       else msg <- get data "msg" ;; swal3 "获取失败" msg "error")
    (failed_res "获取失败") ;;
  columns <- get_ref columnsArray ;;
  call "jsGrid" [Str "#jsGrid"; Obj [("width", Str "100%"); ("data", columns); ("fields", view_fields)]] ;;
  regxs <- get_ref regxsArray ;;
  call "jsGrid" [Str "#jsGridRegxs"; Obj [("width", Str "100%"); ("data", regxs); ("fields", regxs_fields)]].

(** ** Gaps between ranges (topologymiss.js) *)

(** The controller keeps the names for [createRange]. *)
Definition missList : prog unit :=
  dbName <- val_of "#dbName" ;;
  tableName <- val_of "#tableName" ;;
  clusterId <- val_of "#clusterId" ;;
  set_var "missList.dbName" dbName ;;
  set_var "missList.tableName" tableName ;;
  set_var "missList.clusterId" clusterId ;;
  ajax (post_sync "/table/topology/missing"
          [("dbName", dbName); ("tableName", tableName); ("clusterId", clusterId)])
    (fun data =>
       ok <- code_is data 0 ;;
       if ok then l <- get data "data" ;; set_var "missList" l
       else msg <- get data "msg" ;; swal3 "获取拓扑失败" msg "error")
    (failed_res "获取拓扑失败").

Definition createRange (miss : val) : prog unit :=
  clusterId <- get_var "missList.clusterId" ;;
  dbName <- get_var "missList.dbName" ;;
  tableName <- get_var "missList.tableName" ;;
  start_key <- get miss "start_key" ;;
  end_key <- get miss "end_key" ;;
  ajax (post "/table/topology/create"
          [("clusterId", clusterId); ("dbName", dbName); ("tableName", tableName);
           ("startKey", start_key); ("endKey", end_key); ("batchFlag", Bool false)])
    (report_msg "拓扑填充成功!" "拓扑填充失败") (failed_res "拓扑填充失败").

Definition batchCreateRange : prog unit :=
  clusterId <- val_of "#clusterId" ;;
  dbName <- val_of "#dbName" ;;
  tableName <- val_of "#tableName" ;;
  ajax (post "/table/topology/create"
          [("clusterId", clusterId); ("dbName", dbName); ("tableName", tableName);
           ("batchFlag", Bool true)])
    (report_msg "拓扑批量填充成功!" "拓扑批量填充失败") (failed_res "拓扑批量填充失败").

Inductive missing_action : Type := ACreateRange (miss : val) | ABatchCreateRange.

Definition missing_page : page :=
  {| p_action := missing_action;
     p_load := start_angular [missList];
     p_handler := fun a => match a with
                           | ACreateRange m => createRange m
                           | ABatchCreateRange => batchCreateRange
                           end |}.

(** ** Duplicate ranges (rangedup.js) *)

Definition rangeList : prog unit :=
  dbName <- val_of "#dbName" ;;
  tableName <- val_of "#tableName" ;;
  clusterId <- val_of "#clusterId" ;;
  set_var "rangeList.clusterId" clusterId ;;
  ajax (post_sync "/table/duplicateRange"
          [("dbName", dbName); ("tableName", tableName); ("clusterId", clusterId)])
    (fun data =>
       ok <- code_is data 0 ;;
       if ok then l <- get data "data" ;; set_var "rangeList" l
       else msg <- get data "msg" ;; swal3 "获取range列表失败" msg "error")
    (failed_res "获取range列表失败").

(** Deletes at once. *)
Definition deleteRange (rng : val) : prog unit :=
  clusterId <- get_var "rangeList.clusterId" ;;
  id <- get rng "id" ;;
  ajax (post "/range/delete" [("clusterId", clusterId); ("rangeId", id)])
    (report_msg "删除range成功!" "删除range失败") (failed_res "删除range失败").

Definition dup_page : page :=
  {| p_action := val; p_load := start_angular [rangeList]; p_handler := deleteRange |}.

(** ** Contracts *)

Definition tables_changes (url : string) : list string :=
  if String.eqb url "/metadata/delTable" then ["删除表?"; "快速删除表?【一个周期清表】"] else [].

(** The answer to a policy is wrapped in [attach]. *)
Definition is_policy (r : request) : bool := String.eqb (r_url r) "/metadata/tableRwPolicy".

Definition tables_policy : policy := {|
  guard := tables_changes;
  burst := 1;
  follow_up := 0;
  watched := fun r res =>
    posts r && readable res &&
    match res with Success d => negb (is_policy r) || is_object (field d "attach") | _ => true end;
  heard := fun _ _ => false;
  verdict := fun r d => code_zero (if is_policy r then field d "attach" else d)
|}.

Definition plain_policy : policy := usual (fun _ => []).

Lemma tables_promises a :
  wp (promises tables_policy) (tables_handler a) [] (ends (promises tables_policy) PAct).
Proof. destruct a; cbn [tables_handler]; promised. Qed.

#[export] Instance tables_page_promising : Promising tables_page tables_policy.
Proof.
  split; [|apply tables_promises]. apply loads_promises, loads_start_angular. for_all; loaded.
Qed.

#[export] Instance missing_page_promising : Promising missing_page plain_policy.
Proof.
  split; [apply loads_promises, loads_start_angular; for_all; loaded|].
  intros a. cbn [p_handler missing_page]. destruct a; promised.
Qed.

#[export] Instance dup_page_promising : Promising dup_page plain_policy.
Proof.
  split; [apply loads_promises, loads_start_angular; for_all; loaded|].
  intros a. cbn [p_handler dup_page]. promised.
Qed.

(** A deletion is the kind the dialog named: the fast one has its own title. *)
Definition flag_matches : contract := fun ph log =>
  Forall (fun r => String.eqb (r_url r) "/metadata/delTable" = true ->
    exists o flag, ph = PConfirm o /\ field (r_data r) "flag" = Bool flag /\
      so_title o = (if flag then "快速删除表?【一个周期清表】" else "删除表?")) (requests log).

Ltac flagged :=
  wp_run; unfold ends, flag_matches; cbn [app uncaught requests omap list_omap sent_of]; for_all;
  cbn [r_url post http_get]; intros Hurl; lazy -[to_str] in Hurl;
  first [done | eexists _, _; by split_ands].

Lemma tables_flags a : wp flag_matches (tables_handler a) [] (ends flag_matches PAct).
Proof. destruct a; cbn [tables_handler]; flagged. Qed.

Lemma tables_obey_flags : page_obeys flag_matches tables_page.
Proof.
  split; [|apply tables_flags]. cbn [p_load tables_page]. unfold start_angular. cbn [fold_right]. flagged.
Qed.

Lemma flag_matches_idle : allows_idle flag_matches.
Proof. repeat split; constructor. Qed.

(** ** Theorems *)

(** On the list of tables a deletion is requested only by the confirm button
    of a deletion dialog, and the fast deletion (flag true) only by that of the
    dialog whose title announces it; in every reachable state. *)
Theorem table_deletion_as_announced E w ev r :
  reachable E tables_page w -> Sent r ∈ news E tables_page w ev ->
  r_url r = "/metadata/delTable" ->
  exists input d flag, ev = Confirm input /\ w_dialog w = Some d /\
    field (r_data r) "flag" = Bool flag /\
    so_title (d_opts d) = (if flag then "快速删除表?【一个周期清表】" else "删除表?").
Proof.
  intros Hw Hr Hurl.
  destruct (reachable_news flag_matches E tables_page w ev flag_matches_idle tables_obey_flags Hw) as [Hf _].
  unfold flag_matches in Hf. rewrite Forall_forall in Hf.
  assert (Hin : In r (requests (news E tables_page w ev))).
  { apply list_elem_of_In, list_elem_of_omap. by exists (Sent r). }
  destruct (Hf r Hin ltac:(by rewrite Hurl)) as (o & flag & Hph & Hfl & Ht).
  destruct ev as [|input| |i res| | |]; cbn in Hph; try done; [|by repeat case_match..].
  destruct (w_dialog w) as [d|]; [|done]. injection Hph as <-. by exists input, d, flag.
Qed.

Definition sample_table : val := Obj [("db_name", Str "db"); ("name", Str "t"); ("id", int 1)].
Definition tables_session : world :=
  session offline tables_page [("#clusterId", "value", Str "7")] [Act (AFastDeleteRow sample_table)].

Lemma table_deletion_as_announced_witness :
  exists input d flag, Confirm "" = Confirm (H := tables_action) input /\
    w_dialog tables_session = Some d /\ Bool true = Bool flag /\
    so_title (d_opts d) = (if flag then "快速删除表?【一个周期清表】" else "删除表?").
Proof.
  apply (table_deletion_as_announced offline tables_session (Confirm "")
    (post "/metadata/delTable" [("clusterId", Str "7"); ("dbName", Str "db"); ("tableName", Str "t");
       ("flag", Bool true)]));
    [apply reachable_session|vm_compute; left|reflexivity].
Defined.

(** On the pages of tables, gaps and duplicate ranges, in every reachable
    state: one button sends at most one request and cancelling none; readable
    answers are shown; success is announced only after a granting answer (for
    the read-write policy, the code inside [attach]). *)
Theorem tables_pages_safe E w1 ev1 w2 ev2 w3 ev3 :
  reachable E tables_page w1 -> reachable E missing_page w2 -> reachable E dup_page w3 ->
  safe_step tables_policy E tables_page w1 ev1 /\ safe_step plain_policy E missing_page w2 ev2 /\
  safe_step plain_policy E dup_page w3 ev3.
Proof. intros H1 H2 H3. split_ands; by apply reachable_safe_step. Qed.

Lemma tables_pages_safe_witness :
  safe_step tables_policy offline tables_page tables_session (Confirm "") /\
  safe_step plain_policy offline missing_page (session offline missing_page [] []) (Act ABatchCreateRange) /\
  safe_step plain_policy offline dup_page (session offline dup_page [] []) (Act (Obj [("id", int 3)])).
Proof. apply (tables_pages_safe offline); apply reachable_session. Defined.
