(* ===== verification/ServerInfo.v ===== *)
(** * The list of servers (static/js/serverInfo.js)

    Servers are entered one by one in a grid, whose rule [mycheck] tests an
    address, or in a batch with [createip]; both use the same regular
    expression for addresses.  [re_dotted_quad] shows what it accepts. *)

From S2P Require Import Prelude JsValue Json Browser Logic Contracts Widgets Utils DatePairs Urls Regex Batch.
From Stdlib Require Import Ascii.

(** ** The expression *)

(** [([0-9]|[1-9]\d|1\d\d|2[0-4]\d|25[0-5])] *)
Definition octet : regex :=
  Alt digit
    (Alt (Seq (Class (char_range "1" "9")) digit)
      (Alt (Seq (char "1") (Seq digit digit))
        (Alt (Seq (char "2") (Seq (Class (char_range "0" "4")) digit))
             (Seq (char "2") (Seq (char "5") (Class (char_range "0" "5"))))))).

Definition dot : regex := char ".".

Definition re : regex :=
  Seq octet (Seq dot (Seq octet (Seq dot (Seq octet (Seq dot octet))))).

(** [re.test(v)] converts its argument to a text. *)
Definition re_test (v : val) : bool := matches re (to_str v).

(** ** The rule of the grid *)

(** [isNaN(parseFloat(s))]: no number starts the text. *)
Definition leads_number (s : string) : bool :=
  match s with
  | String a s' =>
      is_digit a || Ascii.eqb a "." && match s' with String b _ => is_digit b | _ => false end
      || match str_prefix "Infinity" s with Some _ => true | None => false end
  | EmptyString => false
  end.
Definition parse_float_nan (v : val) : bool :=
  match trim_left (to_str v) with
  | String a s =>
      negb (leads_number (if Ascii.eqb a "+" || Ascii.eqb a "-" then s else String a s))
  | EmptyString => true
  end.

(** [[ok, message, ""]]. *)
Definition mycheck (value : val) : val :=
  if parse_float_nan value || negb (re_test value)
  then Arr [Bool false; Str "请输入正确的ip"; Str ""]
  else Arr [Bool true; Str ""; Str ""].

(** ** The grid *)

Definition colModel (off : Z) : list column :=
  [ col "ID" "id" "center" ""; col "IP" "ip" "center" "";
    formatted (fun v _ _ => match to_number v with
                            | Fin z => Str (Utils.formatDate (local_date off z) (Some "yyyy-MM-dd hh:mm:ss"))
                            | NaN => Str "NaN-NaN-NaN NaN:NaN:NaN"
                            end) (col "创建时间" "createdTime" "center" "");
    col "状态" "status" "center" "" ].

Definition grid_options : val :=
  Obj [("url", Str "/serverInfo/getServerList"); ("datatype", Str "json"); ("height", Str "50%");
       ("autowidth", Bool true); ("shrinkToFit", Bool true); ("rowNum", int 10);
       ("rowList", Arr [int 10; int 20; int 30]);
       ("colNames", Arr [Str "ID"; Str "IP"; Str "创建时间"; Str "状态"]);
       ("pager", Str "#server_pager_list"); ("viewrecords", Bool true); ("caption", Str "服务器列表");
       ("add", Bool true); ("edit", Bool true); ("addtext", Str "Add"); ("edittext", Str "Edit");
       ("editurl", Str "/serverInfo/editServerInfo"); ("hidegrid", Bool false);
       ("closeOnEscape", Bool true); ("rownumbers", Bool true)].

(** The grid itself is jqGrid's; its columns are [colModel]. *)
Definition load : prog unit :=
  call "jqGrid" [Str "#server_table_list"; grid_options] ;;
  call "setSelection" [Str "#server_table_list"; int 4; Bool true] ;;
  call "navGrid" [Str "#server_pager_list";
    Obj [("edit", Bool true); ("add", Bool true); ("del", Bool true); ("search", Bool true)];
    Obj [("height", int 200); ("reloadAfterSubmit", Bool true); ("closeAfterAdd", Bool true);
         ("closeAfterEdit", Bool true)]] ;;
  call "navSeparatorAdd" [Str "#server_pager_list"] ;;
  call "navButtonAdd" [Str "#server_pager_list";
    Obj [("caption", Str "批量添加"); ("buttonicon", Str "ui-icon-newwin"); ("position", Str "last");
         ("title", Str "请上传excel文件"); ("modal", Bool true); ("cursor", Str "pointer")]].

Definition ipadd : prog unit := show_modal "#ipModal".
Definition firm : prog unit := show_modal "#identifier".

(** ** Batch entry *)

(** [while (ip--) if (!re.test(l[ip])) { alert; return; }]: the lines from the
    last to the first. *)
Fixpoint check_lines (lines : list string) : bool :=
  match lines with
  | [] => true
  | l :: lines' => if negb (re_test (Str l)) then false else check_lines lines'
  end.

Definition newline : ascii := "010".

(** [$.trim] of a missing field is the empty text. *)
Definition trim_val (v : val) : string :=
  match v with Undef | Null => "" | _ => trim (to_str v) end.

Definition createip : prog unit :=
  iplist <- val_of "#iplist" ;;
  let iplistTemp := split_on newline (trim_val iplist) in
  if negb (check_lines (rev iplistTemp)) then alert (Str "请输入正确的IP") else
  ajax (Request "/serverInfo/createIp" "post" true "application/json;charset=utf-8"
          (json (Arr (List.map Str iplistTemp))))
    (fun data =>
       ok <- code_is data 0 ;;
       if ok then alert (Str "插入成功") else done)
    no_error.

Inductive action : Type := AIpadd | AFirm | ACreateip.

Definition handler (a : action) : prog unit :=
  match a with AIpadd => ipadd | AFirm => firm | ACreateip => createip end.

Definition server_page : page :=
  {| p_action := action; p_load := load; p_handler := handler |}.

(** ** What the expression accepts *)

Definition is_octet (z : Z) : Prop := 0 <= z <= 255.

(** Four numbers from 0 to 255 in decimal, without leading zeros. *)
Definition dotted_quad (s : string) : Prop :=
  exists a b c d, is_octet a /\ is_octet b /\ is_octet c /\ is_octet d /\
    s = string_of_Z a +:+ "." +:+ string_of_Z b +:+ "." +:+ string_of_Z c +:+ "." +:+ string_of_Z d.

Definition numerals : list string := List.map string_of_Z (zrange 0 256).

Lemma octet_words_numerals :
  forallb (fun s => existsb (String.eqb s) numerals) (words octet) = true /\
  forallb (fun s => existsb (String.eqb s) (words octet)) numerals = true.
Proof. split; vm_compute; reflexivity. Qed.

Lemma octet_lang s : lang octet s <-> exists z, is_octet z /\ s = string_of_Z z.
Proof.
  rewrite lang_words. destruct octet_words_numerals as [H1 H2].
  rewrite forallb_forall in H1, H2. split.
  - intros Hs. apply H1, existsb_exists in Hs as (t & Ht & ->%String.eqb_eq).
    apply in_map_iff in Ht as (z & <- & Hz). exists z. split; [|done].
    apply list_elem_of_In, list_elem_of_fmap in Hz as (i & -> & Hi). apply elem_of_seq in Hi.
    unfold is_octet. lia.
  - intros (z & Hz & ->). assert (Hin : In (string_of_Z z) numerals).
    { apply in_map, list_elem_of_In, list_elem_of_fmap. exists (Z.to_nat z).
      unfold is_octet in Hz. split; [lia|]. apply elem_of_seq. lia. }
    by apply H2, existsb_exists in Hin as (t & Ht & ->%String.eqb_eq).
Qed.

Lemma lang_Seq r1 r2 s :
  lang (Seq r1 r2) s <-> exists s1 s2, lang r1 s1 /\ lang r2 s2 /\ s = s1 +:+ s2.
Proof.
  split.
  - inversion 1 as [| |? ? s1 s2 H1 H2| |]; subst. eauto.
  - intros (s1 & s2 & H1 & H2 & ->). by constructor.
Qed.

Lemma lang_dot s : lang dot s <-> s = ".".
Proof.
  split; [|intros ->; constructor; by left].
  inversion 1 as [|? a Ha| | |]; subst. apply list_elem_of_singleton in Ha. by subst.
Qed.

Lemma re_lang s : matches re s = true <-> dotted_quad s.
Proof.
  rewrite matches_lang. split.
  - intros (s1 & r1 & (a & Ha & ->)%octet_lang & H & ->)%lang_Seq.
    apply lang_Seq in H as (? & r2 & ->%lang_dot & H & ->).
    apply lang_Seq in H as (s2 & r3 & (b & Hb & ->)%octet_lang & H & ->).
    apply lang_Seq in H as (? & r4 & ->%lang_dot & H & ->).
    apply lang_Seq in H as (s3 & r5 & (c & Hc & ->)%octet_lang & H & ->).
    apply lang_Seq in H as (? & s4 & ->%lang_dot & (d & Hd & ->)%octet_lang & ->).
    by exists a, b, c, d.
  - intros (a & b & c & d & Ha & Hb & Hc & Hd & ->). unfold re.
    repeat (constructor; [apply octet_lang; by eauto|constructor; [by apply lang_dot|]]).
    apply octet_lang. by eauto.
Qed.

(** A dotted quad begins with a digit: the test with [parseFloat] refuses
    nothing more. *)
Lemma quad_number s : dotted_quad s -> parse_float_nan (Str s) = false.
Proof.
  intros (a & b & c & d & Ha & _ & _ & _ & ->). unfold is_octet in Ha.
  pose proof (string_of_Z_digits a (proj1 Ha)) as Hd.
  destruct (string_of_Z a) as [|x s] eqn:E; [by apply string_of_Z_nonempty in E|].
  cbn in Hd. apply andb_true_iff in Hd as [Hx _].
  unfold parse_float_nan. cbn [to_str]. rewrite str_app_cons.
  generalize (s +:+ "." +:+ string_of_Z b +:+ "." +:+ string_of_Z c +:+ "." +:+ string_of_Z d).
  intros t. clear -Hx. destruct x as [[] [] [] [] [] [] [] []]; try discriminate Hx;
    destruct t as [|? [|? t]]; reflexivity.
Qed.

(** The rule of the grid accepts exactly the texts made of four numbers
    from 0 to 255 in decimal, separated by dots. *)
Theorem mycheck_dotted_quad (v : val) :
  mycheck v = Arr [Bool true; Str ""; Str ""] <-> dotted_quad (to_str v).
Proof.
  rewrite <- re_lang. unfold mycheck, re_test. destruct (matches re (to_str v)) eqn:E.
  - assert (Hn : parse_float_nan v = false).
    { apply re_lang, quad_number in E. exact E. }
    by rewrite Hn.
  - rewrite orb_true_r. split; intros H; discriminate H.
Qed.

Lemma check_lines_rev lines : check_lines (rev lines) = true <-> Forall dotted_quad lines.
Proof.
  transitivity (Forall dotted_quad (rev lines)); [|by rewrite <- Permutation_rev].
  induction (rev lines) as [|l ls IH]; [by split|]. cbn [check_lines].
  rewrite Forall_cons_iff, <- re_lang. unfold re_test.
  change (to_str (Str l)) with l. destruct (matches re l); cbn [negb]; [rewrite IH; tauto|]. split; [done|]. by intros [? _].
Qed.

#[global] Instance dotted_quad_dec s : Decision (dotted_quad s).
Proof. destruct (matches re s) eqn:E; [left|right]; rewrite <- re_lang, E; done. Defined.

(** The lines of the field. *)
Definition entered (w : world) : list string :=
  split_on newline (trim_val (value_of w "#iplist")).

Lemma clean_strings l : clean (Arr (List.map Str l)) = true.
Proof. induction l as [|s l IH]; [done|]. exact IH. Qed.

(** C34: the batch entry of servers sends nothing and warns the user when a line
    of the field is not an address; otherwise it sends one request, whose JSON
    body the server reads back as the list of the lines, in their order. *)
Theorem createip_submission (E : env) (w : world) :
  let out := w_out (task E createip w) in
  if decide (Forall dotted_quad (entered w))
  then exists body, out = w_out w ++ [Sent (Request "/serverInfo/createIp" "post" true
                                         "application/json;charset=utf-8" (Str body))] /\
                    parse body = Some (Arr (List.map Str (entered w)))
  else out = w_out w ++ [Alerted (Str "请输入正确的IP")].
Proof.
  cbv zeta. unfold task, createip. cbn [bind val_of op1 run exec_op]. fold (entered w).
  fold (attr_of w "#iplist" "value"). fold (value_of w "#iplist"). fold (entered w).
  pose proof (check_lines_rev (entered w)) as Hc.

  destruct (decide (Forall dotted_quad (entered w))) as [H|H].
  - rewrite (proj2 Hc H). pose proof (clean_strings (entered w)) as Hl.
    destruct (stringify_clean _ Hl) as (body & Hb). exists body. unfold json. rewrite Hb.
    split; [done|]. by apply parse_stringify.
  - destruct (check_lines (rev (entered w))) eqn:Ec; [by destruct H; apply Hc|done].
Qed.
