(* ===== verification/SqlConsole.v ===== *)
(** * The SQL console (static/js/console/panel.js, viewconsole.js)

    [btnQuery] sends the selected part of the text field, or all of it;
    [addPanel] opens a tab with a grid for every result; the context menus of a
    grid hide columns and copy rows to the clipboard.  A text area holds a
    string, and positions in it are counted in bytes here.  The branches for
    Internet Explorer's [document.selection] and [createTextRange] are not
    modelled. *)

From S2P Require Import Prelude JsValue Browser Logic Contracts Urls.
From Stdlib Require Import Ascii.

(** ** Cells *)

(** U+00A0 in UTF-8. *)
Definition nbsp_head : ascii := "194".
Definition nbsp_tail : ascii := "160".

(** The serialisation of a text node, [$('<div/>').text(val).html()]. *)
Fixpoint text_html (s : string) : string :=
  match s with
  | EmptyString => ""
  | String a s' =>
      if Ascii.eqb a "&" then "&amp;" +:+ text_html s'
      else if Ascii.eqb a "<" then "&lt;" +:+ text_html s'
      else if Ascii.eqb a ">" then "&gt;" +:+ text_html s'
      else if Ascii.eqb a nbsp_head then
        match s' with
        | String b s'' =>
            if Ascii.eqb b nbsp_tail then "&nbsp;" +:+ text_html s'' else String a (text_html s')
        | EmptyString => String a ""
        end
      else String a (text_html s')
  end.

Definition html2Escape (v : val) : val :=
  match v with
  | Str s =>
      if negb (String.eqb s "") && (has_char "<" s || has_char ">" s) then Str (text_html s) else v
  | _ => v
  end.

(** ** Results *)

Definition js_inc (v : val) : val :=
  match to_number v with Fin z => int (z + 1) | NaN => Num NaN end.

(** A column of the grid; its formatter is [html2Escape]. *)
Definition grid_column (key : val) : val :=
  Obj [("field", key); ("title", key); ("width", int 100)].

Definition addPanel (keys values : val) : prog unit :=
  index <- get_var "index" ;;
  call "tabs" [Str "#retTabs"; Str "add";
    Obj [("title", Str ("结果集:" +:+ to_str index));
         ("content", Str (q "<table id=`grid" +:+ to_str index +:+ q "`></table>"));
         ("closable", Bool true); ("border", Bool false); ("width", Str "auto"); ("height", Str "auto")]] ;;
  get keys "length" ;;
  call "datagrid" [Str ("#grid" +:+ to_str index);
    Obj [("fit", Bool true); ("data", values); ("method", Str "post");
         ("columns", Arr [Arr (List.map grid_column (items keys))]); ("rownumbers", Bool true);
         ("singleSelect", Bool true); ("autoRowHeight", Bool false); ("height", Str "auto")]] ;;
  set_var "index" (js_inc index).

(** ** The text field *)

Fixpoint str_take (n : nat) (s : string) : string :=
  match n, s with
  | S n', String a s' => String a (str_take n' s')
  | _, _ => ""
  end.

(** [s.substring(i, j)]. *)
Definition substring (s : string) (i j : Z) : string :=
  let clip z := Z.min (Z.max z 0) (Z.of_nat (String.length s)) in
  let a := Z.min (clip i) (clip j) in
  let b := Z.max (clip i) (clip j) in
  str_take (Z.to_nat (b - a)) (str_drop (Z.to_nat a) s).

Definition position (v : val) : Z := match to_number v with Fin z => z | NaN => 0 end.

Definition selection (sel : string) : prog string :=
  text <- val_of sel ;;
  i <- get_attr sel "selectionStart" ;;
  j <- get_attr sel "selectionEnd" ;;
  Ret (substring (to_str text) (position i) (position j)).

Definition setSelectRange (sel : string) (start stop : Z) : prog unit :=
  set_attr sel "selectionStart" (int start) ;;
  set_attr sel "selectionEnd" (int stop) ;;
  call "focus" [Str sel].

Definition messager_alert (title : string) (msg : val) : prog unit :=
  call "messager.alert" [Str title; msg].

(** [s.indexOf(t)] as a number. *)
Definition indexOf (s t : string) : Z :=
  match index_of t s with Some n => Z.of_nat n | None => -1 end.

(** The callbacks of the request: [success] or [error], then [complete]. *)
Definition query_success (data : val) : prog unit :=
  code <- get data "code" ;;
  if loose_eq code (int 0) then
    d <- get data "data" ;;
    keys <- get d "keys" ;;
    values <- get d "values" ;;
    addPanel keys values
  else
    msg <- get data "msg" ;;
    messager_alert "Warning" msg.

Definition query_error (xhr textStatus : val) : prog unit :=
  status <- get xhr "status" ;;
  let textStatus :=
    if js_gt status (int 499) then Str "查询超时，请重试，或联系此数据库DBA人员." else textStatus in
  messager_alert "Error" (Str (to_str status +:+ ":" +:+ to_str textStatus)).

Definition query_answer (res : ajax_result) : prog unit :=
  match res with
  | Success data => query_success data
  | Failure xhr status => query_error xhr status
  end ;;
  call "messager.progress" [Str "close"].

Definition query_type : string := "application/x-www-form-urlencoded".

(** The selected text, or the whole text if nothing is selected. *)
Definition query_text : prog string :=
  selected <- selection "#qrySql" ;;
  if String.eqb selected "" then v <- val_of "#qrySql" ;; Ret (to_str v)
  else
    v <- val_of "#qrySql" ;;
    let start := indexOf (to_str v) selected in
    let stop := start + Z.of_nat (String.length selected) in
    setSelectRange "#qrySql" start stop ;; Ret selected.

Definition query_send (selectTxt : string) : prog unit :=
  dbName <- val_of "#dbName" ;;
  dbUserName <- val_of "#dbUserName" ;;
  dbPassWord <- val_of "#dbPassWord" ;;
  clusterId <- val_of "#clusterId" ;;
  call "messager.progress" [] ;;
  Ajax (Request "/db/console/query" "post" true query_type
          (Obj [("sql", Str selectTxt); ("dbName", dbName); ("dbUserName", dbUserName);
                ("dbPassWord", dbPassWord); ("clusterId", clusterId)]))
    query_answer done.

Definition btnQuery : prog unit :=
  qrySql <- val_of "#qrySql" ;;
  if loose_eq qrySql (Str "") then messager_alert "Warning" (Str "请填写正确的SQL语句") else
  dbUserName <- val_of "#dbUserName" ;;
  if loose_eq dbUserName (Str "") then messager_alert "Warning" (Str "请填写用户名") else
  dbPassWord <- val_of "#dbPassWord" ;;
  if loose_eq dbPassWord (Str "") then messager_alert "Warning" (Str "请填写密码") else
  selectTxt <- query_text ;;
  if String.eqb "" selectTxt then messager_alert "Warning" (Str "请输入sql") else
  query_send selectTxt.

(** ** Context menus *)

Definition tab : string := String "009" "".
Definition crlf : string := String "013" (String "010" "").

(** [for (i...) text += cell(fields[i]) + (i == fields.length - 1 ? "\r\n" : "\t")]. *)
Fixpoint add_cells (cell : string -> string) (fields : list string) (text : string) : string :=
  match fields with
  | [] => text
  | [f] => text +:+ cell f +:+ crlf
  | f :: fields' => add_cells cell fields' (text +:+ cell f +:+ tab)
  end.

Definition row_cell (row : val) (key : string) : string := to_str (field row key).

Fixpoint add_rows (fields : list string) (rows : list val) (text : string) : string :=
  match rows with
  | [] => text
  | row :: rows' => add_rows fields rows' (add_cells (row_cell row) fields text)
  end.

(** What [copyToClipboard] finds: a clipboard object, the Opera browser, the
    Mozilla interface with or without the privilege, or nothing. *)
Inductive clipboard : Type := ClipboardData | Opera | Netscape (granted : bool) | NoClipboard.

Definition copyToClipboard (c : clipboard) (txt : string) : prog unit :=
  match c with
  | ClipboardData => call "clearData" [] ;; call "setData" [Str "Text"; Str txt]
  | Opera => goto txt
  | Netscape true =>
      call "setTransferData" [Str "text/unicode"; Str txt] ;; alert (Str "复制成功！")
  | Netscape false =>
      alert (Str ("被浏览器拒绝！" +:+ nl +:+ "请在浏览器地址栏输入'about:config'并回车" +:+ nl +:+
                  "然后将'signed.applets.codebase_principal_support'设置为'true'")) ;;
      Throw (Str "TypeError: Components.classes")
  | NoClipboard => alert (Str "不支持的浏览器.")
  end.

(** A click on an item of the menu of a row of a grid with these columns and
    rows. *)
Definition RowContextMenu_onClick (c : clipboard) (fields : list string) (rows : list val)
    (rowData : val) (iconCls : string) : prog unit :=
  let text := add_cells (fun f => f) fields "" in
  if String.eqb iconCls "icon-copy" then
    copyToClipboard c (if truthy rowData then add_cells (row_cell rowData) fields text else text)
  else if String.eqb iconCls "icon-copy2" then
    copyToClipboard c (add_rows fields rows text)
  else alert (Str "未知操作").

Definition RowContextMenu : prog unit :=
  call "menu" [Str "#clipMenu"] ;; call "menu" [Str "#clipMenu"; Str "show"].

(** The entries of the menu of the header: every column, with its state. *)
Definition header_entry (column : val) : val :=
  Obj [("field", field column "field");
       ("iconCls", Str (if truthy (field column "hidden") then "icon-empty" else "icon-ok"));
       ("html", field column "title")].

Definition HeaderContextMenu (columns : list val) : prog unit :=
  call "menu" [Arr (List.map header_entry columns)] ;;
  call "menu" [Str "show"].

Definition HeaderContextMenu_onClick (grid fld iconCls : string) : prog unit :=
  if String.eqb iconCls "icon-ok" then
    call "datagrid" [Str grid; Str "hideColumn"; Str fld] ;;
    call "menu" [Str "setIcon"; Str fld; Str "icon-empty"]
  else
    call "datagrid" [Str grid; Str "showColumn"; Str fld] ;;
    call "menu" [Str "setIcon"; Str fld; Str "icon-ok"].

(** ** The page *)

Inductive action : Type :=
| ABtnQuery
| ARowMenu
| ARowClick (c : clipboard) (fields : list string) (rows : list val) (rowData : val) (iconCls : string)
| AHeaderMenu (columns : list val)
| AHeaderClick (grid fld iconCls : string).

Definition handler (a : action) : prog unit :=
  match a with
  | ABtnQuery => btnQuery
  | ARowMenu => RowContextMenu
  | ARowClick c fields rows rowData iconCls => RowContextMenu_onClick c fields rows rowData iconCls
  | AHeaderMenu columns => HeaderContextMenu columns
  | AHeaderClick grid fld iconCls => HeaderContextMenu_onClick grid fld iconCls
  end.

Definition sql_page : page :=
  {| p_action := action; p_load := set_var "index" (int 0); p_handler := handler |}.

(** ** Cells show the data *)

(** The character references that [text_html] writes, as the browser reads
    them: the characters and the length of the reference after its first
    byte. *)
Definition reference (s : string) : option (string * nat) :=
  match str_prefix "&amp;" s, str_prefix "&lt;" s, str_prefix "&gt;" s, str_prefix "&nbsp;" s with
  | Some _, _, _, _ => Some ("&", 4%nat)
  | _, Some _, _, _ => Some ("<", 3%nat)
  | _, _, Some _, _ => Some (">", 3%nat)
  | _, _, _, Some _ => Some (String nbsp_head (String nbsp_tail ""), 5%nat)
  | _, _, _, _ => None
  end.

(** The text a cell shows for markup without tags. *)
Fixpoint shown (skip : nat) (s : string) : string :=
  match s with
  | EmptyString => ""
  | String a s' =>
      match skip with
      | S k => shown k s'
      | O =>
          match reference s with
          | Some (t, k) => t +:+ shown k s'
          | None => String a (shown 0 s')
          end
      end
  end.

Lemma reference_none a s : Ascii.eqb a "&" = false -> reference (String a s) = None.
Proof. intros Ha. rewrite Ascii.eqb_sym in Ha. unfold reference. cbn [str_prefix]. by rewrite Ha. Qed.

(** Analyses the first character of a text as [text_html] does. *)
Ltac html_cases a :=
  destruct (Ascii.eqb_spec a "&") as [->|?];
  [|destruct (Ascii.eqb_spec a "<") as [->|?];
    [|destruct (Ascii.eqb_spec a ">") as [->|?]; [|destruct (Ascii.eqb_spec a nbsp_head) as [->|?]]]].

Lemma shown_reference t :
  shown 0 ("&amp;" +:+ t) = String "&" (shown 0 t) /\ shown 0 ("&lt;" +:+ t) = String "<" (shown 0 t) /\
  shown 0 ("&gt;" +:+ t) = String ">" (shown 0 t) /\
  shown 0 ("&nbsp;" +:+ t) = String nbsp_head (String nbsp_tail (shown 0 t)).
Proof. repeat split. Qed.

Lemma shown_text_html n s : (String.length s <= n)%nat -> shown 0 (text_html s) = s.
Proof.
  revert s. induction n as [|n IH]; intros [|a s] Hn; cbn in Hn; try (done || lia).
  assert (IHs : shown 0 (text_html s) = s) by (apply IH; lia).
  cbn [text_html]. destruct (shown_reference (text_html s)) as (Ha & Hl & Hg & _).
  html_cases a; [by rewrite Ha, IHs|by rewrite Hl, IHs|by rewrite Hg, IHs|..].
  - destruct s as [|b s]; [done|]. destruct (Ascii.eqb_spec b nbsp_tail) as [->|Hb].
    + destruct (shown_reference (text_html s)) as (_ & _ & _ & ->). do 2 f_equal. cbn in Hn. apply IH. lia.
    + cbn [shown]. rewrite reference_none by done. by f_equal.
  - cbn [shown]. rewrite reference_none by (by apply Ascii.eqb_neq). by f_equal.
Qed.

Lemma text_html_inert c n s :
  c = "<"%char \/ c = ">"%char -> (String.length s <= n)%nat -> has_char c (text_html s) = false.
Proof.
  intros Hc. revert s. induction n as [|n IH]; intros [|a s] Hn; cbn in Hn; try (done || lia).
  assert (IHs : has_char c (text_html s) = false) by (apply IH; lia).
  assert (Hcons : forall b t, b <> "<"%char -> b <> ">"%char -> has_char c t = false ->
    has_char c (String b t) = false).
  { intros b t H1 H2 Ht. rewrite has_char_cons, Ht, orb_false_r. apply Ascii.eqb_neq.
    by destruct Hc as [-> | ->]. }
  cbn [text_html]. html_cases a; rewrite ?has_char_app, ?IHs, ?orb_false_r;
    try by destruct Hc as [-> | ->].
  - destruct s as [|b s]; [by apply Hcons|]. destruct (Ascii.eqb_spec b nbsp_tail) as [->|Hb].
    + rewrite has_char_app, IH by (cbn in Hn; lia). by destruct Hc as [-> | ->].
    + by apply Hcons.
  - by apply Hcons.
Qed.

(** A text cell never opens a tag, and a cell whose data contains an angle
    bracket shows exactly the data. *)
Theorem html2Escape_shows (s : string) :
  exists t, html2Escape (Str s) = Str t /\ has_char "<" t = false /\ has_char ">" t = false /\
    (has_char "<" s = true \/ has_char ">" s = true -> shown 0 t = s).
Proof.
  unfold html2Escape. destruct (has_char "<" s || has_char ">" s) eqn:Hs.
  - assert (He : String.eqb s "" = false) by (by destruct s). rewrite He. cbn.
    exists (text_html s). split; [done|].
    split; [by apply (text_html_inert _ (String.length s)); auto|].
    split; [by apply (text_html_inert _ (String.length s)); auto|].
    intros _. by apply (shown_text_html (String.length s)).
  - rewrite andb_false_r. apply orb_false_iff in Hs as [H1 H2]. exists s. split_ands; try done.
    intros [H|H]; congruence.
Qed.

(** Data without angle brackets is not escaped, so a character reference in
    it is shown as the character: the text [&lt;] is shown as [<]. *)
Theorem html2Escape_reference_misread :
  html2Escape (Str "a &lt; b") = Str "a &lt; b" /\ shown 0 "a &lt; b" = "a < b".
Proof. split; vm_compute; reflexivity. Qed.

(** ** Copied rows *)

Definition separator (a : ascii) : bool :=
  Ascii.eqb a "009" || Ascii.eqb a "010" || Ascii.eqb a "013".
Definition plain_cell (s : string) : Prop := str_forall (fun a => negb (separator a)) s = true.

(** A table copied as text, read back line by line and cell by cell. *)
Definition read_line (l : string) : list string := split_on "009" (cut "013" l).1.
Definition read_table (s : string) : list (list string) :=
  List.map read_line (removelast (split_on "010" s)).

Definition line (cells : list string) : string := str_join tab cells +:+ crlf.

Lemma add_cells_line cell fields text :
  fields <> [] -> add_cells cell fields text = text +:+ line (List.map cell fields).
Proof.
  revert text. induction fields as [|f fields IH]; intros text Hne; [done|].
  destruct fields as [|g fields]; [done|].
  change (add_cells cell (f :: g :: fields) text)
    with (add_cells cell (g :: fields) (text +:+ cell f +:+ tab)).
  rewrite IH by done. unfold line. cbn [List.map]. rewrite str_join_cons. by autorewrite with str.
Qed.

Lemma add_rows_lines fields rows text :
  fields <> [] ->
  add_rows fields rows text =
    text +:+ str_join "" (List.map (fun row => line (List.map (row_cell row) fields)) rows).
Proof.
  intros Hne. revert text. induction rows as [|row rows IH]; intros text; cbn [add_rows List.map].
  - by rewrite str_app_nil_r.
  - rewrite IH, add_cells_line by done. rewrite str_app_assoc. f_equal.
    destruct rows; [by rewrite str_app_nil_r|done].
Qed.

Lemma plain_cell_without c s :
  separator c = true -> plain_cell s -> str_forall (fun a => negb (Ascii.eqb a c)) s = true.
Proof.
  intros Hc. apply str_forall_impl. intros a Ha.
  destruct (Ascii.eqb_spec a c) as [->|]; [|done]. by rewrite Hc in Ha.
Qed.

Lemma split_join_tab cells :
  cells <> [] -> Forall plain_cell cells -> split_on "009" (str_join tab cells) = cells.
Proof.
  intros Hne. induction 1 as [|s cells Hs Hcells IH]; [done|].
  destruct cells as [|t cells].
  - cbn. by apply split_on_none, plain_cell_without.
  - rewrite str_join_cons. unfold tab at 1. rewrite str_app_cons, str_app_nil_l.
    rewrite split_on_app by (by apply plain_cell_without). by rewrite IH.
Qed.

Lemma join_without c cells :
  Ascii.eqb "009" c = false -> separator c = true -> Forall plain_cell cells ->
  str_forall (fun a => negb (Ascii.eqb a c)) (str_join tab cells) = true.
Proof.
  intros Ht Hc. induction 1 as [|s cells Hs Hcells IH]; [done|]. destruct cells as [|t cells].
  - by apply plain_cell_without.
  - rewrite str_join_cons, !str_forall_app, IH, plain_cell_without by done.
    unfold tab. cbn [str_forall]. by rewrite Ht.
Qed.

Lemma read_table_cons cells rest :
  cells <> [] -> Forall plain_cell cells -> read_table (line cells +:+ rest) = cells :: read_table rest.
Proof.
  intros Hne Hc. unfold read_table, line, crlf. rewrite str_app_assoc.
  assert (Hl : str_join tab cells +:+ String "013" (String "010" "") +:+ rest =
    (str_join tab cells +:+ String "013" "") +:+ String "010" rest) by (by autorewrite with str).
  rewrite Hl, split_on_app.
  - assert (Hr : split_on "010" rest <> []) by apply split_on_nonempty.
    destruct (split_on "010" rest) as [|r rs] eqn:Er; [done|]. cbn [removelast List.map].
    f_equal. unfold read_line. rewrite cut_app by (by apply join_without). by apply split_join_tab.
  - rewrite str_forall_app, join_without by done. done.
Qed.

Lemma read_table_lines tbl :
  Forall (fun cells => cells <> [] /\ Forall plain_cell cells) tbl ->
  read_table (str_join "" (List.map line tbl)) = tbl.
Proof.
  induction 1 as [|cells tbl [Hne Hc] Ht IH]; [done|]. cbn [List.map].
  transitivity (read_table (line cells +:+ str_join "" (List.map line tbl))).
  - f_equal. destruct tbl; [cbn; by rewrite str_app_nil_r|done].
  - by rewrite read_table_cons, IH.
Qed.


Definition two_rows : list val :=
  [Obj [("id", int 1); ("name", Str "a")]; Obj [("id", int 2); ("name", Str "b c")]].


(** ** Queries *)

Lemma str_take_drop n s : str_take n s +:+ str_drop n s = s.
Proof.
  revert s. induction n as [|n IH]; intros [|a s]; try done. cbn. by rewrite str_app_cons, IH.
Qed.

Lemma str_take_app s1 s2 : str_take (String.length s1) (s1 +:+ s2) = s1.
Proof. induction s1 as [|a s1 IH]; [by destruct s2|]. rewrite str_app_cons. cbn. by f_equal. Qed.

Lemma str_drop_app s1 s2 : str_drop (String.length s1) (s1 +:+ s2) = s2.
Proof. induction s1 as [|a s1 IH]; [done|]. by rewrite str_app_cons. Qed.

Lemma substring_part s i j : exists s1 s2, s = s1 +:+ substring s i j +:+ s2.
Proof.
  unfold substring. eexists (str_take _ s), (str_drop _ _). by rewrite !str_take_drop.
Qed.

Lemma index_of_at t s n :
  index_of t s = Some n -> exists s1 s2, s = s1 +:+ t +:+ s2 /\ String.length s1 = n.
Proof.
  revert n. induction s as [|a s IH]; intros n; cbn; destruct (str_prefix t _) as [r|] eqn:E; try done.
  - intros [= <-]. apply str_prefix_Some in E as ->. by exists "", r.
  - intros [= <-]. apply str_prefix_Some in E as ->. by exists "", r.
  - destruct (index_of t s) as [m|]; [|done]. intros [= <-].
    destruct (IH m) as (s1 & s2 & -> & <-); [done|]. by exists (String a s1), s2.
Qed.

(** The range that [btnQuery] selects shows the text it looked for. *)
Lemma substring_indexOf s i j :
  let t := substring s i j in
  substring s (indexOf s t) (indexOf s t + Z.of_nat (String.length t)) = t.
Proof.
  cbv zeta. set (t := substring s i j). unfold indexOf.
  destruct (index_of t s) as [n|] eqn:En.
  - destruct (index_of_at _ _ _ En) as (s1 & s2 & Hs & <-). clearbody t. subst s. unfold substring.
    rewrite !str_length_app. cbv zeta.
    assert (Hc : forall z L, 0 <= z <= L -> Z.min (Z.max z 0) L = z) by lia.
    rewrite !Hc, Z.min_l, Z.max_r by lia. rewrite Nat2Z.id, str_drop_app.
    replace (Z.to_nat _) with (String.length t) by lia. apply str_take_app.
  - destruct (proj2 (index_of_Some t s)) as [m Hm]; [by apply substring_part|congruence].
Qed.

(** The selected part of the text field. *)
Definition selected (w : world) : string :=
  substring (to_str (value_of w "#qrySql")) (position (attr_of w "#qrySql" "selectionStart"))
    (position (attr_of w "#qrySql" "selectionEnd")).

Definition sql_text (w : world) : string :=
  if String.eqb (selected w) "" then to_str (value_of w "#qrySql") else selected w.

Definition query_request (w : world) : request :=
  Request "/db/console/query" "post" true query_type
    (Obj [("sql", Str (sql_text w));
          ("dbName", value_of w "#dbName"); ("dbUserName", value_of w "#dbUserName");
          ("dbPassWord", value_of w "#dbPassWord"); ("clusterId", value_of w "#clusterId")]).

(** The state in which the request leaves: the selection is moved to the first
    place that shows the same text. *)
Definition reselected (w : world) : world :=
  if String.eqb (selected w) "" then w else
  let start := indexOf (to_str (value_of w "#qrySql")) (selected w) in
  let w1 := set_attrs (<[("#qrySql", "selectionStart") := int start]> (w_attrs w)) w in
  let w2 := set_attrs (<[("#qrySql", "selectionEnd") := int (start + Z.of_nat (String.length (selected w)))]>
                         (w_attrs w1)) w1 in
  emit (Called "focus" [Str "#qrySql"]) w2.

Lemma reselected_attr w sel : value_of (reselected w) sel = value_of w sel.
Proof.
  unfold reselected. destruct (String.eqb (selected w) ""); [done|]. cbv zeta. unfold value_of.
  change (attr_of (emit ?o ?w) ?s ?n) with (attr_of w s n). rewrite !attr_of_set.
  by rewrite !decide_False by congruence.
Qed.

Lemma selected_reselected w : selected w <> "" -> selected (reselected w) = selected w.
Proof.
  intros Hs. unfold selected at 1. rewrite reselected_attr.
  unfold reselected. rewrite (proj2 (String.eqb_neq _ _) Hs). cbv zeta.
  change (attr_of (emit ?o ?w) ?s ?n) with (attr_of w s n). rewrite !attr_of_set.
  rewrite (decide_False (P := _ = ("#qrySql", "selectionStart"))) by congruence. rewrite !decide_True by done.
  cbn [position to_number int]. unfold selected. apply substring_indexOf.
Qed.

Lemma run_query_text E w : run E query_text w = (reselected w, Done (sql_text w)).
Proof.
  unfold query_text, selection, val_of, get_attr, op1. cbn [bind run exec_op].
  change (attr_of w "#qrySql" "value") with (value_of w "#qrySql"). fold (selected w).
  unfold reselected, sql_text. by destruct (String.eqb (selected w) "").
Qed.

Lemma requests_app l1 l2 : requests (l1 ++ l2) = requests l1 ++ requests l2.
Proof. apply omap_app. Qed.

(** The statement is not changed by moving the selection. *)
Lemma reselected_world w :
  requests (w_out (reselected w)) = requests (w_out w) /\ w_pending (reselected w) = w_pending w.
Proof.
  unfold reselected. destruct (String.eqb (selected w) ""); [done|]. cbn.
  by rewrite requests_app, app_nil_r.
Qed.

Lemma finish_query_send E w :
  let r := query_request w in
  let w' := finish (run E (query_send (sql_text w)) (reselected w)) in
  requests (w_out w') = requests (w_out w) ++ [r] /\
  w_pending w' = w_pending w ++ [(r, query_answer)] /\ w_attrs w' = w_attrs (reselected w).
Proof.
  cbv zeta. unfold query_send, val_of, call, do_op, op1. cbn [bind run exec_op r_async finish].
  change (attr_of (reselected w) ?s "value") with (value_of (reselected w) s).
  rewrite !reselected_attr. fold (query_request w). destruct (reselected_world w) as [Hr Hp].
  cbn. by rewrite !requests_app, Hr, Hp, app_nil_r.
Qed.

Lemma selected_attrs w w' : w_attrs w = w_attrs w' -> selected w = selected w'.
Proof. intros H. unfold selected, value_of, attr_of. by rewrite H. Qed.

(** The three fields that [btnQuery] requires. *)
Definition required : list string := ["#qrySql"; "#dbUserName"; "#dbPassWord"].
Definition missing (w : world) : bool :=
  existsb (fun sel => loose_eq (value_of w sel) (Str "")) required.

(** [btnQuery] warns and sends nothing when the statement, the user or the
    password is empty.  Otherwise it sends one query, with the selected text if
    there is one and the whole text if not, and the selected range still shows
    the text that was sent. *)
Theorem query_submission (E : env) (w : world) (text : string) :
  value_of w "#qrySql" = Str text ->
  let w' := task E btnQuery w in
  if missing w
  then exists msg, w' = emit (Called "messager.alert" [Str "Warning"; Str msg]) w
  else requests (w_out w') = requests (w_out w) ++ [query_request w] /\
       w_pending w' = w_pending w ++ [(query_request w, query_answer)] /\
       (selected w <> "" -> selected w' = selected w).
Proof.
  intros Ht. cbv zeta. unfold task, btnQuery, missing, required. cbn [existsb].
  unfold val_of, op1. cbn [bind run exec_op]. change (attr_of w ?s "value") with (value_of w s).
  destruct (loose_eq (value_of w "#qrySql") (Str "")) eqn:E1; [by eexists|].
  cbn [bind run exec_op]. change (attr_of w ?s "value") with (value_of w s).
  destruct (loose_eq (value_of w "#dbUserName") (Str "")) eqn:E2; [by eexists|].
  cbn [bind run exec_op]. change (attr_of w ?s "value") with (value_of w s).
  destruct (loose_eq (value_of w "#dbPassWord") (Str "")) eqn:E3; [by eexists|].
  cbn [orb]. rewrite run_bind, run_query_text.
  assert (Hs : String.eqb "" (sql_text w) = false).
  { rewrite String.eqb_sym. unfold sql_text. destruct (String.eqb (selected w) "") eqn:Es; [|done].
    by rewrite Ht in E1 |- *. }
  rewrite Hs. destruct (finish_query_send E w) as (Hr & Hp & Ha).
  split; [done|]. split; [done|]. intros Hne. rewrite (selected_attrs _ _ Ha). by apply selected_reselected.
Qed.

Definition console_fields : world :=
  fresh (list_to_map [(("#qrySql", "value"), Str "select 1; select 2"); (("#dbUserName", "value"), Str "test");
    (("#dbPassWord", "value"), Str "123456"); (("#qrySql", "selectionStart"), int 10);
    (("#qrySql", "selectionEnd"), int 18)]).

Lemma query_submission_witness :
  requests (w_out (task offline btnQuery console_fields)) = [query_request console_fields] /\
  selected (task offline btnQuery console_fields) = "select 2".
Proof.
  pose proof (query_submission offline console_fields "select 1; select 2" eq_refl) as H.
  destruct H as (H1 & _ & H2). split; [exact H1|]. apply H2. vm_compute. discriminate.
Defined.

(** ** Result grids *)

(** The elements for which a grid was created. *)
Definition grid_of (o : output) : option string :=
  match o with
  | Called f [Str sel; Obj _] => if String.eqb f "datagrid" then Some sel else None
  | _ => None
  end.
Definition grids (l : list output) : list string := omap grid_of l.

Definition grid_id (k : nat) : string := "#grid" +:+ string_of_Z (Z.of_nat k).

(** [index] counts the grids, and only answers of queries are awaited. *)
Definition counted (w : world) : Prop :=
  w_dialog w = None /\ Forall (fun p => p.2 = query_answer) (w_pending w) /\
  exists n, w_vars w !! "index" = Some (int (Z.of_nat n)) /\ grids (w_out w) = List.map grid_id (seq 0 n).

Definition keeps {A : Type} (p : prog A) : Prop :=
  forall E w, counted w -> counted (run E p w).1.

Lemma counted_emit o w : grid_of o = None -> counted w -> counted (emit o w).
Proof.
  intros Ho (Hd & Hp & n & Hi & Hg). split; [done|]. split; [done|]. exists n. split; [done|].
  unfold grids in *. cbn. rewrite omap_app. cbn. by rewrite Ho, app_nil_r.
Qed.

Lemma grid_of_call f args : String.eqb f "datagrid" = false -> grid_of (Called f args) = None.
Proof. intros Hf. cbn. rewrite Hf. by destruct args as [|[] [|[] []]]. Qed.

Lemma keeps_ret {A : Type} (a : A) : keeps (Ret a).
Proof. by intros E w. Qed.

Lemma keeps_throw {A : Type} e : keeps (@Throw A e).
Proof. by intros E w. Qed.

Lemma keeps_bind {A B : Type} (p : prog A) (f : A -> prog B) :
  keeps p -> (forall a, keeps (f a)) -> keeps (bind p f).
Proof.
  intros Hp Hf E w Hw. rewrite run_bind. apply (Hp E) in Hw.
  destruct (run E p w) as [w' [a|e]]; [by apply Hf|done].
Qed.

Lemma keeps_get v k : keeps (get v k).
Proof. unfold get. destruct (get_prop v k); [apply keeps_ret|apply keeps_throw]. Qed.

Lemma keeps_attr sel name : keeps (get_attr sel name).
Proof. by intros E w. Qed.

Lemma keeps_var x : keeps (get_var x).
Proof. by intros E w. Qed.

Lemma keeps_set_attr sel name v : keeps (set_attr sel name v).
Proof. by intros E w. Qed.

Lemma keeps_alert v : keeps (alert v).
Proof. intros E w Hw. by apply counted_emit. Qed.

Lemma keeps_goto url : keeps (goto url).
Proof. intros E w Hw. by apply counted_emit. Qed.

Lemma keeps_call f args : grid_of (Called f args) = None -> keeps (call f args).
Proof. intros Hf E w Hw. by apply counted_emit. Qed.

Lemma keeps_query r : r_async r = true -> keeps (Ajax r query_answer done).
Proof.
  intros Hr E w (Hd & Hp & n & Hi & Hg). cbn. rewrite Hr. cbn. split; [done|]. split.
  - cbn. apply Forall_app. split; [done|]. by constructor.
  - exists n. split; [done|]. unfold grids in *. cbn. rewrite omap_app. cbn. by rewrite app_nil_r.
Qed.

Create HintDb keeps_db.
#[local] Hint Resolve keeps_ret keeps_throw keeps_get keeps_attr keeps_var keeps_set_attr
  keeps_alert keeps_goto keeps_query : keeps_db.

(** Goes through a program statement by statement. *)
Ltac keeps :=
  repeat first
    [ match goal with |- forall _, _ => intros ? end
    | solve [eauto with keeps_db] | apply keeps_call; first [done | by apply grid_of_call] | apply keeps_bind
    | match goal with |- keeps (if ?b then _ else _) => destruct b end ].

Lemma counted_grid n fs w :
  counted w -> w_vars w !! "index" = Some (int (Z.of_nat n)) ->
  counted (set_vars (<["index" := int (Z.of_nat n + 1)]> (w_vars w))
             (emit (Called "datagrid" [Str (grid_id n); Obj fs]) w)).
Proof.
  intros (Hd & Hp & m & Hm & Hg) Hn. assert (m = n) as ->.
  { rewrite Hn in Hm. injection Hm. lia. }
  split; [done|]. split; [done|]. exists (S n). split.
  - cbn [set_vars w_vars]. rewrite lookup_insert_eq. do 2 f_equal. unfold int. do 2 f_equal. lia.
  - unfold grids in *. cbn [set_vars emit w_out]. by rewrite omap_app, seq_S, map_app, Hg.
Qed.

Lemma keeps_addPanel keys values : keeps (addPanel keys values).
Proof.
  intros E w Hw. assert (Hi := Hw). destruct Hi as (_ & _ & n & Hi & _).
  unfold addPanel, get, get_var, op1, call, set_var, do_op. cbn [bind run exec_op]. rewrite Hi.
  assert (Ht : forall args, counted (emit (Called "tabs" args) w)).
  { intros args. apply counted_emit; [by apply grid_of_call|done]. }
  destruct (get_prop keys "length"); [|apply Ht].
  exact (counted_grid n _ _ (Ht _) Hi).
Qed.

#[local] Hint Resolve keeps_addPanel : keeps_db.

Lemma keeps_answer res : keeps (query_answer res).
Proof.
  unfold query_answer, query_success, query_error, messager_alert. apply keeps_bind; [|keeps].
  destruct res; keeps.
Qed.

Lemma keeps_handler a : keeps (handler a).
Proof.
  destruct a as [| |c fields rows rowData iconCls|columns|grid fld iconCls]; cbn [handler].
  - unfold btnQuery, query_text, query_send, selection, setSelectRange, messager_alert, val_of. keeps.
  - unfold RowContextMenu. keeps.
  - unfold RowContextMenu_onClick, copyToClipboard. destruct c as [| |[]|]; keeps.
  - unfold HeaderContextMenu. keeps.
  - unfold HeaderContextMenu_onClick. keeps.
Qed.

Lemma counted_task E p w : keeps p -> counted w -> counted (task E p w).
Proof.
  intros Hp Hw. apply (Hp E) in Hw. unfold task. destruct (run E p w) as [w' [a|e]]; [done|].
  by apply counted_emit.
Qed.

Lemma reachable_counted E w : reachable E sql_page w -> counted w.
Proof.
  induction 1 as [attrs|w ev _ Hw].
  - split; [done|]. split; [constructor|]. by exists 0%nat.
  - destruct ev as [a|input| |i res|sel v|tbl i b|tbl rows]; cbn [step]; try done.
    + apply counted_task; [apply keeps_handler|done].
    + unfold press_confirm. destruct Hw as (Hd & ?). by rewrite Hd.
    + unfold press_cancel. destruct Hw as (Hd & ?). by rewrite Hd.
    + unfold deliver. destruct (w_pending w !! i) as [[r cb]|] eqn:Ei; [|done].
      destruct Hw as (Hd & Hp & Hn). assert (cb = query_answer) as ->.
      { rewrite Forall_lookup in Hp. exact (Hp _ _ Ei). }
      apply counted_task; [apply keeps_answer|]. split; [done|]. split; [|done].
      cbn. by apply Forall_delete.
Qed.

Lemma grid_id_inj k1 k2 : grid_id k1 = grid_id k2 -> k1 = k2.
Proof.
  unfold grid_id. rewrite !str_app_cons, !str_app_nil_l. intros H.
  assert (string_of_Z (Z.of_nat k1) = string_of_Z (Z.of_nat k2)) as ?%string_of_Z_inj by congruence.
  lia.
Qed.

(** C25: every result gets a grid of its own: the grids of a session are
    [#grid0], [#grid1], ... in this order, whatever the answers of the server,
    their order and the other actions of the user. *)
Theorem result_grids_distinct (E : env) (w : world) :
  reachable E sql_page w ->
  NoDup (grids (w_out w)) /\ grids (w_out w) = List.map grid_id (seq 0 (length (grids (w_out w)))).
Proof.
  intros (_ & _ & n & _ & ->)%reachable_counted. split.
  - apply NoDup_fmap_2; [exact grid_id_inj|apply NoDup_seq].
  - by rewrite length_map, length_seq.
Qed.

Definition one_row : val := Obj [("code", int 0); ("data", Obj [("keys", Arr [Str "id"]); ("values", Arr [])])].

Lemma result_grids_distinct_witness :
  NoDup ["#grid0"; "#grid1"] /\ grids (w_out (session offline sql_page [("#qrySql", "value", Str "select 1")]
    [Act ABtnQuery; Act ABtnQuery; Reply 1 (Success one_row); Reply 0 (Success one_row)])) =
  ["#grid0"; "#grid1"].
Proof.
  refine (conj (proj1 (result_grids_distinct offline (session offline sql_page [("#qrySql", "value", Str "select 1")]
    [Act ABtnQuery; Act ABtnQuery; Reply 1 (Success one_row); Reply 0 (Success one_row)]) _)) _).
  - apply reachable_session.
  - vm_compute. reflexivity.
Defined.
