(* ===== verification/Users.v ===== *)
(** * Users, roles and privileges (static/js/user/)

    Three pages with one table each: roles (roleinfo.js), users (userinfo.js)
    and privileges (userprivilege.js).  Their requests are synchronous: the
    answer is handled before the button returns. *)

From S2P Require Import Prelude JsValue Json Browser Logic Contracts Widgets Utils DatePairs Batch.

Definition table_id : string := "#exampleTableEvents".

(** The options the tables share. *)
Definition list_options (url : string) (more : list (string * val)) : val :=
  Obj ([("url", Str url); ("search", Bool true); ("pagination", Bool true); ("showRefresh", Bool true);
        ("showColumns", Bool true); ("iconSize", Str "outline");
        ("toolbar", Str "#exampleTableEventsToolbar");
        ("icons", Obj [("refresh", Str "glyphicon-repeat")])] ++ more).

Definition page_options : list (string * val) :=
  [("pageNumber", int 1); ("pageSize", int 10); ("pageList", Arr [int 10; int 25; int 50; int 100])].

(** The name of a role; any other number shows nothing. *)
Definition role_name (cellValue row : val) (index : Z) : val :=
  if loose_eq cellValue (int 1) then Str "系统管理员"
  else if loose_eq cellValue (int 2) then Str "集群管理员"
  else if loose_eq cellValue (int 3) then Str "普通用户"
  else Undef.

(** [selections[0]], if there is one. *)
Definition first_selected : prog (option val) :=
  rows <- selections table_id ;; Ret (head rows).

(** ** Roles *)

Definition role_url : string := "/userInfo/getRoleList".

(** The columns of this table, with the state field [state], are in the page. *)
Definition role_load : prog unit :=
  call "bootstrapTable" [Str table_id; list_options role_url []] ;;
  bootstrap_table table_id "state" [].

Definition showAddUserModal : prog unit := show_modal "#userAddDetail".

Definition addRole : prog unit :=
  roleId <- val_of "#roleId" ;;
  roleName <- val_of "#roleName" ;;
  ajax (post "/userInfo/addRole" [("roleId", roleId); ("roleName", roleName)])
    (fun data =>
       ok <- code_is data 0 ;;
       if ok then hide_modal "#userAddDetail" ;; refresh table_id role_url
       else msg <- get data "msg" ;; alert msg)
    no_error.

Definition delRoles_send (ids : list val) : prog unit :=
  ajax (post_sync "/userInfo/delRole" [("roleIds", json (Arr ids))])
    (fun data =>
       code <- get data "code" ;;
       if loose_eq code (int 0)
       then swal3 "删除!" (Str "删除成功") "success" ;; refresh table_id role_url
       else done)
    (failed_res "操作失败").

Definition delRoles : prog unit :=
  rows <- selections table_id ;;
  swal (warn "删除角色" "执行") (Fn0 (delRoles_send (pluck "role_id" rows))).

(** ** Users *)

Definition user_url : string := "/userInfo/getUserList".

Definition showFormatDate (off : Z) (cellValue row : val) (index : Z) : val :=
  match to_number cellValue with
  | Fin z => Str (Utils.formatDate (local_date off z) (Some "yyyy-MM-dd hh:mm:ss"))
  | NaN => Str "NaN-NaN-NaN NaN:NaN:NaN"
  end.

Definition user_columns (off : Z) : list column :=
  [ checkbox "state" "center";
    col "ID" "id" "center; width:5%;" "";
    col "用户名" "userName" "center; width:8%;" "";
    col "ERP" "erp" "center; width:8%;" "";
    col "邮箱" "mail" "center; width:10%;" "";
    formatted (showFormatDate off) (col "创建时间" "createTime" "center; width:10%;" "");
    formatted role_name (col "角色" "userAuthority.rid" "center" "");
    col "集群ID" "userAuthority.cid" "center" "" ].

Definition user_load (off : Z) : prog unit :=
  call "bootstrapTable" [Str table_id;
    list_options user_url (page_options ++ [("sidePagination", Str "server"); ("height", int 500)])] ;;
  bootstrap_table table_id (state_field (user_columns off)) [].

(** The two tests of [type]; the selected option of a list is the browser's. *)
Definition user_showUserModal (type : val) : prog unit :=
  (if loose_eq type (Str "add") then show_modal "#userAddDetail" else done) ;;
  if loose_eq type (Str "edit") then
    r <- first_selected ;;
    match r with
    | Some row =>
        show_modal "#userEditDetail" ;;
        erp <- get row "erp" ;;
        set_val "#erp" erp ;;
        set_val "#clusterName" (Str "1,2,3") ;;
        call "options[0].selected" [Str "#roleName"; Bool true]
    | None => alert (Str "请选择一个用户")
    end
  else done.

Definition user_roleName_change : prog unit :=
  roleId <- val_of "#roleName" ;;
  if loose_eq roleId (int 1) then set_val "#clusterName" (Str "all") else done.

Definition saveUserAuthority : prog unit :=
  r <- first_selected ;;
  match r with
  | Some row =>
      clusterIds <- val_of "#clusterName" ;;
      roleId <- val_of "#roleName" ;;
      id <- get row "id" ;;
      ajax (post_sync "/userInfo/addUserAuthority"
              [("userId", id); ("roleId", roleId); ("clusterIds", clusterIds)])
        (fun data =>
           ok <- code_is data 200 ;;
           if ok then
             swal3 "设置" (Str "设置成功") "success" ;;
             hide_modal "#userEditDetail" ;;
             refresh table_id user_url
           else done)
        (failed_res "设置失败")
  | None => done
  end.

Definition saveUserErps : prog unit :=
  erps <- val_of "#userErpList" ;;
  ajax (post "/userInfo/saveUserErp" [("erps", erps)])
    (fun data =>
       ok <- code_is data 200 ;;
       if ok then hide_modal "#userAddDetail" ;; refresh table_id user_url
       else attach <- get data "attach" ;; alert (json attach))
    no_error.

Definition delUserErps_send (ids : list val) : prog unit :=
  ajax (post_sync "/userInfo/delUserInfoById" [("userIds", json (Arr ids))])
    (fun data =>
       ok <- code_is data 200 ;;
       if ok then swal3 "删除!" (Str "删除成功") "success" ;; remove_rows table_id "id" (Arr ids)
       else done)
    (failed_res "操作失败").

Definition delUserErps : prog unit :=
  rows <- selections table_id ;;
  swal (warn "删除用户" "执行") (Fn0 (delUserErps_send (pluck "id" rows))).

(** ** Privileges *)

Definition privilege_url : string := "/userInfo/getPrivilegeList".

Definition privilege_columns : list column :=
  [ checkbox "state" "center";
    col "用户名" "user_name" "center; width:8%;" "";
    col "集群ID" "cluster_id" "center" "";
    formatted role_name (col "角色" "privilege" "center" "") ].

Definition privilege_load : prog unit :=
  call "bootstrapTable" [Str table_id; list_options privilege_url page_options] ;;
  bootstrap_table table_id (state_field privilege_columns) [].

Definition privilege_showUserModal (type : val) : prog unit :=
  if loose_eq type (Str "add") then
    set_val "#erp" (Str "") ;;
    set_val "#clusterName" (Str "") ;;
    remove_attr "#erp" "readonly" ;;
    show_modal "#userEditDetail"
  else if loose_eq type (Str "edit") then
    set_attr "#erp" "readonly" (Bool true) ;;
    r <- first_selected ;;
    match r with
    | Some row =>
        show_modal "#userEditDetail" ;;
        user_name <- get row "user_name" ;;
        set_val "#erp" user_name ;;
        cluster_id <- get row "cluster_id" ;;
        set_val "#clusterId" cluster_id ;;
        privilege <- get row "privilege" ;;
        set_val "#roleName" privilege
    | None => alert (Str "请选择一条记录")
    end
  else done.

Definition privilege_roleName_change : prog unit :=
  roleId <- val_of "#roleName" ;;
  if loose_eq roleId (int 1) then set_val "#clusterId" (Str "0") else done.

Definition saveUserPrivilege : prog unit :=
  erp <- val_of "#erp" ;;
  clusterId <- val_of "#clusterId" ;;
  roleId <- val_of "#roleName" ;;
  ajax (post_sync "/userInfo/updatePrivilege"
          [("userName", erp); ("roleId", roleId); ("clusterId", clusterId)])
    (fun data =>
       ok <- code_is data 0 ;;
       if ok then
         swal3 "设置" (Str "设置成功") "success" ;;
         hide_modal "#userEditDetail" ;;
         refresh table_id privilege_url
       else done)
    (failed_res "设置失败").

(** The key of a privilege: its user and its cluster. *)
Definition privilege_key (row : val) : val :=
  Obj [("user_name", field row "user_name"); ("cluster_id", field row "cluster_id")].

Definition delPrivileges_send (privileges : list val) : prog unit :=
  ajax (post_sync "/userInfo/delPrivileges" [("privileges", json (Arr privileges))])
    (fun data =>
       ok <- code_is data 0 ;;
       if ok then swal3 "删除!" (Str "删除成功") "success" ;; refresh table_id privilege_url
       else done)
    (failed_res "操作失败").

Definition delPrivileges : prog unit :=
  rows <- selections table_id ;;
  swal (warn "删除用户" "执行") (Fn0 (delPrivileges_send (List.map privilege_key rows))).

(** ** The pages *)

Inductive role_action : Type := AShowAdd | AAddRole | ADelRoles.
Definition role_handler (a : role_action) : prog unit :=
  match a with AShowAdd => showAddUserModal | AAddRole => addRole | ADelRoles => delRoles end.
Definition role_page : page :=
  {| p_action := role_action; p_load := role_load; p_handler := role_handler |}.

Inductive user_action : Type :=
| AShowUser (type : val) | AUserRole | ASaveAuthority | ASaveErps | ADelErps.
Definition user_handler (a : user_action) : prog unit :=
  match a with
  | AShowUser type => user_showUserModal type
  | AUserRole => user_roleName_change
  | ASaveAuthority => saveUserAuthority
  | ASaveErps => saveUserErps
  | ADelErps => delUserErps
  end.
Definition user_page (off : Z) : page :=
  {| p_action := user_action; p_load := user_load off; p_handler := user_handler |}.

Inductive privilege_action : Type :=
| AShowPrivilege (type : val) | APrivilegeRole | ASavePrivilege | ADelPrivileges.
Definition privilege_handler (a : privilege_action) : prog unit :=
  match a with
  | AShowPrivilege type => privilege_showUserModal type
  | APrivilegeRole => privilege_roleName_change
  | ASavePrivilege => saveUserPrivilege
  | ADelPrivileges => delPrivileges
  end.
Definition privilege_page : page :=
  {| p_action := privilege_action; p_load := privilege_load; p_handler := privilege_handler |}.

(** ** Deletions *)

(** What the user sees of the answer to a deletion: the outputs [ok] of a
    granted one, nothing of a refused one, and an error if there is no answer. *)
Definition reaction (grants : val -> bool) (ok : list output) (res : ajax_result) : list output :=
  match res with
  | Success d =>
      match get_prop d "code" with
      | Some c => if grants c then ok else []
      | None => [Uncaught (Str "TypeError: code")]
      end
  | Failure x _ => [Told (Str "操作失败") (or_else x (Str "")) "error"]
  end.

(** A deletion asks first; its confirmation sends one request, whose body is a
    JSON text of [sent], and reacts to the answer. *)
Definition deletion (E : env) (pg : page) (w : world) (a : p_action pg) (input : string)
    (title : string) (mk : val -> request) (sent : list val) (grants : val -> bool) (ok : list output) : Prop :=
  let w' := step E pg w (Act a) in
  news E pg w (Act a) = [Asked (warn title "执行")] /\
  exists text, parse text = Some (Arr sent) /\
    let r := mk (Str text) in
    let res := e_server E (w_out w') r in
    news E pg w' (Confirm input) = Sent r :: Answered r res :: reaction grants ok res.

Lemma deletion_news E pg w (a : p_action pg) input title mk tid body sent cb err grants ok t :
  p_handler pg a = (rows <- selections tid ;; body rows) -> w_tables w !! tid = Some t ->
  body (selected_rows t) = swal (warn title "执行") (Fn0 (ajax (mk (json (Arr sent))) cb err)) ->
  clean (Arr sent) = true -> (forall v, r_async (mk v) = false) ->
  (forall res v, w_out (task E (match res with Success d => cb d | Failure x _ => err x end) v) = w_out v ++ reaction grants ok res) ->
  deletion E pg w a input title mk sent grants ok.
Proof.
  intros Ha Ht Hb Hc Hmk Hcb. unfold deletion, news. cbn [step]. destruct (stringify_clean _ Hc) as (text & Htext).
  assert (task E (p_handler pg a) w = emit (Asked (warn title "执行"))
    (set_dialog (Some (DialogState (warn title "执行") (Fn0 (ajax (mk (Str text)) cb err)))) w)) as ->.
  { unfold task. rewrite Ha, run_bind, run_selections, Ht. cbn [from_option]. rewrite Hb. unfold json. by rewrite Htext. }
  split; [cbn; by rewrite drop_app_length|]. exists text. split; [by apply parse_stringify|].
  unfold press_confirm. cbn [w_dialog emit set_dialog so_close warn ask].
  rewrite task_ajax_sync, Hcb by done. cbn [w_out emit set_dialog].
  by rewrite <- app_assoc, <- app_assoc, drop_app_length.
Qed.

(** The callbacks of the deletions, on every answer. *)
Ltac reacts :=
  intros [d|x st] v; [|done];
  unfold reaction, task, code_is, get; destruct (get_prop d "code") as [c|]; [|done];
  cbn [bind run]; case_match; cbn; by rewrite ?app_nil_r, <- ?app_assoc.

Definition told_deleted : output := Told (Str "删除!") (Str "删除成功") "success".

(** Deleting roles asks first; the confirmation sends the ids of the
    selected roles, and the user is told of a deletion, and the list loaded
    again, only if the server granted it.  A refusal is not shown. *)
Theorem role_deletion (E : env) (w : world) (t : table) (input : string) :
  w_tables w !! table_id = Some t -> clean (Arr (pluck "role_id" (selected_rows t))) = true ->
  deletion E role_page w ADelRoles input "删除角色"
    (fun v => post_sync "/userInfo/delRole" [("roleIds", v)]) (pluck "role_id" (selected_rows t))
    (fun c => loose_eq c (int 0)) [told_deleted; Refreshed table_id role_url].
Proof. intros Ht Hc. eapply (deletion_news _ role_page); [reflexivity|done|reflexivity|done..|]. reacts. Qed.

(** Deleting privileges asks first; the confirmation sends the user and the
    cluster of each selected row, and only a granted deletion is announced. *)
Theorem privilege_deletion (E : env) (w : world) (t : table) (input : string) :
  w_tables w !! table_id = Some t -> clean (Arr (List.map privilege_key (selected_rows t))) = true ->
  deletion E privilege_page w ADelPrivileges input "删除用户"
    (fun v => post_sync "/userInfo/delPrivileges" [("privileges", v)]) (List.map privilege_key (selected_rows t))
    (fun c => strict_eq c (int 0)) [told_deleted; Refreshed table_id privilege_url].
Proof. intros Ht Hc. eapply (deletion_news _ privilege_page); [reflexivity|done|reflexivity|done..|]. reacts. Qed.

Definition privilege_row (u : string) (c p : Z) (b : bool) : val :=
  Obj [("state", Bool b); ("user_name", Str u); ("cluster_id", int c); ("privilege", int p)].
Definition privilege_rows : list val :=
  [privilege_row "ann" 1 2 true; privilege_row "bob" 2 3 false; privilege_row "cat" 0 1 true].
Definition privilege_table : table := Table "state" privilege_rows.
Definition table_world (t : table) : world := World ∅ ∅ [] {[table_id := t]} None [] [].
Definition granting : env := served (fun _ => Success (Obj [("code", int 0); ("msg", Str "ok")])).

Lemma privilege_deletion_witness :
  deletion granting privilege_page (table_world privilege_table) ADelPrivileges "" "删除用户"
    (fun v => post_sync "/userInfo/delPrivileges" [("privileges", v)])
    [Obj [("user_name", Str "ann"); ("cluster_id", int 1)]; Obj [("user_name", Str "cat"); ("cluster_id", int 0)]]
    (fun c => strict_eq c (int 0)) [told_deleted; Refreshed table_id privilege_url].
Proof. apply (privilege_deletion granting (table_world privilege_table) privilege_table ""); vm_compute; reflexivity. Defined.

Definition role_rows : list val :=
  [Obj [("state", Bool true); ("role_id", int 1)]; Obj [("state", Bool false); ("role_id", int 2)]].

Lemma role_deletion_witness :
  deletion granting role_page (table_world (Table "state" role_rows)) ADelRoles "" "删除角色"
    (fun v => post_sync "/userInfo/delRole" [("roleIds", v)]) [int 1]
    (fun c => loose_eq c (int 0)) [told_deleted; Refreshed table_id role_url].
Proof. apply (role_deletion granting _ (Table "state" role_rows) ""); vm_compute; reflexivity. Defined.

(** The rows that a deletion of users leaves. *)
Definition rows_left (res : ajax_result) (ids : list val) (rows : list val) : list val :=
  match res with
  | Success d =>
      if strict_eq (field d "code") (int 200)
      then List.filter (fun r => negb (row_removed "id" (Arr ids) r)) rows else rows
  | Failure _ _ => rows
  end.

Lemma delUserErps_answer E res ids w t :
  w_tables w !! table_id = Some t ->
  rows_of (task E (match res with
                   | Success d =>
                       ok <- code_is d 200 ;;
                       if ok then swal3 "删除!" (Str "删除成功") "success" ;; remove_rows table_id "id" (Arr ids)
                       else done
                   | Failure x _ => failed_res "操作失败" x
                   end) w) table_id = rows_left res ids (t_rows t).
Proof.
  intros Ht. unfold rows_of, rows_left, task. destruct res as [d|x st]; [|cbn; by rewrite Ht].
  unfold code_is, get, field. destruct (get_prop d "code") as [c|]; [|cbn; by rewrite Ht].
  cbn [bind run]. change (default Undef (Some c)) with c. destruct (strict_eq c (int 200)); cbn; [|by rewrite Ht].
  by rewrite lookup_alter_eq, Ht.
Qed.

(** Deleting users asks first and sends the ids of the selected users; their
    rows leave the table exactly if the answer has code 200, the code this page
    takes for success. *)
Theorem user_deletion (E : env) (off : Z) (w : world) (t : table) (input : string) (res : ajax_result) :
  w_tables w !! table_id = Some t -> clean (Arr (pluck "id" (selected_rows t))) = true ->
  (forall log r, e_server E log r = res) ->
  deletion E (user_page off) w ADelErps input "删除用户"
    (fun v => post_sync "/userInfo/delUserInfoById" [("userIds", v)]) (pluck "id" (selected_rows t))
    (fun c => strict_eq c (int 200)) [told_deleted] /\
  rows_of (steps E (user_page off) w [Act ADelErps; Confirm input]) table_id =
    rows_left res (pluck "id" (selected_rows t)) (t_rows t).
Proof.
  intros Ht Hc Hres. split.
  - eapply (deletion_news _ (user_page off)); [reflexivity|done|reflexivity|done..|]. reacts.
  - cbn [steps fold_left step p_handler user_page user_handler]. unfold delUserErps. unfold task at 1.
    rewrite run_bind, run_selections, Ht. unfold swal, done. cbn [from_option run finish].
    unfold press_confirm. cbn [w_dialog emit set_dialog so_close warn ask].
    unfold delUserErps_send. rewrite task_ajax_sync, Hres by done. by apply delUserErps_answer.
Qed.

Definition user_row (id : Z) (b : bool) : val := Obj [("id", int id); ("state", Bool b)].
Definition user_table : table := Table "state" [user_row 1 true; user_row 2 false].
Definition code_200 : ajax_result := Success (Obj [("code", int 200)]).

Lemma user_deletion_witness :
  rows_of (steps (served (fun _ => code_200)) (user_page 0) (table_world user_table) [Act ADelErps; Confirm ""]) table_id =
    [user_row 2 false].
Proof.
  apply (user_deletion (served (fun _ => code_200)) 0 (table_world user_table) user_table "" code_200);
    [vm_compute; reflexivity..|done].
Defined.

(** ** Adding a privilege after editing one *)

Lemma privilege_edit_values E w t row rest :
  w_tables w !! table_id = Some t -> selected_rows t = row :: rest -> is_object row = true ->
  let w' := task E (privilege_showUserModal (Str "edit")) w in
  value_of w' "#roleName" = field row "privilege" /\ value_of w' "#clusterId" = field row "cluster_id".
Proof.
  intros Ht Hsel Hrow. cbv zeta. unfold task, privilege_showUserModal, first_selected.
  change (loose_eq (Str "edit") (Str "add")) with false. change (loose_eq (Str "edit") (Str "edit")) with true.
  cbv iota. unfold set_attr, do_op. cbn [bind]. cbn [run exec_op].
  rewrite run_bind, run_bind, run_selections. cbn [set_attrs w_tables]. rewrite Ht. cbn [from_option]. rewrite Hsel.
  cbn [run head]. unfold show_modal, set_val, do_op.
  repeat (rewrite get_object by done; cbn [bind run exec_op]). cbn [finish].
  unfold value_of, attr_of. cbn. by rewrite !lookup_insert_eq, lookup_insert_ne, lookup_insert_eq.
Qed.

Lemma privilege_add_values E w sel :
  sel <> "#erp" -> sel <> "#clusterName" ->
  value_of (task E (privilege_showUserModal (Str "add")) w) sel = value_of w sel.
Proof.
  intros H1 H2. unfold task, privilege_showUserModal.
  change (loose_eq (Str "add") (Str "add")) with true. cbn. unfold value_of, attr_of. cbn.
  by rewrite lookup_delete_ne, !lookup_insert_ne by congruence.
Qed.

(** The form for a new privilege keeps the cluster and the role of the row
    that was edited before: the script clears the field [clusterName], which the
    page does not have.  Saving then grants the new user that role on that
    cluster, unless both are typed again. *)
Theorem privilege_add_keeps_cluster (E : env) (w : world) (t : table) (row : val) (rest : list val)
    (u : string) :
  w_tables w !! table_id = Some t -> selected_rows t = row :: rest -> is_object row = true ->
  news E privilege_page
    (steps E privilege_page w
       [Act (AShowPrivilege (Str "edit")); Act (AShowPrivilege (Str "add")); Edit "#erp" (Str u)])
    (Act ASavePrivilege) !! 0%nat =
  Some (Sent (post_sync "/userInfo/updatePrivilege"
    [("userName", Str u); ("roleId", field row "privilege"); ("clusterId", field row "cluster_id")])).
Proof.
  intros Ht Hsel Hrow. cbn [steps fold_left step p_handler privilege_page privilege_handler].
  destruct (privilege_edit_values E w t row rest Ht Hsel Hrow) as [Hr Hc].
  set (w1 := task E (privilege_showUserModal (Str "edit")) w) in *.
  rewrite <- (privilege_add_values E w1) in Hr, Hc by done.
  set (w2 := task E (privilege_showUserModal (Str "add")) w1) in *. clearbody w2.
  unfold news. cbn [step p_handler privilege_page privilege_handler].
  unfold saveUserPrivilege, task, val_of, op1. cbn [bind].
  cbn [run exec_op]. rewrite !attr_of_set.
  rewrite decide_True, !decide_False by (done || congruence).
  fold (value_of w2 "#clusterId") (value_of w2 "#roleName"). rewrite Hr, Hc.
  set (w3 := set_attrs _ w2). set (r := post_sync _ _).
  match goal with |- context [finish (run E ?p w3)] => change (finish (run E p w3)) with (task E p w3) end.
  match goal with |- context [task E (ajax r ?cb ?err) w3] => destruct (task_ajax_sent E r cb err w3) as [log ->] end.
  by rewrite drop_app_length.
Qed.

Lemma privilege_add_keeps_cluster_witness :
  news granting privilege_page
    (steps granting privilege_page (table_world privilege_table)
       [Act (AShowPrivilege (Str "edit")); Act (AShowPrivilege (Str "add")); Edit "#erp" (Str "dan")])
    (Act ASavePrivilege) !! 0%nat =
  Some (Sent (post_sync "/userInfo/updatePrivilege"
    [("userName", Str "dan"); ("roleId", int 2); ("clusterId", int 1)])).
Proof.
  apply (privilege_add_keeps_cluster granting (table_world privilege_table) privilege_table
           (privilege_row "ann" 1 2 true) [privilege_row "cat" 0 1 true] "dan"); vm_compute; reflexivity.
Defined.
