(* ===== verification/SqlApply.v ===== *)
(** * Applications for SQL statements (static/js/apply/sqllist.js)

    The list of applications with its form (apply, show) and its batch buttons
    (approve, reject). *)

From S2P Require Import Prelude JsValue Json Browser Logic Contracts Widgets Utils DatePairs Urls Batch.

Definition sql_list : string := "#sqlApplyLists".
Definition sql_url : string := "/sql/queryApplyList".

Definition detail_button (value row : val) (index : Z) : val :=
  Str (row_button "showDetail" "详情" "showDetail" (sq (txt row "id")) "详情" "&nbsp;&nbsp;").

Definition sql_columns (off : Z) : list column :=
  [ checkbox "" "center";
    col "库名" "db_name" "center" "";
    col "表名" "table_name" "center" "";
    col "申请人" "applyer" "center" "";
    formatted (seconds_text off) (col "申请时间" "create_time" "center" "");
    col "备注" "remark" "center" "";
    formatted apply_status (col "状态" "status" "center" "");
    formatted detail_button (col "操作" "操作" "center" "") ].

Definition sql_load (off : Z) : prog unit :=
  call "bootstrapTable"
    [Str sql_list; set_prop "height" (int 600) (server_options sql_url "#sqlApplyListsToolbar")] ;;
  bootstrap_table sql_list (state_field (sql_columns off)) [].

(** ** The form *)

Definition applySql : prog unit :=
  set_val "#dbName" (Str "") ;;
  set_val "#tableName" (Str "") ;;
  set_val "#sentence" (Str "") ;;
  set_val "#remark" (Str "") ;;
  set_attr "#saveButton" "style" (Str "") ;;
  show_modal "#sqlApplyModal".

Definition saveSqlApply_done (data : val) : prog unit :=
  ok <- code_is data 0 ;;
  if ok then
    swal3 "设置" (Str "设置成功") "success" ;;
    hide_modal "#sqlApplyModal" ;;
    refresh sql_list sql_url
  else done.

Definition saveSqlApply : prog unit :=
  dbName <- val_of "#dbName" ;;
  tableName <- val_of "#tableName" ;;
  sentence <- val_of "#sentence" ;;
  if negb (hasText dbName) || negb (hasText tableName) || negb (hasText sentence)
  then swal3 "申请" (Str "请先填写库名、表名、sql语句") "error"
  else
    remark <- val_of "#remark" ;;
    ajax (post_sync "/sql/apply"
            [("dbName", dbName); ("tableName", tableName); ("sentence", sentence); ("remark", remark)])
      saveSqlApply_done (failed_res "设置失败").

Definition showDetail_done (data : val) : prog unit :=
  ok <- code_is data 0 ;;
  if ok then
    d <- get data "data" ;;
    db_name <- get d "db_name" ;; set_val "#dbName" db_name ;;
    table_name <- get d "table_name" ;; set_val "#tableName" table_name ;;
    sentence <- get d "sentence" ;; set_val "#sentence" sentence ;;
    remark <- get d "remark" ;; set_val "#remark" remark ;;
    set_attr "#saveButton" "style" (Str "display:none") ;;
    show_modal "#sqlApplyModal"
  else done.

Definition showDetail (id : val) : prog unit :=
  ajax (Request ("/sql/apply/detail?id=" +:+ to_str id) "get" false "" Undef)
    showDetail_done (failed_res "设置失败").

(** ** Batches *)

(** The refusal is read from [data.message]. *)
Definition sql_report (ok_title ok_text fail_title : string) (data : val) : prog unit :=
  ok <- code_is data 0 ;;
  if ok then swal3 ok_title (Str ok_text) "success" ;; refresh sql_list sql_url
  else msg <- get data "message" ;; swal3 fail_title msg "error".

Definition auditSql_send (ids : list val) : prog unit :=
  ajax (post "/sql/audit" [("ids", json (Arr ids)); ("status", int 2)])
    (sql_report "审批成功！" "审批成功!" "审批失败！") (failed "审批失败！" "请联系管理员!").

Definition auditSql : prog unit :=
  batch sql_list (above_status 1)
    ("审批申请", "请选择要审批的申请记录") ("审批申请", "请选择待审核状态的申请记录")
    (warn "审批操作" "通过") auditSql_send.

Definition rejectSql_send (ids : list val) : prog unit :=
  ajax (post "/sql/audit" [("ids", json (Arr ids)); ("status", int 3)])
    (sql_report "驳回成功！" "驳回成功!" "驳回失败！") (failed "驳回失败！" "请联系管理员!").

Definition rejectSql : prog unit :=
  batch sql_list (above_status 1)
    ("驳回申请", "请选择要驳回的申请记录") ("驳回申请", "请选择待审核状态的申请记录")
    (warn "驳回操作" "驳回") rejectSql_send.

Inductive sql_action : Type :=
| ASqlResponse (res : val) | AApplySql | ASaveSql | AShowDetail (id : val) | AAuditSql | ARejectSql.

Definition sql_handler (a : sql_action) : prog unit :=
  match a with
  | ASqlResponse res => table_response sql_list "" res
  | AApplySql => applySql
  | ASaveSql => saveSqlApply
  | AShowDetail id => showDetail id
  | AAuditSql => auditSql
  | ARejectSql => rejectSql
  end.

Definition sqlapply_page (off : Z) : page :=
  {| p_action := sql_action; p_load := sql_load off; p_handler := sql_handler |}.

(** ** Theorems *)

Definition sql_audit (status : Z) (ids : val) : request :=
  post "/sql/audit" [("ids", ids); ("status", int status)].

(** The batch buttons of the SQL applications take only rows whose status is
    not above 1; an empty selection, or one with another row, ends in an error
    and no request; otherwise the confirmed request carries the ids of exactly
    the selected rows, with status 2 to approve and 3 to reject. *)
Theorem sql_batches (off : Z) (E : env) (w : world) (t : table) (input : string) :
  w_tables w !! sql_list = Some t -> clean (Arr (pluck "id" (selected_rows t))) = true ->
  batch_outcome E (sqlapply_page off) w AAuditSql input (selected_rows t) (above_status 1)
    ("审批申请", "请选择要审批的申请记录") ("审批申请", "请选择待审核状态的申请记录")
    (warn "审批操作" "通过") (sql_audit 2) /\
  batch_outcome E (sqlapply_page off) w ARejectSql input (selected_rows t) (above_status 1)
    ("驳回申请", "请选择要驳回的申请记录") ("驳回申请", "请选择待审核状态的申请记录")
    (warn "驳回操作" "驳回") (sql_audit 3).
Proof. intros Ht Hc. split_ands; (eapply batch_news; [reflexivity|exact Ht|exact Hc|done..]). Qed.

Definition sql_rows : list val := [apply_row 4 1 true; apply_row 5 2 true].

Lemma sql_batches_witness :
  batch_outcome offline (sqlapply_page 0)
    (session offline (sqlapply_page 0) [] [Act (ASqlResponse (apply_answer sql_rows))])
    AAuditSql "" sql_rows (above_status 1)
    ("审批申请", "请选择要审批的申请记录") ("审批申请", "请选择待审核状态的申请记录")
    (warn "审批操作" "通过") (sql_audit 2).
Proof.
  apply (sql_batches 0 offline
    (session offline (sqlapply_page 0) [] [Act (ASqlResponse (apply_answer sql_rows))]) (Table "" sql_rows) "");
    vm_compute; reflexivity.
Defined.

(** The fields of the form. *)
Definition sql_form (w : world) : list (string * val) :=
  [("dbName", value_of w "#dbName"); ("tableName", value_of w "#tableName");
   ("sentence", value_of w "#sentence"); ("remark", value_of w "#remark")].

(** The details of an application, as the server sends them. *)
Definition detail_data (fs : list (string * val)) : val :=
  Obj [("code", int 0);
       ("data", Obj [("db_name", field (Obj fs) "dbName"); ("table_name", field (Obj fs) "tableName");
                     ("sentence", field (Obj fs) "sentence"); ("remark", field (Obj fs) "remark")])].

(** The form sends the database, the table, the statement and the remark as
    they were typed, once, if the first three have text, and otherwise warns and
    sends nothing; and showing an application whose details are those of a
    submitted form fills the form with the same fields. *)
Theorem sql_form_submission (E : env) (w : world) :
  let filled := forallb (fun sel => hasText (value_of w sel)) ["#dbName"; "#tableName"; "#sentence"] in
  (filled = true -> exists log, w_out (task E saveSqlApply w) = w_out w ++ Sent (post_sync "/sql/apply" (sql_form w)) :: log) /\
  (filled = false -> w_out (task E saveSqlApply w) =
     w_out w ++ [Told (Str "申请") (Str "请先填写库名、表名、sql语句") "error"]) /\
  forall v, sql_form (task E (showDetail_done (detail_data (sql_form w))) v) = sql_form w.
Proof.
  cbv zeta. unfold task, saveSqlApply, val_of, op1. cbn [bind run exec_op].
  change (attr_of w ?s "value") with (value_of w s). cbn [forallb].
  rewrite andb_true_r, andb_assoc, <- !negb_andb.
  split_ands.
  - intros ->. cbn [negb bind run exec_op]. apply task_ajax_sent.
  - intros ->. done.
  - intros v. unfold showDetail_done, code_is. cbn. unfold sql_form, value_of, attr_of. cbn.
    repeat first [rewrite lookup_insert_eq | rewrite lookup_insert_ne by done]. done.
Qed.
