(* ===== verification/Scheduler.v ===== *)
(** * Scheduling pages and the application for a lock namespace

    static/js/system/scheduleadjust.js (the schedulers of a cluster),
    static/js/system/schedulemanage.js (the list of clusters) and
    static/js/apply/locknspapply.js (the form for a lock namespace).  The three
    pages make the same promises to the user. *)

From S2P Require Import Prelude JsValue Json Browser Logic Contracts Widgets Utils Urls Batch ConfNsp.

(** ** The schedulers of a cluster *)

Definition mySchedulerInfo : prog unit :=
  clusterId <- val_of "#clusterId" ;;
  ajax (http_get ("/scheduler/getAll?clusterId=" +:+ to_str clusterId))
    (keep_data "mySchedulerInfo.schedulerList" "获取失败") no_error.

Definition addScheduler (schedulerName : val) : prog unit :=
  swal (warn "添加scheduler" "执行")
    (Fn0 (if negb (hasText schedulerName) then swal1 "增加的调度类型未知！" else
          clusterId <- val_of "#clusterId" ;;
          ajax (post "/scheduler/adjust"
                  [("clusterId", clusterId); ("optType", int 1); ("scheduler", schedulerName)])
            (report_and_reload "调度任务增加成功！" "调度任务增加成功!" "调度任务失败！")
            (failed "调度任务失败！" "请联系管理员!"))).

Definition removeScheduler (schedulerName : val) : prog unit :=
  swal (warn "移除调度任务！" "执行")
    (Fn0 (clusterId <- val_of "#clusterId" ;;
          ajax (post "/scheduler/adjust"
                  [("clusterId", clusterId); ("optType", int 2); ("scheduler", schedulerName)])
            (report_and_reload "移除调度任务成功！" "移除调度任务成功!" "移除调度任务失败！")
            (failed "移除调度任务失败！" "请联系管理员!"))).

Definition detailScheduler (schedulerName : val) : prog unit :=
  clusterId <- val_of "#clusterId" ;;
  ajax (http_get ("/scheduler/getDetail?clusterId=" +:+ to_str clusterId +:+ "&name=" +:+ to_str schedulerName))
    (fun data =>
       ok <- code_is data 0 ;;
       if ok then d <- get data "data" ;; swal3 "获取worker信息成功！" d "success"
       else msg <- get data "msg" ;; swal3 "获取失败" msg "error")
    no_error.

Inductive scheduler_action : Type :=
| AAddScheduler (name : val) | ARemoveScheduler (name : val) | ADetailScheduler (name : val).

Definition scheduler_handler (a : scheduler_action) : prog unit :=
  match a with
  | AAddScheduler n => addScheduler n
  | ARemoveScheduler n => removeScheduler n
  | ADetailScheduler n => detailScheduler n
  end.

Definition scheduler_page : page :=
  {| p_action := scheduler_action; p_load := start_angular [mySchedulerInfo];
     p_handler := scheduler_handler |}.

(** ** The list of clusters *)

Definition myFbaseClusterInfo : prog unit :=
  ajax (http_get "/cluster/queryClusters")
    (keep_data "myFbaseClusterInfo.clusterList" "获取失败") no_error.

Definition scheduleAdjust (space : val) : prog unit :=
  id <- get space "id" ;; goto ("/page/system/scheduleAdjust?clusterId=" +:+ to_str id).

Definition topologyView (space : val) : prog unit :=
  id <- get space "id" ;; goto ("/page/cluster/topology?clusterId=" +:+ to_str id).

Definition viewRangeTopoByRngId (space : val) : prog unit :=
  swal (ask "查看range拓扑" "请输入一个rangeId来查看" "input" false "查看")
    (Fn1 (fun inputValue =>
       if strict_eq inputValue (Bool false) then done else
       if strict_eq inputValue (Str "") then show_input_error (Str "你需要输入rangeId") else
       if loose_eq inputValue (Str "") || loose_eq inputValue Null then swal1 "请输入rangeId" else
       id <- get space "id" ;;
       goto ("/range/getRangeTopo?clusterId=" +:+ to_str id +:+ "&rangeId=" +:+ to_str inputValue))).

Definition viewRangeOpsTopN (space : val) : prog unit :=
  swal (ask "输入查看的条数，不填默认top10" "请输入查看的条数" "input" false "查看")
    (Fn1 (fun inputValue =>
       if strict_eq inputValue (Bool false) then done else
       let topN := if strict_eq inputValue (Str "") then int 10 else inputValue in
       id <- get space "id" ;;
       goto ("/page/cluster/viewRangeOpsTopN?clusterId=" +:+ to_str id +:+ "&topN=" +:+ to_str topN))).

Inductive manage_action : Type :=
| AScheduleAdjust (space : val) | ATopologyView (space : val)
| AViewRangeTopo (space : val) | AViewTopN (space : val).

Definition manage_handler (a : manage_action) : prog unit :=
  match a with
  | AScheduleAdjust s => scheduleAdjust s
  | ATopologyView s => topologyView s
  | AViewRangeTopo s => viewRangeTopoByRngId s
  | AViewTopN s => viewRangeOpsTopN s
  end.

Definition manage_page : page :=
  {| p_action := manage_action; p_load := start_angular [myFbaseClusterInfo]; p_handler := manage_handler |}.

(** ** The form for a lock namespace *)

(** As on the list of configuration namespaces, with another address. *)
Definition lock_getCluster : prog unit :=
  empty_select "#clusterSelect" ;;
  ajax (http_get "/lock/cluster/getList") getCluster_done (failed_res "获取集群列表失败").

Definition applyLockNsp_done (data : val) : prog unit :=
  ok <- code_is data 0 ;;
  if ok then msg <- get data "msg" ;; swal3 "申请成功!" msg "success" ;; goto "/page/lock/viewNamespace"
  else remove_attr "#submit" "disabled" ;; msg <- get data "msg" ;; swal3 "申请失败" msg "error".

Definition applyLockNsp : prog unit :=
  clusterId <- val_of "#clusterSelect" ;;
  if negb (hasText clusterId) then
    swal1 "请选择对应的集群信息，如无可选集群列表，请联系开发人员"
  else
    dbName <- val_of "#dbName" ;;
    tableName <- val_of "#tableName" ;;
    swal (warn "申请lock namespace?" "确认")
      (Fn0 (ajax (post "/lock/namespace/apply"
                    [("dbName", dbName); ("tableName", tableName); ("clusterId", clusterId)])
              applyLockNsp_done
              (fun res => remove_attr "#submit" "disabled" ;; failed_res "申请lock namespace失败" res))).

(** The validation plugin calls [submitHandler] if both names are filled. *)
Definition validate_options : val :=
  Obj [("debug", Bool true); ("focusInvalid", Bool false); ("onkeyup", Bool false);
       ("rules", Obj [("dbName", Obj [("required", Bool true)]); ("tableName", Obj [("required", Bool true)])]);
       ("messages", Obj [("dbName", Obj [("required", Str "必填")]); ("tableName", Obj [("required", Str "必填")])])].

Definition apply_load : prog unit :=
  call "validate" [Str "#applyNsp-form"; validate_options] ;; lock_getCluster.

Inductive apply_action : Type := ASubmitHandler | AResetForm.

Definition apply_handler (a : apply_action) : prog unit :=
  match a with
  | ASubmitHandler => applyLockNsp
  | AResetForm => call "resetForm" [Str "#applyNsp-form"]
  end.

Definition apply_page : page :=
  {| p_action := apply_action; p_load := apply_load; p_handler := apply_handler |}.

(** ** What the pages promise *)

Definition scheduler_changes (url : string) : list string :=
  if String.eqb url "/scheduler/adjust" then ["添加scheduler"; "移除调度任务！"] else [].

Definition apply_changes (url : string) : list string :=
  if String.eqb url "/lock/namespace/apply" then ["申请lock namespace?"] else [].

#[export] Instance scheduler_page_promising : Promising scheduler_page (usual scheduler_changes).
Proof. keeps_promises. Qed.

#[export] Instance manage_page_promising : Promising manage_page (usual (fun _ => [])).
Proof. keeps_promises. Qed.

#[export] Instance apply_page_promising : Promising apply_page (usual apply_changes).
Proof. keeps_promises. Qed.

(** ** Theorems *)

(** In every state the pages can reach, a scheduler is added or removed, and
    a lock namespace applied for, only from the confirm button of the dialog that
    asked for it; the list of clusters sends nothing at all after it loaded; one
    event sends at most one request; every readable answer to a post is shown,
    and success only after code 0. *)
Theorem scheduler_pages_safe (E : env) (ws wm wa : world)
    (evs : event scheduler_action) (evm : event manage_action) (eva : event apply_action) :
  reachable E scheduler_page ws -> reachable E manage_page wm -> reachable E apply_page wa ->
  safe_step (usual scheduler_changes) E scheduler_page ws evs /\
  safe_step (usual (fun _ => [])) E manage_page wm evm /\
  safe_step (usual apply_changes) E apply_page wa eva.
Proof. intros Hs Hm Ha. split_ands; by apply reachable_safe_step. Qed.

Definition scheduler_session : world :=
  session offline scheduler_page [] [Act (AAddScheduler (Str "balance_leader"))].
Definition apply_session : world :=
  session offline apply_page [("#clusterSelect", "value", Str "1")] [Act ASubmitHandler].

Lemma scheduler_pages_safe_witness :
  safe_step (usual scheduler_changes) offline scheduler_page scheduler_session (Confirm "") /\
  safe_step (usual (fun _ => [])) offline manage_page (session offline manage_page [] []) Cancel /\
  safe_step (usual apply_changes) offline apply_page apply_session (Confirm "").
Proof. apply scheduler_pages_safe; apply reachable_session. Defined.

(** The links of the cluster list hand over the cluster, and the range or the
    number of ranges that was typed, intact; an empty number becomes 10. *)
Theorem cluster_links (E : env) (w : world) (id : Z) (input : string) :
  plain input = true -> input <> "" ->
  let space := Obj [("id", int id)] in
  let after a := news E manage_page (step E manage_page w (Act a)) (Confirm input) in
  (exists url, news E manage_page w (Act (AScheduleAdjust space)) = [WentTo url] /\
     params url = [("clusterId", string_of_Z id)]) /\
  (exists url, after (AViewRangeTopo space) = [WentTo url] /\
     params url = [("clusterId", string_of_Z id); ("rangeId", input)]) /\
  (exists url, after (AViewTopN space) = [WentTo url] /\
     params url = [("clusterId", string_of_Z id); ("topN", input)]) /\
  (exists url, news E manage_page (step E manage_page w (Act (AViewTopN space))) (Confirm "") = [WentTo url] /\
     params url = [("clusterId", string_of_Z id); ("topN", "10")]).
Proof.
  intros Hp Hne. cbv zeta.
  assert (Hid := plain_string_of_Z id).
  assert (Hne' : String.eqb input "" = false) by (by apply String.eqb_neq).
  split_ands.
  - exists ("/page/system/scheduleAdjust" +:+ "?" +:+ build_query [("clusterId", string_of_Z id)]).
    split; [unfold news; cbn; by rewrite drop_app_length|apply params_build; [done|done|by repeat constructor]].
  - exists ("/range/getRangeTopo" +:+ "?" +:+ build_query [("clusterId", string_of_Z id); ("rangeId", input)]).
    split; [|apply params_build; [done|done|by repeat constructor]].
    unfold news. cbn. unfold task. cbn. rewrite Hne'. cbn. rewrite drop_app_length.
    reflexivity.
  - exists ("/page/cluster/viewRangeOpsTopN" +:+ "?" +:+ build_query [("clusterId", string_of_Z id); ("topN", input)]).
    split; [|apply params_build; [done|done|by repeat constructor]].
    unfold news. cbn. unfold task. cbn. rewrite Hne'. cbn. rewrite drop_app_length. reflexivity.
  - exists ("/page/cluster/viewRangeOpsTopN" +:+ "?" +:+ build_query [("clusterId", string_of_Z id); ("topN", "10")]).
    split; [|apply params_build; [done|done|by repeat constructor]].
    unfold news. cbn. unfold task. cbn. rewrite drop_app_length. reflexivity.
Qed.

Lemma cluster_links_witness :
  exists url, news offline manage_page
    (step offline manage_page (fresh ∅) (Act (AViewRangeTopo (Obj [("id", int 7)])))) (Confirm "12") = [WentTo url] /\
    params url = [("clusterId", "7"); ("rangeId", "12")].
Proof.
  destruct (cluster_links offline (fresh ∅) 7 "12") as (_ & H & _); [reflexivity|discriminate|].
  exact H.
Defined.
