(* ===== verification/JsGrid.v ===== *)
(** * jsGrid

    The editable grid of the pages that create and edit tables:
    static/js/plugins/jqgrid/validation/jsgrid.core.js with the files of its
    fields, its validation and its load strategies, as changed for the console
    (an insertion and a deletion have guards of their own).

    The items are objects in a store; the grid's array [data], which the page
    shares, and the rows on the screen refer to them.  A row keeps what it showed
    when it was drawn.  The grid loads nothing by itself here: its load strategy
    is the direct one.  Sorting, filtering and the switch of modes are off on the
    console's pages and not modelled. *)

From S2P Require Import Prelude JsValue Urls Regex.
From Stdlib Require Import Ascii.

(** ** Properties with dotted names *)

(** [result = item[props.shift()]; while (result && props.length) ...]. *)
Fixpoint get_path (item : val) (props : list string) : val :=
  match props with
  | [] => item
  | p :: ps => let result := field item p in if truthy result then get_path result ps else result
  end.

(** Objects are made where the path is missing. *)
Fixpoint set_path (item : val) (props : list string) (value : val) : val :=
  match props with
  | [] => value
  | p :: ps =>
      let current := field item p in
      set_prop p (set_path (if truthy current then current else Obj []) ps value) item
  end.

Definition split_dots (name : string) : list string := split_on "." name.

(** [$.extend(true, target, source)], at a property of both: undefined values are
    skipped, objects and arrays merged, others replaced. *)
Fixpoint extend_value (src copy : val) {struct copy} : val :=
  match copy with
  | Undef => src
  | Obj fs =>
      Obj ((fix go (fs acc : list (string * val)) : list (string * val) :=
              match fs with
              | [] => acc
              | (k, v) :: fs' =>
                  go fs' (if strict_eq v Undef then acc
                          else assoc_set k (extend_value (default Undef (assoc k acc)) v) acc)
              end) fs match src with Obj o => o | _ => [] end)
  | Arr l =>
      Arr ((fix go (l acc : list val) (i : nat) : list val :=
              match l with
              | [] => acc
              | v :: l' =>
                  go l' (if strict_eq v Undef then acc
                         else let x := extend_value (default Undef (acc !! i)) v in
                              if (i <? length acc)%nat then <[i := x]> acc
                              else acc ++ replicate (i - length acc) Undef ++ [x]) (S i)
              end) l match src with Arr a => a | _ => [] end 0%nat)
  | _ => copy
  end.

(** ** Validation (jsgrid.validation.js) *)

Inductive rule : Type :=
| RNamed (name : string) (param : val) (message : option string)
| RPattern (r : regex) (message : option string)
| RCustom (f : val -> val -> bool) (message : string).

(** [a >= b] *)
Definition js_ge (a b : val) : bool :=
  match a, b with
  | Str s, Str t => negb (String.ltb s t)
  | _, _ => match to_number a, to_number b with Fin x, Fin y => y <=? x | _, _ => false end
  end.

(** [v[i]] on an array. *)
Definition at_index (v : val) (i : nat) : val := match v with Arr l => default Undef (l !! i) | _ => Undef end.

(** [validators[name]]: the message, and the test of a value against the
    parameter, which throws ([None]) where the value has no properties. *)
Definition validators (name : string) : option (string * (val -> val -> option bool)) :=
  if String.eqb name "required" then
    Some ("列必须填写", fun value _ => Some (negb (strict_eq value Undef || strict_eq value Null || strict_eq value (Str ""))))
  else if String.eqb name "rangeLength" then
    Some ("Field value length is out of the defined range",
          fun value param => (fun n => js_ge n (at_index param 0) && js_ge (at_index param 1) n) <$> get_prop value "length")
  else if String.eqb name "minLength" then
    Some ("Field value is too short", fun value param => (fun n => js_ge n param) <$> get_prop value "length")
  else if String.eqb name "maxLength" then
    Some ("Field value is too long", fun value param => (fun n => js_ge param n) <$> get_prop value "length")
  else if String.eqb name "range" then
    Some ("Field value is out of the defined range",
          fun value param => Some (js_ge value (at_index param 0) && js_ge (at_index param 1) value))
  else if String.eqb name "min" then Some ("Field value is too small", fun value param => Some (js_ge value param))
  else if String.eqb name "max" then Some ("Field value is too large", fun value param => Some (js_ge param value))
  else None.

(** One rule: no message, or one; [None] throws, also for an unknown name. *)
Definition check_rule (value item : val) (r : rule) : option (list string) :=
  match r with
  | RNamed name param message =>
      v ← validators name;
      ok ← v.2 value param;
      Some (if ok : bool then [] else [default v.1 message])
  | RPattern re message =>
      Some (if matches re (to_str value) then [] else [default "Field value is not matching the defined pattern" message])
  | RCustom f message => Some (if f value item then [] else [message])
  end.

(** The rules are looked up before any of them is applied. *)
Definition known_rule (r : rule) : bool :=
  match r with RNamed name _ _ => bool_decide (is_Some (validators name)) | _ => true end.

Definition validate (rules : list rule) (value item : val) : option (list string) :=
  if forallb known_rule rules then (fun l => concat l) <$> mapM (check_rule value item) rules else None.

(** ** Fields (jsgrid.field*.js) *)

Inductive ftype : Type :=
| FPlain
| FText
| FNumber
| FSelect (items : list val) (valueField textField : string)
| FCheckbox
| FControl.

Record gfield := GField {
  f_name : string;
  f_type : ftype;
  f_visible : bool;
  f_inserting : bool;
  f_editing : bool;
  f_rules : list rule
}.

(** [this.valueType] of a select field. *)
Definition valueType_number (items : list val) (valueField : string) : bool :=
  match items with
  | item :: _ =>
      if String.eqb valueField "" then true
      else match field item valueField with Num _ => true | _ => false end
  | [] => true
  end.

(** The values of the options; one without a value has its text. *)
Definition option_value (valueField textField : string) (index : nat) (item : val) : string :=
  let text := if String.eqb textField "" then item else field item textField in
  let value := if String.eqb valueField "" then int (Z.of_nat index) else field item valueField in
  to_str (if strict_eq value Undef then text else value).
Definition _createSelect (items : list val) (valueField textField : string) : list string :=
  imap (option_value valueField textField) items.

(** [$(select).val(value)]: the first option with that text, or none. *)
Definition select_val (options : list string) (value : val) : val :=
  let texts :=
    match value with
    | Undef | Null => [""]
    | Num n => [num_to_str n]
    | Str s => [s]
    | Arr l => List.map to_str l
    | Bool _ | Obj _ => []
    end in
  match List.find (fun o => existsb (String.eqb o) texts) options with
  | Some o => Str o
  | None => Null
  end.

(** A new control: its text, its choice (the first option) or its mark. *)
Definition new_control (t : ftype) : val :=
  match t with
  | FCheckbox => Bool false
  | FSelect items vf tf => match _createSelect items vf tf with o :: _ => Str o | [] => Null end
  | _ => Str ""
  end.

(** The text of a box for numbers is a number or nothing. *)
Definition number_text (value : val) : string :=
  match value with
  | Num (Fin z) => string_of_Z z
  | Str s => match signed_of_string s with Some _ => if has_char "+" s then "" else s | None => "" end
  | _ => ""
  end.

(** [editTemplate(value)]: the control of an edited row. *)
Definition edit_control (t : ftype) (value : val) : val :=
  match t with
  | FText => Str match value with Undef | Null => "" | _ => to_str value end
  | FNumber => Str (number_text value)
  | FSelect items vf tf =>
      if strict_eq value Undef then new_control t else select_val (_createSelect items vf tf) value
  | FCheckbox => Bool (truthy value)
  | FPlain => value
  | FControl => Str ""
  end.

(** [insertValue()] and [editValue()] of a field with that control. *)
Definition control_value (t : ftype) (c : val) : val :=
  match t with
  | FNumber => if truthy c then parse_int c else Undef
  | FSelect items vf _ => if valueType_number items vf then parse_int (or_else c (int 0)) else c
  | FControl => Str ""
  | _ => c
  end.

(** What a cell shows; [None] throws. *)
Definition itemTemplate (t : ftype) (value : val) : option val :=
  match t with
  | FSelect items vf tf =>
      let resultItem :=
        if String.eqb vf "" then
          match value with Num (Fin z) => if z <? 0 then Undef else default Undef (items !! Z.to_nat z) | _ => Undef end
        else default (Obj []) (List.find (fun item => strict_eq (field item vf) value) items) in
      result ← (if String.eqb tf "" then Some resultItem else get_prop resultItem tf);
      Some (match result with Undef | Null => Str "" | _ => result end)
  | FCheckbox => Some (Bool (truthy value))
  | FControl => Some (Str "")
  | _ => Some (match value with Undef | Null => Str "" | _ => value end)
  end.

(** ** The grid *)

(** The server behind the grid: what it makes of an item, [None] if it refuses. *)
Record controller := Controller {
  ct_insert : val -> option val;
  ct_update : val -> option val;
  ct_delete : val -> option val
}.

(** [$.noop] answers [undefined] at once. *)
Definition defaultController : controller :=
  Controller (fun _ => Some Undef) (fun _ => Some Undef) (fun _ => Some Undef).

Record jconfig := JConfig {
  jc_fields : list gfield;
  jc_editing : bool;
  jc_paging : bool;
  jc_pageSize : Z;
  jc_pageButtonCount : Z;
  jc_confirmDeleting : bool;
  jc_controller : controller
}.

(** A drawn row: its item, what its cells show, and its shade. *)
Record jsrow := JsRow { jr_item : nat; jr_cells : list val; jr_odd : bool }.

Inductive gout : Type :=
| GAlert (text : string)
| GSwal (title text type : string).

Record jsgrid := JsGrid {
  gr_store : list val;
  gr_data : list nat;
  gr_body : list jsrow;
  gr_editing : option nat;
  gr_edit : list val;
  gr_insert : list val;
  gr_pageIndex : Z;
  gr_firstPage : Z;
  gr_out : list gout
}.

Inductive jresult : Type :=
| JOk (st : jsgrid)
| JThrew (st : jsgrid).

Definition jafter (r : jresult) : jsgrid := match r with JOk st | JThrew st => st end.
Definition jthen (r : jresult) (f : jsgrid -> jresult) : jresult :=
  match r with JOk st => f st | JThrew st => JThrew st end.

Definition put_items h d st :=
  JsGrid h d (gr_body st) (gr_editing st) (gr_edit st) (gr_insert st) (gr_pageIndex st) (gr_firstPage st) (gr_out st).
Definition put_body b st :=
  JsGrid (gr_store st) (gr_data st) b (gr_editing st) (gr_edit st) (gr_insert st) (gr_pageIndex st) (gr_firstPage st)
    (gr_out st).
Definition put_edit k c st :=
  JsGrid (gr_store st) (gr_data st) (gr_body st) k c (gr_insert st) (gr_pageIndex st) (gr_firstPage st) (gr_out st).
Definition put_insert c st :=
  JsGrid (gr_store st) (gr_data st) (gr_body st) (gr_editing st) (gr_edit st) c (gr_pageIndex st) (gr_firstPage st)
    (gr_out st).
Definition put_page i f st :=
  JsGrid (gr_store st) (gr_data st) (gr_body st) (gr_editing st) (gr_edit st) (gr_insert st) i f (gr_out st).
Definition tell o st :=
  JsGrid (gr_store st) (gr_data st) (gr_body st) (gr_editing st) (gr_edit st) (gr_insert st) (gr_pageIndex st)
    (gr_firstPage st) (gr_out st ++ [o]).

Definition item_at (h : list val) (r : nat) : val := default Undef (h !! r).

(** ** Drawing *)

Definition _getItemFieldValue (item : val) (f : gfield) : val := get_path item (split_dots (f_name f)).
Definition _setItemFieldValue (item : val) (f : gfield) (value : val) : val :=
  set_path item (split_dots (f_name f)) value.

Section Grid.
Context (cf : jconfig).

(** [_eachField]: the visible fields. *)
Definition visible_fields : list gfield := List.filter f_visible (jc_fields cf).

(** A cell reads a property of the item, which [undefined] and [null] do not have. *)
Definition _createCell (item : val) (f : gfield) : option val :=
  get_prop item "" ≫= fun _ => itemTemplate (f_type f) (_getItemFieldValue item f).

Definition _createRow (h : list val) (r : nat) (itemIndex : Z) : option jsrow :=
  cells ← mapM (_createCell (item_at h r)) visible_fields;
  Some (JsRow r cells (negb ((itemIndex + 1) mod 2 =? 0))).

Definition firstDisplayIndex (st : jsgrid) : Z := if jc_paging cf then (gr_pageIndex st - 1) * jc_pageSize cf else 0.
Definition lastDisplayIndex (st : jsgrid) : Z :=
  let itemsCount := Z.of_nat (length (gr_data st)) in
  if jc_paging cf then Z.min (gr_pageIndex st * jc_pageSize cf) itemsCount else itemsCount.

(** [for (itemIndex = indexFrom; itemIndex < indexTo; itemIndex++)]: the rows drawn,
    and whether the last one threw. *)
Fixpoint draw_items (h : list val) (itemIndex : Z) (l : list nat) : list jsrow * bool :=
  match l with
  | [] => ([], false)
  | r :: l' =>
      match _createRow h r itemIndex with
      | Some row => let '(rows, threw) := draw_items h (itemIndex + 1) l' in (row :: rows, threw)
      | None => ([], true)
      end
  end.

Definition displayed (st : jsgrid) : list nat :=
  let from := Z.to_nat (firstDisplayIndex st) in
  take (Z.to_nat (lastDisplayIndex st) - from) (drop from (gr_data st)).

Definition _refreshContent (st : jsgrid) : jresult :=
  let '(rows, threw) := draw_items (gr_store st) (firstDisplayIndex st) (displayed st) in
  let st := put_body rows st in
  if threw then JThrew st else JOk st.

Definition cancelEdit (st : jsgrid) : jsgrid :=
  match gr_editing st with None => st | Some _ => put_edit None [] st end.

Definition refresh (st : jsgrid) : jresult := _refreshContent (cancelEdit st).

(** ** Pages *)

Definition _pagesCount (st : jsgrid) : Z :=
  let itemsCount := Z.of_nat (length (gr_data st)) in
  itemsCount / jc_pageSize cf + (if itemsCount mod jc_pageSize cf =? 0 then 0 else 1).

Definition _setPage (pageIndex : Z) (st : jsgrid) : jsgrid :=
  let first := gr_firstPage st in
  let first := if pageIndex <? first then pageIndex else first in
  let first := if pageIndex >? gr_firstPage st + jc_pageButtonCount cf - 1
               then pageIndex - jc_pageButtonCount cf + 1 else first in
  put_page pageIndex first st.

Definition openPage (pageIndex : Z) (st : jsgrid) : jresult :=
  if (pageIndex <? 1) || (pageIndex >? _pagesCount st) then JOk st else refresh (_setPage pageIndex st).

Definition showPrevPages (st : jsgrid) : jsgrid :=
  put_page (gr_pageIndex st)
    (if gr_firstPage st >? jc_pageButtonCount cf then gr_firstPage st - jc_pageButtonCount cf else 1) st.
Definition showNextPages (st : jsgrid) : jsgrid :=
  put_page (gr_pageIndex st)
    (if gr_firstPage st + 2 * jc_pageButtonCount cf >? _pagesCount st
     then _pagesCount st - jc_pageButtonCount cf + 1 else gr_firstPage st + jc_pageButtonCount cf) st.

(** The numbers on the buttons of the pager. *)
Definition _createPages (st : jsgrid) : list Z :=
  (fun i => gr_firstPage st + Z.of_nat i) <$>
    seq 0 (Z.to_nat (Z.min (jc_pageButtonCount cf) (_pagesCount st - gr_firstPage st + 1))).

Definition _resetPager (st : jsgrid) : jsgrid := _setPage 1 (put_page (gr_pageIndex st) 1 st).
Definition reset (st : jsgrid) : jresult := refresh (_resetPager st).

(** ** Checking *)

(** The messages for the fields that take part, in order. *)
Definition _validateItem (part : gfield -> bool) (item : val) : option (list string) :=
  (fun l => concat l) <$> mapM (fun f => if part f then validate (f_rules f) (_getItemFieldValue item f) item else Some [])
               visible_fields.

Definition invalidMessage : string := "无效的数据输入!".
Definition invalidNotify (messages : list string) : gout :=
  GAlert (str_join nl (invalidMessage :: List.filter (fun m => negb (String.eqb m "")) messages)).

(** ** Inserting *)

(** The controls of all fields; only the visible ones are drawn. *)
Definition _createInsertRow : list val := List.map (fun f => new_control (f_type f)) (jc_fields cf).

(** The values of the controls, of the fields that take part. *)
Definition read_controls (part : gfield -> bool) (controls : list val) : val :=
  fold_left (fun item '(f, c) =>
    if f_visible f && part f then _setItemFieldValue item f (control_value (f_type f) c) else item)
    (zip (jc_fields cf) controls) (Obj []).

Definition _getInsertItem (st : jsgrid) : val := read_controls f_inserting (gr_insert st).

Definition finishInsert (insertedItem : val) (st : jsgrid) : jresult :=
  refresh (put_items (gr_store st ++ [insertedItem]) (gr_data st ++ [length (gr_store st)]) st).

Definition clearInsert (st : jsgrid) : jresult := refresh (put_insert _createInsertRow st).

(** The button of the insert row: [grid.insertItem().done(clearInsert)].  The guard
    on dynamic keys returns [false], which has no [done]. *)
Definition insertItem (st : jsgrid) : jresult :=
  let insertingItem := _getInsertItem st in
  match _validateItem f_inserting insertingItem with
  | None => JThrew st
  | Some [] =>
      if truthy (field insertingItem "regxs") && truthy (field insertingItem "primarykey")
      then JThrew (tell (GSwal "添加失败" "主键与动态表只能选一个" "error") st)
      else
        match ct_insert (jc_controller cf) insertingItem with
        | None => JOk st
        | Some insertedItem => jthen (finishInsert (or_else insertedItem insertingItem) st) clearInsert
        end
  | Some messages => JOk (tell (invalidNotify messages) st)
  end.

(** ** Editing *)

Definition _createEditRow (item : val) : list val :=
  List.map (fun f => edit_control (f_type f) (_getItemFieldValue item f)) (jc_fields cf).

Definition _editRow (k : nat) (st : jsgrid) : jsgrid :=
  match gr_body st !! k with
  | Some row =>
      if jc_editing cf
      then let st := cancelEdit st in put_edit (Some k) (_createEditRow (item_at (gr_store st) (jr_item row))) st
      else st
  | None => st
  end.

(** [$.inArray(item, data)] *)
Definition _itemIndex (item : nat) (st : jsgrid) : Z :=
  match list_find (eq item) (gr_data st) with Some (i, _) => Z.of_nat i | None => -1 end.

Definition _getEditedItem (st : jsgrid) : val := read_controls f_editing (gr_edit st).

(** [data[index] = item]: the index -1 is a property of the array and no element. *)
Definition put_data (index : Z) (r : nat) (st : jsgrid) : jsgrid :=
  put_items (gr_store st) (if index <? 0 then gr_data st else <[Z.to_nat index := r]> (gr_data st)) st.

Definition _finishUpdate (k : nat) (r : nat) (index : Z) (st : jsgrid) : jresult :=
  let st := put_data index r (cancelEdit st) in
  match _createRow (gr_store st) r index with
  | Some row => JOk (put_body (<[k := row]> (gr_body st)) st)
  | None => JThrew st
  end.

(** The item itself is changed, unless the server sends another one. *)
Definition _updateRow (k : nat) (r : nat) (editedItem : val) (st : jsgrid) : jresult :=
  let updatingItem := item_at (gr_store st) r in
  let index := _itemIndex r st in
  match ct_update (jc_controller cf) (extend_value (extend_value (Obj []) updatingItem) editedItem) with
  | None => JOk st
  | Some loaded =>
      if truthy loaded
      then _finishUpdate k (length (gr_store st)) index (put_items (gr_store st ++ [loaded]) (gr_data st) st)
      else _finishUpdate k r index (put_items (<[r := extend_value updatingItem editedItem]> (gr_store st)) (gr_data st) st)
  end.

(** The update button of the edited row. *)
Definition updateItem (st : jsgrid) : jresult :=
  match gr_editing st ≫= (fun k => row ← gr_body st !! k; Some (k, jr_item row)) with
  | None => JOk st
  | Some (k, r) =>
      let editedItem := _getEditedItem st in
      match _validateItem f_editing editedItem with
      | None => JThrew st
      | Some [] => _updateRow k r editedItem st
      | Some messages => JOk (tell (invalidNotify messages) st)
      end
  end.

(** ** Deleting *)

(** [data.splice(index, 1)]; the index -1 counts from the end. *)
Definition splice_data (index : Z) (l : list nat) : list nat :=
  if index <? 0 then delete (length l - 1)%nat l else delete (Z.to_nat index) l.

Definition finishDelete (index : Z) (st : jsgrid) : jresult :=
  reset (put_items (gr_store st) (splice_data index (gr_data st)) st).

(** The button of a row; [sure] answers the question of the browser. *)
Definition deleteItem (k : nat) (sure : bool) (st : jsgrid) : jresult :=
  match gr_body st !! k with
  | None => JOk st
  | Some row =>
      let item := item_at (gr_store st) (jr_item row) in
      if jc_confirmDeleting cf && negb sure then JOk st
      else if loose_eq (field item "primary_key") (int 1) then JOk (tell (GAlert "主键不能删除") st)
      else
        match ct_delete (jc_controller cf) item with
        | None => JOk st
        | Some _ => finishDelete (_itemIndex (jr_item row) st) st
        end
  end.

(** ** Events *)

(** [render] of a grid on an array of items. *)
Definition render (items : list val) : jresult :=
  refresh (JsGrid items (seq 0 (length items)) [] None [] _createInsertRow 1 1 []).

(** A control of the insert row or of the edited row gets another content. *)
Inductive gevent : Type :=
| GInsertControl (i : nat) (v : val)
| GInsert
| GRow (k : nat)
| GEditControl (i : nat) (v : val)
| GUpdate
| GCancelEdit
| GDelete (k : nat) (sure : bool)
| GPage (n : Z).

Definition grid_step (st : jsgrid) (ev : gevent) : jresult :=
  match ev with
  | GInsertControl i v => JOk (put_insert (<[i := v]> (gr_insert st)) st)
  | GInsert => insertItem st
  | GRow k => if bool_decide (gr_editing st = Some k) then JOk st else JOk (_editRow k st)
  | GEditControl i v =>
      match gr_editing st with
      | Some k => JOk (put_edit (Some k) (<[i := v]> (gr_edit st)) st)
      | None => JOk st
      end
  | GUpdate => updateItem st
  | GCancelEdit => JOk (cancelEdit st)
  | GDelete k sure => deleteItem k sure st
  | GPage n => openPage n st
  end.

Fixpoint grid_steps (st : jsgrid) (evs : list gevent) : jresult :=
  match evs with
  | [] => JOk st
  | ev :: evs' => jthen (grid_step st ev) (fun st => grid_steps st evs')
  end.

End Grid.
