(* ===== verification/ColumnGrid.v ===== *)
(** * The grid of columns

    jsGrid ([JsGrid.v]) as the pages that create and edit tables set it up
    (createtables/createtable.js, edittable.js), and what it does to the array of
    columns that it shares with the script of the page ([CreateTable.v]). *)

From S2P Require Import Prelude JsValue Urls Regex Browser Logic CreateTable JsGrid.
From Stdlib Require Import Ascii.

(** ** The fields of the two pages *)

Definition data_type_items : list val :=
  List.map (fun '(n, v) => Obj [("name", Str n); ("value", int v)]) dataTypes.

Definition name_field : gfield := GField "name" FText true true true [RNamed "required" Undef None].
Definition type_field (editing : bool) : gfield :=
  GField "data_type" (FSelect data_type_items "value" "name") true true editing [].
Definition box_field (editing : bool) (name : string) : gfield := GField name FCheckbox true true editing [].
Definition control_field : gfield := GField "" FControl true false false [].

(** On the page that edits a table only the name of a column can be changed. *)
Definition column_fields (editing : bool) : list gfield :=
  [name_field; type_field editing] ++
  List.map (box_field editing) ["unsigned"; "primary_key"; "auto_increment"; "regxs"] ++ [control_field].

Definition column_config (editing : bool) : jconfig :=
  JConfig (column_fields editing) true false 20 15 false defaultController.
Definition create_grid : jconfig := column_config true.
Definition edit_grid : jconfig := column_config false.

(** ** Grids whose drawing and checks never throw *)

Definition object (v : val) : bool := match v with Obj _ => true | _ => false end.

Class Steady (cf : jconfig) : Prop := {
  st_paging : jc_paging cf = false;
  st_controller : jc_controller cf = defaultController;
  st_cells f v : f ∈ jc_fields cf -> is_Some (itemTemplate (f_type f) v);
  st_rules f v item : f ∈ jc_fields cf -> is_Some (validate (f_rules f) v item);
  st_names f : f ∈ jc_fields cf -> hd_error (split_dots (f_name f)) <> Some "primarykey"
}.

(** The columns in the array. *)
Definition values (st : jsgrid) : list val := item_at (gr_store st) <$> gr_data st.

(** The grid shows the items of the array, as they are. *)
Record in_step (cf : jconfig) (st : jsgrid) : Prop := InStep {
  is_nodup : NoDup (gr_data st);
  is_range : Forall (fun r => r < length (gr_store st))%nat (gr_data st);
  is_objects : Forall (fun v => object v = true) (values st);
  is_body : draw_items cf (gr_store st) 0 (gr_data st) = (gr_body st, false);
  is_editing k : gr_editing st = Some k -> (k < length (gr_body st))%nat
}.

(** What an event of the grid means for the array. *)
Definition accepted (cf : jconfig) (part : gfield -> bool) (item : val) : bool :=
  match _validateItem cf part item with Some [] => true | _ => false end.

Definition actions_of (cf : jconfig) (st : jsgrid) (ev : gevent) : list action :=
  match ev with
  | GInsert => let item := _getInsertItem cf st in if accepted cf f_inserting item then [AInsert item] else []
  | GUpdate =>
      match gr_editing st with
      | Some k =>
          let edited := _getEditedItem cf st in
          if accepted cf f_editing edited
          then [AUpdate k (extend_value (default Undef (values st !! k)) edited)] else []
      | None => []
      end
  | GDelete k sure =>
      match values st !! k with
      | Some item =>
          if jc_confirmDeleting cf && negb sure || loose_eq (field item "primary_key") (int 1) then [] else [ARemove k]
      | None => []
      end
  | _ => []
  end.

Definition grid_act (l : list val) (a : action) : list val :=
  match a with
  | ASubmit => l
  | AInsert r => l ++ [r]
  | AUpdate i r => <[i := r]> l
  | ARemove i => delete i l
  end.

(** ** Lists and objects *)

Lemma object_set_path fs p ps v : exists fs', set_path (Obj fs) (p :: ps) v = Obj fs'.
Proof. cbn. by eexists. Qed.

Lemma object_setItem item f v : object item = true -> object (_setItemFieldValue item f v) = true.
Proof.
  destruct item as [| | | | | |fs]; try done. intros _. unfold _setItemFieldValue, split_dots.
  destruct (split_on "." (f_name f)) as [|p ps] eqn:E; [by apply split_on_nonempty in E|].
  by destruct (object_set_path fs p ps v) as [fs' ->].
Qed.

Lemma object_extend a b : object b = true -> object (extend_value a b) = true.
Proof. by destruct b. Qed.

(** Reading controls adds only the names of the fields. *)
Lemma field_setItem item f v k :
  hd_error (split_dots (f_name f)) <> Some k -> field (_setItemFieldValue item f v) k = field item k.
Proof.
  unfold _setItemFieldValue, split_dots. destruct (split_on "." (f_name f)) as [|p ps] eqn:E; [by apply split_on_nonempty in E|].
  intros Hk. cbn [set_path]. apply field_set_ne. cbn in Hk. congruence.
Qed.

Lemma read_controls_object cf part cs : object (read_controls cf part cs) = true.
Proof.
  unfold read_controls. generalize (zip (jc_fields cf) cs) as l. assert (object (Obj []) = true) as H by done. revert H.
  generalize (Obj []) as o. intros o Ho l. revert o Ho. induction l as [|[f c] l IH]; intros o Ho; [done|]. cbn [fold_left].
  apply IH. destruct (f_visible f && part f); [by apply object_setItem|done].
Qed.

Lemma read_controls_field cf part cs k :
  (forall f, f ∈ jc_fields cf -> hd_error (split_dots (f_name f)) <> Some k) ->
  field (read_controls cf part cs) k = Undef.
Proof.
  intros Hk. unfold read_controls.
  assert (Hl : forall f c, (f, c) ∈ zip (jc_fields cf) cs -> hd_error (split_dots (f_name f)) <> Some k).
  { intros f c Hfc. apply Hk. by apply elem_of_zip_l in Hfc. }
  assert (field (Obj []) k = Undef) as H by done. revert H Hl.
  generalize (Obj []) as o, (zip (jc_fields cf) cs) as l. intros o l. revert o.
  induction l as [|[f c] l IH]; intros o Ho Hl; [done|]. cbn [fold_left]. apply IH.
  - destruct (f_visible f && part f); [|done]. rewrite field_setItem; [done|]. apply (Hl f c). by left.
  - intros f' c' H. apply (Hl f' c'). by right.
Qed.

(** ** Drawing *)

Section Steady.
Context (cf : jconfig) `{!Steady cf}.

Lemma visible_fields_in f : f ∈ visible_fields cf -> f ∈ jc_fields cf.
Proof. unfold visible_fields. rewrite !list_elem_of_In, filter_In. by intros [? _]. Qed.

Lemma mapM_total {A B : Type} (g : A -> option B) l :
  (forall x, x ∈ l -> is_Some (g x)) -> exists l', mapM g l = Some l'.
Proof.
  intros H. assert (is_Some (mapM g l)) as [l' ->]; [|by eexists].
  apply mapM_is_Some_2, list.Forall_forall. exact H.
Qed.

Lemma createRow_total h r n : object (item_at h r) = true -> exists row, _createRow cf h r n = Some row /\ jr_item row = r.
Proof.
  intros Ho. unfold _createRow. destruct (mapM_total (_createCell (item_at h r)) (visible_fields cf)) as [cells ->].
  { intros f Hf. unfold _createCell. destruct (item_at h r) as [| | | | | |fs]; try done. cbn. apply st_cells. by apply visible_fields_in. }
  cbn. by eexists.
Qed.

Lemma draw_items_total h n l :
  Forall (fun r => object (item_at h r) = true) l ->
  exists rows, draw_items cf h n l = (rows, false) /\ jr_item <$> rows = l.
Proof.
  intros Hl. revert n. induction Hl as [|r l Hr Hl IH]; intros n; [by exists []|].
  cbn [draw_items]. destruct (createRow_total h r n Hr) as (row & -> & Hrow).
  destruct (IH (n + 1)) as (rows & -> & Hrows). exists (row :: rows). cbn. by rewrite Hrow, Hrows.
Qed.

Lemma draw_items_ext h h' n l :
  (forall r, r ∈ l -> item_at h r = item_at h' r) -> draw_items cf h n l = draw_items cf h' n l.
Proof.
  revert n. induction l as [|r l IH]; intros n H; [done|]. cbn [draw_items]. unfold _createRow.
  rewrite (H r) by (by left). rewrite (IH (n + 1)) by (intros; apply H; by right). done.
Qed.

(** One row is drawn anew. *)
Lemma draw_items_update h h' l n rows k r row :
  draw_items cf h n l = (rows, false) -> l !! k = Some r -> NoDup l ->
  (forall r', r' <> r -> item_at h' r' = item_at h r') ->
  _createRow cf h' r (n + Z.of_nat k) = Some row ->
  draw_items cf h' n l = (<[k := row]> rows, false).
Proof.
  revert n rows k. induction l as [|x l IH]; intros n rows k Hd Hk Hnd Hh Hrow; [done|].
  apply list.NoDup_cons in Hnd as [Hx Hnd]. cbn [draw_items] in *.
  destruct (_createRow cf h x n) as [rx|] eqn:Ex; [|done].
  destruct (draw_items cf h (n + 1) l) as [rs b] eqn:El. injection Hd as <- ->.
  destruct k as [|k]; cbn in Hk.
  - injection Hk as ->. rewrite Z.add_0_r in Hrow. rewrite Hrow.
    rewrite (draw_items_ext h' h), El; [done|]. intros r' Hr'. apply Hh. by intros ->.
  - assert (r <> x) by (intros ->; apply Hx; by apply list_elem_of_lookup_2 in Hk).
    unfold _createRow in Ex |- *. rewrite Hh by done. rewrite Ex.
    rewrite (IH (n + 1) rs k); [done|done|done|done|done|].
    rewrite <- Hrow. f_equal. lia.
Qed.

Lemma draw_items_length h n l rows : draw_items cf h n l = (rows, false) -> length rows = length l.
Proof.
  revert n rows. induction l as [|r l IH]; intros n rows; cbn [draw_items]; [by intros [= <-]|].
  destruct (_createRow cf h r n); [|done]. destruct (draw_items cf h (n + 1) l) as [rs b] eqn:E.
  intros [= <- ->]. cbn. f_equal. by apply (IH (n + 1)).
Qed.

Lemma displayed_all st : displayed cf st = gr_data st.
Proof.
  unfold displayed, firstDisplayIndex, lastDisplayIndex. rewrite st_paging. cbn. rewrite Nat.sub_0_r, Nat2Z.id.
  by rewrite firstn_all.
Qed.

(** ** Redrawing *)

(** The items are in order; only the rows on the screen may be old. *)
Record sound (st : jsgrid) : Prop := Sound {
  so_nodup : NoDup (gr_data st);
  so_range : Forall (fun r => r < length (gr_store st))%nat (gr_data st);
  so_objects : Forall (fun v => object v = true) (values st)
}.

Lemma in_step_sound st : in_step cf st -> sound st.
Proof. by intros [? ? ? ? ?]. Qed.

Lemma refresh_in_step st :
  sound st -> exists st', refresh cf st = JOk st' /\ in_step cf st' /\
    gr_store st' = gr_store st /\ gr_data st' = gr_data st /\ gr_editing st' = None /\
    gr_insert st' = gr_insert st /\ gr_out st' = gr_out st.
Proof.
  intros [Hn Hr Ho]. unfold refresh, _refreshContent.
  assert (Hc : gr_store (cancelEdit st) = gr_store st /\ gr_data (cancelEdit st) = gr_data st /\
               gr_editing (cancelEdit st) = None /\ gr_insert (cancelEdit st) = gr_insert st /\
               gr_out (cancelEdit st) = gr_out st).
  { unfold cancelEdit. by destruct (gr_editing st) eqn:E. }
  destruct Hc as (Hs & Hd & He & Hi & Hu). rewrite displayed_all, Hs, Hd.
  unfold firstDisplayIndex. rewrite st_paging.
  destruct (draw_items_total (gr_store st) 0 (gr_data st)) as (rows & Hdraw & _).
  { unfold values in Ho. by rewrite Forall_fmap in Ho. }
  rewrite Hdraw. eexists. split; [done|]. split_ands; try done.
  split; cbn -[cancelEdit values]; rewrite ?Hs, ?Hd, ?He; try done.
  unfold values in Ho |- *. cbn -[cancelEdit]. by rewrite Hs, Hd.
Qed.

(** ** Rows and items *)

Lemma body_items st : in_step cf st -> jr_item <$> gr_body st = gr_data st.
Proof.
  intros [_ _ Ho Hb _]. destruct (draw_items_total (gr_store st) 0 (gr_data st)) as (rows & Hd & Hi).
  { unfold values in Ho. by rewrite Forall_fmap in Ho. }
  rewrite Hb in Hd. by injection Hd as ->.
Qed.

Lemma body_lookup st k row : in_step cf st -> gr_body st !! k = Some row -> gr_data st !! k = Some (jr_item row).
Proof. intros Hs Hk. rewrite <- (body_items st Hs), list_lookup_fmap, Hk. done. Qed.

Lemma values_lookup st k r : gr_data st !! k = Some r -> values st !! k = Some (item_at (gr_store st) r).
Proof. intros Hk. unfold values. by rewrite list_lookup_fmap, Hk. Qed.

Lemma itemIndex_lookup st k r : NoDup (gr_data st) -> gr_data st !! k = Some r -> _itemIndex r st = Z.of_nat k.
Proof.
  intros Hn Hk. unfold _itemIndex. destruct (list_find (eq r) (gr_data st)) as [[i x]|] eqn:E.
  - apply list_find_Some in E as (Hi & -> & _). f_equal. by eapply NoDup_lookup.
  - apply list_find_None in E. rewrite list.Forall_forall in E. destruct (E r); [|done]. by apply list_elem_of_lookup_2 in Hk.
Qed.

Lemma item_at_insert h r v r' : (r < length h)%nat -> item_at (<[r := v]> h) r' = if decide (r' = r) then v else item_at h r'.
Proof.
  intros Hr. unfold item_at. destruct (decide (r' = r)) as [->|Hne]; [by rewrite list_lookup_insert_eq|].
  by rewrite list_lookup_insert_ne.
Qed.

(** ** Checks *)

Lemma validateItem_total part item : exists messages, _validateItem cf part item = Some messages.
Proof.
  unfold _validateItem.
  destruct (mapM_total (fun f => if part f then validate (f_rules f) (_getItemFieldValue item f) item else Some []) (visible_fields cf)) as [l ->].
  { intros f Hf. destruct (part f); [|done]. apply st_rules. by apply visible_fields_in. }
  by eexists.
Qed.

(** ** Inserting *)

Lemma sound_append st item :
  sound st -> object item = true ->
  sound (put_items (gr_store st ++ [item]) (gr_data st ++ [length (gr_store st)]) st) /\
  values (put_items (gr_store st ++ [item]) (gr_data st ++ [length (gr_store st)]) st) = values st ++ [item].
Proof.
  intros [Hn Hr Ho] Hi.
  assert (Hv : values (put_items (gr_store st ++ [item]) (gr_data st ++ [length (gr_store st)]) st) = values st ++ [item]).
  { unfold values. cbn. rewrite fmap_app. f_equal.
    - apply list_fmap_ext. intros i r Hir. unfold item_at. rewrite lookup_app_l; [done|].
      rewrite list.Forall_forall in Hr. apply Hr. by apply list_elem_of_lookup_2 in Hir.
    - cbn. unfold item_at. by rewrite list_lookup_middle. }
  split; [|done]. split; [cbn|cbn|rewrite Hv].
  - apply list.NoDup_app. split_ands; [done| |apply list.NoDup_singleton]. intros r Hrd Hl%list_elem_of_singleton. subst.
    rewrite list.Forall_forall in Hr. apply Hr in Hrd. lia.
  - apply Forall_app. rewrite length_app. cbn. split; [|by constructor; [lia|]].
    eapply list.Forall_impl; [exact Hr|]. cbn. lia.
  - apply Forall_app. by split; [|constructor].
Qed.

Lemma sound_same st st' : gr_store st' = gr_store st -> gr_data st' = gr_data st -> sound st -> sound st' /\ values st' = values st.
Proof.
  intros Hs Hd [Hn Hr Ho]. assert (Hv : values st' = values st) by (unfold values; by rewrite Hs, Hd).
  split; [|done]. split; by rewrite ?Hs, ?Hd, ?Hv.
Qed.

Lemma guard_never cs : field (read_controls cf f_inserting cs) "primarykey" = Undef.
Proof. apply read_controls_field. apply st_names. Qed.

Lemma insertItem_step st :
  in_step cf st -> exists st', insertItem cf st = JOk st' /\ in_step cf st' /\
    values st' = fold_left grid_act (actions_of cf st GInsert) (values st).
Proof.
  intros Hs. unfold insertItem, actions_of, accepted.
  destruct (validateItem_total f_inserting (_getInsertItem cf st)) as [ms Hm]. rewrite Hm.
  destruct ms as [|m ms]; [|].
  - unfold _getInsertItem at 2. rewrite guard_never, andb_false_r. rewrite st_controller. cbn [ct_insert defaultController].
    replace (or_else Undef (_getInsertItem cf st)) with (_getInsertItem cf st) by done. unfold finishInsert.
    destruct (sound_append st (_getInsertItem cf st) (in_step_sound _ Hs)) as [Hsound Hv]; [apply read_controls_object|].
    destruct (refresh_in_step _ Hsound) as (st1 & -> & H1 & Hst1 & Hd1 & _). cbn [jthen]. unfold clearInsert.
    destruct (sound_same st1 (put_insert (_createInsertRow cf) st1)) as [Hs2 Hv2]; [done|done|by apply in_step_sound|].
    destruct (refresh_in_step _ Hs2) as (st2 & -> & H2 & Hst2 & Hd2 & _).
    exists st2. split_ands; [done|done|]. cbn [fold_left grid_act]. rewrite <- Hv.
    unfold values. rewrite Hst2, Hd2. cbn. by rewrite Hst1, Hd1.
  - eexists. split_ands; [done| |done]. by destruct Hs as [? ? ? ? ?].
Qed.

(** ** Editing *)

Lemma updateItem_step st :
  in_step cf st -> exists st', updateItem cf st = JOk st' /\ in_step cf st' /\
    values st' = fold_left grid_act (actions_of cf st GUpdate) (values st).
Proof.
  intros Hs. unfold updateItem, actions_of, accepted. destruct (gr_editing st) as [k|] eqn:Ek; [|by exists st].
  destruct (lookup_lt_is_Some_2 (gr_body st) k) as [row Hrow]; [by apply (is_editing cf st Hs)|].
  cbn [mbind option_bind]. rewrite Hrow. cbn [mbind option_bind].
  destruct (validateItem_total f_editing (_getEditedItem cf st)) as [[|m ms] ->].
  2:{ eexists. split_ands; [done| |done]. by destruct Hs as [? ? ? ? ?]. }
  pose proof (body_lookup st k row Hs Hrow) as Hk. set (r := jr_item row) in *.
  destruct Hs as [Hn Hr Ho Hb He]. rewrite list.Forall_forall in Hr.
  assert (Hlt : (r < length (gr_store st))%nat) by (apply Hr; by apply list_elem_of_lookup_2 in Hk).
  rewrite (values_lookup _ _ _ Hk). cbn [default from_option id].
  set (new := extend_value (item_at (gr_store st) r) (_getEditedItem cf st)).
  assert (Hnew : object new = true) by apply object_extend, read_controls_object.
  unfold _updateRow. rewrite st_controller. cbn [ct_update defaultController truthy]. fold new.
  rewrite (itemIndex_lookup st k r Hn Hk). unfold _finishUpdate, put_data, cancelEdit. cbn [put_items gr_editing]. rewrite Ek.
  cbn [put_edit put_items gr_store gr_data gr_body].
  destruct (Z.ltb_spec (Z.of_nat k) 0); [lia|]. rewrite Nat2Z.id, (list_insert_id (gr_data st) k r) by done.
  destruct (createRow_total (<[r := new]> (gr_store st)) r (Z.of_nat k)) as (row' & Hrow' & _).
  { rewrite item_at_insert by done. by rewrite decide_True. }
  rewrite Hrow'. eexists. split; [done|].
  assert (Hv : item_at (<[r := new]> (gr_store st)) <$> gr_data st = <[k := new]> (values st)).
  { apply list_eq. intros i. rewrite list_lookup_fmap. destruct (decide (i = k)) as [->|Hne].
    - rewrite Hk, list_lookup_insert_eq; [|by eapply lookup_lt_Some, values_lookup]. cbn. rewrite item_at_insert by done. by rewrite decide_True.
    - rewrite list_lookup_insert_ne by done. unfold values. rewrite list_lookup_fmap.
      destruct (gr_data st !! i) as [r'|] eqn:Hi; [|done]. cbn. rewrite item_at_insert by done.
      rewrite decide_False; [done|]. intros ->. apply Hne. by eapply NoDup_lookup. }
  split; [|exact Hv]. split; cbn.
  - done.
  - rewrite length_insert. by apply list.Forall_forall.
  - unfold values. cbn. rewrite Hv. by apply Forall_insert.
  - eapply (draw_items_update (gr_store st)); [done|done|done| |done].
    intros r' Hne. rewrite item_at_insert by done. by rewrite decide_False.
  - done.
Qed.

(** ** Deleting *)

Lemma sound_delete st k : sound st -> sound (put_items (gr_store st) (delete k (gr_data st)) st) /\
  values (put_items (gr_store st) (delete k (gr_data st)) st) = delete k (values st).
Proof.
  intros [Hn Hr Ho].
  assert (Hv : values (put_items (gr_store st) (delete k (gr_data st)) st) = delete k (values st)).
  { unfold values. cbn. apply list_fmap_delete. }
  assert (Hsub : delete k (gr_data st) `sublist_of` gr_data st) by apply sublist_delete.
  split; [|done]. split; [cbn|cbn|rewrite Hv].
  - by eapply sublist_NoDup.
  - by apply Forall_delete_list.
  - by apply Forall_delete_list.
Qed.

Lemma reset_removed st k :
  sound st -> exists st', reset cf (put_items (gr_store st) (delete k (gr_data st)) st) = JOk st' /\
    in_step cf st' /\ values st' = delete k (values st).
Proof.
  intros Hs. destruct (sound_delete st k Hs) as [Hd Hv]. unfold reset.
  set (st1 := put_items (gr_store st) (delete k (gr_data st)) st) in *.
  destruct (sound_same st1 (_resetPager cf st1) eq_refl eq_refl Hd) as [Hd' Hv'].
  destruct (refresh_in_step _ Hd') as (st' & -> & H' & Hst & Hda & _). exists st'. split_ands; [done|done|].
  rewrite <- Hv, <- Hv'. unfold values. by rewrite Hst, Hda.
Qed.

Lemma deleteItem_step st k sure :
  in_step cf st -> exists st', deleteItem cf k sure st = JOk st' /\ in_step cf st' /\
    values st' = fold_left grid_act (actions_of cf st (GDelete k sure)) (values st).
Proof.
  intros Hs. unfold deleteItem, actions_of. destruct (gr_body st !! k) as [row|] eqn:Hrow.
  2:{ exists st. split_ands; [done|done|]. apply lookup_ge_None_1 in Hrow.
      rewrite lookup_ge_None_2; [done|]. unfold values. rewrite length_fmap, <- (body_items st Hs), length_fmap. done. }
  pose proof (body_lookup st k row Hs Hrow) as Hk. rewrite (values_lookup _ _ _ Hk).
  destruct (jc_confirmDeleting cf && negb sure); cbn [orb]; [by exists st|].
  destruct (loose_eq _ (int 1)).
  { eexists. split_ands; [done| |done]. by destruct Hs as [? ? ? ? ?]. }
  rewrite st_controller. cbn [ct_delete defaultController]. unfold finishDelete, splice_data.
  rewrite (itemIndex_lookup st k _ (is_nodup cf st Hs) Hk). destruct (Z.ltb_spec (Z.of_nat k) 0); [lia|]. rewrite Nat2Z.id.
  by apply reset_removed, in_step_sound.
Qed.

(** ** Every event *)

Lemma grid_step_simulates st ev :
  in_step cf st -> exists st', grid_step cf st ev = JOk st' /\ in_step cf st' /\
    values st' = fold_left grid_act (actions_of cf st ev) (values st).
Proof.
  intros Hs. destruct ev as [i v| |k|i v| | |k sure|n]; cbn [grid_step].
  - eexists. split_ands; [done| |done]. by destruct Hs as [? ? ? ? ?].
  - by apply insertItem_step.
  - destruct (bool_decide _); [by exists st|]. eexists. split; [done|]. unfold _editRow.
    destruct (gr_body st !! k) as [row|] eqn:Hk; [|done]. destruct (jc_editing cf); [|done].
    assert (Hc : gr_store (cancelEdit st) = gr_store st /\ gr_data (cancelEdit st) = gr_data st /\ gr_body (cancelEdit st) = gr_body st).
    { unfold cancelEdit. by destruct (gr_editing st). }
    destruct Hc as (Hc1 & Hc2 & Hc3).
    split; [|unfold values; cbn -[cancelEdit]; by rewrite Hc1, Hc2].
    destruct Hs as [Hn Hr Ho Hb He]. split; cbn -[cancelEdit values]; rewrite ?Hc1, ?Hc2, ?Hc3; try done.
    + unfold values. cbn -[cancelEdit]. by rewrite Hc1, Hc2.
    + intros k' [= <-]. by apply lookup_lt_Some in Hk.
  - destruct (gr_editing st) as [k|] eqn:Ek; [|by exists st]. eexists. split_ands; [done| |done].
    destruct Hs as [? ? ? ? He]. split; try done. cbn. intros k' [= <-]. by apply He.
  - by apply updateItem_step.
  - eexists. split; [done|]. unfold cancelEdit. destruct (gr_editing st); [|done]. by destruct Hs as [? ? ? ? ?].
  - by apply deleteItem_step.
  - unfold openPage. destruct (_ || _); [by exists st|].
    destruct (sound_same st (_setPage cf n st) eq_refl eq_refl (in_step_sound _ Hs)) as [Hd Hv].
    destruct (refresh_in_step _ Hd) as (st' & -> & H' & Hst & Hda & _). exists st'. split_ands; [done|done|].
    unfold values. by rewrite Hst, Hda.
Qed.
End Steady.

#[export] Instance column_config_steady editing : Steady (column_config editing).
Proof.
  split; [done|done| | |]; intros f; cbn [column_config jc_fields]; unfold column_fields; cbn [app List.map].
  - intros v Hf. repeat (apply elem_of_cons in Hf as [->|Hf]; [cbn -[List.find data_type_items]; try (by eexists)|]); [|by apply elem_of_nil in Hf].
    destruct (List.find _ data_type_items) as [item|] eqn:E; [|by eexists].
    apply find_some in E as [E _]. unfold data_type_items in E. apply in_map_iff in E as ([n z] & <- & _). by eexists.
  - intros v item Hf. repeat (apply elem_of_cons in Hf as [->|Hf]; [cbn; try (by eexists)|]). by apply elem_of_nil in Hf.
  - intros Hf. repeat (apply elem_of_cons in Hf as [->|Hf]; [by vm_compute|]). by apply elem_of_nil in Hf.
Qed.

(** ** The array and the page *)

Lemma grid_steps_simulate cf `{!Steady cf} st evs :
  in_step cf st -> exists st' acts, grid_steps cf st evs = JOk st' /\ in_step cf st' /\
    Forall (fun a => a <> ASubmit) acts /\ values st' = fold_left grid_act acts (values st).
Proof.
  revert st. induction evs as [|ev evs IH]; intros st Hs; [by exists st, []|]. cbn [grid_steps].
  destruct (grid_step_simulates cf st ev Hs) as (st1 & -> & H1 & Hv1). cbn [jthen].
  destruct (IH st1 H1) as (st2 & acts & -> & H2 & Ha & Hv2). exists st2, (actions_of cf st ev ++ acts).
  split_ands; [done|done| |by rewrite fold_left_app, <- Hv1].
  apply Forall_app. split; [|done]. destruct ev; cbn; repeat case_match; by repeat constructor.
Qed.

Lemma render_in_step cf `{!Steady cf} items :
  Forall (fun v => object v = true) items ->
  exists st, render cf items = JOk st /\ in_step cf st /\ values st = items.
Proof.
  intros Ho. unfold render. set (st0 := JsGrid items (seq 0 (length items)) [] None [] (_createInsertRow cf) 1 1 []).
  assert (Hv : values st0 = items).
  { unfold values. cbn. apply list_eq. intros i. rewrite list_lookup_fmap. destruct (decide (i < length items)%nat) as [Hi|Hi].
    - rewrite lookup_seq_lt by done. cbn. unfold item_at. by destruct (lookup_lt_is_Some_2 _ _ Hi) as [x ->].
    - rewrite lookup_seq_ge by lia. rewrite lookup_ge_None_2 by lia. done. }
  assert (Hs : sound st0).
  { split; cbn; [apply NoDup_seq| |by rewrite <- Hv in Ho]. apply Forall_seq. lia. }
  destruct (refresh_in_step cf st0 Hs) as (st & -> & H & Hst & Hd & _). exists st. split_ands; [done|done|].
  rewrite <- Hv. unfold values. by rewrite Hst, Hd.
Qed.

(** What the row of an item shows. *)
Definition cells_of (cf : jconfig) (item : val) : list val :=
  default [] (mapM (_createCell item) (visible_fields cf)).

Lemma body_cells cf st : in_step cf st -> jr_cells <$> gr_body st = cells_of cf <$> values st.
Proof.
  intros [_ _ _ Hb _]. unfold values. revert Hb. generalize (gr_body st) as rows, (gr_data st) as l, 0 as n.
  intros rows l. revert rows. induction l as [|r l IH]; intros rows n; cbn [draw_items]; [by intros [= <-]|].
  unfold _createRow, cells_of. destruct (mapM (_createCell (item_at (gr_store st) r)) (visible_fields cf)) as [cells|] eqn:E; [|done].
  cbn [mbind option_bind]. destruct (draw_items cf (gr_store st) (n + 1) l) as [rs b] eqn:El. intros [= <- ->].
  cbn. rewrite E. cbn. f_equal. by apply (IH _ (n + 1)).
Qed.

Lemma page_actions E load submit w l acts :
  let pg := {| p_action := action; p_load := load; p_handler := handler submit |} in
  w_vars w !! "data" = Some (Arr l) -> Forall (fun a => a <> ASubmit) acts ->
  w_vars (steps E pg w (Act <$> acts)) !! "data" = Some (Arr (fold_left grid_act acts l)).
Proof.
  intros pg Hw Ha. revert w l Hw. induction Ha as [|a acts Hne Ha IH]; intros w l Hw; [done|].
  cbn [fmap list_fmap steps fold_left]. apply IH. destruct a as [|r|i r|i]; [done|..];
    cbn [step pg p_handler handler]; unfold task, grid; rewrite run_bind; cbn; rewrite Hw; cbn; by rewrite lookup_insert_eq.
Qed.

(** ** Columns as they are entered *)

Definition column_item (name : string) (code : Z) (u p a d : bool) : val :=
  Obj [("name", Str name); ("data_type", int code); ("unsigned", Bool u); ("primary_key", Bool p);
       ("auto_increment", Bool a); ("regxs", Bool d)].

(** The controls with that content, and that of the buttons. *)
Definition column_controls (name : string) (code : Z) (u p a d : bool) (c : val) : list val :=
  [Str name; Str (string_of_Z code); Bool u; Bool p; Bool a; Bool d; c].

Definition a_type (code : Z) : Prop := exists n, (n, code) ∈ dataTypes.

Lemma a_type_forall (P : Z -> Prop) :
  P 1 -> P 2 -> P 3 -> P 4 -> P 5 -> P 6 -> P 7 -> P 8 -> P 9 -> P 10 -> forall code, a_type code -> P code.
Proof.
  intros ? ? ? ? ? ? ? ? ? ? code [n Hn]. unfold dataTypes in Hn.
  repeat (apply elem_of_cons in Hn as [[= -> ->]|Hn]; [done|]). by apply elem_of_nil in Hn.
Qed.

Lemma read_column part name code u p a d c :
  a_type code -> (forall f, f ∈ column_fields true -> part f = negb (String.eqb (f_name f) "")) ->
  read_controls create_grid part (column_controls name code u p a d c) = column_item name code u p a d.
Proof.
  intros Hc Hp. unfold read_controls. cbn [jc_fields create_grid column_config].
  assert (Hpart : List.map part (column_fields true) = [true; true; true; true; true; true; false]).
  { change [true; true; true; true; true; true; false]
      with (List.map (fun f => negb (String.eqb (f_name f) "")) (column_fields true)).
    apply map_ext_in. intros f Hf. apply Hp. by apply list_elem_of_In. }
  cbn [column_fields app List.map] in Hpart |- *. injection Hpart as H1 H2 H3 H4 H5 H6 H7.
  cbn [zip zip_with column_controls fold_left]. rewrite H1, H2, H3, H4, H5, H6, H7.
  revert code Hc. apply a_type_forall; reflexivity.
Qed.

Lemma accepted_column part name code u p a d :
  (forall f, f ∈ column_fields true -> part f = negb (String.eqb (f_name f) "")) ->
  _validateItem create_grid part (column_item name code u p a d) =
    Some (if String.eqb name "" then ["列必须填写"] else []).
Proof.
  intros Hp. unfold _validateItem.
  change (visible_fields create_grid) with (column_fields true). cbn [column_fields app List.map mapM].
  rewrite (Hp name_field) by (by left). cbn [f_name name_field String.eqb Ascii.eqb negb Bool.eqb].
  assert (Hr : forall f : gfield, f_rules f = [] -> forall item, (if part f then validate (f_rules f) (_getItemFieldValue item f) item else Some []) = Some []).
  { intros f Hf item. rewrite Hf. by destruct (part f). }
  rewrite !Hr by done. by destruct name.
Qed.

(** ** The submission on the shared objects *)

(** [createDataBaseTable] normalises the items and splices the dynamic ones out of
    the grid's own array: [split_loop] of [CreateTable.v] on the store. *)
Fixpoint split_refs (n i : nat) (h : list val) (data regxsList : list nat) : list val * list nat * list nat :=
  match n with
  | O => (h, data, regxsList)
  | S n' =>
      match data !! i with
      | None => (h, data, regxsList)
      | Some r =>
          match field (item_at h r) "name" with
          | Str columnName =>
              if has_dash columnName then (h, data, regxsList) else
              let r' := normalise (item_at h r) in
              let h' := <[r := r']> h in
              if is_dynamic r'
              then split_refs n' (S i) h' (delete i data) (regxsList ++ [r])
              else split_refs n' (S i) h' data regxsList
          | _ => (h, data, regxsList)
          end
      end
  end.

(** The grid after a submission; the rows on the screen stay as they are. *)
Definition submitted (st : jsgrid) : jsgrid * list nat :=
  let '(h, data, regxsList) := split_refs (length (gr_data st)) 0 (gr_store st) (gr_data st) [] in
  (put_items h data st, regxsList).

(** The two lists of a result of [split_loop]. *)
Definition columns_of (res : split_result) : list val :=
  match res with Dashed d | NoName d | Split d _ => d end.

Lemma item_at_fmap_insert h r v (l : list nat) :
  (r < length h)%nat -> r ∉ l -> item_at (<[r := v]> h) <$> l = item_at h <$> l.
Proof.
  intros Hr Hl. apply list_fmap_ext. intros i x Hx. rewrite item_at_insert by done. rewrite decide_False; [done|].
  intros ->. apply Hl. by apply list_elem_of_lookup_2 in Hx.
Qed.

Lemma fmap_insert_item h r v i (data : list nat) :
  NoDup data -> (r < length h)%nat -> data !! i = Some r ->
  item_at (<[r := v]> h) <$> data = <[i := v]> (item_at h <$> data).
Proof.
  intros Hn Hr Hi. apply list_eq. intros j. rewrite list_lookup_fmap. destruct (decide (j = i)) as [->|Hne].
  - rewrite Hi, list_lookup_insert_eq; [|rewrite length_fmap; by eapply lookup_lt_Some]. cbn. rewrite item_at_insert by done.
    by rewrite decide_True.
  - rewrite list_lookup_insert_ne, list_lookup_fmap by done. destruct (data !! j) as [x|] eqn:Hj; [|done]. cbn.
    rewrite item_at_insert by done. rewrite decide_False; [done|]. intros ->. apply Hne. by eapply NoDup_lookup.
Qed.

(** The store version does what the page's loop does. *)
Lemma split_refs_values n i h data regxs :
  NoDup (data ++ regxs) -> Forall (fun r => r < length h)%nat data ->
  let '(h', data', regxs') := split_refs n i h data regxs in
  columns_of (split_loop n i (item_at h <$> data) (item_at h <$> regxs)) = item_at h' <$> data' /\
  length h' = length h /\ NoDup (data' ++ regxs') /\ Permutation (data' ++ regxs') (data ++ regxs).
Proof.
  revert i h data regxs. induction n as [|n IH]; intros i h data regxs Hn Hr; [by cbn|]. cbn [split_refs split_loop].
  rewrite list_lookup_fmap. destruct (data !! i) as [r|] eqn:Hi; cbn [fmap option_map option_fmap]; [|by cbn].
  destruct (field (item_at h r) "name") as [| | | |s| |]; try by cbn. destruct (has_dash s); [by cbn|].
  pose proof (list_elem_of_lookup_2 _ _ _ Hi) as Hin. pose proof Hn as Hn'. apply list.NoDup_app in Hn' as (Hnd & Hdis & _).
  assert (Hlt : (r < length h)%nat) by (rewrite list.Forall_forall in Hr; by apply Hr).
  set (v := normalise (item_at h r)).
  assert (Hreg : item_at (<[r := v]> h) <$> regxs = item_at h <$> regxs) by (apply item_at_fmap_insert; [done|by apply Hdis]).
  assert (Hdat : item_at (<[r := v]> h) <$> data = <[i := v]> (item_at h <$> data)) by by apply fmap_insert_item.
  assert (Hperm : Permutation (delete i data ++ regxs ++ [r]) (data ++ regxs)).
  { rewrite (delete_Permutation data i r Hi) at 2. rewrite app_assoc, Permutation_app_comm. done. }
  destruct (is_dynamic v).
  - specialize (IH (S i) (<[r := v]> h) (delete i data) (regxs ++ [r])).
    rewrite fmap_app, Hreg, list_fmap_delete, Hdat in IH. cbn [fmap list_fmap] in IH. rewrite item_at_insert, decide_True in IH by done.
    rewrite length_insert in IH. destruct (split_refs _ _ _ _ _) as [[h' data'] regxs'].
    destruct IH as (H1 & H2 & H3 & H4); [by rewrite Hperm|by apply Forall_delete_list|].
    split_ands; [done|done|done|by rewrite H4].
  - specialize (IH (S i) (<[r := v]> h) data regxs). rewrite Hreg, Hdat, length_insert in IH. by apply IH.
Qed.

Lemma split_refs_objects n i h data regxs :
  Forall (fun r => r < length h)%nat data -> Forall (fun r => object (item_at h r) = true) data ->
  let '(h', data', _) := split_refs n i h data regxs in Forall (fun r => object (item_at h' r) = true) data'.
Proof.
  revert i h data regxs. induction n as [|n IH]; intros i h data regxs Hr Ho; [done|]. cbn [split_refs].
  destruct (data !! i) as [r|] eqn:Hi; [|done]. destruct (field (item_at h r) "name") as [| | | |s| |]; try done.
  destruct (has_dash s); [done|]. pose proof (list_elem_of_lookup_2 _ _ _ Hi) as Hin.
  assert (Hlt : (r < length h)%nat) by (rewrite list.Forall_forall in Hr; by apply Hr).
  set (v := normalise (item_at h r)).
  assert (Hv : object v = true).
  { rewrite list.Forall_forall in Ho. specialize (Ho r Hin). unfold v, normalise. by destruct (item_at h r). }
  assert (Ho' : Forall (fun x => object (item_at (<[r := v]> h) x) = true) data).
  { eapply list.Forall_impl; [exact Ho|]. intros x Hx. cbn. rewrite item_at_insert by done. by destruct (decide (x = r)). }
  destruct (is_dynamic v); apply IH; rewrite ?length_insert; try done; by apply Forall_delete_list.
Qed.

(** What a submission does to the grid: the page's loop, on the grid's array. *)
Lemma submitted_spec cf st :
  in_step cf st ->
  let '(st', regxsList) := submitted st in
  sound st' /\ values st' = columns_of (split_columns (values st)) /\ gr_body st' = gr_body st /\
  gr_out st' = gr_out st /\ (forall r, r ∈ regxsList -> r ∉ gr_data st').
Proof.
  intros [Hn Hr Ho _ _]. unfold submitted.
  pose proof (split_refs_values (length (gr_data st)) 0 (gr_store st) (gr_data st) []) as H.
  pose proof (split_refs_objects (length (gr_data st)) 0 (gr_store st) (gr_data st) [] Hr) as Hobj.
  destruct (split_refs _ _ _ _ _) as [[h' data'] regxs']. rewrite app_nil_r in H.
  destruct (H Hn Hr) as (Hv & Hlen & Hnd & Hperm). apply list.NoDup_app in Hnd as (Hnd & Hdis & _).
  assert (Hvals : values (put_items h' data' st) = columns_of (split_columns (values st))).
  { unfold split_columns, values in *. rewrite length_fmap. symmetry. exact Hv. }
  split_ands; try done.
  - split; cbn; [done| |].
    + rewrite Hlen. rewrite list.Forall_forall in Hr |- *. intros r Hin. apply Hr. rewrite <- Hperm. apply elem_of_app. by left.
    + unfold values in Ho |- *. cbn. rewrite Forall_fmap in Ho |- *. by apply Hobj.
  - intros r Hin Hd. by apply (Hdis r).
Qed.

Lemma itemIndex_absent r st : r ∉ gr_data st -> _itemIndex r st = -1.
Proof.
  intros Hr. unfold _itemIndex. destruct (list_find (eq r) (gr_data st)) as [[i x]|] eqn:E; [|done].
  apply list_find_Some in E as (Hi & -> & _). destruct Hr. by apply list_elem_of_lookup_2 in Hi.
Qed.

Lemma part_inserting f : f ∈ column_fields true -> f_inserting f = negb (String.eqb (f_name f) "").
Proof.
  unfold column_fields. cbn [app List.map]. intros Hf.
  repeat (apply elem_of_cons in Hf as [->|Hf]; [done|]). by apply elem_of_nil in Hf.
Qed.

Lemma part_editing f : f ∈ column_fields true -> f_editing f = negb (String.eqb (f_name f) "").
Proof.
  unfold column_fields. cbn [app List.map]. intros Hf.
  repeat (apply elem_of_cons in Hf as [->|Hf]; [done|]). by apply elem_of_nil in Hf.
Qed.

(** A row is opened, a control changed, and the change confirmed. *)
Lemma edit_session cf `{!Steady cf} st k item name :
  in_step cf st -> jc_editing cf = true -> gr_editing st <> Some k -> values st !! k = Some item ->
  accepted cf f_editing (read_controls cf f_editing (<[0%nat := Str name]> (_createEditRow cf item))) = true ->
  exists st', grid_steps cf st [GRow k; GEditControl 0 (Str name); GUpdate] = JOk st' /\
    values st' = <[k := extend_value item (read_controls cf f_editing (<[0%nat := Str name]> (_createEditRow cf item)))]> (values st).
Proof.
  intros Hs Hed Hk Hv Hacc. cbn [grid_steps].
  destruct (grid_step_simulates cf st (GRow k) Hs) as (st1 & Hst1 & H1 & Hv1). rewrite Hst1. cbn [jthen].
  cbn [actions_of fold_left] in Hv1. cbn [grid_step] in Hst1. rewrite bool_decide_eq_false_2 in Hst1 by done. injection Hst1 as <-.
  assert (exists row, gr_body st !! k = Some row) as [row Hrow].
  { apply lookup_lt_is_Some_2. apply lookup_lt_Some in Hv. unfold values in Hv. by rewrite length_fmap, <- (body_items cf st Hs), length_fmap in Hv. }
  pose proof (body_lookup cf st k row Hs Hrow) as Hd.
  assert (Hit : item_at (gr_store (cancelEdit st)) (jr_item row) = item).
  { pose proof (values_lookup _ _ _ Hd) as Hv'. rewrite Hv in Hv'. injection Hv' as ->. unfold cancelEdit. by destruct (gr_editing st). }
  assert (He : gr_editing (_editRow cf k st) = Some k /\ gr_edit (_editRow cf k st) = _createEditRow cf item).
  { unfold _editRow. rewrite Hrow, Hed. cbn [gr_editing gr_edit put_edit]. by rewrite Hit. }
  destruct He as [He1 He2]. cbn [grid_step]. rewrite He1. cbn [jthen].
  set (st2 := put_edit (Some k) (<[0%nat := Str name]> (gr_edit (_editRow cf k st))) (_editRow cf k st)).
  assert (H2 : in_step cf st2 /\ values st2 = values st).
  { split; [|by rewrite <- Hv1]. destruct H1 as [? ? ? ? Hin]. split; try done. cbn. intros k' [= <-]. by apply Hin. }
  destruct H2 as [H2 Hv2].
  destruct (grid_step_simulates cf st2 GUpdate H2) as (st3 & Hst3 & _ & Hv3). cbn [grid_step] in Hst3. rewrite Hst3.
  exists st3. split; [done|]. rewrite Hv3, Hv2. unfold actions_of. cbn [gr_editing st2 put_edit].
  unfold _getEditedItem. cbn [gr_edit st2 put_edit]. rewrite He2, Hacc, Hv2, Hv. done.
Qed.

Lemma get_path_single item p : get_path item [p] = field item p.
Proof. cbn. by destruct (truthy (field item p)). Qed.

Lemma createEditRow_column name code u p a d :
  a_type code -> _createEditRow create_grid (column_item name code u p a d) = column_controls name code u p a d (Str "").
Proof.
  intros Hc. unfold _createEditRow. cbn [jc_fields create_grid column_config column_fields app List.map].
  unfold _getItemFieldValue. cbn [f_name name_field type_field box_field control_field].
  change (split_dots "name") with ["name"]. change (split_dots "data_type") with ["data_type"].
  change (split_dots "unsigned") with ["unsigned"]. change (split_dots "primary_key") with ["primary_key"].
  change (split_dots "auto_increment") with ["auto_increment"]. change (split_dots "regxs") with ["regxs"].
  rewrite !get_path_single. revert code Hc. apply a_type_forall; by destruct u, p, a, d.
Qed.

(** ** Theorems *)

(** C11: the array of columns in the theorems about the pages is what the operator
    sees in the grid.  Whatever is typed, ticked, chosen, inserted, opened, confirmed,
    cancelled or deleted in the grid, it never throws; the page's array holds what some
    insertions, replacements and removals of rows make of the initial columns; and the
    rows on the screen show exactly the columns of that array, in their order. *)
Theorem grid_implements_columns (editing : bool) (E : env) (load submit : prog unit) (w : world) (items : list val)
    (evs : list gevent) :
  let cf := column_config editing in
  let pg := {| p_action := action; p_load := load; p_handler := handler submit |} in
  w_vars w !! "data" = Some (Arr items) -> Forall (fun v => object v = true) items ->
  exists st acts,
    jthen (render cf items) (fun st => grid_steps cf st evs) = JOk st /\ Forall (fun a => a <> ASubmit) acts /\
    w_vars (steps E pg w (Act <$> acts)) !! "data" = Some (Arr (values st)) /\
    jr_cells <$> gr_body st = cells_of cf <$> values st.
Proof.
  intros cf pg Hw Ho. destruct (render_in_step cf items Ho) as (st0 & -> & H0 & Hv0). cbn [jthen].
  destruct (grid_steps_simulate cf st0 evs H0) as (st & acts & -> & H & Ha & Hv). exists st, acts.
  split_ands; [done|done| |by apply body_cells]. rewrite Hv, Hv0. by apply page_actions.
Qed.

Definition two_columns : list val := [column_item "id" 4 false true true false; column_item "v" 7 false false false true].
Definition columns_world : world := World ∅ {["data" := Arr two_columns]} [] ∅ None [] [].

Lemma grid_implements_columns_witness :
  exists st acts,
    jthen (render create_grid two_columns) (fun st => grid_steps create_grid st [GRow 1; GEditControl 0 (Str "w"); GUpdate]) = JOk st /\
    Forall (fun a => a <> ASubmit) acts /\
    w_vars (steps offline create_page columns_world (Act <$> acts)) !! "data" = Some (Arr (values st)) /\
    jr_cells <$> gr_body st = cells_of create_grid <$> values st.
Proof.
  apply (grid_implements_columns true offline create_load createDataBaseTable columns_world two_columns); [reflexivity|by repeat constructor].
Defined.

(** A column is entered as it was typed.  The button of the insert row refuses a
    column without a name with a message and changes nothing; otherwise it appends the
    column with exactly the name, type and marks of the controls, and clears them.  A
    column that is both dynamic and a primary key is accepted too: the guard against it
    asks for a field [primarykey] that no column has. *)
Theorem column_entered (st : jsgrid) (name : string) (code : Z) (u p a d : bool) (c : val) :
  in_step create_grid st -> a_type code -> gr_insert st = column_controls name code u p a d c ->
  exists st', grid_step create_grid st GInsert = JOk st' /\
    if String.eqb name "" then
      values st' = values st /\ gr_insert st' = gr_insert st /\
      gr_out st' = gr_out st ++ [GAlert ("无效的数据输入!" +:+ nl +:+ "列必须填写")]
    else
      values st' = values st ++ [column_item name code u p a d] /\ gr_insert st' = _createInsertRow create_grid /\
      gr_out st' = gr_out st.
Proof.
  intros Hs Hc Hi. destruct (insertItem_step create_grid st Hs) as (st' & Hst & H' & Hv). exists st'. split; [done|].
  revert Hst Hv. unfold insertItem, actions_of, accepted, _getInsertItem. rewrite Hi, read_column; [|done|apply part_inserting].
  rewrite accepted_column by apply part_inserting. destruct (String.eqb name "") eqn:En.
  - intros [= <-] Hv. by split_ands.
  - change (truthy (field (column_item name code u p a d) "primarykey")) with false. rewrite andb_false_r.
    cbn [jc_controller create_grid column_config ct_insert defaultController].
    unfold finishInsert. change (or_else Undef (column_item name code u p a d)) with (column_item name code u p a d).
    destruct (sound_append st (column_item name code u p a d) (in_step_sound _ _ Hs) eq_refl) as [Hsound _].
    destruct (refresh_in_step create_grid _ Hsound) as (st1 & -> & H1 & Hst1 & Hd1 & _ & _ & Ho1). cbn [jthen]. unfold clearInsert.
    destruct (sound_same st1 (put_insert (_createInsertRow create_grid) st1)) as [Hs2 _]; [done|done|by eapply in_step_sound|].
    destruct (refresh_in_step create_grid _ Hs2) as (st2 & -> & H2 & _ & _ & _ & Hi2 & Ho2). intros [= <-] Hv.
    split_ands; [done|done|]. rewrite Ho2. cbn. by rewrite Ho1.
Qed.

(** Confirming an opened row replaces the name of that column and nothing else, on
    both pages: on the one that creates a table the other controls give back what the
    column had; on the one that edits a table only the name can be changed, whatever
    else the server has put into the column. *)
Theorem column_renamed (editing : bool) (st : jsgrid) (k : nat) (item : val) (name' : string) :
  let cf := column_config editing in
  in_step cf st -> values st !! k = Some item -> gr_editing st <> Some k -> name' <> "" ->
  (editing = true -> exists name code u p a d, a_type code /\ item = column_item name code u p a d) ->
  exists st', grid_steps cf st [GRow k; GEditControl 0 (Str name'); GUpdate] = JOk st' /\
    values st' = <[k := set_prop "name" (Str name') item]> (values st).
Proof.
  intros cf Hs Hval Hk Hne Hit.
  assert (Ho : object item = true).
  { apply is_objects in Hs. rewrite list.Forall_forall in Hs. apply Hs. by apply list_elem_of_lookup_2 in Hval. }
  destruct editing; unfold cf in *.
  - destruct (Hit eq_refl) as (name & code & u & p & a & d & Hc & ->).
    destruct (edit_session create_grid st k (column_item name code u p a d) name' Hs eq_refl Hk Hval) as (st' & Hst & Hv);
      rewrite (createEditRow_column _ _ _ _ _ _ Hc) in *; change (<[0%nat := Str name']> (column_controls name code u p a d (Str ""))) with (column_controls name' code u p a d (Str "")) in *; rewrite read_column in * by (done || apply part_editing).
    + unfold accepted. rewrite accepted_column by apply part_editing. by rewrite (proj2 (String.eqb_neq name' "") Hne).
    + by exists st'.
  - destruct item as [| | | | | |fs]; try done.
    destruct (edit_session edit_grid st k (Obj fs) name' Hs eq_refl Hk Hval) as (st' & Hst & Hv).
    + unfold accepted. cbn. by destruct name'.
    + exists st'. by split.
Qed.

(** The grid as it opens on some columns. *)
Definition opened (cf : jconfig) (items : list val) : jsgrid :=
  match render cf items with JOk st | JThrew st => st end.

Lemma opened_in_step cf `{!Steady cf} items :
  Forall (fun v => object v = true) items -> in_step cf (opened cf items) /\ values (opened cf items) = items.
Proof. intros Ho. unfold opened. by destruct (render_in_step cf items Ho) as (st & -> & H & Hv). Qed.

Lemma column_entered_witness :
  exists st', grid_step create_grid (put_insert (column_controls "at" 9 false true false true Undef) (opened create_grid two_columns)) GInsert = JOk st' /\
    values st' = two_columns ++ [column_item "at" 9 false true false true].
Proof.
  destruct (opened_in_step create_grid two_columns) as [H Hv]; [by repeat constructor|].
  destruct (column_entered (put_insert (column_controls "at" 9 false true false true Undef) (opened create_grid two_columns))
    "at" 9 false true false true Undef) as (st' & Hst & Hv' & _);
    [by destruct H|exists "Date"; by apply (list_elem_of_lookup_2 _ 8)|done|].
  exists st'. split; [done|]. rewrite Hv'. change (values (put_insert _ _)) with (values (opened create_grid two_columns)). by rewrite Hv.
Defined.

Definition served_column : val := Obj [("name", Str "v"); ("data_type", int 7); ("id", int 3)].

Lemma column_renamed_witness :
  exists st', grid_steps edit_grid (opened edit_grid [served_column]) [GRow 0; GEditControl 0 (Str "w"); GUpdate] = JOk st' /\
    values st' = [Obj [("name", Str "w"); ("data_type", int 7); ("id", int 3)]].
Proof.
  destruct (opened_in_step edit_grid [served_column]) as [H Hv]; [by repeat constructor|].
  destruct (column_renamed false (opened edit_grid [served_column]) 0 served_column "w") as (st' & Hst & Hv');
    [done|by rewrite Hv|done|done|done|].
  exists st'. split; [done|]. by rewrite Hv', Hv.
Defined.

(** After a submission has been cancelled or refused, the grid still shows the rows
    of the dynamic columns, which the page has taken out of the grid's array.  The
    button of such a row does not remove that column: its index is -1, and the last of
    the other columns disappears instead. *)
Theorem stale_row_deletes_last (st : jsgrid) (k : nat) (row : jsrow) :
  let st' := (submitted st).1 in
  in_step create_grid st -> gr_body st !! k = Some row -> jr_item row ∈ (submitted st).2 ->
  loose_eq (field (item_at (gr_store st') (jr_item row)) "primary_key") (int 1) = false ->
  values st' = columns_of (split_columns (values st)) /\ gr_body st' = gr_body st /\
  exists st'', grid_step create_grid st' (GDelete k true) = JOk st'' /\
    values st'' = delete (length (values st') - 1)%nat (values st') /\
    jr_cells <$> gr_body st'' = cells_of create_grid <$> values st''.
Proof.
  intros st' Hs Hrow Hin Hp. pose proof (submitted_spec create_grid st Hs) as H. unfold st' in *.
  destruct (submitted st) as [st1 regxsList]. destruct H as (Hsound & Hv & Hb & _ & Habs). split_ands; [done|done|].
  cbn [grid_step fst]. unfold deleteItem. rewrite Hb, Hrow. cbn [create_grid column_config jc_confirmDeleting negb andb].
  cbn [fst] in Hp. rewrite Hp. cbn [jc_controller ct_delete defaultController]. unfold finishDelete, splice_data.
  rewrite itemIndex_absent by by apply Habs. change (-1 <? 0) with true. cbn match.
  destruct (reset_removed create_grid st1 (length (gr_data st1) - 1) Hsound) as (st'' & Hst & H' & Hv').
  exists st''. split_ands; [done| |by apply body_cells]. rewrite Hv'. unfold values. by rewrite length_fmap.
Qed.

Definition three_columns : list val := two_columns ++ [column_item "n" 2 false false false false].

Lemma stale_row_deletes_last_witness :
  exists st'', grid_step create_grid (submitted (opened create_grid three_columns)).1 (GDelete 1 true) = JOk st'' /\
    List.map (fun v => field v "name") (values st'') = [Str "id"].
Proof.
  destruct (opened_in_step create_grid three_columns) as [H Hv]; [by repeat constructor|].
  destruct (gr_body (opened create_grid three_columns) !! 1%nat) as [row|] eqn:Hrow; [|by vm_compute in Hrow].
  vm_compute in Hrow. injection Hrow as <-.
  destruct (stale_row_deletes_last (opened create_grid three_columns) 1 _ H eq_refl) as (Hv' & _ & st'' & Hst & Hv'' & _);
    [by vm_compute; left|reflexivity|].
  exists st''. split; [done|]. rewrite Hv'', Hv', Hv. reflexivity.
Defined.
