(* ===== verification/BootstrapTable.v ===== *)
(** * The table widget (static/js/plugins/bootstrap-table/bootstrap-table.min.js)

    The state of one bootstrap-table, with the methods that change it: load,
    search, pages, the boxes of the rows, selections, removal and the column
    switch.  Rows are objects in a store and the two arrays of the widget,
    [options.data] and [this.data], hold their identities; [b_data = None] says
    that the two are one array object.  Nothing is drawn but what the scripts
    can observe: the cells, the boxes, the page buttons and the requests.

    No column of the console is sortable and no page list has an entry for all
    rows, so [sortName] is undefined, [initSort] finds no column and page sizes
    are numbers.  [toLowerCase] is that of ASCII letters.

    The theorems say that the table model of [Browser.v], on which the theorems
    about the pages rest, is refined by the widget, that what is selected is what
    the user sees ticked, and that the pages show every row once. *)

From S2P Require Import Prelude JsValue Browser Widgets Utils Urls Batch.
From Stdlib Require Import Ascii.

(** ** Columns and rows *)

Record bcolumn := BColumn {
  bc_field : string;
  bc_visible : bool;
  bc_checkbox : bool;
  bc_radio : bool;
  bc_checkboxEnabled : bool;
  bc_searchable : bool;
  bc_searchFormatter : bool;
  bc_formatter : option (val -> val -> Z -> val)
}.

(** A column of a page, completed by the widget's defaults. *)
Definition of_column (c : column) : bcolumn :=
  BColumn (c_field c) true (c_checkbox c) false true true true (c_formatter c).

(** [columns[getFieldIndex(columns, field)]]: the first column of the field. *)
Definition find_column (cols : list bcolumn) (fld : string) : option bcolumn :=
  List.find (fun c => String.eqb (bc_field c) fld) cols.

(** [calculateObjectValue(column, formatter, [value, row, index], value)]. *)
Definition format (f : option (val -> val -> Z -> val)) (value row : val) (index : Z) : val :=
  match f with Some g => g value row index | None => value end.

(** [a.hasOwnProperty(b) ? a[b] : a[b1][b2]...] with the parts of a dotted name;
    [None] is a TypeError. *)
Definition getItemField (row : val) (fld : string) : option val :=
  match row with
  | Obj fs =>
      match assoc fld fs with
      | Some v => Some v
      | None => fold_left (fun c k => match c with Some v => get_prop v k | None => None end)
                  (split_on "." fld) (Some row)
      end
  | _ => fold_left (fun c k => match c with Some v => get_prop v k | None => None end)
           (split_on "." fld) (Some row)
  end.

(** [header.stateField]: the field of the last box column that is visible. *)
Definition stateField (cols : list bcolumn) : option string :=
  fold_left (fun s c => if bc_visible c && (bc_checkbox c || bc_radio c) then Some (bc_field c) else s)
    cols None.

(** [options.singleSelect], which a radio column sets. *)
Definition singleSelect (cols : list bcolumn) : bool :=
  existsb (fun c => bc_visible c && bc_radio c) cols.

(** ** The widget *)

(** A box of the table body, with the index of its row. *)
Record item := Item { it_index : nat; it_checked : bool; it_enabled : bool }.

(** A row of the table body: its index and the texts of its cells. *)
Record drawn := Drawn { dr_index : nat; dr_cells : list val }.

Record pager := Pager {
  pagination : bool;
  pageNumber : Z;
  pageSize : Z;
  totalRows : Z;
  totalPages : Z;
  optTotalPages : Z;
  pageFrom : Z;
  pageTo : Z;
  preDisabled : bool;
  nextDisabled : bool;
  buttons : list Z
}.

(** The parameters of a request for rows. *)
Record query := Query { q_search : val; q_limit : val; q_offset : val }.

Record bt := Bt {
  b_cols : list bcolumn;
  b_store : list val;
  b_options_data : list nat;
  b_data : option (list nat);
  b_searchText : option string;
  b_filterColumns : list (string * val);
  b_pager : pager;
  b_body : list drawn;
  b_items : list item;
  b_selectAll : bool;
  b_sent : list query
}.

(** The options that never change. *)
Record config := Config {
  cf_server : bool;
  cf_url : bool;
  cf_strictSearch : bool;
  cf_maintainSelected : bool
}.

(** A method runs to its end or throws; what it did before stays done. *)
Inductive result : Type :=
| Ok (st : bt)
| Threw (st : bt).

Definition after (r : result) : bt := match r with Ok st | Threw st => st end.

Definition and_then (r : result) (f : bt -> result) : result :=
  match r with Ok st => f st | Threw st => Threw st end.

Definition set_store h st :=
  Bt (b_cols st) h (b_options_data st) (b_data st) (b_searchText st) (b_filterColumns st)
     (b_pager st) (b_body st) (b_items st) (b_selectAll st) (b_sent st).
Definition set_arrays o d st :=
  Bt (b_cols st) (b_store st) o d (b_searchText st) (b_filterColumns st)
     (b_pager st) (b_body st) (b_items st) (b_selectAll st) (b_sent st).
Definition set_search t st :=
  Bt (b_cols st) (b_store st) (b_options_data st) (b_data st) t (b_filterColumns st)
     (b_pager st) (b_body st) (b_items st) (b_selectAll st) (b_sent st).
Definition set_filter f st :=
  Bt (b_cols st) (b_store st) (b_options_data st) (b_data st) (b_searchText st) f
     (b_pager st) (b_body st) (b_items st) (b_selectAll st) (b_sent st).
Definition set_pager p st :=
  Bt (b_cols st) (b_store st) (b_options_data st) (b_data st) (b_searchText st) (b_filterColumns st)
     p (b_body st) (b_items st) (b_selectAll st) (b_sent st).
Definition set_boxes its all st :=
  Bt (b_cols st) (b_store st) (b_options_data st) (b_data st) (b_searchText st) (b_filterColumns st)
     (b_pager st) (b_body st) its all (b_sent st).
Definition set_body body st :=
  Bt (b_cols st) (b_store st) (b_options_data st) (b_data st) (b_searchText st) (b_filterColumns st)
     (b_pager st) body (b_items st) (b_selectAll st) (b_sent st).
Definition set_cols cols st :=
  Bt cols (b_store st) (b_options_data st) (b_data st) (b_searchText st) (b_filterColumns st)
     (b_pager st) (b_body st) (b_items st) (b_selectAll st) (b_sent st).
Definition push_query q st :=
  Bt (b_cols st) (b_store st) (b_options_data st) (b_data st) (b_searchText st) (b_filterColumns st)
     (b_pager st) (b_body st) (b_items st) (b_selectAll st) (b_sent st ++ [q]).

Definition set_pageNumber n p :=
  Pager (pagination p) n (pageSize p) (totalRows p) (totalPages p) (optTotalPages p)
        (pageFrom p) (pageTo p) (preDisabled p) (nextDisabled p) (buttons p).
Definition set_pageSize n p :=
  Pager (pagination p) (pageNumber p) n (totalRows p) (totalPages p) (optTotalPages p)
        (pageFrom p) (pageTo p) (preDisabled p) (nextDisabled p) (buttons p).
Definition set_totalRows n p :=
  Pager (pagination p) (pageNumber p) (pageSize p) n (totalPages p) (optTotalPages p)
        (pageFrom p) (pageTo p) (preDisabled p) (nextDisabled p) (buttons p).
Definition set_interval a b p :=
  Pager (pagination p) (pageNumber p) (pageSize p) (totalRows p) (totalPages p) (optTotalPages p)
        a b (preDisabled p) (nextDisabled p) (buttons p).
Definition set_pagination b p :=
  Pager b (pageNumber p) (pageSize p) (totalRows p) (totalPages p) (optTotalPages p)
        (pageFrom p) (pageTo p) (preDisabled p) (nextDisabled p) (buttons p).

(** The object an identity stands for, and [this.data] as identities. *)
Definition row_of (h : list val) (i : nat) : val := default Undef (h !! i).
Definition view (st : bt) : list nat := default (b_options_data st) (b_data st).

(** ** Search *)

(** [$.isNumeric] on the name of a field. *)
Definition numeric_key (k : string) : bool :=
  match to_number (Str k) with
  | Fin _ => negb (String.eqb (trim k) "")
  | NaN => false
  end.

(** The text of a value that the search looks at. *)
Definition searched (v : val) : option string :=
  match v with Str s => Some (to_lower s) | Num n => Some (to_lower (num_to_str n)) | _ => None end.

(** One turn of the loop over the fields of a row. *)
Definition field_matches (cf : config) (cols : list bcolumn) (text : string) (row : val) (index : Z)
    (kv : string * val) : bool :=
  let '(g, i) := kv in
  if numeric_key g then false else
  match find_column cols g with
  | None => false
  | Some j =>
      let i := if bc_searchFormatter j then format (bc_formatter j) i row index else i in
      bc_searchable j &&
      match searched i with
      | None => false
      | Some t =>
          if cf_strictSearch cf then String.eqb t text
          else match index_of text t with Some _ => true | None => false end
      end
  end.

Definition row_fields (row : val) : list (string * val) := match row with Obj fs => fs | _ => [] end.

Definition matches (cf : config) (cols : list bcolumn) (text : string) (row : val) (index : Z) : bool :=
  existsb (field_matches cf cols text row index) (row_fields row).

(** [$.grep] on an array of rows. *)
Fixpoint grep (h : list val) (p : val -> Z -> bool) (i : Z) (ids : list nat) : list nat :=
  match ids with
  | [] => []
  | r :: ids' => if p (row_of h r) i then r :: grep h p (i + 1) ids' else grep h p (i + 1) ids'
  end.

(** [a[b] === d[b]] for every filtered field. *)
Definition passes (d : list (string * val)) (row : val) (_ : Z) : bool :=
  forallb (fun kv : string * val => strict_eq (field row kv.1) kv.2) d.

(** [this.searchText && this.searchText.toLowerCase()], where it is truthy. *)
Definition search_for (st : bt) : option string :=
  match b_searchText st with
  | Some s => if String.eqb s "" then None else Some (to_lower s)
  | None => None
  end.

Definition initSearch (cf : config) (st : bt) : bt :=
  if cf_server cf then st else
  let base :=
    match b_filterColumns st with
    | [] => None
    | d => Some (grep (b_store st) (passes d) 0 (b_options_data st))
    end in
  let found :=
    match search_for st with
    | None => base
    | Some c =>
        Some (grep (b_store st) (matches cf (b_cols st) c) 0 (default (b_options_data st) base))
    end in
  set_arrays (b_options_data st) found st.

(** [getData()]. *)
Definition getData (st : bt) : list nat :=
  match search_for st, b_filterColumns st with
  | None, [] => b_options_data st
  | _, _ => view st
  end.

(** ** Pages *)

(** [~~x] keeps 32 bits. *)
Definition to_int32 (z : Z) : Z := (z + 2147483648) mod 4294967296 - 2147483648.

(** [~~((totalRows - 1) / pageSize)]; a division by 0 is infinite and becomes 0. *)
Definition quotient (total size : Z) : Z :=
  if size =? 0 then 0 else to_int32 (Z.quot (total - 1) size).

(** The first and the last page button. *)
Definition button_range (total number : Z) : Z * Z :=
  if total <? 5 then (1, total) else
  let d := number - 2 in
  let e := d + 4 in
  let '(d, e) := if 1 >? d then (1, 5) else (d, e) in
  if e >? total then (total - 4, total) else (d, e).

Definition paginate (cf : config) (len : nat) (p : pager) : pager :=
  let total := if cf_server cf then totalRows p else Z.of_nat len in
  let pages := if total =? 0 then 0 else quotient total (pageSize p) + 1 in
  let optPages := if total =? 0 then optTotalPages p else pages in
  let number := if (pages >? 0) && (pageNumber p >? pages) then pages else pageNumber p in
  let from := (number - 1) * pageSize p + 1 in
  let to := number * pageSize p in
  let to := if to >? total then total else to in
  let '(d, e) := button_range pages number in
  Pager (pagination p) number (pageSize p) total pages optPages from to
        (number <=? 1) (number >=? pages) (zrange d (Z.to_nat (e - d + 1))).

Definition initPagination (cf : config) (st : bt) : bt :=
  if pagination (b_pager st)
  then set_pager (paginate cf (length (getData st)) (b_pager st)) st
  else st.

(** ** The body *)

(** [l === true || l && l.checked], as JavaScript evaluates it. *)
Definition box_state (l : val) : val :=
  if strict_eq l (Bool true) then Bool true
  else if truthy l then field l "checked" else l.

(** The cells of the columns [cs] of one row; a box column writes the state of
    the row.  [None] is a TypeError. *)
Fixpoint draw_cells (cols cs : list bcolumn) (k : nat) (row : val)
    : option (val * list item * list val) :=
  match cs with
  | [] => Some (row, [], [])
  | c :: cs' =>
      match getItemField row (bc_field c), find_column cols (bc_field c) with
      | Some l, Some x =>
          if bc_visible x then
            let l := format (bc_formatter c) l row (Z.of_nat k) in
            if bc_checkbox x || bc_radio x then
              let row' := set_prop (default "undefined" (stateField cols)) (box_state l) row in
              let enabled := bc_checkboxEnabled x && negb (truthy l && truthy (field l "disabled")) in
              match draw_cells cols cs' k row' with
              | Some (r, its, cells) => Some (r, Item k (truthy (box_state l)) enabled :: its, l :: cells)
              | None => None
              end
            else
              let text := match l with Undef | Null => Str "-" | _ => l end in
              match draw_cells cols cs' k row with
              | Some (r, its, cells) => Some (r, its, text :: cells)
              | None => None
              end
          else draw_cells cols cs' k row
      | _, _ => None
      end
  end.

(** [for (k = pageFrom - 1; k < pageTo; k++)], [n] turns from [k]: the store it
    leaves, and what it draws unless a row is missing or a cell throws. *)
Fixpoint draw_rows (cols : list bcolumn) (ids : list nat) (n : nat) (k : Z) (h : list val)
    : list val * option (list drawn * list item) :=
  match n with
  | O => (h, Some ([], []))
  | S n' =>
      if k <? 0 then (h, None) else
      match ids !! Z.to_nat k with
      | None => (h, None)
      | Some r =>
          match draw_cells cols cols (Z.to_nat k) (row_of h r) with
          | None => (h, None)
          | Some (row, its, cells) =>
              match draw_rows cols ids n' (k + 1) (<[r := row]> h) with
              | (h', Some (rows, its')) => (h', Some (Drawn (Z.to_nat k) cells :: rows, its ++ its'))
              | (h', None) => (h', None)
              end
          end
      end
  end.

Definition all_checked (its : list item) : bool :=
  negb (length its =? 0)%nat && forallb it_checked its.

(** [updateSelected]: the box in the header follows the enabled boxes. *)
Definition updateSelected (st : bt) : bt :=
  set_boxes (b_items st) (all_checked (List.filter it_enabled (b_items st))) st.

(** [initBody]; at its end [resetView] sets the box in the header again. *)
Definition initBody (cf : config) (st : bt) : result :=
  let ids := getData st in
  let p := b_pager st in
  let p := if pagination p && negb (cf_server cf) then p
           else set_interval 1 (Z.of_nat (length ids)) p in
  let st := set_pager p st in
  let n := Z.to_nat (pageTo p - (pageFrom p - 1)) in
  match draw_rows (b_cols st) ids n (pageFrom p - 1) (b_store st) with
  | (h, Some (rows, its)) => Ok (set_boxes its (all_checked its) (set_body rows (set_store h st)))
  | (h, None) => Threw (set_store h st)
  end.

(** ** Requests *)

(** [initServer]: with a url, the parameters of a [limit] query. *)
Definition initServer (cf : config) (st : bt) : bt :=
  if cf_url cf then
    let p := b_pager st in
    let text := match b_searchText st with Some s => Str s | None => Undef end in
    push_query
      (if pagination p
       then Query text (int (pageSize p)) (int (pageSize p * (pageNumber p - 1)))
       else Query text Undef Undef) st
  else st.

(** ** Changing page *)

Definition set_state (fld : string) (v : val) (h : list val) (i : nat) : list val :=
  alter (set_prop fld v) i h.

(** [resetRows]: an empty state field is not written. *)
Definition resetRows (st : bt) : bt :=
  match view st with
  | [] => st
  | ids =>
      let h :=
        match stateField (b_cols st) with
        | Some s => if String.eqb s "" then b_store st
                    else fold_left (set_state s (Bool false)) ids (b_store st)
        | None => b_store st
        end in
      set_boxes (List.map (fun it => Item (it_index it) false (it_enabled it)) (b_items st)) false
        (set_store h st)
  end.

(** [updatePagination(event)]; [disabled] is the class of the button. *)
Definition updatePagination (cf : config) (disabled : bool) (st : bt) : result :=
  if disabled then Ok st else
  let st := if cf_maintainSelected cf then st else resetRows st in
  let st := initPagination cf st in
  if cf_server cf then Ok (initServer cf st) else initBody cf st.

Definition with_page (f : pager -> pager) (st : bt) : bt := set_pager (f (b_pager st)) st.

Definition onPageListChange (cf : config) (n : Z) (st : bt) : result :=
  updatePagination cf false (with_page (set_pageSize n) st).

(** The button changes [pageNumber] before its class is looked at. *)
Definition onPageFirst (cf : config) (st : bt) : result :=
  updatePagination cf (preDisabled (b_pager st)) (with_page (set_pageNumber 1) st).
Definition onPagePre (cf : config) (st : bt) : result :=
  let p := b_pager st in
  updatePagination cf (preDisabled p) (with_page (set_pageNumber (pageNumber p - 1)) st).
Definition onPageNext (cf : config) (st : bt) : result :=
  let p := b_pager st in
  updatePagination cf (nextDisabled p) (with_page (set_pageNumber (pageNumber p + 1)) st).
Definition onPageLast (cf : config) (st : bt) : result :=
  let p := b_pager st in
  updatePagination cf (nextDisabled p) (with_page (set_pageNumber (totalPages p)) st).
Definition onPageNumber (cf : config) (n : Z) (st : bt) : result :=
  if pageNumber (b_pager st) =? n then Ok st
  else updatePagination cf false (with_page (set_pageNumber n) st).

Definition selectPage (cf : config) (n : Z) (st : bt) : result :=
  if (n >? 0) && (n <=? optTotalPages (b_pager st))
  then updatePagination cf false (with_page (set_pageNumber n) st) else Ok st.
Definition prevPage (cf : config) (st : bt) : result :=
  let n := pageNumber (b_pager st) in
  if n >? 1 then updatePagination cf false (with_page (set_pageNumber (n - 1)) st) else Ok st.
Definition nextPage (cf : config) (st : bt) : result :=
  let p := b_pager st in
  if pageNumber p <? optTotalPages p
  then updatePagination cf false (with_page (set_pageNumber (pageNumber p + 1)) st) else Ok st.

Definition togglePagination (cf : config) (st : bt) : result :=
  updatePagination cf false (with_page (set_pagination (negb (pagination (b_pager st)))) st).

(** [onSearch]: the text field holds [text]. *)
Definition onSearch (cf : config) (text : string) (st : bt) : result :=
  let c := trim text in
  let same := match b_searchText st with Some s => String.eqb c s | None => false end in
  if same then Ok st else
  updatePagination cf false
    (initSearch cf (with_page (set_pageNumber 1) (set_search (Some c) st))).

Definition filterBy (cf : config) (d : list (string * val)) (st : bt) : result :=
  updatePagination cf false (initSearch cf (with_page (set_pageNumber 1) (set_filter d st))).

(** ** Data *)

(** New objects at the end of the store. *)
Definition alloc (rows : list val) (st : bt) : list nat * bt :=
  (seq (length (b_store st)) (length rows), set_store (b_store st ++ rows) st).

Definition redraw (cf : config) (st : bt) : result :=
  initBody cf (initPagination cf (initSearch cf st)).

(** [load]: what a table paged by the server gets also has the total.  Without
    rows the old ones stay. *)
Definition load (cf : config) (total : Z) (rows : option (list val)) (st : bt) : result :=
  let st := if cf_server cf then with_page (set_totalRows total) st else st in
  let st :=
    match rows with
    | Some l => let '(ids, st) := alloc l st in set_arrays ids None st
    | None => set_arrays (b_options_data st) None st
    end in
  redraw cf st.

(** [append] and [prepend] make new arrays; [initSearch] then makes them one
    again, unless the server pages the table. *)
Definition append (cf : config) (rows : list val) (st : bt) : result :=
  let '(ids, st) := alloc rows st in
  redraw cf (set_arrays (b_options_data st ++ ids) (Some (view st ++ ids)) st).
Definition prepend (cf : config) (rows : list val) (st : bt) : result :=
  let '(ids, st) := alloc rows st in
  redraw cf (set_arrays (ids ++ b_options_data st) (Some (ids ++ view st)) st).

(** [arr.splice(c, 1)]. *)
Definition splice1 {A : Type} (c : nat) (l : list A) : list A := take c l ++ drop (S c) l.

(** [for (c = e - 1; c >= 0; c--) if (...) options.data.splice(c, 1)]; [n] is [c + 1]. *)
Fixpoint remove_loop (h : list val) (fld : string) (values : val) (n : nat) (ids : list nat) : list nat :=
  match n with
  | O => ids
  | S c =>
      let ids' :=
        match ids !! c with
        | Some r => if row_removed fld values (row_of h r) then splice1 c ids else ids
        | None => ids
        end in
      remove_loop h fld values c ids'
  end.

(** [this.options.data.splice] also changes [this.data] where they are one. *)
Definition bt_remove (cf : config) (fld : string) (values : val) (st : bt) : result :=
  let ids := b_options_data st in
  let ids' := remove_loop (b_store st) fld values (length ids) ids in
  let st' := set_arrays ids' (b_data st) st in
  if (length ids' =? length ids)%nat then Ok st' else redraw cf st'.

Definition removeAll (cf : config) (st : bt) : result :=
  match b_options_data st with
  | [] => Ok st
  | _ => redraw cf (set_arrays [] (b_data st) st)
  end.

(** ** Boxes and selections *)

Definition truthy_state (cols : list bcolumn) (row : val) : bool :=
  truthy (field row (default "undefined" (stateField cols))).

Definition getSelections (st : bt) : list val :=
  List.filter (truthy_state (b_cols st)) (row_of (b_store st) <$> view st).
Definition getAllSelections (st : bt) : list val :=
  List.filter (truthy_state (b_cols st)) (row_of (b_store st) <$> b_options_data st).

(** [this.data[index][stateField] = v]. *)
Definition mark (st : bt) (h : list val) (index : nat) (v : bool) : list val :=
  match view st !! index with
  | Some r => set_state (default "undefined" (stateField (b_cols st))) (Bool v) h r
  | None => h
  end.

Definition set_checked (b : bool) (it : item) : item := Item (it_index it) b (it_enabled it).

(** A click on the box number [j] of the body. *)
Definition clickItem (cf : config) (j : nat) (st : bt) : bt :=
  match b_items st !! j with
  | None => st
  | Some it =>
      if negb (it_enabled it) then st else
      let d := negb (it_checked it) in
      let h := mark st (b_store st) (it_index it) d in
      if singleSelect (b_cols st) then
        let others := take j (b_items st) ++ drop (S j) (b_items st) in
        let h' := fold_left (fun h o => mark st h (it_index o) false) others h in
        updateSelected
          (set_boxes (List.map (set_checked false) (take j (b_items st)) ++
                      set_checked d it :: List.map (set_checked false) (drop (S j) (b_items st)))
             (b_selectAll st) (set_store h' st))
      else
        updateSelected (set_boxes (<[j := set_checked d it]> (b_items st)) (b_selectAll st)
                          (set_store h st))
  end.

(** [updateRows]: the rows follow the boxes. *)
Definition updateRows (st : bt) : bt :=
  set_store (fold_left (fun h it => mark st h (it_index it) (it_checked it)) (b_items st) (b_store st)) st.

Definition checkAll_ (b : bool) (st : bt) : bt :=
  updateRows
    (set_boxes (List.map (fun it => if it_enabled it then set_checked b it else it) (b_items st)) b st).

(** [check] and [uncheck]: the box with that index, if it is drawn, and the row. *)
Definition check_ (b : bool) (index : nat) (st : bt) : result :=
  let its := List.map (fun it => if (it_index it =? index)%nat then set_checked b it else it) (b_items st) in
  match view st !! index with
  | None => Threw (set_boxes its (b_selectAll st) st)
  | Some _ => Ok (updateSelected (set_boxes its (b_selectAll st) (set_store (mark st (b_store st) index b) st)))
  end.

(** ** Columns *)

(** [toggleColumn]: the list of columns offers those without boxes. *)
Definition set_visible (b : bool) (c : bcolumn) : bcolumn :=
  BColumn (bc_field c) b (bc_checkbox c) (bc_radio c) (bc_checkboxEnabled c) (bc_searchable c)
          (bc_searchFormatter c) (bc_formatter c).

Definition toggleColumn (cf : config) (index : nat) (b : bool) (st : bt) : result :=
  redraw cf (set_cols (alter (set_visible b) index (b_cols st)) st).

(** ** A new table *)

(** [refresh({url: ...})] goes back to the first page. *)
Definition bt_refresh (cf : config) (url : bool) (st : bt) : bt :=
  initServer cf (if url then with_page (set_pageNumber 1) st else st).

(** [init] on the option [data]. *)
Definition bt_init (cf : config) (cols : list bcolumn) (paged : bool) (size : Z) (rows : list val) : result :=
  let p := Pager paged 1 size 0 0 0 0 0 false false [] in
  let st := Bt cols rows (seq 0 (length rows)) None None [] p [] [] false [] in
  and_then (initBody cf (initPagination cf st)) (fun st => Ok (initServer cf st)).

(** ** Events *)

(** What the user and the scripts of the console do to a table. *)
Inductive bt_event : Type :=
| EClick (j : nat)
| EClickAll (b : bool)
| EFirst | EPre | ENext | ELast
| EPage (n : Z)
| EPageSize (n : Z)
| ESearch (text : string)
| EColumn (index : nat) (b : bool)
| ELoad (total : Z) (rows : option (list val))
| ERemove (fld : string) (values : val)
| ERefresh (url : bool).

Definition bt_step (cf : config) (st : bt) (ev : bt_event) : result :=
  match ev with
  | EClick j => Ok (clickItem cf j st)
  | EClickAll b => Ok (checkAll_ b st)
  | EFirst => onPageFirst cf st
  | EPre => onPagePre cf st
  | ENext => onPageNext cf st
  | ELast => onPageLast cf st
  | EPage n => onPageNumber cf n st
  | EPageSize n => onPageListChange cf n st
  | ESearch text => onSearch cf text st
  | EColumn i b => toggleColumn cf i b st
  | ELoad total rows => load cf total rows st
  | ERemove fld values => bt_remove cf fld values st
  | ERefresh url => Ok (bt_refresh cf url st)
  end.

Fixpoint bt_steps (cf : config) (st : bt) (evs : list bt_event) : result :=
  match evs with
  | [] => Ok st
  | ev :: evs' => and_then (bt_step cf st ev) (fun st' => bt_steps cf st' evs')
  end.
