(* ===== verification/TableRefinement.v ===== *)
(** * The table widget refines the table of the pages

    [Browser.v] gives the pages a simple table: rows, ticked by [Check], replaced
    by [Loaded], dropped by [remove].  This file proves that bootstrap-table, as
    modelled in [BootstrapTable.v], is such a table ([widget_refines_table]),
    that what is selected is what the user sees ticked ([selected_visible]), that
    the pages show every row once ([pages_partition]), and what the widget does
    when the user clicks a button that is drawn as disabled
    ([disabled_previous_breaks]). *)

From S2P Require Import Prelude JsValue Browser Widgets Utils Urls Batch Users BootstrapTable.
From Stdlib Require Import Ascii.

(** ** Rows up to their state field *)

(** The same row but for its state. *)
Definition alike (s : string) (r1 r2 : val) : Prop := set_prop s Undef r1 = set_prop s Undef r2.

(** The same row, ticked or not ticked in both. *)
Definition same_row (s : string) (r1 r2 : val) : Prop :=
  alike s r1 r2 /\ truthy (field r1 s) = truthy (field r2 s).

#[export] Instance alike_equiv s : Equivalence (alike s).
Proof. unfold alike. split; [by intros r|by intros r1 r2|intros r1 r2 r3; congruence]. Qed.

#[export] Instance same_row_equiv s : Equivalence (same_row s).
Proof.
  split.
  - by intros r.
  - intros r1 r2 [? ?]. by split.
  - unfold same_row, alike. intros r1 r2 r3 [? ?] [? ?]. split; congruence.
Qed.

Lemma assoc_set_set k u v fs : assoc_set k u (assoc_set k v fs) = assoc_set k u fs.
Proof.
  induction fs as [|[k' w] fs IH]; cbn; [by rewrite String.eqb_refl|].
  destruct (String.eqb k k') eqn:E; cbn; rewrite E; [done|by rewrite IH].
Qed.

Lemma set_prop_set_prop k u v r : set_prop k u (set_prop k v r) = set_prop k u r.
Proof. destruct r; cbn; by rewrite ?assoc_set_set. Qed.

Lemma field_set_prop k v r : (exists fs, r = Obj fs) -> field (set_prop k v r) k = v.
Proof. intros [fs ->]. apply field_set_eq. Qed.

Lemma same_row_set s r1 r2 b :
  (exists fs, r1 = Obj fs) -> (exists fs, r2 = Obj fs) -> same_row s r1 r2 ->
  same_row s (set_prop s (Bool b) r1) (set_prop s (Bool b) r2).
Proof.
  unfold same_row, alike. intros H1 H2 [Heq _]. split; [by rewrite !set_prop_set_prop|].
  by rewrite !field_set_prop.
Qed.

Lemma same_row_touch s r v :
  (exists fs, r = Obj fs) -> truthy v = truthy (field r s) -> same_row s (set_prop s v r) r.
Proof. unfold same_row, alike. intros Hr Hv. split; [by rewrite set_prop_set_prop|by rewrite field_set_prop]. Qed.

Lemma same_row_Obj s r1 r2 : same_row s r1 r2 -> (exists fs, r1 = Obj fs) -> exists fs, r2 = Obj fs.
Proof. unfold same_row, alike. intros [Heq _] [fs ->]. destruct r2; cbn in Heq; try done. eauto. Qed.

Lemma same_row_removed s r1 r2 fld values :
  fld <> s -> same_row s r1 r2 -> row_removed fld values r1 = row_removed fld values r2.
Proof.
  unfold same_row, alike. intros Hne [Heq _]. destruct r1, r2; cbn in Heq |- *; try done.
  injection Heq as Heq. by rewrite <- (assoc_set_ne s fld Undef), Heq, assoc_set_ne by done.
Qed.

(** ** Tables with one column of boxes *)

Definition plain_state (v : val) : Prop := v = Undef \/ exists b, v = Bool b.

(** The column of boxes has the field [s] and no formatter; no other column has
    this field or boxes. *)
Definition is_box (s : string) (c : bcolumn) : Prop :=
  bc_field c = s /\ bc_visible c = true /\ bc_checkbox c || bc_radio c = true /\ bc_formatter c = None.
Definition no_box (s : string) (c : bcolumn) : Prop :=
  bc_field c <> s /\ bc_checkbox c || bc_radio c = false.

Record boxed (s : string) (enabled : bool) (cols : list bcolumn) : Prop := Boxed {
  boxed_split : exists pre box post, cols = pre ++ box :: post /\ is_box s box /\
    bc_checkboxEnabled box = enabled /\ Forall (no_box s) (pre ++ post);
  boxed_plain : has_char "." s = false
}.

(** A row whose cells can be drawn, ticked or not. *)
Record row_ok (s : string) (cols : list bcolumn) (r : val) : Prop := RowOk {
  row_obj : exists fs, r = Obj fs;
  row_state : plain_state (field r s);
  row_drawable : forall c, c ∈ cols -> is_Some (getItemField r (bc_field c));
  row_drawable_set : forall c v, c ∈ cols -> is_Some (getItemField (set_prop s v r) (bc_field c))
}.

Lemma row_ok_set s cols r v : plain_state v -> row_ok s cols r -> row_ok s cols (set_prop s v r).
Proof.
  intros Hv [[fs ->] Hs Hd Hds]. split.
  - by eexists.
  - by rewrite field_set_eq.
  - intros c Hc. by apply Hds.
  - intros c u Hc. rewrite set_prop_set_prop. by apply Hds.
Qed.

Lemma split_on_single c s : has_char c s = false -> split_on c s = [s].
Proof.
  unfold has_char. rewrite negb_false_iff. apply split_on_none.
Qed.

(** A name without dots reads a field of the row. *)
Lemma getItemField_plain fs f : has_char "." f = false -> getItemField (Obj fs) f = Some (field (Obj fs) f).
Proof.
  intros Hf. unfold getItemField, field. cbn. destruct (assoc f fs) as [v|] eqn:E; [done|].
  rewrite split_on_single by done. cbn. by rewrite E.
Qed.

Lemma row_ok_plain s cols fs :
  has_char "." s = false -> Forall (fun c => has_char "." (bc_field c) = false) cols ->
  plain_state (field (Obj fs) s) -> row_ok s cols (Obj fs).
Proof.
  intros Hs Hcols Hst. split; [by eexists|done|..]; intros c; [|intros v];
    rewrite list_elem_of_In; intros Hc; rewrite Forall_forall in Hcols;
    cbn [set_prop]; rewrite getItemField_plain; eauto.
Qed.

Section draw.
Context {s : string} {enabled : bool} {cols : list bcolumn} (Hcols : boxed s enabled cols).

Lemma stateField_no_box cs acc :
  Forall (no_box s) cs ->
  fold_left (fun s c => if bc_visible c && (bc_checkbox c || bc_radio c) then Some (bc_field c) else s) cs acc = acc.
Proof.
  induction 1 as [|c cs [_ Hc] _ IH]; [done|]. cbn. by rewrite Hc, andb_false_r.
Qed.

Lemma stateField_boxed : stateField cols = Some s.
Proof.
  destruct Hcols as [(pre & box & post & -> & (Hs & Hv & Hb & _) & _ & [Hpre Hpost]%Forall_app) _].
  unfold stateField. rewrite fold_left_app. cbn. rewrite Hv, Hb, Hs. cbn.
  by apply stateField_no_box.
Qed.

Lemma find_column_elem c :
  c ∈ cols -> exists x, find_column cols (bc_field c) = Some x /\ x ∈ cols /\ bc_field x = bc_field c.
Proof.
  intros Hc. unfold find_column. destruct (List.find _ cols) as [x|] eqn:E.
  - apply List.find_some in E as [Hx Hf]. apply String.eqb_eq in Hf. exists x.
    by rewrite list_elem_of_In.
  - apply list_elem_of_In in Hc. eapply List.find_none in E; [|done].
    cbn in E. by rewrite String.eqb_refl in E.
Qed.

Lemma boxed_other c : c ∈ cols -> bc_field c <> s -> no_box s c.
Proof.
  destruct Hcols as [(pre & box & post & -> & (Hs & _) & _ & Hall) _].
  rewrite Forall_forall in Hall. intros Hc Hne. apply elem_of_app in Hc.
  rewrite elem_of_cons in Hc. apply Hall, list_elem_of_In, elem_of_app.
  destruct Hc as [?|[->|?]]; auto; done.
Qed.

(** The column of boxes is the one that its field finds. *)
Lemma boxed_find :
  exists pre box post, cols = pre ++ box :: post /\ Forall (no_box s) pre /\ Forall (no_box s) post /\
    is_box s box /\ bc_checkboxEnabled box = enabled /\ find_column cols s = Some box.
Proof.
  destruct Hcols as [(pre & box & post & Heq & Hbox & He & [Hpre Hpost]%Forall_app) _].
  exists pre, box, post. split_ands; [done..|]. destruct Hbox as (Hs & _).
  destruct (find_column_elem box) as (x & Hx & Hin & Hfx); [rewrite Heq; set_solver|].
  rewrite Hs in Hx, Hfx. rewrite Hx. f_equal. rewrite Heq in Hin.
  rewrite Forall_forall in Hpre, Hpost.
  apply elem_of_app in Hin as [Hin|[->|Hin]%elem_of_cons]; [|done|]; apply list_elem_of_In in Hin;
    [destruct (Hpre _ Hin)|destruct (Hpost _ Hin)]; done.
Qed.

(** Columns without boxes leave the row as it is. *)
Lemma draw_cells_skip cs cs' k r r' its cells' :
  Forall (no_box s) cs -> (forall c, c ∈ cs -> c ∈ cols) ->
  (forall c, c ∈ cols -> is_Some (getItemField r (bc_field c))) ->
  draw_cells cols cs' k r = Some (r', its, cells') ->
  exists cells, draw_cells cols (cs ++ cs') k r = Some (r', its, cells).
Proof.
  intros Hno Hsub Hd Hcs'. induction Hno as [|c cs [Hne _] _ IH]; [by eexists|].
  destruct IH as [cells Hcells]; [intros; apply Hsub; by right|]. cbn.
  destruct (Hd c) as [l ->]; [apply Hsub; left|].
  destruct (find_column_elem c) as (x & -> & Hx & Hf); [apply Hsub; left|].
  destruct (boxed_other x Hx) as [_ Hb]; [congruence|]. rewrite Hb, Hcells.
  destruct (bc_visible x); eauto.
Qed.

(** The box of a row, and the row after it was drawn. *)
Lemma draw_cells_boxed k r :
  row_ok s cols r ->
  exists cells, draw_cells cols cols k r =
    Some (set_prop s (field r s) r, [Item k (truthy (field r s)) enabled], cells).
Proof.
  intros [[fs ->] Hst Hd Hds].
  destruct boxed_find as (pre & box & post & Heq & Hpre & Hpost & (Hs & Hv & Hb & Hf) & He & Hfind).
  assert (forall l, plain_state l -> box_state l = l) as Hbox by by intros l [->|[[] ->]].
  assert (forall l, plain_state l -> truthy l && truthy (field l "disabled") = false) as Hdis
    by by intros l [->|[[] ->]].
  destruct (draw_cells_skip post [] k (set_prop s (field (Obj fs) s) (Obj fs))
    (set_prop s (field (Obj fs) s) (Obj fs)) [] []) as [cells Hcells];
    [done|rewrite Heq; set_solver|intros; by apply Hds|done|]. rewrite app_nil_r in Hcells.
  enough (exists cells, draw_cells cols (pre ++ box :: post) k (Obj fs) =
    Some (set_prop s (field (Obj fs) s) (Obj fs), [Item k (truthy (field (Obj fs) s)) enabled], cells))
    as H by by rewrite <- Heq in H.
  eapply draw_cells_skip; [done|rewrite Heq; set_solver|done|].
  cbn [draw_cells]. rewrite Hs, Hfind, getItemField_plain by apply Hcols. cbv beta iota.
  rewrite Hv, Hb, Hf, stateField_boxed, He. cbn [format].
  change (default "undefined" (Some s)) with s.
  rewrite Hdis, andb_true_r, Hbox by done. by rewrite Hcells.
Qed.

(** ** The store *)

(** Every drawable row of [h] is drawable and related to it in [h']. *)
Record stays (R : val -> val -> Prop) (h h' : list val) : Prop := Stays {
  stays_length : length h' = length h;
  stays_row : forall i, row_ok s cols (row_of h i) ->
    row_ok s cols (row_of h' i) /\ R (row_of h' i) (row_of h i)
}.

(** The same rows, and the same rows but for their states. *)
Definition kept : list val -> list val -> Prop := stays (same_row s).
Definition marked : list val -> list val -> Prop := stays (alike s).

#[global] Instance stays_preorder R `{!PreOrder R} : PreOrder (stays R).
Proof.
  split; [by split|]. intros h1 h2 h3 [Hl1 H1] [Hl2 H2]. split; [congruence|].
  intros i Hi. destruct (H1 i Hi) as [Hi2 He]. destruct (H2 i Hi2) as [? He2].
  split; [done|by etrans].
Qed.

#[global] Instance kept_preorder : PreOrder kept.
Proof. apply stays_preorder, _. Qed.
#[global] Instance marked_preorder : PreOrder marked.
Proof. apply stays_preorder, _. Qed.

Lemma kept_marked h h' : kept h h' -> marked h h'.
Proof. intros [Hl Hk]. split; [done|]. intros i Hi. by destruct (Hk i Hi) as [? [? ?]]. Qed.

Definition rows_ok (h : list val) (ids : list nat) : Prop :=
  Forall (fun i => (i < length h)%nat /\ row_ok s cols (row_of h i)) ids.

(** Which rows are ticked. *)
Definition states (h : list val) (ids : list nat) : list bool :=
  (fun i => truthy (field (row_of h i) s)) <$> ids.

Lemma row_of_insert h i j r :
  (i < length h)%nat -> row_of (<[i := r]> h) j = if decide (i = j) then r else row_of h j.
Proof.
  intros Hi. unfold row_of. case_decide as Hd.
  - subst. by rewrite list_lookup_insert_eq.
  - by rewrite list_lookup_insert_ne.
Qed.

Lemma kept_insert h i v :
  (i < length h)%nat -> truthy v = truthy (field (row_of h i) s) -> plain_state v ->
  kept h (<[i := set_prop s v (row_of h i)]> h).
Proof.
  intros Hi Ht Hv. split; [by rewrite length_insert|]. intros j Hj.
  rewrite row_of_insert by done. case_decide as Hd; [subst|done].
  split; [by apply row_ok_set|]. apply same_row_touch; [apply Hj|done].
Qed.

Lemma rows_ok_stays R h h' ids : stays R h h' -> rows_ok h ids -> rows_ok h' ids.
Proof.
  intros [Hl Hk]. apply Forall_impl. intros i [Hi Hr]. rewrite Hl. split; [done|by apply Hk].
Qed.

Lemma states_kept h h' ids : kept h h' -> rows_ok h ids -> states h' ids = states h ids.
Proof.
  intros [_ Hk] Hok. unfold states. induction Hok as [|i ids [_ Hi] _ IH]; [done|].
  cbn. rewrite IH. f_equal. apply (Hk i Hi).
Qed.

(** The boxes for the rows from [k] on. *)
Definition boxes (k : nat) (bs : list bool) : list item :=
  zip_with (fun j b => Item j b enabled) (seq k (length bs)) bs.

(** Drawing succeeds, ticks the boxes of the ticked rows and keeps the rows. *)
Lemma draw_rows_boxed ids n k h :
  rows_ok h ids -> (n = 0 \/ k + n <= length ids)%nat ->
  exists h' rows, draw_rows cols ids n (Z.of_nat k) h =
      (h', Some (rows, boxes k (take n (drop k (states h ids))))) /\
    kept h h' /\ dr_index <$> rows = seq k n.
Proof.
  revert k h. induction n as [|n IH]; intros k h Hok Hlen; [by exists h, []; split_ands; [..|done]|].
  cbn [draw_rows]. rewrite (proj2 (Z.ltb_ge _ _)), Nat2Z.id by lia.
  destruct (lookup_lt_is_Some_2 ids k) as [r Hr]; [lia|]. rewrite Hr.
  destruct (Forall_lookup_1 _ _ _ _ Hok Hr) as [Hri Hrow].
  destruct (draw_cells_boxed k _ Hrow) as [cells ->].
  set (h1 := <[r := _]> h).
  assert (kept h h1) as Hk1 by (apply kept_insert; [done..|apply Hrow]).
  replace (Z.of_nat k + 1) with (Z.of_nat (S k)) by lia.
  destruct (IH (S k) h1) as (h' & rows & -> & Hk & Hidx); [by eapply rows_ok_stays|lia|].
  exists h', (Drawn k cells :: rows). split_ands; [|by etrans|cbn; by rewrite Hidx].
  rewrite (states_kept h h1) by done.
  assert (states h ids !! k = Some (truthy (field (row_of h r) s))) as Hst.
  { unfold states. by rewrite list_lookup_fmap, Hr. }
  rewrite (drop_S _ _ _ Hst). reflexivity.
Qed.

(** ** Ticking rows *)

(** Row number [p.1] of [ids] is ticked or not, as [p.2] says. *)
Definition assign1 (ids : list nat) (h : list val) (p : nat * bool) : list val :=
  match ids !! p.1 with
  | Some r => set_state s (Bool p.2) h r
  | None => h
  end.
Definition assign (ids : list nat) (h : list val) (ps : list (nat * bool)) : list val :=
  fold_left (assign1 ids) ps h.
Definition inserts (l : list bool) (ps : list (nat * bool)) : list bool :=
  fold_left (fun l p => <[p.1 := p.2]> l) ps l.
Definition checks (ps : list (nat * bool)) (t : table) : table :=
  fold_left (fun t p => check_row p.1 p.2 t) ps t.

Lemma row_of_alter f h i j :
  (i < length h)%nat -> row_of (alter f i h) j = if decide (i = j) then f (row_of h j) else row_of h j.
Proof.
  intros Hi. unfold row_of. case_decide as Hd.
  - subst. rewrite list_lookup_alter_eq. destruct (lookup_lt_is_Some_2 h j Hi) as [r ->]. done.
  - by rewrite list_lookup_alter_ne.
Qed.

Lemma assign1_marked ids h p : rows_ok h ids -> marked h (assign1 ids h p).
Proof.
  intros Hok. unfold assign1. destruct (ids !! p.1) as [r|] eqn:Hr; [|done].
  destruct (Forall_lookup_1 _ _ _ _ Hok Hr) as [Hi _]. unfold set_state.
  split; [apply length_alter|]. intros j Hj. rewrite row_of_alter by done. case_decide as Hd; [|done].
  split; [apply row_ok_set; [right; by eexists|done]|]. unfold alike. apply set_prop_set_prop.
Qed.

Lemma assign_marked ids h ps : rows_ok h ids -> marked h (assign ids h ps).
Proof.
  revert h. induction ps as [|p ps IH]; intros h Hok; [done|]. cbn.
  pose proof (assign1_marked ids h p Hok) as Hm.
  etrans; [exact Hm|]. apply IH. by eapply rows_ok_stays.
Qed.

Section distinct.
Context (ids : list nat) (Hids : NoDup ids).

Lemma row_of_assign1 h p j i :
  rows_ok h ids -> ids !! j = Some i ->
  row_of (assign1 ids h p) i = if decide (p.1 = j) then set_prop s (Bool p.2) (row_of h i) else row_of h i.
Proof.
  intros Hok Hj. unfold assign1. destruct (ids !! p.1) as [r|] eqn:Hr.
  - destruct (Forall_lookup_1 _ _ _ _ Hok Hr) as [Hi _]. unfold set_state.
    rewrite row_of_alter by done. case_decide as H1; case_decide as H2; try done; subst.
    + destruct H2. by eapply NoDup_lookup.
    + congruence.
  - case_decide; [congruence|done].
Qed.

Lemma assign1_states h p :
  rows_ok h ids -> states (assign1 ids h p) ids = <[p.1 := p.2]> (states h ids).
Proof.
  intros Hok. apply list_eq. intros j. unfold states. rewrite list_lookup_fmap.
  destruct (ids !! j) as [i|] eqn:Hj; cbn.
  - rewrite row_of_assign1 with (j := j) by done. case_decide as Hd.
    + subst. rewrite list_lookup_insert_eq by (rewrite length_fmap; by eapply lookup_lt_Some).
      rewrite field_set_prop; [done|]. by eapply (Forall_lookup_1 _ _ _ _ Hok Hj).
    + by rewrite list_lookup_insert_ne, list_lookup_fmap, Hj.
  - symmetry. apply lookup_ge_None_2. rewrite length_insert, length_fmap. by apply lookup_ge_None_1.
Qed.

Lemma assign1_rel h p t :
  rows_ok h ids -> t_state t = s -> Forall2 (same_row s) (row_of h <$> ids) (t_rows t) ->
  Forall2 (same_row s) (row_of (assign1 ids h p) <$> ids) (t_rows (check_row p.1 p.2 t)).
Proof.
  intros Hok Hs Hrel. unfold check_row. rewrite Hs. cbn. apply Forall2_same_length_lookup_2.
  { rewrite length_alter, length_fmap. apply Forall2_length in Hrel. by rewrite length_fmap in Hrel. }
  intros j r1 r2. rewrite list_lookup_fmap. destruct (ids !! j) as [i|] eqn:Hj; [|done].
  cbn. intros [= <-] H2. rewrite row_of_assign1 with (j := j) by done.
  destruct (Forall_lookup_1 _ _ _ _ Hok Hj) as [_ Hrow].
  assert (forall r, t_rows t !! j = Some r -> same_row s (row_of h i) r) as Hsame.
  { intros r Hr. eapply (Forall2_lookup_lr _ _ _ _ _ _ Hrel); [|done]. by rewrite list_lookup_fmap, Hj. }
  case_decide as Hd.
  - subst. rewrite list_lookup_alter_eq in H2. destruct (t_rows t !! p.1) as [r|] eqn:Hr; [|done].
    cbn in H2. injection H2 as <-. specialize (Hsame _ eq_refl).
    apply same_row_set; [apply Hrow|by eapply same_row_Obj; [|apply Hrow]|done].
  - rewrite list_lookup_alter_ne in H2 by done. by apply Hsame.
Qed.

Lemma assign_states h ps : rows_ok h ids -> states (assign ids h ps) ids = inserts (states h ids) ps.
Proof.
  revert h. induction ps as [|p ps IH]; intros h Hok; [done|]. cbn.
  rewrite <- assign1_states by done. apply IH.
  eapply rows_ok_stays; [by apply assign1_marked|done].
Qed.

Lemma assign_rel h ps t :
  rows_ok h ids -> t_state t = s -> Forall2 (same_row s) (row_of h <$> ids) (t_rows t) ->
  Forall2 (same_row s) (row_of (assign ids h ps) <$> ids) (t_rows (checks ps t)).
Proof.
  revert h t. induction ps as [|p ps IH]; intros h t Hok Hs Hrel; [done|]. cbn.
  apply IH; [eapply rows_ok_stays; [by apply assign1_marked|done]|done|by apply assign1_rel].
Qed.

End distinct.

End draw.

(** ** Lists of ticks *)

Lemma inserts_cons l p ps : inserts l (p :: ps) = inserts (<[p.1 := p.2]> l) ps.
Proof. done. Qed.

Lemma inserts_length l ps : length (inserts l ps) = length l.
Proof. revert l. induction ps as [|p ps IH]; intros l; [done|]. by rewrite inserts_cons, IH, length_insert. Qed.

Lemma inserts_other l ps i : i ∉ ps.*1 -> inserts l ps !! i = l !! i.
Proof.
  revert l. induction ps as [|p ps IH]; intros l Hi; [done|].
  apply not_elem_of_cons in Hi as [Hne Hi]. rewrite inserts_cons, IH by done. by apply list_lookup_insert_ne.
Qed.

Lemma inserts_here l ps i b :
  NoDup ps.*1 -> (i, b) ∈ ps -> (i < length l)%nat -> inserts l ps !! i = Some b.
Proof.
  revert l. induction ps as [|p ps IH]; intros l Hnd Hin Hi; [by apply not_elem_of_nil in Hin|].
  rewrite inserts_cons. inversion_clear Hnd as [|? ? Hp Hnd']. apply elem_of_cons in Hin as [<-|Hin].
  - rewrite inserts_other by done. by apply list_lookup_insert_eq.
  - apply IH; [done..|]. by rewrite length_insert.
Qed.

(** The ticks of the rows from [k] on are replaced by [bs]. *)
Lemma inserts_slice k bs ps l :
  NoDup ps.*1 -> (k + length bs <= length l)%nat ->
  (forall j b, bs !! j = Some b -> ((k + j)%nat, b) ∈ ps) ->
  take (length bs) (drop k (inserts l ps)) = bs.
Proof.
  intros Hnd Hlen Hps. apply list_eq. intros j.
  destruct (decide (j < length bs)%nat) as [Hj|Hj].
  - rewrite lookup_take_lt, lookup_drop by done.
    destruct (lookup_lt_is_Some_2 bs j Hj) as [b Hb]. rewrite Hb.
    apply inserts_here; [done|by apply Hps|lia].
  - rewrite !lookup_ge_None_2; [done|lia|]. rewrite length_take. lia.
Qed.

Lemma boxes_length enabled k bs : length (boxes (enabled := enabled) k bs) = length bs.
Proof. unfold boxes. rewrite length_zip_with, length_seq. lia. Qed.

Lemma boxes_lookup enabled k bs j :
  boxes (enabled := enabled) k bs !! j = (fun b => Item (k + j) b enabled) <$> bs !! j.
Proof.
  unfold boxes. rewrite lookup_zip_with. destruct (bs !! j) as [b|] eqn:Hb.
  - rewrite lookup_seq_lt by by eapply lookup_lt_Some. done.
  - rewrite lookup_seq_ge by by apply lookup_ge_None_1. done.
Qed.

(** A list of boxes is determined by its ticks. *)
Lemma boxes_eq enabled k bs its :
  length its = length bs ->
  (forall j b, bs !! j = Some b -> its !! j = Some (Item (k + j) b enabled)) ->
  its = boxes (enabled := enabled) k bs.
Proof.
  intros Hl Hj. apply list_eq. intros j. rewrite boxes_lookup.
  destruct (bs !! j) as [b|] eqn:Hb; [by apply Hj|].
  apply lookup_ge_None_2. rewrite Hl. by apply lookup_ge_None_1.
Qed.

(** ** Search *)

(** The formatters of the console print fields of the row, not its state or its
    position. *)
Definition steady (s : string) (c : bcolumn) : Prop :=
  match bc_formatter c with
  | None => True
  | Some f => forall v r u i j, f v (set_prop s u r) i = f v r j
  end.

Section search.
Context (cf : config) {s : string} {enabled : bool} {cols : list bcolumn}.
Context (Hcols : boxed s enabled cols) (Hsteady : Forall (steady s) cols).

Lemma existsb_assoc_set (p : string * val -> bool) fs :
  (forall v, assoc s fs = Some v -> p (s, v) = false) -> p (s, Undef) = false ->
  existsb p (assoc_set s Undef fs) = existsb p fs.
Proof.
  intros Hp Hu. induction fs as [|[k w] fs IH]; cbn in *; [by rewrite Hu|].
  destruct (String.eqb_spec s k) as [->|Hne]; cbn; [by rewrite Hu, (Hp w eq_refl)|].
  by rewrite IH.
Qed.

Lemma field_matches_norm c r u i j kv :
  field_matches cf cols c r i kv = field_matches cf cols c (set_prop s u r) j kv.
Proof.
  destruct kv as [g v]. unfold field_matches. destruct (numeric_key g); [done|].
  unfold find_column. destruct (List.find _ cols) as [x|] eqn:Hx; [|done].
  apply List.find_some in Hx as [Hin _]. rewrite Forall_forall in Hsteady.
  specialize (Hsteady x Hin). unfold steady, format in *.
  destruct (bc_formatter x) as [f|]; [|done]. by rewrite (Hsteady v r u j i).
Qed.

Lemma field_matches_state c r i v : plain_state v -> field_matches cf cols c r i (s, v) = false.
Proof.
  intros Hv. unfold field_matches. destruct (numeric_key s); [done|].
  destruct (boxed_find Hcols) as (_ & box & _ & _ & _ & _ & (_ & _ & _ & Hf) & _ & ->).
  rewrite Hf. unfold format. destruct (bc_searchFormatter box), Hv as [->|[? ->]];
    cbn; by rewrite andb_false_r.
Qed.

Lemma matches_norm c r i :
  row_ok s cols r -> matches cf cols c r i = matches cf cols c (set_prop s Undef r) 0.
Proof.
  intros [[fs ->] Hst _ _]. unfold matches. cbn [row_fields set_prop].
  rewrite existsb_assoc_set.
  - assert (forall l, existsb (field_matches cf cols c (Obj fs) i) l =
      existsb (field_matches cf cols c (set_prop s Undef (Obj fs)) 0) l) as Hl; [|apply Hl].
    intros l. induction l as [|kv l IH]; [done|]. cbn [existsb].
    by rewrite IH, (field_matches_norm c (Obj fs) Undef i 0).
  - intros v Hv. apply field_matches_state. unfold field in Hst. cbn in Hst. by rewrite Hv in Hst.
  - apply field_matches_state. by left.
Qed.

Lemma matches_alike c r1 r2 i j :
  row_ok s cols r1 -> row_ok s cols r2 -> alike s r1 r2 ->
  matches cf cols c r1 i = matches cf cols c r2 j.
Proof.
  unfold alike. intros H1 H2 Heq. rewrite (matches_norm c r1 i), (matches_norm c r2 j) by done.
  by rewrite Heq.
Qed.

(** The rows a search finds, in their order. *)
Definition hits (h : list val) (c : string) (ids : list nat) : list nat :=
  List.filter (fun r => matches cf cols c (row_of h r) 0) ids.

Lemma grep_hits h c i ids : rows_ok (s := s) (cols := cols) h ids -> grep h (matches cf cols c) i ids = hits h c ids.
Proof.
  intros Hok. revert i. induction Hok as [|r ids [_ Hr] _ IH]; intros i; [done|]. cbn.
  rewrite IH, (matches_alike c (row_of h r) (row_of h r) i 0) by done. done.
Qed.

Lemma hits_marked h h' c ids :
  marked (s := s) (cols := cols) h h' -> rows_ok (s := s) (cols := cols) h ids -> hits h' c ids = hits h c ids.
Proof.
  intros [_ Hm] Hok. unfold hits. induction Hok as [|r ids [_ Hr] _ IH]; [done|]. cbn.
  destruct (Hm r Hr) as [Hr' Ha].
  by rewrite IH, (matches_alike c (row_of h' r) (row_of h r) 0 0).
Qed.

Lemma hits_NoDup h c ids : NoDup ids -> NoDup (hits h c ids).
Proof. intros H. apply NoDup_ListNoDup, NoDup_filter. by apply NoDup_ListNoDup. Qed.

Lemma hits_subset h c ids i : i ∈ hits h c ids -> i ∈ ids.
Proof. unfold hits. rewrite list_elem_of_In, filter_In, <- list_elem_of_In. by intros [? _]. Qed.

End search.

(** ** The invariant *)

(** The interval of rows that is drawn, from [first] on. *)
Definition first_row (p : pager) : nat := Z.to_nat (pageFrom p - 1).
Definition row_count (p : pager) : nat := Z.to_nat (pageTo p - (pageFrom p - 1)).

Definition interval_ok (p : pager) (len : nat) : Prop :=
  0 <= pageFrom p - 1 /\ (row_count p = 0 \/ first_row p + row_count p <= len)%nat.

Section widget.
Context (cf : config) (s : string) (enabled : bool).

(** [this.data], as [initSearch] computes it. *)
Definition found (st : bt) : option (list nat) :=
  if cf_server cf then None else
  match search_for st with
  | None => None
  | Some c => Some (hits cf (cols := b_cols st) (b_store st) c (b_options_data st))
  end.

(** The data of the table. *)
Record core (st : bt) : Prop := Core {
  core_cols : boxed s enabled (b_cols st);
  core_steady : Forall (steady s) (b_cols st);
  core_filter : b_filterColumns st = [];
  core_nodup : NoDup (b_options_data st);
  core_rows : rows_ok (s := s) (cols := b_cols st) (b_store st) (b_options_data st);
  core_small : Z.of_nat (length (b_options_data st)) <= 2147483647
}.

(** The ticks of the rows in [this.data]. *)
Definition ticks (st : bt) : list bool := states (s := s) (b_store st) (view st).

(** The rows from [k] on, [n] of them, are in the body, each with its box. *)
Record drawn_at (k n : nat) (st : bt) : Prop := DrawnAt {
  drawn_interval : (n = 0 \/ k + n <= length (view st))%nat;
  drawn_body : dr_index <$> b_body st = seq k n;
  drawn_boxes : b_items st = boxes (enabled := enabled) k (take n (drop k (ticks st)))
}.

(** What the user sees is what the widget holds. *)
Record sound (st : bt) : Prop := Sound {
  sound_core : core st;
  sound_view : b_data st = found st;
  sound_size : 1 <= pageSize (b_pager st);
  sound_drawn : exists k n, drawn_at k n st
}.

(** Same data, but for the states of the rows and the page. *)
Record same_data (st st' : bt) : Prop := SameData {
  same_cols : b_cols st' = b_cols st;
  same_options : b_options_data st' = b_options_data st;
  same_search : b_searchText st' = b_searchText st;
  same_filter : b_filterColumns st' = b_filterColumns st;
  same_store : marked (s := s) (cols := b_cols st) (b_store st) (b_store st')
}.

Lemma same_data_core st st' : same_data st st' -> core st -> core st'.
Proof.
  intros [Hc Ho _ Hf Hm] []. split; rewrite ?Hc, ?Ho, ?Hf; try done.
  by eapply rows_ok_stays.
Qed.

Lemma same_data_found st st' : same_data st st' -> core st -> found st' = found st.
Proof.
  intros [Hc Ho Hs _ Hm] []. unfold found, search_for. rewrite Hc, Ho, Hs.
  destruct (cf_server cf); [done|]. destruct (b_searchText st) as [c|]; [|done].
  destruct (String.eqb c ""); [done|]. f_equal. by eapply hits_marked.
Qed.

Lemma view_NoDup st : core st -> b_data st = found st -> NoDup (view st).
Proof.
  intros [] Hv. unfold view. rewrite Hv. unfold found.
  destruct (cf_server cf), (search_for st); cbn; try done. by apply hits_NoDup.
Qed.

Lemma view_rows st : core st -> b_data st = found st -> rows_ok (s := s) (cols := b_cols st) (b_store st) (view st).
Proof.
  intros [] Hv. unfold view. rewrite Hv. unfold found.
  destruct (cf_server cf), (search_for st); cbn; try done.
  unfold rows_ok in *. rewrite Forall_forall in *. intros i Hi. apply core_rows0.
  apply list_elem_of_In, hits_subset in Hi. by apply list_elem_of_In.
Qed.

Lemma view_options st i : core st -> b_data st = found st -> i ∈ view st -> i ∈ b_options_data st.
Proof.
  intros _ Hv. unfold view. rewrite Hv. unfold found.
  destruct (cf_server cf), (search_for st); cbn; try done. apply hits_subset.
Qed.

Lemma view_length st : core st -> b_data st = found st -> (length (view st) <= length (b_options_data st))%nat.
Proof.
  intros _ Hv. unfold view. rewrite Hv. unfold found.
  destruct (cf_server cf), (search_for st); cbn; try done. apply filter_length_le.
Qed.

Lemma getData_view st : core st -> b_data st = found st -> getData st = view st.
Proof.
  intros [] Hv. unfold getData, view. rewrite Hv, core_filter0. unfold found.
  by destruct (cf_server cf), (search_for st).
Qed.

Lemma initSearch_found st :
  core st -> (cf_server cf = true -> b_data st = None) ->
  initSearch cf st = set_arrays (b_options_data st) (found st) st.
Proof.
  intros [] Hd. unfold initSearch, found. destruct (cf_server cf).
  - specialize (Hd eq_refl). by destruct st; cbn in *; subst.
  - rewrite core_filter0. unfold set_arrays. destruct (search_for st) as [c|]; [|done]. cbn [default].
    by erewrite grep_hits.
Qed.

(** ** Pages *)

Lemma paginate_interval len p :
  cf_server cf = false -> 1 <= pageNumber p -> 1 <= pageSize p -> Z.of_nat len <= 2147483647 ->
  interval_ok (paginate cf len p) len.
Proof.
  intros Hc Hn Hs Hl. unfold paginate. rewrite Hc.
  destruct (button_range _ _) as [d e].
  unfold interval_ok, row_count, first_row. cbn [pageFrom pageTo].
  set (pages := if _ =? 0 then 0 else _).
  set (number := if (pages >? 0) && _ then pages else pageNumber p).
  assert (1 <= number) as Hnum. { subst number. destruct (pages >? 0) eqn:E; cbn; [|done]. case_match; lia. }
  assert (0 <= (number - 1) * pageSize p) by nia.
  split; [lia|]. case_match; lia.
Qed.

(** A page that can be drawn. *)
Definition on_page (p : pager) : Prop := pagination p = true -> 1 <= pageNumber p.

Lemma initBody_sound st :
  core st -> b_data st = found st -> 1 <= pageSize (b_pager st) ->
  (pagination (b_pager st) && negb (cf_server cf) = true ->
   interval_ok (b_pager st) (length (view st))) ->
  exists st', initBody cf st = Ok st' /\ sound st' /\
    drawn_at (first_row (b_pager st')) (row_count (b_pager st')) st' /\ same_data st st' /\
    kept (s := s) (cols := b_cols st) (b_store st) (b_store st') /\ b_data st' = b_data st /\
    b_sent st' = b_sent st /\
    b_pager st' = if pagination (b_pager st) && negb (cf_server cf) then b_pager st
                  else set_interval 1 (Z.of_nat (length (view st))) (b_pager st).
Proof.
  intros Hcore Hv Hsize Hint. unfold initBody. rewrite getData_view by done.
  set (p := if _ && _ then _ else _).
  assert (interval_ok p (length (view st))) as [H0 Hn].
  { subst p. destruct (pagination (b_pager st) && negb (cf_server cf)); [by apply Hint|].
    unfold interval_ok, row_count, first_row. cbn. lia. }
  assert (pageSize p = pageSize (b_pager st)) as Hps by (subst p; by case_match).
  destruct (draw_rows_boxed (core_cols _ Hcore) (view st) (row_count p) (first_row p) (b_store st))
    as (h' & rows & Hdraw & Hkept & Hidx); [by apply view_rows|done|].
  change (b_store (set_pager p st)) with (b_store st). change (b_cols (set_pager p st)) with (b_cols st).
  unfold first_row, row_count in Hdraw. rewrite Z2Nat.id in Hdraw by done. rewrite Hdraw.
  match goal with |- context [Ok ?x] => set (st' := x) end.
  assert (same_data st st') as Hsame by (split; [done..|by apply kept_marked]).
  assert (states (s := s) h' (view st) = ticks st) as Hst.
  { by eapply states_kept; [|apply view_rows]. }
  assert (drawn_at (first_row p) (row_count p) st') as Hdr.
  { split; [done..|]. change (ticks st') with (states (s := s) h' (view st)). by rewrite Hst. }
  exists st'. split_ands; try done.
  split; [by eapply same_data_core| |by rewrite <- Hps in Hsize|eauto].
  change (b_data st') with (b_data st). rewrite Hv. symmetry. by eapply same_data_found.
Qed.

(** ** The table of the pages *)

(** The events of [Browser.v] that change a table. *)
Inductive tchange : Type :=
| TCheck (i : nat) (b : bool)
| TLoad (rows : list val)
| TRemove (fld : string) (values : val).

Definition tapply (t : table) (c : tchange) : table :=
  match c with
  | TCheck i b => check_row i b t
  | TLoad rows => load_rows rows t
  | TRemove fld values => remove_from_table fld values t
  end.

(** The table [t] of a page shows what the widget shows. *)
Definition shows (st : bt) (t : table) : Prop :=
  t_state t = s /\ Forall2 (same_row s) (row_of (b_store st) <$> view st) (t_rows t).

Lemma shows_kept st st' t :
  core st -> b_data st = found st -> view st' = view st ->
  kept (s := s) (cols := b_cols st) (b_store st) (b_store st') -> shows st t -> shows st' t.
Proof.
  intros Hc Hd Hv [_ Hk] [Hs Ht]. split; [done|]. rewrite Hv.
  pose proof (view_rows _ Hc Hd) as Hok. revert Ht. generalize (t_rows t). clear Hv.
  induction Hok as [|i ids [_ Hi] _ IH]; intros rows Ht; cbn in *; [done|].
  inversion Ht as [|? r ? rows' Hr Hrows]; subst. constructor; [|by apply IH].
  etrans; [by apply Hk|done].
Qed.

Lemma checks_state ps t : t_state (checks ps t) = t_state t.
Proof. revert t. induction ps as [|p ps IH]; intros t; [done|]. exact (IH (check_row p.1 p.2 t)). Qed.

Lemma shows_assign st st' ps t :
  core st -> b_data st = found st -> view st' = view st ->
  b_store st' = assign (s := s) (view st) (b_store st) ps -> shows st t -> shows st' (checks ps t).
Proof.
  intros Hc Hd Hv Hst [Hs Ht]. split; [by rewrite checks_state|]. rewrite Hv, Hst.
  eapply assign_rel; [by apply view_NoDup|by apply view_rows|done..].
Qed.

(** ** Leaving a page *)

Definition untick (n : nat) : list (nat * bool) := (fun i => (i, false)) <$> seq 0 n.

Lemma untick_assign ids h :
  fold_left (set_state s (Bool false)) ids h = assign (s := s) ids h (untick (length ids)).
Proof.
  unfold assign, untick. enough (forall suf pre h, ids = pre ++ suf ->
    fold_left (set_state s (Bool false)) suf h =
    fold_left (assign1 (s := s) ids) ((fun i => (i, false)) <$> seq (length pre) (length suf)) h) as H
    by by apply (H ids []).
  clear h. induction suf as [|r suf IH]; intros pre h Hids; [done|]. cbn.
  rewrite (IH (pre ++ [r])) by (by rewrite Hids, <- app_assoc).
  rewrite length_app. cbn. rewrite Nat.add_1_r. f_equal. unfold assign1. cbn.
  by rewrite Hids, list_lookup_middle.
Qed.

Lemma untick_all l : inserts l (untick (length l)) = replicate (length l) false.
Proof.
  rewrite <- (take_ge (inserts l (untick (length l))) (length (replicate (length l) false)))
    by (rewrite inserts_length, length_replicate; done).
  rewrite <- (drop_0 (inserts _ _)).
  assert ((untick (length l)).*1 = seq 0 (length l)) as Hfst.
  { unfold untick. rewrite <- list_fmap_compose. by apply list_fmap_id. }
  apply inserts_slice.
  - rewrite Hfst. apply NoDup_seq.
  - by rewrite length_replicate.
  - intros j b [Hb Hj]%lookup_replicate. subst. cbn. unfold untick.
    apply list_elem_of_fmap. exists j. split; [done|]. apply elem_of_seq. lia.
Qed.

(** Leaving a page unticks all the rows, if their state field has a name. *)
Record left_page (st st' : bt) : Prop := LeftPage {
  left_data : same_data st st';
  left_view : b_data st' = b_data st;
  left_pager : b_pager st' = b_pager st;
  left_sent : b_sent st' = b_sent st;
  left_store : exists ps, b_store st' = assign (s := s) (view st) (b_store st) ps;
  left_drawn : forall k n, drawn_at k n st ->
    (cf_server cf = false \/ s <> "") -> cf_server cf = true -> drawn_at k n st';
  left_ticks : s <> "" -> cf_maintainSelected cf = false -> Forall (fun b => b = false) (ticks st')
}.

Lemma resetRows_left st :
  core st -> b_data st = found st -> cf_maintainSelected cf = false -> left_page st (resetRows st).
Proof.
  intros Hc Hd Hm. pose proof (stateField_boxed (core_cols _ Hc)) as Hsf.
  pose proof (view_rows _ Hc Hd) as Hok. pose proof (view_NoDup _ Hc Hd) as Hnd.
  unfold resetRows. rewrite Hsf. destruct (view st) as [|r0 ids0] eqn:Hview.
  { split; try done; [by exists []|]. intros _ _. unfold ticks. rewrite Hview. constructor. }
  rewrite <- Hview in *. destruct (String.eqb_spec s "") as [Hs|Hs].
  { split; try done; [by exists []|]. intros k n _ [?|?]; congruence. }
  match goal with |- left_page _ ?x => set (st' := x) end.
  assert (b_store st' = assign (s := s) (view st) (b_store st) (untick (length (view st)))) as Hst.
  { apply untick_assign. }
  assert (ticks st' = replicate (length (view st)) false) as Ht.
  { unfold ticks. change (view st') with (view st). rewrite Hst.
    erewrite assign_states by done. unfold states.
    rewrite <- (length_fmap (fun i => truthy (field (row_of (b_store st) i) s)) (view st)).
    apply untick_all. }
  split; try done.
  - split; try done. rewrite Hst. by apply assign_marked.
  - by eexists.
  - intros k n [Hint Hbody Hbox] _ _. split; [done..|].
    change (b_items st') with (List.map (fun it => Item (it_index it) false (it_enabled it)) (b_items st)).
    rewrite Ht, drop_replicate, take_replicate.
    assert (length (ticks st) = length (view st)) as Hlen by apply length_fmap.
    apply boxes_eq.
    + rewrite length_map, Hbox, boxes_length, length_take, length_drop, length_replicate. lia.
    + intros j b [Hb Hj]%lookup_replicate. subst.
      rewrite list_lookup_fmap, Hbox, boxes_lookup, lookup_take_lt, lookup_drop by lia.
      destruct (lookup_lt_is_Some_2 (ticks st) (k + j)) as [b ->]; [lia|]. done.
  - intros _ _. rewrite Ht. by apply Forall_replicate.
Qed.

(** ** Ticking boxes *)

Lemma drawn_length k n st : drawn_at k n st -> length (b_items st) = n.
Proof.
  intros [Hint _ ->]. rewrite boxes_length, length_take, length_drop.
  unfold ticks, states. rewrite length_fmap. lia.
Qed.

Lemma drawn_item k n st j it :
  drawn_at k n st -> b_items st !! j = Some it ->
  (k + j < length (view st))%nat /\ (j < n)%nat /\ it_index it = (k + j)%nat /\ it_enabled it = enabled /\
  ticks st !! (k + j)%nat = Some (it_checked it).
Proof.
  intros Hd Hj. pose proof (drawn_length _ _ _ Hd) as Hl.
  assert (j < n)%nat as Hjn by (rewrite <- Hl; by eapply lookup_lt_Some).
  destruct Hd as [Hint _ Hbox]. rewrite Hbox, boxes_lookup, lookup_take_lt, lookup_drop in Hj by done.
  destruct (ticks st !! (k + j)%nat) as [b|] eqn:Hb; [|done]. cbn in Hj. simplify_eq. cbn.
  apply lookup_lt_Some in Hb. unfold ticks, states in Hb. rewrite length_fmap in Hb. done.
Qed.

(** Rows and boxes that are ticked together stay together. *)
Lemma drawn_assign k n st st' ps :
  core st -> b_data st = found st -> drawn_at k n st ->
  view st' = view st -> b_body st' = b_body st ->
  b_store st' = assign (s := s) (view st) (b_store st) ps -> NoDup ps.*1 ->
  length (b_items st') = length (b_items st) ->
  (forall j it, b_items st !! j = Some it -> exists b, b_items st' !! j = Some (Item (k + j) b enabled) /\
     (((k + j)%nat, b) ∈ ps \/ ((k + j)%nat ∉ ps.*1) /\ b = it_checked it)) ->
  drawn_at k n st'.
Proof.
  intros Hc Hd Hdr Hv Hb Hst Hnd Hlen Hits.
  assert (ticks st' = inserts (ticks st) ps) as Ht.
  { unfold ticks. rewrite Hv, Hst. eapply assign_states; [by apply view_NoDup|by apply view_rows]. }
  pose proof (drawn_length _ _ _ Hdr) as Hn.
  split; [rewrite Hv; apply Hdr|rewrite Hb; apply Hdr|].
  assert (length (ticks st) = length (view st)) as Hl by apply length_fmap.
  pose proof (drawn_interval _ _ _ Hdr) as Hint.
  apply boxes_eq.
  - rewrite Hlen, Hn, Ht, length_take, length_drop, inserts_length. lia.
  - intros j b Hj. assert (j < n)%nat as Hjn.
    { apply lookup_lt_Some in Hj. rewrite length_take in Hj. lia. }
    destruct (lookup_lt_is_Some_2 (b_items st) j) as [it Hit]; [lia|].
    destruct (Hits j it Hit) as (b' & Hit' & Hb'). rewrite Hit'. repeat f_equal.
    rewrite Ht, lookup_take_lt, lookup_drop in Hj by done.
    destruct (drawn_item _ _ _ _ _ Hdr Hit) as (Hkj & _ & _ & _ & Hold).
    destruct Hb' as [Hin|[Hnin ->]].
    + rewrite (inserts_here _ _ _ _ Hnd Hin) in Hj by lia. by simplify_eq.
    + rewrite inserts_other in Hj by done. congruence.
Qed.

(** What a change of ticks leaves. *)
Record reticked (ps : list (nat * bool)) (st st' : bt) : Prop := Reticked {
  re_cols : b_cols st' = b_cols st;
  re_options : b_options_data st' = b_options_data st;
  re_data : b_data st' = b_data st;
  re_search : b_searchText st' = b_searchText st;
  re_filter : b_filterColumns st' = b_filterColumns st;
  re_pager : b_pager st' = b_pager st;
  re_body : b_body st' = b_body st;
  re_store : b_store st' = assign (s := s) (view st) (b_store st) ps
}.

Lemma reticked_same ps st st' : core st -> b_data st = found st -> reticked ps st st' -> same_data st st'.
Proof.
  intros Hc Hd []. split; [done..|]. rewrite re_store0. apply assign_marked. by apply view_rows.
Qed.

Lemma reticked_sound ps st st' :
  sound st -> reticked ps st st' -> (forall k n, drawn_at k n st -> drawn_at k n st') -> sound st'.
Proof.
  intros [Hc Hd Hs (k & n & Hdr)] Hre Hdr'. pose proof (reticked_same _ _ _ Hc Hd Hre) as Hsame.
  split; [by eapply same_data_core| |by rewrite (re_pager _ _ _ Hre)|by eauto].
  rewrite (re_data _ _ _ Hre), Hd. symmetry. by eapply same_data_found.
Qed.

Lemma reticked_view ps st st' : reticked ps st st' -> view st' = view st.
Proof. intros []. unfold view. by rewrite re_data0, re_options0. Qed.

Lemma mark_assign1 st h p : core st -> mark st h p.1 p.2 = assign1 (s := s) (view st) h p.
Proof. intros Hc. unfold mark, assign1. by rewrite (stateField_boxed (core_cols _ Hc)). Qed.

Lemma mark_assign {A : Type} st (f : A -> nat * bool) (l : list A) h :
  core st ->
  fold_left (fun h x => mark st h (f x).1 (f x).2) l h = assign (s := s) (view st) h (f <$> l).
Proof.
  intros Hc. revert h. induction l as [|x l IH]; intros h; [done|]. cbn.
  rewrite IH. unfold assign. by rewrite mark_assign1.
Qed.

Lemma boxes_index k bs : it_index <$> boxes (enabled := enabled) k bs = seq k (length bs).
Proof.
  apply list_eq. intros j. rewrite list_lookup_fmap, boxes_lookup.
  destruct (bs !! j) as [b|] eqn:Hb; cbn.
  - by rewrite lookup_seq_lt by by eapply lookup_lt_Some.
  - by rewrite lookup_seq_ge by by apply lookup_ge_None_1.
Qed.

Lemma drawn_index k n st : drawn_at k n st -> it_index <$> b_items st = seq k n.
Proof.
  intros Hd. rewrite <- (drawn_length _ _ _ Hd) at 1. rewrite (drawn_boxes _ _ _ Hd), boxes_index.
  by rewrite boxes_length.
Qed.

(** The boxes of the other rows, in order. *)
Lemma seq_without k n j :
  (j < n)%nat -> NoDup ((k + j)%nat :: take j (seq k n) ++ drop (S j) (seq k n)).
Proof.
  intros Hj. assert (Permutation (seq k n) ((k + j)%nat :: take j (seq k n) ++ drop (S j) (seq k n))) as Hp.
  { rewrite <- (take_drop j (seq k n)) at 1.
    rewrite (drop_S (seq k n) (k + j)%nat j) by by rewrite lookup_seq_lt.
    symmetry. apply Permutation_middle. }
  rewrite <- Hp. apply NoDup_seq.
Qed.

(** The assignments of a click. *)
Definition click_ps (st : bt) (j : nat) (it : item) : list (nat * bool) :=
  (it_index it, negb (it_checked it)) ::
  if singleSelect (b_cols st)
  then (fun o => (it_index o, false)) <$> (take j (b_items st) ++ drop (S j) (b_items st)) else [].

Lemma click_reticked st j it :
  core st -> b_items st !! j = Some it -> it_enabled it = true ->
  reticked (click_ps st j it) st (clickItem cf j st).
Proof.
  intros Hc Hj He. unfold clickItem. rewrite Hj, He. cbn [negb]. unfold click_ps.
  pose proof (mark_assign1 st (b_store st) (it_index it, negb (it_checked it)) Hc) as Hm. cbn in Hm.
  destruct (singleSelect (b_cols st)); split; try done.
  change (fold_left (fun h o => mark st h (it_index o) false) (take j (b_items st) ++ drop (S j) (b_items st))
    (mark st (b_store st) (it_index it) (negb (it_checked it))) = assign (s := s) (view st) (b_store st)
      ((it_index it, negb (it_checked it)) :: ((fun o => (it_index o, false)) <$> (take j (b_items st) ++ drop (S j) (b_items st))))).
  rewrite (mark_assign st (fun o => (it_index o, false))) by done. by rewrite Hm.
Qed.

(** The boxes after a click on the box [j]. *)
Lemma click_items st j it :
  b_items st !! j = Some it -> it_enabled it = true ->
  b_items (clickItem cf j st) =
    <[j := set_checked (negb (it_checked it)) it]>
      ((if singleSelect (b_cols st) then set_checked false else id) <$> b_items st).
Proof.
  intros Hj He. unfold clickItem. rewrite Hj, He. cbn [negb].
  destruct (singleSelect (b_cols st)); cbn [b_items updateSelected set_boxes].
  - assert (j < length (set_checked false <$> b_items st))%nat as Hlt
      by (rewrite length_fmap; by eapply lookup_lt_Some).
    by rewrite (insert_take_drop _ _ _ Hlt), <- fmap_take, <- fmap_drop.
  - by rewrite list_fmap_id.
Qed.

Lemma click_drawn st j it k n :
  core st -> b_data st = found st -> b_items st !! j = Some it -> it_enabled it = true ->
  drawn_at k n st -> drawn_at k n (clickItem cf j st).
Proof.
  intros Hc Hd Hj He Hdr. pose proof (click_reticked st j it Hc Hj He) as Hre.
  destruct (drawn_item _ _ _ _ _ Hdr Hj) as (Hkj & Hjn & Hidx & Hen & _).
  pose proof (click_items st j it Hj He) as Hits.
  eapply drawn_assign; [done..|by eapply reticked_view|apply Hre|apply Hre| | |].
  - unfold click_ps. cbn. rewrite Hidx. destruct (singleSelect (b_cols st)); [|by apply NoDup_singleton].
    rewrite <- list_fmap_compose. rewrite (list_fmap_ext (fst ∘ _) it_index) by done.
    rewrite fmap_app, fmap_take, fmap_drop, (drawn_index _ _ _ Hdr). by apply seq_without.
  - by rewrite Hits, length_insert, length_fmap.
  - intros j' it' Hj'. destruct (drawn_item _ _ _ _ _ Hdr Hj') as (_ & _ & Hidx' & Hen' & _).
    rewrite Hits. unfold click_ps. destruct (decide (j' = j)) as [->|Hne].
    + exists (negb (it_checked it)). rewrite list_lookup_insert_eq by (rewrite length_fmap; by eapply lookup_lt_Some).
      split; [unfold set_checked; by rewrite Hidx, Hen|]. left. rewrite Hidx. left.
    + rewrite list_lookup_insert_ne, list_lookup_fmap, Hj' by done.
      destruct (singleSelect (b_cols st)); cbn.
      * exists false. split; [unfold set_checked; by rewrite Hidx', Hen'|]. left. right.
        apply list_elem_of_fmap. exists it'. rewrite Hidx'. split; [done|].
        apply elem_of_app. destruct (decide (j' < j)%nat).
        -- left. apply list_elem_of_lookup. exists j'. by rewrite lookup_take_lt.
        -- right. apply list_elem_of_lookup. exists (j' - S j)%nat. rewrite lookup_drop.
           by replace (S j + (j' - S j))%nat with j' by lia.
      * exists (it_checked it'). split; [destruct it'; cbn in *; by subst|]. right. split; [|done].
        rewrite Hidx. apply not_elem_of_cons. split; [lia|apply not_elem_of_nil].
Qed.

(** All the boxes at once. *)
Lemma checkAll_reticked st b :
  core st ->
  reticked ((fun it => (it_index it, it_checked it)) <$> b_items (checkAll_ b st)) st (checkAll_ b st).
Proof.
  intros Hc. unfold checkAll_, updateRows. split; try done. cbn [b_store set_store b_items set_boxes].
  set (its := List.map _ _).
  assert (core (set_boxes its b st)) as Hc' by (destruct Hc; by split).
  exact (mark_assign (set_boxes its b st) (fun it => (it_index it, it_checked it)) its (b_store st) Hc').
Qed.

Lemma checkAll_drawn st b k n :
  core st -> b_data st = found st -> drawn_at k n st -> drawn_at k n (checkAll_ b st).
Proof.
  intros Hc Hd Hdr. pose proof (checkAll_reticked st b Hc) as Hre.
  assert (b_items (checkAll_ b st) = (fun it => if it_enabled it then set_checked b it else it) <$> b_items st)
    as Hits by done.
  eapply drawn_assign; [done..|by eapply reticked_view|apply Hre|apply Hre| | |].
  - rewrite <- list_fmap_compose, Hits, <- list_fmap_compose.
    rewrite (list_fmap_ext _ it_index) by (intros ? it _; cbn; by destruct (it_enabled it)).
    rewrite (drawn_index _ _ _ Hdr). apply NoDup_seq.
  - by rewrite Hits, length_fmap.
  - intros j it Hj. destruct (drawn_item _ _ _ _ _ Hdr Hj) as (_ & _ & Hidx & Hen & _).
    exists (if it_enabled it then b else it_checked it).
    assert (b_items (checkAll_ b st) !! j = Some (Item (k + j) (if it_enabled it then b else it_checked it) enabled)) as Hj'.
    { rewrite Hits, list_lookup_fmap, Hj. cbn. unfold set_checked. destruct it as [i c e]; cbn in *; subst.
      by destruct enabled. }
    split; [done|]. left. apply list_elem_of_fmap. eexists. split; [|by eapply list_elem_of_lookup_2]. done.
Qed.

(** ** Changing page *)

Lemma paginate_on_page len p : on_page p -> on_page (paginate cf len p).
Proof.
  unfold on_page, paginate. destruct (button_range _ _) as [d e]. cbn. intros Hp H. specialize (Hp H).
  set (pages := if _ =? 0 then 0 else _). destruct (pages >? 0) eqn:E; cbn; [|done]. case_match; lia.
Qed.

Lemma paginate_size len p : pageSize (paginate cf len p) = pageSize p.
Proof. unfold paginate. by destruct (button_range _ _). Qed.
Lemma paginate_pagination len p : pagination (paginate cf len p) = pagination p.
Proof. unfold paginate. by destruct (button_range _ _). Qed.

Lemma initPagination_on_page st : on_page (b_pager st) -> on_page (b_pager (initPagination cf st)).
Proof. unfold initPagination. case_match; [apply paginate_on_page|done]. Qed.

Lemma initPagination_same st : same_data st (initPagination cf st).
Proof. unfold initPagination. by case_match. Qed.

(** The pager [p'] after drawing [len] rows with the pager [p]. *)
Definition fresh_page (p : pager) (len : nat) (p' : pager) : Prop :=
  if pagination p && negb (cf_server cf) then p' = paginate cf len p
  else first_row p' = 0%nat /\ row_count p' = len.

(** Drawing the current page. *)
Lemma draw_page st :
  core st -> b_data st = found st -> 1 <= pageSize (b_pager st) -> on_page (b_pager st) ->
  exists st', initBody cf (initPagination cf st) = Ok st' /\ sound st' /\ same_data st st' /\
    drawn_at (first_row (b_pager st')) (row_count (b_pager st')) st' /\
    kept (s := s) (cols := b_cols st) (b_store st) (b_store st') /\ b_data st' = b_data st /\
    on_page (b_pager st') /\ fresh_page (b_pager st) (length (view st)) (b_pager st').
Proof.
  intros Hc Hd Hs Hp. set (st1 := initPagination cf st).
  assert (same_data st st1) as Hsame by apply initPagination_same.
  assert (core st1) as Hc1 by by eapply same_data_core.
  assert (b_data st1 = b_data st /\ view st1 = view st /\ b_store st1 = b_store st /\ b_cols st1 = b_cols st)
    as (Hd1 & Hv1 & Hst1 & Hcl1).
  { subst st1. unfold initPagination. by case_match. }
  assert (b_data st1 = found st1) as Hf1 by (rewrite Hd1, Hd; symmetry; by apply same_data_found).
  destruct (initBody_sound st1) as (st' & Hb & Hsd & Hdr & Hsame' & Hk & Hd' & _ & Hp'); [done..| | |].
  - subst st1. unfold initPagination. case_match; [|done]. cbn. by rewrite paginate_size.
  - intros [Hpag Hcl]%andb_prop. rewrite negb_true_iff in Hcl. subst st1.
    rewrite Hv1. unfold initPagination in *. destruct (pagination (b_pager st)) eqn:E; cbn; [|congruence].
    rewrite getData_view by done. apply paginate_interval; [done|by apply Hp|done|].
    pose proof (view_length st Hc Hd). pose proof (core_small _ Hc). lia.
  - exists st'. rewrite Hst1, Hcl1 in Hk. split_ands; try done.
    + destruct Hsame, Hsame'. split; try congruence; by apply kept_marked.
    + congruence.
    + rewrite Hp'. case_match; [|unfold on_page; cbn]; by apply initPagination_on_page.
    + unfold fresh_page. rewrite Hp', Hv1. unfold st1, initPagination. rewrite getData_view by done.
      destruct (pagination (b_pager st)) eqn:Epag; cbn; rewrite ?paginate_pagination, ?Epag; cbn;
        [destruct (cf_server cf); [|done]|]; unfold first_row, row_count; cbn; lia.
Qed.

Lemma left_page_refl st : cf_maintainSelected cf = true -> left_page st st.
Proof. intros Hm. split; try done; [by exists []|congruence]. Qed.

Lemma ticks_kept st st' :
  core st -> b_data st = found st -> view st' = view st ->
  kept (s := s) (cols := b_cols st) (b_store st) (b_store st') -> ticks st' = ticks st.
Proof.
  intros Hc Hd Hv Hk. unfold ticks. rewrite Hv. eapply states_kept; [done|by apply view_rows].
Qed.

Lemma same_view st st' : same_data st st' -> b_data st' = b_data st -> view st' = view st.
Proof. intros Hs Hd. unfold view. by rewrite Hd, (same_options _ _ Hs). Qed.

#[local] Instance same_data_preorder : PreOrder same_data.
Proof.
  split; [by split|]. intros st1 st2 st3 [] []. split; try congruence.
  rewrite same_cols0 in same_store1. etrans; [exact same_store0|exact same_store1].
Qed.

(** Tables paged by the server ask for the page and wait. *)
Lemma turn_server st k n :
  core st -> b_data st = found st -> 1 <= pageSize (b_pager st) -> on_page (b_pager st) -> drawn_at k n st ->
  let st' := initServer cf (initPagination cf st) in
  sound st' /\ on_page (b_pager st') /\ same_data st st' /\ b_data st' = b_data st /\ b_store st' = b_store st.
Proof.
  intros Hc Hd Hs Hp Hdr st'.
  assert (same_data st st' /\ b_data st' = b_data st /\ b_store st' = b_store st /\
    b_items st' = b_items st /\ b_body st' = b_body st /\ pageSize (b_pager st') = pageSize (b_pager st) /\
    b_pager st' = b_pager (initPagination cf st)) as (Hsame & Ed & Est & Ei & Eb & Esz & Epg).
  { subst st'. unfold initServer, initPagination.
    destruct (pagination (b_pager st)), (cf_url cf); cbn; by rewrite ?paginate_size. }
  assert (view st' = view st) as Ev by by apply same_view.
  split_ands; try done; [|rewrite Epg; by apply initPagination_on_page].
  split; [by eapply same_data_core| |by rewrite Esz|].
  - rewrite Ed, Hd. symmetry. by apply same_data_found.
  - exists k, n. destruct Hdr. split; unfold ticks; by rewrite ?Est, ?Ev, ?Eb, ?Ei.
Qed.

(** ** New data *)

Lemma redraw_ok st :
  core st -> (cf_server cf = true -> b_data st = None) -> 1 <= pageSize (b_pager st) -> on_page (b_pager st) ->
  exists st', redraw cf st = Ok st' /\ sound st' /\ on_page (b_pager st') /\ same_data st st' /\
    view st' = default (b_options_data st) (found st) /\
    kept (s := s) (cols := b_cols st) (b_store st) (b_store st') /\
    drawn_at (first_row (b_pager st')) (row_count (b_pager st')) st' /\
    fresh_page (b_pager st) (length (view st')) (b_pager st').
Proof.
  intros Hc Hd Hs Hp. unfold redraw. rewrite initSearch_found by done.
  set (st1 := set_arrays _ _ _).
  assert (same_data st st1) as Hsame by by split.
  destruct (draw_page st1) as (st' & ? & ? & ? & ? & ? & Hd' & ? & Hf);
    [by eapply same_data_core|symmetry; by apply same_data_found|done..|].
  assert (view st' = view st1) as Hv by by apply same_view.
  exists st'. rewrite Hv. split_ands; try done. by etrans.
Qed.

Lemma shows_load st rows t :
  t_state t = s -> row_of (b_store st) <$> view st = rows -> shows st (load_rows rows t).
Proof. intros Hs <-. split; [done|]. reflexivity. Qed.

Definition loadable (cols : list bcolumn) (rows : list val) : Prop :=
  Forall (row_ok s cols) rows /\ Z.of_nat (length rows) <= 2147483647.

(** The table with the rows [l], before it is drawn. *)
Definition with_rows (l : list val) (st : bt) : bt := let '(ids, st) := alloc l st in set_arrays ids None st.

Lemma with_rows_row st l i :
  (i < length l)%nat -> row_of (b_store (with_rows l st)) (length (b_store st) + i) = default Undef (l !! i).
Proof. intros Hi. unfold row_of. cbn. rewrite lookup_app_r by lia. by replace (length (b_store st) + i - length (b_store st))%nat with i by lia. Qed.

Lemma with_rows_core st l : core st -> loadable (b_cols st) l -> core (with_rows l st).
Proof.
  intros Hc [Hl Hlen]. destruct Hc. split; try done; cbn.
  - apply NoDup_seq.
  - unfold rows_ok. rewrite Forall_forall. intros i Hi%list_elem_of_In%elem_of_seq.
    rewrite length_app. split; [lia|]. unfold row_of. rewrite lookup_app_r by lia.
    destruct (lookup_lt_is_Some_2 l (i - length (b_store st))) as [r Hr]; [lia|]. rewrite Hr. cbn.
    by eapply (Forall_lookup_1 _ _ _ _ Hl).
  - by rewrite length_seq.
Qed.

Lemma load_ok st total rows :
  sound st -> on_page (b_pager st) ->
  match rows with Some l => loadable (b_cols st) l | None => True end ->
  exists st', load cf total rows st = Ok st' /\ sound st' /\ on_page (b_pager st') /\
    forall l, rows = Some l -> Forall (fun r => truthy (field r s) = false) l ->
      Forall (fun b => b = false) (ticks st').
Proof.
  intros [Hc Hd Hs _] Hp Hrows. unfold load.
  set (st1 := if cf_server cf then _ else _).
  assert (core st1 /\ pageSize (b_pager st1) = pageSize (b_pager st) /\ on_page (b_pager st1) /\
    b_cols st1 = b_cols st) as (Hc1 & Hs1 & Hp1 & Hcols).
  { subst st1. destruct (cf_server cf); [|done]. split; [|done]. destruct Hc. by split. }
  set (st2 := match rows with Some l => _ | None => _ end).
  assert (core st2 /\ b_data st2 = None /\ b_pager st2 = b_pager st1) as (Hc2 & Hd2 & Hp2).
  { subst st2. destruct rows as [l|]; [|split; [|done]; destruct Hc1; by split].
    split; [|done]. apply with_rows_core; [done|by rewrite Hcols]. }
  destruct (redraw_ok st2) as (st' & ? & Hso' & ? & Hsame & _ & Hk & _); [done|done|by rewrite Hp2, Hs1|by rewrite Hp2|].
  exists st'. split_ands; [done..|]. intros l -> Hl. destruct Hso' as [Hc' Hd' _ _].
  unfold ticks, states. apply Forall_fmap, Forall_forall. intros i Hi%list_elem_of_In%(view_options st' i Hc' Hd').
  rewrite (same_options _ _ Hsame) in Hi. cbn in Hi. apply elem_of_seq in Hi.
  assert (row_of (b_store st2) i ∈ l) as Hin.
  { unfold row_of. cbn. rewrite lookup_app_r by lia. rewrite list_elem_of_lookup.
    destruct (lookup_lt_is_Some_2 l (i - length (b_store st1))) as [r Hr]; [lia|]. rewrite Hr. by eexists. }
  destruct Hk as [_ Hk]. destruct (Hk i) as [_ [_ Ht]].
  - destruct Hc2. unfold rows_ok in core_rows0. rewrite Forall_forall in core_rows0.
    apply core_rows0, list_elem_of_In. cbn. by apply elem_of_seq.
  - cbn. rewrite Ht. rewrite Forall_forall in Hl. by apply Hl, list_elem_of_In.
Qed.

(** Without a search, a table that shows its pages itself then shows these rows. *)
Lemma load_shows st total l :
  sound st -> on_page (b_pager st) -> cf_server cf = false -> search_for st = None -> loadable (b_cols st) l ->
  exists st', load cf total (Some l) st = Ok st' /\ sound st' /\ on_page (b_pager st') /\ shows st' (Table s l) /\
    b_searchText st' = b_searchText st /\ fresh_page (b_pager st) (length l) (b_pager st').
Proof.
  intros [Hc Hd Hs _] Hp Hm Hsearch Hl. unfold load. rewrite Hm. cbn [alloc].
  change (set_arrays _ _ _) with (with_rows l st). pose proof (with_rows_core st l Hc Hl) as Hc1.
  destruct (redraw_ok (with_rows l st)) as (st' & Hok & Hso & Hp' & Hsame & Hv & Hk & _ & Hf); [done|done|done|done|].
  assert (found (with_rows l st) = None) as Hfound.
  { unfold found. rewrite Hm. by change (search_for (with_rows l st)) with (search_for st); rewrite Hsearch. }
  rewrite Hfound in Hv. cbn [default] in Hv. rewrite Hv in Hf. cbn in Hf. rewrite length_seq in Hf.
  exists st'. split_ands; try done; [|by rewrite (same_search _ _ Hsame)].
  apply (shows_kept (with_rows l st)); try done.
  apply shows_load with (t := Table s l); [done|]. apply list_eq. intros i. rewrite list_lookup_fmap. cbn.
  destruct (l !! i) as [r|] eqn:Hr; [|by rewrite lookup_seq_ge by by apply lookup_ge_None_1].
  rewrite lookup_seq_lt by by eapply lookup_lt_Some. cbn. f_equal.
  assert (i < length l)%nat as Hi by by eapply lookup_lt_Some.
  pose proof (with_rows_row st l i Hi) as Hrow. by rewrite Hr in Hrow.
Qed.

(** ** Removal *)

Definition stay (h : list val) (fld : string) (values : val) (ids : list nat) : list nat :=
  List.filter (fun r => negb (row_removed fld values (row_of h r))) ids.

(** The loop, which goes down the array it shortens, is a filter. *)
Lemma remove_loop_filter h fld values n ids :
  (n <= length ids)%nat ->
  remove_loop h fld values n ids = stay h fld values (take n ids) ++ drop n ids.
Proof.
  unfold stay. revert ids. induction n as [|c IH]; intros ids Hn; [done|]. cbn [remove_loop].
  destruct (lookup_lt_is_Some_2 ids c) as [r Hr]; [lia|]. rewrite Hr.
  rewrite (take_S_r _ _ _ Hr), List.filter_app. cbn [List.filter].
  assert (length (take c ids) = c) as Hlen by (rewrite length_take; lia).
  destruct (row_removed fld values (row_of h r)); cbn [negb].
  - rewrite app_nil_r. unfold splice1. rewrite IH by (rewrite length_app, Hlen; lia).
    rewrite take_app_le, take_ge by lia. by rewrite drop_app_ge, Hlen, Nat.sub_diag by lia.
  - rewrite IH by lia. rewrite <- app_assoc. by rewrite (drop_S _ _ _ Hr).
Qed.

Lemma remove_loop_all h fld values ids :
  remove_loop h fld values (length ids) ids = stay h fld values ids.
Proof. by rewrite remove_loop_filter, take_ge, drop_ge, app_nil_r. Qed.

Lemma filter_comm {A : Type} (f g : A -> bool) l :
  List.filter f (List.filter g l) = List.filter g (List.filter f l).
Proof.
  induction l as [|x l IH]; [done|]. cbn. destruct (f x) eqn:Hf, (g x) eqn:Hg; cbn; rewrite ?Hf, ?Hg, IH; done.
Qed.

Lemma NoDup_filter_bool {A : Type} (f : A -> bool) (l : list A) : NoDup l -> NoDup (List.filter f l).
Proof. intros H. apply NoDup_ListNoDup, NoDup_filter. by apply NoDup_ListNoDup. Qed.

Lemma shows_stay st st' fld values t :
  fld <> s -> view st' = stay (b_store st) fld values (view st) -> b_store st' = b_store st ->
  shows st t -> shows st' (remove_from_table fld values t).
Proof.
  intros Hne Hv Hst [Hs Ht]. split; [done|]. rewrite Hv, Hst. cbn. revert Ht. generalize (t_rows t).
  generalize (view st). clear -Hne. unfold stay.
  induction l as [|i ids IH]; intros rows Ht; inversion Ht as [|? r ? rows' Hr Hrows]; subst; [constructor|].
  cbn. rewrite (same_row_removed _ _ _ fld values Hne Hr). destruct (row_removed fld values r); cbn; [by apply IH|].
  constructor; [done|by apply IH].
Qed.

Lemma core_stay st fld values :
  core st -> core (set_arrays (stay (b_store st) fld values (b_options_data st)) (b_data st) st).
Proof.
  intros []. split; try done; cbn.
  - by apply NoDup_filter_bool.
  - unfold rows_ok, stay in *. rewrite Forall_forall in *. intros i [Hi _]%filter_In. by apply core_rows0.
  - etrans; [|done]. apply Nat2Z.inj_le, filter_length_le.
Qed.

Lemma filter_same_length {A : Type} (f : A -> bool) l :
  length (List.filter f l) = length l -> Forall (fun x => f x = true) l.
Proof.
  induction l as [|x l IH]; [constructor|]. cbn. destruct (f x) eqn:Hf; cbn; intros H.
  - constructor; [done|]. apply IH. lia.
  - pose proof (filter_length_le f l). lia.
Qed.

Lemma filter_all_true {A : Type} (f : A -> bool) l : Forall (fun x => f x = true) l -> List.filter f l = l.
Proof. induction 1 as [|x l Hx _ IH]; [done|]. cbn. by rewrite Hx, IH. Qed.

Lemma remove_ok st fld values :
  sound st -> on_page (b_pager st) -> fld <> s ->
  exists st', bt_remove cf fld values st = Ok st' /\ sound st' /\ on_page (b_pager st') /\
    (forall t, shows st t -> shows st' (remove_from_table fld values t)) /\
    view st' = stay (b_store st) fld values (view st) /\
    kept (s := s) (cols := b_cols st) (b_store st) (b_store st') /\
    (st' = st \/ drawn_at (first_row (b_pager st')) (row_count (b_pager st')) st' /\
       fresh_page (b_pager st) (length (view st')) (b_pager st')).
Proof.
  intros Hso Hp Hne. pose proof Hso as [Hc Hd Hs _]. unfold bt_remove. rewrite remove_loop_all.
  destruct (Nat.eqb_spec (length (stay (b_store st) fld values (b_options_data st))) (length (b_options_data st)))
    as [Hlen|Hlen].
  - apply filter_same_length in Hlen as Hall. unfold stay in *. rewrite (filter_all_true _ _ Hall).
    assert (set_arrays (b_options_data st) (b_data st) st = st) as -> by by destruct st.
    assert (view st = stay (b_store st) fld values (view st)) as Hv.
    { symmetry. apply filter_all_true. unfold view. rewrite Hd. unfold found.
      destruct (cf_server cf), (search_for st); cbn; try done.
      rewrite Forall_forall in *. intros i [Hi _]%filter_In. by apply Hall. }
    exists st. split_ands; try done; [|by left]. intros t. by apply shows_stay.
  - set (st1 := set_arrays _ _ _).
    assert (core st1) as Hc1 by by apply core_stay.
    destruct (redraw_ok st1) as (st' & ? & ? & ? & ? & Hv & ? & ? & ?); [done| |done..|].
    { intros Hsrv. cbn. rewrite Hd. unfold found. by rewrite Hsrv. }
    set (st2 := set_arrays (b_options_data st1) (found st1) st1).
    assert (view st2 = stay (b_store st) fld values (view st)) as Hv2.
    { change (view st2) with (default (b_options_data st1) (found st1)). unfold view. rewrite Hd. unfold found.
      change (search_for st1) with (search_for st). destruct (cf_server cf), (search_for st) as [c|]; try done.
      exact (filter_comm _ _ (b_options_data st)). }
    exists st'. split_ands; try done; [|by rewrite Hv, <- Hv2|by right]. intros t Ht.
    assert (shows st2 (remove_from_table fld values t)) as Hsh by by apply (shows_stay st).
    eapply (shows_kept st2); [|symmetry; by apply (same_data_found st1)|done|done|done].
    by eapply (same_data_core st1).
Qed.

(** ** Columns *)

(** The same column, shown or not. *)
Definition same_column (c c' : bcolumn) : Prop := exists b, c' = c \/ c' = set_visible b c.

Lemma alter_columns i b cols : Forall2 same_column cols (alter (set_visible b) i cols).
Proof.
  revert i. induction cols as [|c cols IH]; intros i; [destruct i; constructor|].
  destruct i as [|i]; cbn; constructor; [by exists b; right| |by exists b; left|apply IH].
  clear IH. induction cols as [|c' cols IH]; constructor; [by exists b; left|done].
Qed.

Lemma find_same cols cols' f :
  Forall2 same_column cols cols' ->
  match find_column cols f, find_column cols' f with
  | Some x, Some x' => same_column x x'
  | None, None => True
  | _, _ => False
  end.
Proof.
  unfold find_column. induction 1 as [|c c' cols cols' Hc _ IH]; [done|]. cbn.
  assert (bc_field c' = bc_field c) as -> by by destruct Hc as [b [->| ->]].
  by destruct (String.eqb (bc_field c) f).
Qed.

Lemma matches_same cols cols' c r i :
  Forall2 same_column cols cols' -> matches cf cols' c r i = matches cf cols c r i.
Proof.
  intros Hcols. unfold matches. induction (row_fields r) as [|[g v] l IH]; [done|]. cbn [existsb].
  rewrite IH. f_equal. unfold field_matches. destruct (numeric_key g); [done|].
  pose proof (find_same cols cols' g Hcols) as Hf.
  destruct (find_column cols g) as [x|], (find_column cols' g) as [x'|]; try done.
  by destruct Hf as [b [->| ->]].
Qed.

Lemma row_ok_same cols cols' r : Forall2 same_column cols cols' -> row_ok s cols r -> row_ok s cols' r.
Proof.
  intros Hcols [Ho Hst Hd Hds].
  assert (forall c', c' ∈ cols' -> exists c, c ∈ cols /\ bc_field c' = bc_field c) as Hin.
  { intros c' [i Hi]%list_elem_of_lookup. destruct (Forall2_lookup_r _ _ _ _ _ Hcols Hi) as (c & Hc & Hs).
    exists c. split; [by eapply list_elem_of_lookup_2|]. by destruct Hs as [b [->| ->]]. }
  split; [done|done|..]; intros c'; [|intros v]; intros (c & Hc & ->)%Hin; auto.
Qed.

Lemma boxed_alter i b cols :
  (forall c, cols !! i = Some c -> no_box s c) -> boxed s enabled cols ->
  boxed s enabled (alter (set_visible b) i cols).
Proof.
  intros Hi [(pre & box & post & -> & Hbox & He & Hall) Hdot]. split; [|done].
  assert (forall l j, Forall (no_box s) l -> Forall (no_box s) (alter (set_visible b) j l)) as Hno.
  { intros l j Hl. revert j. induction Hl as [|c l Hc Hl IH]; intros [|j]; constructor; try done; apply IH. }
  apply Forall_app in Hall as [Hpre Hpost]. destruct (decide (i < length pre)%nat) as [Hlt|Hge].
  - rewrite alter_app_l by done. eexists _, box, post. split_ands; [done..|].
    apply Forall_app. split; [by apply Hno|done].
  - rewrite alter_app_r_alt by lia. destruct (i - length pre)%nat as [|j] eqn:Ej.
    + exfalso. destruct (Hi box) as [Hb _]; [|by apply Hb, Hbox].
      by rewrite lookup_app_r, Ej by lia.
    + eexists pre, box, _. split_ands; [done..|]. apply Forall_app. split; [done|by apply Hno].
Qed.

Lemma column_ok st i b :
  sound st -> on_page (b_pager st) -> (forall c, b_cols st !! i = Some c -> no_box s c) ->
  exists st', toggleColumn cf i b st = Ok st' /\ sound st' /\ on_page (b_pager st') /\
    (forall t, shows st t -> shows st' t) /\ view st' = view st /\ ticks st' = ticks st /\
    drawn_at (first_row (b_pager st')) (row_count (b_pager st')) st' /\
    fresh_page (b_pager st) (length (view st')) (b_pager st').
Proof.
  intros [Hc Hd Hs _] Hp Hi. unfold toggleColumn.
  set (st1 := set_cols _ _). pose proof (alter_columns i b (b_cols st)) as Hcols.
  assert (core st1) as Hc1.
  { destruct Hc. split; try done; cbn.
    - by apply boxed_alter.
    - clear -core_steady0 Hcols. induction Hcols as [|c c' cols cols' Hc _ IH]; constructor;
        inversion_clear core_steady0; [by destruct Hc as [b' [->| ->]]|by apply IH].
    - unfold rows_ok in *. eapply Forall_impl; [|exact core_rows0]. cbn. intros r [? ?].
      split; [done|by eapply row_ok_same]. }
  assert (found st1 = found st) as Hf.
  { unfold found. change (search_for st1) with (search_for st).
    destruct (cf_server cf), (search_for st); try done. f_equal. unfold hits.
    apply List.filter_ext. intros r. by apply matches_same. }
  destruct (redraw_ok st1) as (st' & ? & ? & ? & ? & Hv & ? & ? & ?); [done| |done..|].
  { intros Hsrv. cbn. rewrite Hd. unfold found. by rewrite Hsrv. }
  assert (view st' = view st1) as Hv1.
  { rewrite Hv, Hf. unfold view. change (b_data st1) with (b_data st). by rewrite Hd. }
  exists st'. split_ands; try done.
  - intros t Ht. apply (shows_kept st1); try done. by rewrite Hf.
  - apply (ticks_kept st1); try done. by rewrite Hf.
Qed.

(** Tables paged by the server have a state field with a name. *)
Context (Hmode : cf_server cf = false \/ s <> "").

Lemma updatePagination_ok st :
  core st -> b_data st = found st -> 1 <= pageSize (b_pager st) -> on_page (b_pager st) ->
  (cf_server cf = true -> exists k n, drawn_at k n st) ->
  exists st' ps, updatePagination cf false st = Ok st' /\ sound st' /\ on_page (b_pager st') /\
    same_data st st' /\ b_data st' = b_data st /\ (forall t, shows st t -> shows st' (checks ps t)) /\
    (s <> "" -> cf_maintainSelected cf = false -> Forall (fun b => b = false) (ticks st')) /\
    (cf_server cf = false -> drawn_at (first_row (b_pager st')) (row_count (b_pager st')) st' /\
       fresh_page (b_pager st) (length (view st)) (b_pager st')).
Proof.
  intros Hc Hd Hs Hp Hdr. unfold updatePagination.
  set (st1 := if cf_maintainSelected cf then st else resetRows st).
  assert (left_page st st1) as [Hsame Hd1 Hp1 _ [ps Hps] Hdr1 Ht1].
  { subst st1. destruct (cf_maintainSelected cf) eqn:E; [by apply left_page_refl|by apply resetRows_left]. }
  assert (core st1) as Hc1 by by eapply same_data_core.
  assert (b_data st1 = found st1) as Hf1 by (rewrite Hd1, Hd; symmetry; by apply same_data_found).
  assert (view st1 = view st) as Hv1 by by apply same_view.
  assert (forall t, shows st t -> shows st1 (checks ps t)) as Hsh by (intros t; by apply shows_assign).
  enough (exists st', (if cf_server cf then Ok (initServer cf (initPagination cf st1))
      else initBody cf (initPagination cf st1)) = Ok st' /\ sound st' /\ on_page (b_pager st') /\
      same_data st1 st' /\ b_data st' = b_data st1 /\
      kept (s := s) (cols := b_cols st1) (b_store st1) (b_store st') /\
      (cf_server cf = false -> drawn_at (first_row (b_pager st')) (row_count (b_pager st')) st' /\
         fresh_page (b_pager st) (length (view st)) (b_pager st')))
    as (st' & Hok & Hso & Hp' & Hsame' & Hd' & Hk & Hfr).
  { assert (view st' = view st1) as Hv' by by apply same_view.
    exists st', ps. split_ands; try done; [by etrans|congruence| |].
    - intros t Ht. by apply (shows_kept st1); [..|apply Hsh].
    - by rewrite (ticks_kept st1) by done. }
  destruct (cf_server cf) eqn:Hsrv.
  - destruct (Hdr eq_refl) as (k & n & Hkn).
    destruct (turn_server st1 k n) as (? & ? & ? & ? & Hst); [by rewrite ?Hp1; auto..|].
    eexists. split_ands; try done. by rewrite Hst.
  - destruct (draw_page st1) as (st' & ? & ? & ? & ? & ? & ? & ? & Hf); [by rewrite ?Hp1..|].
    rewrite Hp1, Hv1 in Hf. by exists st'.
Qed.

(** ** One event *)

Lemma sound_repage st f : pageSize (f (b_pager st)) = pageSize (b_pager st) -> sound st -> sound (with_page f st).
Proof.
  intros Hf [Hc Hd Hs (k & n & Hdr)].
  assert (same_data st (with_page f st)) as Hsame by by split.
  split; [by eapply same_data_core| |by cbn; rewrite Hf|].
  - change (b_data (with_page f st)) with (b_data st). rewrite Hd. symmetry. by apply same_data_found.
  - exists k, n. destruct Hdr. by split.
Qed.

(** What an event may do to the table of a page. *)
Definition is_check (c : tchange) : Prop := match c with TCheck _ _ => True | _ => False end.

Definition permits (ev : bt_event) (cs : list tchange) : Prop :=
  match ev with
  | ESearch _ | ELoad _ _ => exists rows, cs = [TLoad rows]
  | ERemove fld values => cs = [TRemove fld values]
  | _ => Forall is_check cs
  end.

(** The step from [st] shows on the table of the page as the changes [cs]. *)
Definition simulates (st : bt) (cs : list tchange) (r : result) : Prop :=
  exists st', r = Ok st' /\ sound st' /\ on_page (b_pager st') /\
    forall t, shows st t -> shows st' (fold_left tapply cs t).

Definition tchecks (ps : list (nat * bool)) : list tchange := (fun p => TCheck p.1 p.2) <$> ps.

Lemma tchecks_apply ps t : fold_left tapply (tchecks ps) t = checks ps t.
Proof. revert t. induction ps as [|p ps IH]; intros t; [done|]. exact (IH (check_row p.1 p.2 t)). Qed.

Lemma tchecks_is ps : Forall is_check (tchecks ps).
Proof. induction ps; by constructor. Qed.

(** No row is ticked, if leaving a page unticks. *)
Definition unticked (st : bt) : Prop :=
  s <> "" -> cf_maintainSelected cf = false -> Forall (fun b => b = false) (ticks st).

Lemma turn_ok st f disabled :
  sound st -> pagination (f (b_pager st)) = pagination (b_pager st) ->
  (disabled = true -> pageSize (f (b_pager st)) = pageSize (b_pager st)) ->
  1 <= pageSize (f (b_pager st)) -> on_page (f (b_pager st)) ->
  exists st' ps, updatePagination cf disabled (with_page f st) = Ok st' /\ sound st' /\ on_page (b_pager st') /\
    (forall t, shows st t -> shows st' (checks ps t)) /\ (st' = with_page f st \/ unticked st').
Proof.
  intros Hso Hpag Hdis Hs Hp. destruct disabled.
  - exists (with_page f st), []. split_ands; try done; [by apply sound_repage; auto|by left].
  - pose proof Hso as [Hc Hd _ (k & n & Hdr)].
    assert (same_data st (with_page f st)) as Hsame by by split.
    destruct (updatePagination_ok (with_page f st)) as (st' & ps & ? & ? & ? & _ & _ & Hsh & Hall & _);
      [by eapply same_data_core| |done|done|exists k, n; destruct Hdr; by split|].
    { change (b_data (with_page f st)) with (b_data st). rewrite Hd. symmetry. by apply same_data_found. }
    exists st', ps. split_ands; try done. by right.
Qed.

Lemma turn_sim st f disabled :
  sound st -> pagination (f (b_pager st)) = pagination (b_pager st) ->
  (disabled = true -> pageSize (f (b_pager st)) = pageSize (b_pager st)) ->
  1 <= pageSize (f (b_pager st)) -> on_page (f (b_pager st)) ->
  exists cs, Forall is_check cs /\ simulates st cs (updatePagination cf disabled (with_page f st)).
Proof.
  intros Hso Hpag Hdis Hs Hp. destruct (turn_ok st f disabled) as (st' & ps & ? & ? & ? & Hsh & _); [done..|].
  exists (tchecks ps). split; [apply tchecks_is|]. exists st'. split_ands; try done.
  intros t Ht. rewrite tchecks_apply. by apply Hsh.
Qed.

(** An event that the page offers: the previous page from the second on, a page
    and a page size from the page's lists, a column without boxes, rows that can
    be drawn, and a removal by another field than the state. *)
Definition polite (st : bt) (ev : bt_event) : Prop :=
  match ev with
  | EPre => 2 <= pageNumber (b_pager st)
  | ELast => 1 <= totalPages (b_pager st)
  | EPage n | EPageSize n => 1 <= n
  | EColumn i _ => forall c, b_cols st !! i = Some c -> no_box s c
  | ELoad _ (Some rows) => loadable (b_cols st) rows
  | ERemove fld _ => fld <> s
  | _ => True
  end.

Lemma click_sim st j : sound st -> on_page (b_pager st) -> exists cs, Forall is_check cs /\ simulates st cs (Ok (clickItem cf j st)).
Proof.
  intros Hso Hp. pose proof Hso as [Hc Hd _ _].
  destruct (b_items st !! j) as [it|] eqn:Hj; [destruct (it_enabled it) eqn:He|].
  2,3: exists []; split; [done|]; exists st; split_ands; try done; unfold clickItem; by rewrite Hj, ?He.
  pose proof (click_reticked st j it Hc Hj He) as Hre.
  exists (tchecks (click_ps st j it)). split; [apply tchecks_is|]. eexists. split_ands; [done| | |].
  - eapply reticked_sound; [done..|]. intros k n. by eapply click_drawn.
  - by rewrite (re_pager _ _ _ Hre).
  - intros t Ht. rewrite tchecks_apply. eapply shows_assign; [done..|by eapply reticked_view|apply Hre|done].
Qed.

Lemma checkAll_sim st b : sound st -> on_page (b_pager st) -> exists cs, Forall is_check cs /\ simulates st cs (Ok (checkAll_ b st)).
Proof.
  intros Hso Hp. pose proof Hso as [Hc Hd _ _]. pose proof (checkAll_reticked st b Hc) as Hre.
  eexists (tchecks _). split; [apply tchecks_is|]. eexists. split_ands; [done| | |].
  - eapply reticked_sound; [done..|]. intros k n. by apply checkAll_drawn.
  - by rewrite (re_pager _ _ _ Hre).
  - intros t Ht. rewrite tchecks_apply. eapply shows_assign; [done..|by eapply reticked_view|apply Hre|done].
Qed.

Lemma search_ok st text :
  sound st -> on_page (b_pager st) ->
  exists st', onSearch cf text st = Ok st' /\ sound st' /\ on_page (b_pager st') /\ (st' = st \/ unticked st').
Proof.
  intros Hso Hp. pose proof Hso as [Hc Hd Hs (k & n & Hdr)]. unfold onSearch.
  set (same := match b_searchText st with Some _ => _ | None => _ end). destruct same.
  { exists st. split_ands; try done. by left. }
  set (st1 := with_page (set_pageNumber 1) (set_search (Some (trim text)) st)).
  assert (core st1) as Hc1 by (destruct Hc; by split).
  assert (cf_server cf = true -> b_data st1 = None) as Hsrv.
  { intros Hsrv. cbn. rewrite Hd. unfold found. by rewrite Hsrv. }
  rewrite initSearch_found by done. set (st2 := set_arrays _ _ _).
  assert (same_data st1 st2) as Hsame by by split.
  destruct (updatePagination_ok st2) as (st' & ps & ? & ? & ? & _ & _ & _ & Hall & _);
    [by eapply same_data_core|symmetry; by apply (same_data_found st1)|done|by intros _| |].
  - intros Hsrv'. exists k, n. destruct Hdr. assert (b_data st2 = b_data st) as Hd2.
    { change (found st1 = b_data st). unfold found. rewrite Hsrv'. symmetry. by apply Hsrv. }
    assert (view st2 = view st) as Hv by (unfold view; by rewrite Hd2).
    split; unfold ticks; by rewrite ?Hv.
  - exists st'. split_ands; try done. by right.
Qed.

Lemma search_sim st text :
  sound st -> on_page (b_pager st) -> exists rows, simulates st [TLoad rows] (onSearch cf text st).
Proof.
  intros Hso Hp. destruct (search_ok st text Hso Hp) as (st' & ? & ? & ? & _).
  exists (row_of (b_store st') <$> view st'), st'. split_ands; try done.
  intros t Ht. apply shows_load; [apply Ht|done].
Qed.

Lemma refresh_sim st url :
  sound st -> on_page (b_pager st) -> simulates st [] (Ok (bt_refresh cf url st)).
Proof.
  intros Hso Hp. eexists. split; [done|]. unfold bt_refresh.
  set (st1 := if url then _ else _).
  assert (sound st1 /\ on_page (b_pager st1) /\ b_store st1 = b_store st /\ view st1 = view st)
    as (Hso1 & Hp1 & Hst & Hv).
  { subst st1. destruct url; [|done]. split; [by apply sound_repage|done]. }
  unfold initServer. destruct (cf_url cf).
  - split_ands; try done.
    + destruct Hso1 as [Hc Hd Hs (k & n & Hdr)]. split; [destruct Hc; by split|exact Hd|done|].
      exists k, n. destruct Hdr. by split.
    + intros t [Hts Ht]. split; [done|]. cbn. unfold view in *. cbn. by rewrite Hst, Hv.
  - split_ands; try done. intros t [Hts Ht]. split; [done|]. by rewrite Hst, Hv.
Qed.

Lemma step_sim st ev :
  sound st -> on_page (b_pager st) -> polite st ev ->
  exists cs, permits ev cs /\ simulates st cs (bt_step cf st ev).
Proof.
  intros Hso Hp Hev. pose proof Hso as [_ _ Hs _].
  destruct ev; cbn [bt_step permits polite] in *.
  - by apply click_sim.
  - by apply checkAll_sim.
  - apply turn_sim; try done.
  - apply turn_sim; try done. intros _. cbn. lia.
  - apply turn_sim; try done. intros Hpag. cbn. specialize (Hp Hpag). lia.
  - apply turn_sim; try done. by intros _.
  - unfold onPageNumber. case_match; [|apply turn_sim; try done; by intros _].
    exists []. split; [done|]. by exists st.
  - by apply turn_sim.
  - destruct (search_sim st text Hso Hp) as [rows ?]. exists [TLoad rows]. eauto.
  - destruct (column_ok st index b Hso Hp Hev) as (st' & ? & ? & ? & ? & _). exists []. split; [done|]. by exists st'.
  - destruct (load_ok st total rows Hso Hp) as (st' & ? & ? & ? & _); [by destruct rows|].
    exists [TLoad (row_of (b_store st') <$> view st')]. split; [eauto|]. exists st'. split_ands; try done.
    intros t Ht. apply shows_load; [apply Ht|done].
  - destruct (remove_ok st fld values Hso Hp Hev) as (st' & ? & ? & ? & ? & _).
    exists [TRemove fld values]. split; [done|]. by exists st'.
  - exists []. split; [done|]. by apply refresh_sim.
Qed.

End widget.

(** ** Histories *)

(** Every event of the history is one that the page offers. *)
Fixpoint polite_run (cf : config) (s : string) (st : bt) (evs : list bt_event) : Prop :=
  match evs with
  | [] => True
  | ev :: evs' => polite s st ev /\ polite_run cf s (after (bt_step cf st ev)) evs'
  end.

(** A table of the console: one column of boxes, formatters that print fields of
    the row, and a state field with a name if the server pages it. *)
Record tame (cf : config) (s : string) (enabled : bool) (cols : list bcolumn) : Prop := Tame {
  tame_boxed : boxed s enabled cols;
  tame_steady : Forall (steady s) cols;
  tame_mode : cf_server cf = false \/ s <> ""
}.

(** What [getSelections] returns is what the page's table says is selected. *)
Lemma shows_selections cf s enabled st t :
  sound cf s enabled st -> shows s st t -> Forall2 (same_row s) (getSelections st) (selected_rows t).
Proof.
  intros [Hc _ _ _] [Hs Ht]. unfold getSelections, selected_rows, truthy_state.
  rewrite (stateField_boxed (core_cols _ _ _ Hc)), Hs. change (default "undefined" (Some s)) with s.
  induction Ht as [|r1 r2 l1 l2 Hr _ IH]; [constructor|]. cbn [List.filter].
  pose proof Hr as [_ Hr']. rewrite <- Hr'.
  destruct (truthy (field r1 s)); [|done]. by constructor.
Qed.

Lemma run_sim cf s enabled st t evs :
  cf_server cf = false \/ s <> "" ->
  sound cf s enabled st -> on_page (b_pager st) -> shows s st t -> polite_run cf s st evs ->
  exists st' css, bt_steps cf st evs = Ok st' /\ sound cf s enabled st' /\ Forall2 permits evs css /\
    shows s st' (fold_left tapply (concat css) t).
Proof.
  intros Hm. revert st t. induction evs as [|ev evs IH]; intros st t Hso Hp Ht Hev; [by exists st, []|].
  destruct Hev as [Hev Hevs]. destruct (step_sim cf s enabled Hm st ev Hso Hp Hev) as (cs & Hcs & st1 & Hst & Hso1 & Hp1 & Hsh).
  cbn [bt_steps]. rewrite Hst in Hevs |- *. cbn in Hevs |- *.
  destruct (IH st1 (fold_left tapply cs t)) as (st' & css & ? & ? & ? & Hsh'); auto.
  exists st', (cs :: css). split_ands; try done; [by constructor|]. cbn. by rewrite fold_left_app.
Qed.

Lemma init_sound cf s enabled cols paged size rows :
  tame cf s enabled cols -> loadable s cols rows -> 1 <= size ->
  exists st, bt_init cf cols paged size rows = Ok st /\ sound cf s enabled st /\ on_page (b_pager st) /\
    shows s st (Table s rows).
Proof.
  intros [Hb Hst _] [Hrows Hlen] Hsize. unfold bt_init. set (st0 := Bt _ _ _ _ _ _ _ _ _ _ _).
  assert (row_of rows <$> seq 0 (length rows) = rows) as Hid.
  { apply list_eq. intros i. rewrite list_lookup_fmap. destruct (rows !! i) as [r|] eqn:Hr.
    - rewrite lookup_seq_lt by by eapply lookup_lt_Some. cbn. unfold row_of. by rewrite Hr.
    - by rewrite lookup_seq_ge by by apply lookup_ge_None_1. }
  assert (core s enabled st0) as Hc.
  { split; try done; cbn; [apply NoDup_seq| |by rewrite length_seq].
    unfold rows_ok. rewrite Forall_forall. intros i Hi%list_elem_of_In%elem_of_seq.
    split; [lia|]. unfold row_of. destruct (lookup_lt_is_Some_2 rows i) as [r Hr]; [lia|]. rewrite Hr.
    by eapply (Forall_lookup_1 _ _ _ _ Hrows). }
  assert (b_data st0 = found cf st0) as Hd by (unfold found; by destruct (cf_server cf)).
  destruct (draw_page cf s enabled st0) as (st1 & Hok & Hso & Hsame & _ & Hk & Hd1 & Hp1 & _); [done..|].
  rewrite Hok. cbn [and_then]. destruct (refresh_sim cf s enabled st1 false Hso Hp1) as (st' & Hst' & Hso' & Hp' & Hsh).
  exists st'. split_ands; try done. apply Hsh. apply (shows_kept cf s enabled st0); try done.
  - by apply (same_view s).
  - split; [done|]. cbn. rewrite Hid. reflexivity.
Qed.


(** The table of privileges (user/userprivilege.js), ten rows to a page. *)
Definition privilege_cols : list bcolumn := of_column <$> privilege_columns.
Definition privilege_row (user : string) (cluster : Z) : val :=
  Obj [("user_name", Str user); ("cluster_id", int cluster); ("privilege", int 3)].
Definition client : config := Config false true false false.

Lemma privilege_tame : tame client "state" true privilege_cols.
Proof.
  split; [|by repeat constructor|by left]. split; [|done].
  eexists [], _, _. split; [reflexivity|]. split_ands; try done. repeat constructor; done.
Qed.

