(* ===== verification/TablePages.v ===== *)
(** * What the user sees of a table

    Theorems about bootstrap-table ([BootstrapTable.v]) for tables whose pages
    are cut by the widget or by the server: the selection is what is ticked on
    the screen, the pages show every row once, the page buttons lead to pages,
    the server is asked for the page on the button; and three defects of the
    tables of the console. *)

From S2P Require Import Prelude JsValue Browser Widgets Utils Urls Batch ClusterInfo LockNsp Users BootstrapTable TableRefinement.

(** ** Arithmetic of pages *)

(** The number of pages. *)
Definition page_count (len : nat) (size : Z) : Z :=
  if Z.of_nat len =? 0 then 0 else quotient (Z.of_nat len) size + 1.

Lemma page_count_bounds len size :
  1 <= size -> Z.of_nat len <= 2147483647 ->
  Z.of_nat len <= page_count len size * size /\ (page_count len size - 1) * size < Z.of_nat len \/
  len = 0%nat /\ page_count len size = 0.
Proof.
  intros Hs Hl. unfold page_count, quotient, to_int32. destruct (Z.eqb_spec (Z.of_nat len) 0); [right; lia|].
  left. destruct (Z.eqb_spec size 0); [lia|]. rewrite Z.quot_div_nonneg by lia.
  pose proof (Z.div_pos (Z.of_nat len - 1) size). pose proof (Z.div_le_upper_bound (Z.of_nat len - 1) size (Z.of_nat len)).
  rewrite Z.mod_small by nia. pose proof (Z.div_mod (Z.of_nat len - 1) size).
  pose proof (Z.mod_pos_bound (Z.of_nat len - 1) size). nia.
Qed.

Definition clamp (pages number : Z) : Z :=
  if (pages >? 0) && (number >? pages) then pages else number.

Lemma clamp_range pages n : 0 < pages -> 1 <= n -> 1 <= clamp pages n <= pages.
Proof. unfold clamp. destruct (Z.gtb_spec pages 0), (Z.gtb_spec n pages); cbn; lia. Qed.

Lemma clamp_id pages n : n <= pages -> clamp pages n = n.
Proof. intros Hn. unfold clamp. destruct (Z.gtb_spec n pages); [lia|]. by rewrite andb_false_r. Qed.

Section arith.
Context (cf : config) (Hclient : cf_server cf = false) (len : nat) (p : pager).

Lemma paginate_number :
  pageNumber (paginate cf len p) = clamp (page_count len (pageSize p)) (pageNumber p).
Proof. unfold paginate, page_count. rewrite Hclient. by destruct (button_range _ _). Qed.

Lemma paginate_totalPages : totalPages (paginate cf len p) = page_count len (pageSize p).
Proof. unfold paginate, page_count. rewrite Hclient. by destruct (button_range _ _). Qed.

Lemma paginate_from :
  pageFrom (paginate cf len p) - 1 = (pageNumber (paginate cf len p) - 1) * pageSize p.
Proof. unfold paginate. destruct (button_range _ _). cbn [pageFrom pageNumber]. lia. Qed.

Lemma paginate_to :
  pageTo (paginate cf len p) = Z.min (pageNumber (paginate cf len p) * pageSize p) (Z.of_nat len).
Proof.
  unfold paginate. rewrite Hclient. destruct (button_range _ _). cbn [pageTo pageNumber].
  match goal with |- (if ?a >? ?b then _ else _) = _ => destruct (Z.gtb_spec a b) end; lia.
Qed.

End arith.

(** ** The selection is what is ticked *)

(** The rows of the boxes that are ticked in the body. *)
Definition ticked_rows (st : bt) : list val :=
  omap (fun it => if it_checked it then row_of (b_store st) <$> view st !! it_index it else None) (b_items st).

(** The page in the body is the current page. *)
Definition settled (cf : config) (s : string) (enabled : bool) (st : bt) : Prop :=
  pagination (b_pager st) && negb (cf_server cf) = true ->
  b_pager st = paginate cf (length (view st)) (b_pager st) /\
  drawn_at s enabled (first_row (b_pager st)) (row_count (b_pager st)) st.

(** An event that the page offers, where answers have rows that are not ticked
    and a removal is of rows on the screen. *)
Definition careful (cf : config) (s : string) (enabled : bool) (st : bt) (ev : bt_event) : Prop :=
  polite s st ev /\
  match ev with
  | ELoad _ rows => exists l, rows = Some l /\ Forall (fun r => truthy (field r s) = false) l
  | EColumn _ _ => settled cf s enabled st
  | ERemove fld values =>
      settled cf s enabled st /\
      forall i r, view st !! i = Some r -> row_removed fld values (row_of (b_store st) r) = true ->
        i ∈ it_index <$> b_items st
  | _ => True
  end.

Fixpoint careful_run (cf : config) (s : string) (enabled : bool) (st : bt) (evs : list bt_event) : Prop :=
  match evs with
  | [] => True
  | ev :: evs' => careful cf s enabled st ev /\ careful_run cf s enabled (BootstrapTable.after (bt_step cf st ev)) evs'
  end.

Section seen.
Context (cf : config) (s : string) (enabled : bool).
Context (Hname : s <> "") (Hdrop : cf_maintainSelected cf = false).

(** Every ticked row is in the body. *)
Definition seen (st : bt) : Prop :=
  exists k n, drawn_at s enabled k n st /\
    forall i, ticks s st !! i = Some true -> (k <= i < k + n)%nat.

Lemma unticked_seen st : sound cf s enabled st -> Forall (fun b => b = false) (ticks s st) -> seen st.
Proof.
  intros [_ _ _ (k & n & Hdr)] Hall. exists k, n. split; [done|]. intros i Hi.
  by pose proof (Forall_lookup_1 _ _ _ _ Hall Hi).
Qed.

Lemma reticked_seen ps st st' :
  sound cf s enabled st -> reticked s ps st st' ->
  (forall k n, drawn_at s enabled k n st -> drawn_at s enabled k n st' /\
     forall i, i ∈ ps.*1 -> (k <= i < k + n)%nat) -> seen st -> seen st'.
Proof.
  intros [Hc Hd _ _] Hre Hps (k & n & Hdr & Hseen). destruct (Hps k n Hdr) as [Hdr' Hin].
  exists k, n. split; [done|]. intros i Hi.
  destruct (decide (i ∈ ps.*1)) as [Hi'|Hi']; [by apply Hin|]. apply Hseen.
  unfold ticks in Hi. rewrite (reticked_view _ _ _ _ Hre), (re_store _ _ _ _ Hre) in Hi.
  erewrite assign_states in Hi; [|by eapply view_NoDup|by eapply view_rows].
  by rewrite inserts_other in Hi.
Qed.

Lemma drawn_items_range k n st i :
  drawn_at s enabled k n st -> i ∈ it_index <$> b_items st <-> (k <= i < k + n)%nat.
Proof. intros Hdr. rewrite (drawn_index _ _ _ _ _ Hdr), elem_of_seq. done. Qed.

Lemma click_seen st j : sound cf s enabled st -> seen st -> seen (clickItem cf j st).
Proof.
  intros Hso Hsn. pose proof Hso as [Hc Hd _ _].
  destruct (b_items st !! j) as [it|] eqn:Hj; [destruct (it_enabled it) eqn:He|].
  2,3: unfold clickItem; by rewrite Hj, ?He.
  eapply reticked_seen; [done|by eapply click_reticked| |done].
  intros k n Hdr. split; [by eapply click_drawn|]. intros i Hi.
  apply (drawn_items_range _ _ _ _ Hdr). unfold click_ps in Hi. cbn in Hi.
  apply elem_of_cons in Hi as [->|Hi]; [apply list_elem_of_fmap_2; by eapply list_elem_of_lookup_2|].
  destruct (singleSelect (b_cols st)); [|by apply not_elem_of_nil in Hi].
  rewrite <- list_fmap_compose in Hi. apply list_elem_of_fmap in Hi as (o & -> & Ho). cbn.
  apply list_elem_of_fmap_2. apply elem_of_app in Ho as [Ho|Ho].
  - rewrite <- (take_drop j (b_items st)). apply elem_of_app. by left.
  - rewrite <- (take_drop (S j) (b_items st)). apply elem_of_app. by right.
Qed.

Lemma checkAll_seen st b : sound cf s enabled st -> seen st -> seen (checkAll_ b st).
Proof.
  intros Hso Hsn. pose proof Hso as [Hc Hd _ _].
  eapply reticked_seen; [done|by eapply checkAll_reticked| |done].
  intros k n Hdr. assert (drawn_at s enabled k n (checkAll_ b st)) as Hdr' by by eapply checkAll_drawn.
  split; [done|]. intros i Hi. apply (drawn_items_range _ _ _ _ Hdr').
  rewrite <- list_fmap_compose in Hi. exact Hi.
Qed.


Context (Hmode : cf_server cf = false \/ s <> "").

Lemma drawn_unique k n k' n' st :
  drawn_at s enabled k n st -> drawn_at s enabled k' n' st -> n = n' /\ (n = 0 \/ k = k')%nat.
Proof.
  intros [_ Hb _] [_ Hb' _]. rewrite Hb in Hb'. assert (n = n') as ->.
  { apply (f_equal length) in Hb'. by rewrite !length_seq in Hb'. }
  split; [done|]. destruct n' as [|n']; [by left|]. right. cbn in Hb'. congruence.
Qed.

Lemma unticked_or_same st st' :
  sound cf s enabled st' -> (st' = st \/ unticked cf s st') -> seen st -> seen st'.
Proof. intros Hso [->|Hu]; [done|]. intros _. by apply unticked_seen; auto. Qed.

Lemma repage_seen st f : seen st -> seen (with_page f st).
Proof. intros (k & n & Hdr & Hin). exists k, n. split; [destruct Hdr; by split|done]. Qed.

Lemma turn_seen st f disabled st' :
  sound cf s enabled st -> pagination (f (b_pager st)) = pagination (b_pager st) ->
  (disabled = true -> pageSize (f (b_pager st)) = pageSize (b_pager st)) ->
  1 <= pageSize (f (b_pager st)) -> on_page (f (b_pager st)) ->
  updatePagination cf disabled (with_page f st) = Ok st' -> seen st -> seen st'.
Proof.
  intros Hso Hpag Hdis Hs Hp Hok Hsn.
  destruct (turn_ok cf s enabled Hmode st f disabled) as (st1 & ps & Hok1 & ? & _ & _ & Hor); [done..|].
  rewrite Hok1 in Hok. injection Hok as <-.
  by eapply (unticked_or_same (with_page f st)); [..|apply repage_seen].
Qed.

(** Rows that were drawn and stay stay drawn. *)
Lemma fresh_seen p st' :
  fresh_page cf p (length (view st')) (b_pager st') ->
  drawn_at s enabled (first_row (b_pager st')) (row_count (b_pager st')) st' ->
  (pagination p && negb (cf_server cf) = true ->
   forall i, ticks s st' !! i = Some true ->
     (first_row (b_pager st') <= i < first_row (b_pager st') + row_count (b_pager st'))%nat) -> seen st'.
Proof.
  intros Hf Hdr Hin. eexists _, _. split; [exact Hdr|]. intros i Hi. unfold fresh_page in Hf.
  destruct (pagination p && negb (cf_server cf)); [by apply Hin|]. destruct Hf as [-> ->].
  apply lookup_lt_Some in Hi. unfold ticks, states in Hi. rewrite length_fmap in Hi. lia.
Qed.

Lemma column_seen st i b st' :
  sound cf s enabled st -> on_page (b_pager st) -> careful cf s enabled st (EColumn i b) ->
  toggleColumn cf i b st = Ok st' -> seen st -> seen st'.
Proof.
  intros Hso Hp [Hpol Hset] Hok (k & n & Hdr & Hin).
  destruct (column_ok cf s enabled st i b Hso Hp Hpol) as (st1 & Hok1 & _ & _ & _ & Hv & Ht & Hdr1 & Hf).
  rewrite Hok1 in Hok. injection Hok as <-. eapply fresh_seen; [done..|].
  intros Hpc j Hj. destruct (Hset Hpc) as [Hpg Hdr2]. unfold fresh_page in Hf. rewrite Hpc, Hv, <- Hpg in Hf.
  rewrite Hf. rewrite Ht in Hj. destruct (drawn_unique _ _ _ _ _ Hdr Hdr2) as [-> Hk].
  specialize (Hin j Hj). lia.
Qed.

Lemma filter_lookup {A : Type} (f : A -> bool) l i x :
  List.filter f l !! i = Some x -> exists j, (i <= j)%nat /\ l !! j = Some x.
Proof.
  revert i. induction l as [|y l IH]; intros i Hi; [done|]. cbn in Hi. destruct (f y).
  - destruct i as [|i]; [by exists 0%nat|]. destruct (IH i Hi) as (j & Hj & Hl). exists (S j). split; [lia|done].
  - destruct (IH i Hi) as (j & Hj & Hl). exists (S j). split; [lia|done].
Qed.

Lemma filter_prefix {A : Type} (f : A -> bool) l k :
  (forall i x, (i < k)%nat -> l !! i = Some x -> f x = true) ->
  List.filter f l = take k l ++ List.filter f (drop k l).
Proof.
  revert k. induction l as [|y l IH]; intros [|k] Hk; try done. cbn.
  rewrite (Hk 0%nat y) by (lia || done). f_equal. apply IH. intros i x Hi. apply (Hk (S i)). lia.
Qed.

(** The interval of the current page, after rows on it are removed. *)
Lemma page_after_removal p len len' i i' :
  cf_server cf = false -> 1 <= pageNumber p -> 1 <= pageSize p -> Z.of_nat len <= 2147483647 ->
  (len' <= len)%nat -> p = paginate cf len p ->
  (first_row p <= i < first_row p + row_count p)%nat -> (first_row p <= i' <= i)%nat -> (i' < len')%nat ->
  (first_row (paginate cf len' p) <= i' < first_row (paginate cf len' p) + row_count (paginate cf len' p))%nat.
Proof.
  intros Hcl HN Hs Hlen Hle Hp Hi Hi' Hlt.
  pose proof (paginate_from cf len p) as Hfrom. pose proof (paginate_to cf Hcl len p) as Hto.
  rewrite <- Hp in Hfrom, Hto.
  pose proof (paginate_from cf len' p) as Hfrom'. pose proof (paginate_to cf Hcl len' p) as Hto'.
  pose proof (paginate_number cf Hcl len' p) as Hnum.
  destruct (page_count_bounds len' (pageSize p)) as [[Hub Hlb]|[-> _]]; [done|lia| |lia].
  set (pages := page_count len' (pageSize p)) in *.
  unfold first_row, row_count in *.
  assert ((pageNumber p - 1) * pageSize p <= Z.of_nat i') by nia.
  unfold clamp in Hnum. destruct ((pages >? 0) && (pageNumber p >? pages)) eqn:E.
  - apply andb_prop in E as [_ E]. assert (pages * pageSize p <= (pageNumber p - 1) * pageSize p) by nia. lia.
  - rewrite Hnum in *. nia.
Qed.

Lemma remove_seen st fld values st' :
  sound cf s enabled st -> on_page (b_pager st) -> careful cf s enabled st (ERemove fld values) ->
  bt_remove cf fld values st = Ok st' -> seen st -> seen st'.
Proof.
  intros Hso Hp [Hpol [Hset Hon]] Hok (k & n & Hdr & Hin).
  destruct (remove_ok cf s enabled st fld values Hso Hp Hpol) as (st1 & Hok1 & _ & _ & _ & Hv & Hkept & Hor).
  rewrite Hok1 in Hok. injection Hok as <-. destruct Hor as [->|[Hdr1 Hf]]; [by exists k, n|].
  pose proof Hso as [Hc Hd Hs _]. eapply fresh_seen; [done..|]. intros Hpc i' Hi'.
  destruct (Hset Hpc) as [Hpg Hdr2]. unfold fresh_page in Hf. rewrite Hpc in Hf. rewrite Hf.
  apply andb_prop in Hpc as [Hpag Hcl]. rewrite negb_true_iff in Hcl.
  unfold ticks, states in Hi'. rewrite list_lookup_fmap in Hi'.
  destruct (view st1 !! i') as [x|] eqn:Hx; [|done]. cbn in Hi'. injection Hi' as Hi'.
  pose proof (lookup_lt_Some _ _ _ Hx) as Hlt'. rewrite Hv in Hx. unfold stay in Hx.
  destruct (filter_lookup _ _ _ _ Hx) as (i & Hii & Hxi).
  assert (forall j y, view st !! j = Some y -> truthy (field (row_of (b_store st1) y) s) = true -> (k <= j < k + n)%nat) as Hin'.
  { intros j y Hy Hty. apply Hin. unfold ticks, states. rewrite list_lookup_fmap, Hy. cbn. f_equal.
    destruct Hkept as [_ Hk]. destruct (Forall_lookup_1 _ _ _ _ (view_rows _ _ _ _ Hc Hd) Hy) as [_ Hrow].
    destruct (Hk y Hrow) as [_ [_ Ht]]. congruence. }
  pose proof (Hin' i x Hxi Hi') as Hik.
  destruct (drawn_unique _ _ _ _ _ Hdr Hdr2) as [Hn Hkk].
  assert (k = first_row (b_pager st)) as Hk0 by lia.
  apply (page_after_removal _ (length (view st)) _ i); try done; try lia; [by apply Hp| | |].
  - pose proof (view_length cf s enabled st Hc Hd). pose proof (core_small _ _ _ Hc). lia.
  - rewrite Hv. apply filter_length_le.
  - rewrite <- Hk0. split; [|done]. destruct (decide (k <= i')%nat) as [?|Hlt]; [done|].
    rewrite (filter_prefix _ (view st) k) in Hx.
    + rewrite lookup_app_l in Hx by (apply lookup_lt_Some in Hxi; rewrite length_take; lia).
      rewrite lookup_take_lt in Hx by lia. pose proof (Hin' i' x Hx Hi'). lia.
    + intros j y Hj Hy. destruct (row_removed fld values (row_of (b_store st) y)) eqn:Hr; [|done].
      apply (Hon j y Hy) in Hr. apply (drawn_items_range _ _ _ _ Hdr) in Hr. lia.
Qed.

Lemma step_seen st ev st' :
  sound cf s enabled st -> on_page (b_pager st) -> careful cf s enabled st ev ->
  bt_step cf st ev = Ok st' -> seen st -> seen st'.
Proof.
  intros Hso Hp Hev Hok Hsn. pose proof Hso as [_ _ Hs _]. pose proof Hev as [Hpol Hcar].
  destruct ev; cbn [bt_step polite] in *.
  - injection Hok as <-. by apply click_seen.
  - injection Hok as <-. by apply checkAll_seen.
  - by eapply turn_seen; [exact Hso| | | | |exact Hok|].
  - eapply turn_seen; [exact Hso| | | | |exact Hok|]; try done. intros _. cbn. lia.
  - eapply turn_seen; [exact Hso| | | | |exact Hok|]; try done. intros Hpag. specialize (Hp Hpag). cbn. lia.
  - eapply turn_seen; [exact Hso| | | | |exact Hok|]; try done. by intros _.
  - unfold onPageNumber in Hok. case_match; [by injection Hok as <-|].
    eapply turn_seen; [exact Hso| | | | |exact Hok|]; try done. by intros _.
  - by eapply turn_seen; [exact Hso| | | | |exact Hok|].
  - destruct (search_ok cf s enabled Hmode st text Hso Hp) as (st1 & Hok1 & ? & _ & Hor).
    rewrite Hok1 in Hok. injection Hok as <-. by eapply unticked_or_same.
  - by eapply column_seen.
  - destruct Hcar as (l & -> & Hl).
    destruct (load_ok cf s enabled st total (Some l) Hso Hp) as (st1 & Hok1 & ? & _ & Hall); [done|].
    rewrite Hok1 in Hok. injection Hok as <-. by apply unticked_seen; eauto.
  - by eapply remove_seen.
  - injection Hok as <-. unfold bt_refresh, initServer.
    destruct (cf_url cf), url; destruct Hsn as (k & n & Hdr & Hin); exists k, n;
      (split; [destruct Hdr; by split|done]).
Qed.

Lemma boxes_selected h V pre mid post :
  V = pre ++ mid ++ post ->
  omap (fun it => if it_checked it then row_of h <$> V !! it_index it else None)
    (boxes (enabled := enabled) (length pre) (states (s := s) h mid)) =
  List.filter (fun r => truthy (field r s)) (row_of h <$> mid).
Proof.
  revert pre. induction mid as [|x mid IH]; intros pre HV; [done|].
  assert (V !! length pre = Some x) as Hx by by rewrite HV, lookup_app_r, Nat.sub_diag.
  specialize (IH (pre ++ [x])). rewrite <- app_assoc in IH. specialize (IH HV).
  rewrite length_app, Nat.add_1_r in IH. unfold boxes in *. cbn in IH |- *. rewrite Hx.
  cbn. destruct (truthy (field (row_of h x) s)); cbn; by rewrite <- IH.
Qed.

Lemma unticked_none h ids :
  (forall i, states (s := s) h ids !! i <> Some true) ->
  List.filter (fun r => truthy (field r s)) (row_of h <$> ids) = [].
Proof.
  induction ids as [|x ids IH]; intros Hno; [done|]. cbn.
  destruct (truthy (field (row_of h x) s)) eqn:Ht.
  - destruct (Hno 0%nat). cbn. by rewrite Ht.
  - apply IH. intros i. apply (Hno (S i)).
Qed.

(** Where every ticked row is drawn, the selection is read off the boxes. *)
Lemma seen_selections st : sound cf s enabled st -> seen st -> getSelections st = ticked_rows st.
Proof.
  intros [Hc Hd _ _] (k & n & Hdr & Hin).
  unfold ticked_rows. rewrite (drawn_boxes _ _ _ _ _ Hdr). unfold ticks, states in *.
  rewrite <- fmap_drop, <- fmap_take. pose proof (drawn_interval _ _ _ _ _ Hdr) as Hint.
  set (V := view st) in *. set (mid := take n (drop k V)).
  assert (V = take k V ++ mid ++ drop (k + n) V) as HV.
  { subst mid. by rewrite <- drop_drop, !take_drop. }
  unfold getSelections, truthy_state. rewrite (stateField_boxed (core_cols _ _ _ Hc)).
  change (default "undefined" (Some s)) with s. fold V. rewrite HV at 1.
  rewrite !fmap_app, !List.filter_app.
  rewrite (unticked_none _ (take k V)), (unticked_none _ (drop (k + n) V)), app_nil_r; cbn [app].
  - destruct Hint as [Hn|Hle]; [subst mid; by rewrite Hn|].
    rewrite <- (boxes_selected (b_store st) V (take k V) mid (drop (k + n) V) HV).
    by rewrite length_take, Nat.min_l by lia.
  - intros i Hi. unfold states in Hi. rewrite fmap_drop, lookup_drop in Hi. specialize (Hin _ Hi). lia.
  - intros i Hi. unfold states in Hi. rewrite fmap_take in Hi.
    apply lookup_take_Some in Hi as [Hi Hik]. specialize (Hin _ Hi). lia.
Qed.

Lemma run_seen st evs :
  sound cf s enabled st -> on_page (b_pager st) -> seen st -> careful_run cf s enabled st evs ->
  exists st', bt_steps cf st evs = Ok st' /\ sound cf s enabled st' /\ seen st'.
Proof.
  revert st. induction evs as [|ev evs IH]; intros st Hso Hp Hsn Hev; [by exists st|].
  destruct Hev as [Hev Hevs]. pose proof Hev as [Hpol _].
  destruct (step_sim cf s enabled Hmode st ev Hso Hp Hpol) as (cs & _ & st1 & Hst & Hso1 & Hp1 & _).
  cbn [bt_steps]. rewrite Hst in Hevs |- *. cbn in Hevs |- *.
  apply IH; [done..| |done]. by apply (step_seen st ev).
Qed.

End seen.


Lemma privilege_loadable users :
  Z.of_nat (length users) <= 2147483647 ->
  loadable "state" privilege_cols ((fun u => privilege_row u 1) <$> users).
Proof.
  intros Hl. split; [|by rewrite length_fmap]. apply Forall_fmap, Forall_true. intros u.
  apply row_ok_plain; [done|by repeat constructor|by left].
Qed.


(** ** Every row has its page *)

(** The pager of page [number] of [len] rows. *)
Definition pager_at (pag : bool) (opt : Z) (len : nat) (size number : Z) : pager :=
  let total := Z.of_nat len in
  let pages := page_count len size in
  let '(d, e) := button_range pages number in
  Pager pag number size total pages (if total =? 0 then opt else pages) ((number - 1) * size + 1)
    (if number * size >? total then total else number * size)
    (number <=? 1) (number >=? pages) (zrange d (Z.to_nat (e - d + 1))).

Lemma paginate_at cf len p :
  cf_server cf = false ->
  paginate cf len p =
    pager_at (pagination p) (optTotalPages p) len (pageSize p) (clamp (page_count len (pageSize p)) (pageNumber p)).
Proof. intros Hc. unfold paginate, pager_at. by rewrite Hc. Qed.

Lemma pager_at_fields pag opt len size number :
  let p := pager_at pag opt len size number in
  pagination p = pag /\ pageNumber p = number /\ pageSize p = size /\ totalPages p = page_count len size /\
  optTotalPages p = (if Z.of_nat len =? 0 then opt else page_count len size) /\
  preDisabled p = (number <=? 1) /\ nextDisabled p = (number >=? page_count len size) /\
  buttons p = (let '(d, e) := button_range (page_count len size) number in zrange d (Z.to_nat (e - d + 1))).
Proof. unfold pager_at. by destruct (button_range _ _). Qed.

Lemma paginate_idem cf len p :
  cf_server cf = false -> paginate cf len (paginate cf len p) = paginate cf len p.
Proof.
  intros Hc. rewrite (paginate_at cf len p) by done. set (number := clamp _ _).
  destruct (pager_at_fields (pagination p) (optTotalPages p) len (pageSize p) number)
    as (Hp & Hn & Hs & _ & Ho & _).
  rewrite paginate_at, Hp, Hn, Hs, Ho by done.
  replace (clamp (page_count len (pageSize p)) number) with number.
  - unfold pager_at. by destruct (Z.of_nat len =? 0).
  - subst number. unfold clamp. destruct (_ >? 0); cbn; [|done]. repeat case_match; lia.
Qed.

Section pages.
Context (cf : config) (s : string) (enabled : bool).
Context (Hclient : cf_server cf = false).

(** Page [n] of a table that shows its pages itself. *)
Record at_page (n : Z) (st : bt) : Prop := AtPage {
  at_sound : sound cf s enabled st;
  at_paged : pagination (b_pager st) = true;
  at_number : pageNumber (b_pager st) = n;
  at_range : 1 <= n <= page_count (length (view st)) (pageSize (b_pager st));
  at_pager : b_pager st = paginate cf (length (view st)) (b_pager st);
  at_drawn : drawn_at s enabled (first_row (b_pager st)) (row_count (b_pager st)) st
}.

Lemma at_page_size n st : at_page n st -> 1 <= pageSize (b_pager st) /\ Z.of_nat (length (view st)) <= 2147483647.
Proof.
  intros [[Hc Hd Hs _] _ _ _ _ _]. pose proof (view_length cf s enabled st Hc Hd).
  pose proof (core_small _ _ _ Hc). lia.
Qed.

(** A page change that is not disabled shows the page. *)
Lemma goto_page n m st :
  at_page n st -> 1 <= m <= page_count (length (view st)) (pageSize (b_pager st)) ->
  exists st', updatePagination cf false (with_page (set_pageNumber m) st) = Ok st' /\ at_page m st' /\
    view st' = view st /\ pageSize (b_pager st') = pageSize (b_pager st).
Proof.
  intros Hat Hm. pose proof (at_page_size _ _ Hat) as [Hs1 Hl]. destruct Hat as [Hso Hpag Hn Hr Hpg Hdr].
  pose proof Hso as [Hc Hd Hs _]. set (st1 := with_page _ st).
  assert (same_data s st st1) as Hsame by by split.
  destruct (updatePagination_ok cf s enabled (or_introl Hclient) st1)
    as (st' & ps & Hok & Hso' & Hp' & Hsame' & Hd' & _ & _ & Hfr);
    [by eapply same_data_core| |done|intros _; cbn; lia|congruence|].
  { change (b_data st1) with (b_data st). rewrite Hd. symmetry. by eapply same_data_found. }
  destruct (Hfr Hclient) as [Hdr' Hf].
  assert (view st' = view st1) as Hv by by eapply same_view.
  unfold fresh_page in Hf. change (pagination (b_pager st1)) with (pagination (b_pager st)) in Hf.
  rewrite Hpag, Hclient in Hf. cbn in Hf. change (view st1) with (view st) in *.
  assert (pageSize (b_pager st') = pageSize (b_pager st)) as Hsz by (rewrite Hf; by rewrite paginate_size).
  exists st'. split_ands; try done. split; try done.
  - rewrite Hf. by rewrite paginate_pagination.
  - rewrite Hf, paginate_number by done. apply clamp_id, Hm.
  - by rewrite Hv, Hsz.
  - rewrite Hv. rewrite Hf at 1. by rewrite <- (paginate_idem cf) at 1; [rewrite <- Hf|].
Qed.

(** The identities of the rows in the body. *)
Definition shown (st : bt) : list nat := omap (fun d => view st !! dr_index d) (b_body st).

Lemma drawn_shown k n st : drawn_at s enabled k n st -> shown st = take n (drop k (view st)).
Proof.
  intros [Hint Hb _]. unfold shown.
  assert (forall l, omap (fun d => view st !! dr_index d) l = omap (fun i => view st !! i) (dr_index <$> l)) as ->.
  { induction l as [|d l IH]; [done|]. cbn. by rewrite IH. }
  rewrite Hb. clear Hb. revert k Hint. induction n as [|n IH]; intros k Hint; [done|].
  destruct (lookup_lt_is_Some_2 (view st) k) as [x Hx]; [lia|].
  rewrite (drop_S _ _ _ Hx). cbn. rewrite Hx. f_equal. apply IH. lia.
Qed.

Lemma at_page_shown n st :
  at_page n st ->
  let size := Z.to_nat (pageSize (b_pager st)) in
  shown st = take size (drop (Z.to_nat (n - 1) * size) (view st)).
Proof.
  intros Hat size. pose proof (at_page_size _ _ Hat) as [Hs Hl]. destruct Hat as [_ _ Hn Hr Hpg Hdr].
  rewrite (drawn_shown _ _ _ Hdr).
  pose proof (paginate_from cf (length (view st)) (b_pager st)) as Hfrom.
  pose proof (paginate_to cf Hclient (length (view st)) (b_pager st)) as Hto.
  rewrite <- Hpg in Hfrom, Hto. rewrite Hn in Hfrom, Hto.
  assert (first_row (b_pager st) = Z.to_nat (n - 1) * size)%nat as ->.
  { unfold first_row, size. rewrite Hfrom, Z2Nat.inj_mul by lia. done. }
  assert (Z.of_nat (Z.to_nat (n - 1) * size) = (n - 1) * pageSize (b_pager st)) as Hk.
  { unfold size. rewrite Nat2Z.inj_mul, !Z2Nat.id by lia. done. }
  unfold row_count. rewrite Hfrom, Hto, <- Hk.
  destruct (decide (n * pageSize (b_pager st) <= Z.of_nat (length (view st)))).
  - f_equal. rewrite Z.min_l, Hk by done. unfold size. f_equal. lia.
  - rewrite Z.min_r by lia. rewrite (take_ge _ size); [|rewrite length_drop; unfold size in *; nia].
    apply take_ge. rewrite length_drop. lia.
Qed.

(** Choosing a page size shows a page, if there are rows. *)
Lemma resized st m :
  sound cf s enabled st -> on_page (b_pager st) -> pagination (b_pager st) = true -> 1 <= m ->
  exists st', onPageListChange cf m st = Ok st' /\ view st' = view st /\
    totalPages (b_pager st') = page_count (length (view st')) (pageSize (b_pager st')) /\
    (view st' = [] \/ exists n, at_page n st').
Proof.
  intros Hso Hp Hpag Hm. pose proof Hso as [Hc Hd Hs _]. unfold onPageListChange. set (st1 := with_page _ st).
  assert (same_data s st st1) as Hsame by by split.
  destruct (updatePagination_ok cf s enabled (or_introl Hclient) st1)
    as (st' & ps & Hok & Hso' & Hp' & Hsame' & Hd' & _ & _ & Hfr);
    [by eapply same_data_core| |done|done|congruence|].
  { change (b_data st1) with (b_data st). rewrite Hd. symmetry. by eapply same_data_found. }
  destruct (Hfr Hclient) as [Hdr' Hf].
  assert (view st' = view st) as Hv by by eapply same_view in Hd'.
  unfold fresh_page in Hf. change (pagination (b_pager st1)) with (pagination (b_pager st)) in Hf.
  rewrite Hpag, Hclient in Hf. cbn in Hf. change (view st1) with (view st) in *.
  assert (pageSize (b_pager st') = m) as Hsz by (rewrite Hf; by rewrite paginate_size).
  exists st'. split_ands; try done.
  { rewrite Hv, Hsz, Hf. by rewrite paginate_totalPages. }
  destruct (view st') as [|x l] eqn:El; [by left|]. rewrite <- El in *. right. exists (pageNumber (b_pager st')).
  split; try done.
  - rewrite Hf. by rewrite paginate_pagination.
  - rewrite Hv, Hsz. pose proof (view_length cf s enabled st Hc Hd). pose proof (core_small _ _ _ Hc).
    destruct (page_count_bounds (length (view st)) m Hm) as [[Hub Hlb]|[Hz _]]; [lia| |].
    + assert (0 < Z.of_nat (length (view st))) by (rewrite <- Hv, El; cbn; lia).
      rewrite Hf, paginate_number by done. apply clamp_range; [|by apply Hp]. cbn [pageSize set_pageSize]. nia.
    + rewrite <- Hv, El in Hz. discriminate.
  - rewrite Hv. rewrite Hf at 1. by rewrite <- (paginate_idem cf) at 1; [rewrite <- Hf|].
Qed.

(** Showing all the pages in turn shows every row once. *)
Lemma pages_concat n st :
  at_page n st ->
  concat ((fun m => shown (BootstrapTable.after (onPageNumber cf m st)))
    <$> zrange 1 (Z.to_nat (page_count (length (view st)) (pageSize (b_pager st))))) = view st.
Proof.
  intros Hat. pose proof (at_page_size _ _ Hat) as [Hs Hl].
  set (pages := page_count (length (view st)) (pageSize (b_pager st))).
  set (size := Z.to_nat (pageSize (b_pager st))).
  assert (forall m, 1 <= m <= pages -> shown (BootstrapTable.after (onPageNumber cf m st)) =
    take size (drop (Z.to_nat (m - 1) * size) (view st))) as Hpage.
  { intros m Hm. unfold onPageNumber. destruct (Z.eqb_spec (pageNumber (b_pager st)) m) as [Heq|Hne].
    - cbn. rewrite (at_page_shown _ _ Hat). by rewrite <- Heq, (at_number _ _ Hat).
    - destruct (goto_page n m st Hat Hm) as (st' & -> & Hat' & Hv & Hsz). cbn.
      rewrite (at_page_shown _ _ Hat'). by rewrite Hv, Hsz. }
  unfold zrange. rewrite <- list_fmap_compose.
  rewrite (list_fmap_ext _ (fun i => take size (drop (i * size) (view st)))).
  - rewrite chunks. apply take_ge. unfold size.
    destruct (page_count_bounds (length (view st)) (pageSize (b_pager st))) as [[Hub _]|[-> _]]; [done..| |lia].
    fold pages in Hub. nia.
  - intros j i Hi%lookup_seq. cbn. rewrite Hpage by lia. repeat f_equal. lia.
Qed.

Lemma at_buttons n st :
  at_page n st ->
  preDisabled (b_pager st) = (n <=? 1) /\
  nextDisabled (b_pager st) = (n >=? page_count (length (view st)) (pageSize (b_pager st))).
Proof.
  intros [_ _ Hn Hr Hpg _].
  destruct (pager_at_fields (pagination (b_pager st)) (optTotalPages (b_pager st)) (length (view st))
    (pageSize (b_pager st)) n) as (_ & _ & _ & _ & _ & Hpre & Hnext & _).
  rewrite paginate_at, Hn, clamp_id in Hpg by (done || lia).
  split; [rewrite <- Hpre|rewrite <- Hnext]; by f_equal.
Qed.

(** The buttons for the next and the previous page reach every page. *)
Lemma next_page n st :
  at_page n st -> n < page_count (length (view st)) (pageSize (b_pager st)) ->
  exists st', bt_step cf st ENext = Ok st' /\ at_page (n + 1) st' /\ view st' = view st /\
    pageSize (b_pager st') = pageSize (b_pager st).
Proof.
  intros Hat Hlt. pose proof (at_range _ _ Hat). destruct (at_buttons _ _ Hat) as [_ Hb].
  cbn [bt_step]. unfold onPageNext. rewrite Hb, (at_number _ _ Hat), Z.geb_leb, (proj2 (Z.leb_gt _ _)) by lia.
  apply (goto_page n); [done|lia].
Qed.

Lemma previous_page n st :
  at_page n st -> 1 < n ->
  exists st', bt_step cf st EPre = Ok st' /\ at_page (n - 1) st' /\ view st' = view st /\
    pageSize (b_pager st') = pageSize (b_pager st).
Proof.
  intros Hat Hlt. pose proof (at_range _ _ Hat). destruct (at_buttons _ _ Hat) as [Hb _].
  cbn [bt_step]. unfold onPagePre. rewrite Hb, (at_number _ _ Hat), (proj2 (Z.leb_gt _ _)) by lia.
  apply (goto_page n); [done|lia].
Qed.

Lemma walk d ev n st m :
  at_page n st -> 1 <= m <= page_count (length (view st)) (pageSize (b_pager st)) ->
  (m - n = Z.of_nat d /\ ev = ENext \/ n - m = Z.of_nat d /\ ev = EPre) ->
  exists st', bt_steps cf st (replicate d ev) = Ok st' /\ at_page m st' /\ view st' = view st /\
    pageSize (b_pager st') = pageSize (b_pager st).
Proof.
  revert n st. induction d as [|d IH]; intros n st Hat Hm Hd.
  { assert (m = n) as -> by lia. by exists st. }
  assert (exists st1 n1, bt_step cf st ev = Ok st1 /\ at_page n1 st1 /\ view st1 = view st /\
    pageSize (b_pager st1) = pageSize (b_pager st) /\
    (m - n1 = Z.of_nat d /\ ev = ENext \/ n1 - m = Z.of_nat d /\ ev = EPre))
    as (st1 & n1 & Hst & Hat1 & Hv1 & Hs1 & Hd1).
  { destruct Hd as [[Hd ->]|[Hd ->]].
    - destruct (next_page n st Hat) as (st1 & ? & ? & ? & ?); [lia|]. exists st1, (n + 1). split_ands; try done. left. split; [lia|done].
    - destruct (previous_page n st Hat) as (st1 & ? & ? & ? & ?); [lia|]. exists st1, (n - 1). split_ands; try done. right. split; [lia|done]. }
  cbn [replicate bt_steps]. rewrite Hst. cbn.
  destruct (IH n1 st1) as (st' & ? & ? & ? & ?); [done|by rewrite Hv1, Hs1|done|].
  exists st'. split_ands; try done; congruence.
Qed.

(** The page of row [i]. *)
Lemma page_with n i st :
  at_page n st -> (i < length (view st))%nat ->
  exists p, 1 <= p <= page_count (length (view st)) (pageSize (b_pager st)) /\
    forall st', at_page p st' -> view st' = view st -> pageSize (b_pager st') = pageSize (b_pager st) ->
      i ∈ dr_index <$> b_body st'.
Proof.
  intros Hat Hi. pose proof (at_page_size _ _ Hat) as [Hs Hl]. set (size := pageSize (b_pager st)) in *.
  exists (Z.of_nat i / size + 1).
  pose proof (Z.div_mod (Z.of_nat i) size). pose proof (Z.mod_pos_bound (Z.of_nat i) size).
  pose proof (Z.div_pos (Z.of_nat i) size). split.
  - destruct (page_count_bounds (length (view st)) size Hs Hl) as [[Hub _]|[Hz _]]; [nia|lia].
  - intros st' Hat' Hv Hsz. rewrite (drawn_body _ _ _ _ _ (at_drawn _ _ Hat')). apply elem_of_seq.
    pose proof (paginate_from cf (length (view st')) (b_pager st')) as Hfrom.
    pose proof (paginate_to cf Hclient (length (view st')) (b_pager st')) as Hto.
    rewrite <- (at_pager _ _ Hat') in Hfrom, Hto. rewrite (at_number _ _ Hat'), Hsz in Hfrom, Hto. fold size in Hfrom, Hto.
    rewrite Hv in Hto. unfold first_row, row_count. rewrite Hfrom, Hto.
    replace (Z.of_nat i / size + 1 - 1) with (Z.of_nat i / size) by lia.
    assert (Z.of_nat i / size * size <= Z.of_nat i < (Z.of_nat i / size + 1) * size) by nia. lia.
Qed.

End pages.

(** ** Along a history *)

Lemma initPagination_pagination cf st :
  pagination (b_pager (initPagination cf st)) = pagination (b_pager st).
Proof. unfold initPagination. case_match; [|done]. cbn. by rewrite paginate_pagination. Qed.

Lemma initSearch_pager cf st : b_pager (initSearch cf st) = b_pager st.
Proof. unfold initSearch. by destruct (cf_server cf). Qed.

Lemma initBody_pagination cf st st' :
  initBody cf st = Ok st' -> pagination (b_pager st') = pagination (b_pager st).
Proof.
  unfold initBody. destruct (draw_rows _ _ _ _ _) as [h [[rows its]|]]; [|done].
  intros [= <-]. cbn. by case_match.
Qed.

Lemma updatePagination_pagination cf b st st' :
  updatePagination cf b st = Ok st' -> pagination (b_pager st') = pagination (b_pager st).
Proof.
  unfold updatePagination. destruct b; [by intros [= <-]|].
  assert (pagination (b_pager (if cf_maintainSelected cf then st else resetRows st)) = pagination (b_pager st)) as Hr.
  { case_match; [done|]. unfold resetRows. by destruct (view st). }
  destruct (cf_server cf).
  - intros [= <-]. unfold initServer. destruct (cf_url cf); cbn; by rewrite initPagination_pagination.
  - intros ->%initBody_pagination. by rewrite initPagination_pagination.
Qed.

Lemma redraw_pagination cf st st' :
  redraw cf st = Ok st' -> pagination (b_pager st') = pagination (b_pager st).
Proof. intros ->%initBody_pagination. by rewrite initPagination_pagination, initSearch_pager. Qed.

Lemma step_pagination cf st ev st' :
  bt_step cf st ev = Ok st' -> pagination (b_pager st') = pagination (b_pager st).
Proof.
  destruct ev; cbn [bt_step]; try (by intros ->%updatePagination_pagination).
  - intros [= <-]. unfold clickItem. repeat case_match; done.
  - by intros [= <-].
  - unfold onPageNumber. case_match; [by intros [= <-]|by intros ->%updatePagination_pagination].
  - unfold onPageListChange. intros H%updatePagination_pagination. exact H.
  - unfold onSearch. set (same := match b_searchText st with Some _ => _ | None => _ end).
    destruct same; [by intros [= <-]|]. intros ->%updatePagination_pagination. by rewrite initSearch_pager.
  - by intros ->%redraw_pagination.
  - unfold load. intros ->%redraw_pagination. destruct rows; cbn; by case_match.
  - unfold bt_remove. case_match; [by intros [= <-]|by intros ->%redraw_pagination].
  - intros [= <-]. unfold bt_refresh, initServer. by destruct (cf_url cf), url.
Qed.

Lemma steps_paged cf s enabled st evs :
  cf_server cf = false -> sound cf s enabled st -> on_page (b_pager st) -> polite_run cf s st evs ->
  exists st', bt_steps cf st evs = Ok st' /\ sound cf s enabled st' /\ on_page (b_pager st') /\
    pagination (b_pager st') = pagination (b_pager st).
Proof.
  intros Hc. revert st. induction evs as [|ev evs IH]; intros st Hso Hp Hev; [by exists st|].
  destruct Hev as [Hev Hevs].
  destruct (step_sim cf s enabled (or_introl Hc) st ev Hso Hp Hev) as (cs & _ & st1 & Hst & Hso1 & Hp1 & _).
  cbn [bt_steps]. rewrite Hst in Hevs |- *. cbn in Hevs |- *.
  destruct (IH st1 Hso1 Hp1 Hevs) as (st' & ? & ? & ? & Hpg). exists st'. split_ands; try done.
  by rewrite Hpg, (step_pagination _ _ _ _ Hst).
Qed.

(** A table that cuts its pages itself, after the history [evs] and the choice of
    [m] rows to a page. *)
Definition paged_after (cf : config) (cols : list bcolumn) (size : Z) (rows : list val)
    (evs : list bt_event) (m : Z) : result :=
  and_then (bt_init cf cols true size rows) (fun st0 =>
  and_then (bt_steps cf st0 evs) (onPageListChange cf m)).

(** The events of [evs] are offered by the page. *)
Definition offered (cf : config) (s : string) (cols : list bcolumn) (size : Z) (rows : list val)
    (evs : list bt_event) : Prop :=
  polite_run cf s (BootstrapTable.after (bt_init cf cols true size rows)) evs.

Lemma paged_after_ok cf s enabled cols size rows evs m :
  tame cf s enabled cols -> cf_server cf = false -> loadable s cols rows -> 1 <= size -> 1 <= m ->
  offered cf s cols size rows evs ->
  exists st, paged_after cf cols size rows evs m = Ok st /\
    totalPages (b_pager st) = page_count (length (view st)) (pageSize (b_pager st)) /\
    (view st = [] \/ exists n, at_page cf s enabled n st).
Proof.
  intros Ht Hc Hrows Hsize Hm Hev. unfold paged_after, offered in *.
  destruct (init_sound cf s enabled cols true size rows Ht Hrows Hsize) as (st0 & Hok & Hso & Hp & _).
  assert (pagination (b_pager st0) = true) as Hpag.
  { unfold bt_init in Hok. set (st1 := Bt _ _ _ _ _ _ _ _ _ _ _) in Hok.
    destruct (initBody cf (initPagination cf st1)) as [st2|] eqn:Hb; [|done]. cbn in Hok. injection Hok as <-.
    apply initBody_pagination in Hb. rewrite initPagination_pagination in Hb.
    unfold initServer. by case_match. }
  rewrite Hok in Hev |- *. cbn in Hev |- *.
  destruct (steps_paged cf s enabled st0 evs Hc Hso Hp Hev) as (st1 & -> & Hso1 & Hp1 & Hpg1). cbn.
  destruct (resized cf s enabled Hc st1 m) as (st' & ? & _ & ? & ?); try done; [congruence|].
  by exists st'.
Qed.

(** C19: the pages of a table show every row exactly once.  Whatever the user
    searched, ticked, removed or loaded before, after the choice of a page size
    the rows in the body of page 1, of page 2 and so on up to the last page are,
    one after the other, exactly the rows that match the search, in order. *)
Theorem pages_partition (cf : config) (s : string) (enabled : bool) (cols : list bcolumn)
    (size : Z) (rows : list val) (evs : list bt_event) (m : Z) :
  tame cf s enabled cols -> cf_server cf = false -> loadable s cols rows -> 1 <= size -> 1 <= m ->
  offered cf s cols size rows evs ->
  exists st, paged_after cf cols size rows evs m = Ok st /\
    concat ((fun n => shown (BootstrapTable.after (onPageNumber cf n st)))
      <$> zrange 1 (Z.to_nat (totalPages (b_pager st)))) = view st.
Proof.
  intros Ht Hc Hrows Hsize Hm Hev.
  destruct (paged_after_ok cf s enabled cols size rows evs m) as (st & Hok & Hpages & Hor); [done..|].
  exists st. split; [done|]. rewrite Hpages. destruct Hor as [Hv|[n Hat]].
  - rewrite Hv. done.
  - by eapply pages_concat.
Qed.

Lemma pages_partition_witness :
  exists st, paged_after client privilege_cols 10 ((fun u => privilege_row u 1) <$> ["ann"; "bob"; "bert"])
      [ESearch "b"] 1 = Ok st /\
    concat ((fun n => shown (BootstrapTable.after (onPageNumber client n st)))
      <$> zrange 1 (Z.to_nat (totalPages (b_pager st)))) = view st.
Proof.
  apply (pages_partition client "state" true); [exact privilege_tame|reflexivity| |lia|lia|].
  - apply privilege_loadable. cbn. lia.
  - split; exact I.
Defined.

(** C26: no row is out of reach.  In the same state, for every row that matches the
    search, clicks on "next" alone or on "previous" alone, fewer than there are
    pages, bring it into the body, and they do not change which rows match. *)
Theorem rows_reachable (cf : config) (s : string) (enabled : bool) (cols : list bcolumn)
    (size : Z) (rows : list val) (evs : list bt_event) (m : Z) :
  tame cf s enabled cols -> cf_server cf = false -> loadable s cols rows -> 1 <= size -> 1 <= m ->
  offered cf s cols size rows evs ->
  exists st, paged_after cf cols size rows evs m = Ok st /\
    forall i, (i < length (view st))%nat ->
    exists ev d st', (ev = ENext \/ ev = EPre) /\ Z.of_nat d < totalPages (b_pager st) /\
      bt_steps cf st (replicate d ev) = Ok st' /\ view st' = view st /\ i ∈ dr_index <$> b_body st'.
Proof.
  intros Ht Hc Hrows Hsize Hm Hev.
  destruct (paged_after_ok cf s enabled cols size rows evs m) as (st & Hok & Hpages & Hor); [done..|].
  exists st. split; [done|]. intros i Hi. rewrite Hpages. destruct Hor as [Hv|[n Hat]].
  { rewrite Hv in Hi. cbn in Hi. lia. }
  destruct (page_with cf s enabled Hc n i st Hat Hi) as (p & Hp & Hrow).
  pose proof (at_range _ _ _ _ _ Hat) as Hr.
  destruct (decide (n <= p)).
  - destruct (walk cf s enabled Hc (Z.to_nat (p - n)) ENext n st p) as (st' & ? & ? & ? & ?); [done|done|left; split; [lia|done]|].
    exists ENext, (Z.to_nat (p - n)), st'. split_ands; [by left|lia|done|done|]. by apply Hrow.
  - destruct (walk cf s enabled Hc (Z.to_nat (n - p)) EPre n st p) as (st' & ? & ? & ? & ?); [done|done|right; split; [lia|done]|].
    exists EPre, (Z.to_nat (n - p)), st'. split_ands; [by right|lia|done|done|]. by apply Hrow.
Qed.

Lemma rows_reachable_witness :
  exists st, paged_after client privilege_cols 10 ((fun u => privilege_row u 1) <$> ["ann"; "bob"; "bert"])
      [ESearch "b"] 1 = Ok st /\
    forall i, (i < length (view st))%nat ->
    exists ev d st', (ev = ENext \/ ev = EPre) /\ Z.of_nat d < totalPages (b_pager st) /\
      bt_steps client st (replicate d ev) = Ok st' /\ view st' = view st /\ i ∈ dr_index <$> b_body st'.
Proof.
  apply (rows_reachable client "state" true); [exact privilege_tame|reflexivity| |lia|lia|].
  - apply privilege_loadable. cbn. lia.
  - split; exact I.
Defined.

(** ** Requests of tables paged by the server *)

Lemma resetRows_pager st : b_pager (resetRows st) = b_pager st /\ b_sent (resetRows st) = b_sent st.
Proof. unfold resetRows. by destruct (view st). Qed.

(** The pages of [total] rows on the server. *)
Definition server_pages (total size : Z) : Z := if total =? 0 then 0 else quotient total size + 1.

Lemma turn_sends cf n st :
  cf_server cf = true -> cf_url cf = true -> pagination (b_pager st) = true ->
  exists st' q, updatePagination cf false (with_page (set_pageNumber n) st) = Ok st' /\
    b_sent st' = b_sent st ++ [q] /\ q_limit q = int (pageSize (b_pager st)) /\
    q_offset q = int (pageSize (b_pager st) *
      (clamp (server_pages (totalRows (b_pager st)) (pageSize (b_pager st))) n - 1)).
Proof.
  intros Hs Hu Hp. unfold updatePagination. rewrite Hs.
  set (st1 := if cf_maintainSelected cf then _ else _).
  assert (b_pager st1 = set_pageNumber n (b_pager st) /\ b_sent st1 = b_sent st) as [Hp1 Hs1].
  { subst st1. case_match; [done|exact (resetRows_pager (with_page (set_pageNumber n) st))]. }
  unfold initPagination, initServer. rewrite Hp1.
  change (pagination (set_pageNumber n (b_pager st))) with (pagination (b_pager st)). rewrite Hp, Hu.
  set (p' := paginate _ _ _).
  assert (pageNumber p' = clamp (server_pages (totalRows (b_pager st)) (pageSize (b_pager st))) n) as Hn.
  { subst p'. unfold paginate. rewrite Hs. by destruct (button_range _ _). }
  assert (pagination p' = true /\ pageSize p' = pageSize (b_pager st)) as [Hpag Hsz].
  { subst p'. by rewrite paginate_pagination, paginate_size. }
  eexists _, _. split; [reflexivity|]. cbn [b_pager set_pager b_sent push_query].
  rewrite Hpag, Hs1. cbn [q_limit q_offset]. by rewrite Hn, Hsz.
Qed.

(** The lists of applications are paged by the server, and the page the user
    clicks is the page the server is asked for: a button with the number [n] of
    an existing page sends one request, for which [queryParams] of the lists
    computes the page number [n] and the page size of the table. *)
Theorem server_page_asked (cf : config) (st : bt) (n : Z) (sort order : val) :
  cf_server cf = true -> cf_url cf = true -> pagination (b_pager st) = true ->
  1 <= pageSize (b_pager st) -> n <> pageNumber (b_pager st) ->
  1 <= n <= server_pages (totalRows (b_pager st)) (pageSize (b_pager st)) ->
  exists st' q limit offset, bt_step cf st (EPage n) = Ok st' /\ b_sent st' = b_sent st ++ [q] /\
    q_limit q = int limit /\ q_offset q = int offset /\
    field (queryParams limit offset sort order) "page" = int n /\
    field (queryParams limit offset sort order) "rows" = int (pageSize (b_pager st)).
Proof.
  intros Hs Hu Hp Hsize Hne Hn. cbn [bt_step]. unfold onPageNumber.
  destruct (Z.eqb_spec (pageNumber (b_pager st)) n); [congruence|].
  destruct (turn_sends cf n st Hs Hu Hp) as (st' & q & Hok & Hsent & Hl & Ho).
  rewrite clamp_id in Ho by lia. exists st', q, (pageSize (b_pager st)), (pageSize (b_pager st) * (n - 1)).
  split_ands; try done. rewrite Z.mul_comm. apply queryParams_page. lia.
Qed.

(** The list of lock namespaces (apply/locknsplist.js): the server has [total]
    rows and has sent the first [rows]. *)
Definition server_side : config := Config true true false false.
Definition lock_cols : list bcolumn := of_column <$> LockNsp.columns 0.
Definition lock_list (total : Z) (rows : list val) : bt :=
  BootstrapTable.after (and_then (bt_init server_side lock_cols true 10 []) (load server_side total (Some rows))).
Definition lock_row (id : string) : val := Obj [("id", Str id); ("db_name", Str "db"); ("status", int 1)].

Lemma server_page_asked_witness :
  exists st' q limit offset, bt_step server_side (lock_list 25 [lock_row "a"]) (EPage 3) = Ok st' /\
    b_sent st' = b_sent (lock_list 25 [lock_row "a"]) ++ [q] /\ q_limit q = int limit /\ q_offset q = int offset /\
    field (queryParams limit offset Undef Undef) "page" = int 3 /\
    field (queryParams limit offset Undef Undef) "rows" = int 10.
Proof.
  apply (server_page_asked server_side (lock_list 25 [lock_row "a"]) 3); [reflexivity..| | |].
  - apply Z.leb_le. reflexivity.
  - apply Z.eqb_neq. reflexivity.
  - split; apply Z.leb_le; reflexivity.
Defined.

(** ** Defects *)

(** Two clicks on "previous" on the first page, where it is drawn as disabled, and
    one on "next". *)
Definition impatient : list bt_event := [EPre; EPre; ENext].

Lemma impatient_steps cf st :
  preDisabled (b_pager st) = true -> nextDisabled (b_pager st) = false -> pageNumber (b_pager st) = 1 ->
  bt_steps cf st impatient =
    and_then (updatePagination cf false (with_page (set_pageNumber 0)
      (with_page (set_pageNumber (-1)) (with_page (set_pageNumber 0) st)))) Ok.
Proof.
  intros Hpre Hnext Hn. unfold impatient. cbn [bt_steps bt_step].
  unfold onPagePre at 1. rewrite Hpre, Hn. cbn [updatePagination and_then].
  unfold onPagePre, onPageNext. cbn [b_pager with_page set_pager preDisabled nextDisabled pageNumber set_pageNumber].
  rewrite Hpre. cbn [updatePagination and_then b_pager with_page set_pager nextDisabled pageNumber set_pageNumber].
  by rewrite Hnext.
Qed.

(** Drawing page 0 reads rows before the first. *)
Lemma page_zero_throws cf st :
  cf_server cf = false -> pagination (b_pager st) = true -> 1 <= pageSize (b_pager st) ->
  exists st', updatePagination cf false (with_page (set_pageNumber 0) st) = Threw st' /\ b_body st' = b_body st.
Proof.
  intros Hc Hp Hs. unfold updatePagination. rewrite Hc.
  set (st1 := if cf_maintainSelected cf then _ else _).
  assert (b_pager st1 = set_pageNumber 0 (b_pager st) /\ b_body st1 = b_body st) as [Hp1 Hb1].
  { subst st1. case_match; [done|]. unfold resetRows. by case_match. }
  unfold initPagination. rewrite Hp1. change (pagination (set_pageNumber 0 (b_pager st))) with (pagination (b_pager st)).
  rewrite Hp. set (len := length (getData st1)). set (p' := paginate cf len _).
  pose proof (paginate_from cf len (set_pageNumber 0 (b_pager st))) as Hfrom.
  pose proof (paginate_to cf Hc len (set_pageNumber 0 (b_pager st))) as Hto.
  pose proof (paginate_number cf Hc len (set_pageNumber 0 (b_pager st))) as Hn. fold p' in Hfrom, Hto, Hn.
  assert (pageNumber p' = 0) as Hz.
  { rewrite Hn. unfold clamp. cbn. destruct (page_count len (pageSize (b_pager st)) >? 0) eqn:E; cbn; [|done]. case_match; lia. }
  rewrite Hz in Hfrom, Hto. cbn [pageSize set_pageNumber] in Hfrom, Hto.
  unfold initBody. cbn [b_pager set_pager]. assert (pagination p' = true) as ->.
  { subst p'. by rewrite paginate_pagination. }
  rewrite Hc. cbn [andb negb].
  destruct (Z.to_nat (pageTo p' - (pageFrom p' - 1))) as [|m] eqn:Em; [lia|].
  cbn [draw_rows]. rewrite (proj2 (Z.ltb_lt _ _)) by lia. eexists. by split; [reflexivity|].
Qed.



(** A table paged by the server asks for page 0 instead. *)
Lemma disabled_previous_asks_zero (cf : config) (st : bt) (sort order : val) :
  cf_server cf = true -> cf_url cf = true -> pagination (b_pager st) = true -> 1 <= pageSize (b_pager st) ->
  preDisabled (b_pager st) = true -> nextDisabled (b_pager st) = false -> pageNumber (b_pager st) = 1 ->
  0 < server_pages (totalRows (b_pager st)) (pageSize (b_pager st)) ->
  exists st' q limit offset, bt_steps cf st impatient = Ok st' /\ b_sent st' = b_sent st ++ [q] /\
    q_limit q = int limit /\ q_offset q = int offset /\
    field (queryParams limit offset sort order) "page" = int 0.
Proof.
  intros Hs Hu Hp Hsize Hpre Hnext Hn Hpages. rewrite impatient_steps by done.
  set (st1 := with_page _ (with_page _ st)).
  destruct (turn_sends cf 0 st1 Hs Hu Hp) as (st' & q & Hok & Hsent & Hl & Ho).
  rewrite Hok. rewrite clamp_id in Ho by (cbn; lia).
  exists st', q, (pageSize (b_pager st)), (pageSize (b_pager st) * (0 - 1)). split_ands; try done.
  rewrite Z.mul_comm. apply queryParams_page. lia.
Qed.

(** The table of nodes (cluster/loadInfoData.js): eleven nodes, ten to a page. *)
Definition node_cols : list bcolumn := of_column <$> node_columns.
Definition a_node (id : Z) : val := Obj [("id", int id); ("state", int 1)].
Definition node_table : bt :=
  BootstrapTable.after (bt_init (Config false false false false) node_cols true 10 (a_node <$> zrange 1 11)).

(** A column of boxes without a name is never unticked by [resetRows], which
    takes the empty field name for a missing one.  On the table of nodes, a node
    that was ticked on the first page is still selected on the second page, where
    no box is ticked: the button that deletes the selected nodes deletes it.  On
    the list of lock namespaces, between a page click and the answer of the
    server, no box is ticked and the old rows are still selected. *)
Theorem unnamed_boxes_stay_selected :
  (let st := BootstrapTable.after (bt_steps (Config false false false false) node_table [EClick 0; ENext]) in
   ticked_rows st = [] /\ pluck "id" (getSelections st) = [int 1]) /\
  (let st := BootstrapTable.after (bt_steps server_side (lock_list 25 [lock_row "a"; lock_row "b"]) [EClick 1; ENext]) in
   ticked_rows st = [] /\ pluck "id" (getSelections st) = [Str "b"]).
Proof. split; split; vm_compute; reflexivity. Qed.
