(* ===== verification/Ranges.v ===== *)
(** * Ranges and masters

    The pages on single ranges and on the nodes of the master:
    static/js/range/peerinfo.js (the replicas of a range),
    range/unhealthyrange.js and range/unstablerange.js (ranges that need care),
    cluster/topologylist.js (all ranges of a cluster), cluster/rangeopstopn.js
    (the busiest ranges) and master/masterinfo.js (the nodes of the master).

    A controller reads the fields of its page once, when it starts; its
    functions use what was read then, not what the fields hold later. *)

From S2P Require Import Prelude JsValue Json Browser Logic Contracts Frame Widgets Utils Urls.

(** [var x = $('#x').val();] in a controller. *)
Definition capture (ctrl x : string) : prog unit :=
  v <- val_of ("#" +:+ x) ;; set_var (ctrl +:+ "." +:+ x) v.

(** ** The replicas of a range (range/peerinfo.js) *)

Definition mypeers : prog unit :=
  capture "mypeers" "rangeId" ;; capture "mypeers" "clusterId" ;;
  capture "mypeers" "dbName" ;; capture "mypeers" "tableName" ;;
  rangeId <- get_var "mypeers.rangeId" ;;
  tableName <- get_var "mypeers.tableName" ;;
  dbName <- get_var "mypeers.dbName" ;;
  clusterId <- get_var "mypeers.clusterId" ;;
  ajax (http_get ("/range/getPeerInfo?rangeId=" +:+ to_str rangeId +:+ "&tableName=" +:+ to_str tableName +:+
                  "&dbName=" +:+ to_str dbName +:+ "&clusterId=" +:+ to_str clusterId))
    (keep_data "mypeers.peerInfo" "获取失败") no_error.

(** The data both buttons of a replica send. *)
Definition peer_data (peerId : val) : prog (list (string * val)) :=
  dbName <- get_var "mypeers.dbName" ;;
  tableName <- get_var "mypeers.tableName" ;;
  rangeId <- get_var "mypeers.rangeId" ;;
  clusterId <- get_var "mypeers.clusterId" ;;
  Ret [("dbName", dbName); ("tableName", tableName); ("rangeId", rangeId); ("peerId", peerId);
       ("clusterId", clusterId)].

Definition updateRange (peerId : val) : prog unit :=
  data <- peer_data peerId ;;
  ajax (post_sync "/range/updateRange" data)
    (report "range元信息修改成功！" "range元信息修改成功!" "range元信息修改失败")
    (failed_res "range元信息修改失败").

Definition replaceRange (peerId : val) : prog unit :=
  data <- peer_data peerId ;;
  ajax (post_sync "/range/replaceRange" data)
    (report "range替换成功！" "range替换成功!" "range替换失败")
    (failed_res "range替换失败").

Inductive peers_action : Type := AUpdateRange (peerId : val) | AReplaceRange (peerId : val).

Definition peers_handler (a : peers_action) : prog unit :=
  match a with AUpdateRange p => updateRange p | AReplaceRange p => replaceRange p end.

Definition peers_page : page :=
  {| p_action := peers_action; p_load := start_angular [mypeers]; p_handler := peers_handler |}.

(** ** Unhealthy ranges (range/unhealthyrange.js) *)

Definition myranges : prog unit :=
  capture "myranges" "clusterId" ;; capture "myranges" "dbName" ;;
  capture "myranges" "tableName" ;; capture "myranges" "rangeId" ;;
  tableName <- get_var "myranges.tableName" ;;
  dbName <- get_var "myranges.dbName" ;;
  clusterId <- get_var "myranges.clusterId" ;;
  rangeId <- get_var "myranges.rangeId" ;;
  ajax (http_get ("/range/getUnhealthyRanges?tableName=" +:+ to_str tableName +:+ "&dbName=" +:+ to_str dbName +:+
                  "&clusterId=" +:+ to_str clusterId +:+ "&rangeId=" +:+ to_str rangeId))
    (keep_data "myranges.unhealthyRanges" "获取失败") no_error.

(** The link of both lists of ranges to the replicas of one. *)
Definition peer_link (ctrl : string) (rangeId : val) (flag : bool) : prog unit :=
  tableName <- get_var (ctrl +:+ ".tableName") ;;
  dbName <- get_var (ctrl +:+ ".dbName") ;;
  clusterId <- get_var (ctrl +:+ ".clusterId") ;;
  goto ("/page/range/peerinfo?rangeId=" +:+ to_str rangeId +:+ "&tableName=" +:+ to_str tableName +:+
        "&dbName=" +:+ to_str dbName +:+ "&clusterId=" +:+ to_str clusterId +:+ "&flag=" +:+ to_str (Bool flag)).

Definition viewPeerInfo (rangeId : val) : prog unit := peer_link "myranges" rangeId true.

Definition rebuildRange (rangeId : val) : prog unit :=
  dbName <- get_var "myranges.dbName" ;;
  tableName <- get_var "myranges.tableName" ;;
  clusterId <- get_var "myranges.clusterId" ;;
  ajax (post_sync "/range/rebuildRange"
          [("dbName", dbName); ("tableName", tableName); ("rangeId", rangeId); ("clusterId", clusterId)])
    (report_and_reload "range重建成功！" "range重建成功!" "range重建失败")
    (failed_res "range重建失败").

Definition forceSplitRange (rangeId : val) : prog unit :=
  swal (warn "确定强制分裂range?" "确定")
    (Fn0 (clusterId <- get_var "myranges.clusterId" ;;
          dbName <- get_var "myranges.dbName" ;;
          tableName <- get_var "myranges.tableName" ;;
          ajax (post "/range/forceSplitRange"
                  [("clusterId", clusterId); ("dbName", dbName); ("tableName", tableName); ("rangeId", rangeId)])
            (report "分裂range成功!" "分裂range成功!" "分裂range失败！")
            (failed_res "强制分裂range失败！"))).

Definition forceCompactRange (rangeId : val) : prog unit :=
  swal (warn "确定强制compact range?" "确定")
    (Fn0 (clusterId <- get_var "myranges.clusterId" ;;
          dbName <- get_var "myranges.dbName" ;;
          tableName <- get_var "myranges.tableName" ;;
          ajax (post "/range/forceCompactRange"
                  [("clusterId", clusterId); ("dbName", dbName); ("tableName", tableName); ("rangeId", rangeId)])
            (report "compact range成功!" "compact range成功!" "compact range失败！")
            (failed_res "强制compact range失败！"))).

(** A refusal is shown with [data.message]. *)
Definition batchRecover_done (data : val) : prog unit :=
  ok <- code_is data 0 ;;
  if ok then swal3 "批量恢复中！" (Str "批量恢复中!") "success" ;; reload
  else msg <- get data "message" ;; swal3 "批量恢复失败！" msg "error".

Definition batchRecover : prog unit :=
  swal (warn "确定一键恢复异常range" "执行")
    (Fn0 (clusterId <- get_var "myranges.clusterId" ;;
          dbName <- get_var "myranges.dbName" ;;
          tableName <- get_var "myranges.tableName" ;;
          ajax (post "/range/batchRecoverRange"
                  [("clusterId", clusterId); ("dbName", dbName); ("tableName", tableName)])
            batchRecover_done
            (failed "批量恢复失败！" "请联系管理员!"))).

Inductive unhealthy_action : Type :=
| AViewPeerInfo (rangeId : val) | ARebuildRange (rangeId : val) | AForceSplit (rangeId : val)
| AForceCompact (rangeId : val) | ABatchRecover.

Definition unhealthy_handler (a : unhealthy_action) : prog unit :=
  match a with
  | AViewPeerInfo r => viewPeerInfo r
  | ARebuildRange r => rebuildRange r
  | AForceSplit r => forceSplitRange r
  | AForceCompact r => forceCompactRange r
  | ABatchRecover => batchRecover
  end.

Definition unhealthy_page : page :=
  {| p_action := unhealthy_action; p_load := start_angular [myranges]; p_handler := unhealthy_handler |}.

(** ** Unstable ranges (range/unstablerange.js) *)

Definition unsRange_done (data : val) : prog unit :=
  ok <- code_is data 0 ;;
  if ok then
    d <- get data "data" ;; set_var "unsRange.unstableRanges" d ;;
    n <- get d "length" ;; set_var "unsRange.size" n
  else msg <- get data "msg" ;; swal3 "获取失败" msg "error".

Definition unsRange : prog unit :=
  capture "unsRange" "clusterId" ;; capture "unsRange" "dbName" ;; capture "unsRange" "tableName" ;;
  tableName <- get_var "unsRange.tableName" ;;
  dbName <- get_var "unsRange.dbName" ;;
  clusterId <- get_var "unsRange.clusterId" ;;
  ajax (http_get ("/range/getUnstableRanges?tableName=" +:+ to_str tableName +:+ "&dbName=" +:+ to_str dbName +:+
                  "&clusterId=" +:+ to_str clusterId))
    unsRange_done no_error.

Definition unstable_viewPeerInfo (rangeId : val) : prog unit := peer_link "unsRange" rangeId false.

Inductive unstable_action : Type := AViewUnstable (rangeId : val).

Definition unstable_handler (a : unstable_action) : prog unit :=
  match a with AViewUnstable r => unstable_viewPeerInfo r end.

Definition unstable_page : page :=
  {| p_action := unstable_action; p_load := start_angular [unsRange]; p_handler := unstable_handler |}.

(** ** All ranges of a cluster (cluster/topologylist.js) *)

Definition rangeList : prog unit :=
  capture "rangeList" "dbName" ;; capture "rangeList" "tableName" ;; capture "rangeList" "clusterId" ;;
  clusterId <- get_var "rangeList.clusterId" ;;
  ajax (post_sync "/cluster/topology/getall" [("clusterId", clusterId)])
    (keep_data "rangeList.rangeList" "获取拓扑列表失败")
    (failed_res "获取拓扑列表失败").

(** Both messages show the text of the server. *)
Definition deleteRange_done (data : val) : prog unit :=
  ok <- code_is data 0 ;;
  msg <- get data "msg" ;;
  if ok then swal3 "删除range成功!" msg "success" else swal3 "删除range失败" msg "error".

Definition deleteRange (rng : val) : prog unit :=
  clusterId <- get_var "rangeList.clusterId" ;;
  id <- get rng "id" ;;
  ajax (post "/range/delete" [("clusterId", clusterId); ("rangeId", id)])
    deleteRange_done (failed_res "删除range失败").

Definition viewRangeTopo (rng : val) : prog unit :=
  clusterId <- get_var "rangeList.clusterId" ;;
  id <- get rng "id" ;;
  goto ("/range/getRangeTopo?clusterId=" +:+ to_str clusterId +:+ "&rangeId=" +:+ to_str id).

Inductive topology_action : Type := ADeleteRange (rng : val) | AViewRangeTopo (rng : val).

Definition topology_handler (a : topology_action) : prog unit :=
  match a with ADeleteRange r => deleteRange r | AViewRangeTopo r => viewRangeTopo r end.

Definition topology_page : page :=
  {| p_action := topology_action; p_load := start_angular [rangeList]; p_handler := topology_handler |}.

(** ** The busiest ranges (cluster/rangeopstopn.js) *)

Definition rangeTopNCtrl : prog unit :=
  clusterId <- val_of "#clusterId" ;;
  topN <- val_of "#topN" ;;
  ajax (http_get ("/range/getOpsTopN?topN=" +:+ to_str topN +:+ "&clusterId=" +:+ to_str clusterId))
    (fun data =>
       ok <- code_is data 0 ;;
       if ok then d <- get data "data" ;; set_var "rangeTopNCtrl.statList" d else done)
    no_error.

(** The page has no buttons. *)
Definition topn_page : page :=
  {| p_action := Empty_set; p_load := start_angular [rangeTopNCtrl]; p_handler := fun a => match a with end |}.

(** ** The nodes of the master (master/masterinfo.js) *)

(** The button is shown on the row of the leader. *)
Definition leader_button (bt_data value row : val) (index : Z) : val :=
  if loose_eq (field bt_data "leader_id") value then
    join_all
      [ q "<button id=`updateLogLevel` class=`btn btn-primary btn-rounded` type=`button` value==`修改日志级别` onclick=`updateLogLevel('"
        +:+ txt row "id" +:+ q "');`>设置日志级别</button>&nbsp;&nbsp;" ]
  else Str "".

Definition master_columns (bt_data : val) : list column :=
  [ col "ID" "id" "center" "middle";
    col "web_address" "web_addr" "center" "middle";
    col "rpc_address" "rpc_addr" "center" "middle";
    col "raft_hb_addr" "raft_hb_addr" "center" "middle";
    col "raft_replicate_addr" "raft_rp_addr" "center" "middle";
    formatted (leader_button bt_data) (col "操作" "id" "center" "") ].

Definition masterNodeCtrl : prog unit :=
  bt_data <- new_ref Undef ;;
  clusterId <- val_of "#clusterId" ;;
  ajax (post_sync "/master/queryAll" [("clusterId", clusterId)])
    (fun data =>
       ok <- code_is data 0 ;;
       if ok then d <- get data "data" ;; put_ref bt_data d
       else msg <- get data "msg" ;; swal3 "查询集群master的节点列表" msg "error")
    (failed_res "查询集群master的节点列表") ;;
  d <- get_ref bt_data ;;
  node <- get d "node" ;;
  show_table "#viewnodeList" (master_columns d) node.

Definition log_level_html : string :=
  "<select class='form-control' id='selectLogLevel' style='height: 33px'><option value='trace'>trace</option><option value='debug'>debug</option><option value='info'>info</option><option value='warn'>warn</option><option value='error'>error</option></select>".

Definition updateLogLevel : prog unit :=
  swal (ask "日志级别设置" log_level_html "" true "执行")
    (Fn0 (logLevel <- val_of "#selectLogLevel" ;;
          if negb (hasText logLevel) then swal1 "请选择要设置的日志级别" else
          clusterId <- val_of "#clusterId" ;;
          ajax (post "/master/logLevelUpdate" [("clusterId", clusterId); ("logLevel", logLevel)])
            (report "master日志级别修改成功！" "master日志级别修改成功!" "master日志级别修改失败！")
            (failed "master日志级别修改失败！" "请联系管理员!"))).

Inductive master_action : Type := AUpdateLogLevel.

Definition master_handler (a : master_action) : prog unit :=
  match a with AUpdateLogLevel => updateLogLevel end.

Definition master_page : page :=
  {| p_action := master_action; p_load := start_angular [masterNodeCtrl]; p_handler := master_handler |}.

(** ** What the pages promise *)

Definition unhealthy_changes (url : string) : list string :=
  if String.eqb url "/range/forceSplitRange" then ["确定强制分裂range?"]
  else if String.eqb url "/range/forceCompactRange" then ["确定强制compact range?"]
  else if String.eqb url "/range/batchRecoverRange" then ["确定一键恢复异常range"]
  else [].

Definition master_changes (url : string) : list string :=
  if String.eqb url "/master/logLevelUpdate" then ["日志级别设置"] else [].

#[export] Instance peers_page_promising : Promising peers_page (prompt (fun _ => [])).
Proof. keeps_promises. Qed.

#[export] Instance unhealthy_page_promising : Promising unhealthy_page (prompt unhealthy_changes).
Proof. keeps_promises. Qed.

#[export] Instance unstable_page_promising : Promising unstable_page (prompt (fun _ => [])).
Proof. keeps_promises. Qed.

#[export] Instance topology_page_promising : Promising topology_page (prompt (fun _ => [])).
Proof. keeps_promises. Qed.

#[export] Instance topn_page_promising : Promising topn_page (prompt (fun _ => [])).
Proof. keeps_promises. Qed.

#[export] Instance master_page_promising : Promising master_page (prompt master_changes).
Proof. keeps_promises. Qed.

(** ** What the controllers captured *)

(** A field of the page as it was served. *)
Definition served_field (attrs : gmap (string * string) val) (x : string) : val :=
  default Undef (attrs !! ("#" +:+ x, "value")).

(** The variable [ctrl.x] keeps the field's first value, whatever happens on the
    page. *)
Definition captured (pg : page) (ctrl x : string) : Prop :=
  forall E attrs evs,
    w_vars (steps E pg (boot E pg attrs) evs) !! (ctrl +:+ "." +:+ x) = Some (served_field attrs x).

Lemma captured_page pg ctrl x y :
  ctrl +:+ "." +:+ x = y ->
  (forall a, writes_not y (p_handler pg a)) ->
  (forall E attrs, var_of (boot E pg attrs) y = Some (served_field attrs x) /\
     world_writes_not y (boot E pg attrs)) ->
  captured pg ctrl x.
Proof.
  intros Hy Ha Hb E attrs evs. destruct (Hb E attrs) as [Hv Hw]. rewrite Hy.
  change (var_of (steps E pg (boot E pg attrs) evs) y = Some (served_field attrs x)). by rewrite steps_keep.
Qed.

(** The load script captures, and asks the server for one thing. *)
Ltac captures :=
  eapply captured_page;
  [vm_compute; reflexivity
  |match goal with |- forall _, writes_not _ (p_handler ?pg _) =>
     let h := head_of pg in intros a; unfold h in a |- *; cbn [p_action p_handler] in a |- *; destruct a; frame_run end
  |intros ? ?; split; [reflexivity|split; [done|apply Forall_singleton; intros []; cbn [snd]; frame_run]]].

Lemma peers_captured E attrs evs :
  let vars := w_vars (steps E peers_page (boot E peers_page attrs) evs) in
  vars !! "mypeers.rangeId" = Some (served_field attrs "rangeId") /\
  vars !! "mypeers.clusterId" = Some (served_field attrs "clusterId") /\
  vars !! "mypeers.dbName" = Some (served_field attrs "dbName") /\
  vars !! "mypeers.tableName" = Some (served_field attrs "tableName").
Proof.
  assert (Forall (captured peers_page "mypeers") ["rangeId"; "clusterId"; "dbName"; "tableName"]) as H.
  { for_all; captures. }
  rewrite !Forall_cons_iff in H. destruct H as (H1 & H2 & H3 & H4 & _).
  cbv zeta. split_ands; [exact (H1 E attrs evs)|exact (H2 E attrs evs)|exact (H3 E attrs evs)|exact (H4 E attrs evs)].
Qed.

Lemma unhealthy_captured E attrs evs :
  let vars := w_vars (steps E unhealthy_page (boot E unhealthy_page attrs) evs) in
  vars !! "myranges.clusterId" = Some (served_field attrs "clusterId") /\
  vars !! "myranges.dbName" = Some (served_field attrs "dbName") /\
  vars !! "myranges.tableName" = Some (served_field attrs "tableName").
Proof.
  assert (Forall (captured unhealthy_page "myranges") ["clusterId"; "dbName"; "tableName"]) as H.
  { for_all; captures. }
  rewrite !Forall_cons_iff in H. destruct H as (H1 & H2 & H3 & _).
  cbv zeta. split_ands; [exact (H1 E attrs evs)|exact (H2 E attrs evs)|exact (H3 E attrs evs)].
Qed.

(** ** Theorems *)

(** The requests of the pages on ranges are about the table and the range
    that the page was served for.  Whatever was typed, answered or pressed in the
    meantime, a changed field included, the buttons send the values the
    controller read when it started; splitting, compacting and recovering do so
    from the confirm button of their dialog. *)
Theorem range_requests_captured (E : env) (attrs : gmap (string * string) val)
    (evp : list (event peers_action)) (evu : list (event unhealthy_action)) (id : val) (input : string) :
  let at_load := served_field attrs in
  let wp := steps E peers_page (boot E peers_page attrs) evp in
  let wu := steps E unhealthy_page (boot E unhealthy_page attrs) evu in
  let peer := [("dbName", at_load "dbName"); ("tableName", at_load "tableName"); ("rangeId", at_load "rangeId");
               ("peerId", id); ("clusterId", at_load "clusterId")] in
  let range := [("clusterId", at_load "clusterId"); ("dbName", at_load "dbName");
                ("tableName", at_load "tableName")] in
  news E peers_page wp (Act (AUpdateRange id)) !! 0%nat = Some (Sent (post_sync "/range/updateRange" peer)) /\
  news E peers_page wp (Act (AReplaceRange id)) !! 0%nat = Some (Sent (post_sync "/range/replaceRange" peer)) /\
  news E unhealthy_page wu (Act (ARebuildRange id)) !! 0%nat =
    Some (Sent (post_sync "/range/rebuildRange"
      [("dbName", at_load "dbName"); ("tableName", at_load "tableName"); ("rangeId", id);
       ("clusterId", at_load "clusterId")])) /\
  confirms E unhealthy_page wu (AForceSplit id) "确定强制分裂range?" input
    (post "/range/forceSplitRange" (range ++ [("rangeId", id)])) /\
  confirms E unhealthy_page wu (AForceCompact id) "确定强制compact range?" input
    (post "/range/forceCompactRange" (range ++ [("rangeId", id)])) /\
  confirms E unhealthy_page wu ABatchRecover "确定一键恢复异常range" input
    (post "/range/batchRecoverRange" range).
Proof.
  cbv zeta.
  destruct (peers_captured E attrs evp) as (Hp1 & Hp2 & Hp3 & Hp4).
  destruct (unhealthy_captured E attrs evu) as (Hu1 & Hu2 & Hu3).
  set (wp := steps E peers_page _ _) in *. set (wu := steps E unhealthy_page _ _) in *. clearbody wp wu.
  split_ands;
    try (eapply confirms_swal; [reflexivity..|]; intros w' Hw'; unfold task; cbn; by rewrite Hw', Hu1, Hu2, Hu3).
  - eapply sends_first. unfold task. cbn [p_handler peers_page peers_handler]. unfold updateRange, peer_data, get_var, op1.
    cbn [bind run exec_op]. rewrite Hp1, Hp2, Hp3, Hp4. reflexivity.
  - eapply sends_first. unfold task. cbn [p_handler peers_page peers_handler]. unfold replaceRange, peer_data, get_var, op1.
    cbn [bind run exec_op]. rewrite Hp1, Hp2, Hp3, Hp4. reflexivity.
  - eapply sends_first. unfold task. cbn [p_handler unhealthy_page unhealthy_handler]. unfold rebuildRange, get_var, op1.
    cbn [bind run exec_op]. rewrite Hu1, Hu2, Hu3. reflexivity.
Qed.

(** The list of masters asks for the nodes before anything else. *)
Definition master_request (attrs : gmap (string * string) val) : request :=
  post_sync "/master/queryAll" [("clusterId", served_field attrs "clusterId")].

Lemma code_zero_object d : code_zero d = true -> is_object d = true.
Proof. by destruct d. Qed.

Lemma master_boot E attrs :
  let r := master_request attrs in
  let asked := [Sent r; Answered r (e_server E [] r)] in
  let w := boot E master_page attrs in
  match e_server E [] r with
  | Success d =>
      if is_object d && code_zero d && is_object (field d "data")
      then w_tables w = {["#viewnodeList" := Table "undefined" (elements (field (field d "data") "node"))]}
      else w_tables w = ∅ /\
        (is_object d && negb (code_zero d) = true ->
         w_out w = asked ++ [Told (Str "查询集群master的节点列表") (or_else (field d "msg") (Str "")) "error";
                             Uncaught (Str "TypeError: node")])
  | Failure x _ =>
      w_tables w = ∅ /\
      w_out w = asked ++ [Told (Str "查询集群master的节点列表") (or_else x (Str "")) "error";
                          Uncaught (Str "TypeError: node")]
  end.
Proof.
  cbv zeta. unfold boot, task, start_angular, masterNodeCtrl. cbn [p_load master_page fold_right]. cbn.
  change (post_sync "/master/queryAll" _) with (master_request attrs).
  destruct (e_server E [] (master_request attrs)) as [d|x st]; [|done].
  unfold code_is, code_zero. destruct (is_object d) eqn:Hd; [|by destruct d].
  rewrite !(get_object d) by done. cbn [andb bind]. destruct (strict_eq (field d "code") (int 0)); [|done].
  cbn. unfold get at 1 2. destruct (is_object (field d "data")) eqn:Ho; destruct (field d "data"); done.
Qed.

(** The page of the masters shows the nodes of a granted answer, and the button
    for the log level on the row of the leader and on no other.  Any other answer
    is reported, but the controller then reads the nodes of a list it does not
    have and throws, so that the page has no table at all. *)
Theorem master_list (E : env) (attrs : gmap (string * string) val) :
  let r := master_request attrs in
  let w := boot E master_page attrs in
  (forall d, e_server E [] r = Success d -> code_zero d = true -> is_object (field d "data") = true ->
     rows_of w "#viewnodeList" = elements (field (field d "data") "node") /\
     forall c row i, master_columns (field d "data") !! 5%nat = Some c ->
       (cell c row i <> Str "" <-> loose_eq (field (field d "data") "leader_id") (field row "id") = true)) /\
  (readable (e_server E [] r) = true -> granted (usual master_changes) r (e_server E [] r) = false ->
     w_tables w = ∅ /\ (exists o, o ∈ w_out w /\ notice o = true) /\ Uncaught (Str "TypeError: node") ∈ w_out w).
Proof.
  cbv zeta. pose proof (master_boot E attrs) as Hb. cbv zeta in Hb. split.
  - intros d Hd Hc Ho. rewrite Hd, Hc, Ho, code_zero_object in Hb by done. cbn [andb] in Hb. split.
    + unfold rows_of. by rewrite Hb, lookup_singleton_eq.
    + intros c row i [= <-]. unfold cell. cbn [c_formatter formatted col c_field]. unfold leader_button.
      by destruct (loose_eq _ _).
  - intros Hr Hg. assert (forall l t u, w_out (boot E master_page attrs) = l ++ [Told (Str t) u "error"; Uncaught (Str "TypeError: node")] ->
      (exists o, o ∈ w_out (boot E master_page attrs) /\ notice o = true) /\
      Uncaught (Str "TypeError: node") ∈ w_out (boot E master_page attrs)) as Hout.
    { intros l t u ->. split; [exists (Told (Str t) u "error"); split; [set_solver|done]|set_solver]. }
    destruct (e_server E [] (master_request attrs)) as [d|x st]; cbn in Hr, Hg.
    + rewrite Hr, Hg in Hb. destruct Hb as [Ht Hw]. split; [done|]. by eapply Hout, Hw.
    + destruct Hb as [Ht Hw]. split; [done|]. by eapply Hout.
Qed.
