(* ===== verification/Clusters.v ===== *)
(** * The list of clusters, their start and their databases

    static/js/bootstrap-table-demo.js (the list of clusters with its switches),
    cluster/initcluster.js (the form that starts a cluster),
    metadatacreatetable.js (the databases of a cluster, and tables created from
    SQL) and index.js (the menu of the console). *)

From S2P Require Import Prelude JsValue Json Browser Logic Contracts Widgets Utils Urls.

(** ** The list of clusters (bootstrap-table-demo.js) *)

Definition cluster_list : string := "myFbaseClusterInfo.clusterList".

Definition myFbaseClusterInfo : prog unit :=
  ajax (http_get "/cluster/queryClusters") (keep_data cluster_list "获取失败") no_error.

(** The rows of the page are the elements of [$scope.clusterList] themselves: what
    a handler writes into [space] is in the list. *)
Definition get_space (i : nat) : prog val :=
  l <- get_var cluster_list ;; Ret (default Undef (elements l !! i)).
Definition put_space (i : nat) (space : val) : prog unit :=
  l <- get_var cluster_list ;; set_var cluster_list (Arr (<[i := space]> (elements l))).

(** [space[type] = !space[type]]. *)
Definition toggle (i : nat) (type : string) : prog unit :=
  space <- get_space i ;;
  v <- get space type ;;
  put_space i (set_prop type (js_not v) space).

Definition toggleAutoMigrate_done (i : nat) (type : string) (data : val) : prog unit :=
  code <- get data "code" ;;
  if negb (loose_eq code (int 0)) then toggle i type ;; alert (Str "设置不成功，请稍后重试") else done.

Definition toggleAutoMigrate (i : nat) (type : string) : prog unit :=
  toggle i type ;;
  space <- get_space i ;;
  id <- get space "id" ;;
  auto_split <- get space "auto_split" ;;
  auto_transfer <- get space "auto_transfer" ;;
  auto_failover <- get space "auto_failover" ;;
  ajax (post_sync ("/cluster/toggleAuto?clusterId=" +:+ to_str id)
          [("autoSplitUnable", auto_split); ("autoTransferUnable", auto_transfer);
           ("autoFailoverUnable", auto_failover)])
    (toggleAutoMigrate_done i type) no_error.

Definition view_space (path : string) (i : nat) : prog unit :=
  space <- get_space i ;;
  id <- get space "id" ;;
  goto (path +:+ "?clusterId=" +:+ to_str id).

Definition viewClusterInfo (i : nat) : prog unit := view_space "/page/cluster/info" i.
Definition viewClusterSourceInfo (i : nat) : prog unit := view_space "/page/cluster/source" i.
Definition viewClusterMaster (i : nat) : prog unit := view_space "/page/master/viewNodeList" i.

Inductive list_action : Type :=
| AToggle (i : nat) (type : string) | AViewInfo (i : nat) | AViewSource (i : nat) | AViewMaster (i : nat).

Definition list_handler (a : list_action) : prog unit :=
  match a with
  | AToggle i type => toggleAutoMigrate i type
  | AViewInfo i => viewClusterInfo i
  | AViewSource i => viewClusterSourceInfo i
  | AViewMaster i => viewClusterMaster i
  end.

Definition list_page : page :=
  {| p_action := list_action; p_load := start_angular [myFbaseClusterInfo]; p_handler := list_handler |}.

(** ** Starting a cluster (cluster/initcluster.js) *)

(** The fields are read and not written. *)
Definition clearModal : prog unit :=
  val_of "#clusterId" ;; val_of "#masterUrl" ;; get_attr "#resultMsg" "text" ;; done.

Definition initCluster : prog unit :=
  clusterId <- val_of "#clusterId" ;;
  masterUrl <- val_of "#masterUrl" ;;
  if negb (hasText clusterId) then alert (Str "请输入要初始的集群Id") else
  if negb (hasText masterUrl) then alert (Str "请输入要初始的机器master地址，格式为`协议://IP:Port`") else
  ajax (post_sync "/cluster/initCluster" [("masterUrl", masterUrl); ("clusterId", clusterId)])
    (fun data => msg <- get data "msg" ;; set_text "#resultMsg" msg)
    (fun res => msg <- get res "msg" ;; alert msg).

Inductive init_action : Type := AInitCluster.

Definition init_handler (a : init_action) : prog unit := match a with AInitCluster => initCluster end.

Definition init_page : page :=
  {| p_action := init_action; p_load := clearModal; p_handler := init_handler |}.

(** ** The databases of a cluster (metadatacreatetable.js) *)

(** The grid: its rows, and the id of the selected one. *)
Definition grid_rows : string := "#db_table_list.rows".
Definition grid_selrow : string := "#db_table_list.selrow".

Definition grid_options (clusterId : val) : val :=
  Obj [("url", Str ("/metadata/dbDataGetAllViewPage?clusterId=" +:+ to_str clusterId)); ("datatype", Str "json");
       ("height", Str "50%"); ("autowidth", Bool true); ("shrinkToFit", Bool true); ("rowNum", int 10);
       ("rowList", Arr [int 10; int 20; int 30]);
       ("colNames", Arr [Str "序号"; Str "数据库名"; Str "操作"]);
       ("colModel", Arr
          [Obj [("name", Str "id"); ("index", Str "id"); ("align", Str "center"); ("width", int 20); ("sorttype", Str "int")];
           Obj [("name", Str "name"); ("index", Str "name"); ("width", int 90); ("align", Str "center")];
           Obj [("name", Str "act"); ("index", Str "act"); ("width", int 35); ("sortable", Bool false); ("align", Str "center")]]);
       ("pager", Str "#db_pager_list"); ("viewrecords", Bool true); ("caption", Str "数据库列表");
       ("sortname", Str "id"); ("sortorder", Str "desc"); ("hidegrid", Bool false)].

Definition databases_load : prog unit :=
  clusterId <- val_of "#clusterId" ;;
  call "jqGrid" [Str "#db_table_list"; grid_options clusterId] ;;
  set_var grid_rows (Arr []) ;; set_var grid_selrow Null.

(** A row is found by its id. *)
Definition has_row_id (id : val) (row : val) : bool := String.eqb (to_str (field row "id")) (to_str id).
Definition row_data (id : val) (rows : list val) : option val := List.find (has_row_id id) rows.

(** [setSelection] of an id without a row does nothing. *)
Definition setSelection (id : val) : prog unit :=
  l <- get_var grid_rows ;;
  match row_data id (elements l) with Some _ => set_var grid_selrow id | None => done end.

(** [getRowData] of no row returns all of them. *)
Definition getRowData (id : val) : prog val :=
  l <- get_var grid_rows ;;
  if loose_eq id Null then Ret (Arr (elements l))
  else Ret (default (Obj []) (row_data id (elements l))).

Definition act_button (title func args label tail : string) : string :=
  q "<button class=`btn btn-primary` type=`button` title=`" +:+ title +:+ q "` value=`" +:+ title +:+
  q "` onclick=`" +:+ func +:+ "(" +:+ args +:+ q ");`>" +:+ label +:+ "</button>" +:+ tail.

(** The buttons of a database. *)
Definition act_cell (row : val) : string :=
  let dbId := txt row "id" in
  let dbName := txt row "name" in
  act_button "创建表" "viewcreateTable" (dbId +:+ ",'" +:+ dbName +:+ "'") "创建表" " &nbsp;&nbsp;&nbsp;&nbsp;" +:+
  act_button "SQL" "viewsqlCreateTable" dbId "SQL" " &nbsp;&nbsp;&nbsp;&nbsp;" +:+
  act_button "查看表" "getTableInfo" (dbId +:+ ",'" +:+ dbName +:+ "'") "查看表" "".

(** The answer of the server fills the grid; [gridComplete] adds the buttons. *)
Definition gridComplete (rows : list val) : prog unit :=
  set_var grid_selrow Null ;;
  set_var grid_rows (Arr (List.map (fun row => set_prop "act" (Str (act_cell row)) row) rows)).

Definition viewsqlCreateTable (dbId : val) : prog unit :=
  setSelection dbId ;; show_modal "#sqlCreateTableDetail".

Definition saveSqlCreateTable : prog unit :=
  clusterId <- val_of "#clusterId" ;;
  sql <- val_of "#sql" ;;
  rowId <- get_var grid_selrow ;;
  rowData <- getRowData rowId ;;
  swal (warn "创建表?" "创建")
    (Fn0 (name <- get rowData "name" ;;
          ajax (post "/metadata/sqlCreateTable" [("dbName", name); ("sql", sql); ("clusterId", clusterId)])
            (report "创建成功!" "表创建成功" "创建表失败")
            (failed_res "创建表失败"))).

Definition db_link (path : string) (dbId dbName : val) : prog unit :=
  clusterId <- val_of "#clusterId" ;;
  goto (path +:+ "?dbName=" +:+ to_str dbName +:+ "&dbId=" +:+ to_str dbId +:+ "&clusterId=" +:+ to_str clusterId).

Definition viewcreateTable (dbId dbName : val) : prog unit := db_link "/page/metadata/createtable" dbId dbName.
Definition getTableInfo (dbId dbName : val) : prog unit := db_link "/page/tables/tablelist" dbId dbName.

Inductive database_action : Type :=
| AGridLoaded (rows : list val) | ASelectRow (id : val) | AViewSql (dbId : val) | ASaveSql
| AViewCreate (dbId dbName : val) | AViewTables (dbId dbName : val).

Definition database_handler (a : database_action) : prog unit :=
  match a with
  | AGridLoaded rows => gridComplete rows
  | ASelectRow id => setSelection id
  | AViewSql id => viewsqlCreateTable id
  | ASaveSql => saveSqlCreateTable
  | AViewCreate id name => viewcreateTable id name
  | AViewTables id name => getTableInfo id name
  end.

Definition database_page : page :=
  {| p_action := database_action; p_load := databases_load; p_handler := database_handler |}.

(** ** The menu (index.js) *)

(** A menu item shows its page in the frame. *)
Definition J_menuItem (href : val) : prog unit := set_attr "#J_iframe" "src" href.

Definition menu_page : page :=
  {| p_action := val; p_load := done; p_handler := J_menuItem |}.

(** ** What the pages promise *)

Definition database_changes (url : string) : list string :=
  if String.eqb url "/metadata/sqlCreateTable" then ["创建表?"] else [].

#[export] Instance list_page_promising : Promising list_page (usual (fun _ => [])).
Proof. keeps_promises. Qed.

#[export] Instance init_page_promising : Promising init_page (usual (fun _ => [])).
Proof. keeps_promises. Qed.

#[export] Instance database_page_promising : Promising database_page (usual database_changes).
Proof. keeps_promises. Qed.

#[export] Instance menu_page_promising : Promising menu_page (usual (fun _ => [])).
Proof. split; [apply loads_promises; cbn [p_load menu_page]; loaded|intros a; cbn [p_handler menu_page]; promised]. Qed.

(** ** Theorems *)

Definition switches : list string := ["auto_split"; "auto_transfer"; "auto_failover"].

(** The request that announces the switches of [space]. *)
Definition toggle_request (space : val) : request :=
  post_sync ("/cluster/toggleAuto?clusterId=" +:+ to_str (field space "id"))
    [("autoSplitUnable", field space "auto_split"); ("autoTransferUnable", field space "auto_transfer");
     ("autoFailoverUnable", field space "auto_failover")].

Definition flipped (type : string) (space : val) : val := set_prop type (js_not (field space type)) space.

(** What is left of the list of clusters, and what the user sees, after the answer. *)
Definition toggle_outcome (i : nat) (type : string) (spaces : list val) (space : val) (res : ajax_result) :
    list val * list output :=
  let switched := <[i := flipped type space]> spaces in
  match res with
  | Success data =>
      match get_prop data "code" with
      | Some code =>
          if loose_eq code (int 0) then (switched, [])
          else (spaces, [Alerted (Str "设置不成功，请稍后重试")])
      | None => (switched, [Uncaught (Str "TypeError: code")])
      end
  | Failure _ _ => (switched, [])
  end.

Lemma run_toggle E i type w spaces space :
  w_vars w !! cluster_list = Some (Arr spaces) -> spaces !! i = Some space -> is_object space = true ->
  run E (toggle i type) w =
    (set_vars (<[cluster_list := Arr (<[i := flipped type space]> spaces)]> (w_vars w)) w, Done tt).
Proof.
  intros Hl Hi Ho. unfold toggle, get_space, put_space, get_var, set_var, op1, do_op. cbn [bind run exec_op].
  rewrite Hl. change (default Undef (Some (Arr spaces))) with (Arr spaces). cbn [elements]. rewrite Hi.
  change (default Undef (Some space)) with space. rewrite get_object by done. cbn [bind run exec_op]. by rewrite Hl.
Qed.

Lemma assoc_set_same k v fs : assoc k fs = Some v -> assoc_set k v fs = fs.
Proof.
  induction fs as [|[k' v'] fs IH]; cbn; [done|]. destruct (String.eqb k k'); [by intros [= ->]|].
  intros H. by rewrite IH.
Qed.

Lemma assoc_set_twice k v v' fs : assoc_set k v (assoc_set k v' fs) = assoc_set k v fs.
Proof.
  induction fs as [|[k' x] fs IH]; cbn; [by rewrite String.eqb_refl|].
  destruct (String.eqb k k') eqn:E; cbn; rewrite E; [done|]. by rewrite IH.
Qed.

(** A switch that is flipped twice is as before. *)
Lemma flipped_twice type fs b :
  assoc type fs = Some (Bool b) -> flipped type (flipped type (Obj fs)) = Obj fs.
Proof.
  intros Ht. assert (flipped type (Obj fs) = Obj (assoc_set type (Bool (negb b)) fs)) as ->.
  { unfold flipped, field. cbn. by rewrite Ht. }
  unfold flipped, field. cbn. rewrite assoc_set_eq, assoc_set_twice.
  replace (js_not (default Undef (Some (Bool (negb b))))) with (Bool b) by (by destruct b). by rewrite assoc_set_same.
Qed.

(** C27: a switch of the list of clusters sends the three switches of that cluster,
    with the one that was pressed flipped, in one request.  The list shows the new
    state if the server agrees; if it refuses, the list is exactly as before and
    the user is told; the switches of the other clusters never change.  If the
    request fails, however, the list shows the new state too and the user is told
    nothing, although the cluster has not been switched. *)
Theorem cluster_switches (E : env) (w : world) (i : nat) (type : string) (spaces : list val)
    (fs : list (string * val)) (b : bool) :
  w_vars w !! cluster_list = Some (Arr spaces) -> spaces !! i = Some (Obj fs) -> assoc type fs = Some (Bool b) ->
  let r := toggle_request (flipped type (Obj fs)) in
  let res := e_server E (w_out w) r in
  let w' := step E list_page w (Act (AToggle i type)) in
  field (flipped type (Obj fs)) type = Bool (negb b) /\
  w_vars w' !! cluster_list = Some (Arr (toggle_outcome i type spaces (Obj fs) res).1) /\
  news E list_page w (Act (AToggle i type)) =
    Sent r :: Answered r res :: (toggle_outcome i type spaces (Obj fs) res).2.
Proof.
  intros Hl Hi Ht. cbv zeta. split.
  { unfold flipped. rewrite field_set_eq. unfold field. cbn. by rewrite Ht. }
  unfold news. cbn [step p_handler list_page list_handler]. unfold toggleAutoMigrate, task.
  rewrite run_bind, (run_toggle E i type w spaces (Obj fs)) by done.
  set (w1 := set_vars _ w). assert (w_vars w1 !! cluster_list = Some (Arr (<[i := flipped type (Obj fs)]> spaces))) as Hl1
    by apply lookup_insert_eq.
  assert ((<[i := flipped type (Obj fs)]> spaces) !! i = Some (flipped type (Obj fs))) as Hi1
    by (apply list_lookup_insert_eq; by eapply lookup_lt_Some).
  assert (is_object (flipped type (Obj fs)) = true) as Ho by done.
  unfold get_space, get_var, op1. cbn [bind run exec_op]. rewrite Hl1.
  change (default Undef (Some (Arr ?l))) with (Arr l). cbn [elements]. rewrite Hi1.
  change (default Undef (Some (flipped type (Obj fs)))) with (flipped type (Obj fs)).
  repeat (rewrite (get_object (flipped type (Obj fs))) by done; cbn [bind]).
  match goal with |- context [finish (run E (ajax ?r ?cb ?err) w1)] =>
    change (finish (run E (ajax r cb err) w1)) with (task E (ajax r cb err) w1); change r with (toggle_request (flipped type (Obj fs))) end.
  rewrite task_ajax_sync by done. change (w_out w1) with (w_out w).
  set (res := e_server E (w_out w) _). set (w2 := emit _ (emit _ w1)).
  assert (forall log, drop (length (w_out w)) (w_out w2 ++ log) = Sent (toggle_request (flipped type (Obj fs))) ::
     Answered (toggle_request (flipped type (Obj fs))) res :: log) as Hdrop.
  { intros log. subst w2. cbn. by rewrite <- !app_assoc, drop_app_length. }
  pose proof (Hdrop []) as Hdrop0. rewrite app_nil_r in Hdrop0.
  destruct res as [data|x st]; cbn [toggle_outcome]; [|by split].
  unfold toggleAutoMigrate_done, get, toggle_outcome. destruct (get_prop data "code") as [code|]; [|by split; [|apply Hdrop]].
  unfold task. cbn [bind]. destruct (loose_eq code (int 0)); cbn [negb].
  - by split.
  - rewrite run_bind, (run_toggle E i type w2 _ (flipped type (Obj fs))) by done.
    unfold alert, do_op. cbn [run exec_op finish emit set_vars w_vars w_out fst snd]. split; [|apply Hdrop].
    rewrite lookup_insert_eq, list_insert_insert_eq, (flipped_twice type fs b), list_insert_id by done. done.
Qed.

Definition a_cluster (id : Z) (split : bool) : list (string * val) :=
  [("id", int id); ("auto_split", Bool split); ("auto_transfer", Bool false); ("auto_failover", Bool true)].
Definition list_world : world :=
  World ∅ {[cluster_list := Arr [Obj (a_cluster 1 true); Obj (a_cluster 2 true)]]} [] ∅ None [] [].

Lemma cluster_switches_witness :
  w_vars (step offline list_page list_world (Act (AToggle 1 "auto_split"))) !! cluster_list =
    Some (Arr [Obj (a_cluster 1 true); Obj (a_cluster 2 false)]) /\
  length (news offline list_page list_world (Act (AToggle 1 "auto_split"))) = 2%nat.
Proof.
  destruct (cluster_switches offline list_world 1 "auto_split" [Obj (a_cluster 1 true); Obj (a_cluster 2 true)]
    (a_cluster 2 true) true) as (_ & Hv & Hn); [reflexivity..|].
  split; [exact Hv|rewrite Hn; reflexivity].
Defined.

Lemma row_data_act id rows :
  row_data id (List.map (fun row => set_prop "act" (Str (act_cell row)) row) rows) =
  (fun row => set_prop "act" (Str (act_cell row)) row) <$> row_data id rows.
Proof.
  unfold row_data. induction rows as [|row rows IH]; [done|]. cbn [List.map List.find].
  unfold has_row_id at 1 3. rewrite field_set_ne by done. by destruct (String.eqb _ _).
Qed.

Lemma saveSqlCreateTable_confirms E w id rows row input :
  w_vars w !! grid_selrow = Some id -> w_vars w !! grid_rows = Some (Arr rows) -> loose_eq id Null = false ->
  row_data id rows = Some row -> is_object row = true ->
  confirms E database_page w ASaveSql "创建表?" input
    (post "/metadata/sqlCreateTable"
       [("dbName", field row "name"); ("sql", value_of w "#sql"); ("clusterId", value_of w "#clusterId")]).
Proof.
  intros Hs Hl Hn Hrow Ho. eapply confirms_swal.
  - unfold task. cbn [p_handler database_page database_handler].
    unfold saveSqlCreateTable, getRowData, val_of, get_var, op1. cbn [bind run exec_op]. rewrite Hs, Hl.
    change (default Undef (Some id)) with id. change (default Undef (Some (Arr rows))) with (Arr rows).
    rewrite Hn. cbn [elements bind]. rewrite Hrow. reflexivity.
  - reflexivity.
  - reflexivity.
  - intros w' _. change (default (Obj []) (Some row)) with row. by rewrite get_object.
Qed.

Lemma viewsqlCreateTable_task E w id rows row :
  w_vars w !! grid_rows = Some (Arr rows) -> row_data id rows = Some row ->
  task E (viewsqlCreateTable id) w =
    emit (ModalSet "#sqlCreateTableDetail" true) (set_vars (<[grid_selrow := id]> (w_vars w)) w).
Proof.
  intros Hl Hrow. unfold task, viewsqlCreateTable, setSelection, get_var, op1. cbn [bind run exec_op]. rewrite Hl.
  change (default Undef (Some (Arr rows))) with (Arr rows). cbn [elements]. by rewrite Hrow.
Qed.

(** The SQL button of a database opens the form for that database: the confirmed
    request creates the table in the database of the row whose button was pressed,
    with the SQL that was typed. *)
Theorem sql_table_target (E : env) (w : world) (rows : list val) (dbId row : val) (sql : val) (input : string) :
  row_data dbId rows = Some row -> is_object row = true -> dbId <> Null -> dbId <> Undef ->
  confirms E database_page
    (steps E database_page w [Act (AGridLoaded rows); Act (AViewSql dbId); Edit "#sql" sql])
    ASaveSql "创建表?" input
    (post "/metadata/sqlCreateTable"
       [("dbName", field row "name"); ("sql", sql); ("clusterId", value_of w "#clusterId")]).
Proof.
  intros Hrow Ho Hn Hu. cbn [steps fold_left step p_handler database_page database_handler].
  set (act := fun row => set_prop "act" (Str (act_cell row)) row).
  set (w1 := task E (gridComplete rows) w).
  assert (w_vars w1 !! grid_rows = Some (Arr (List.map act rows))) as Hl1 by apply lookup_insert_eq.
  assert (row_data dbId (List.map act rows) = Some (act row)) as Hrow'
    by (unfold act at 1; by rewrite row_data_act, Hrow).
  rewrite (viewsqlCreateTable_task E w1 dbId _ _ Hl1 Hrow').
  set (w2 := set_attrs _ _).
  assert (is_object (act row) = true) as Ho' by (by destruct row).
  assert (loose_eq dbId Null = false) as Hnull by (by destruct dbId).
  pose proof (saveSqlCreateTable_confirms E w2 dbId (List.map act rows) (act row) input) as Hc.
  assert (field (act row) "name" = field row "name") as Hname by (by apply field_set_ne). rewrite Hname in Hc.
  replace (value_of w2 "#sql") with sql in Hc by (unfold value_of; subst w2; by rewrite attr_of_set, decide_True).
  replace (value_of w2 "#clusterId") with (value_of w "#clusterId") in Hc
    by (unfold value_of; subst w2; by rewrite attr_of_set, decide_False).
  apply Hc; [by apply lookup_insert_eq|by rewrite <- Hl1; apply lookup_insert_ne|done..].
Qed.

Definition db_rows : list val :=
  [Obj [("id", int 1); ("name", Str "orders")]; Obj [("id", int 2); ("name", Str "users")]].

Lemma sql_table_target_witness :
  confirms offline database_page
    (steps offline database_page (fresh ∅)
       [Act (AGridLoaded db_rows); Act (AViewSql (int 2)); Edit "#sql" (Str "create table t")])
    ASaveSql "创建表?" ""
    (post "/metadata/sqlCreateTable" [("dbName", Str "users"); ("sql", Str "create table t");
       ("clusterId", value_of (fresh ∅) "#clusterId")]).
Proof.
  apply (sql_table_target offline (fresh ∅) db_rows (int 2) (Obj [("id", int 2); ("name", Str "users")])
           (Str "create table t") "");
    [vm_compute; reflexivity|reflexivity|discriminate|discriminate].
Defined.
