(* ===== verification/Metrics.v ===== *)
(** * Monitoring settings

    static/js/metric/metricmanage.js (where the servers of a cluster send their
    metrics) and static/js/metric/metricserver.js (the servers that take them).

    The addresses to choose from are the options of a [select] element: a value
    that is not among them selects nothing, and reads back as [null]. *)

From S2P Require Import Prelude JsValue Json Browser Logic Contracts Widgets Utils.

(** ** Choices *)

Definition options_of (sel : string) : prog (list val) :=
  o <- get_attr sel "options" ;; Ret (elements o).

(** [$(sel).empty()]. *)
Definition empty_choices (sel : string) : prog unit := set_attr sel "options" (Arr []) ;; set_val sel Null.

(** [$(sel).append("<option value='v'>...")]: the first option is selected. *)
Definition append_choice (sel : string) (v : val) : prog unit :=
  l <- options_of sel ;;
  set_attr sel "options" (Arr (l ++ [Str (to_str v)])) ;;
  if (length l =? 0)%nat then set_val sel (Str (to_str v)) else done.

(** The text a [select] looks for. *)
Definition choice_text (v : val) : string := match v with Undef | Null => "" | _ => to_str v end.

(** [$(sel).val(v)]. *)
Definition choose (sel : string) (v : val) : prog unit :=
  l <- options_of sel ;;
  set_val sel (if existsb (fun o => String.eqb (to_str o) (choice_text v)) l then Str (choice_text v) else Null).

(** ** The metrics of a cluster (metric/metricmanage.js) *)

Definition getServers_done (data : val) : prog unit :=
  ok <- code_is data 0 ;;
  if ok then
    empty_choices "#msAddr" ;;
    d <- get data "data" ;;
    n <- get d "length" ;;
    for_each (items d) (fun server => addr <- get server "addr" ;; append_choice "#msAddr" addr)
  else msg <- get data "msg" ;; swal3 "获取监控列表失败" msg "error".

Definition myFbaseClusterInfo : prog unit :=
  ajax (http_get "/cluster/queryClusters") (keep_data "myFbaseClusterInfo.clusterList" "获取失败") no_error ;;
  ajax (http_get "/metric/server/getAll") getServers_done no_error.

Definition adjustConfig_done (space data : val) : prog unit :=
  ok <- code_is data 0 ;;
  if ok then
    id <- get space "id" ;;
    set_val "#clusterId" id ;;
    d <- get data "data" ;;
    ms <- get d "ms" ;;
    address <- get ms "address" ;;
    choose "#msAddr" address ;;
    interval <- get ms "interval" ;;
    set_val "#msInterval" interval ;;
    gs <- get d "gs" ;;
    gs_address <- get gs "address" ;;
    set_val "#gsAddr" gs_address ;;
    show_modal "#metricConfigDetail"
  else msg <- get data "msg" ;; swal3 "获取集群监控配置异常！" msg "error".

Definition adjustConfig (space : val) : prog unit :=
  id <- get space "id" ;;
  ajax (post "/metric/config/get" [("clusterId", id)])
    (adjustConfig_done space)
    (failed "获取集群监控配置异常！" "请联系管理员!").

Definition update_done (data : val) : prog unit :=
  ok <- code_is data 0 ;;
  if ok then swal3 "设置" (Str "设置成功") "success" ;; hide_modal "#metricConfigDetail"
  else msg <- get data "msg" ;; swal3 "设置失败" msg "error".

Definition update : prog unit :=
  clusterId <- val_of "#clusterId" ;;
  msAddr <- val_of "#msAddr" ;;
  msInterval <- val_of "#msInterval" ;;
  gsAddr <- val_of "#gsAddr" ;;
  if negb (loose_eq msAddr gsAddr) then swal3 "ms的监控地址必须跟gw的一致" (Str "请重新设置") "error" else
  ajax (post_sync "/metric/config/set"
          [("clusterId", clusterId); ("metricAddr", msAddr); ("metricInterval", msInterval)])
    update_done (failed_res "设置失败").

(** The user picks an address; the gateway gets the same. *)
Definition msAddr_change (v : val) : prog unit :=
  choose "#msAddr" v ;;
  msAddr <- val_of "#msAddr" ;;
  set_val "#gsAddr" msAddr.

Inductive metric_action : Type := AAdjustConfig (space : val) | AUpdate | AMsAddr (v : val).

Definition metric_handler (a : metric_action) : prog unit :=
  match a with
  | AAdjustConfig space => adjustConfig space
  | AUpdate => update
  | AMsAddr v => msAddr_change v
  end.

Definition metric_page : page :=
  {| p_action := metric_action; p_load := start_angular [myFbaseClusterInfo]; p_handler := metric_handler |}.

(** ** The servers that take metrics (metric/metricserver.js) *)

Definition metric_table : string := "#metricTableEvents".

Definition metric_columns : list column := [checkbox "" "center"; col "地址" "addr" "center" ""].

Definition metric_options : val :=
  Obj [("url", Str "/metric/server/getAll"); ("search", Bool true); ("pagination", Bool true);
       ("showRefresh", Bool true); ("pageNumber", int 1); ("pageSize", int 10);
       ("pageList", Arr [int 10; int 25; int 50; int 100]); ("showColumns", Bool true);
       ("iconSize", Str "outline"); ("toolbar", Str "#metricTableEventsToolbar");
       ("icons", Obj [("refresh", Str "glyphicon-repeat")])].

Definition server_load : prog unit :=
  call "bootstrapTable" [Str metric_table; metric_options] ;;
  bootstrap_table metric_table (state_field metric_columns) [].

Definition showServerModal (type : val) : prog unit :=
  if loose_eq type (Str "add") then set_val "#addr" (Str "") ;; show_modal "#serverEditDetail" else done.

(** A refusal shows nothing. *)
Definition save_done (data : val) : prog unit :=
  ok <- code_is data 0 ;;
  if ok then
    swal3 "设置" (Str "设置成功") "success" ;;
    hide_modal "#serverEditDetail" ;;
    refresh metric_table "/metric/server/getAll"
  else done.

Definition save : prog unit :=
  addr <- val_of "#addr" ;;
  ajax (post_sync "/metric/server/add" [("addr", addr)]) save_done (failed_res "设置失败").

Definition delMetricServer_done (data : val) : prog unit :=
  ok <- code_is data 0 ;;
  if ok then swal3 "删除!" (Str "删除成功") "success" ;; reload else done.

Definition delMetricServer : prog unit :=
  selectedServerRows <- selections metric_table ;;
  if (length selectedServerRows <=? 0)%nat then swal3 "批量删除实例" (Str "请选择要删除的实例") "error" else
  let serverAddrs := pluck "addr" selectedServerRows in
  swal (warn "删除监控服务实例" "执行")
    (Fn0 (ajax (post_sync "/metric/server/del" [("addrs", json (Arr serverAddrs))])
            delMetricServer_done (failed_res "操作失败"))).

Inductive server_action : Type := AShowServerModal (type : val) | ASaveServer | ADelServers.

Definition server_handler (a : server_action) : prog unit :=
  match a with
  | AShowServerModal type => showServerModal type
  | ASaveServer => save
  | ADelServers => delMetricServer
  end.

Definition server_page : page :=
  {| p_action := server_action; p_load := server_load; p_handler := server_handler |}.

(** ** What the pages promise *)

(** The configuration is shown in its form, and what keeps it from there in a
    message. *)
Definition metric_policy : policy := {|
  guard := fun _ => [];
  burst := 1;
  follow_up := 0;
  watched := fun r res =>
    posts r && match res with Success d => is_object d && negb (code_zero d) | Failure _ _ => true end;
  heard := fun r res => posts r && readable res;
  verdict := fun _ => code_zero
|}.

Definition server_changes (url : string) : list string :=
  if String.eqb url "/metric/server/del" then ["删除监控服务实例"] else [].

(** The refusals are not shown. *)
Definition server_policy : policy := {|
  guard := server_changes;
  burst := 1;
  follow_up := 0;
  watched := fun _ _ => false;
  heard := fun r res => posts r && match res with Success d => is_object d && code_zero d | Failure _ _ => true end;
  verdict := fun _ => code_zero
|}.

#[export] Instance server_page_promising : Promising server_page server_policy.
Proof. keeps_promises. Qed.

#[export] Instance metric_page_promising : Promising metric_page metric_policy.
Proof. keeps_promises. Qed.

(** ** Theorems *)

Definition offers (w : world) (v : val) : bool :=
  existsb (fun o => String.eqb (to_str o) (choice_text v)) (elements (attr_of w "#msAddr" "options")).

Definition set_request (w : world) (addr : val) : request :=
  post_sync "/metric/config/set"
    [("clusterId", value_of w "#clusterId"); ("metricAddr", addr); ("metricInterval", value_of w "#msInterval")].

Lemma update_sends E w :
  loose_eq (value_of w "#msAddr") (value_of w "#gsAddr") = true ->
  news E metric_page w (Act AUpdate) !! 0%nat = Some (Sent (set_request w (value_of w "#msAddr"))).
Proof.
  intros H. eapply sends_first. cbn [p_handler metric_page metric_handler]. unfold update, val_of, op1, task.
  cbn [bind run exec_op]. fold (value_of w "#msAddr") (value_of w "#gsAddr"). rewrite H. reflexivity.
Qed.

Lemma msAddr_change_values E w v :
  let w' := task E (msAddr_change v) w in
  value_of w' "#msAddr" = (if offers w v then Str (choice_text v) else Null) /\
  value_of w' "#gsAddr" = value_of w' "#msAddr" /\
  value_of w' "#clusterId" = value_of w "#clusterId" /\ value_of w' "#msInterval" = value_of w "#msInterval".
Proof.
  unfold task, msAddr_change, choose, options_of, get_attr, set_val, val_of, op1, do_op. cbn [bind run exec_op finish].
  unfold value_of. split_ands; by repeat (rewrite attr_of_set; first [rewrite decide_True by done | rewrite decide_False by done]).
Qed.

(** The metrics of the master and of the gateway always go to one address.  The
    settings are sent only if both fields agree, and then for that address; an
    address that was picked from the list is taken over by both fields and sent;
    and if the address in use is no longer offered, the form asks for another one
    instead of sending. *)
Theorem metric_addresses_agree (E : env) (w : world) (v space data : val) (addr : string) :
  (loose_eq (value_of w "#msAddr") (value_of w "#gsAddr") = false ->
     news E metric_page w (Act AUpdate) = [Told (Str "ms的监控地址必须跟gw的一致") (Str "请重新设置") "error"]) /\
  (loose_eq (value_of w "#msAddr") (value_of w "#gsAddr") = true ->
     news E metric_page w (Act AUpdate) !! 0%nat = Some (Sent (set_request w (value_of w "#msAddr")))) /\
  (offers w v = true ->
     news E metric_page (step E metric_page w (Act (AMsAddr v))) (Act AUpdate) !! 0%nat =
       Some (Sent (set_request w (Str (choice_text v))))) /\
  (offers w (Str addr) = false -> is_object space = true ->
     field (field data "data") "ms" = Obj [("address", Str addr)] ->
     field (field data "data") "gs" = Obj [("address", Str addr)] -> code_zero data = true ->
     let w' := task E (adjustConfig_done space data) w in
     news E metric_page w' (Act AUpdate) = [Told (Str "ms的监控地址必须跟gw的一致") (Str "请重新设置") "error"]).
Proof.
  assert (forall w, loose_eq (value_of w "#msAddr") (value_of w "#gsAddr") = false ->
     news E metric_page w (Act AUpdate) = [Told (Str "ms的监控地址必须跟gw的一致") (Str "请重新设置") "error"]) as Hno.
  { intros w0 H. unfold news. cbn [step p_handler metric_page metric_handler]. unfold update, val_of, op1, task.
    cbn [bind run exec_op]. fold (value_of w0 "#msAddr") (value_of w0 "#gsAddr"). rewrite H. cbn.
    by rewrite drop_app_length. }
  split_ands.
  - apply Hno.
  - apply update_sends.
  - intros Ho. destruct (msAddr_change_values E w v) as (Hm & Hg & Hc & Hi). rewrite Ho in Hm.
    change (step E metric_page w (Act (AMsAddr v))) with (task E (msAddr_change v) w).
    rewrite update_sends; [|by rewrite Hg, Hm; apply String.eqb_refl]. unfold set_request. by rewrite Hm, Hc, Hi.
  - intros Ho Hs Hms Hgs Hz. apply Hno.
    assert (is_object data = true) as Hd by by destruct data.
    assert (is_object (field data "data") = true) as Hdd by (destruct (field data "data"); by cbn in Hms).
    unfold task, adjustConfig_done, code_is. rewrite !(get_object data) by done. cbn [bind].
    fold (code_zero data). rewrite Hz, (get_object space) by done. unfold set_val, do_op. cbn [bind run exec_op].
    rewrite !(get_object (field data "data")) by done. cbn [bind]. rewrite Hms, Hgs.
    unfold choose, options_of, get_attr, op1, set_val, show_modal, do_op. cbn [bind get get_prop assoc String.eqb Ascii.eqb Bool.eqb run exec_op finish].
    unfold value_of. match goal with |- context [emit ?o ?w0] => change (attr_of (emit o w0)) with (attr_of w0) end.
    repeat (rewrite attr_of_set; first [rewrite decide_True by done | rewrite decide_False by done]).
    change (default Undef (Some (Str addr))) with (Str addr). unfold offers in Ho. by rewrite Ho.
Qed.

Definition metric_world : world :=
  World {[("#msAddr", "options") := Arr [Str "10.0.0.1:8887"; Str "10.0.0.2:8887"]; ("#clusterId", "value") := int 7;
          ("#msInterval", "value") := Str "60"]} ∅ [] ∅ None [] [].

Lemma metric_addresses_agree_witness :
  news offline metric_page (step offline metric_page metric_world (Act (AMsAddr (Str "10.0.0.2:8887")))) (Act AUpdate) !! 0%nat =
    Some (Sent (post_sync "/metric/config/set"
      [("clusterId", int 7); ("metricAddr", Str "10.0.0.2:8887"); ("metricInterval", Str "60")])).
Proof.
  destruct (metric_addresses_agree offline metric_world (Str "10.0.0.2:8887") Undef Undef "") as (_ & _ & H & _).
  apply H. vm_compute. reflexivity.
Defined.
