(* ===== verification/Deploy.v ===== *)
(** * Forms with rows that come and go

    static/js/cluster/source.js (the deployment policy of a cluster: a master room
    and rows for its slaves) and static/js/cluster/applycluster.js (the users of a
    new cluster).  Both add rows to a table and find them again by the numbers in
    their ids; the first numbers a row with the count of the rows there are, the
    second with a counter.

    The rows that AngularJS repeats from the policy ([repeated]) precede those
    that [slaveAdd] appended ([appended]); a repeated row has the number of its
    place.  A row keeps its number, its room and its count of replicas. *)

From S2P Require Import Prelude JsValue Json Browser Logic Contracts Frame Widgets Utils.

(** ** The deployment policy (cluster/source.js) *)

Definition clusterdps : string := "clusterdps".
Definition repeated : string := "#one.repeated".
Definition appended : string := "#one.appended".

Definition slave_row (id : Z) (slave num : val) : val :=
  Obj [("id", int id); ("slave", slave); ("slave_ds_num", num)].

(** The slaves of a policy, as the expressions of the page read them: a missing
    part is no list.  [ng-repeat="slave in clusterdps.master.slaves"]. *)
Definition policy_slaves (policy : val) : list val := elements (field (field policy "master") "slaves").
Definition repeat_rows (slaves : list val) : list val :=
  imap (fun i slave => slave_row (Z.of_nat i + 2) (field slave "room_name") (field slave "ds_num")) slaves.

Definition slave_rows : prog (list val) :=
  r <- get_var repeated ;; a <- get_var appended ;; Ret (elements r ++ elements a).

(** [$("#one tr").length]: the zone, the master and the slaves. *)
Definition one_tr_length : prog Z := rows <- slave_rows ;; Ret (Z.of_nat (length rows) + 2).

Definition clusterDeployPolicy : prog unit :=
  clusterId <- val_of "#clusterId" ;;
  ajax (post_sync "/cluster/clusterDeployPolicy" [("clusterId", clusterId); ("type", Str "get")])
    (fun data =>
       attach <- get data "attach" ;;
       set_var clusterdps attach ;;
       set_var repeated (Arr (repeat_rows (policy_slaves attach))))
    (fun res => m <- get res "message" ;; alert m) ;;
  show_modal "#subDetail".

Definition addSource (type : val) : prog unit :=
  clusterId <- val_of "#clusterId" ;;
  (if loose_eq type (Str "addsource") then goto ("/metadata/resources?clusterId=" +:+ to_str clusterId) else done) ;;
  (if loose_eq type (Str "createdb")
   then goto ("/page/metadata/metadatacreatedb?clusterId=" +:+ to_str clusterId) else done) ;;
  (if loose_eq type (Str "createtable")
   then goto ("/page/metadata/metadatacreatetable?clusterId=" +:+ to_str clusterId) else done).

(** A new row has the first room and no count. *)
Definition slaveAdd : prog unit :=
  _len <- one_tr_length ;;
  a <- get_var appended ;;
  set_var appended (Arr (elements a ++ [slave_row _len (Str "廊坊") (Str "")])).

Definition has_id (id : Z) (row : val) : bool := strict_eq (field row "id") (int id).

(** [splice(index - 2, 1)] on the slaves, which are repeated again, and
    [remove()] on the rows with that number. *)
Definition slaveDel (index : Z) : prog unit :=
  policy <- get_var clusterdps ;;
  master <- get policy "master" ;;
  slaves <- get master "slaves" ;;
  n <- get slaves "length" ;;
  r <- get_var repeated ;;
  set_var repeated
    (Arr (imap (fun i row => slave_row (Z.of_nat i + 2) (field row "slave") (field row "slave_ds_num"))
            (delete (Z.to_nat (index - 2)) (elements r)))) ;;
  set_var clusterdps
    (set_prop "master" (set_prop "slaves" (Arr (delete (Z.to_nat (index - 2)) (elements slaves))) master) policy) ;;
  a <- get_var appended ;;
  set_var appended (Arr (List.filter (fun row => negb (has_id index row)) (elements a))).

(** [$('#slave' + i).val()] and [$('#slave_ds_num' + i).val()]: the first row with
    that number, if there is one. *)
Definition slave_field (rows : list val) (i : Z) (k : string) : val :=
  from_option (fun row => field row k) Undef (List.find (has_id i) rows).

(** One turn of the loop over the rows. *)
Definition slavelist (rows : list val) (i : Z) : val :=
  Obj [("master", slave_field rows i "slave"); ("ds_num", parse_int (slave_field rows i "slave_ds_num")); ("sync", int 1)].

Definition slave_array (rows : list val) (_len : Z) : val :=
  if _len >? 2 then Arr (List.map (slavelist rows) (zrange 2 (Z.to_nat (_len - 2)))) else Undef.

Definition policy_json (zone_name master ds_num array : val) : val :=
  Obj [("master",
    Obj [("zone_name", zone_name);
         ("master", Obj [("room_name", master); ("ds_num", parse_int ds_num); ("sync", int 1)]);
         ("slaves", array)])].

Definition saveClusterDeployPolicy : prog unit :=
  clusterId <- val_of "#clusterId" ;;
  zone_name <- val_of "#zone_name" ;;
  _len <- one_tr_length ;;
  master <- val_of "#master" ;;
  ds_num <- val_of "#ds_num" ;;
  rows <- slave_rows ;;
  ajax (post "/cluster/clusterDeployPolicy"
          [("clusterId", clusterId); ("type", Str "set");
           ("deployPolicy", json (policy_json zone_name master ds_num (slave_array rows _len)))])
    (fun data => attach <- get data "attach" ;; m <- get attach "message" ;; alert m)
    (fun res => m <- get res "message" ;; alert m).

(** The user fills a row in. *)
Definition edit_row (place : string) (i : nat) (slave num : val) : prog unit :=
  l <- get_var place ;;
  set_var place (Arr (alter (fun row => set_prop "slave" slave (set_prop "slave_ds_num" num row)) i (elements l))).

Inductive deploy_action : Type :=
| ADeployPolicy | AAddSource (type : val) | ASlaveAdd | ASlaveDel (index : Z) | ASavePolicy
| AEditRepeated (i : nat) (slave num : val) | AEditAppended (i : nat) (slave num : val).

Definition deploy_handler (a : deploy_action) : prog unit :=
  match a with
  | ADeployPolicy => clusterDeployPolicy
  | AAddSource type => addSource type
  | ASlaveAdd => slaveAdd
  | ASlaveDel i => slaveDel i
  | ASavePolicy => saveClusterDeployPolicy
  | AEditRepeated i s n => edit_row repeated i s n
  | AEditAppended i s n => edit_row appended i s n
  end.

Definition deploy_page : page :=
  {| p_action := deploy_action; p_load := done; p_handler := deploy_handler |}.

(** ** The users of a new cluster (cluster/applycluster.js) *)

(** The counter [i] and the numbers of the rows [user_1], [user_2], ... *)
Record user_rows := UserRows { counter : Z; users : list Z }.

Definition userLableCtrl : user_rows := UserRows 1 [].
Definition addUser (s : user_rows) : user_rows := UserRows (counter s + 1) (users s ++ [counter s]).
Definition removeUser (obj : Z) (s : user_rows) : user_rows :=
  UserRows (counter s) (List.filter (fun n => negb (n =? obj)) (users s)).

Inductive user_event : Type := EAddUser | ERemoveUser (obj : Z).

Definition user_step (s : user_rows) (e : user_event) : user_rows :=
  match e with EAddUser => addUser s | ERemoveUser n => removeUser n s end.

(** The answers show a message inside [attach], the failures one of their own. *)
Definition deploy_policy : policy := {|
  guard := fun _ => [];
  burst := 1;
  follow_up := 0;
  watched := fun r res =>
    match res with Success d => is_object d && is_object (field d "attach") | Failure x _ => is_object x end;
  heard := fun _ _ => false;
  verdict := fun _ => code_zero
|}.

#[export] Instance deploy_page_promising : Promising deploy_page deploy_policy.
Proof. keeps_promises. Qed.

(** ** The numbers of the rows *)

(** The rows are numbered from 2 on, in order. *)
Definition numbered (rows : list val) : Prop := imap (fun i row => field row "id") rows = imap (fun i _ => int (Z.of_nat i + 2)) rows.

(** What is saved of a row. *)
Definition entry (row : val) : val :=
  Obj [("master", field row "slave"); ("ds_num", parse_int (field row "slave_ds_num")); ("sync", int 1)].

Lemma numbered_lookup rows i row : numbered rows -> rows !! i = Some row -> field row "id" = int (Z.of_nat i + 2).
Proof.
  intros Hn Hi. pose proof (f_equal (fun l => l !! i) Hn) as H. cbn in H.
  rewrite !list_lookup_imap, Hi in H. cbn in H. congruence.
Qed.

Lemma numbered_intro rows :
  (forall i row, rows !! i = Some row -> field row "id" = int (Z.of_nat i + 2)) -> numbered rows.
Proof.
  intros H. apply list_eq. intros i. rewrite !list_lookup_imap.
  destruct (rows !! i) as [row|] eqn:E; cbn; [|done]. by rewrite (H i row).
Qed.

Lemma has_id_int i j row : field row "id" = int j -> has_id i row = (j =? i).
Proof. unfold has_id. by intros ->. Qed.

(** The row found under a number is the one at its place. *)
Lemma find_place rows i j k :
  (forall n row, rows !! n = Some row -> field row "id" = int (Z.of_nat (n + k) + 2)) ->
  i = Z.of_nat (j + k) + 2 -> List.find (has_id i) rows = rows !! j.
Proof.
  revert j k. induction rows as [|row rows IH]; intros j k Hn Hi; [done|].
  cbn [List.find]. rewrite (has_id_int i (Z.of_nat k + 2)) by exact (Hn 0%nat row eq_refl).
  destruct j as [|j].
  - by destruct (Z.eqb_spec (Z.of_nat k + 2) i); [|lia].
  - destruct (Z.eqb_spec (Z.of_nat k + 2) i); [lia|]. cbn. apply (IH j (S k)); [|lia].
    intros m r Hr. rewrite (Hn (S m) r Hr). do 2 f_equal. lia.
Qed.

Lemma find_numbered rows i : numbered rows -> List.find (has_id (Z.of_nat i + 2)) rows = rows !! i.
Proof.
  intros Hn. apply (find_place rows _ i 0); [|lia].
  intros n row Hr. rewrite (numbered_lookup rows n row Hn Hr). do 2 f_equal. lia.
Qed.

(** On numbered rows the loop saves every row once, in order. *)
Lemma slave_array_numbered rows :
  numbered rows ->
  slave_array rows (Z.of_nat (length rows) + 2) = match rows with [] => Undef | _ => Arr (List.map entry rows) end.
Proof.
  intros Hn. unfold slave_array. destruct rows as [|row rows]; [done|].
  set (l := row :: rows) in *. rewrite (proj2 (Z.gtb_lt _ _)) by (cbn; lia). f_equal.
  replace (Z.to_nat (Z.of_nat (length l) + 2 - 2)) with (length l) by lia.
  apply list_eq. intros i. unfold zrange. rewrite !list_lookup_fmap.
  destruct (decide (i < length l)%nat) as [Hi|Hi].
  - rewrite lookup_seq_lt by done. cbn. destruct (lookup_lt_is_Some_2 l i Hi) as [r Hr]. rewrite Hr. cbn.
    unfold slavelist, slave_field. replace (2 + Z.of_nat i) with (Z.of_nat i + 2) by lia.
    by rewrite find_numbered, Hr.
  - rewrite lookup_seq_ge by lia. by rewrite (proj2 (lookup_ge_None l i)) by lia.
Qed.

(** ** What is saved *)

Definition var_list (w : world) (x : string) : list val := elements (default Undef (w_vars w !! x)).
Definition form_rows (w : world) : list val := var_list w repeated ++ var_list w appended.

(** The request that saves [array] with the other fields of the form. *)
Definition save_request (w : world) (array : val) : request :=
  post "/cluster/clusterDeployPolicy"
    [("clusterId", value_of w "#clusterId"); ("type", Str "set");
     ("deployPolicy", json (policy_json (value_of w "#zone_name") (value_of w "#master") (value_of w "#ds_num") array))].

Lemma save_sends E w :
  news E deploy_page w (Act ASavePolicy) =
    [Sent (save_request w (slave_array (form_rows w) (Z.of_nat (length (form_rows w)) + 2)))].
Proof. unfold news. cbn. by rewrite drop_app_length. Qed.

(** The callbacks of the page leave the rows alone. *)
Definition form_ok (w : world) : Prop :=
  numbered (form_rows w) /\ world_writes_not repeated w /\ world_writes_not appended w.

(** Events other than the ones that load the policy again or delete a row. *)
Definition adds (ev : event deploy_action) : bool :=
  match ev with Act (ADeployPolicy | ASlaveDel _) => false | _ => true end.

Lemma numbered_snoc rows slave num :
  numbered rows -> numbered (rows ++ [slave_row (Z.of_nat (length rows) + 2) slave num]).
Proof.
  intros Hn. apply numbered_intro. intros i row. rewrite lookup_app_Some.
  intros [Hi|[Hl Hi]]; [by apply (numbered_lookup rows)|].
  destruct (i - length rows)%nat as [|m] eqn:Em; [|done]. injection Hi as <-.
  replace i with (length rows) by lia. done.
Qed.

(** Rows that keep their numbers. *)
Lemma numbered_same rows rows' :
  Forall2 (fun row row' => field row' "id" = field row "id") rows rows' -> numbered rows -> numbered rows'.
Proof.
  intros Hs Hn. apply numbered_intro. intros i row' Hi.
  destruct (Forall2_lookup_r _ _ _ _ _ Hs Hi) as (row & Hr & ->). by apply (numbered_lookup rows).
Qed.

Lemma same_ids_refl (l : list val) : Forall2 (fun row row' => field row' "id" = field row "id") l l.
Proof. induction l; by constructor. Qed.

Lemma edited_same_ids l i slave num :
  Forall2 (fun row row' => field row' "id" = field row "id") l
    (alter (fun row => set_prop "slave" slave (set_prop "slave_ds_num" num row)) i l).
Proof.
  revert i. induction l as [|row l IH]; intros [|i]; cbn; constructor; try done.
  - by rewrite !field_set_ne.
  - apply same_ids_refl.
Qed.

Lemma framed_ok E w ev :
  (forall a, ev = Act a -> writes_not repeated (deploy_handler a) /\ writes_not appended (deploy_handler a)) ->
  form_ok w -> form_ok (step E deploy_page w ev).
Proof.
  intros Ha (Hn & Hr & Hp).
  destruct (event_keeps E deploy_page w ev repeated) as [Hvr Hr']; [by intros a Hev; apply Ha|done|].
  destruct (event_keeps E deploy_page w ev appended) as [Hva Hp']; [by intros a Hev; apply Ha|done|].
  split; [|done]. unfold form_rows, var_list. unfold var_of in *. by rewrite Hvr, Hva.
Qed.

Lemma adds_ok E w ev : adds ev = true -> form_ok w -> form_ok (step E deploy_page w ev).
Proof.
  intros Hev Hok. pose proof Hok as (Hn & Hr & Hp).
  destruct ev as [a|input| |i res|sel v|tbl i b|tbl rows]; [|by apply framed_ok..].
  destruct a as [|type| |i| |i slave num|i slave num]; try done; try (by apply framed_ok; [intros a [= <-]; split; frame_run|done]).
  - split; [|done]. unfold form_rows, var_list. cbn. rewrite lookup_insert_eq, lookup_insert_ne by done.
    cbn. rewrite app_assoc. by apply numbered_snoc.
  - split; [|done]. unfold form_rows, var_list. cbn. rewrite lookup_insert_eq, lookup_insert_ne by done.
    eapply numbered_same, Hn. apply Forall2_app; [apply edited_same_ids|]. apply same_ids_refl.
  - split; [|done]. unfold form_rows, var_list. cbn. rewrite lookup_insert_eq, lookup_insert_ne by done.
    eapply numbered_same, Hn. apply Forall2_app; [apply same_ids_refl|apply edited_same_ids].
Qed.

Lemma repeat_rows_numbered slaves : numbered (repeat_rows slaves).
Proof.
  apply numbered_intro. intros i row. unfold repeat_rows. rewrite list_lookup_imap.
  destruct (slaves !! i); cbn; [|done]. by intros [= <-].
Qed.

Lemma loaded_ok E attrs : form_ok (step E deploy_page (boot E deploy_page attrs) (Act ADeployPolicy)).
Proof.
  cbn. unfold task. cbn. destruct (e_server E _ _) as [data|x st]; unfold get.
  - destruct (get_prop data "attach") as [attach|]; [|by split; [apply numbered_intro|]].
    split; [|done]. unfold form_rows, var_list. cbn. rewrite lookup_insert_eq, !lookup_insert_ne, lookup_empty by done.
    cbn. rewrite app_nil_r. apply repeat_rows_numbered.
  - destruct (get_prop x "message"); by split; [apply numbered_intro|].
Qed.

Lemma steps_ok E w evs : forallb adds evs = true -> form_ok w -> form_ok (steps E deploy_page w evs).
Proof.
  revert w. induction evs as [|ev evs IH]; intros w Hev Hok; [done|]. cbn in Hev. split_andb.
  apply (IH (step E deploy_page w ev)); [done|]. by apply adds_ok.
Qed.

(** ** Theorems *)

(** C35: the deployment policy is saved as it stands in the form: after it was
    loaded, however many slaves were added and filled in, whatever the server
    answered, saving sends one request with one entry for every row, in order
    (and no list at all if there is no row). *)
Theorem deploy_policy_saved (E : env) (attrs : gmap (string * string) val) (evs : list (event deploy_action)) :
  forallb adds evs = true ->
  let w := steps E deploy_page (boot E deploy_page attrs) (Act ADeployPolicy :: evs) in
  news E deploy_page w (Act ASavePolicy) =
    [Sent (save_request w match form_rows w with [] => Undef | rows => Arr (List.map entry rows) end)].
Proof.
  intros Hev. cbv zeta. set (w := steps _ _ _ _). rewrite save_sends.
  rewrite slave_array_numbered; [by destruct (form_rows w)|]. apply (steps_ok E _ evs Hev (loaded_ok E attrs)).
Qed.

Definition two_slaves : list (event deploy_action) :=
  [Act ASlaveAdd; Act (AEditAppended 0 (Str "马驹桥") (Str "3")); Act ASlaveAdd;
   Act (AEditAppended 1 (Str "廊坊润泽") (Str "5"))].

Lemma deploy_policy_saved_witness :
  let w := steps offline deploy_page (boot offline deploy_page ∅) (Act ADeployPolicy :: two_slaves) in
  news offline deploy_page w (Act ASavePolicy) =
    [Sent (save_request w (Arr
       [Obj [("master", Str "马驹桥"); ("ds_num", int 3); ("sync", int 1)];
        Obj [("master", Str "廊坊润泽"); ("ds_num", int 5); ("sync", int 1)]]))].
Proof. exact (deploy_policy_saved offline ∅ two_slaves eq_refl). Defined.

(** ** Deleting rows *)

Lemma has_id_true i row : has_id i row = true <-> field row "id" = int i.
Proof. apply strict_eq_int. Qed.

Lemma find_filtered i j l :
  List.find (has_id i) (List.filter (fun r => negb (has_id j r)) l) = if i =? j then None else List.find (has_id i) l.
Proof.
  induction l as [|r l IH]; cbn; [by destruct (i =? j)|].
  destruct (has_id j r) eqn:Ej; cbn; rewrite IH.
  - destruct (Z.eqb_spec i j); [done|]. destruct (has_id i r) eqn:Ei; [|done].
    apply has_id_true in Ei, Ej. rewrite Ei in Ej. unfold int in Ej. congruence.
  - destruct (Z.eqb_spec i j) as [->|]; [by rewrite Ej|done].
Qed.

(** Numbered rows lose one row. *)
Lemma filtered_length l i k :
  (forall n row, l !! n = Some row -> field row "id" = int (Z.of_nat (n + k) + 2)) ->
  (i < length l)%nat ->
  S (length (List.filter (fun r => negb (has_id (Z.of_nat (i + k) + 2) r)) l)) = length l.
Proof.
  revert i k. induction l as [|r l IH]; intros i k Hn Hi; [cbn in Hi; lia|]. cbn [List.filter length].
  rewrite (has_id_int _ (Z.of_nat k + 2)) by exact (Hn 0%nat r eq_refl).
  assert (forall n row, l !! n = Some row -> field row "id" = int (Z.of_nat (n + S k) + 2)) as Hn'.
  { intros n row Hr. rewrite (Hn (S n) row Hr). do 2 f_equal. lia. }
  destruct i as [|i].
  - rewrite Z.eqb_refl. cbn [negb]. f_equal. f_equal. apply forallb_filter_id, forallb_forall.
    intros row (n & Hr)%list_elem_of_In%list_elem_of_lookup. rewrite (has_id_int _ _ _ (Hn' n row Hr)).
    by destruct (Z.eqb_spec (Z.of_nat (n + S k) + 2) (Z.of_nat (0 + k) + 2)); [lia|].
  - destruct (Z.eqb_spec (Z.of_nat k + 2) (Z.of_nat (S i + k) + 2)); [lia|]. cbn [negb length].
    f_equal. replace (S i + k)%nat with (i + S k)%nat by lia. apply (IH i (S k)); [done|cbn in Hi; lia].
Qed.

(** Rows that are saved alike. *)
Definition alike (row row' : val) : Prop :=
  field row' "id" = field row "id" /\ field row' "slave" = field row "slave" /\
  field row' "slave_ds_num" = field row "slave_ds_num".

Lemma alike_slavelist l l' i : Forall2 alike l l' -> slavelist l' i = slavelist l i.
Proof.
  intros Hl. assert (slave_field l' i "slave" = slave_field l i "slave" /\
    slave_field l' i "slave_ds_num" = slave_field l i "slave_ds_num") as [H1 H2].
  { unfold slave_field. induction Hl as [|r r' l l' (Hid & Hs & Hd) Hl IH]; [done|]. cbn.
    unfold has_id at 1 3 5 7. rewrite Hid. by destruct (strict_eq _ _). }
  unfold slavelist. by rewrite H1, H2.
Qed.

Lemma renumbered_alike l :
  numbered l ->
  Forall2 alike l (imap (fun i row => slave_row (Z.of_nat i + 2) (field row "slave") (field row "slave_ds_num")) l).
Proof.
  intros Hn. apply Forall2_same_length_lookup. rewrite length_imap. split; [done|].
  intros i r r' Hr. rewrite list_lookup_imap, Hr. cbn. intros [= <-].
  unfold alike. by rewrite (numbered_lookup l i r Hn Hr).
Qed.

Lemma slaveDel_task E w j policy master slaves :
  w_vars w !! clusterdps = Some policy -> get_prop policy "master" = Some master ->
  get_prop master "slaves" = Some (Arr slaves) ->
  let w' := task E (slaveDel j) w in
  var_list w' repeated =
    imap (fun i row => slave_row (Z.of_nat i + 2) (field row "slave") (field row "slave_ds_num"))
      (delete (Z.to_nat (j - 2)) (var_list w repeated)) /\
  var_list w' appended = List.filter (fun row => negb (has_id j row)) (var_list w appended) /\
  w_attrs w' = w_attrs w.
Proof.
  intros Hp Hm Hs. cbv zeta. unfold task, slaveDel, get_var, op1, get. cbn [bind run exec_op]. rewrite Hp.
  change (default Undef (Some policy)) with policy. rewrite Hm. cbn [bind]. rewrite Hs. cbn [bind get_prop String.eqb Ascii.eqb Bool.eqb].
  unfold set_var, do_op. cbn [bind run exec_op finish set_vars w_vars w_attrs fst snd].
  unfold var_list. cbn [finish set_vars w_vars]. split_ands; [|..|done].
  - by rewrite !lookup_insert_ne, lookup_insert_eq by done.
  - by rewrite lookup_insert_eq, !lookup_insert_ne by done.
Qed.

(** Reading the numbers up to the count of the rows that are left. *)
Lemma slave_array_filtered rows k :
  numbered rows -> (k + 1 < length rows)%nat ->
  slave_array (List.filter (fun row => negb (has_id (Z.of_nat k + 2) row)) rows) (Z.of_nat (length rows) + 1) =
  Arr (List.map entry (take k rows ++ [Obj []] ++ take (length rows - k - 2) (drop (S k) rows))).
Proof.
  intros Hn Hk. unfold slave_array. rewrite (proj2 (Z.gtb_lt _ _)) by lia. f_equal.
  replace (Z.to_nat (Z.of_nat (length rows) + 1 - 2)) with (length rows - 1)%nat by lia.
  apply list_eq. intros i. unfold zrange. rewrite !list_lookup_fmap.
  destruct (decide (i < length rows - 1)%nat) as [Hi|Hi].
  2:{ rewrite lookup_seq_ge by lia. rewrite (proj2 (lookup_ge_None _ i)); [done|].
      rewrite length_app, length_take. cbn. rewrite length_take, length_drop. lia. }
  rewrite lookup_seq_lt by done. cbn [fmap option_fmap option_map].
  replace (2 + Z.of_nat (0 + i)) with (Z.of_nat i + 2) by lia. unfold slavelist, slave_field.
  rewrite find_filtered, find_numbered by done. destruct (Z.eqb_spec (Z.of_nat i + 2) (Z.of_nat k + 2)) as [He|He].
  - replace i with k by lia. by rewrite lookup_app_r, length_take_le, Nat.sub_diag by (rewrite ?length_take; lia).
  - destruct (lookup_lt_is_Some_2 rows i ltac:(lia)) as [r Hr]. rewrite Hr.
    assert ((take k rows ++ [Obj []] ++ take (length rows - k - 2) (drop (S k) rows)) !! i = Some r) as ->; [|done].
    destruct (decide (i < k)%nat).
    + rewrite lookup_app_l, lookup_take_lt by (rewrite ?length_take; lia). done.
    + rewrite lookup_app_r, length_take_le by (rewrite ?length_take; lia).
      cbn [app]. rewrite lookup_cons_ne_0, lookup_take_lt, lookup_drop by lia. rewrite <- Hr. f_equal. lia.
Qed.

(** What is left on the form is, row by row, what was not deleted. *)
Lemma deleted_alike w w' k :
  numbered (form_rows w) -> (length (var_list w repeated) <= k)%nat ->
  var_list w' repeated =
    imap (fun i row => slave_row (Z.of_nat i + 2) (field row "slave") (field row "slave_ds_num"))
      (delete k (var_list w repeated)) ->
  var_list w' appended = List.filter (fun row => negb (has_id (Z.of_nat k + 2) row)) (var_list w appended) ->
  Forall2 alike (List.filter (fun row => negb (has_id (Z.of_nat k + 2) row)) (form_rows w)) (form_rows w').
Proof.
  intros Hn Hk Hr Ha. unfold form_rows in *. rewrite Hr, Ha, List.filter_app.
  rewrite delete_take_drop, take_ge, drop_ge, app_nil_r by lia.
  assert (forall i row, var_list w repeated !! i = Some row -> field row "id" = int (Z.of_nat i + 2)) as Hi.
  { intros i row Hrow. apply (numbered_lookup _ i row Hn). by apply lookup_app_l_Some. }
  apply Forall2_app; [|apply Forall2_same_length_lookup; split; [done|]; intros i r r' Hx Hy; rewrite Hx in Hy; by simplify_eq].
  rewrite forallb_filter_id; [by apply renumbered_alike, numbered_intro|].
  apply forallb_forall. intros row (n & Hrow)%list_elem_of_In%list_elem_of_lookup.
  rewrite (has_id_int _ _ _ (Hi n row Hrow)). apply lookup_lt_Some in Hrow.
  by destruct (Z.eqb_spec (Z.of_nat n + 2) (Z.of_nat k + 2)); [lia|].
Qed.

(** Deleting a row that was added, when another one follows it, spoils what is
    saved.  The rows keep the numbers they were added with, but saving counts the
    rows and reads the numbers from 2 up to that count: the entry of the deleted
    row is saved without a room and without a count, and the last row is not saved
    at all. *)
Theorem slave_deletion_loses_row (E : env) (w : world) (k : nat) (policy master : val) (slaves : list val) :
  numbered (form_rows w) ->
  w_vars w !! clusterdps = Some policy -> get_prop policy "master" = Some master ->
  get_prop master "slaves" = Some (Arr slaves) ->
  (length (var_list w repeated) <= k)%nat -> (k + 1 < length (form_rows w))%nat ->
  let rows := form_rows w in
  news E deploy_page (step E deploy_page w (Act (ASlaveDel (Z.of_nat k + 2)))) (Act ASavePolicy) =
    [Sent (save_request w (Arr (List.map entry
       (take k rows ++ [Obj []] ++ take (length rows - k - 2) (drop (S k) rows)))))].
Proof.
  intros Hn Hp Hm Hs Hk Hlt. cbv zeta. set (w' := step _ _ _ _).
  destruct (slaveDel_task E w (Z.of_nat k + 2) policy master slaves Hp Hm Hs) as (Hr & Ha & Hat).
  change (task E (slaveDel (Z.of_nat k + 2)) w) with w' in Hr, Ha, Hat.
  replace (Z.to_nat (Z.of_nat k + 2 - 2)) with k in Hr by lia.
  pose proof (deleted_alike w w' k Hn Hk Hr Ha) as Hal.
  assert (S (length (form_rows w')) = length (form_rows w)) as Hlen.
  { rewrite <- (Forall2_length Hal). pose proof (filtered_length (form_rows w) k 0) as Hf. rewrite Nat.add_0_r in Hf. apply Hf; [|lia].
    intros n row Hrow. rewrite (numbered_lookup _ n row Hn Hrow). do 2 f_equal. lia. }
  rewrite save_sends. unfold save_request. replace (value_of w') with (value_of w)
    by (unfold value_of, attr_of; by rewrite Hat).
  assert (slave_array (form_rows w') (Z.of_nat (length (form_rows w')) + 2) =
    slave_array (List.filter (fun row => negb (has_id (Z.of_nat k + 2) row)) (form_rows w))
      (Z.of_nat (length (form_rows w)) + 1)) as ->; [|by rewrite slave_array_filtered].
  replace (Z.of_nat (length (form_rows w')) + 2) with (Z.of_nat (length (form_rows w)) + 1) by lia.
  unfold slave_array. case_match; [|done]. f_equal. apply List.map_ext. intros i. by apply alike_slavelist.
Qed.

Definition lost_policy : val := Obj [("master", Obj [("slaves", Arr [])])].
Definition lost_world : world :=
  World ∅ {[clusterdps := lost_policy; repeated := Arr [];
            appended := Arr [slave_row 2 (Str "马驹桥") (Str "3"); slave_row 3 (Str "廊坊") (Str "5")]]} [] ∅ None [] [].

Lemma slave_deletion_loses_row_witness :
  news offline deploy_page (step offline deploy_page lost_world (Act (ASlaveDel 2))) (Act ASavePolicy) =
    [Sent (save_request lost_world (Arr [Obj [("master", Undef); ("ds_num", Num NaN); ("sync", int 1)]]))].
Proof.
  apply (slave_deletion_loses_row offline lost_world 0 lost_policy (Obj [("slaves", Arr [])]) []);
    [reflexivity..|apply Nat.leb_le; reflexivity|apply Nat.ltb_lt; reflexivity].
Defined.

(** ** The users of a new cluster *)

(** The numbers in use are distinct and below the counter. *)
Record user_ok (s : user_rows) : Prop := UserOk {
  users_distinct : NoDup (users s);
  users_below : Forall (fun n => 1 <= n < counter s) (users s);
  counter_positive : 1 <= counter s
}.

(** The states of the form. *)
Inductive user_reachable : user_rows -> Prop :=
| user_init : user_reachable userLableCtrl
| user_next s e : user_reachable s -> user_reachable (user_step s e).

Lemma user_reachable_ok s : user_reachable s -> user_ok s.
Proof.
  induction 1 as [|s [|n] _ [Hd Hb Hp]]; cbn.
  - split; [constructor|constructor|cbn; lia].
  - split; cbn; [|apply Forall_app; split; [eapply Forall_impl; [|exact Hb]; cbn; lia|constructor; [lia|constructor]]|lia].
    apply list.NoDup_app. split_ands; [done| |apply list.NoDup_singleton]. intros m Hm Hc%list_elem_of_singleton. subst m.
    rewrite Forall_forall in Hb. apply list_elem_of_In, Hb in Hm. lia.
  - split; cbn; [|rewrite Forall_forall in *; intros m [Hm _]%filter_In; auto|done].
    apply NoDup_ListNoDup, List.NoDup_filter. by apply NoDup_ListNoDup.
Qed.

(** The rows for the users of a new cluster never share a number: whatever rows
    were added and removed before, the minus button of a row removes that row and
    no other, in every state of the form. *)
Theorem user_row_removed (s : user_rows) (n : Z) (l1 l2 : list Z) :
  user_reachable s -> users s = l1 ++ n :: l2 -> users (user_step s (ERemoveUser n)) = l1 ++ l2.
Proof.
  intros [Hd _ _]%user_reachable_ok Hs. cbn. rewrite Hs in *.
  apply list.NoDup_app in Hd as (_ & H1 & H2). inversion_clear H2 as [|? ? Hn _].
  rewrite List.filter_app. cbn. rewrite Z.eqb_refl. cbn. f_equal; apply forallb_filter_id, forallb_forall;
    intros m Hm%list_elem_of_In; destruct (Z.eqb_spec m n) as [->|]; try done.
  - destruct (H1 n Hm). by left.
Qed.

Lemma user_row_removed_witness :
  users (user_step (user_step (user_step (user_step userLableCtrl EAddUser) EAddUser) EAddUser) (ERemoveUser 2)) = [1; 3].
Proof.
  apply (user_row_removed _ 2 [1] [3]); [|reflexivity].
  repeat apply user_next. apply user_init.
Defined.
