(* ===== verification/Backend.v ===== *)
(** * The server of the console

    The Go side of the console as the pages meet it: the routes of
    console/routers/router.go, the checks with which the actions of
    console/controllers start, and the answers of [handleAction].  What an action
    does after its checks is a call of the service layer, a parameter here
    ([service]).  The sign-on filter and the privileges of the page group are not
    modelled. *)

From S2P Require Import Prelude JsValue Json Browser Urls.
From Stdlib Require Import Ascii.

(** ** Errors (console/common/errors.go) *)

Record fbase_error := FbaseError { fe_code : Z; fe_msg : string }.

Definition OK := FbaseError 0 "success".
Definition INTERNAL_ERROR := FbaseError 1 "internal error".
Definition DB_ERROR := FbaseError 2 "db error".
Definition HTTP_REQUEST_ERROR := FbaseError 3 "send http request is failed".
Definition PARSE_PARAM_ERROR := FbaseError 4 "parse parameters error".
Definition PARAM_FORMAT_ERROR := FbaseError 5 "parameters format error".
Definition CLUSTER_NOTEXISTS_ERROR := FbaseError 6 "cluster not exists".
Definition CLUSTER_DUPCREATE_ERROR := FbaseError 7 "create duplicated cluster".
Definition TABLE_NOT_EXISTS := FbaseError 8 "table not exists".
Definition NO_DATA := FbaseError 9 "no data".
Definition NO_RIGHT := FbaseError 10 "no right, please contact sharkstore team".
Definition NO_USER := FbaseError 11 "please login retry".

Definition errors : list fbase_error :=
  [INTERNAL_ERROR; DB_ERROR; HTTP_REQUEST_ERROR; PARSE_PARAM_ERROR; PARAM_FORMAT_ERROR; CLUSTER_NOTEXISTS_ERROR;
   CLUSTER_DUPCREATE_ERROR; TABLE_NOT_EXISTS; NO_DATA; NO_RIGHT; NO_USER].

(** An error of an action: one of the console's, one of the database driver, or
    another one.  The console's carry a code of the table, some with the message of
    the server behind. *)
Inductive go_error : Type :=
| Fbase (e : fbase_error)
| MySql (message : string)
| Other (message : string).

Definition response (code : Z) (msg : string) (data : val) : val :=
  Obj [("code", int code); ("msg", Str msg); ("data", data)].

(** [handleAction]: the JSON that is sent with status 200. *)
Definition handleAction (res : go_error + val) : val :=
  match res with
  | inl (Fbase e) => response (fe_code e) (fe_msg e) (Str "")
  | inl (MySql message) => response (fe_code INTERNAL_ERROR) message (Str "")
  | inl (Other _) => response (fe_code INTERNAL_ERROR) (fe_msg INTERNAL_ERROR) (Str "")
  | inr data => response (fe_code OK) (fe_msg OK) data
  end.

(** ** Go's numbers and JSON *)

Definition nonempty_digits (s : string) : bool := negb (String.eqb s "") && str_forall is_digit s.

(** [strconv.Atoi] and [strconv.ParseUint(s, 10, 64)]. *)
Definition atoi (s : string) : option Z :=
  let '(sign, d) :=
    match s with
    | String a s' => if Ascii.eqb a "-" then (-1, s') else if Ascii.eqb a "+" then (1, s') else (1, s)
    | EmptyString => (1, s)
    end in
  if nonempty_digits d then
    z ← Z_of_string d;
    if (- 2 ^ 63 <=? sign * z) && (sign * z <? 2 ^ 63) then Some (sign * z) else None
  else None.
Definition parse_uint (s : string) : option Z :=
  if nonempty_digits s then z ← Z_of_string s; if z <? 2 ^ 64 then Some z else None else None.

(** The types that the actions decode into. *)
Inductive gotype : Type :=
| GString | GInt | GUint64 | GBool | GAny
| GSlice (t : gotype)
| GStruct (fields : list (string * gotype)).

Fixpoint zero (t : gotype) : val :=
  match t with
  | GString => Str ""
  | GInt | GUint64 => int 0
  | GBool => Bool false
  | GAny => Null
  | GSlice _ => Arr []
  | GStruct fields => Obj (List.map (fun '(k, t) => (k, zero t)) fields)
  end.

(** The member of an object for a field; the case of the name does not matter, and
    the last one counts. *)
Definition member (name : string) (fs : list (string * val)) : option val :=
  List.fold_left (fun acc '(k, v) => if String.eqb (to_lower k) (to_lower name) then Some v else acc) fs None.

(** [json.Unmarshal] of a JSON value into a fresh variable; [null] leaves the zero
    value, and other members of an object are ignored. *)
Fixpoint unmarshal (t : gotype) (v : val) : option val :=
  match v with
  | Null => Some (zero t)
  | _ =>
      match t with
      | GString => match v with Str s => Some (Str s) | _ => None end
      | GInt => match v with Num (Fin z) => if (- 2 ^ 63 <=? z) && (z <? 2 ^ 63) then Some v else None | _ => None end
      | GUint64 => match v with Num (Fin z) => if (0 <=? z) && (z <? 2 ^ 64) then Some v else None | _ => None end
      | GBool => match v with Bool b => Some (Bool b) | _ => None end
      | GAny => Some v
      | GSlice t' => match v with Arr l => Arr <$> mapM (unmarshal t') l | _ => None end
      | GStruct fields =>
          match v with
          | Obj fs =>
              Obj <$> (fix go (fields : list (string * gotype)) : option (list (string * val)) :=
                match fields with
                | [] => Some []
                | (k, t') :: fields' =>
                    x ← match member k fs with Some w => unmarshal t' w | None => Some (zero t') end;
                    l ← go fields';
                    Some ((k, x) :: l)
                end) fields
          | _ => None
          end
      end
  end.

Definition unmarshal_text (t : gotype) (s : string) : option val := v ← parse s; unmarshal t v.

(** ** The checks of an action *)

(** [c.Query(k)], [c.PostForm(k)], or a text of the session. *)
Inductive param : Type :=
| Query (k : string)
| PostForm (k : string)
| Session (k : string).

(** A check and the error it ends the action with. *)
Inductive check : Type :=
| Given (ps : list param) (e : fbase_error)
| OneGiven (ps : list param) (e : fbase_error)
| Number (ps : list param) (e : fbase_error)
| Unsigned (p : param) (e : fbase_error)
| NumberIfGiven (p : param) (e : fbase_error)
| OneOf (p : param) (texts : list string) (e : fbase_error)
| Unless (p : param) (text : string) (c : check)
| Unmarshal (p : param) (t : gotype) (e : fbase_error).

Fixpoint passes (ps : param -> string) (c : check) : option fbase_error :=
  let unless (ok : bool) (e : fbase_error) := if ok then None else Some e in
  match c with
  | Given l e => unless (forallb (fun p => negb (String.eqb (ps p) "")) l) e
  | OneGiven l e => unless (existsb (fun p => negb (String.eqb (ps p) "")) l) e
  | Number l e => unless (forallb (fun p => bool_decide (is_Some (atoi (ps p)))) l) e
  | Unsigned p e => unless (bool_decide (is_Some (parse_uint (ps p)))) e
  | NumberIfGiven p e => unless (String.eqb (ps p) "" || bool_decide (is_Some (atoi (ps p)))) e
  | OneOf p texts e => unless (existsb (String.eqb (ps p)) texts) e
  | Unless p text c => if String.eqb (ps p) text then None else passes ps c
  | Unmarshal p t e => unless (bool_decide (is_Some (unmarshal_text t (ps p)))) e
  end.

(** The error of the first check that fails. *)
Fixpoint failing (ps : param -> string) (cs : list check) : option fbase_error :=
  match cs with
  | [] => None
  | c :: cs' => match passes ps c with Some e => Some e | None => failing ps cs' end
  end.

(** The checks most actions share. *)
Definition given (l : list param) : check := Given l PARSE_PARAM_ERROR.
Definition number (p : param) : check := Number [p] PARAM_FORMAT_ERROR.
Definition cluster_id (p : param) : list check := [given [p]; number p].

(** [common.GetPagerInfo] *)
Definition GetPagerInfo : list check :=
  [NumberIfGiven (Query "page") PARAM_FORMAT_ERROR; NumberIfGiven (Query "rows") PARAM_FORMAT_ERROR].

(** ** Actions (console/controllers) *)

(** cluster_controller.go; the list of clusters is behind [handleRightAndAction],
    which looks up the rights of the user. *)
Inductive cluster_action : Type :=
| ClusterGetAllAction | ClusterGetByIdAction | ClusterCreateAction | ClusterInitAction | ClusterToggleAction.

Definition cluster_checks (a : cluster_action) : list check :=
  match a with
  | ClusterGetAllAction => [Given [Session "userRight"] NO_RIGHT]
  | ClusterGetByIdAction => cluster_id (PostForm "clusterId")
  | ClusterCreateAction =>
      cluster_id (PostForm "clusterId") ++
      [given [PostForm "clusterName"]; given [PostForm "masterUrl"]; given [PostForm "gatewayHttpUrl"];
       given [PostForm "gatewaySqlUrl"]]
  | ClusterInitAction => cluster_id (PostForm "clusterId") ++ [given [PostForm "masterUrl"]]
  | ClusterToggleAction =>
      [given [Query "clusterId"];
       OneGiven [PostForm "autoFailoverUnable"; PostForm "autoTransferUnable"; PostForm "autoSplitUnable"] PARSE_PARAM_ERROR;
       number (Query "clusterId")]
  end.

(** master_controller.go *)
Inductive master_action : Type := MasterAllAction | MasterLeaderAction | MasterLogLevelUpdate.

Definition master_checks (a : master_action) : list check :=
  match a with
  | MasterAllAction | MasterLeaderAction => cluster_id (PostForm "clusterId")
  | MasterLogLevelUpdate => [given [PostForm "clusterId"; PostForm "logLevel"]; number (PostForm "clusterId")]
  end.

(** metadata_controller.go *)
Inductive metadata_action : Type :=
| CreateDbAction | DeleteDbAction | GetAllDbAction | GetAllDbViewAction | CreateTableAction | GetAllTableAction
| DeleteTableAction | EditTableAction | RangeViewInfo | GetTableColumns.

(** The columns of a table as the server reads them; of the dynamic ones it reads
    nothing. *)
Definition columnJsonType : gotype :=
  GStruct [("data_type", GInt); ("name", GString); ("primary_key", GInt); ("default_value", GString);
           ("unsigned", GBool); ("auto_increment", GBool); ("index", GBool); ("regxs", GBool)].
Definition regxsJsonType : gotype := GStruct [].

Definition table_checks (policy : list check) : list check :=
  cluster_id (PostForm "clusterId") ++ [given [PostForm "dbName"]; given [PostForm "name"]] ++ policy ++
  [given [PostForm "columns"]; given [PostForm "regxs"];
   Unmarshal (PostForm "columns") (GSlice columnJsonType) PARAM_FORMAT_ERROR;
   Unmarshal (PostForm "regxs") (GSlice regxsJsonType) PARAM_FORMAT_ERROR].

Definition metadata_checks (a : metadata_action) : list check :=
  match a with
  | CreateDbAction => given [PostForm "dbName"] :: cluster_id (PostForm "clusterId")
  | DeleteDbAction => [given [PostForm "dbName"; PostForm "clusterId"]; number (PostForm "clusterId")]
  | GetAllDbAction => cluster_id (PostForm "clusterId")
  | GetAllDbViewAction => cluster_id (Query "clusterId")
  | CreateTableAction => table_checks [given [PostForm "policy"]]
  | GetAllTableAction => cluster_id (Query "clusterId") ++ [given [Query "dbName"]; given [Query "dbId"]]
  | DeleteTableAction =>
      cluster_id (PostForm "clusterId") ++
      [given [PostForm "dbName"]; given [PostForm "tableName"]; given [PostForm "flag"]]
  | EditTableAction => table_checks []
  | RangeViewInfo =>
      [given [Query "dbName"]; given [Query "tableName"]; Unsigned (Query "clusterId") PARSE_PARAM_ERROR]
  | GetTableColumns => cluster_id (PostForm "clusterId") ++ [given [PostForm "dbName"]; given [PostForm "name"]]
  end.

(** node_controller.go *)
Inductive node_action : Type :=
| NodeViewInfo | NodeStatusUpdate | NodeLogLevelUpdate | NodeDelete | NodeRangeTopo | NodeGetConfig | NodeSetConfig
| NodeGetDsInfo | NodeClearQueue | NodeGetPendingQueues | NodeFlushDB.

(** The cluster, the node and further texts, and the two numbers. *)
Definition node_checks_with (more : list string) : list check :=
  [given (PostForm "clusterId" :: PostForm "nodeId" :: List.map PostForm more);
   number (PostForm "clusterId"); number (PostForm "nodeId")].

Definition node_checks (a : node_action) : list check :=
  match a with
  | NodeViewInfo => cluster_id (PostForm "clusterId")
  | NodeStatusUpdate => node_checks_with ["status"] ++ [number (PostForm "status")]
  | NodeLogLevelUpdate => node_checks_with ["logLevel"]
  | NodeDelete => [given [PostForm "clusterId"; PostForm "nodeIds"]; number (PostForm "clusterId")]
  | NodeRangeTopo => [given [Query "clusterId"; Query "nodeId"]; number (Query "clusterId"); number (Query "nodeId")]
  | NodeGetConfig => node_checks_with ["getConfigKey"]
  | NodeSetConfig => node_checks_with ["setConfig"]
  | NodeGetDsInfo => node_checks_with ["dsInfoPath"]
  | NodeClearQueue => node_checks_with ["queueType"]
  | NodeGetPendingQueues => node_checks_with ["pendingType"; "count"]
  | NodeFlushDB => node_checks_with []
  end.

(** range_controller.go *)
Inductive range_action : Type :=
| PeerDelete | PeerAdd | RangeInfoView | PeerInfoView | GetUnhealthyRanges | GetUnstableRanges | TaskPresent
| TaskOperation | RangeUpdate | RangeOffline | RangeRebuild | RangeReplace | RangeDuplicateAction | RangeDelete
| RangeTopo | RangeBatchRecover | RangeTransfer | RangeLeaderChange | RangeOpsTopN | RangeForceSplit
| RangeForceCompact.

(** All of the parameters given, and some of them numbers. *)
Definition all_given (src : string -> param) (all numbers : list string) : list check :=
  given (List.map src all) :: List.map (fun k => number (src k)) numbers.

Definition range_checks (a : range_action) : list check :=
  match a with
  | PeerDelete => all_given PostForm ["clusterId"; "rangeId"; "peerId"] []
  | PeerAdd => all_given PostForm ["clusterId"; "rangeId"] []
  | RangeInfoView => all_given Query ["clusterId"; "dbName"; "tableName"; "rangeId"; "peerId"] ["clusterId"; "rangeId"]
  | PeerInfoView => all_given Query ["clusterId"; "dbName"; "tableName"; "rangeId"] ["clusterId"; "rangeId"]
  | GetUnhealthyRanges | GetUnstableRanges => all_given Query ["clusterId"; "dbName"; "tableName"] ["clusterId"]
  | TaskPresent => all_given PostForm ["clusterId"] []
  | TaskOperation => all_given PostForm ["clusterId"; "type"; "taskId"] []
  | RangeUpdate | RangeOffline | RangeReplace =>
      all_given PostForm ["clusterId"; "dbName"; "tableName"; "rangeId"; "peerId"] ["clusterId"; "rangeId"; "peerId"]
  | RangeRebuild | RangeForceSplit | RangeForceCompact =>
      all_given PostForm ["clusterId"; "dbName"; "tableName"; "rangeId"] ["clusterId"; "rangeId"]
  | RangeDuplicateAction => cluster_id (PostForm "clusterId") ++ [given [PostForm "dbName"; PostForm "tableName"]]
  | RangeDelete => all_given PostForm ["clusterId"; "rangeId"] ["clusterId"; "rangeId"]
  | RangeTopo => all_given Query ["clusterId"; "rangeId"] ["clusterId"; "rangeId"]
  | RangeBatchRecover => all_given PostForm ["clusterId"; "dbName"; "tableName"] ["clusterId"]
  | RangeTransfer | RangeLeaderChange =>
      all_given PostForm ["clusterId"; "rangeId"; "peerId"] ["clusterId"; "rangeId"; "peerId"]
  | RangeOpsTopN => all_given Query ["clusterId"; "topN"] ["clusterId"; "topN"]
  end.

(** schedule_controller.go *)
Inductive schedule_action : Type :=
| SchedulerAllAction | SchedulerDetailAction | SchedulerAdjustAction | TaskTypeAllAction.

Definition schedule_checks (a : schedule_action) : list check :=
  match a with
  | SchedulerAllAction | SchedulerDetailAction | TaskTypeAllAction => cluster_id (Query "clusterId")
  | SchedulerAdjustAction =>
      cluster_id (PostForm "clusterId") ++ [given [PostForm "optType"; PostForm "scheduler"]; number (PostForm "optType")]
  end.

(** topology_controller.go *)
Inductive topology_action : Type :=
| TopologyAction | TableTopologyAction | TopologyRangeCreateAction | TopologyViewAction.

Definition topology_checks (a : topology_action) : list check :=
  match a with
  | TopologyAction | TableTopologyAction =>
      cluster_id (PostForm "clusterId") ++ [given [PostForm "dbName"; PostForm "tableName"]]
  | TopologyRangeCreateAction =>
      cluster_id (PostForm "clusterId") ++
      [given [PostForm "dbName"; PostForm "tableName"];
       Unless (PostForm "batchFlag") "true" (given [PostForm "startKey"; PostForm "endKey"])]
  | TopologyViewAction => cluster_id (PostForm "clusterId")
  end.

(** storedata_controller.go *)
Definition StoreDataQuery_checks : list check :=
  cluster_id (PostForm "clusterId") ++
  [given [PostForm "sql"]; given [PostForm "dbName"]; given [PostForm "dbUserName"]; given [PostForm "dbPassWord"]].

(** user_controller.go *)
Inductive user_action : Type :=
| UserAdminAction | PrivilegeInfoAction | PrivilegeUpdateAction | PrivilegeDelAction | RoleAddAction | RoleDelAction
| RoleInfoAction.

Definition UserPrivilege : gotype :=
  GStruct [("user_name", GString); ("cluster_id", GUint64); ("privilege", GUint64)].

Definition user_checks (a : user_action) : list check :=
  match a with
  | UserAdminAction => [given [Query "erp"]]
  | PrivilegeInfoAction | RoleInfoAction =>
      [NumberIfGiven (Query "limit") PARAM_FORMAT_ERROR; NumberIfGiven (Query "offset") PARAM_FORMAT_ERROR;
       OneOf (Query "order") ["asc"; "desc"; ""] PARAM_FORMAT_ERROR]
  | PrivilegeUpdateAction =>
      [Given [PostForm "userName"] PARAM_FORMAT_ERROR; number (PostForm "roleId"); number (PostForm "clusterId")]
  | PrivilegeDelAction =>
      [given [PostForm "privileges"]; Unmarshal (PostForm "privileges") (GSlice UserPrivilege) PARSE_PARAM_ERROR]
  | RoleAddAction => [given [PostForm "roleId"; PostForm "roleName"]; number (PostForm "roleId")]
  | RoleDelAction => [given [PostForm "roleIds"]; Unmarshal (PostForm "roleIds") (GSlice GInt) PARSE_PARAM_ERROR]
  end.

(** sql_apply_controller.go *)
Inductive sql_action : Type := SqlGetAllAction | SqlApplyAction | SqlApplyGetAction | SqlAuditAction.

Definition ids_checks : check := Unmarshal (PostForm "ids") (GSlice GString) PARSE_PARAM_ERROR.
Definition audit_checks : list check :=
  [given [PostForm "ids"; PostForm "status"]; ids_checks; number (PostForm "status")].

Definition sql_checks (a : sql_action) : list check :=
  match a with
  | SqlGetAllAction => GetPagerInfo
  | SqlApplyAction =>
      [Given [Session "user_name"] NO_USER; given [PostForm "dbName"; PostForm "tableName"; PostForm "sentence"]]
  | SqlApplyGetAction => [given [Query "id"]]
  | SqlAuditAction => audit_checks
  end.

(** lock_controller.go *)
Inductive lock_action : Type :=
| LockGetAllNspAction | LockNspApplyAction | LockNspAuditAction | LockNspUpdateAction | LockNspDeleteAction
| LockClusterListGetAction | LockGetAllAction | LockForceUnLockAction | LockClientGetTokenAction
| LockClusterInfoGetAction.

Definition apply_checks : list check :=
  Given [Session "user_name"] NO_USER :: all_given PostForm ["clusterId"; "dbName"; "tableName"] ["clusterId"].

Definition lock_checks (a : lock_action) : list check :=
  match a with
  | LockGetAllNspAction => GetPagerInfo
  | LockNspApplyAction => apply_checks
  | LockNspAuditAction => audit_checks
  | LockNspUpdateAction => [given [PostForm "id"; PostForm "applyer"]]
  | LockNspDeleteAction => [given [PostForm "ids"]; ids_checks]
  | LockClusterListGetAction => []
  | LockGetAllAction => all_given Query ["clusterId"; "dbName"; "tableName"] ["clusterId"] ++ GetPagerInfo
  | LockForceUnLockAction => all_given PostForm ["clusterId"; "dbName"; "tableName"; "key"] ["clusterId"]
  | LockClientGetTokenAction => all_given PostForm ["dbId"; "tableId"] ["dbId"; "tableId"]
  | LockClusterInfoGetAction => cluster_id (PostForm "clusterId")
  end.

(** configure_controller.go *)
Inductive configure_action : Type :=
| ConfigureGetAllNspAction | ConfigureNspApplyAction | ConfigureNspAuditAction | ConfigureNspUpdateAction
| ConfigureNspDeleteAction | ConfigureClusterListGetAction | ConfigureGetAllAction | ConfigureClusterInfoGetAction.

Definition configure_checks (a : configure_action) : list check :=
  match a with
  | ConfigureGetAllNspAction => GetPagerInfo
  | ConfigureNspApplyAction => apply_checks
  | ConfigureNspAuditAction => audit_checks
  | ConfigureNspUpdateAction => [given [PostForm "id"; PostForm "applyer"]]
  | ConfigureNspDeleteAction => [given [PostForm "ids"]; ids_checks]
  | ConfigureClusterListGetAction => []
  | ConfigureGetAllAction => all_given Query ["clusterId"; "dbName"; "tableName"] ["clusterId"] ++ GetPagerInfo
  | ConfigureClusterInfoGetAction => cluster_id (PostForm "clusterId")
  end.

(** metric_controller.go *)
Inductive metric_action : Type :=
| GetMetricServerAction | AddMetricServerAction | DelMetricServerAction | SetMetricConfigAction | GetMetricConfigAction.

Definition metric_checks (a : metric_action) : list check :=
  match a with
  | GetMetricServerAction => []
  | AddMetricServerAction => [given [PostForm "addr"]]
  | DelMetricServerAction =>
      [given [PostForm "addrs"]; Unmarshal (PostForm "addrs") (GSlice GString) PARSE_PARAM_ERROR]
  | SetMetricConfigAction => all_given PostForm ["clusterId"; "metricAddr"; "metricInterval"] ["clusterId"]
  | GetMetricConfigAction => cluster_id (PostForm "clusterId")
  end.

Inductive api_action : Type :=
| Cluster (a : cluster_action) | Master (a : master_action) | Metadata (a : metadata_action) | Node (a : node_action)
| Range (a : range_action) | Schedule (a : schedule_action) | Topology (a : topology_action) | StoreDataQuery
| User (a : user_action) | Sql (a : sql_action) | Lock (a : lock_action) | Configure (a : configure_action)
| Metric (a : metric_action).

Definition checks (a : api_action) : list check :=
  match a with
  | Cluster a => cluster_checks a
  | Master a => master_checks a
  | Metadata a => metadata_checks a
  | Node a => node_checks a
  | Range a => range_checks a
  | Schedule a => schedule_checks a
  | Topology a => topology_checks a
  | StoreDataQuery => StoreDataQuery_checks
  | User a => user_checks a
  | Sql a => sql_checks a
  | Lock a => lock_checks a
  | Configure a => configure_checks a
  | Metric a => metric_checks a
  end.

(** ** Routes (console/routers/router.go) *)

Record route := Route { rt_method : string; rt_path : string; rt_action : api_action }.
Definition GET : string -> api_action -> route := Route "get".
Definition POST : string -> api_action -> route := Route "post".

Definition cluster_routes : list route :=
  [GET "/cluster/queryClusters" (Cluster ClusterGetAllAction);
   POST "/cluster/getById" (Cluster ClusterGetByIdAction);
   POST "/cluster/createCluster" (Cluster ClusterCreateAction);
   POST "/cluster/initCluster" (Cluster ClusterInitAction);
   POST "/cluster/toggleAuto" (Cluster ClusterToggleAction)].

Definition master_routes : list route :=
  [POST "/master/queryAll" (Master MasterAllAction);
   POST "/master/queryLeader" (Master MasterLeaderAction);
   POST "/master/logLevelUpdate" (Master MasterLogLevelUpdate)].

Definition metadata_routes : list route :=
  [POST "/metadata/createDb" (Metadata CreateDbAction);
   POST "/metadata/deleteDb" (Metadata DeleteDbAction);
   POST "/metadata/dbDataGetAll" (Metadata GetAllDbAction);
   GET "/metadata/dbDataGetAllViewPage" (Metadata GetAllDbViewAction);
   POST "/metadata/createTable" (Metadata CreateTableAction);
   GET "/metadata/dbTablesDataGetByDbName" (Metadata GetAllTableAction);
   POST "/metadata/delTable" (Metadata DeleteTableAction);
   POST "/metadata/editTable" (Metadata EditTableAction);
   POST "/metadata/getTableColumns" (Metadata GetTableColumns);
   GET "/range/getRangeByBbTable" (Metadata RangeViewInfo)].

Definition node_routes : list route :=
  [POST "/node/nodeInfoGetAll" (Node NodeViewInfo);
   POST "/node/nodeStatusUpdate" (Node NodeStatusUpdate);
   POST "/node/nodeLogLevelUpdate" (Node NodeLogLevelUpdate);
   POST "/node/deleteNode" (Node NodeDelete);
   GET "/node/getRangeTopoByNode" (Node NodeRangeTopo);
   POST "/node/getConfigOfNode" (Node NodeGetConfig);
   POST "/node/setConfigOfNode" (Node NodeSetConfig);
   POST "/node/getDsInfoOfNode" (Node NodeGetDsInfo);
   POST "/node/clearQueueOfNode" (Node NodeClearQueue);
   POST "/node/getPendingQueuesOfNode" (Node NodeGetPendingQueues);
   POST "/node/flushDBOfNode" (Node NodeFlushDB)].

Definition range_routes : list route :=
  [POST "/range/peerDel" (Range PeerDelete);
   POST "/range/peerAdd" (Range PeerAdd);
   GET "/range/getUnhealthyRanges" (Range GetUnhealthyRanges);
   GET "/range/getUnstableRanges" (Range GetUnstableRanges);
   GET "/range/getRangeInfoById" (Range RangeInfoView);
   GET "/range/getPeerInfo" (Range PeerInfoView);
   POST "/range/updateRange" (Range RangeUpdate);
   POST "/range/offlineRange" (Range RangeOffline);
   POST "/range/rebuildRange" (Range RangeRebuild);
   POST "/range/replaceRange" (Range RangeRebuild);
   POST "/range/forceSplitRange" (Range RangeForceSplit);
   POST "/range/forceCompactRange" (Range RangeForceCompact);
   POST "/range/delete" (Range RangeDelete);
   GET "/range/getRangeTopoByRange" (Range RangeTopo);
   POST "/range/batchRecoverRange" (Range RangeBatchRecover);
   POST "/range/transfer" (Range RangeTransfer);
   POST "/range/changeLeader" (Range RangeLeaderChange);
   GET "/range/getOpsTopN" (Range RangeOpsTopN);
   POST "/task/getPresentTaskById" (Range TaskPresent);
   POST "/task/taskOperationById" (Range TaskOperation)].

Definition schedule_routes : list route :=
  [GET "/scheduler/getAll" (Schedule SchedulerAllAction);
   GET "/scheduler/getDetail" (Schedule SchedulerDetailAction);
   POST "/scheduler/adjust" (Schedule SchedulerAdjustAction);
   POST "/topology/check" (Topology TopologyAction);
   POST "/table/topology/missing" (Topology TableTopologyAction);
   POST "/table/topology/create" (Topology TopologyRangeCreateAction);
   POST "/table/duplicateRange" (Range RangeDuplicateAction);
   POST "/cluster/topology/getall" (Topology TopologyViewAction);
   GET "/task/getTypeAll" (Schedule TaskTypeAllAction);
   POST "/db/console/query" StoreDataQuery].

Definition user_routes : list route :=
  [GET "/userInfo/admin" (User UserAdminAction);
   POST "/userInfo/getUserList" StoreDataQuery;
   GET "/userInfo/getPrivilegeList" (User PrivilegeInfoAction);
   POST "/userInfo/updatePrivilege" (User PrivilegeUpdateAction);
   POST "/userInfo/delPrivileges" (User PrivilegeDelAction);
   GET "/userInfo/getRoleList" (User RoleInfoAction);
   POST "/userInfo/addRole" (User RoleAddAction);
   POST "/userInfo/delRole" (User RoleDelAction)].

Definition sql_routes : list route :=
  [GET "/sql/queryApplyList" (Sql SqlGetAllAction);
   POST "/sql/apply" (Sql SqlApplyAction);
   GET "/sql/apply/detail" (Sql SqlApplyGetAction);
   POST "/sql/audit" (Sql SqlAuditAction)].

Definition lock_routes : list route :=
  [GET "/lock/namespace/queryList" (Lock LockGetAllNspAction);
   POST "/lock/namespace/apply" (Lock LockNspApplyAction);
   POST "/lock/namespace/audit" (Lock LockNspAuditAction);
   POST "/lock/namespace/update" (Lock LockNspUpdateAction);
   POST "/lock/namespace/delete" (Lock LockNspDeleteAction);
   GET "/lock/cluster/getList" (Lock LockClusterListGetAction);
   POST "/lock/cluster/getInfo" (Lock LockClusterInfoGetAction);
   GET "/lock/lock/queryList" (Lock LockGetAllAction);
   POST "/lock/lock/forceUnLock" (Lock LockForceUnLockAction);
   POST "/lock/client/getToken" (Lock LockClientGetTokenAction)].

Definition configure_routes : list route :=
  [GET "/configure/namespace/queryList" (Configure ConfigureGetAllNspAction);
   POST "/configure/namespace/apply" (Configure ConfigureNspApplyAction);
   POST "/configure/namespace/audit" (Configure ConfigureNspAuditAction);
   POST "/configure/namespace/update" (Configure ConfigureNspUpdateAction);
   POST "/configure/namespace/delete" (Configure ConfigureNspDeleteAction);
   GET "/configure/cluster/getList" (Configure ConfigureClusterListGetAction);
   POST "/configure/cluster/getInfo" (Configure ConfigureClusterInfoGetAction);
   GET "/configure/queryList" (Configure ConfigureGetAllAction)].

Definition metric_routes : list route :=
  [GET "/metric/server/getAll" (Metric GetMetricServerAction);
   POST "/metric/server/add" (Metric AddMetricServerAction);
   POST "/metric/server/del" (Metric DelMetricServerAction);
   POST "/metric/config/get" (Metric GetMetricConfigAction);
   POST "/metric/config/set" (Metric SetMetricConfigAction)].

Definition api_routes : list route :=
  cluster_routes ++ master_routes ++ metadata_routes ++ node_routes ++ range_routes ++ schedule_routes ++ user_routes ++
  sql_routes ++ lock_routes ++ configure_routes ++ metric_routes.

(** The pages: their paths, and the parameters without which they answer 404. *)
Definition public_pages : list (string * list string) :=
  [("/", []); ("/logout", []); ("/page/user/welcome", []); ("/page/sql/viewApplyList", []); ("/page/lock/viewNamespace", []);
   ("/page/lock/applyNamespace", []); ("/page/lock/viewLock", ["clusterId"; "dbName"; "tableName"]);
   ("/page/configure/viewNamespace", []); ("/page/configure/viewList", ["clusterId"; "dbName"; "tableName"])].
Definition table_pages : list (string * list string) :=
  [("/page/cluster/viewCluster", []); ("/page/cluster/info", ["clusterId"]); ("/page/cluster/source", ["clusterId"]);
   ("/page/cluster/createcluster", []); ("/page/master/viewNodeList", ["clusterId"]); ("/userInfo/viewUserInfoList", []);
   ("/userInfo/viewPrivilegeList", []); ("/userInfo/viewRoleInfoList", []);
   ("/page/metadata/metadatacreatedb", ["clusterId"]); ("/page/metadata/metadatacreatetable", ["clusterId"]);
   ("/page/metadata/createtable", ["clusterId"]); ("/page/cluster/topology", ["clusterId"]);
   ("/page/tables/tablelist", ["clusterId"])].
Definition range_pages : list (string * list string) :=
  [("/page/table/topology", ["clusterId"; "dbName"; "tableName"]); ("/page/table/duplicateRange", ["clusterId"; "dbName"; "tableName"]);
   ("/page/metadata/edittable", ["clusterId"; "tableName"; "dbName"]);
   ("/page/metadata/viewTableColumns", ["clusterId"; "name"; "db_name"]);
   ("/page/db/viewConsole", ["clusterId"; "dbName"]); ("/range/viewRangeInfo", ["clusterId"; "name"; "db_name"])].
Definition node_pages : list (string * list string) :=
  [("/range/getRangeTopo", ["clusterId"; "rangeId"]); ("/node/getRangeTopo", ["clusterId"; "nodeId"]);
   ("/node/goConfigPage", ["clusterId"; "nodeId"; "isGet"]); ("/page/cluster/viewRangeOpsTopN", ["clusterId"; "topN"]);
   ("/page/range/unhealthy", ["clusterId"; "dbName"; "tableName"]); ("/page/range/unstable", ["clusterId"; "dbName"; "tableName"])].
Definition system_pages : list (string * list string) :=
  [("/page/range/peerinfo", ["clusterId"; "dbName"; "tableName"; "rangeId"]); ("/page/system/initCluster", []);
   ("/page/system/scheduleManage", []); ("/page/system/scheduleAdjust", ["clusterId"]);
   ("/page/monitor/cluster", ["clusterId"; "dashboardName"; "panelId"]); ("/page/metric/viewServerList", []);
   ("/page/metric/clusterManage", [])].
Definition page_routes : list (string * list string) :=
  public_pages ++ table_pages ++ range_pages ++ node_pages ++ system_pages.

(** ** Answers *)

(** The path of an address. *)
Definition path_of (url : string) : string := (cut "?" url).1.

Definition find_route (method path : string) : option route :=
  List.find (fun rt => String.eqb (rt_method rt) method && String.eqb (rt_path rt) path) api_routes.

Section Serve.
Context (service : api_action -> (param -> string) -> go_error + val).
Context (session : string -> string).

(** A form has the texts of the members that are no lists or objects. *)
Definition form_value (r : request) (k : string) : string :=
  match r_data r with
  | Obj fs => match assoc k fs with Some (Undef | Null | Arr _ | Obj _) | None => "" | Some v => to_str v end
  | _ => ""
  end.

Definition param_value (r : request) (p : param) : string :=
  match p with
  | Query k => match List.find (fun kv => String.eqb kv.1 k) (params (r_url r)) with Some kv => kv.2 | None => "" end
  | PostForm k => form_value r k
  | Session k => session k
  end.

Definition Execute (a : api_action) (ps : param -> string) : go_error + val :=
  match failing ps (checks a) with Some e => inl (Fbase e) | None => service a ps end.

(** The answer to a request: one of [handleAction], 404 without a route.  The list
    for the grid of databases is sent bare, and nothing at all after an error. *)
Definition serve (r : request) : ajax_result :=
  match find_route (r_type r) (path_of (r_url r)) with
  | None => Failure (Obj [("status", int 404)]) (Str "error")
  | Some rt =>
      let res := Execute (rt_action rt) (param_value r) in
      match rt_action rt, res with
      | Metadata GetAllDbViewAction, inl _ => Failure (Obj [("status", int 200)]) (Str "parsererror")
      | Metadata GetAllDbViewAction, inr data => Success data
      | _, _ => Success (handleAction res)
      end
  end.

End Serve.
