(* ===== verification/Creation.v ===== *)
(** * Creating a table, from the grid to the service

    The columns that were entered in the grid of the create-table page, the request of
    the confirmed submission and what the action of the server decodes from it before
    it calls the service. *)

From S2P Require Import Prelude JsValue Json Browser Logic Contracts Utils CreateTable JsGrid ColumnGrid Backend.

(** A column as it is entered. *)
Record column := Column
  { c_name : string; c_code : Z; c_unsigned : bool; c_primary : bool; c_auto : bool; c_dynamic : bool }.

Definition item_of (c : column) : val :=
  column_item (c_name c) (c_code c) (c_unsigned c) (c_primary c) (c_auto c) (c_dynamic c).

(** The value of [columnJsonType] for it. *)
Definition decoded (c : column) : val :=
  Obj [("data_type", int (c_code c)); ("name", Str (c_name c)); ("primary_key", int (if c_primary c then 1 else 0));
       ("default_value", Str ""); ("unsigned", Bool (c_unsigned c)); ("auto_increment", Bool (c_auto c));
       ("index", Bool true); ("regxs", Bool (c_dynamic c))].

(** A dynamic column with another column after it. *)
Fixpoint dynamic_before (cs : list column) : bool :=
  match cs with
  | c :: (_ :: _) as rest => c_dynamic c || dynamic_before rest
  | _ => false
  end.

(** ** Decoding *)

Lemma unmarshal_normalised c :
  a_type (c_code c) -> unmarshal columnJsonType (normalise (item_of c)) = Some (decoded c).
Proof.
  destruct c as [name code u p a d]. cbn [c_code]. revert code. apply a_type_forall; by destruct p.
Qed.

(** The key of a column that the loop has not looked at is a boolean, no number. *)
Lemma unmarshal_skipped c : a_type (c_code c) -> unmarshal columnJsonType (item_of c) = None.
Proof. destruct c as [name code u p a d]. cbn [c_code]. revert code. by apply a_type_forall. Qed.

Lemma unmarshal_regxs c : unmarshal regxsJsonType (normalise (item_of c)) = Some (Obj []).
Proof. done. Qed.

Lemma item_dynamic c : is_dynamic (normalise (item_of c)) = c_dynamic c.
Proof. rewrite is_dynamic_normalise. by destruct c as [? ? ? ? ? []]. Qed.

Lemma field_item_name c : field (item_of c) "name" = Str (c_name c).
Proof. done. Qed.

(** What the two lists of a submission decode to. *)
Lemma split_decodes cs d l :
  Forall (fun c => a_type (c_code c)) cs -> split_columns (item_of <$> cs) = Split d l ->
  mapM (unmarshal regxsJsonType) l = Some (replicate (length l) (Obj [])) /\
  mapM (unmarshal columnJsonType) d =
    (if dynamic_before cs then None else Some (decoded <$> List.filter (fun c => negb (c_dynamic c)) cs)) /\
  (dynamic_before cs = false -> length l = length (List.filter c_dynamic cs)).
Proof.
  rewrite split_columns_skip.
  revert d l. induction cs as [|c|c c' cs IH1 IH2] using list_two_ind; intros d l Hc.
  - by intros [= <- <-].
  - apply Forall_cons_1 in Hc as [Hc _]. cbn [fmap list_fmap]. rewrite split_skip_cons, field_item_name, item_dynamic.
    destruct (has_dash _); [done|]. cbn [dynamic_before List.filter split_skip].
    destruct (c_dynamic c) eqn:Hd; intros [= <- <-]; [done|]. cbn [mapM negb]. by rewrite unmarshal_normalised.
  - apply Forall_cons_1 in Hc as [Hc Hcs]. pose proof (proj1 (Forall_cons_1 _ _ _ Hcs)) as Hc'.
    cbn [fmap list_fmap] in *. rewrite split_skip_cons, field_item_name, item_dynamic. destruct (has_dash _); [done|].
    change (dynamic_before (c :: c' :: cs)) with (c_dynamic c || dynamic_before (c' :: cs)).
    destruct (c_dynamic c) eqn:Hd.
    + destruct (split_skip (item_of <$> cs)) as [| |d' l']; try done. intros [= <- <-].
      destruct (IH1 d' l' (proj2 (Forall_cons_1 _ _ _ Hcs)) eq_refl) as (Hl & _ & _). cbn [mapM orb].
      rewrite unmarshal_skipped, unmarshal_regxs, Hl by done. done.
    + destruct (split_skip (item_of c' :: (item_of <$> cs))) as [| |d' l']; try done. intros [= <- <-].
      destruct (IH2 d' l' Hcs eq_refl) as (Hl & Hd' & Hn). cbn [orb]. split_ands; [done| |].
      * cbn [mapM]. rewrite unmarshal_normalised, Hd' by done. cbn [List.filter]. rewrite Hd.
        by destruct (dynamic_before (c' :: cs)).
      * intros H. rewrite Hn by done. cbn [List.filter]. by rewrite Hd.
Qed.

(** ** The request at the server *)

(** The form is filled. *)
Record filled (w : world) (keys : string) : Prop := Filled {
  fl_cluster : exists id n, value_of w "#clusterId" = Str id /\ atoi id = Some n;
  fl_db : exists s, value_of w "#dbName" = Str s /\ s <> "";
  fl_name : exists s, value_of w "#name" = Str s;
  fl_policy : exists s, value_of w "#policy" = Str s /\ s <> "";
  fl_keys : value_of w "#rangeKeys" = Str keys
}.

Lemma create_checks (session : string -> string) w keys columns regxs vc vr :
  filled w keys -> no_name (value_of w "#name") = false ->
  Json.parse columns = Some vc -> Json.parse regxs = Some vr ->
  let r := create_request w keys columns regxs in
  failing (param_value session r) (checks (Metadata CreateTableAction)) =
    if bool_decide (is_Some (unmarshal (GSlice columnJsonType) vc)) &&
       bool_decide (is_Some (unmarshal (GSlice regxsJsonType) vr))
    then None else Some PARAM_FORMAT_ERROR.
Proof.
  intros [(id & n & Hid & Hn) (db & Hdb & Hdb') (nm & Hnm) (pol & Hpol & Hpol') Hk] Hname Hc Hr r.
  assert (Hne : forall s : string, s <> "" -> String.eqb s "" = false) by (intros s; apply String.eqb_neq).
  assert (id <> "") by (by intros ->). assert (columns <> "") by (by intros ->). assert (regxs <> "") by (by intros ->).
  assert (nm <> "") by (intros ->; by rewrite Hnm in Hname).
  unfold r, create_request. rewrite Hid, Hdb, Hnm, Hpol.
  set (ps := param_value session _).
  assert (Hps : ps (PostForm "clusterId") = id /\ ps (PostForm "dbName") = db /\ ps (PostForm "name") = nm /\
    ps (PostForm "policy") = pol /\ ps (PostForm "columns") = columns /\ ps (PostForm "regxs") = regxs) by done.
  clearbody ps. destruct Hps as (P1 & P2 & P3 & P4 & P5 & P6).
  cbn [checks metadata_checks table_checks cluster_id given number app failing passes forallb].
  unfold unmarshal_text. rewrite P1, P2, P3, P4, P5, P6, !Hne, Hc, Hr by done.
  rewrite (bool_decide_eq_true_2 (is_Some (atoi id))) by (by exists n). cbn [negb andb mbind option_bind].
  by repeat case_bool_decide.
Qed.

(** ** Theorem *)

(** C12: a table from the grid to the service.  If the create-table page, with its form
    filled and the columns [cs] entered, asks for confirmation, then confirming sends one
    request to the server's action for creating tables.  The action calls the service
    exactly if no dynamic column is followed by another column; it then decodes the columns
    that are not dynamic as they were entered, with their keys as numbers and their
    indices set, and one empty object for the dynamic column, whose data are lost.
    Otherwise the answer is a format error, and nothing is created. *)
Theorem table_creation_served (E : env) (w : world) (cs : list column) (keys input : string)
    (service : api_action -> (param -> string) -> go_error + val) (session : string -> string) :
  w_vars w !! "data" = Some (Arr (item_of <$> cs)) -> Forall (fun c => a_type (c_code c)) cs -> filled w keys ->
  Asked create_dialog ∈ news E create_page w (Act ASubmit) ->
  exists r, news E create_page (step E create_page w (Act ASubmit)) (Confirm input) = [Sent r] /\
    let ps := param_value session r in
    if dynamic_before cs then
      serve service session r =
        Success (response (fe_code PARAM_FORMAT_ERROR) (fe_msg PARAM_FORMAT_ERROR) (Str ""))
    else
      serve service session r = Success (handleAction (service (Metadata CreateTableAction) ps)) /\
      unmarshal_text (GSlice columnJsonType) (ps (PostForm "columns")) =
        Some (Arr (decoded <$> List.filter (fun c => negb (c_dynamic c)) cs)) /\
      unmarshal_text (GSlice regxsJsonType) (ps (PostForm "regxs")) =
        Some (Arr (replicate (length (List.filter c_dynamic cs)) (Obj []))).
Proof.
  intros Hd Hc Hf Hask. destruct (submit_asked E w _ keys Hd (fl_keys _ _ Hf) Hask) as (d & l & Hok & Hn & Hs & Hstep).
  assert (Hclean : forallb clean (item_of <$> cs) = true) by (clear; by induction cs).
  destruct (submit_confirmed E w _ keys input d l Hclean Hs Hstep) as (columns & regxs & Hsent & Hpc & Hpr & _ & _).
  exists (create_request w keys columns regxs). split; [done|]. cbv zeta.
  pose proof (create_checks session w keys columns regxs _ _ Hf Hn Hpc Hpr) as Hchecks. cbv zeta in Hchecks.
  destruct (split_decodes cs d l Hc Hs) as (Hl & Hcol & Hlen). cbn [unmarshal] in Hchecks. rewrite Hcol, Hl in Hchecks.
  change (serve service session (create_request w keys columns regxs)) with
    (Success (handleAction (Execute service (Metadata CreateTableAction)
       (param_value session (create_request w keys columns regxs))))).
  unfold Execute. rewrite Hchecks. destruct (dynamic_before cs); [done|]. cbn [fmap option_fmap option_map].
  rewrite !bool_decide_eq_true_2 by (by eexists). cbn [andb].
  change (param_value session _ (PostForm "columns")) with columns.
  change (param_value session _ (PostForm "regxs")) with regxs.
  unfold unmarshal_text. rewrite Hpc, Hpr. cbn [mbind option_bind unmarshal]. rewrite Hcol, Hl, Hlen by done. done.
Qed.

(** Two submissions: the dynamic column last, and in between. *)
Definition key_column : column := Column "id" 4 false true true false.
Definition tag_column : column := Column "tag" 7 false false false true.
Definition creation_world (cs : list column) : world :=
  World (list_to_map [(("#rangeKeys", "value"), Str "a"); (("#name", "value"), Str "t1"); (("#dbName", "value"), Str "db");
                      (("#clusterId", "value"), Str "1"); (("#policy", "value"), Str "0")])
    {["data" := Arr (item_of <$> cs)]} [] ∅ None [] [].

Lemma creation_filled cs : filled (creation_world cs) "a".
Proof.
  split; [exists "1", 1; by vm_compute|by exists "db"|by exists "t1"|by exists "0"|done].
Qed.

(** Applying the theorem to both, with a service that creates every table. *)
Lemma table_creation_served_witness :
  (exists r, news offline create_page
      (step offline create_page (creation_world [key_column; tag_column]) (Act ASubmit)) (Confirm "") = [Sent r] /\
    unmarshal_text (GSlice columnJsonType) (param_value (fun _ => "") r (PostForm "columns")) = Some (Arr [decoded key_column])) /\
  (exists r, news offline create_page
      (step offline create_page (creation_world [tag_column; key_column]) (Act ASubmit)) (Confirm "") = [Sent r] /\
    serve (fun _ _ => inr Null) (fun _ => "") r = Success (response 5 "parameters format error" (Str ""))).
Proof.
  assert (Ht : Forall (fun c => a_type (c_code c)) [key_column; tag_column]).
  { repeat constructor; [exists "BigInt"|exists "Varchar"]; set_solver. }
  split.
  - destruct (table_creation_served offline (creation_world [key_column; tag_column]) [key_column; tag_column] "a" ""
      (fun _ _ => inr Null) (fun _ => "")) as (r & Hr & _ & Hc & _);
      [reflexivity|exact Ht|apply creation_filled|vm_compute; left|by exists r].
  - destruct (table_creation_served offline (creation_world [tag_column; key_column]) [tag_column; key_column] "a" ""
      (fun _ _ => inr Null) (fun _ => "")) as (r & Hr & Hs);
      [reflexivity|by rewrite Permutation_swap|apply creation_filled|vm_compute; left|by exists r].
Defined.
