(* ===== verification/Applications.v ===== *)
(** * Applications for namespaces and SQL

    The part of console/service/service.go behind the lists of applications: users apply
    for a namespace of locks or of configuration items, or for a SQL statement, and
    administrators approve, reject, edit and delete the applications.  The database and
    the master server are interfaces with the laws that the service relies on; a Go
    method is a state transformer that returns a value, an error or panics. *)

From S2P Require Import Prelude JsValue Json Browser Backend.

(** ** Data (console/models/apply_info.go) *)

Record NamespaceApply := Namespace
  { na_id : string; na_db : string; na_table : string; na_cluster : Z; na_dbId : Z; na_tableId : Z; na_status : Z;
    na_applyer : string; na_auditor : string; na_time : Z }.

Record SqlApply := SqlApplication
  { sa_id : string; sa_db : string; sa_table : string; sa_sentence : string; sa_status : Z; sa_applyer : string;
    sa_auditor : string; sa_time : Z; sa_remark : string }.

(** The columns of the table of clusters that the service needs. *)
Record ClusterInfo := Cluster_ { ci_id : Z; ci_master : string; ci_token : string }.

Definition STATUS_APPLY : Z := 1.
Definition STATUS_AUDIT : Z := 2.
Definition STATUS_REJECT : Z := 3.

(** The two tables of namespaces. *)
Inductive store_table : Type := TABLE_NAME_LOCK_NSP | TABLE_NAME_CONFIGURE_NSP.

#[export] Instance store_table_eq_dec : EqDecision store_table.
Proof. solve_decision. Defined.

(** What an application is for. *)
Definition target (r : NamespaceApply) : string * string * Z := (na_db r, na_table r, na_cluster r).

(** Whose applications a list shows; its page is an offset and a number of rows. *)
Definition owned_by (who : option string) (applyer : string) : bool :=
  match who with Some name => String.eqb applyer name | None => true end.
Definition limited {A : Type} (limit : option (Z * Z)) (l : list A) : list A :=
  match limit with Some (offset, n) => take (Z.to_nat n) (drop (Z.to_nat offset) l) | None => l end.

(** An error that the answer does not show as a success. *)
Definition reported (e : go_error) : Prop := match e with Fbase fe => fe_code fe <> fe_code OK | _ => True end.

(** ** The database *)

(** The statements of the service.  A statement that succeeds reports the rows it
    touched. *)
Class Database (db : Type) := {
  namespaces : store_table -> db -> gmap string NamespaceApply;
  sql_applies : db -> gmap string SqlApply;
  SELECT_cluster : Z -> db -> go_error + option ClusterInfo;
  SELECT_namespace : store_table -> string -> db -> go_error + option NamespaceApply;
  COUNT_target : store_table -> string * string * Z -> db -> go_error + Z;
  COUNT_namespaces : store_table -> option string -> option (Z * Z) -> db -> go_error + Z;
  LIST_namespaces : store_table -> option string -> option (string * string) -> option (Z * Z) -> db -> go_error + list NamespaceApply;
  ordered_namespaces : store_table -> option string -> option (string * string) -> db -> list NamespaceApply;
  INSERT_namespace : store_table -> NamespaceApply -> db -> db * (go_error + Z);
  DELETE_namespace : store_table -> string -> db -> db * (go_error + Z);
  SELECT_sql : string -> db -> go_error + option SqlApply;
  COUNT_sqls : option string -> option (Z * Z) -> db -> go_error + Z;
  LIST_sqls : option string -> option (string * string) -> option (Z * Z) -> db -> go_error + list SqlApply;
  INSERT_sql : SqlApply -> db -> db * (go_error + Z)
}.

(** What the service relies on.  The tables are those of the gateway: an INSERT with the
    id of a row replaces the row, an aggregate takes no limit, and a statement that fails
    changes nothing. *)
Class DatabaseLaws (db : Type) `{!Database db} : Prop := {
  cluster_law c d info : SELECT_cluster c d = inr (Some info) -> ci_id info = c;
  insert_error t r d d' e : INSERT_namespace t r d = (d', inl e) -> reported e;
  select_law t id d o : SELECT_namespace t id d = inr o -> o = namespaces t d !! id;
  count_law t x d n : COUNT_target t x d = inr n ->
    0 <= n /\ (n = 0 <-> forall id r, namespaces t d !! id = Some r -> target r <> x);
  count_all_law t who limit d n : COUNT_namespaces t who limit d = inr n ->
    n = Z.of_nat (length (ordered_namespaces t who None d));
  list_law t who sort limit d l : LIST_namespaces t who sort limit d = inr l ->
    l = limited limit (ordered_namespaces t who sort d);
  ordered_law t who sort d :
    Permutation (ordered_namespaces t who sort d)
      (List.filter (fun r => owned_by who (na_applyer r)) (map_to_list (namespaces t d)).*2);
  insert_law t r d :
    match INSERT_namespace t r d with
    | (d', inl _) => forall t', namespaces t' d' = namespaces t' d
    | (d', inr n) => forall t', namespaces t' d' = if decide (t' = t) then <[na_id r := r]> (namespaces t d) else namespaces t' d
    end;
  delete_law t id d :
    match DELETE_namespace t id d with
    | (d', inl _) => forall t', namespaces t' d' = namespaces t' d
    | (d', inr n) => forall t', namespaces t' d' = if decide (t' = t) then delete id (namespaces t d) else namespaces t' d
    end;
  insert_sql_frame r d t : namespaces t (INSERT_sql r d).1 = namespaces t d;
  select_sql_law id d o : SELECT_sql id d = inr o -> o = sql_applies d !! id;
  insert_sql_law r d :
    match INSERT_sql r d with
    | (d', inl _) => sql_applies d' = sql_applies d
    | (d', inr n) => sql_applies d' = <[sa_id r := r]> (sql_applies d)
    end
}.

(** ** The master server of a cluster *)

(** The requests of the service: an answer has a code and the id of what was created. *)
Class Master (ms : Type) := {
  tables_of : ms -> gset (string * string * Z);
  database_create : ClusterInfo -> string -> ms -> ms * (go_error + Z * Z);
  get_table : ClusterInfo -> string -> string -> ms -> go_error + Z;
  table_create : ClusterInfo -> string -> string -> ms -> ms * (go_error + Z * Z)
}.

(** Creating a database takes no table away; a table that was created with code 0 is
    there; and a table is reported with code 0. *)
Class MasterLaws (ms : Type) `{!Master ms} : Prop := {
  database_create_error c name m m' e : database_create c name m = (m', inl e) -> reported e;
  table_create_error c dbName tableName m m' e : table_create c dbName tableName m = (m', inl e) -> reported e;
  database_create_law c name m : tables_of (database_create c name m).1 = tables_of m;
  get_table_law c dbName tableName m code : get_table c dbName tableName m = inr code ->
    (code = 0 <-> (dbName, tableName, ci_id c) ∈ tables_of m);
  table_create_law c dbName tableName m :
    tables_of m ⊆ tables_of (table_create c dbName tableName m).1 /\
    (forall id, (table_create c dbName tableName m).2 = inr (0, id) ->
       (dbName, tableName, ci_id c) ∈ tables_of (table_create c dbName tableName m).1)
}.

(** ** Go methods *)

Inductive go_outcome (A : Type) : Type :=
| GOk (a : A)
| GErr (e : go_error)
| GPanic.
Arguments GOk {A} _.
Arguments GErr {A} _.
Arguments GPanic {A}.

Section Service.
Context {db ms : Type} `{!Database db} `{!Master ms}.

(** The state that the methods share. *)
Record state := State { st_db : db; st_ms : ms }.

Definition method (A : Type) : Type := state -> state * go_outcome A.

Definition ok {A : Type} (a : A) : method A := fun s => (s, GOk a).
Definition err {A : Type} (e : go_error) : method A := fun s => (s, GErr e).
Definition panic {A : Type} : method A := fun s => (s, GPanic).
Definition try_bind {A B : Type} (m : method A) (f : go_error + A -> method B) : method B :=
  fun s => match m s with
           | (s', GOk a) => f (inr a) s'
           | (s', GErr e) => f (inl e) s'
           | (s', GPanic) => (s', GPanic)
           end.
(** [if err != nil { return err }] *)
Definition then_ {A B : Type} (m : method A) (f : A -> method B) : method B :=
  try_bind m (fun r => match r with inl e => err e | inr a => f a end).

Definition of_result {A : Type} (r : go_error + A) : method A :=
  match r with inl e => err e | inr a => ok a end.
Definition query {A : Type} (f : db -> go_error + A) : method A := fun s => of_result (f (st_db s)) s.
Definition statement {A : Type} (f : db -> db * (go_error + A)) : method A :=
  fun s => let '(d, r) := f (st_db s) in of_result r (State d (st_ms s)).
Definition request_ms {A : Type} (f : ms -> ms * (go_error + A)) : method A :=
  fun s => let '(m, r) := f (st_ms s) in of_result r (State (st_db s) m).

Definition internal (msg : string) : go_error := Fbase (FbaseError (fe_code INTERNAL_ERROR) msg).
(** [err.Error()] *)
Definition error_text (e : go_error) : string :=
  match e with Fbase e => fe_msg e | MySql m => m | Other m => m end.

(** *** Clusters *)

Definition selectClusterById (cId : Z) : method (option ClusterInfo) :=
  try_bind (query (SELECT_cluster cId)) (fun r => match r with inl _ => err (Fbase DB_ERROR) | inr info => ok info end).

(** [selectClusterById] and the check that follows it. *)
Definition the_cluster (cId : Z) : method ClusterInfo :=
  then_ (selectClusterById cId) (fun info =>
    match info with None => err (Fbase CLUSTER_NOTEXISTS_ERROR) | Some info => ok info end).

Definition created (answer : Z * Z) : method Z :=
  if Z.eqb answer.1 0 then ok answer.2 else err (Fbase INTERNAL_ERROR).

Definition CreateDb (cId : Z) (dbName : string) : method Z :=
  then_ (the_cluster cId) (fun info => then_ (request_ms (database_create info dbName)) created).

(** For an application the policy, the keys and the columns are fixed. *)
Definition CreateTable (cId : Z) (dbName tableName : string) : method Z :=
  then_ (the_cluster cId) (fun info => then_ (request_ms (table_create info dbName tableName)) created).

(** The flag of [existTable]; the callers drop the error. *)
Definition existTable (dbName tableName : string) (cId : Z) : method bool :=
  try_bind (the_cluster cId) (fun r =>
    match r with
    | inl _ => ok true
    | inr info => fun s =>
        (s, GOk (match get_table info dbName tableName (st_ms s) with inl _ => true | inr code => Z.eqb code 0 end))
    end).

(** *** Namespaces *)

(** No row is no error: the pointer is nil. *)
Definition GetNamespaceById (applyId : string) (t : store_table) : method (option NamespaceApply) :=
  try_bind (query (SELECT_namespace t applyId)) (fun r =>
    match r with inl _ => err (Fbase DB_ERROR) | inr info => ok info end).

Definition existNspApply (dbName tableName : string) (clusterId : Z) (t : store_table) : method bool :=
  try_bind (query (COUNT_target t (dbName, tableName, clusterId))) (fun r =>
    match r with inl _ => err (Fbase DB_ERROR) | inr count => ok (count >? 0) end).

(** The checks of an application, and the insertion; [id] is the result of [uuid.NewV4]. *)
Definition apply_checked (cId : Z) (dbName tableName : string) (t : store_table) : method unit :=
  then_ (the_cluster cId) (fun _ =>
  try_bind (existNspApply dbName tableName cId t) (fun r =>
    match r with
    | inl e => err (internal (error_text e))
    | inr true => err (internal "had exist apply record")
    | inr false =>
        then_ (existTable dbName tableName cId) (fun flag =>
          if flag then
            err (internal ("exist table [" +:+ dbName +:+ ":" +:+ tableName +:+ "] or request error, please retry other namespace"))
          else ok tt)
    end)).
Definition apply_stored (cId : Z) (dbName tableName applyer : string) (cTime : Z) (id : go_error + string)
    (t : store_table) : method unit :=
  then_ (of_result id) (fun id =>
  then_ (statement (INSERT_namespace t (Namespace id dbName tableName cId 0 0 STATUS_APPLY applyer "" cTime))) (fun _ =>
  ok tt)).
Definition ApplyNamespace (cId : Z) (dbName tableName applyer : string) (cTime : Z) (id : go_error + string)
    (t : store_table) : method unit :=
  then_ (apply_checked cId dbName tableName t) (fun _ => apply_stored cId dbName tableName applyer cTime id t).

(** Approving creates the database and the table of the namespace. *)
Definition grant (status : Z) (info : NamespaceApply) : method (Z * Z) :=
  if Z.eqb status STATUS_AUDIT then
    then_ (CreateDb (na_cluster info) (na_db info)) (fun dbId =>
    then_ (existTable (na_db info) (na_table info) (na_cluster info)) (fun flag =>
      if flag then
        err (internal ("exist table " +:+ na_table info +:+ " in cluster " +:+ string_of_Z (na_cluster info)))
      else
        then_ (CreateTable (na_cluster info) (na_db info) (na_table info)) (fun tableId => ok (dbId, tableId))))
  else ok (0, 0).

Definition audited (info : NamespaceApply) (applyId : string) (ids : Z * Z) (status : Z) (auditor : string) : NamespaceApply :=
  Namespace applyId (na_db info) (na_table info) (na_cluster info) ids.1 ids.2 status (na_applyer info) auditor (na_time info).

(** [AuditLockNsp] and [AuditConfigureNsp]: an application that cannot be read is passed
    over, and the nil pointer of one that is gone is dereferenced. *)
Definition not_stored (t : store_table) : string :=
  match t with
  | TABLE_NAME_LOCK_NSP => "update apply status and return result error"
  | TABLE_NAME_CONFIGURE_NSP => "update configure apply status and return result error"
  end.
Fixpoint AuditNsp (t : store_table) (ids : list string) (status : Z) (auditor : string) : method unit :=
  match ids with
  | [] => ok tt
  | applyId :: ids' =>
      try_bind (GetNamespaceById applyId t) (fun r =>
        match r with
        | inl _ => AuditNsp t ids' status auditor
        | inr None => panic
        | inr (Some info) =>
            then_ (grant status info) (fun new =>
            then_ (statement (INSERT_namespace t (audited info applyId new status auditor))) (fun rowsAffected =>
              if Z.eqb rowsAffected 1 then AuditNsp t ids' status auditor else err (internal (not_stored t))))
        end)
  end.

Definition UpdateNsp (applyId applyer : string) (t : store_table) : method unit :=
  then_ (GetNamespaceById applyId t) (fun info =>
    match info with
    | None => panic
    | Some i =>
        then_ (statement (INSERT_namespace t
          (Namespace applyId (na_db i) (na_table i) (na_cluster i) (na_dbId i) (na_tableId i) (na_status i) applyer
             (na_auditor i) (na_time i)))) (fun rowsAffected =>
          if Z.eqb rowsAffected 1 then ok tt else err (Fbase CLUSTER_DUPCREATE_ERROR))
    end).

Fixpoint DeleteNsp (ids : list string) (t : store_table) : method unit :=
  match ids with
  | [] => ok tt
  | applyId :: ids' =>
      try_bind (statement (DELETE_namespace t applyId)) (fun r =>
        match r with inl e => err (internal (error_text e)) | inr _ => DeleteNsp ids' t end)
  end.

(** *** Lists *)

Record PagerInfo := Pager_ { pg_index : Z; pg_size : Z; pg_sortName : string; pg_sortOrder : string }.
Definition GetPageOffset (p : PagerInfo) : Z := (pg_index p - 1) * pg_size p.

Definition page_sort (p : PagerInfo) : option (string * string) :=
  if negb (String.eqb (pg_sortName p) "") && negb (String.eqb (pg_sortOrder p) "")
  then Some (pg_sortName p, pg_sortOrder p) else None.
Definition page_limit (p : PagerInfo) : option (Z * Z) :=
  if (0 <? pg_index p) && (0 <? pg_size p) then Some (GetPageOffset p, pg_size p) else None.

(** The total and the rows of the page; no rows at all is a nil slice. *)
Definition GetAllNamespace (userName : string) (isAdmin : bool) (p : PagerInfo) (t : store_table) :
    method (Z * option (list NamespaceApply)) :=
  let who := if isAdmin then None else Some userName in
  try_bind (query (COUNT_namespaces t who (page_limit p))) (fun r =>
    match r with
    | inl _ => err (Fbase DB_ERROR)
    | inr totalRecord =>
        if totalRecord >? 0 then
          try_bind (query (LIST_namespaces t who (page_sort p) (page_limit p))) (fun r =>
            match r with inl _ => err (Fbase DB_ERROR) | inr rows => ok (totalRecord, Some rows) end)
        else ok (totalRecord, None)
    end).

(** *** SQL *)

Definition ApplySql (dbName tableName sentence applyer remark : string) (cTime : Z) (id : go_error + string) : method unit :=
  then_ (of_result id) (fun id =>
  then_ (statement (INSERT_sql (SqlApplication id dbName tableName sentence STATUS_APPLY applyer "" cTime remark))) (fun _ =>
  ok tt)).

Definition GetSqlApplyInfo (id : string) : method (option SqlApply) :=
  try_bind (query (SELECT_sql id)) (fun r => match r with inl _ => err (Fbase DB_ERROR) | inr info => ok info end).

Definition GetAllSqlApply (userName : string) (isAdmin : bool) (p : PagerInfo) : method (Z * option (list SqlApply)) :=
  let who := if isAdmin then None else Some userName in
  try_bind (query (COUNT_sqls who (page_limit p))) (fun r =>
    match r with
    | inl _ => err (Fbase DB_ERROR)
    | inr totalRecord =>
        if totalRecord >? 0 then
          try_bind (query (LIST_sqls who (page_sort p) (page_limit p))) (fun r =>
            match r with inl _ => err (Fbase DB_ERROR) | inr rows => ok (totalRecord, Some rows) end)
        else ok (totalRecord, None)
    end).

Fixpoint AuditSql (ids : list string) (status : Z) (auditor : string) : method unit :=
  match ids with
  | [] => ok tt
  | id :: ids' =>
      try_bind (GetSqlApplyInfo id) (fun r =>
        match r with
        | inl _ => AuditSql ids' status auditor
        | inr None => panic
        | inr (Some i) =>
            then_ (statement (INSERT_sql (SqlApplication id (sa_db i) (sa_table i) (sa_sentence i) status (sa_applyer i)
                                            auditor (sa_time i) (sa_remark i)))) (fun _ =>
            AuditSql ids' status auditor)
        end)
  end.

(** *** Rights (console/right/right.go) *)

Record User := User_ { u_name : string; u_right : list (Z * Z) }.

Definition getUserClusterFake (userName : string) : go_error + User := inr (User_ userName [(0, 1)]).
Definition GetUserCluster (userName : string) : go_error + User := getUserClusterFake userName.

Definition IsAdmin (userName : string) : go_error + bool :=
  match GetUserCluster userName with
  | inl e => inl e
  | inr user => inr (existsb (fun r => Z.eqb r.2 1) (u_right user))
  end.

(** *** Actions *)

(** The values that the checks of the action have let through. *)
Definition int_of (ps : param -> string) (p : param) : Z := default 0 (atoi (ps p)).
Definition strings_of (ps : param -> string) (p : param) : list string :=
  match unmarshal_text (GSlice GString) (ps p) with
  | Some (Arr l) => omap (fun v => match v with Str x => Some x | _ => None end) l
  | _ => []
  end.
Definition pager_of (ps : param -> string) : PagerInfo :=
  let number k d := if String.eqb (ps (Query k)) "" then d else int_of ps (Query k) in
  Pager_ (number "page" 1) (number "rows" 10) (ps (Query "sort")) (ps (Query "sortOrder")).

Definition namespace_json (r : NamespaceApply) : val :=
  Obj [("id", Str (na_id r)); ("db_name", Str (na_db r)); ("table_name", Str (na_table r)); ("cluster_id", int (na_cluster r));
       ("db_id", int (na_dbId r)); ("table_id", int (na_tableId r)); ("status", int (na_status r));
       ("applyer", Str (na_applyer r)); ("auditor", Str (na_auditor r)); ("create_time", int (na_time r))].
Definition sql_json (r : SqlApply) : val :=
  Obj [("id", Str (sa_id r)); ("db_name", Str (sa_db r)); ("table_name", Str (sa_table r)); ("sentence", Str (sa_sentence r));
       ("status", int (sa_status r)); ("applyer", Str (sa_applyer r)); ("auditor", Str (sa_auditor r));
       ("create_time", int (sa_time r)); ("remark", Str (sa_remark r))].
Definition page_data {A : Type} (json : A -> val) (res : Z * option (list A)) : val :=
  Obj [("pageIndex", int 0); ("pageSize", int 0); ("total", int res.1);
       ("data", match res.2 with None => Null | Some l => Arr (List.map json l) end)].

Definition nil_answer (m : method unit) : method val := then_ m (fun _ => ok Null).
Definition user_name (ps : param -> string) : string := ps (Session "user_name").
(** [isAdmin, _ := IsAdmin(userName)] *)
Definition admin_flag (ps : param -> string) : bool := match IsAdmin (user_name ps) with inr b => b | inl _ => false end.

Definition nsp_list (t : store_table) (ps : param -> string) : method val :=
  then_ (GetAllNamespace (user_name ps) (admin_flag ps) (pager_of ps) t) (fun res => ok (page_data namespace_json res)).
Definition nsp_apply (t : store_table) (now : Z) (uuid : go_error + string) (ps : param -> string) : method val :=
  nil_answer (ApplyNamespace (int_of ps (PostForm "clusterId")) (ps (PostForm "dbName")) (ps (PostForm "tableName"))
                (user_name ps) now uuid t).
Definition nsp_audit (t : store_table) (ps : param -> string) : method val :=
  match IsAdmin (user_name ps) with
  | inl _ => err (Fbase NO_USER)
  | inr false => err (Fbase NO_RIGHT)
  | inr true =>
      nil_answer (AuditNsp t (strings_of ps (PostForm "ids")) (int_of ps (PostForm "status")) (user_name ps))
  end.
Definition nsp_update (t : store_table) (ps : param -> string) : method val :=
  nil_answer (UpdateNsp (ps (PostForm "id")) (ps (PostForm "applyer")) t).
Definition nsp_delete (t : store_table) (ps : param -> string) : method val :=
  nil_answer (DeleteNsp (strings_of ps (PostForm "ids")) t).
Definition sql_audit (ps : param -> string) : method val :=
  match IsAdmin (user_name ps) with
  | inl _ => err (Other ("query user right failed " +:+ user_name ps))
  | inr false => err (Other "only admin can audit")
  | inr true => nil_answer (AuditSql (strings_of ps (PostForm "ids")) (int_of ps (PostForm "status")) (user_name ps))
  end.

(** What the actions of the lists of applications do after their checks; [now] is the
    time and [uuid] the next identifier. *)
Definition applications (now : Z) (uuid : go_error + string) (a : api_action) (ps : param -> string) : option (method val) :=
  match a with
  | Lock LockGetAllNspAction => Some (nsp_list TABLE_NAME_LOCK_NSP ps)
  | Lock LockNspApplyAction => Some (nsp_apply TABLE_NAME_LOCK_NSP now uuid ps)
  | Lock LockNspAuditAction => Some (nsp_audit TABLE_NAME_LOCK_NSP ps)
  | Lock LockNspUpdateAction => Some (nsp_update TABLE_NAME_LOCK_NSP ps)
  | Lock LockNspDeleteAction => Some (nsp_delete TABLE_NAME_LOCK_NSP ps)
  | Configure ConfigureGetAllNspAction => Some (nsp_list TABLE_NAME_CONFIGURE_NSP ps)
  | Configure ConfigureNspApplyAction => Some (nsp_apply TABLE_NAME_CONFIGURE_NSP now uuid ps)
  | Configure ConfigureNspAuditAction => Some (nsp_audit TABLE_NAME_CONFIGURE_NSP ps)
  | Configure ConfigureNspUpdateAction => Some (nsp_update TABLE_NAME_CONFIGURE_NSP ps)
  | Configure ConfigureNspDeleteAction => Some (nsp_delete TABLE_NAME_CONFIGURE_NSP ps)
  | Sql SqlGetAllAction =>
      Some (then_ (GetAllSqlApply (user_name ps) (admin_flag ps) (pager_of ps)) (fun res => ok (page_data sql_json res)))
  | Sql SqlApplyAction =>
      Some (nil_answer (ApplySql (ps (PostForm "dbName")) (ps (PostForm "tableName")) (ps (PostForm "sentence"))
                          (user_name ps) (ps (PostForm "remark")) now uuid))
  | Sql SqlApplyGetAction =>
      Some (then_ (GetSqlApplyInfo (ps (Query "id"))) (fun i => ok (match i with Some r => sql_json r | None => Null end)))
  | Sql SqlAuditAction => Some (sql_audit ps)
  | _ => None
  end.

(** A request, with [gin.Recovery] around the handler; [actions] is what an action does
    after its checks. *)
Definition respond_with (actions : api_action -> (param -> string) -> option (method val)) (session : string -> string)
    (r : request) (s : state) : option (state * ajax_result) :=
  rt ← find_route (r_type r) (path_of (r_url r));
  m ← actions (rt_action rt) (param_value session r);
  match failing (param_value session r) (checks (rt_action rt)) with
  | Some e => Some (s, Success (handleAction (inl (Fbase e))))
  | None =>
      let '(s', res) := m s in
      Some (s', match res with
                | GOk v => Success (handleAction (inr v))
                | GErr e => Success (handleAction (inl e))
                | GPanic => Failure (Obj [("status", int 500)]) (Str "error")
                end)
  end.

(** A request of the lists. *)
Definition respond (session : string -> string) (now : Z) (uuid : go_error + string) (r : request) (s : state) :
    option (state * ajax_result) :=
  respond_with (applications now uuid) session r s.

End Service.

(** A request with what the server adds to it: the user, the time and an identifier. *)
Record call := Call { ca_session : string -> string; ca_now : Z; ca_uuid : go_error + string; ca_request : request }.

Definition handle {db ms : Type} `{!Database db} `{!Master ms} (s : state (db := db) (ms := ms)) (c : call) : state :=
  match respond (ca_session c) (ca_now c) (ca_uuid c) (ca_request c) s with Some (s', _) => s' | None => s end.

(** ** The interfaces in memory *)

Record memory := Memory
  { me_lock : gmap string NamespaceApply; me_conf : gmap string NamespaceApply; me_sql : gmap string SqlApply;
    me_clusters : gmap Z ClusterInfo }.

Definition me_rows (t : store_table) (d : memory) : gmap string NamespaceApply :=
  match t with TABLE_NAME_LOCK_NSP => me_lock d | TABLE_NAME_CONFIGURE_NSP => me_conf d end.
Definition me_put (t : store_table) (l : gmap string NamespaceApply) (d : memory) : memory :=
  match t with
  | TABLE_NAME_LOCK_NSP => Memory l (me_conf d) (me_sql d) (me_clusters d)
  | TABLE_NAME_CONFIGURE_NSP => Memory (me_lock d) l (me_sql d) (me_clusters d)
  end.
Definition me_list (t : store_table) (who : option string) (d : memory) : list NamespaceApply :=
  List.filter (fun r => owned_by who (na_applyer r)) (map_to_list (me_rows t d)).*2.

#[export] Instance memory_database : Database memory := {
  namespaces := me_rows;
  sql_applies := me_sql;
  SELECT_cluster c d := inr (match me_clusters d !! c with Some i => Some (Cluster_ c (ci_master i) (ci_token i)) | None => None end);
  SELECT_namespace t id d := inr (me_rows t d !! id);
  COUNT_target t x d := inr (Z.of_nat (size (filter (fun kr => target kr.2 = x) (me_rows t d))));
  COUNT_namespaces t who _ d := inr (Z.of_nat (length (me_list t who d)));
  LIST_namespaces t who _ limit d := inr (limited limit (me_list t who d));
  ordered_namespaces t who _ d := me_list t who d;
  INSERT_namespace t r d := (me_put t (<[na_id r := r]> (me_rows t d)) d, inr 1);
  DELETE_namespace t id d := (me_put t (delete id (me_rows t d)) d, inr 1);
  SELECT_sql id d := inr (me_sql d !! id);
  COUNT_sqls who _ d := inr (Z.of_nat (length (List.filter (fun r => owned_by who (sa_applyer r)) (map_to_list (me_sql d)).*2)));
  LIST_sqls who _ limit d := inr (limited limit (List.filter (fun r => owned_by who (sa_applyer r)) (map_to_list (me_sql d)).*2));
  INSERT_sql r d := (Memory (me_lock d) (me_conf d) (<[sa_id r := r]> (me_sql d)) (me_clusters d), inr 1)
}.

#[export] Instance memory_laws : DatabaseLaws memory.
Proof.
  split; cbn.
  - intros c d info [= H]. destruct (me_clusters d !! c); by simplify_eq.
  - done.
  - by intros t id d o [= <-].
  - intros t x d n [= <-]. split; [lia|]. rewrite <- Nat2Z.inj_0, Nat2Z.inj_iff, map_size_empty_iff, map_empty_filter. unfold map_Forall.
    split; [intros H id r Hr He; by eapply (H id r)|intros H id r Hr He; by eapply (H id r)].
  - by intros t who limit d n [= <-].
  - by intros t who sort limit d l [= <-].
  - done.
  - by intros [] r d [].
  - by intros [] id d [].
  - by intros r d [].
  - by intros id d o [= <-].
  - done.
Qed.

Record memory_master := MemoryMaster { mm_tables : gset (string * string * Z); mm_next : Z }.

#[export] Instance memory_master_master : Master memory_master := {
  tables_of := mm_tables;
  database_create _ _ m := (MemoryMaster (mm_tables m) (mm_next m + 1), inr (0, mm_next m));
  get_table c dbName tableName m := inr (if decide ((dbName, tableName, ci_id c) ∈ mm_tables m) then 0 else 1);
  table_create c dbName tableName m :=
    (MemoryMaster ({[(dbName, tableName, ci_id c)]} ∪ mm_tables m) (mm_next m + 1), inr (0, mm_next m))
}.

#[export] Instance memory_master_laws : MasterLaws memory_master.
Proof.
  split; cbn; [done..| |].
  - intros c dbName tableName m code [= <-]. by case_decide.
  - intros c dbName tableName m. set_solver.
Qed.
