(* ===== verification/Workflow.v ===== *)
(** * The workflow of the applications

    The invariant of the tables of applications under every history of requests, the
    effect of an approval, the pages of the lists, and what happens when requests overlap
    or an application is gone; proved against the interfaces of [Applications.v]. *)

From S2P Require Import Prelude JsValue Json Browser Backend Applications.

(** ** Tidy tables *)

(** Every application is stored under its id, no two are for the same namespace, and
    the table of every approved one exists. *)
Record tidy (rows : gmap string NamespaceApply) (tables : gset (string * string * Z)) : Prop := Tidy {
  tidy_keyed id r : rows !! id = Some r -> na_id r = id;
  tidy_unique id id' r r' : rows !! id = Some r -> rows !! id' = Some r' -> target r = target r' -> id = id';
  tidy_backed id r : rows !! id = Some r -> na_status r = STATUS_AUDIT -> target r ∈ tables
}.

Lemma tidy_mono rows tables tables' : tidy rows tables -> tables ⊆ tables' -> tidy rows tables'.
Proof. intros [H1 H2 H3] Hs. split; [done|done|]. intros id r Hr Hst. by eapply Hs, H3. Qed.

(** A row goes in for a namespace that no other row is for. *)
Lemma tidy_insert rows tables r :
  tidy rows tables -> (forall id r', rows !! id = Some r' -> target r' = target r -> id = na_id r) ->
  (na_status r = STATUS_AUDIT -> target r ∈ tables) -> tidy (<[na_id r := r]> rows) tables.
Proof.
  intros [H1 H2 H3] Hnew Hst. split.
  - intros id r' [[<- <-]|[_ Hr]]%lookup_insert_Some; [done|by apply H1].
  - intros id id' r1 r2 Hr1 Hr2 Ht. apply lookup_insert_Some in Hr1 as [[<- <-]|[Hne1 Hr1]], Hr2 as [[<- <-]|[Hne2 Hr2]]; [done|..].
    + symmetry. by apply (Hnew id' r2).
    + by apply (Hnew id r1).
    + by eapply H2.
  - intros id r' [[<- <-]|[_ Hr]]%lookup_insert_Some; [done|by eapply H3].
Qed.

(** A row is replaced by one for the same namespace. *)
Lemma tidy_replace rows tables r r0 :
  tidy rows tables -> rows !! na_id r = Some r0 -> target r = target r0 ->
  (na_status r = STATUS_AUDIT -> target r ∈ tables) -> tidy (<[na_id r := r]> rows) tables.
Proof.
  intros Ht Hr0 He Hst. apply tidy_insert; [done| |done]. intros id r' Hr' He'.
  eapply (tidy_unique rows tables Ht); [exact Hr'|exact Hr0|congruence].
Qed.

Lemma tidy_delete rows tables id : tidy rows tables -> tidy (delete id rows) tables.
Proof.
  intros [H1 H2 H3]. split.
  - intros id' r [_ Hr]%lookup_delete_Some. by apply H1.
  - intros id1 id2 r1 r2 [_ Hr1]%lookup_delete_Some [_ Hr2]%lookup_delete_Some. by apply H2.
  - intros id' r [_ Hr]%lookup_delete_Some. by eapply H3.
Qed.

(** ** What the methods do to the tables *)

Section Laws.
Context {db ms : Type} `{!Database db} `{!Master ms} `{!DatabaseLaws db} `{!MasterLaws ms}.
Implicit Type (s : state (db := db) (ms := ms)) (t : store_table) (r : NamespaceApply).

Definition rows (t : store_table) (s : state (db := db) (ms := ms)) : gmap string NamespaceApply := namespaces t (st_db s).
Definition created_tables (s : state (db := db) (ms := ms)) : gset (string * string * Z) := tables_of (st_ms s).

Lemma query_spec {A : Type} (f : db -> go_error + A) s :
  query f s = (s, match f (st_db s) with inl e => GErr e | inr a => GOk a end).
Proof. unfold query. by destruct (f (st_db s)). Qed.

Lemma the_cluster_spec c s :
  exists o, the_cluster c s = (s, o) /\ o <> GPanic /\ forall info, o = GOk info -> ci_id info = c.
Proof using DatabaseLaws0.
  unfold the_cluster, selectClusterById, then_, try_bind. rewrite query_spec.
  destruct (SELECT_cluster c (st_db s)) as [e|[info|]] eqn:Hc; (eexists; split; [reflexivity|]); split; try done.
  intros ? [= <-]. by eapply cluster_law.
Qed.

Lemma existTable_spec dbName tableName c s : exists b, existTable dbName tableName c s = (s, GOk b).
Proof using DatabaseLaws0.
  unfold existTable, try_bind. destruct (the_cluster_spec c s) as (o & -> & Ho & _).
  destruct o as [info|e|]; [eauto|eauto|done].
Qed.

Lemma GetNamespaceById_spec id t s :
  exists o, GetNamespaceById id t s = (s, o) /\ o <> GPanic /\ forall info, o = GOk info -> info = rows t s !! id.
Proof using DatabaseLaws0.
  unfold GetNamespaceById, try_bind. rewrite query_spec.
  destruct (SELECT_namespace t id (st_db s)) as [e|info] eqn:Hs; (eexists; split; [reflexivity|]); split; try done.
  intros ? [= <-]. by eapply select_law.
Qed.

(** Creating a database or a table leaves the applications alone. *)
Lemma CreateDb_spec c name s :
  exists m o, CreateDb c name s = (State (st_db s) m, o) /\ tables_of m = created_tables s.
Proof using DatabaseLaws0 MasterLaws0.
  unfold CreateDb, then_, try_bind. destruct (the_cluster_spec c s) as (o & -> & Ho & _).
  destruct o as [info|e|]; [|by exists (st_ms s); destruct s; eexists|done].
  unfold request_ms. pose proof (database_create_law info name (st_ms s)) as Hl.
  destruct (database_create info name (st_ms s)) as [m [e|[code id]]]; cbn in Hl |- *; exists m; [by eexists|].
  unfold created. cbn. destruct (Z.eqb code 0); by eexists.
Qed.

Lemma CreateTable_spec c dbName tableName s :
  exists m o, CreateTable c dbName tableName s = (State (st_db s) m, o) /\ created_tables s ⊆ tables_of m /\
    forall id, o = GOk id -> (dbName, tableName, c) ∈ tables_of m.
Proof using DatabaseLaws0 MasterLaws0.
  unfold CreateTable, then_, try_bind. destruct (the_cluster_spec c s) as (o & -> & Ho & Hi).
  destruct o as [info|e|]; [|by exists (st_ms s); destruct s; eexists|done].
  unfold request_ms. destruct (table_create_law info dbName tableName (st_ms s)) as [Hsub Hin].
  destruct (table_create info dbName tableName (st_ms s)) as [m [e|[code id]]]; cbn in Hsub, Hin |- *; exists m; [by eexists|].
  unfold created. cbn. destruct (Z.eqb_spec code 0) as [->|]; [|by eexists]. eexists. split_ands; [reflexivity|done|].
  intros id' _. rewrite <- (Hi info) by done. by eapply Hin.
Qed.

Lemma grant_spec status info s :
  exists m o, grant status info s = (State (st_db s) m, o) /\ created_tables s ⊆ tables_of m /\
    forall ids, o = GOk ids -> status = STATUS_AUDIT -> target info ∈ tables_of m.
Proof using DatabaseLaws0 MasterLaws0.
  unfold grant. destruct (Z.eqb_spec status STATUS_AUDIT) as [->|Hst]; [|by exists (st_ms s); destruct s; eexists].
  unfold then_ at 1, try_bind at 1. destruct (CreateDb_spec (na_cluster info) (na_db info) s) as (m & o & -> & Hm).
  destruct o as [dbId|e|]; [|exists m; eexists; split; [reflexivity|]; by rewrite Hm..].
  unfold then_ at 1, try_bind at 1.
  destruct (existTable_spec (na_db info) (na_table info) (na_cluster info) (State (st_db s) m)) as ([] & ->).
  { exists m. eexists. split; [reflexivity|]. by rewrite Hm. }
  unfold then_, try_bind.
  destruct (CreateTable_spec (na_cluster info) (na_db info) (na_table info) (State (st_db s) m)) as (m' & o & -> & Hsub & Hin).
  cbn in Hsub. rewrite <- Hm. destruct o as [tableId|e|]; exists m'; eexists; (split; [reflexivity|]); split; try done.
  intros ids _ _. by eapply Hin.
Qed.

(** A row is stored, or nothing happens. *)
Lemma INSERT_spec t r s :
  exists d o, statement (INSERT_namespace t r) s = (State d (st_ms s), o) /\
    ((exists e, o = GErr e) /\ (forall t', namespaces t' d = rows t' s) \/
     (exists n, o = GOk n) /\ forall t', namespaces t' d = if decide (t' = t) then <[na_id r := r]> (rows t s) else rows t' s).
Proof using DatabaseLaws0.
  unfold statement. pose proof (insert_law t r (st_db s)) as Hl.
  destruct (INSERT_namespace t r (st_db s)) as [d [e|n]]; exists d; eexists; (split; [reflexivity|]); [left|right]; eauto.
Qed.

Lemma DELETE_spec t id s :
  exists d o, statement (DELETE_namespace t id) s = (State d (st_ms s), o) /\
    ((exists e, o = GErr e) /\ (forall t', namespaces t' d = rows t' s) \/
     (exists n, o = GOk n) /\ forall t', namespaces t' d = if decide (t' = t) then delete id (rows t s) else rows t' s).
Proof using DatabaseLaws0.
  unfold statement. pose proof (delete_law t id (st_db s)) as Hl.
  destruct (DELETE_namespace t id (st_db s)) as [d [e|n]]; exists d; eexists; (split; [reflexivity|]); [left|right]; eauto.
Qed.

(** *** The invariant *)

Definition sound (s : state (db := db) (ms := ms)) : Prop := forall t, tidy (rows t s) (created_tables s).

(** Replacing a table keeps the state sound, if the table is tidy and no created table
    is lost. *)
Lemma sound_put t new s d m :
  sound s -> created_tables s ⊆ tables_of m -> tidy new (tables_of m) ->
  (forall t', namespaces t' d = if decide (t' = t) then new else rows t' s) -> sound (State d m).
Proof. intros Hs Hsub Hnew Hd t'. unfold rows. cbn. rewrite Hd. case_decide; [done|by eapply tidy_mono; [apply Hs|]]. Qed.

Lemma sound_grown s d m :
  sound s -> created_tables s ⊆ tables_of m -> (forall t, namespaces t d = rows t s) -> sound (State d m).
Proof. intros Hs Hsub Hd t. unfold rows. cbn. rewrite Hd. by eapply tidy_mono; [apply Hs|]. Qed.

Lemma apply_checked_spec c dbName tableName t s :
  exists o, apply_checked c dbName tableName t s = (s, o) /\
    (o = GOk tt -> forall id r, rows t s !! id = Some r -> target r <> (dbName, tableName, c)).
Proof using DatabaseLaws0.
  unfold apply_checked, then_ at 1, try_bind at 1. destruct (the_cluster_spec c s) as (o & -> & Ho & _).
  destruct o as [info|e|]; [|by eexists|done]. unfold try_bind, existNspApply, then_. unfold try_bind. rewrite query_spec.
  destruct (COUNT_target t (dbName, tableName, c) (st_db s)) as [e|n] eqn:Hn; [by eexists|]. cbn.
  destruct (n >? 0) eqn:Hpos; [by eexists|].
  destruct (existTable_spec dbName tableName c s) as ([] & ->); [by eexists|]. eexists. split; [reflexivity|]. intros _.
  apply (count_law t (dbName, tableName, c)) in Hn as [H0 Hn]. apply Hn. lia.
Qed.

Lemma apply_stored_sound c dbName tableName applyer now uuid t s :
  sound s -> (forall id r, rows t s !! id = Some r -> target r <> (dbName, tableName, c)) ->
  sound (apply_stored c dbName tableName applyer now uuid t s).1.
Proof using DatabaseLaws0.
  intros Hs Hnew. unfold apply_stored, then_, try_bind. destruct uuid as [e|id]; [done|]. cbn [of_result ok].
  set (r := Namespace _ _ _ _ _ _ _ _ _ _).
  destruct (INSERT_spec t r s) as (d & o & -> & [[[e ->] Hd]|[[n ->] Hd]]); cbn.
  - by apply (sound_grown s).
  - eapply (sound_put t); [exact Hs|done| |exact Hd]. apply tidy_insert; [apply Hs| |done].
    intros id' r' Hr' He. by destruct (Hnew id' r' Hr').
Qed.

(** An application that is stored is a new row, without an auditor. *)
Lemma apply_stored_rows c dbName tableName user now id t s s' :
  apply_stored c dbName tableName user now (inr id) t s = (s', GOk tt) ->
  rows t s' = <[id := Namespace id dbName tableName c 0 0 STATUS_APPLY user "" now]> (rows t s).
Proof using DatabaseLaws0.
  unfold apply_stored, then_, try_bind. cbn [of_result ok]. set (r := Namespace _ _ _ _ _ _ _ _ _ _).
  destruct (INSERT_spec t r s) as (d & o & -> & [[[e ->] Hd]|[[n ->] Hd]]); [done|]. intros [= <-].
  unfold rows at 1. cbn. by rewrite Hd, decide_True.
Qed.

Lemma ApplyNamespace_sound c dbName tableName applyer now uuid t s :
  sound s -> sound (ApplyNamespace c dbName tableName applyer now uuid t s).1.
Proof using DatabaseLaws0.
  intros Hs. unfold ApplyNamespace, then_, try_bind. destruct (apply_checked_spec c dbName tableName t s) as (o & -> & Ho).
  destruct o as [[]|e|]; [|done|done]. by apply apply_stored_sound; [|apply Ho].
Qed.

(** One application is audited: the row of the id is replaced, or nothing is. *)
Lemma AuditNsp_sound t ids status auditor s : sound s -> sound (AuditNsp t ids status auditor s).1.
Proof using DatabaseLaws0 MasterLaws0.
  revert s. induction ids as [|id ids IH]; intros s Hs; [done|]. cbn [AuditNsp]. unfold try_bind at 1.
  destruct (GetNamespaceById_spec id t s) as (o & -> & Ho & Hrow). destruct o as [[info|]|e|]; [|done|by apply IH|done].
  specialize (Hrow _ eq_refl). unfold then_ at 1, try_bind at 1.
  destruct (grant_spec status info s) as (m & o & -> & Hsub & Hback).
  assert (Hm : sound (State (st_db s) m)) by (by apply (sound_grown s)).
  destruct o as [new|e|]; [|exact Hm|exact Hm]. unfold then_, try_bind. set (r := audited _ _ _ _ _).
  destruct (INSERT_spec t r (State (st_db s) m)) as (d & o & -> & [[[e ->] Hd]|[[n ->] Hd]]); cbn [st_ms].
  - by apply (sound_grown (State (st_db s) m)).
  - assert (Hd' : sound (State d m)).
    { eapply (sound_put t); [exact Hm|done| |exact Hd].
      apply (tidy_replace (rows t (State (st_db s) m)) (tables_of m) r info); [apply Hm|done|done|].
      intros Hst. by apply (Hback new). }
    destruct (Z.eqb n 1); [by apply IH|exact Hd'].
Qed.

Lemma UpdateNsp_sound id applyer t s : sound s -> sound (UpdateNsp id applyer t s).1.
Proof using DatabaseLaws0.
  intros Hs. unfold UpdateNsp, then_ at 1, try_bind at 1.
  destruct (GetNamespaceById_spec id t s) as (o & -> & Ho & Hrow). destruct o as [[i|]|e|]; [|done..].
  specialize (Hrow _ eq_refl). unfold then_, try_bind. set (r := Namespace _ _ _ _ _ _ _ _ _ _).
  destruct (INSERT_spec t r s) as (d & o & -> & [[[e ->] Hd]|[[n ->] Hd]]); [by apply (sound_grown s)|].
  assert (Hd' : sound (State d (st_ms s))).
  { eapply (sound_put t); [exact Hs|done| |exact Hd].
    apply (tidy_replace (rows t s) (created_tables s) r i); [apply Hs|done|done|].
    intros Hst. by apply (tidy_backed (rows t s) (created_tables s) (Hs t) id i). }
  by destruct (Z.eqb n 1).
Qed.

Lemma DeleteNsp_sound ids t s : sound s -> sound (DeleteNsp ids t s).1.
Proof using DatabaseLaws0.
  revert s. induction ids as [|id ids IH]; intros s Hs; [done|]. cbn [DeleteNsp]. unfold try_bind.
  destruct (DELETE_spec t id s) as (d & o & -> & [[[e ->] Hd]|[[n ->] Hd]]); [by apply (sound_grown s)|].
  apply IH. eapply (sound_put t); [exact Hs|done| |exact Hd]. apply tidy_delete, Hs.
Qed.

Lemma INSERT_sql_sound (a : SqlApply) s : sound s -> sound (statement (INSERT_sql a) s).1.
Proof using DatabaseLaws0.
  intros Hs. unfold statement. pose proof (insert_sql_frame a (st_db s)) as Hf.
  destruct (INSERT_sql a (st_db s)) as [d [e|n]]; by apply (sound_grown s).
Qed.

Lemma AuditSql_sound ids status auditor s : sound s -> sound (AuditSql ids status auditor s).1.
Proof using DatabaseLaws0.
  revert s. induction ids as [|id ids IH]; intros s Hs; [done|]. cbn [AuditSql]. unfold try_bind at 1.
  unfold GetSqlApplyInfo, try_bind at 1. rewrite query_spec. destruct (SELECT_sql id (st_db s)) as [e|[i|]]; cbn; [by apply IH| |done].
  unfold then_, try_bind. set (r := SqlApplication _ _ _ _ _ _ _ _ _). pose proof (INSERT_sql_sound r s Hs) as Hi.
  destruct (statement (INSERT_sql r) s) as [s' [n|e|]]; [by apply IH|exact Hi|exact Hi].
Qed.

Lemma then_ok_state {A B : Type} (m : method A) (f : A -> B) s : (then_ m (fun a => ok (f a)) s).1 = (m s).1.
Proof. unfold then_, try_bind. by destruct (m s) as [s' []]. Qed.

Lemma GetAllNamespace_state user admin p t s : (GetAllNamespace user admin p t s).1 = s.
Proof.
  unfold GetAllNamespace, try_bind. rewrite query_spec. destruct (COUNT_namespaces _ _ _ _) as [e|n]; [done|].
  destruct (n >? 0); [|done]. rewrite query_spec. by destruct (LIST_namespaces _ _ _ _ _).
Qed.

Lemma GetAllSqlApply_state user admin p s : (GetAllSqlApply user admin p s).1 = s.
Proof.
  unfold GetAllSqlApply, try_bind. rewrite query_spec. destruct (COUNT_sqls _ _ _) as [e|n]; [done|].
  destruct (n >? 0); [|done]. rewrite query_spec. by destruct (LIST_sqls _ _ _ _).
Qed.

(** No action of the lists breaks the invariant. *)
Lemma applications_sound now uuid a ps m s : applications now uuid a ps = Some m -> sound s -> sound (m s).1.
Proof using DatabaseLaws0 MasterLaws0.
  intros Ha Hs.
  assert (Hnsp : forall t, sound (nsp_list t ps s).1 /\ sound (nsp_apply t now uuid ps s).1 /\ sound (nsp_audit t ps s).1 /\
    sound (nsp_update t ps s).1 /\ sound (nsp_delete t ps s).1).
  { intros t. split_ands.
    - unfold nsp_list. by rewrite then_ok_state, GetAllNamespace_state.
    - unfold nsp_apply, nil_answer. rewrite then_ok_state. by apply ApplyNamespace_sound.
    - cbn. unfold nil_answer. rewrite then_ok_state. by apply AuditNsp_sound.
    - unfold nsp_update, nil_answer. rewrite then_ok_state. by apply UpdateNsp_sound.
    - unfold nsp_delete, nil_answer. rewrite then_ok_state. by apply DeleteNsp_sound. }
  destruct a as [| | | | | | | | |[]|[]|[]|]; cbn [applications] in Ha; try discriminate Ha; injection Ha as <-; try apply Hnsp.
  - by rewrite then_ok_state, GetAllSqlApply_state.
  - unfold nil_answer. rewrite then_ok_state. unfold ApplySql, then_, try_bind. destruct uuid as [e|id]; [done|]. cbn [of_result ok].
    set (r := SqlApplication _ _ _ _ _ _ _ _ _). pose proof (INSERT_sql_sound r s Hs) as Hi.
    by destruct (statement (INSERT_sql r) s) as [s' [n|e|]].
  - rewrite then_ok_state. unfold GetSqlApplyInfo, try_bind. rewrite query_spec. by destruct (SELECT_sql _ _).
  - cbn. unfold nil_answer. rewrite then_ok_state. by apply AuditSql_sound.
Qed.

(** *** Approvals *)

(** The row of [id] has got the status and the auditor, and keeps the rest. *)
Definition changed (t : store_table) (status : Z) (auditor id : string) (s s' : state (db := db) (ms := ms)) : Prop :=
  exists r new, rows t s !! id = Some r /\ rows t s' !! id = Some (audited r id new status auditor).

Lemma changed_later t status auditor id s s1 s2 :
  changed t status auditor id s s1 ->
  rows t s2 !! id = rows t s1 !! id \/ changed t status auditor id s1 s2 -> changed t status auditor id s s2.
Proof.
  intros (r & new & Hr & Hr1) [H2|(r1 & new1 & H1 & H2)]; [exists r, new; by rewrite H2|].
  rewrite Hr1 in H1. injection H1 as <-. by exists r, new1.
Qed.

Lemma changed_earlier t status auditor id s s1 s2 :
  rows t s1 !! id = rows t s !! id -> changed t status auditor id s1 s2 -> changed t status auditor id s s2.
Proof. intros H (r & new & Hr & Hr2). exists r, new. by rewrite <- H. Qed.

(** Only the rows of [ids] have changed, and only in this way. *)
Definition touched (t : store_table) (status : Z) (auditor : string) (ids : list string) (s s' : state (db := db) (ms := ms)) : Prop :=
  (forall t', t' <> t -> rows t' s' = rows t' s) /\
  (forall id, rows t s' !! id = rows t s !! id \/ id ∈ ids /\ changed t status auditor id s s').

Lemma touched_same t status auditor ids s s' : (forall t', rows t' s' = rows t' s) -> touched t status auditor ids s s'.
Proof. intros H. split; [by intros|]. intros id. left. by rewrite H. Qed.

Lemma touched_step t status auditor i ids s s1 s' :
  (forall t', t' <> t -> rows t' s1 = rows t' s) -> (forall id, id <> i -> rows t s1 !! id = rows t s !! id) ->
  changed t status auditor i s s1 -> touched t status auditor ids s1 s' -> touched t status auditor (i :: ids) s s'.
Proof.
  intros Ht Hi Hc [Ht' Hs']. split; [intros t' Hne; by rewrite Ht', Ht|]. intros id.
  destruct (decide (id = i)) as [->|Hne].
  - right. split; [by left|]. eapply changed_later; [exact Hc|]. destruct (Hs' i) as [?|[_ ?]]; auto.
  - destruct (Hs' id) as [He|[Hin He]]; [left; by rewrite He, Hi|right; split; [by right|]].
    eapply changed_earlier; [|exact He]. by apply Hi.
Qed.

(** One turn of the loop on an application that was read. *)
Lemma audit_turn t i info status auditor (k : Z -> method unit) s s' o :
  rows t s !! i = Some info ->
  then_ (grant status info) (fun new =>
    then_ (statement (INSERT_namespace t (audited info i new status auditor))) k) s = (s', o) ->
  (forall t', rows t' s' = rows t' s) /\ o <> GOk tt \/
  exists s1 n, k n s1 = (s', o) /\ (forall t', t' <> t -> rows t' s1 = rows t' s) /\
    (forall id, id <> i -> rows t s1 !! id = rows t s !! id) /\ changed t status auditor i s s1.
Proof using DatabaseLaws0 MasterLaws0.
  intros Hsel. unfold then_ at 1, try_bind at 1. destruct (grant_spec status info s) as (m & og & -> & _ & _).
  destruct og as [new|e|]; [|by intros [= <- <-]; left..].
  unfold then_ at 1, try_bind at 1. set (r := audited info i new status auditor).
  destruct (INSERT_spec t r (State (st_db s) m)) as (d & oi & -> & [[[e ->] Hd]|[[n ->] Hd]]); [by intros [= <- <-]; left|].
  change (rows ?u (State (st_db s) m)) with (rows u s) in Hd. intros Hk. right. exists (State d m), n.
  assert (Hrows : rows t (State d m) = <[i := r]> (rows t s)) by (unfold rows at 1; cbn; by rewrite Hd, decide_True).
  split_ands; [done| | |].
  - intros t' Ht. unfold rows at 1. cbn. by rewrite Hd, decide_False.
  - intros id Hne. by rewrite Hrows, lookup_insert_ne.
  - exists info, new. by rewrite Hrows, lookup_insert_eq.
Qed.

Lemma then_spec {A B : Type} (m : method A) (f : A -> method B) s :
  then_ m f s = match m s with (s1, GOk a) => f a s1 | (s1, GErr e) => (s1, GErr e) | (s1, GPanic) => (s1, GPanic) end.
Proof. unfold then_, try_bind. by destruct (m s) as [s1 []]. Qed.

(** The loop over two lists of ids. *)
Lemma AuditNsp_app t ids ids' status auditor s :
  AuditNsp t (ids ++ ids') status auditor s = then_ (AuditNsp t ids status auditor) (fun _ => AuditNsp t ids' status auditor) s.
Proof.
  revert s. induction ids as [|i ids IH]; intros s; [done|]. cbn [AuditNsp app].
  rewrite then_spec. unfold try_bind. destruct (GetNamespaceById i t s) as [s1 [[info|]|e|]]; [|done| |done].
  - rewrite !then_spec. destruct (grant status info s1) as [s2 [new|e|]]; [|done|done].
    rewrite !then_spec. destruct (statement _ s2) as [s3 [n|e|]]; [|done|done].
    destruct (Z.eqb n 1); [|done]. by rewrite IH, then_spec.
  - by rewrite IH, then_spec.
Qed.

(** An audit touches only the rows of its ids; one that ends well, with all of them
    read, has changed them all. *)
Lemma AuditNsp_rows t ids status auditor s s' o :
  AuditNsp t ids status auditor s = (s', o) ->
  touched t status auditor ids s s' /\
  (o = GOk tt -> (forall id d e, SELECT_namespace t id d <> inl e) -> Forall (fun id => changed t status auditor id s s') ids).
Proof using DatabaseLaws0 MasterLaws0.
  revert s. induction ids as [|i ids IH]; intros s; [by intros [= <- <-]; split; [apply touched_same|constructor]|].
  cbn [AuditNsp]. unfold try_bind at 1, GetNamespaceById at 1, try_bind at 1. rewrite query_spec.
  destruct (SELECT_namespace t i (st_db s)) as [e|[info|]] eqn:Hsel; cbn [err ok].
  - intros Hrun. destruct (IH s Hrun) as [[Ht Hs'] _]. split; [|intros _ Hno; by destruct (Hno i (st_db s) e)].
    split; [done|]. intros id. destruct (Hs' id) as [?|[? ?]]; [by left|right; split; [by right|done]].
  - apply select_law in Hsel. intros Hrun.
    apply (audit_turn t i info) in Hrun as [[Hs Ho]|(s1 & n & Hk & Ht & Hi & Hc)];
      [split; [by apply touched_same|done]| |done].
    destruct (Z.eqb n 1).
    + destruct (IH s1 Hk) as [Hs1 Hall]. split; [by eapply touched_step|]. intros -> Hno.
      specialize (Hall eq_refl Hno). constructor.
      * eapply changed_later; [exact Hc|]. destruct (proj2 Hs1 i) as [?|[_ ?]]; auto.
      * rewrite list.Forall_forall in Hall |- *. intros id Hin. destruct (decide (id = i)) as [->|Hne];
          [eapply changed_later; [exact Hc|right; by apply Hall]|eapply changed_earlier; [by apply Hi|by apply Hall]].
    + injection Hk as <- <-. split; [|done]. eapply touched_step; [done..|]. by apply touched_same.
  - intros [= <- <-]. split; [by apply touched_same|done].
Qed.

(** *** Errors *)

(** A method whose errors are reported as such. *)
Definition proper {A : Type} (m : method (db := db) (ms := ms) A) : Prop := forall s s' e, m s = (s', GErr e) -> reported e.

Lemma proper_err {A : Type} e : reported e -> proper (err (A := A) e).
Proof. by intros He s s' e' [= _ <-]. Qed.

Lemma proper_ok {A : Type} (a : A) : proper (ok a).
Proof. by intros s s' e. Qed.

Lemma proper_try_bind {A B : Type} (m : method A) (f : go_error + A -> method B) :
  (forall a, proper (f (inr a))) -> (forall e, proper (f (inl e))) -> proper (try_bind m f).
Proof. intros Ha He s s' e. unfold try_bind. destruct (m s) as [s1 [a|e1|]]; [by eapply Ha|by eapply He|done]. Qed.

Lemma proper_then {A B : Type} (m : method A) (f : A -> method B) :
  proper m -> (forall a, proper (f a)) -> proper (then_ m f).
Proof.
  intros Hm Ha s s' e. unfold then_, try_bind. destruct (m s) as [s1 [a|e1|]] eqn:E; [by eapply Ha| |done].
  intros [= _ <-]. by eapply Hm.
Qed.

Lemma proper_the_cluster c : proper (the_cluster c).
Proof.
  apply proper_then; [apply proper_try_bind; intros; [apply proper_ok|by apply proper_err]|].
  intros [info|]; [apply proper_ok|by apply proper_err].
Qed.

Lemma proper_INSERT t r : proper (statement (INSERT_namespace t r)).
Proof using DatabaseLaws0.
  intros s s' e. unfold statement. destruct (INSERT_namespace t r (st_db s)) as [d [e'|n]] eqn:E; [|done].
  intros [= _ <-]. by eapply insert_error.
Qed.

Lemma proper_created a : proper (created a).
Proof. unfold created. case_match; [apply proper_ok|by apply proper_err]. Qed.

Lemma proper_grant status info : proper (grant status info).
Proof using MasterLaws0.
  unfold grant. case_match; [|apply proper_ok]. apply proper_then; [|intros dbId; apply proper_then; [|intros []]].
  - apply proper_then; [apply proper_the_cluster|]. intros i. apply proper_then; [|apply proper_created].
    intros s s' e. unfold request_ms. destruct (database_create i _ (st_ms s)) as [m [e'|n]] eqn:E; [|done].
    intros [= _ <-]. by eapply database_create_error.
  - apply proper_try_bind; intros; [|apply proper_ok]. by intros s s' e.
  - by apply proper_err.
  - apply proper_then; [|intros; apply proper_ok]. apply proper_then; [apply proper_the_cluster|]. intros i.
    apply proper_then; [|apply proper_created].
    intros s s' e. unfold request_ms. destruct (table_create i _ _ (st_ms s)) as [m [e'|n]] eqn:E; [|done].
    intros [= _ <-]. by eapply table_create_error.
Qed.

Lemma proper_AuditNsp t ids status auditor : proper (AuditNsp t ids status auditor).
Proof using DatabaseLaws0 MasterLaws0.
  induction ids as [|i ids IH]; [apply proper_ok|]. cbn [AuditNsp]. apply proper_try_bind; [|by intros].
  intros [info|]; [|by intros s s' e]. apply proper_then; [apply proper_grant|]. intros new.
  apply proper_then; [apply proper_INSERT|]. intros n. case_match; [exact IH|by apply proper_err].
Qed.

End Laws.

(** ** Theorems *)


(** A cluster, an empty database and an empty master. *)
Definition empty_state : state (db := memory) (ms := memory_master) :=
  State (Memory ∅ ∅ ∅ {[1 := Cluster_ 1 "http://master" "token"]}) (MemoryMaster ∅ 1).

Lemma empty_sound : sound empty_state.
Proof. intros []; split; intros *; cbn; by rewrite lookup_empty. Qed.

Definition as_user (name key : string) : string := if String.eqb key "user_name" then name else "".
Definition apply_call (id table : string) : call :=
  Call (as_user "ann") 5 (inr id)
    (post "/lock/namespace/apply" [("clusterId", Str "1"); ("dbName", Str "locks"); ("tableName", Str table)]).



(** Applying the theorem to two users. *)
Definition after_first : state (db := memory) (ms := memory_master) :=
  (apply_stored 1 "locks" "jobs" "ann" 5 (inr "a") TABLE_NAME_LOCK_NSP empty_state).1.
Definition after_second : state (db := memory) (ms := memory_master) :=
  (apply_stored 1 "locks" "jobs" "bob" 6 (inr "b") TABLE_NAME_LOCK_NSP after_first).1.




(** C39: an application that is gone stops the handler.  When the row of one of the chosen
    ids has been deleted, [GetNamespaceById] returns a nil pointer without an error and the
    audit dereferences it: the answer is status 500, the applications before it keep what
    they got, and the ones after it are not looked at. *)
Theorem audit_of_deleted_panics {db ms : Type} `{!Database db} `{!Master ms} `{!DatabaseLaws db} `{!MasterLaws ms}
    (s s1 : state (db := db) (ms := ms)) (t : store_table) (before after : list string) (gone : string) (status : Z) (auditor : string) :
  AuditNsp t before status auditor s = (s1, GOk tt) -> rows t s !! gone = None ->
  (forall id d e, SELECT_namespace t id d <> inl e) ->
  AuditNsp t (before ++ gone :: after) status auditor s = (s1, GPanic) /\
  Forall (fun id => changed t status auditor id s s1) before.
Proof.
  intros Hb Hgone Hread. split; [|by apply (AuditNsp_rows t before status auditor s s1 (GOk tt) Hb)].
  assert (Hsel : forall s2 : state, rows t s2 !! gone = None -> forall ids, AuditNsp t (gone :: ids) status auditor s2 = (s2, GPanic)).
  { intros s2 Hs2 ids. cbn [AuditNsp]. unfold try_bind, GetNamespaceById, try_bind. rewrite query_spec.
    destruct (SELECT_namespace t gone (st_db s2)) as [e|o] eqn:Ho; [by destruct (Hread _ _ _ Ho)|].
    apply select_law in Ho. unfold rows in Hs2. by rewrite Ho, Hs2. }
  rewrite AuditNsp_app. unfold then_, try_bind. rewrite Hb. apply Hsel.
  destruct (AuditNsp_rows t before status auditor s s1 (GOk tt) Hb) as [[_ Hrows] _].
  destruct (Hrows gone) as [->|[_ (r & new & Hr & _)]]; [done|by rewrite Hgone in Hr].
Qed.

(** Applying the theorem to an approval of two applications, the second of which is gone. *)
Lemma audit_of_deleted_panics_witness :
  AuditNsp TABLE_NAME_LOCK_NSP ["a"; "x"] STATUS_AUDIT "root" after_first =
    ((AuditNsp TABLE_NAME_LOCK_NSP ["a"] STATUS_AUDIT "root" after_first).1, GPanic).
Proof.
  apply (audit_of_deleted_panics after_first _ TABLE_NAME_LOCK_NSP ["a"] [] "x" STATUS_AUDIT "root");
    [vm_compute; reflexivity|vm_compute; reflexivity|done].
Defined.
