(* ===== verification/Relay.v ===== *)
(** * Requests that the console passes on to the master server

    Most operations of console/service/service.go look up the cluster, sign a request and
    pass the parameters of the page on to the master server of the cluster.  [relay] is such
    a request, one definition per method; [sendGetReq] builds its address the way the code
    does.  The network, the hash of the signature and the order in which Go walks through
    a map are parameters. *)

From S2P Require Import Prelude JsValue Json Browser Urls Backend Applications.
From Stdlib Require Import Ascii.

(** ** Requests to the master *)

(** The values of the parameters, and how [%v] prints them. *)
Inductive go_value : Type := VStr (s : string) | VInt (z : Z) | VBool (b : bool).
Definition print_v (v : go_value) : string :=
  match v with VStr s => s | VInt z => string_of_Z z | VBool b => if b then "true" else "false" end.

(** How a method reports that the master refused: with [INTERNAL_ERROR], with its code and
    the message of the master, or with the message alone; [RWrapped] is the second, and
    gives a failed request that code too. *)
Inductive refusal : Type := RInternal | RMessage | RErrorf | RWrapped.

(** What is handed back: nothing, the data of the answer in their type, or the answer. *)
Inductive handed : Type := Nothing | TheData (t : gotype) | TheResponse.

(** A method: the address, its parameters besides the signature, the report of a refusal
    and what is handed back. *)
Record relay := Relay
  { rl_uri : string; rl_params : list (string * go_value); rl_refusal : refusal; rl_data : handed }.

(** *** Databases and tables *)
Definition DbInfo : gotype :=
  GStruct [("id", GInt); ("name", GString); ("properties", GString); ("create_time", GInt)].
Definition CreateDb (dbName : string) : relay :=
  Relay "/manage/database/create" [("name", VStr dbName)] RInternal (TheData DbInfo).
Definition DeleteDb (dbName : string) : relay :=
  Relay "/manage/database/delete" [("dbName", VStr dbName)] RWrapped Nothing.
Definition DeleteTable (dbName tableName flag : string) : relay :=
  let named := [("dbName", VStr dbName); ("tableName", VStr tableName)] in
  if String.eqb "true" flag then Relay "/manage/table/delete/fast" (named ++ [("fast", VStr flag)]) RInternal Nothing
  else Relay "/manage/table/delete" named RInternal Nothing.

(** *** Nodes *)
Definition node_relay (uri : string) (nodeId : Z) (more : list (string * go_value)) (data : handed) : relay :=
  Relay uri (("nodeId", VInt nodeId) :: more) RMessage data.
Definition SetNodeLogOut (nodeId : Z) : relay := node_relay "/manage/node/logout" nodeId [] Nothing.
Definition SetNodeUpgrade (nodeId : Z) : relay := node_relay "/manage/node/upgrade" nodeId [] Nothing.
Definition SetNodeLogIn (nodeId : Z) : relay := node_relay "/manage/node/login" nodeId [("force", VInt 1)] Nothing.
Definition SetNodeLogLevel (nodeId : Z) (logLevel : string) : relay :=
  node_relay "/manage/node/setLogLevel" nodeId [("logLevel", VStr logLevel)] Nothing.
Definition DeleteNodes (nodeIds : string) : relay :=
  Relay "/manage/node/delete" [("nodeIds", VStr nodeIds)] RMessage Nothing.
Definition SetConfigOfNode (nodeId : Z) (setConfig : string) : relay :=
  node_relay "/manage/node/setConfigOfNode" nodeId [("setConfig", VStr setConfig)] Nothing.
Definition GetDsInfoOfNode (nodeId : Z) (path : string) : relay :=
  node_relay "/manage/node/getDsInfoOfNode" nodeId [("dsInfoPath", VStr path)] (TheData GString).
Definition ClearQueueOfNode (nodeId : Z) (queueType : string) : relay :=
  node_relay "/manage/node/clearQueueOfNode" nodeId [("queueType", VStr queueType)] (TheData GUint64).
Definition GetPendingQueuesOfNode (nodeId : Z) (pendingType count : string) : relay :=
  node_relay "/manage/node/getPendingQueuesOfNode" nodeId [("pendingType", VStr pendingType); ("count", VStr count)]
    (TheData GString).
Definition FlushDBOfNode (nodeId : Z) (wait : bool) : relay :=
  node_relay "/manage/node/flushDBOfNode" nodeId [("wait", VBool wait)] Nothing.

(** *** Tasks and replicas *)

(** The operation is not passed on. *)
Definition TaskOperate (operate taskIds : string) : relay :=
  Relay "/manage/task/delete" [("taskIds", VStr taskIds)] RMessage (TheData GAny).
Definition GetPresentTask : relay := Relay "/manage/task/getall" [] RMessage (TheData GAny).
Definition DeletePeer (rangeId peerId : string) : relay :=
  Relay "/manage/range/del/peer" [("rangeId", VStr rangeId); ("peerId", VStr peerId)] RMessage (TheData GAny).
Definition AddPeer (rangeId : string) : relay := Relay "/manage/range/add/peer" [("rangeId", VStr rangeId)] RMessage Nothing.

(** *** Scheduling *)
Definition GetSchedulerDetail (name : string) : relay :=
  Relay "/manage/scheduler/detail" [("name", VStr name)] RMessage (TheData GAny).
(** 1 adds, 2 removes; for other numbers the address stays empty. *)
Definition AdjustScheduler (optType : Z) (scheduler : string) : relay :=
  Relay (if Z.eqb optType 1 then "/manage/scheduler/add" else if Z.eqb optType 2 then "/manage/scheduler/remove" else "")
    [("name", VStr scheduler)] RMessage Nothing.
Definition GetTaskType : relay := Relay "/manage/task/getTypeAll" [] RMessage (TheData (GSlice GString)).

(** *** Topology *)
Definition table_relay (uri dbName tableName : string) (more : list (string * go_value)) (how : refusal)
    (data : handed) : relay :=
  Relay uri (("dbName", VStr dbName) :: ("tableName", VStr tableName) :: more) how data.
Definition CheckTopology (dbName tableName : string) : relay :=
  table_relay "/debug/table/topology/check" dbName tableName [] RMessage Nothing.
Definition GetTableTopologyMissing (dbName tableName : string) : relay :=
  table_relay "/manage/table/topology/missing" dbName tableName [] RMessage (TheData GAny).
Definition CreateTopologyRange (dbName tableName startKey endKey : string) : relay :=
  table_relay "/manage/table/topology/create" dbName tableName [("startKey", VStr startKey); ("endKey", VStr endKey)]
    RMessage Nothing.
Definition BatchCreateTopologyRange (dbName tableName : string) : relay :=
  table_relay "/manage/table/topology/batchCreate" dbName tableName [] RMessage Nothing.
Definition GetRangeDuplicate (dbName tableName : string) : relay :=
  table_relay "/manage/table/range/duplicate" dbName tableName [] RMessage (TheData GAny).
Definition GetClusterTopology : relay := Relay "/manage/topology/query" [] RMessage (TheData GAny).

(** *** Ranges *)
Definition range_relay (uri dbName tableName : string) (rangeId peerId : Z) : relay :=
  table_relay uri dbName tableName [("rangeId", VInt rangeId); ("peerId", VInt peerId)] RErrorf Nothing.
Definition UpdateRange := range_relay "/manage/range/updateRange".
Definition OfflineRange := range_relay "/manage/range/offlineRange".
Definition RebuildRange (dbName tableName : string) (rangeId : Z) : relay :=
  range_relay "/manage/range/rebuildRange" dbName tableName rangeId 0.
Definition ReplaceRange := range_relay "/manage/range/replaceRange".
Definition DeleteRange (rangeId : Z) : relay := Relay "/manage/range/delete" [("rangeId", VInt rangeId)] RErrorf Nothing.
Definition BatchRecoverRange (dbName tableName : string) : relay :=
  table_relay "/manage/range/unhealthy/recover" dbName tableName [] RErrorf Nothing.
Definition ForceSplitRange (rangeId : Z) (dbName tableName : string) : relay :=
  table_relay "/manage/range/forceSplitRange" dbName tableName [("rangeId", VInt rangeId)] RErrorf Nothing.
Definition ForceCompactRange (rangeId : Z) (dbName tableName : string) : relay :=
  table_relay "/manage/range/forceCompactRange" dbName tableName [("rangeId", VInt rangeId)] RErrorf TheResponse.
Definition TransferRange (rangeId peerId : Z) : relay :=
  Relay "/manage/range/transfer" [("rangeId", VInt rangeId); ("peerId", VInt peerId)] RErrorf Nothing.
Definition ChangeRangeLeader (rangeId peerId : Z) : relay :=
  Relay "/manage/range/leader/change" [("rangeId", VInt rangeId); ("peerId", VInt peerId)] RErrorf Nothing.
Definition GetRangeOpsTopN (topN : Z) : relay := Relay "/manage/range/getOpsTopN" [("topN", VInt topN)] RErrorf (TheData GAny).

(** ** Which action sends what *)

(** [v, _ := strconv.ParseUint(s, 10, 64)], taken for an int. *)
Definition uint_or_zero (s : string) : Z :=
  if nonempty_digits s then
    match Z_of_string s with Some z => let u := Z.min z (2 ^ 64 - 1) in if u <? 2 ^ 63 then u else u - 2 ^ 64 | None => 0 end
  else 0.
(** [strconv.ParseBool] of [wait], false if it fails. *)
Definition parse_bool (s : string) : bool := existsb (String.eqb s) ["1"; "t"; "T"; "TRUE"; "true"; "True"].

(** The cluster of the request, and the method with its arguments. *)
Definition cluster_of (a : api_action) (ps : param -> string) : Z :=
  match a with
  | Range (PeerDelete | PeerAdd | TaskPresent | TaskOperation) => uint_or_zero (ps (PostForm "clusterId"))
  | Range RangeOpsTopN | Schedule (SchedulerDetailAction | TaskTypeAllAction) => int_of ps (Query "clusterId")
  | _ => int_of ps (PostForm "clusterId")
  end.

Definition relay_of (a : api_action) (ps : param -> string) : option (go_error + relay) :=
  let text k := ps (PostForm k) in
  let num k := int_of ps (PostForm k) in
  match a with
  | Metadata CreateDbAction => Some (inr (CreateDb (text "dbName")))
  | Metadata DeleteDbAction => Some (inr (DeleteDb (text "dbName")))
  | Metadata DeleteTableAction => Some (inr (DeleteTable (text "dbName") (text "tableName") (text "flag")))
  | Node NodeStatusUpdate =>
      Some (if Z.eqb (num "status") 1 then inr (SetNodeLogIn (num "nodeId"))
            else if Z.eqb (num "status") 2 then inr (SetNodeLogOut (num "nodeId"))
            else if Z.eqb (num "status") 3 then inr (SetNodeUpgrade (num "nodeId"))
            else inl (Other "not support"))
  | Node NodeLogLevelUpdate => Some (inr (SetNodeLogLevel (num "nodeId") (text "logLevel")))
  | Node NodeDelete => Some (inr (DeleteNodes (text "nodeIds")))
  | Node NodeSetConfig => Some (inr (SetConfigOfNode (num "nodeId") (text "setConfig")))
  | Node NodeGetDsInfo => Some (inr (GetDsInfoOfNode (num "nodeId") (text "dsInfoPath")))
  | Node NodeClearQueue => Some (inr (ClearQueueOfNode (num "nodeId") (text "queueType")))
  | Node NodeGetPendingQueues => Some (inr (GetPendingQueuesOfNode (num "nodeId") (text "pendingType") (text "count")))
  | Node NodeFlushDB => Some (inr (FlushDBOfNode (num "nodeId") (parse_bool (text "wait"))))
  | Range TaskOperation => Some (inr (TaskOperate (text "type") (text "taskId")))
  | Range TaskPresent => Some (inr GetPresentTask)
  | Range PeerDelete => Some (inr (DeletePeer (text "rangeId") (text "peerId")))
  | Range PeerAdd => Some (inr (AddPeer (text "rangeId")))
  | Range RangeUpdate => Some (inr (UpdateRange (text "dbName") (text "tableName") (num "rangeId") (num "peerId")))
  | Range RangeOffline => Some (inr (OfflineRange (text "dbName") (text "tableName") (num "rangeId") (num "peerId")))
  | Range RangeRebuild => Some (inr (RebuildRange (text "dbName") (text "tableName") (num "rangeId")))
  | Range RangeReplace => Some (inr (ReplaceRange (text "dbName") (text "tableName") (num "rangeId") (num "peerId")))
  | Range RangeDelete => Some (inr (DeleteRange (num "rangeId")))
  | Range RangeBatchRecover => Some (inr (BatchRecoverRange (text "dbName") (text "tableName")))
  | Range RangeForceSplit => Some (inr (ForceSplitRange (num "rangeId") (text "dbName") (text "tableName")))
  | Range RangeForceCompact => Some (inr (ForceCompactRange (num "rangeId") (text "dbName") (text "tableName")))
  | Range RangeTransfer => Some (inr (TransferRange (num "rangeId") (num "peerId")))
  | Range RangeLeaderChange => Some (inr (ChangeRangeLeader (num "rangeId") (num "peerId")))
  | Range RangeOpsTopN => Some (inr (GetRangeOpsTopN (int_of ps (Query "topN"))))
  | Range RangeDuplicateAction => Some (inr (GetRangeDuplicate (text "dbName") (text "tableName")))
  | Schedule SchedulerDetailAction => Some (inr (GetSchedulerDetail (ps (Query "name"))))
  | Schedule SchedulerAdjustAction => Some (inr (AdjustScheduler (num "optType") (text "scheduler")))
  | Schedule TaskTypeAllAction => Some (inr GetTaskType)
  | Topology TopologyAction => Some (inr (CheckTopology (text "dbName") (text "tableName")))
  | Topology TableTopologyAction => Some (inr (GetTableTopologyMissing (text "dbName") (text "tableName")))
  | Topology TopologyRangeCreateAction =>
      Some (inr (if String.eqb "true" (text "batchFlag") then BatchCreateTopologyRange (text "dbName") (text "tableName")
                 else CreateTopologyRange (text "dbName") (text "tableName") (text "startKey") (text "endKey")))
  | Topology TopologyViewAction => Some (inr GetClusterTopology)
  | _ => None
  end.

(** ** Sending *)

(** [sendGetReq]: the parameters are printed one after the other, as they are. *)
Fixpoint query_text (pieces : list string) : string :=
  match pieces with [] => "" | p :: pieces' => "&" +:+ p +:+ query_text pieces' end.
Definition printed (fields : list (string * string)) : list string := List.map (fun '(k, v) => k +:+ "=" +:+ v) fields.
Definition get_url (host uri : string) (fields : list (string * string)) : string :=
  host +:+ (match str_prefix "/" uri with Some _ => "" | None => "/" end) +:+ uri +:+
  (match fields with
   | [] => ""
   | _ => "?" +:+ query_text (printed fields)
   end).

(** The answer that a method decodes. *)
Definition answer_type (data : handed) : gotype :=
  GStruct ([("code", GInt); ("message", GString)] ++ match data with TheData t => [("data", t)] | _ => [] end).

(** [h] is what [http.Get] returned: nothing, or a status and a body. *)
Definition read_answer (data : handed) (h : option (Z * string)) : go_error + val :=
  match h with
  | None => inl (Fbase HTTP_REQUEST_ERROR)
  | Some (status, body) =>
      if Z.eqb status 200 then
        match unmarshal_text (answer_type data) body with Some v => inr v | None => inl (Fbase INTERNAL_ERROR) end
      else inl (Fbase HTTP_REQUEST_ERROR)
  end.

Definition refused (how : refusal) (msg : string) : go_error :=
  match how with RInternal => Fbase INTERNAL_ERROR | RMessage | RWrapped => internal msg | RErrorf => Other msg end.
Definition failed_request (how : refusal) (e : go_error) : go_error :=
  match how with RWrapped => internal (error_text e) | _ => e end.

Definition hand_back (rl : relay) (v : val) : go_error + val :=
  match field v "code" with
  | Num (Fin 0) =>
      inr (match rl_data rl with Nothing => Null | TheData _ => field v "data" | TheResponse => v end)
  | _ => inl (refused (rl_refusal rl) (match field v "message" with Str m => m | _ => "" end))
  end.

Section Send.
Context (md5 : string -> string) (select_cluster : Z -> go_error + option ClusterInfo).
(** The order in which Go walks through the parameters. *)
Context (order : list (string * string) -> list (string * string)).
Context {net : Type} (http_get : string -> net -> net * option (Z * string)).

Definition Md5Sum (data : string) : string := if String.eqb data "" then "" else md5 data.
Definition CalcMsReqSign (cId : Z) (cToken : string) (ts : Z) : string :=
  Md5Sum (string_of_Z cId +:+ string_of_Z ts +:+ cToken).

Definition cluster_row (cId : Z) : go_error + ClusterInfo :=
  match select_cluster cId with
  | inl _ => inl (Fbase DB_ERROR)
  | inr None => inl (Fbase CLUSTER_NOTEXISTS_ERROR)
  | inr (Some info) => inr info
  end.

(** All parameters of the request, with the time and the signature.  Some methods sign with
    the id of the row, which is the one it was selected by. *)
Definition fields_of (rl : relay) (cId : Z) (info : ClusterInfo) (ts : Z) : list (string * string) :=
  ("d", string_of_Z ts) :: ("s", CalcMsReqSign cId (ci_token info) ts) ::
  List.map (fun '(k, v) => (k, print_v v)) (rl_params rl).

Definition relay_url (rl : relay) (cId : Z) (info : ClusterInfo) (ts : Z) : string :=
  get_url (ci_master info) (rl_uri rl) (order (fields_of rl cId info ts)).

Definition send (rl : relay) (cId ts : Z) (n : net) : net * (go_error + val) :=
  match cluster_row cId with
  | inl e => (n, inl e)
  | inr info =>
      let '(n', h) := http_get (relay_url rl cId info ts) n in
      (n', match read_answer (rl_data rl) h with inl e => inl (failed_request (rl_refusal rl) e) | inr v => hand_back rl v end)
  end.

(** An action after its checks. *)
Definition pass_on (a : api_action) (ps : param -> string) (ts : Z) (n : net) : option (net * (go_error + val)) :=
  match relay_of a ps with
  | None => None
  | Some (inl e) => Some (n, inl e)
  | Some (inr rl) => Some (send rl (cluster_of a ps) ts n)
  end.
End Send.

(** ** What the master reads *)

(** The first value of a parameter; [FormValue] is empty for one that is not given. *)
Definition value_in (fields : list (string * string)) (k : string) : string :=
  match List.find (fun kv => String.eqb kv.1 k) fields with Some kv => kv.2 | None => "" end.
Definition form_value_of (url : string) : string -> string := value_in (params url).

Definition unseparated (s : string) : Prop := str_forall (fun a => negb (Ascii.eqb a "&")) s = true.

(** Pieces without a separator come out as they went in. *)
Lemma split_pieces p pieces :
  unseparated p -> Forall unseparated pieces -> split_on "&" (p +:+ query_text pieces) = p :: pieces.
Proof.
  intros Hp Hps. revert p Hp. induction Hps as [|p' pieces Hp' Hps IH]; intros p Hp; cbn [query_text].
  - rewrite str_app_nil_r. by apply split_on_none.
  - rewrite str_app_cons, str_app_nil_l, split_on_app by done. f_equal. by apply IH.
Qed.

Definition no_query (s : string) : bool := str_forall (fun a => negb (Ascii.eqb a "?")) s.

(** The parameters of an address whose parts are [pieces], none of which holds a
    separator. *)
Lemma params_pieces host uri fields pieces :
  no_query host = true -> no_query uri = true -> fields <> [] ->
  query_text (printed fields) = query_text pieces -> Forall unseparated pieces ->
  params (get_url host uri fields) = ("", "") :: List.map key_value pieces.
Proof.
  intros Hh Hu Hne Hq Hf. unfold get_url, params. destruct fields as [|f fields]; [done|]. rewrite Hq. clear Hq.
  set (slash := match str_prefix "/" uri with Some _ => "" | None => "/" end).
  assert (Hpath : no_query (host +:+ slash +:+ uri) = true).
  { unfold no_query in *. rewrite !str_forall_app, Hh, Hu. unfold slash. by destruct (str_prefix "/" uri). }
  match goal with |- context [cut "?" (host +:+ slash +:+ uri +:+ "?" +:+ ?q)] =>
    assert (Hurl : host +:+ slash +:+ uri +:+ "?" +:+ q = (host +:+ slash +:+ uri) +:+ String "?" q)
      by (rewrite !str_app_assoc; done) end.
  rewrite Hurl, cut_app by exact Hpath. cbn [snd].
  by rewrite <- (str_app_nil_l (query_text _)), split_pieces.
Qed.

Lemma key_value_plain k v : plain k = true -> key_value (k +:+ "=" +:+ v) = (k, v).
Proof. intros Hk. unfold key_value. by rewrite str_app_cons, str_app_nil_l, cut_app by by apply plain_without. Qed.

Lemma field_unseparated k v : plain k = true -> unseparated v -> unseparated (k +:+ "=" +:+ v).
Proof. intros Hk Hv. unfold unseparated in *. rewrite !str_forall_app, Hv. cbn. by rewrite (plain_without "&" k). Qed.

Lemma key_value_bare s : plain s = true -> key_value s = (s, "").
Proof.
  intros Hs. apply (plain_without "=") in Hs; [|done]. unfold key_value.
  enough (cut "=" s = (s, None)) as -> by done. induction s as [|a s IH]; [done|].
  cbn in Hs |- *. apply andb_true_iff in Hs as [Ha%negb_true_iff Hs]. by rewrite Ha, IH.
Qed.

(** Plain fields are printed without separators, and read back. *)
Lemma printed_back fields : Forall plain_field fields -> List.map key_value (printed fields) = fields.
Proof.
  intros Hf. unfold printed. rewrite List.map_map. etransitivity; [|apply List.map_id]. apply List.map_ext_in. intros [k v] Hin. cbn.
  apply key_value_plain. rewrite list.Forall_forall in Hf. by apply list_elem_of_In, Hf in Hin as [? _].
Qed.
Lemma printed_unseparated fields : Forall plain_field fields -> Forall unseparated (printed fields).
Proof.
  intros Hf. apply Forall_map. eapply list.Forall_impl; [exact Hf|]. intros [k v] [Hk Hv].
  apply field_unseparated; [done|by apply (plain_without "&")].
Qed.

Lemma params_read host uri fields :
  no_query host = true -> no_query uri = true -> fields <> [] -> Forall plain_field fields ->
  params (get_url host uri fields) = ("", "") :: fields.
Proof.
  intros Hh Hu Hne Hf. erewrite params_pieces; [|done|done|done|reflexivity|by apply printed_unseparated].
  by rewrite printed_back.
Qed.

Lemma value_in_unique (fields : list (string * string)) k v :
  NoDup (List.map fst fields) -> (k, v) ∈ fields -> value_in fields k = v.
Proof.
  unfold value_in. induction fields as [|[k' v'] fields IH]; [intros _ H; by apply elem_of_nil in H|].
  cbn. intros [Hk Hnd]%list.NoDup_cons [[= -> ->]|Hin]%elem_of_cons; [by rewrite String.eqb_refl|].
  destruct (String.eqb_spec k' k) as [->|]; [|by apply IH]. destruct Hk. apply list_elem_of_fmap. by exists (k, v).
Qed.

Lemma value_in_absent (fields : list (string * string)) k : k ∉ List.map fst fields -> value_in fields k = "".
Proof.
  unfold value_in. induction fields as [|[k' v'] fields IH]; [done|]. cbn. rewrite not_elem_of_cons. intros [Hk Hin].
  destruct (String.eqb_spec k' k) as [->|]; [done|by apply IH].
Qed.

(** Different orders of the parameters are read alike. *)
Lemma value_in_perm (fields fields' : list (string * string)) k :
  NoDup (List.map fst fields) -> fields ≡ₚ fields' -> value_in fields k = value_in fields' k.
Proof.
  intros Hnd Hp. assert (Hp1 : List.map fst fields ≡ₚ List.map fst fields') by by apply Permutation_map.
  destruct (decide (k ∈ List.map fst fields)) as [Hk|Hk].
  - apply list_elem_of_fmap in Hk as ([k' v] & -> & Hin). cbn.
    rewrite (value_in_unique fields k' v), (value_in_unique fields' k' v); [done|by rewrite <- Hp1|by rewrite <- Hp|done|done].
  - rewrite !value_in_absent; [done| |done]. by rewrite <- Hp1.
Qed.

(** The parameters are plain texts under different names. *)
Definition readable (rl : relay) : Prop :=
  Forall (fun kv => plain kv.1 = true /\ plain (print_v kv.2) = true) (rl_params rl) /\
  NoDup ("" :: "d" :: "s" :: List.map fst (rl_params rl)) /\ no_query (rl_uri rl) = true.

(** The actions that are passed on, and the conditions that choose among requests. *)
Ltac relay_case a Ha :=
  destruct a as [| |[]|[]|[]|[]|[]| | | | | |]; cbn [relay_of] in Ha; try discriminate Ha; injection Ha as Ha.
Ltac relay_if Ha :=
  unfold DeleteTable, AdjustScheduler in Ha;
  repeat match type of Ha with context [if ?b then _ else _] => destruct b eqn:? end;
  try discriminate Ha; try (injection Ha as Ha); match type of Ha with _ = ?rl => subst rl end.

Lemma relay_of_readable a ps rl :
  (forall p, plain (ps p) = true) -> relay_of a ps = Some (inr rl) -> readable rl.
Proof.
  intros Hps Ha.
  assert (Hz : forall z, plain (print_v (VInt z)) = true) by apply plain_string_of_Z.
  assert (Hb : forall b, plain (print_v (VBool b)) = true) by by intros [].
  assert (Hs : forall p, plain (print_v (VStr (ps p))) = true) by (intros p; apply Hps).
  assert (Hv : forall k v, plain k = true -> (match v with VStr s => exists p, s = ps p | _ => True end) ->
            plain (k, v).1 = true /\ plain (print_v (k, v).2) = true).
  { intros k [s|z|b] Hk Hp; (split; [exact Hk|]); [destruct Hp as [p ->]; apply Hs|apply Hz|apply Hb]. }
  clear Hz Hb Hs.
  relay_case a Ha; relay_if Ha;
    (split; [|split; [apply (bool_decide_unpack _); vm_compute; exact I|done]]);
    cbn -[print_v plain];
    repeat first [apply List.Forall_nil|apply List.Forall_cons; [apply Hv; [done|first [exact I|by eexists]]|]].
Qed.

(** The part of the address that the master sees. *)
Definition target (md5 : string -> string) (order : list (string * string) -> list (string * string))
    (rl : relay) (cId : Z) (info : ClusterInfo) (ts : Z) : string :=
  get_url "" (rl_uri rl) (order (fields_of md5 rl cId info ts)).

Lemma relay_url_target md5 order rl cId info ts :
  relay_url md5 order rl cId info ts = ci_master info +:+ target md5 order rl cId info ts.
Proof. unfold relay_url, target, get_url. by rewrite !str_app_nil_l. Qed.

Section Reading.
Context (md5 : string -> string) (order : list (string * string) -> list (string * string)).
Context (Horder : forall l, order l ≡ₚ l) (rl : relay) (cId ts : Z) (info : ClusterInfo).

Lemma ordered_fields_nonempty : order (fields_of md5 rl cId info ts) <> [].
Proof.
  intros H. specialize (Horder (fields_of md5 rl cId info ts)). rewrite H in Horder. by apply Permutation_nil in Horder.
Qed.

Lemma relay_path :
  no_query (rl_uri rl) = true ->
  path_of (target md5 order rl cId info ts) =
  (match str_prefix "/" (rl_uri rl) with Some _ => "" | None => "/" end) +:+ rl_uri rl.
Proof.
  intros Hu. unfold path_of, target, get_url. rewrite str_app_nil_l.
  destruct (order (fields_of md5 rl cId info ts)) eqn:E; [by destruct ordered_fields_nonempty|].
  set (slash := match str_prefix "/" (rl_uri rl) with Some _ => "" | None => "/" end).
  rewrite (str_app_cons "?"), str_app_nil_l, <- str_app_assoc, cut_app; [done|].
  rewrite str_forall_app. unfold no_query in Hu. rewrite Hu. unfold slash. by destruct (str_prefix "/" (rl_uri rl)).
Qed.

(** The master reads every parameter of a request as it was given, whatever order the
    parameters are written in. *)
Lemma relay_form k :
  (forall s, plain (md5 s) = true) -> readable rl ->
  form_value_of (target md5 order rl cId info ts) k = value_in (fields_of md5 rl cId info ts) k.
Proof.
  intros Hmd5 (Hp & Hnd & Hu). unfold form_value_of, target.
  assert (Hf : Forall plain_field (fields_of md5 rl cId info ts)).
  { apply List.Forall_cons; [split; [done|apply plain_string_of_Z]|].
    apply List.Forall_cons; [split; [done|]; unfold CalcMsReqSign, Md5Sum; cbn [snd]; by destruct (String.eqb _ _)|].
    apply Forall_map. by eapply list.Forall_impl; [exact Hp|intros [? ?]]. }
  assert (Hkeys : List.map fst (fields_of md5 rl cId info ts) = "d" :: "s" :: List.map fst (rl_params rl)).
  { cbn. rewrite List.map_map. do 2 f_equal. apply map_ext. by intros []. }
  rewrite params_read; [|done|done|exact ordered_fields_nonempty|by rewrite Horder].
  apply list.NoDup_cons in Hnd as [Hnil Hnd]. rewrite <- Hkeys in Hnil, Hnd.
  destruct k as [|c k]; [by rewrite (value_in_absent (fields_of md5 rl cId info ts)) by done|].
  change (value_in (order (fields_of md5 rl cId info ts)) (String c k) = value_in (fields_of md5 rl cId info ts) (String c k)).
  symmetry. by apply value_in_perm.
Qed.
End Reading.
