(* ===== verification/Manage.v ===== *)
(** * What the master server makes of a request of the console

    The management interface of the master server (master-server/server/httpHandle.go and
    server.go): the signature it asks for, the address table, and for each operation the
    console passes on the part of its handler that reads the parameters, up to the call on
    the cluster, which is given as a [command].  The theorems join it with [Relay]. *)

From S2P Require Import Prelude JsValue Json Browser Urls Backend Applications Relay.
From Stdlib Require Import Ascii.

(** ** Codes *)
Definition HTTP_OK : Z := 0.
Definition HTTP_ERROR : Z := 1.
Definition HTTP_ERROR_PARAMETER_NOT_ENOUGH : Z := 2.
Definition HTTP_ERROR_INVALID_PARAM : Z := 3.
Definition HTTP_ERROR_MASTER_IS_NOT_LEADER : Z := 9.
Definition HTTP_ERROR_WRONG_SIGN : Z := 10.
Definition HTTP_ERROR_SIGN_TIMEOUT : Z := 11.
Definition HTTP_ERROR_INVALID_SIGNTIME : Z := 12.

Definition http_error_parameter_not_enough := "parameter is not enough".
Definition http_error_invalid_parameter := "invalid param".
Definition http_error_cluster_has_no_leader := "raft cluster has no leader".
Definition http_error_wrong_sign := "sign is wrong".
Definition http_error_sign_timeout := "sign timeout.".
Definition http_error_invalid_signtime := "invalid sign timestamp.".

(** ** Commands on the cluster *)
Inductive command : Type :=
| CreateDatabase (name properties : string) | DeleteDatabase (name : string)
| RemoveTable (db table : string) (fast : bool)
| LoginNode (id : Z) (force : bool) | LogoutNode (id : Z) | NodeUpgrade (id : Z)
| setNodeLogLevelRemote (id : Z) (level : string) | setConfigRemote (id : Z) (config : string)
| getDsInfoRemote (id : Z) (path : string) | clearQueueRemote (id queueType : Z)
| getPendingQueuesRemote (id pendingType count : Z) | flushDBRemote (id : Z) (wait : bool) | DeleteNodeList (ids : string)
| GetWorkerInfo (name : string) | AddWorker (name : string) | RemoveWorker (name : string)
| DropRange (range : Z) | NewAddPeer (range : Z) | NewDelPeer (range peer : Z)
| NewChangeLeader (range peer : Z) | NewTransferPeer (range peer : Z) | TopRanges (n : Z)
| RemoveTask (range task : Z) | GetAllTasks | TaskTypes
| rangeRecreate (range peer : Z) | RecoverRanges (db table : string)
| updateRangePeerRemote (db table : string) (range peer : Z) | offlineRangeRemote (db table : string) (range peer : Z)
| ForceSplitRemote (range : Z) | ForceCompactRemote (range : Z)
| CheckRanges (db table : string) | TopologyMissing (db table : string)
| createRangeByScope (db table startKey endKey : string) | CreateMissing (db table : string)
| TableRangeDuplicate (db table : string) | AllRanges.

(** A handler reads the parameters: a refusal, or the command it goes on with. *)
Definition handler : Type := (string -> string) -> (Z * string) + command.

(** ** Handlers *)
Section Handlers.
(** The text of an error of strconv: the function and its argument. *)
Context (num_error : string -> string -> string).

(** A number that must be one, with the refusal otherwise. *)
Definition uint (form : string -> string) (k : string) (e : Z * string) (f : Z -> (Z * string) + command) :
    (Z * string) + command :=
  match parse_uint (form k) with Some z => f z | None => inl e end.
(** The refusal of most node operations. *)
Definition uint_err (form : string -> string) (k : string) : (Z -> (Z * string) + command) -> (Z * string) + command :=
  uint form k (-1, num_error "ParseUint" (form k)).
Definition not_enough : Z * string := (HTTP_ERROR_PARAMETER_NOT_ENOUGH, http_error_parameter_not_enough).
Definition invalid : Z * string := (HTTP_ERROR_INVALID_PARAM, http_error_invalid_parameter).

(** [strconv.ParseBool] *)
Definition ParseBool (s : string) : option bool :=
  if existsb (String.eqb s) ["1"; "t"; "T"; "TRUE"; "true"; "True"] then Some true
  else if existsb (String.eqb s) ["0"; "f"; "F"; "FALSE"; "false"; "False"] then Some false
  else None.

Definition blank (s : string) : bool := String.eqb s "".

Definition handleDatabaseCreate : handler := fun form =>
  if blank (form "name") then inl not_enough else inr (CreateDatabase (form "name") (form "properties")).
Definition handleDatabaseDelete : handler := fun form =>
  if blank (form "dbName") then inl not_enough else inr (DeleteDatabase (form "dbName")).

Definition table_named (form : string -> string) (c : command) : (Z * string) + command :=
  if blank (form "dbName") || blank (form "tableName") then inl (-1, http_error_parameter_not_enough) else inr c.
Definition handleTableDelete : handler := fun form =>
  table_named form (RemoveTable (form "dbName") (form "tableName") false).
Definition handleTableFastDelete : handler := fun form =>
  table_named form (RemoveTable (form "dbName") (form "tableName") (negb (blank (form "fast")))).

Definition handleHttpNodeLogin : handler := fun form =>
  uint_err form "nodeId" (fun id =>
    if blank (form "force") then inr (LoginNode id false)
    else match ParseBool (form "force") with
         | Some force => inr (LoginNode id force)
         | None => inl (-1, num_error "ParseBool" (form "force"))
         end).
Definition handleHttpNodeLogout : handler := fun form => uint_err form "nodeId" (fun id => inr (LogoutNode id)).
Definition handleNodeUpgrade : handler := fun form => uint_err form "nodeId" (fun id => inr (NodeUpgrade id)).
Definition handleNodeSetLogLevel : handler := fun form =>
  uint_err form "nodeId" (fun id =>
    if blank (form "logLevel") then inl not_enough else inr (setNodeLogLevelRemote id (form "logLevel"))).
Definition handleNodeSetConfig : handler := fun form =>
  uint_err form "nodeId" (fun id =>
    if blank (form "setConfig") then inl (-1, "setConfigs cannot be empty.") else inr (setConfigRemote id (form "setConfig"))).
Definition handleNodeGetDsInfo : handler := fun form =>
  uint_err form "nodeId" (fun id =>
    if blank (form "dsInfoPath") then inl (-1, "http get ds_info of node error: path is empty")
    else inr (getDsInfoRemote id (form "dsInfoPath"))).
(** Types other than 1 and 2 stand for all queues. *)
Definition handleNodeClearQueue : handler := fun form =>
  uint_err form "nodeId" (fun id =>
    match atoi (form "queueType") with
    | Some t => inr (clearQueueRemote id (if Z.eqb t 2 then 2 else if Z.eqb t 1 then 1 else 0))
    | None => inl (-1, num_error "ParseInt" (form "queueType"))
    end).
Definition handleNodeGetPendingQueues : handler := fun form =>
  uint_err form "nodeId" (fun id =>
    uint_err form "count" (fun count =>
      uint_err form "pendingType" (fun t =>
        inr (getPendingQueuesRemote id (if (1 <=? t) && (t <=? 4) then t else 0) count)))).
Definition handleNodeFlushDB : handler := fun form =>
  uint_err form "nodeId" (fun id =>
    match ParseBool (form "wait") with
    | Some wait => inr (flushDBRemote id wait)
    | None => inl (-1, num_error "ParseBool" (form "wait"))
    end).
Definition handleHttpNodeDelete : handler := fun form => inr (DeleteNodeList (form "nodeIds")).

Definition handleQuerySchedulerDetail : handler := fun form => inr (GetWorkerInfo (form "name")).
Definition workers : list string :=
  ["failover_worker"; "delete_table_worker"; "trash_replica_gc_worker"; "create_table_worker"; "range_hbcheck_worker";
   "balance_range_worker"; "balance_leader_worker"; "balance_node_ops_worker"].
Definition handleAddScheduler : handler := fun form =>
  if existsb (String.eqb (form "name")) workers then inr (AddWorker (form "name")) else inl (-1, "unknown worker").
Definition handleRemoveScheduler : handler := fun form => inr (RemoveWorker (form "name")).
Definition handleTaskTypeGetAll : handler := fun _ => inr TaskTypes.

Definition range_not_int : Z * string := (HTTP_ERROR, "range is not int").
Definition handleRangeDelete : handler := fun form => uint form "rangeId" range_not_int (fun r => inr (DropRange r)).
Definition handleRangeAddPeer : handler := fun form => uint form "rangeId" range_not_int (fun r => inr (NewAddPeer r)).
Definition handleRangeDelPeer : handler := fun form =>
  uint form "rangeId" range_not_int (fun r => uint form "peerId" range_not_int (fun p => inr (NewDelPeer r p))).
Definition handleRangeForceSplit : handler := fun form => uint form "rangeId" invalid (fun r => inr (ForceSplitRemote r)).
Definition handleRangeForceCompact : handler := fun form => uint form "rangeId" invalid (fun r => inr (ForceCompactRemote r)).

Definition range_and_peer (form : string -> string) (f : Z -> Z -> command) : (Z * string) + command :=
  uint form "rangeId" not_enough (fun r => uint form "peerId" not_enough (fun p => inr (f r p))).
Definition handleRangeLeaderChange : handler := fun form => range_and_peer form NewChangeLeader.
Definition handleRangeTransfer : handler := fun form => range_and_peer form NewTransferPeer.
Definition handleUnhealthyRangeUpdate : handler := fun form =>
  range_and_peer form (updateRangePeerRemote (form "dbName") (form "tableName")).
Definition handleRangeOffline : handler := fun form =>
  range_and_peer form (offlineRangeRemote (form "dbName") (form "tableName")).
Definition handleRangeRecreate : handler := fun form =>
  uint form "rangeId" (HTTP_ERROR, "rangeId is not int") (fun r =>
    uint form "peerId" (HTTP_ERROR, "peerId is not int") (fun p => inr (rangeRecreate r p))).
Definition handleUnhealthyRangeRecover : handler := fun form => inr (RecoverRanges (form "dbName") (form "tableName")).
Definition handleRangeTopNQuery : handler := fun form =>
  match atoi (form "topN") with Some n => if Z.eqb n 0 then inl not_enough else inr (TopRanges n) | None => inl not_enough end.

(** A task is named by its range and its id. *)
Definition handleDeleteTask : handler := fun form =>
  uint form "rangeId" not_enough (fun r => uint form "taskId" not_enough (fun t => inr (RemoveTask r t))).
Definition handleGetAllTask : handler := fun _ => inr GetAllTasks.

Definition handleTopologyCheck : handler := fun form => inr (CheckRanges (form "dbName") (form "tableName")).
Definition handleTableTopologyMissing : handler := fun form => inr (TopologyMissing (form "dbName") (form "tableName")).
Definition handleTableTopologyCreate : handler := fun form =>
  inr (createRangeByScope (form "dbName") (form "tableName") (form "startKey") (form "endKey")).
Definition handleTableTopologyBatchCreate : handler := fun form => inr (CreateMissing (form "dbName") (form "tableName")).
Definition handleTableRangeDuplicate : handler := fun form => inr (TableRangeDuplicate (form "dbName") (form "tableName")).
Definition handleTopologyQuery : handler := fun _ => inr AllRanges.

(** ** Addresses: those that the requests of [Relay] go to *)
Definition initHttpHandler : list (string * handler) :=
  [("/manage/database/create", handleDatabaseCreate);
   ("/manage/database/delete", handleDatabaseDelete);
   ("/manage/table/delete", handleTableDelete);
   ("/manage/table/delete/fast", handleTableFastDelete);
   ("/manage/node/login", handleHttpNodeLogin);
   ("/manage/node/logout", handleHttpNodeLogout);
   ("/manage/node/delete", handleHttpNodeDelete);
   ("/manage/node/upgrade", handleNodeUpgrade);
   ("/manage/node/setLogLevel", handleNodeSetLogLevel);
   ("/manage/node/setConfigOfNode", handleNodeSetConfig);
   ("/manage/node/getDsInfoOfNode", handleNodeGetDsInfo);
   ("/manage/node/clearQueueOfNode", handleNodeClearQueue);
   ("/manage/node/getPendingQueuesOfNode", handleNodeGetPendingQueues);
   ("/manage/node/flushDBOfNode", handleNodeFlushDB);
   ("/manage/scheduler/add", handleAddScheduler);
   ("/manage/scheduler/remove", handleRemoveScheduler);
   ("/manage/scheduler/detail", handleQuerySchedulerDetail);
   ("/manage/task/getTypeAll", handleTaskTypeGetAll);
   ("/manage/range/delete", handleRangeDelete);
   ("/manage/range/add/peer", handleRangeAddPeer);
   ("/manage/range/del/peer", handleRangeDelPeer);
   ("/manage/range/leader/change", handleRangeLeaderChange);
   ("/manage/range/unhealthy/recover", handleUnhealthyRangeRecover);
   ("/manage/range/rebuildRange", handleRangeRecreate);
   ("/manage/range/replaceRange", handleRangeRecreate);
   ("/manage/range/updateRange", handleUnhealthyRangeUpdate);
   ("/manage/range/offlineRange", handleRangeOffline);
   ("/manage/range/transfer", handleRangeTransfer);
   ("/manage/range/getOpsTopN", handleRangeTopNQuery);
   ("/manage/range/forceSplitRange", handleRangeForceSplit);
   ("/manage/range/forceCompactRange", handleRangeForceCompact);
   ("/manage/task/getall", handleGetAllTask);
   ("/manage/task/delete", handleDeleteTask);
   ("/manage/topology/query", handleTopologyQuery);
   ("/manage/table/topology/missing", handleTableTopologyMissing);
   ("/manage/table/topology/create", handleTableTopologyCreate);
   ("/manage/table/topology/batchCreate", handleTableTopologyBatchCreate);
   ("/manage/table/range/duplicate", handleTableRangeDuplicate);
   ("/debug/table/topology/check", handleTopologyCheck)].

(** ** Admission *)

(** What is configured, and who leads. *)
Record master_server := MasterServer
  { SecretKey : string; ClusterID : Z; leads : bool; has_leader : bool }.

Inductive outcome : Type := NotFound | Forwarded | Refused (code : Z) (msg : string) | Accepted (c : command).

Context (md5 : string -> string).

(** [now] in nanoseconds. *)
Definition verifier (m : master_server) (now : Z) (form : string -> string) : option (Z * string) :=
  if blank (SecretKey m) then None
  else
    let d := form "d" in
    let sign := form "s" in
    if blank d || blank sign then Some (HTTP_ERROR_PARAMETER_NOT_ENOUGH, http_error_parameter_not_enough +:+ " no d/s")
    else
      match parse_uint d with
      | None => Some (HTTP_ERROR_INVALID_SIGNTIME, http_error_invalid_signtime)
      | Some u =>
          let sec := if u <? 2 ^ 63 then u else u - 2 ^ 64 in
          if (sec + 300) * 10 ^ 9 <? now then Some (HTTP_ERROR_SIGN_TIMEOUT, http_error_sign_timeout)
          else if negb (String.eqb sign (md5 (string_of_Z (ClusterID m) +:+ d +:+ SecretKey m)))
          then Some (HTTP_ERROR_WRONG_SIGN, http_error_wrong_sign)
          else None
      end.

Definition validRequest (m : master_server) (now : Z) (form : string -> string) : option outcome :=
  if leads m then match verifier m now form with Some (code, msg) => Some (Refused code msg) | None => None end
  else if has_leader m then Some Forwarded
  else Some (Refused HTTP_ERROR_MASTER_IS_NOT_LEADER http_error_cluster_has_no_leader).

(** The path of the request and its handler. *)
Definition find_handler (path : string) : option handler :=
  match List.find (fun ph => String.eqb ph.1 path) initHttpHandler with Some ph => Some ph.2 | None => None end.

(** A request for the address, given without the host. *)
Definition ServeHTTP (m : master_server) (now : Z) (target : string) : outcome :=
  match find_handler (path_of target) with
  | None => NotFound
  | Some h =>
      let form := form_value_of target in
      match validRequest m now form with
      | Some o => o
      | None => match h form with inl (code, msg) => Refused code msg | inr c => Accepted c end
      end
  end.

(** The master at [host] receives the request for an address. *)
Definition receive (host : string) (m : master_server) (now : Z) (url : string) : outcome :=
  match str_prefix host url with Some target => ServeHTTP m now target | None => NotFound end.
End Handlers.

Create HintDb handlers.
#[export] Hint Unfold handleDatabaseCreate handleDatabaseDelete handleTableDelete handleTableFastDelete handleHttpNodeLogin
  handleHttpNodeLogout handleNodeUpgrade handleNodeSetLogLevel handleNodeSetConfig handleNodeGetDsInfo
  handleNodeClearQueue handleNodeGetPendingQueues handleNodeFlushDB handleHttpNodeDelete handleQuerySchedulerDetail
  handleAddScheduler handleRemoveScheduler handleTaskTypeGetAll handleRangeDelete handleRangeAddPeer handleRangeDelPeer
  handleRangeForceSplit handleRangeForceCompact handleRangeLeaderChange handleRangeTransfer handleUnhealthyRangeUpdate
  handleRangeOffline handleRangeRecreate handleUnhealthyRangeRecover handleRangeTopNQuery handleDeleteTask
  handleGetAllTask handleTopologyCheck handleTableTopologyMissing handleTableTopologyCreate
  handleTableTopologyBatchCreate handleTableRangeDuplicate handleTopologyQuery table_named uint_err uint range_and_peer
  not_enough invalid range_not_int
  : handlers.

(** ** Numbers between the programs *)
Lemma parse_uint_print z : 0 <= z < 2 ^ 64 -> parse_uint (string_of_Z z) = Some z.
Proof.
  intros [Hz Hb]. unfold parse_uint, nonempty_digits. rewrite string_of_Z_digits by done.
  destruct (String.eqb_spec (string_of_Z z) "") as [He|_]; [by destruct (string_of_Z_nonempty z)|]. cbn.
  rewrite Z_of_string_of_Z. cbn. by destruct (Z.ltb_spec z (2 ^ 64)); [|lia].
Qed.

Lemma parse_uint_negative z : z < 0 -> parse_uint (string_of_Z z) = None.
Proof. intros Hz. destruct z as [|p|p]; [lia|lia|]. by rewrite string_of_Z_neg. Qed.

Lemma atoi_print z : - 2 ^ 63 <= z < 2 ^ 63 -> atoi (string_of_Z z) = Some z.
Proof.
  intros [Hl Hh]. unfold atoi.
  assert (Hd : forall n, 0 <= n -> nonempty_digits (string_of_Z n) = true).
  { intros n Hn. unfold nonempty_digits. rewrite string_of_Z_digits by done.
    destruct (String.eqb_spec (string_of_Z n) "") as [He|_]; [by destruct (string_of_Z_nonempty n)|done]. }
  destruct (Z.neg_nonneg_cases z) as [Hz|Hz].
  - destruct z as [|p|p]; [lia|lia|]. rewrite string_of_Z_neg. cbn [Ascii.eqb Bool.eqb].
    rewrite Hd, Z_of_string_of_Z by lia. cbn [mbind option_bind].
    destruct (Z.leb_spec (- 2 ^ 63) (-1 * Z.pos p)), (Z.ltb_spec (-1 * Z.pos p) (2 ^ 63)); cbn [andb]; try lia. done.
  - specialize (Hd z Hz). pose proof (string_of_Z_digits z Hz) as Hdig.
    pose proof (Z_of_string_of_Z z) as Hback.
    destruct (string_of_Z z) as [|a s]; [done|]. cbn in Hdig. apply andb_true_iff in Hdig as [Ha _].
    destruct (Ascii.eqb_spec a "-") as [->|_]; [done|]. destruct (Ascii.eqb_spec a "+") as [->|_]; [done|].
    rewrite Hd, Hback. cbn [mbind option_bind]. rewrite Z.mul_1_l.
    destruct (Z.leb_spec (- 2 ^ 63) z), (Z.ltb_spec z (2 ^ 63)); cbn [andb]; try lia. done.
Qed.

Lemma atoi_bounds s z : atoi s = Some z -> - 2 ^ 63 <= z < 2 ^ 63.
Proof.
  assert (H : forall (o : option Z) (sign : Z),
    (n ← o; if (- 2 ^ 63 <=? sign * n) && (sign * n <? 2 ^ 63) then Some (sign * n) else None) = Some z -> - 2 ^ 63 <= z < 2 ^ 63).
  { intros [n|] sign; [|done]. cbn [mbind option_bind].
    destruct (Z.leb_spec (- 2 ^ 63) (sign * n)), (Z.ltb_spec (sign * n) (2 ^ 63)); intros [=]; subst; done. }
  unfold atoi. intros Ha. repeat case_match; try done; simplify_eq; by eapply H.
Qed.

Lemma int_of_bounds ps p : - 2 ^ 63 <= int_of ps p < 2 ^ 63.
Proof. unfold int_of. destruct (atoi (ps p)) as [z|] eqn:E; [by apply atoi_bounds in E|done]. Qed.

(** A parameter that the console printed as a number. *)
Lemma parse_uint_int_of ps p :
  parse_uint (string_of_Z (int_of ps p)) = if 0 <=? int_of ps p then Some (int_of ps p) else None.
Proof.
  pose proof (int_of_bounds ps p). destruct (Z.leb_spec 0 (int_of ps p)).
  - apply parse_uint_print. lia.
  - by apply parse_uint_negative.
Qed.

(** A parameter that the checks of the console ask for is not empty. *)
Definition same_param (p q : param) : bool :=
  match p, q with
  | Query k, Query k' | PostForm k, PostForm k' | Session k, Session k' => String.eqb k k'
  | _, _ => false
  end.
Definition demands (p : param) (c : check) : bool :=
  match c with Given l _ => existsb (same_param p) l | _ => false end.

Lemma failing_demands ps cs p : failing ps cs = None -> existsb (demands p) cs = true -> blank (ps p) = false.
Proof.
  induction cs as [|c cs IH]; [done|]. cbn [failing existsb]. intros Hf [Hd|Hd]%orb_true_iff.
  - destruct c as [l e| | | | | | |]; cbn [demands] in Hd; try done. cbn in Hf.
    destruct (forallb (fun q => negb (String.eqb (ps q) "")) l) eqn:El; [|done].
    apply existsb_exists in Hd as (q & Hq & Hpq). rewrite forallb_forall in El. apply El in Hq.
    assert (p = q) as -> by (destruct p, q; cbn in Hpq; try done; apply String.eqb_eq in Hpq; congruence).
    by apply negb_true_iff in Hq.
  - apply IH; [|done]. by destruct (passes ps c).
Qed.

(** ** The meaning of the operations of the console *)

(** The command that an operation with these parameters stands for, if the master takes
    them: numbers of ranges, replicas and nodes are not negative. *)
Definition intended (a : api_action) (ps : param -> string) : option command :=
  let text k := ps (PostForm k) in
  let db := text "dbName" in
  let table := text "tableName" in
  let id k (f : Z -> option command) := if 0 <=? int_of ps (PostForm k) then f (int_of ps (PostForm k)) else None in
  let node f := id "nodeId" (fun n => Some (f n)) in
  let range f := id "rangeId" (fun r => Some (f r)) in
  let replica f := id "rangeId" (fun r => id "peerId" (fun p => Some (f r p))) in
  match a with
  | Metadata CreateDbAction => Some (CreateDatabase (text "dbName") "")
  | Metadata DeleteDbAction => Some (DeleteDatabase (text "dbName"))
  | Metadata DeleteTableAction => Some (RemoveTable db table (String.eqb "true" (text "flag")))
  | Node NodeStatusUpdate =>
      match int_of ps (PostForm "status") with
      | 1 => node (fun n => LoginNode n true)
      | 2 => node LogoutNode
      | 3 => node NodeUpgrade
      | _ => None
      end
  | Node NodeLogLevelUpdate => node (fun n => setNodeLogLevelRemote n (text "logLevel"))
  | Node NodeDelete => Some (DeleteNodeList (text "nodeIds"))
  | Node NodeSetConfig => node (fun n => setConfigRemote n (text "setConfig"))
  | Node NodeGetDsInfo => node (fun n => getDsInfoRemote n (text "dsInfoPath"))
  | Node NodeClearQueue =>
      id "nodeId" (fun n => t ← atoi (text "queueType"); Some (clearQueueRemote n (if Z.eqb t 2 then 2 else if Z.eqb t 1 then 1 else 0)))
  | Node NodeGetPendingQueues =>
      id "nodeId" (fun n =>
        count ← parse_uint (text "count"); t ← parse_uint (text "pendingType");
        Some (getPendingQueuesRemote n (if (1 <=? t) && (t <=? 4) then t else 0) count))
  | Node NodeFlushDB => node (fun n => flushDBRemote n (parse_bool (text "wait")))
  | Range TaskOperation => None
  | Range TaskPresent => Some GetAllTasks
  | Range PeerDelete => r ← parse_uint (text "rangeId"); p ← parse_uint (text "peerId"); Some (NewDelPeer r p)
  | Range PeerAdd => r ← parse_uint (text "rangeId"); Some (NewAddPeer r)
  | Range RangeUpdate => replica (updateRangePeerRemote db table)
  | Range RangeOffline => replica (offlineRangeRemote db table)
  | Range RangeRebuild => range (fun r => rangeRecreate r 0)
  | Range RangeReplace => replica rangeRecreate
  | Range RangeDelete => range DropRange
  | Range RangeBatchRecover => Some (RecoverRanges db table)
  | Range RangeForceSplit => range ForceSplitRemote
  | Range RangeForceCompact => range ForceCompactRemote
  | Range RangeTransfer => replica NewTransferPeer
  | Range RangeLeaderChange => replica NewChangeLeader
  | Range RangeOpsTopN =>
      if Z.eqb (int_of ps (Query "topN")) 0 then None else Some (TopRanges (int_of ps (Query "topN")))
  | Range RangeDuplicateAction => Some (TableRangeDuplicate db table)
  | Schedule SchedulerDetailAction => Some (GetWorkerInfo (ps (Query "name")))
  | Schedule SchedulerAdjustAction =>
      match int_of ps (PostForm "optType") with
      | 1 => if existsb (String.eqb (text "scheduler")) workers then Some (AddWorker (text "scheduler")) else None
      | 2 => Some (RemoveWorker (text "scheduler"))
      | _ => None
      end
  | Schedule TaskTypeAllAction => Some TaskTypes
  | Topology TopologyAction => Some (CheckRanges db table)
  | Topology TableTopologyAction => Some (TopologyMissing db table)
  | Topology TopologyRangeCreateAction =>
      Some (if String.eqb "true" (text "batchFlag") then CreateMissing db table
            else createRangeByScope db table (text "startKey") (text "endKey"))
  | Topology TopologyViewAction => Some AllRanges
  | _ => None
  end.

Section Joined.
Context (num_error : string -> string -> string) (md5 : string -> string).
Context (order : list (string * string) -> list (string * string)).
Context (Hmd5 : forall s, plain (md5 s) = true) (Hmd5_nonempty : forall s, md5 s <> "").
Context (Horder : forall l, order l ≡ₚ l).
Context (m : master_server) (info : ClusterInfo) (cId ts now : Z).
(** The master leads and is configured as the console knows it; the request arrives
    within five minutes. *)
Context (Hleads : leads m = true).
Context (Hkey : SecretKey m = "" \/ SecretKey m = ci_token info /\ ClusterID m = cId).
Context (Hts : 0 <= ts < 2 ^ 63) (Hnow : now <= (ts + 300) * 10 ^ 9).

(** A request with the time and the signature of the console is admitted. *)
Lemma sign_accepted form : form "d" = string_of_Z ts -> form "s" = CalcMsReqSign md5 cId (ci_token info) ts ->
  validRequest md5 m now form = None.
Proof.
  intros Hd Hs. unfold validRequest, verifier. rewrite Hleads. destruct (blank (SecretKey m)) eqn:Eb; [done|].
  destruct Hkey as [E|[-> ->]]; [by rewrite E in Eb|]. rewrite Hd, Hs. unfold CalcMsReqSign, Md5Sum, blank.
  destruct (String.eqb_spec (string_of_Z ts) "") as [E|_]; [by apply string_of_Z_nonempty in E|].
  destruct (String.eqb_spec (string_of_Z cId +:+ string_of_Z ts +:+ ci_token info) "") as [E|_].
  { destruct (string_of_Z cId) eqn:Ec; [by apply string_of_Z_nonempty in Ec|done]. }
  destruct (String.eqb_spec (md5 (string_of_Z cId +:+ string_of_Z ts +:+ ci_token info)) "") as [E|_]; [by apply Hmd5_nonempty in E|].
  rewrite parse_uint_print by lia. cbn [orb].
  destruct (Z.ltb_spec ts (2 ^ 63)); [|lia]. destruct (Z.ltb_spec ((ts + 300) * 10 ^ 9) now); [lia|].
  by rewrite String.eqb_refl.
Qed.

(** The handler of the request reads the parameters as they were given. *)
Lemma receive_relay rl h : readable rl ->
  find_handler num_error ((match str_prefix "/" (rl_uri rl) with Some _ => "" | None => "/" end) +:+ rl_uri rl) = Some h ->
  exists form, (forall k, form k = value_in (fields_of md5 rl cId info ts) k) /\
    receive num_error md5 (ci_master info) m now (relay_url md5 order rl cId info ts) =
    match h form with inl (code, msg) => Refused code msg | inr c => Accepted c end.
Proof.
  intros Hrl Hh. exists (form_value_of (target md5 order rl cId info ts)). split; [by intros k; rewrite relay_form|].
  unfold receive. rewrite relay_url_target, str_prefix_app. unfold ServeHTTP.
  rewrite relay_path by (done || apply Hrl). by rewrite Hh, sign_accepted by (by rewrite relay_form).
Qed.

(** Without a handler there is nothing to read. *)
Lemma receive_unknown rl : readable rl ->
  find_handler num_error ((match str_prefix "/" (rl_uri rl) with Some _ => "" | None => "/" end) +:+ rl_uri rl) = None ->
  receive num_error md5 (ci_master info) m now (relay_url md5 order rl cId info ts) = NotFound.
Proof.
  intros Hrl Hh. unfold receive. rewrite relay_url_target, str_prefix_app. unfold ServeHTTP. rewrite relay_path by (done || apply Hrl). by rewrite Hh.
Qed.

(** Case analysis on what is read. *)
Ltac cases :=
  repeat match goal with
    | |- context [parse_uint ?s] => destruct (parse_uint s); cbn [mbind option_bind]
    | |- context [atoi ?s] => destruct (atoi s); cbn [mbind option_bind]
    | |- context [match ?x with _ => _ end] =>
        lazymatch x with context [match _ with _ => _ end] => fail | _ => destruct x end
    end.
(** Which handler, and the values it reads. *)
Ltac reads :=
  let form := fresh "form" in let Hf := fresh "Hf" in
  edestruct receive_relay as (form & Hf & ->); [done|reflexivity|];
  cbn [snd]; autounfold with handlers; cbn beta; rewrite ?Hf; unfold fields_of, value_in;
  cbn [rl_params List.map List.find fst snd app String.eqb Ascii.eqb Bool.eqb print_v
       CreateDb DeleteDb SetNodeLogOut SetNodeUpgrade SetNodeLogIn SetNodeLogLevel DeleteNodes SetConfigOfNode
       GetDsInfoOfNode ClearQueueOfNode GetPendingQueuesOfNode FlushDBOfNode TaskOperate GetPresentTask DeletePeer AddPeer
       GetSchedulerDetail GetTaskType CheckTopology GetTableTopologyMissing CreateTopologyRange BatchCreateTopologyRange
       GetRangeDuplicate GetClusterTopology UpdateRange OfflineRange RebuildRange ReplaceRange DeleteRange BatchRecoverRange
       ForceSplitRange ForceCompactRange TransferRange ChangeRangeLeader GetRangeOpsTopN node_relay table_relay range_relay];
  clear form Hf.


(** A name with a separator falls apart. *)
Lemma name_pieces before after n rest :
  query_text (printed (before ++ ("name", n +:+ "&" +:+ rest) :: after)) =
  query_text (printed before ++ ("name=" +:+ n) :: rest :: printed after).
Proof.
  unfold printed. rewrite List.map_app. fold (printed before). generalize (printed before) as ps.
  induction ps as [|p ps IH]; [cbn; by rewrite !str_app_assoc|]. cbn [query_text app]. by rewrite IH.
Qed.

(** Parameters are not encoded.  The name of a new database that holds an ampersand is
    cut there: the master creates, and reports as created, a database under the first
    part of the name. *)
Theorem name_cut n rest :
  plain n = true -> n <> "" -> plain rest = true -> NoDup [""; "d"; "s"; "name"; rest] ->
  receive num_error md5 (ci_master info) m now (relay_url md5 order (CreateDb (n +:+ "&" +:+ rest)) cId info ts) =
  Accepted (CreateDatabase n "").
Proof.
  intros Hn Hne Hr Hnd. set (rl := CreateDb (n +:+ "&" +:+ rest)).
  pose proof (Horder (fields_of md5 rl cId info ts)) as Ho.
  assert (("name", n +:+ "&" +:+ rest) ∈ order (fields_of md5 rl cId info ts)) as (before & after & E)%list_elem_of_split.
  { rewrite Ho. cbn. do 2 apply list_elem_of_further. apply list_elem_of_here. }
  set (sign := CalcMsReqSign md5 cId (ci_token info) ts).
  assert (before ++ after ≡ₚ [("d", string_of_Z ts); ("s", sign)]) as Hba.
  { apply (Permutation_cons_inv (a := ("name", n +:+ "&" +:+ rest))).
    rewrite E in Ho. rewrite Permutation_middle, Ho. unfold fields_of. cbn. by rewrite !(Permutation_swap ("name", _)). }
  assert (Hplain : Forall plain_field (before ++ after)).
  { rewrite Hba. repeat constructor; [apply plain_string_of_Z|]. subst sign. unfold CalcMsReqSign, Md5Sum. cbn. by destruct (String.eqb _ _). }
  assert (Hparams : params (target md5 order rl cId info ts) = ("", "") :: before ++ ("name", n) :: (rest, "") :: after).
  { assert (Forall plain_field before /\ Forall plain_field after) as [Hb Hat] by by apply Forall_app.
    unfold target. rewrite E. erewrite params_pieces; [|done|done|by destruct before|apply name_pieces|].
    - rewrite List.map_app. cbn [List.map]. rewrite (key_value_bare rest), !printed_back by done.
      by change ("name=" +:+ n) with ("name" +:+ "=" +:+ n); rewrite key_value_plain.
    - apply Forall_app. split; [by apply printed_unseparated|].
      apply List.Forall_cons; [by apply (field_unseparated "name"); [|apply (plain_without "&")]|].
      apply List.Forall_cons; [by apply (plain_without "&")|by apply printed_unseparated]. }
  assert (Hvals : forall k, form_value_of (target md5 order rl cId info ts) k =
    value_in [("", ""); ("d", string_of_Z ts); ("s", sign); ("name", n); (rest, "")] k).
  { intros k. unfold form_value_of. rewrite Hparams. symmetry. apply value_in_perm; [done|].
    apply Permutation_skip. rewrite <- !Permutation_middle, Hba. exact (Permutation_app_comm [_; _] [_; _]). }
  unfold receive. rewrite relay_url_target, str_prefix_app. unfold ServeHTTP. rewrite relay_path by done.
  change (find_handler num_error _) with (Some handleDatabaseCreate). cbn zeta. rewrite sign_accepted by (by rewrite Hvals).
  unfold handleDatabaseCreate. rewrite !Hvals. unfold value_in. cbn [List.find fst snd String.eqb Ascii.eqb Bool.eqb].
  unfold blank. destruct (String.eqb_spec n "") as [|_]; [done|]. by destruct (String.eqb rest "properties").
Qed.
End Joined.

(** ** Examples *)

Definition one_hash (_ : string) : string := "0f".
Definition as_given (l : list (string * string)) : list (string * string) := l.
Definition the_master : master_server := MasterServer "key" 1 true true.
Definition its_cluster : ClusterInfo := Cluster_ 1 "http://10.0.0.1:8080" "key".
Definition no_text (_ _ : string) : string := "".

(** Replica 7 of range 5 is to move. *)
Definition transfer_params (p : param) : string :=
  match p with
  | PostForm k => if String.eqb k "clusterId" then "1" else if String.eqb k "rangeId" then "5" else if String.eqb k "peerId" then "7" else ""
  | _ => ""
  end.


Lemma name_cut_witness :
  receive no_text one_hash "http://10.0.0.1:8080" the_master (1000 * 10 ^ 9)
    (relay_url one_hash as_given (CreateDb "a&b") 1 its_cluster 1000) = Accepted (CreateDatabase "a" "").
Proof.
  apply (name_cut no_text one_hash as_given (fun _ => eq_refl) (fun _ => ltac:(done)) (fun l => Permutation_refl l)
    the_master its_cluster 1 1000 (1000 * 10 ^ 9) eq_refl (or_intror (conj eq_refl eq_refl)) ltac:(lia) ltac:(lia) "a" "b");
    [done|done|done|]. apply (bool_decide_unpack _). vm_compute. exact I.
Defined.
