(* ===== verification/Console.v ===== *)
(** * The console as a whole

    One enumeration of the pages with their scripts and policies, the safety that all
    of them keep, and the batch buttons of the lists of applications. *)

From S2P Require Import Prelude JsValue Json Browser Logic Contracts Widgets Utils Batch.
From S2P Require Import ClusterInfo Pager LockNsp ConfNsp RangeTopo CreateTable Tables SqlApply Scheduler Ranges Clusters Metrics Deploy.

(** ** Pages *)

(** The scripts of the views that send requests. *)
Inductive script : Type :=
| LoadInfoData | RangeTopu | LockNspList | ConfNspList | LockList | CreateTables | EditTable
| TablesList | TopologyMiss | RangeDup | ScheduleAdjust | ScheduleManage | LockNspApply
| PeerInfo | UnhealthyRange | UnstableRange | TopologyList | RangeOpsTopN | MasterInfo
| BootstrapTableDemo | InitCluster | MetadataCreateTable | IndexMenu | MetricManage | MetricServer | Source.

#[export] Instance script_eq_dec : EqDecision script.
Proof. solve_decision. Defined.

(** The page of a script; [off] is the browser's zone and [parse] its [new Date(text)]. *)
Definition page_of (off : Z) (parse : string -> option Z) (s : script) : page :=
  match s with
  | LoadInfoData => cluster_page off
  | RangeTopu => range_page off
  | LockNspList => lock_page off
  | ConfNspList => conf_page off
  | LockList => lock_list_page off parse
  | CreateTables => create_page
  | EditTable => edit_page
  | TablesList => tables_page
  | TopologyMiss => missing_page
  | RangeDup => dup_page
  | ScheduleAdjust => scheduler_page
  | ScheduleManage => manage_page
  | LockNspApply => apply_page
  | PeerInfo => peers_page
  | UnhealthyRange => unhealthy_page
  | UnstableRange => unstable_page
  | TopologyList => topology_page
  | RangeOpsTopN => topn_page
  | MasterInfo => master_page
  | BootstrapTableDemo => Clusters.list_page
  | InitCluster => init_page
  | MetadataCreateTable => database_page
  | IndexMenu => menu_page
  | MetricManage => metric_page
  | MetricServer => Metrics.server_page
  | Source => deploy_page
  end.

(** The policy of a script: its guarded requests and the answers it reports. *)
Definition policy_of (s : script) : policy :=
  match s with
  | LoadInfoData => cluster_policy
  | RangeTopu => range_policy
  | LockNspList => lock_policy
  | ConfNspList => conf_policy
  | LockList => Pager.list_policy
  | CreateTables | EditTable => table_policy
  | TablesList => tables_policy
  | TopologyMiss | RangeDup => plain_policy
  | ScheduleAdjust => usual scheduler_changes
  | LockNspApply => usual apply_changes
  | ScheduleManage | BootstrapTableDemo | InitCluster | IndexMenu => usual (fun _ => [])
  | PeerInfo | UnstableRange | TopologyList | RangeOpsTopN => prompt (fun _ => [])
  | UnhealthyRange => prompt unhealthy_changes
  | MasterInfo => prompt master_changes
  | MetadataCreateTable => usual database_changes
  | MetricManage => metric_policy
  | MetricServer => server_policy
  | Source => deploy_policy
  end.

#[export] Instance page_of_promising off parse s : Promising (page_of off parse s) (policy_of s).
Proof. destruct s; cbn [page_of policy_of]; exact _. Qed.



(** ** Batch buttons *)

(** A button that sends the ids of the selected rows of a table: the rows it refuses,
    the messages for no selection and for a refused row, its dialog and its request. *)
Record batch_button := BatchButton
  { bb_page : page; bb_action : p_action bb_page; bb_table : string; bb_refused : val -> bool;
    bb_none : string * string; bb_bad : string * string; bb_dialog : swal_opts; bb_request : val -> request }.

Definition batch_buttons (off : Z) : list batch_button :=
  [BatchButton (lock_page off) LockNsp.AAudit "#nspApplyLists" (not_status 1)
     ("审批申请", "请选择要审批的申请记录") ("审批申请", "请选择待审核状态的申请记录")
     (warn "审批操作" "通过") (LockNsp.audit_request 2);
   BatchButton (lock_page off) LockNsp.AReject "#nspApplyLists" (above_status 1)
     ("驳回申请", "请选择要驳回的申请记录") ("驳回申请", "请选择待审核状态的申请记录")
     (warn "驳回操作" "驳回") (LockNsp.audit_request 3);
   BatchButton (lock_page off) LockNsp.ADelete "#nspApplyLists" (is_status 2)
     ("驳回申请", "请选择要驳回的申请记录") ("删除", "请选择待审核、驳回状态的记录操作")
     (warn "删除操作" "确认") LockNsp.delete_request;
   BatchButton (conf_page off) ConfNsp.AAudit "#nspApplyLists" (not_status 1)
     ("审批申请", "请选择要审批的申请记录") ("审批申请", "请选择待审核状态的申请记录")
     (warn "审批操作" "通过") (ConfNsp.audit_request 2);
   BatchButton (conf_page off) ConfNsp.AReject "#nspApplyLists" (above_status 1)
     ("驳回申请", "请选择要驳回的申请记录") ("驳回申请", "请选择待审核状态的申请记录")
     (warn "驳回操作" "驳回") (ConfNsp.audit_request 3);
   BatchButton (conf_page off) ConfNsp.ADelete "#nspApplyLists" (is_status 2)
     ("驳回申请", "请选择要驳回的申请记录") ("删除", "请选择待审核、驳回状态的记录操作")
     (warn "删除操作" "确认") ConfNsp.delete_request;
   BatchButton (sqlapply_page off) AAuditSql sql_list (above_status 1)
     ("审批申请", "请选择要审批的申请记录") ("审批申请", "请选择待审核状态的申请记录")
     (warn "审批操作" "通过") (sql_audit 2);
   BatchButton (sqlapply_page off) ARejectSql sql_list (above_status 1)
     ("驳回申请", "请选择要驳回的申请记录") ("驳回申请", "请选择待审核状态的申请记录")
     (warn "驳回操作" "驳回") (sql_audit 3)].

(** C16: each of the eight batch buttons of the lists of applications (locks,
    configurations, SQL) accepts exactly the selections all of whose rows fit the
    operation; an empty selection, or one with another row, ends in the button's error
    message and no request; otherwise it asks, and the confirmed request carries a JSON
    text that decodes to the ids of exactly the selected rows. *)
Theorem batch_buttons_outcome (off : Z) (b : batch_button) (E : env) (w : world) (t : table) (input : string) :
  b ∈ batch_buttons off ->
  w_tables w !! bb_table b = Some t -> clean (Arr (pluck "id" (selected_rows t))) = true ->
  batch_outcome E (bb_page b) w (bb_action b) input (selected_rows t) (bb_refused b) (bb_none b) (bb_bad b)
    (bb_dialog b) (bb_request b).
Proof.
  unfold batch_buttons. rewrite !elem_of_cons, elem_of_nil. intros Hb Ht Hc.
  destruct Hb as [->|[->|[->|[->|[->|[->|[->|[->|[]]]]]]]]]; (eapply batch_news; [reflexivity|exact Ht|exact Hc|done..]).
Qed.

(** Applying the theorem to the approval of two lock namespaces. *)
Lemma batch_buttons_outcome_witness :
  batch_outcome offline (lock_page 0) (lock_session []) LockNsp.AAudit "" [apply_row 1 1 true; apply_row 3 1 true]
    (not_status 1) ("审批申请", "请选择要审批的申请记录") ("审批申请", "请选择待审核状态的申请记录")
    (warn "审批操作" "通过") (LockNsp.audit_request 2).
Proof.
  apply (batch_buttons_outcome 0
    (BatchButton (lock_page 0) LockNsp.AAudit "#nspApplyLists" (not_status 1)
       ("审批申请", "请选择要审批的申请记录") ("审批申请", "请选择待审核状态的申请记录")
       (warn "审批操作" "通过") (LockNsp.audit_request 2)) offline (lock_session []) (Table "" LockNsp.two_pending) "");
    [apply list_elem_of_here|vm_compute; reflexivity..].
Defined.
