(* ===== verification/Served.v ===== *)
(** * The pages and their server

    The pages of the console composed with the routes of the server: whatever a page
    asks of the server in any state it can reach, by a request, by the address of a
    table or by a link, there is a handler for its method and path, and it names every
    parameter that the handler insists on; with the exceptions that [unserved] lists.
    The answers of the server are the ones of [handleAction]. *)

From S2P Require Import Prelude JsValue Json Browser Logic Outputs Contracts Widgets Utils Batch.
From S2P Require Import ClusterInfo Pager LockNsp ConfNsp RangeTopo CreateTable Tables SqlApply Scheduler Ranges Clusters.
From S2P Require Import Metrics Deploy Users SqlConsole ServerInfo Console Backend.

(** ** What a page asks of the server *)

(** A method, an address and the names of the fields of the form. *)
Record asking := Asking { ak_method : string; ak_url : string; ak_form : list string }.

Definition keys (v : val) : list string := match v with Obj fs => List.map fst fs | _ => [] end.

(** The tables and grids ask with [get] for the address in their options. *)
Definition asks (o : output) : option asking :=
  match o with
  | Sent r => Some (Asking (r_type r) (r_url r) (keys (r_data r)))
  | Refreshed _ url | WentTo url => Some (Asking "get" url [])
  | Called f args =>
      if String.eqb f "bootstrapTable" || String.eqb f "jqGrid" then
        match args with
        | [_; Obj options] => match assoc "url" options with Some (Str url) => Some (Asking "get" url []) | _ => None end
        | _ => None
        end
      else None
  | _ => None
  end.

(** The address names the parameter [k]. *)
Definition names (k url : string) : Prop :=
  exists pre sep post, (sep = "?" \/ sep = "&") /\ url = pre +:+ sep +:+ k +:+ "=" +:+ post.

Definition carries (a : asking) (p : param) : Prop :=
  match p with
  | Query k => names k (ak_url a)
  | PostForm k => existsb (String.eqb k) (ak_form a) = true
  | Session _ => True
  end.

(** What a check needs of the parameters that are there. *)
Fixpoint met (there : param -> Prop) (c : check) : Prop :=
  match c with
  | Given ps _ | Number ps _ => Forall there ps
  | OneGiven ps _ => List.Exists there ps
  | Unsigned p _ | Unmarshal p _ _ => there p
  | NumberIfGiven _ _ => True
  | OneOf p texts _ => there p \/ existsb (String.eqb "") texts = true
  | Unless p text c => there p \/ text = "" \/ met there c
  end.

Definition understood (a : asking) : Prop :=
  match find_route (ak_method a) (path_of (ak_url a)) with
  | Some rt => Forall (met (carries a)) (checks (rt_action rt))
  | None =>
      match List.find (fun pg => String.eqb pg.1 (path_of (ak_url a))) page_routes with
      | Some pg => ak_method a = "get" /\ Forall (fun k => names k (ak_url a)) pg.2
      | None => False
      end
  end.

(** An action goes on to the service only with the parameters its checks need. *)
Lemma passes_met ps c : passes ps c = None -> met (fun p => ps p <> "") c.
Proof.
  assert (Hne : forall s, negb (String.eqb s "") = true <-> s <> "").
  { intros s. rewrite negb_true_iff. apply String.eqb_neq. }
  assert (Hnum : forall s, is_Some (atoi s) -> s <> "") by (intros s [z Hz] ->; done).
  induction c as [l e|l e|l e|p e|p e|p l e|p t c IH|p t e]; cbn.
  - destruct (forallb _ l) eqn:Hl; [|done]. intros _.  rewrite forallb_forall in Hl. apply list.Forall_forall. intros x Hx. apply Hne, Hl. by apply list_elem_of_In.
  - destruct (existsb _ l) eqn:Hl; [|done]. intros _. apply existsb_exists in Hl as (x & Hx & Hs).
    apply List.Exists_exists. exists x. split; [done|]. by apply Hne.
  - destruct (forallb _ l) eqn:Hl; [|done]. intros _. rewrite forallb_forall in Hl. apply list.Forall_forall. intros x Hx.
    apply list_elem_of_In, Hl, bool_decide_eq_true_1 in Hx. by apply Hnum.
  - destruct (bool_decide _) eqn:Hb; [|done]. intros _. apply bool_decide_eq_true_1 in Hb as [z Hz]. intros Hp. by rewrite Hp in Hz.
  - done.
  - destruct (existsb _ l) eqn:Hl; [|done]. intros _. destruct (decide (ps p = "")) as [Hp|Hp]; [|by left].
    right. by rewrite Hp in Hl.
  - destruct (String.eqb_spec (ps p) t) as [<-|Ht]; [|intros Hc; right; right; by apply IH].
    intros _. destruct (decide (ps p = "")); [by right; left|by left].
  - destruct (bool_decide _) eqn:Hb; [|done]. intros _. apply bool_decide_eq_true_1 in Hb as [z Hz]. intros Hp. by rewrite Hp in Hz.
Qed.

(** ** The pages *)

(** The views of the console: the scripts of [Console.v] and those without guarded
    requests. *)
Inductive view : Type :=
| Script (s : script)
| SqlList | RoleInfo | UserInfo | UserPrivileges | ViewConsole | ServerList | ConfList.

Definition view_page (off : Z) (parse : string -> option Z) (v : view) : page :=
  match v with
  | Script s => page_of off parse s
  | SqlList => sqlapply_page off
  | RoleInfo => role_page
  | UserInfo => user_page off
  | UserPrivileges => privilege_page
  | ViewConsole => sql_page
  | ServerList => ServerInfo.server_page
  | ConfList => conf_list_page off parse
  end.

(** What no handler of the server answers. *)
Definition unserved (v : view) : list (string * string) :=
  match v with
  | Script LoadInfoData =>
      [("post", "/cluster/getClusterEvent"); ("get", "/monitor/dbmonitor"); ("get", "/monitor/nodeMonitor")]
  | Script RangeTopu => [("post", "/range/split"); ("post", "/monitor/getRangeData")]
  | Script TablesList => [("post", "/metadata/tableRwPolicy"); ("get", "/monitor/viewTableMonitor")]
  | Script MetadataCreateTable => [("post", "/metadata/sqlCreateTable")]
  | Script Source => [("post", "/cluster/clusterDeployPolicy"); ("get", "/metadata/resources")]
  | UserInfo =>
      [("get", "/userInfo/getUserList"); ("post", "/userInfo/saveUserErp"); ("post", "/userInfo/addUserAuthority");
       ("post", "/userInfo/delUserInfoById")]
  | ServerList => [("post", "/serverInfo/createIp"); ("get", "/serverInfo/getServerList")]
  | _ => []
  end.

(** The SQL console can only leave its page for a text the user copies, in Opera. *)
Definition in_order (v : view) (o : output) : Prop :=
  match v, o with
  | ViewConsole, WentTo _ => True
  | _, _ =>
      match asks o with
      | Some a => understood a \/ (ak_method a, path_of (ak_url a)) ∈ unserved v
      | None => True
      end
  end.

(** ** Automation *)

Fixpoint lit_names (pat lit : string) : bool :=
  String.prefix ("?" +:+ pat) lit || String.prefix ("&" +:+ pat) lit ||
  match lit with EmptyString => false | String _ lit' => lit_names pat lit' end.

Lemma prefix_app p l : String.prefix p l = true -> exists r, l = p +:+ r.
Proof.
  revert l. induction p as [|a p IH]; intros l; [by exists l|]. destruct l as [|b l]; [done|]. cbn.
  destruct (Ascii.ascii_dec a b) as [->|]; [|done]. intros [r ->]%IH. by exists r.
Qed.

Lemma names_app k a s : names k s -> names k (a +:+ s).
Proof. intros (pre & sep & post & Hs & ->). exists (a +:+ pre), sep, post. split; [done|]. by rewrite str_app_assoc. Qed.

Lemma lit_names_names k l : lit_names (k +:+ "=") l = true -> names k l.
Proof.
  induction l as [|a l IH].
  - by destruct k.
  - cbn [lit_names]. rewrite !orb_true_iff. intros [[H|H]|H].
    + apply prefix_app in H as [r ->]. exists "", "?", r. split; [by left|]. by rewrite !str_app_assoc.
    + apply prefix_app in H as [r ->]. exists "", "&", r. split; [by right|]. by rewrite !str_app_assoc.
    + destruct (IH H) as (pre & sep & post & Hs & ->). by exists (String a pre), sep, post.
Qed.

Lemma lit_names_app k l s : lit_names (k +:+ "=") l = true -> names k (l +:+ s).
Proof.
  intros (pre & sep & post & Hs & ->)%lit_names_names. exists pre, sep, (post +:+ s). split; [done|].
  by rewrite !str_app_assoc.
Qed.

Lemma says_last_option P x l : says P (last_option x l).
Proof.
  revert x. induction l as [|c l IH]; intros x; [done|]. cbn [last_option].
  apply says_bind; [apply says_get|]. intros a. apply says_bind; [apply says_get|]. intros b. apply IH.
Qed.

Lemma says_check_keys P isInt rows pkFlg n : (forall v, says P (isInt v)) -> says P (check_keys isInt rows pkFlg n).
Proof.
  intros Hi. revert pkFlg n. induction rows as [|r rows IH]; intros pkFlg n; [done|]. cbn [check_keys].
  apply says_bind; [case_match; [|done]; apply says_bind; [apply Hi|done]|]. intros bad. case_match; [done|apply IH].
Qed.

(** Neighbouring literals are joined. *)
Ltac join_literals :=
  repeat match goal with
  | |- context [String.append (String ?c ?a) (String.append (String ?d ?b) ?s)] =>
      let l := eval vm_compute in (String.append (String c a) (String d b)) in
      change (String.append (String c a) (String.append (String d b) s)) with (String.append l s)
  end.
Ltac named :=
  first [apply lit_names_app; reflexivity | apply lit_names_names; reflexivity | apply names_app; named].

(** An output of a page is in order. *)
Ltac understand :=
  lazymatch goal with
  | |- understood ?a =>
      unfold understood;
      let r := eval vm_compute in (find_route (ak_method a) (path_of (ak_url a))) in
      change (find_route (ak_method a) (path_of (ak_url a))) with r; cbv iota;
      try (let g := eval vm_compute in (List.find (fun pg => String.eqb pg.1 (path_of (ak_url a))) page_routes) in
           change (List.find (fun pg => String.eqb pg.1 (path_of (ak_url a))) page_routes) with g; cbv iota;
           split; [reflexivity|]);
      cbn [rt_action checks cluster_checks master_checks metadata_checks node_checks range_checks schedule_checks
           topology_checks StoreDataQuery_checks user_checks sql_checks lock_checks configure_checks metric_checks
           table_checks node_checks_with all_given cluster_id apply_checks audit_checks ids_checks GetPagerInfo given
           number List.map app snd ak_url];
      join_literals; repeat (first [apply Forall_nil_2 | apply Forall_cons_2 | progress cbn [met]]);
      try exact I; try (left; reflexivity); try (right; reflexivity); cbn [carries ak_url ak_form];
      first [reflexivity | named | idtac]
  end.
Ltac says_rule ::=
  lazymatch goal with
  | |- says _ (last_option _ _) => apply says_last_option
  | |- says _ (check_keys _ _ _ _) => apply says_check_keys
  | |- says _ (bind (getUrl _) _) => unfold getUrl
  | |- says _ (bind (peer_data _) _) => unfold peer_data
  | |- says _ (init (getRangeAllUrl _ _ _ _ _)) => unfold getRangeAllUrl; repeat case_match
  end.
Ltac ordered :=
  says_run;
  lazymatch goal with
  | |- in_order _ _ =>
      cbv [in_order]; cbn [asks r_type r_url r_data post post_sync http_get];
      first [exact I | right; vm_compute; repeat (first [by left | right]); fail | left; understand]
  | |- _ => idtac
  end.

(** The scripts of a page are in order. *)
Class Ordered (v : view) (pg : page) : Prop := {
  ordered_load : says (in_order v) (p_load pg);
  ordered_handler a : says (in_order v) (p_handler pg a)
}.
Ltac page_ordered :=
  lazymatch goal with |- Ordered _ ?pg => let h := head_of pg in
    split; [|intros a]; unfold h in *; cbn [p_load p_action p_handler] in *; ordered
  end.

#[export] Instance loadInfoData_ordered (off : Z) : Ordered (Script LoadInfoData) (cluster_page off).
Proof. page_ordered. Qed.
#[export] Instance rangeTopu_ordered (off : Z) : Ordered (Script RangeTopu) (range_page off).
Proof. page_ordered. Qed.
#[export] Instance lockNspList_ordered (off : Z) : Ordered (Script LockNspList) (lock_page off).
Proof. page_ordered. Qed.
#[export] Instance confNspList_ordered (off : Z) : Ordered (Script ConfNspList) (conf_page off).
Proof. page_ordered. Qed.
#[export] Instance lockList_ordered (off : Z) (parse : string -> option Z) : Ordered (Script LockList) (lock_list_page off parse).
Proof. page_ordered. Qed.
#[export] Instance createTables_ordered : Ordered (Script CreateTables) create_page.
Proof. page_ordered. Qed.
#[export] Instance editTable_ordered : Ordered (Script EditTable) edit_page.
Proof. page_ordered. Qed.
#[export] Instance tablesList_ordered : Ordered (Script TablesList) tables_page.
Proof. page_ordered. Qed.
#[export] Instance topologyMiss_ordered : Ordered (Script TopologyMiss) missing_page.
Proof. page_ordered. Qed.
#[export] Instance rangeDup_ordered : Ordered (Script RangeDup) dup_page.
Proof. page_ordered. Qed.
#[export] Instance scheduleAdjust_ordered : Ordered (Script ScheduleAdjust) scheduler_page.
Proof. page_ordered. Qed.
#[export] Instance scheduleManage_ordered : Ordered (Script ScheduleManage) manage_page.
Proof. page_ordered. Qed.
#[export] Instance lockNspApply_ordered : Ordered (Script LockNspApply) apply_page.
Proof. page_ordered. Qed.
#[export] Instance peerInfo_ordered : Ordered (Script PeerInfo) peers_page.
Proof. page_ordered. Qed.
#[export] Instance unhealthyRange_ordered : Ordered (Script UnhealthyRange) unhealthy_page.
Proof. page_ordered. Qed.
#[export] Instance unstableRange_ordered : Ordered (Script UnstableRange) unstable_page.
Proof. page_ordered. Qed.
#[export] Instance topologyList_ordered : Ordered (Script TopologyList) topology_page.
Proof. page_ordered. Qed.
#[export] Instance rangeOpsTopN_ordered : Ordered (Script Console.RangeOpsTopN) topn_page.
Proof. page_ordered. Qed.
#[export] Instance masterInfo_ordered : Ordered (Script MasterInfo) master_page.
Proof. page_ordered. Qed.
#[export] Instance bootstrapTableDemo_ordered : Ordered (Script BootstrapTableDemo) Clusters.list_page.
Proof. page_ordered. Qed.
#[export] Instance initCluster_ordered : Ordered (Script InitCluster) init_page.
Proof. page_ordered. Qed.
#[export] Instance metadataCreateTable_ordered : Ordered (Script MetadataCreateTable) database_page.
Proof. page_ordered. Qed.
#[export] Instance indexMenu_ordered : Ordered (Script IndexMenu) menu_page.
Proof. page_ordered. Qed.
#[export] Instance metricManage_ordered : Ordered (Script MetricManage) metric_page.
Proof. page_ordered. Qed.
#[export] Instance metricServer_ordered : Ordered (Script MetricServer) Metrics.server_page.
Proof. page_ordered. Qed.
#[export] Instance source_ordered : Ordered (Script Source) deploy_page.
Proof. page_ordered. Qed.
#[export] Instance sqlList_ordered (off : Z) : Ordered SqlList (sqlapply_page off).
Proof. page_ordered. Qed.
#[export] Instance roleInfo_ordered : Ordered RoleInfo role_page.
Proof. page_ordered. Qed.
#[export] Instance userInfo_ordered (off : Z) : Ordered UserInfo (user_page off).
Proof. page_ordered. Qed.
#[export] Instance userPrivileges_ordered : Ordered UserPrivileges privilege_page.
Proof. page_ordered. Qed.
#[export] Instance viewConsole_ordered : Ordered ViewConsole sql_page.
Proof. page_ordered. Qed.
#[export] Instance serverList_ordered : Ordered ServerList ServerInfo.server_page.
Proof. page_ordered. Qed.
#[export] Instance confList_ordered (off : Z) (parse : string -> option Z) : Ordered ConfList (conf_list_page off parse).
Proof. page_ordered. Qed.

#[export] Instance view_ordered off parse v : Ordered v (view_page off parse v).
Proof. destruct v as [[]| | | | | | |]; cbn [view_page page_of]; exact _. Qed.

(** ** Theorems *)

Lemma in_order_uncaught v e : in_order v (Uncaught e).
Proof. by destruct v. Qed.

(** C5: the pages and the routes fit together.  In every state that a page of the
    console can reach, each request it has sent, each address it has given a table or a
    grid and each link it has followed has a handler on the server, with the method that
    the page uses, and names every parameter that the checks of the handler insist on.
    The exceptions are listed per page, and the server indeed has no handler for any of
    them. *)
Theorem requests_understood (off : Z) (parse : string -> option Z) (v : view) (E : env) (w : world) :
  reachable E (view_page off parse v) w ->
  Forall (in_order v) (w_out w) /\
  Forall (fun mp => find_route mp.1 mp.2 = None /\
                    (mp.1 = "get" -> existsb (fun pg => String.eqb pg.1 mp.2) page_routes = false)) (unserved v).
Proof.
  intros Hw. split.
  - apply (reachable_says (in_order v) (in_order_uncaught v) E (view_page off parse v)); [apply ordered_load|apply ordered_handler|done].
  - destruct v as [[]| | | | | | |]; cbn [unserved]; repeat first [apply Forall_nil_2 | apply Forall_cons_2];
      (split; [reflexivity|intros H; first [discriminate H | reflexivity]]).
Qed.

(** Applying the theorem to the page of the replicas after a replacement. *)
Lemma requests_understood_witness :
  Forall (in_order (Script PeerInfo)) (w_out (session offline peers_page [] [Act (AReplaceRange (int 3))])).
Proof.
  apply (requests_understood 0 (fun _ => None) (Script PeerInfo) offline), reachable_session.
Defined.

(** *** Answers *)

(** The code of an error is one of the table. *)
Definition listed (e : fbase_error) : bool := existsb (fun e' => Z.eqb (fe_code e') (fe_code e)) errors.

Fixpoint check_error (c : check) : fbase_error :=
  match c with
  | Given _ e | OneGiven _ e | Number _ e | Unsigned _ e | NumberIfGiven _ e | OneOf _ _ e | Unmarshal _ _ e => e
  | Unless _ _ c => check_error c
  end.

Lemma checks_listed a : forallb (fun c => listed (check_error c)) (checks a) = true.
Proof. destruct a as [[]|[]|[]|[]|[]|[]|[]| |[]|[]|[]|[]|[]]; reflexivity. Qed.

Lemma passes_error ps c e : passes ps c = Some e -> e = check_error c.
Proof. induction c; cbn; try case_match; try done; by intros [= ->]. Qed.

Lemma failing_listed ps cs e :
  forallb (fun c => listed (check_error c)) cs = true -> failing ps cs = Some e -> listed e = true.
Proof.
  induction cs as [|c cs IH]; [done|]. cbn. intros [Hc Hcs]%andb_prop. destruct (passes ps c) as [e'|] eqn:Hp; [|auto].
  intros [= <-]. by rewrite (passes_error _ _ _ Hp).
Qed.

Section Answers.
Context (service : api_action -> (param -> string) -> go_error + val) (session : string -> string).

(** The errors of the service have codes of the table. *)
Definition table_codes : Prop := forall a ps e, service a ps = inl (Fbase e) -> listed e = true.
Context (Hcodes : table_codes).

(** The server has carried out the request: it has a route, the checks of the action
    passed and the service succeeded. *)
Definition carried_out (r : request) : Prop :=
  exists rt data, find_route (r_type r) (path_of (r_url r)) = Some rt /\
    failing (param_value session r) (checks (rt_action rt)) = None /\
    service (rt_action rt) (param_value session r) = inr data.

Lemma answer_code a ps :
  exists code msg data, handleAction (Execute service a ps) = response code msg data /\ 0 <= code <= 11 /\
    (code = 0 -> failing ps (checks a) = None /\ service a ps = inr data).
Proof using Hcodes.
  assert (Hl : forall e, listed e = true -> 1 <= fe_code e <= 11).
  { intros e (e' & Hin & He)%existsb_exists. apply Z.eqb_eq in He. rewrite <- He.
    cbn in Hin. by repeat destruct Hin as [<-|Hin]. }
  unfold Execute. destruct (failing ps (checks a)) as [e|] eqn:Hf.
  - apply failing_listed, Hl in Hf; [|apply checks_listed]. do 3 eexists. split; [reflexivity|]. lia.
  - destruct (service a ps) as [[e|m|m]|data] eqn:Hs; do 3 eexists; (split; [reflexivity|]); cbn; try lia.
    + apply Hcodes, Hl in Hs. lia.
    + done.
Qed.

(** Every page reads the verdict off the code, or off a part that no answer of
    [handleAction] has. *)
Lemma verdict_code s r code msg data :
  verdict (policy_of s) r (response code msg data) = true -> code = 0.
Proof.
  assert (Hz : code_zero (response code msg data) = true -> code = 0).
  { unfold code_zero. cbn [response field get_prop]. intros H. apply strict_eq_int in H. by injection H. }
  destruct s; cbn [policy_of]; try exact Hz; cbn; case_match; try exact Hz; done.
Qed.

Lemma granted_carried_out s r : granted (policy_of s) r (serve service session r) = true -> carried_out r.
Proof using Hcodes.
  unfold serve, carried_out. destruct (find_route _ _) as [rt|] eqn:Hrt; [|done].
  assert (Hcode : forall res, handleAction (Execute service (rt_action rt) (param_value session r)) = res ->
    verdict (policy_of s) r res = true -> exists data,
      failing (param_value session r) (checks (rt_action rt)) = None /\
      service (rt_action rt) (param_value session r) = inr data).
  { intros res <-. destruct (answer_code (rt_action rt) (param_value session r)) as (code & msg & data & -> & _ & H0).
    intros ?%verdict_code. eauto. }
  cbv zeta. intros Hg. exists rt.
  assert (Hdone : exists data, failing (param_value session r) (checks (rt_action rt)) = None /\
      service (rt_action rt) (param_value session r) = inr data).
  { destruct (rt_action rt) as [| |[]| | | | | | | | | |] eqn:Ha; cbn [granted] in Hg; try (by eapply Hcode).
    clear Hcode. unfold Execute in Hg. destruct (failing _ _); [done|]. by destruct (service _ _) as [|data]; [|exists data]. }
  destruct Hdone as (data & Hf & Hs). by exists data.
Qed.
End Answers.

(** The posts of a page whose refusal it shows.  The list of metric servers shows no
    refusal, the resources only those in [attach], the topology none of the charts'. *)
Definition shows_refusal (s : script) (r : request) : bool :=
  posts r &&
  match s with
  | MetricServer | Source => false
  | RangeTopu => negb (String.eqb (r_url r) "/monitor/getRangeData")
  | _ => true
  end.

Lemma refusal_form service session r :
  table_codes service -> ~ carried_out service session r ->
  (exists x t, serve service session r = Failure x t) \/
  (exists code msg, code <> 0 /\ serve service session r = Success (response code msg (Str ""))).
Proof.
  intros Hcodes Hr. unfold carried_out in Hr. unfold serve. destruct (find_route _ _) as [rt|] eqn:Hrt; [|eauto].
  destruct (answer_code service Hcodes (rt_action rt) (param_value session r)) as (code & msg & data & Ha & _ & H0).
  assert (Hc : code <> 0) by (intros H; destruct (H0 H); apply Hr; by exists rt, data). cbv zeta.
  destruct (Execute service (rt_action rt) (param_value session r)) as [e|d] eqn:He.
  - assert (data = Str "") as -> by (by destruct e; injection Ha). rewrite Ha.
    destruct (rt_action rt) as [| |[]| | | | | | | | | |]; eauto.
  - cbn in Ha. by injection Ha as <-.
Qed.

(** A path without any route is not found, whatever the method. *)
Lemma serve_unrouted service session r d :
  existsb (fun rt => String.eqb (rt_path rt) (path_of (r_url r))) api_routes = false ->
  serve service session r <> Success d.
Proof.
  intros Hp. unfold serve, find_route. destruct (List.find _ api_routes) as [rt|] eqn:Hf; [|done].
  apply find_some in Hf as [Hin Hf]. apply andb_prop in Hf as [_ Hf].
  rewrite <- not_true_iff_false, existsb_exists in Hp. destruct Hp. by exists rt.
Qed.

Lemma refusal_watched service session s r :
  table_codes service -> shows_refusal s r = true -> ~ carried_out service session r ->
  watched (policy_of s) r (serve service session r) = true.
Proof.
  intros Hcodes Hs Hr. unfold shows_refusal in Hs. apply andb_prop in Hs as [Hp Hs].
  destruct (refusal_form service session r Hcodes Hr) as [(x & t & ->)|(code & msg & Hc & Hserve)].
  - destruct s; try discriminate Hs; cbn; by rewrite Hp, ?Hs.
  - assert (Hz : code_zero (response code msg (Str "")) = false).
    { apply not_true_iff_false. unfold code_zero. cbn [response field get_prop]. intros H%strict_eq_int. by injection H. }
    rewrite Hserve.
    destruct s; try discriminate Hs; cbn -[code_zero]; rewrite Hp, ?Hs, ?Hz, ?orb_true_r; try done.
    + destruct (is_split r) eqn:Hu; [|done]. apply String.eqb_eq in Hu.
      destruct (serve_unrouted service session r (response code msg (Str ""))); [by rewrite Hu|done].
    + destruct (is_policy r) eqn:Hu; [|done]. apply String.eqb_eq in Hu.
      destruct (serve_unrouted service session r (response code msg (Str ""))); [by rewrite Hu|done].
Qed.

(** The page is talking to the server: the answers are the server's. *)
Definition answered_by (service : api_action -> (param -> string) -> go_error + val) (session : string -> string)
    {A : Type} (w : world) (ev : event A) : Prop :=
  forall i res r, ev = Reply i res -> fst <$> w_pending w !! i = Some r -> res = serve service session r.

(** The request that an event is about: the one whose answer it delivers, or one that
    it sends itself. *)
Definition concerns (E : env) (pg : page) (w : world) (ev : event (p_action pg)) (r : request) : Prop :=
  (exists i res, ev = Reply i res /\ fst <$> w_pending w !! i = Some r) \/ Sent r ∈ news E pg w ev.

Lemma success_carried_out off parse s service session E w (ev : event (p_action (page_of off parse s))) o :
  table_codes service -> (forall before, e_server E before = serve service session) -> answered_by service session w ev ->
  reachable E (page_of off parse s) w -> o ∈ news E (page_of off parse s) w ev -> is_success o = true ->
  exists r, concerns E (page_of off parse s) w ev r /\ carried_out service session r.
Proof.
  intros Hcodes HE Hev Hw Ho Hs.
  destruct (success_granted (pol := policy_of s) E w Hw ev o Ho Hs) as [(i & res & r & -> & Hi & Hg)|(r & res & Ha & Hg)].
  - rewrite (Hev i res r) in Hg by done. exists r. split; [left; eauto|by eapply granted_carried_out].
  - destruct (news_asked_first _ _ _ _ _ _ Ha) as (Hsent & before & ->). rewrite HE in Hg.
    exists r. split; [by right|by eapply granted_carried_out].
Qed.


(** A service that is down, and the application for a lock namespace that it refuses. *)
Definition refusing (_ : api_action) (_ : param -> string) : go_error + val := inl (Fbase DB_ERROR).
Definition refusing_env : env := served (serve refusing (fun _ => "")).
Definition namespace_form : list (string * string * val) :=
  [("#clusterSelect", "value", Str "1"); ("#dbName", "value", Str "d"); ("#tableName", "value", Str "t")].
Definition namespace_request : request :=
  post "/lock/namespace/apply" [("dbName", Str "d"); ("tableName", Str "t"); ("clusterId", Str "1")].
Definition refused_session : world :=
  session refusing_env apply_page namespace_form [Act ASubmitHandler; Confirm ""].


(** *** Replacing a replica *)

(** The button that replaces a replica of a range rebuilds the range.  The server
    routes its request, which the page sends for the replica the user chose, to the action
    that [/range/rebuildRange] has as well, and no route leads to the action that replaces
    a replica. *)
Theorem replace_range_rebuilds (E : env) (attrs : gmap (string * string) val) (evs : list (event peers_action)) (id : val)
    (service : api_action -> (param -> string) -> go_error + val) (session : string -> string) :
  let w := steps E peers_page (boot E peers_page attrs) evs in
  exists r, news E peers_page w (Act (AReplaceRange id)) !! 0%nat = Some (Sent r) /\
    assoc "peerId" (match r_data r with Obj fs => fs | _ => [] end) = Some id /\
    serve service session r = Success (handleAction (Execute service (Range RangeRebuild) (param_value session r))) /\
    Forall (fun rt => rt_action rt <> Range RangeReplace) api_routes.
Proof.
  intros w. destruct (range_requests_captured E attrs evs [] id "") as (_ & H & _).
  eexists. split_ands; [exact H|reflexivity|reflexivity|].
  apply list.Forall_forall. intros rt Hin Ha. apply list_elem_of_In in Hin.
  assert (Hall : forallb (fun rt => match rt_action rt with Range RangeReplace => false | _ => true end) api_routes = true) by reflexivity.
  rewrite forallb_forall in Hall. specialize (Hall rt Hin). by rewrite Ha in Hall.
Qed.

(** *** Details of a replica *)

(** A click on a replica asks the server for its details, and no answer of the
    server brings them to the screen: whenever the answer arrives, the page is as before,
    since it waits for the code 200 and the server sends those of its table of errors. *)
Theorem details_never_shown (off : Z) (E : env) (w : world) (root : val) (leader : bool)
    (service : api_action -> (param -> string) -> go_error + val) (session : string -> string) :
  table_codes service ->
  is_object root = true -> is_object (clicked root leader) = true ->
  is_object (field (clicked root leader) "node") = true ->
  let w' := step E (range_page off) w (Act (AShowRangeInfo root (Str (if leader then "leader" else "replicate")))) in
  let details := w_pending w' !! length (w_pending w) in
  let r := http_get (details_url w (clicked root leader)) in
  fst <$> details = Some r /\
  (forall w2 i, w_pending w2 !! i = details ->
     step E (range_page off) w2 (Reply i (serve service session r)) = set_pending (delete i (w_pending w2)) w2).
Proof.
  intros Hcodes Hr Hp Hn. cbv zeta.
  destruct (showRangeInfo_pending off E w root leader Hr Hp Hn) as [charts ->].
  rewrite (list_lookup_middle (w_pending w) [charts]) by done. split; [done|]. intros w2 i Hi. cbn [step]. unfold deliver.
  rewrite Hi. set (r := http_get _).
  assert (Hs : exists a, serve service session r = Success (handleAction (Execute service a (param_value session r))))
    by (by eexists).
  destruct Hs as [a ->]. destruct (answer_code service Hcodes a (param_value session r)) as (code & msg & data & -> & Hc & _).
  assert (Hno : strict_eq (field (response code msg data) "code") (int 200) = false).
  { apply not_true_iff_false. intros H%strict_eq_int. injection H as H. lia. }
  unfold show_details, code_is. rewrite get_object by done. cbn [bind]. by rewrite Hno.
Qed.

Definition details_session : world :=
  step offline (range_page 0) table_session (Act (AShowRangeInfo leader_root (Str "leader"))).

(** Applying the theorem to the leader of a range. *)
Lemma details_never_shown_witness :
  step offline (range_page 0) details_session (Reply (length (w_pending table_session))
    (serve refusing (fun _ => "") (http_get (details_url table_session peer)))) =
  set_pending (delete (length (w_pending table_session)) (w_pending details_session)) details_session.
Proof.
  refine (proj2 (details_never_shown 0 offline table_session leader_root true refusing (fun _ => "") _ eq_refl eq_refl eq_refl) _ _ eq_refl).
  by intros a ps e [= <-].
Defined.
