(* ===== verification/Approvals.v ===== *)
(** * Approvals, from the button to the database

    The batch buttons that approve and reject applications, on the pages of the lock and
    the configuration namespaces, composed with the service behind them: what the rows
    that the operator has selected become in the database. *)

From S2P Require Import Prelude JsValue Json Browser Logic Contracts Widgets Batch LockNsp ConfNsp Backend Applications Workflow.

(** A button with the table it is about, the status it gives and the rows it refuses. *)
Record audit_button := AuditButton
  { ab_page : page; ab_action : p_action ab_page; ab_store : store_table; ab_status : Z; ab_refused : val -> bool }.

Definition audit_buttons (off : Z) : list audit_button :=
  [AuditButton (lock_page off) LockNsp.AAudit TABLE_NAME_LOCK_NSP STATUS_AUDIT (not_status 1);
   AuditButton (lock_page off) LockNsp.AReject TABLE_NAME_LOCK_NSP STATUS_REJECT (above_status 1);
   AuditButton (conf_page off) ConfNsp.AAudit TABLE_NAME_CONFIGURE_NSP STATUS_AUDIT (not_status 1);
   AuditButton (conf_page off) ConfNsp.AReject TABLE_NAME_CONFIGURE_NSP STATUS_REJECT (above_status 1)].

(** ** The request *)

Definition audit_path (t : store_table) : string :=
  match t with TABLE_NAME_LOCK_NSP => "/lock/namespace/audit" | TABLE_NAME_CONFIGURE_NSP => "/configure/namespace/audit" end.
Definition audit_post (t : store_table) (status : Z) (text : string) : request :=
  post (audit_path t) [("ids", Str text); ("status", int status)].

Lemma button_sends off b E w t input :
  b ∈ audit_buttons off -> w_tables w !! "#nspApplyLists" = Some t -> clean (Arr (pluck "id" (selected_rows t))) = true ->
  selected_rows t <> [] -> Forall (fun r => ab_refused b (field r "status") = false) (selected_rows t) ->
  exists text, parse text = Some (Arr (pluck "id" (selected_rows t))) /\
    news E (ab_page b) (step E (ab_page b) w (Act (ab_action b))) (Confirm input) =
      [Sent (audit_post (ab_store b) (ab_status b) text)].
Proof.
  intros Hb Ht Hc Hne Hall. unfold audit_buttons in Hb. rewrite !elem_of_cons, elem_of_nil in Hb.
  destruct (lock_batches off E w t input Ht Hc) as ((_ & _ & H1) & (_ & _ & H2) & _).
  destruct (conf_batches off E w t input Ht Hc) as ((_ & _ & H3) & (_ & _ & H4) & _).
  destruct Hb as [->|[->|[->|[->|[]]]]]; cbn [ab_page ab_action ab_store ab_status ab_refused] in *.
  - destruct (H1 Hne Hall) as (_ & text & Hs & Hp). by exists text.
  - destruct (H2 Hne Hall) as (_ & text & Hs & Hp). by exists text.
  - destruct (H3 Hne Hall) as (_ & text & Hs & Hp). by exists text.
  - destruct (H4 Hne Hall) as (_ & text & Hs & Hp). by exists text.
Qed.

Lemma unmarshal_ids ids : mapM (unmarshal GString) (Str <$> ids) = Some (Str <$> ids).
Proof. induction ids as [|id ids IH]; [done|]. cbn [fmap list_fmap mapM]. by rewrite IH. Qed.

Lemma ids_read ps p text ids :
  ps p = text -> parse text = Some (Arr (Str <$> ids)) ->
  text <> "" /\ is_Some (unmarshal_text (GSlice GString) text) /\ strings_of ps p = ids.
Proof.
  intros Hps Hp. unfold strings_of, unmarshal_text. rewrite Hps, Hp. cbn [mbind option_bind unmarshal].
  rewrite unmarshal_ids. cbn [fmap option_fmap option_map]. split_ands; [by intros ->|by eexists|].
  clear. induction ids as [|id ids IH]; [done|]. cbn. by rewrite IH.
Qed.

(** The server runs the audit of exactly these ids. *)
Lemma audit_responds {db ms : Type} `{!Database db} `{!Master ms} session now uuid t status text ids
    (s : state (db := db) (ms := ms)) :
  status = STATUS_AUDIT \/ status = STATUS_REJECT -> parse text = Some (Arr (Str <$> ids)) ->
  respond session now uuid (audit_post t status text) s =
  Some (let '(s', o) := AuditNsp t ids status (session "user_name") s in
        (s', match o with
             | GOk _ => Success (handleAction (inr Null))
             | GErr e => Success (handleAction (inl e))
             | GPanic => Failure (Obj [("status", int 500)]) (Str "error")
             end)).
Proof.
  intros Hst Hp. set (r := audit_post t status text). set (ps := param_value session r).
  assert (Hids : ps (PostForm "ids") = text) by done.
  assert (Hstatus : ps (PostForm "status") = string_of_Z status) by (by destruct Hst as [-> | ->]).
  destruct (ids_read ps (PostForm "ids") text ids Hids Hp) as (Hne & Hun & Hread).
  assert (Hint : atoi (string_of_Z status) = Some status) by (by destruct Hst as [-> | ->]).
  assert (Hf : failing ps audit_checks = None).
  { cbn [failing audit_checks given number ids_checks passes forallb]. rewrite Hids, Hstatus.
    rewrite (proj2 (String.eqb_neq text "")) by done. rewrite Hint.
    rewrite (proj2 (String.eqb_neq (string_of_Z status) "")) by (by destruct Hst as [-> | ->]).
    cbn [negb andb]. rewrite !bool_decide_eq_true_2; [done|by eexists|done]. }
  assert (Hm : forall s, nsp_audit t ps s = nil_answer (AuditNsp t ids status (session "user_name")) s).
  { intros s0. cbn. unfold int_of. by rewrite Hread, Hstatus, Hint. }
  assert (Hroute : exists rt, find_route (r_type r) (path_of (r_url r)) = Some rt /\
    applications now uuid (rt_action rt) ps = Some (nsp_audit t ps) /\ checks (rt_action rt) = audit_checks)
    by (destruct t; eexists; (split; [vm_compute; reflexivity|done])).
  destruct Hroute as (rt & Hrt & Ha & Hc). unfold respond, respond_with. fold ps. rewrite Hrt. cbn [mbind option_bind]. rewrite Ha.
  cbn [mbind option_bind]. rewrite Hc, Hf, Hm. unfold nil_answer. rewrite then_spec.
  by destruct (AuditNsp t ids status (session "user_name") s) as [s' []].
Qed.

(** ** Theorem *)


(** The page of an operator who has ticked the application of [after_first]. *)
Definition ticked_row : val := Obj [("id", Str "a"); ("status", int 1); ("", Bool true)].
Definition approving_world : world := World ∅ ∅ [] {["#nspApplyLists" := Table "" [ticked_row]]} None [] [].

Lemma after_first_sound : sound after_first.
Proof.
  apply (apply_stored_sound 1 "locks" "jobs" "ann" 5 (inr "a") TABLE_NAME_LOCK_NSP empty_state); [apply empty_sound|].
  intros id r. unfold rows. cbn. by rewrite lookup_empty.
Qed.

