(* ===== verification/Operations.v ===== *)
(** * Operations from the page to the master

    The three programs together: a page of the console, the console's server, which checks
    the request and passes it on ([Backend], [Relay]), and the master server, which reads it
    ([Manage]).  The network in between is a parameter that delivers what is sent. *)

From S2P Require Import Prelude JsValue Json Browser Logic Widgets ClusterInfo Urls Backend Applications Relay Manage.

(** ** Answers of the master *)

(** The JSON of a reply ([httpReply]). *)
Definition httpReply (code : Z) (msg : string) (data : val) : val :=
  Obj [("code", int code); ("message", Str msg); ("data", data)].

(** What comes back over HTTP from a request with that outcome; the answer to a command
    is the cluster's. *)
Definition answers (o : outcome) (h : option (Z * string)) : Prop :=
  match o with
  | Refused code msg => exists body, h = Some (200, body) /\ parse body = Some (httpReply code msg Null)
  | NotFound => exists body, h = Some (404, body)
  | Forwarded | Accepted _ => True
  end.

(** Codes that Go's [int] holds. *)
Definition go_int (z : Z) : Prop := - 2 ^ 63 <= z < 2 ^ 63.

(** The operations whose refusals are passed on with the reason of the master. *)
Definition explained (a : api_action) : bool :=
  match a with
  | Metadata DeleteDbAction | Node _ | Schedule _ | Topology _
  | Range (TaskOperation | TaskPresent | PeerDelete | PeerAdd | RangeDuplicateAction) => true
  | _ => false
  end.

(** ** Refusals *)
Lemma read_refusal data body code msg :
  go_int code -> parse body = Some (httpReply code msg Null) ->
  exists v, read_answer data (Some (200, body)) = inr v /\ field v "code" = int code /\ field v "message" = Str msg.
Proof.
  intros Hint Hp. unfold read_answer, unmarshal_text. cbn [Z.eqb Pos.eqb]. rewrite Hp. cbn [mbind option_bind].
  unfold httpReply. set (fs := [("code", int code); ("message", Str msg); ("data", Null)]).
  assert (Hc : member "code" fs = Some (int code)) by reflexivity.
  assert (Hm : member "message" fs = Some (Str msg)) by reflexivity.
  assert (Hd : member "data" fs = Some Null) by reflexivity. clearbody fs.
  assert (Hi : (- 2 ^ 63 <=? code) && (code <? 2 ^ 63) = true) by (unfold go_int in Hint; lia).
  assert (Hz : forall t, unmarshal t Null = Some (zero t)) by by intros [].
  destruct data as [|t|]; cbn [answer_type app unmarshal]; rewrite Hc, Hm, ?Hd; unfold int; cbn [mbind option_bind];
    rewrite Hi, ?Hz; (eexists; split; [reflexivity|done]).
Qed.

Lemma refusal_explained a ps rl msg :
  relay_of a ps = Some (inr rl) ->
  handleAction (inl (refused (rl_refusal rl) msg)) =
  response (fe_code INTERNAL_ERROR) (if explained a then msg else fe_msg INTERNAL_ERROR) (Str "").
Proof. intros Ha. by relay_case a Ha; relay_if Ha. Qed.

Section Refusals.
Context (num_error : string -> string -> string) (md5 : string -> string).
Context (order : list (string * string) -> list (string * string)).
Context (select_cluster : Z -> go_error + option ClusterInfo).
Context {net : Type} (http_get : string -> net -> net * option (Z * string)).
Context (m : master_server) (info : ClusterInfo) (ts now : Z).
(** The network delivers requests for the master of the cluster. *)
Context (Hnet : forall url n, answers (receive num_error md5 (ci_master info) m now url) (http_get url n).2).

Lemma refusal_passed_on a ps rl code msg n :
  relay_of a ps = Some (inr rl) -> select_cluster (cluster_of a ps) = inr (Some info) ->
  receive num_error md5 (ci_master info) m now (relay_url md5 order rl (cluster_of a ps) info ts) = Refused code msg ->
  go_int code -> code <> 0 ->
  exists n' res, pass_on md5 select_cluster order http_get a ps ts n = Some (n', res) /\
    handleAction res = response (fe_code INTERNAL_ERROR) (if explained a then msg else fe_msg INTERNAL_ERROR) (Str "").
Proof.
  intros Ha Hsel Hr Hint Hcode. unfold pass_on, send, cluster_row. rewrite Ha, Hsel.
  set (url := relay_url md5 order rl (cluster_of a ps) info ts) in *.
  pose proof (Hnet url n) as Hans. rewrite Hr in Hans. destruct Hans as (body & Hh & Hp).
  destruct (http_get url n) as [n' h]. cbn in Hh. subst h.
  destruct (read_refusal (rl_data rl) body code msg Hint Hp) as (v & -> & Hc & Hm).
  eexists n', _. split; [reflexivity|]. unfold hand_back. rewrite Hc, Hm. cbn [int].
  assert (Hz : forall (A : Type) (x y : A), match code with 0 => x | _ => y end = y) by by destruct code.
  rewrite Hz. by apply refusal_explained with (ps := ps).
Qed.
End Refusals.

(** ** Operations on tasks *)

(** The request of the cluster page for the tasks [zs]. *)
Definition task_request (op c text : string) : request :=
  post_sync "/task/taskOperationById" [("type", Str op); ("clusterId", Str c); ("taskId", Str text)].

Lemma ids_text zs : exists text, json (Arr (int <$> zs)) = Str text /\ plain text = true /\ text <> "".
Proof.
  eexists. unfold json. rewrite stringify_Arr. split; [reflexivity|]. split; [|done].
  assert (H : str_forall plain_char (str_join "," (List.map item_text (int <$> zs))) = true).
  { induction zs as [|z zs IH]; [done|]. destruct zs as [|z' zs]; [apply plain_string_of_Z|].
    cbn [fmap list_fmap List.map]. rewrite str_join_cons, !str_forall_app. cbn [fmap list_fmap List.map] in IH. rewrite IH.
    pose proof (plain_string_of_Z z) as Hz. unfold plain in Hz. change (item_text (int z)) with (string_of_Z z). by rewrite Hz. }
  unfold plain. by rewrite !str_forall_app, H.
Qed.

(** A page that is told of a refusal. *)
Lemma queryPut_refused off E w t zs op c text input msg data :
  w_tables w !! "#viewpresentlist" = Some t -> pluck "id" (selected_rows t) = int <$> zs -> zs <> [] ->
  value_of w "#selectTask" = Str op -> w_vars w !! "presentClusterTask.clusterId" = Some (Str c) ->
  json (Arr (int <$> zs)) = Str text ->
  (forall before, e_server E before (task_request op c text) = Success (response 1 msg data)) ->
  let w' := steps E (cluster_page off) w [Act AQueryPut; Confirm input] in
  w_tables w' = w_tables w /\
  w_out w' = w_out w ++ [Asked (warn "任务操作" "执行"); Sent (task_request op c text);
                         Answered (task_request op c text) (Success (response 1 msg data))].
Proof.
  intros Ht Hsel Hne Hop Hc Hj HE. cbn [steps fold_left step p_handler cluster_page ClusterInfo.handler].
  rewrite (queryPut_asks E w t (int <$> zs) (Str op)) by (done || by destruct zs).
  unfold press_confirm. cbn [w_dialog emit set_dialog so_close warn ask].
  unfold task, queryPut_send, ajax. cbn -[queryPut_done json response]. rewrite heap_last, Hc. cbn [default from_option].
  unfold id. rewrite Hj. fold (task_request op c text). rewrite HE. cbn. by rewrite <- !app_assoc.
Qed.

Section Tasks.
Context (num_error : string -> string -> string) (md5 : string -> string).
Context (order : list (string * string) -> list (string * string)).
Context (select_cluster : Z -> go_error + option ClusterInfo).
Context {net : Type} (http_get : string -> net -> net * option (Z * string)).
Context (m : master_server) (info : ClusterInfo) (ts now : Z).

(** Whatever operation is chosen, the master does not find its parameters. *)
Lemma task_refused (ps : param -> string) :
  (forall s, plain (md5 s) = true) -> (forall s, md5 s <> "") -> (forall l, order l ≡ₚ l) -> leads m = true ->
  (SecretKey m = "" \/ SecretKey m = ci_token info /\ ClusterID m = cluster_of (Range TaskOperation) ps) ->
  0 <= ts < 2 ^ 63 -> now <= (ts + 300) * 10 ^ 9 -> plain (ps (PostForm "taskId")) = true ->
  receive num_error md5 (ci_master info) m now
    (relay_url md5 order (TaskOperate (ps (PostForm "type")) (ps (PostForm "taskId"))) (cluster_of (Range TaskOperation) ps) info ts) =
  Refused HTTP_ERROR_PARAMETER_NOT_ENOUGH http_error_parameter_not_enough.
Proof.
  intros Hmd5 Hmd5' Horder Hleads Hkey Hts Hnow Hp.
  edestruct (receive_relay num_error md5 order Hmd5 Hmd5' Horder m info (cluster_of (Range TaskOperation) ps) ts now Hleads Hkey Hts Hnow)
    as (form & Hf & ->); [|reflexivity|].
  - split; [by repeat constructor|]. split; [|done]. apply (bool_decide_unpack _). vm_compute. exact I.
  - cbn [snd]. unfold handleDeleteTask, uint. rewrite !Hf. done.
Qed.

(** C17: an operation on tasks, from the button to the master and back.  On the cluster page
    the user selects tasks, chooses an operation (delete, retry or pause) and confirms; the
    console's server passes the request on under [/manage/task/delete] as [taskIds], while
    the master looks for [rangeId] and [taskId] and refuses it.  The page then shows no
    message at all, and the tasks stay in the table. *)
Theorem task_operations_lost off E w t zs op c service session input :
  (forall s, plain (md5 s) = true) -> (forall s, md5 s <> "") -> (forall l, order l ≡ₚ l) -> leads m = true ->
  (SecretKey m = "" \/ SecretKey m = ci_token info /\ ClusterID m = uint_or_zero c) ->
  0 <= ts < 2 ^ 63 -> now <= (ts + 300) * 10 ^ 9 ->
  (forall url n, answers (receive num_error md5 (ci_master info) m now url) (http_get url n).2) ->
  select_cluster (uint_or_zero c) = inr (Some info) ->
  (forall ps, exists n n', pass_on md5 select_cluster order http_get (Range TaskOperation) ps ts n =
                           Some (n', service (Range TaskOperation) ps)) ->
  (forall before, e_server E before = serve service session) ->
  w_tables w !! "#viewpresentlist" = Some t -> pluck "id" (selected_rows t) = int <$> zs -> zs <> [] ->
  value_of w "#selectTask" = Str op -> op <> "" ->
  w_vars w !! "presentClusterTask.clusterId" = Some (Str c) -> c <> "" ->
  let w' := steps E (cluster_page off) w [Act AQueryPut; Confirm input] in
  exists text, json (Arr (int <$> zs)) = Str text /\ w_tables w' = w_tables w /\
    w_out w' = w_out w ++ [Asked (warn "任务操作" "执行"); Sent (task_request op c text);
                           Answered (task_request op c text) (Success (response 1 http_error_parameter_not_enough (Str "")))].
Proof.
  intros Hmd5 Hmd5' Horder Hleads Hkey Hts Hnow Hnet Hsel Hserv HE Ht Hrows Hne Hop Hop' Hc Hc' w'.
  destruct (ids_text zs) as (text & Hj & Hplain & Htext). exists text. split; [done|].
  apply (queryPut_refused off E w t zs op c text input); try done. intros before. rewrite HE.
  set (ps := param_value session (task_request op c text)).
  assert (Hroute : find_route "post" "/task/taskOperationById" = Some (POST "/task/taskOperationById" (Range TaskOperation)))
    by reflexivity.
  assert (Hchecks : failing ps (checks (Range TaskOperation)) = None).
  { cbn. by destruct op, c, text. }
  unfold serve. cbn [r_type r_url task_request post_sync]. change (path_of _) with "/task/taskOperationById".
  rewrite Hroute. cbn [rt_action POST]. fold ps. unfold Execute. rewrite Hchecks. f_equal.
  destruct (Hserv ps) as (n & n' & Hpass).
  destruct (refusal_passed_on num_error md5 order select_cluster http_get m info ts now Hnet (Range TaskOperation) ps
    _ HTTP_ERROR_PARAMETER_NOT_ENOUGH http_error_parameter_not_enough n eq_refl Hsel) as (n'' & res & Hpass' & Hres);
    [by apply task_refused|done|done|].
  rewrite Hpass in Hpass'. injection Hpass' as _ ->. exact Hres.
Qed.
End Tasks.

(** C28: a refusal of the master, as the page hears of it.  When the master refuses the
    request that the console passed on, the page receives code 1, and the reason only for
    the operations on nodes, tasks, replicas, schedulers and topology and the deletion of a
    database; for the operations on ranges, for the creation of a database and for the
    deletion of a table it is replaced by the words "internal error". *)
Theorem refusals_told (num_error : string -> string -> string) (md5 : string -> string)
    (order : list (string * string) -> list (string * string)) (select_cluster : Z -> go_error + option ClusterInfo)
    (net : Type) (http_get : string -> net -> net * option (Z * string)) (m : master_server) (info : ClusterInfo)
    (ts now code : Z) (msg : string) (rl : relay) (rt : route) (r : request) (n n' : net)
    (service : api_action -> (param -> string) -> go_error + val) (session : string -> string) :
  let a := rt_action rt in
  let ps := param_value session r in
  (forall url n, answers (receive num_error md5 (ci_master info) m now url) (http_get url n).2) ->
  find_route (r_type r) (path_of (r_url r)) = Some rt -> failing ps (checks a) = None ->
  relay_of a ps = Some (inr rl) -> select_cluster (cluster_of a ps) = inr (Some info) ->
  receive num_error md5 (ci_master info) m now (relay_url md5 order rl (cluster_of a ps) info ts) = Refused code msg ->
  go_int code -> code <> 0 ->
  pass_on md5 select_cluster order http_get a ps ts n = Some (n', service a ps) ->
  serve service session r =
  Success (response 1 (if explained a then msg else "internal error") (Str "")).
Proof.
  intros a ps Hnet Hrt Hck Ha Hsel Hr Hint Hcode Hpass. unfold serve. rewrite Hrt. fold a ps. unfold Execute. rewrite Hck.
  destruct (refusal_passed_on num_error md5 order select_cluster http_get m info ts now Hnet a ps rl code msg n Ha Hsel Hr Hint Hcode)
    as (n'' & res & Hpass' & Hres).
  rewrite Hpass in Hpass'. injection Hpass' as _ ->. rewrite Hres. by relay_case a Ha.
Qed.

(** ** Examples *)

Definition at_once : Z := 1000 * 10 ^ 9.
Definition get_from_master (url : string) (n : unit) : unit * option (Z * string) :=
  (n, match receive no_text one_hash (ci_master its_cluster) the_master at_once url with
      | Refused code msg => Some (200, default "" (stringify (httpReply code msg Null)))
      | NotFound => Some (404, "")
      | Forwarded | Accepted _ => None
      end).

Lemma get_from_master_answers url n :
  answers (receive no_text one_hash (ci_master its_cluster) the_master at_once url) (get_from_master url n).2.
Proof.
  unfold get_from_master. destruct (receive _ _ _ _ _ _) as [| |code msg|c]; cbn [snd answers]; [by eexists|done| |done].
  eexists. split; [reflexivity|]. destruct (stringify_clean (httpReply code msg Null) eq_refl) as (text & Ht).
  rewrite Ht. by apply parse_stringify.
Qed.

Definition only_cluster (_ : Z) : go_error + option ClusterInfo := inr (Some its_cluster).
Definition console_service (a : api_action) (ps : param -> string) : go_error + val :=
  match pass_on one_hash only_cluster as_given get_from_master a ps 1000 tt with
  | Some (_, res) => res
  | None => inl (Other "")
  end.
Definition console_env : env := served (serve console_service (fun _ => "")).
Definition tasks_world : world :=
  World (list_to_map [(("#selectTask", "value"), Str "retry")]) (list_to_map [("presentClusterTask.clusterId", Str "1")]) []
    (list_to_map [("#viewpresentlist", Table "操作" task_rows)]) None [] [].

Lemma task_operations_lost_witness :
  let w' := steps console_env (cluster_page 0) tasks_world [Act AQueryPut; Confirm ""] in
  exists text, json (Arr (int <$> [1; 2])) = Str text /\ w_tables w' = w_tables tasks_world /\
    w_out w' = [] ++ [Asked (warn "任务操作" "执行"); Sent (task_request "retry" "1" text);
      Answered (task_request "retry" "1" text) (Success (response 1 http_error_parameter_not_enough (Str "")))].
Proof.
  apply (task_operations_lost no_text one_hash as_given only_cluster get_from_master the_master its_cluster 1000 at_once
    0 console_env tasks_world (Table "操作" task_rows) [1; 2] "retry" "1" console_service (fun _ => "") "");
    try done; try lia; try (by right); try exact get_from_master_answers.
  intros ps. exists tt, tt. unfold console_service, pass_on. cbn [relay_of]. by destruct (send _ _ _ _ _ _ _ _) as [[] ?].
Defined.

(** Range -1 is to be deleted. *)
Definition delete_request : request :=
  post "/range/delete" [("clusterId", Str "1"); ("rangeId", Str "-1")].

Lemma refusals_told_witness :
  serve console_service (fun _ => "") delete_request = Success (response 1 "internal error" (Str "")).
Proof.
  apply (refusals_told no_text one_hash as_given only_cluster unit get_from_master the_master its_cluster 1000 at_once
    HTTP_ERROR "range is not int" (DeleteRange (-1)) (POST "/range/delete" (Range RangeDelete)) delete_request tt tt);
    [exact get_from_master_answers|reflexivity|reflexivity|reflexivity|reflexivity|vm_compute; reflexivity|done|done|
     vm_compute; reflexivity].
Defined.
