(* ===== verification/Accounts.v ===== *)
(** * Roles, privileges and metric servers, from the page to the database

    The part of console/service/service.go behind the pages of the roles, of the
    privileges and of the servers that take metrics, with the actions of
    console/controllers/user_controller.go and metric_controller.go that call it.  The
    database is an interface with laws; the methods are those of Applications.v.  The
    pages are composed with the service: what becomes of the rows that an administrator
    deletes, and what their tables show of the lists. *)

From S2P Require Import Prelude JsValue Json Browser Logic Contracts Widgets Batch Users Metrics BootstrapTable TableRefinement TablePages.
From S2P Require Import Urls Backend Applications Workflow Relay Manage Approvals.

(** ** The database *)

(** A row as the driver reads it: the columns of numbers are signed. *)
Definition privilege_columns_of : Type := string * Z * Z.
Definition role_columns_of : Type := Z * string.

(** The statements of the service.  A statement that succeeds reports the rows it
    touched. *)
Class AccountsDb (db : Type) := {
  privileges : db -> gmap (string * Z) Z;
  roles : db -> gmap Z string;
  metric_servers : db -> gset string;
  ordered_privileges : string -> db -> list privilege_columns_of;
  ordered_roles : string -> db -> list role_columns_of;
  SELECT_privileges : string -> Z -> Z -> db -> go_error + list privilege_columns_of;
  INSERT_privilege : string -> Z -> Z -> db -> db * (go_error + Z);
  DELETE_privilege : string -> Z -> db -> db * (go_error + Z);
  SELECT_roles : string -> Z -> Z -> db -> go_error + list role_columns_of;
  INSERT_role : Z -> string -> db -> db * (go_error + Z);
  DELETE_role : Z -> db -> db * (go_error + Z);
  SELECT_metric_servers : db -> go_error + list string;
  INSERT_metric_server : string -> db -> db * (go_error + Z);
  DELETE_metric_server : string -> db -> db * (go_error + Z)
}.

(** The texts go into the statements between double quotes, as they are. *)
Definition quotable (s : string) : Prop := has_char dquote s = false /\ has_char backslash s = false.

(** The contents of the three tables. *)
Definition contents : Type := gmap (string * Z) Z * gmap Z string * gset string.
Definition account_tables {db : Type} `{!AccountsDb db} (d : db) : contents := (privileges d, roles d, metric_servers d).

(** What the service relies on.  A statement that fails changes nothing; an INSERT with
    the key of a row replaces the row; a DELETE by key touches the row if it is there;
    a list is ordered, and its page cut out of it. *)
Class AccountsLaws (db : Type) `{!AccountsDb db} : Prop := {
  ordered_privileges_law order d : Permutation (ordered_privileges order d) (map_to_list (privileges d));
  ordered_roles_law order d : Permutation (ordered_roles order d) (map_to_list (roles d));
  select_privileges_law order offset limit d l : SELECT_privileges order offset limit d = inr l ->
    l = limited (Some (offset, limit)) (ordered_privileges order d);
  select_roles_law order offset limit d l : SELECT_roles order offset limit d = inr l ->
    l = limited (Some (offset, limit)) (ordered_roles order d);
  insert_privilege_law u c p d : quotable u ->
    match INSERT_privilege u c p d with
    | (d', inl _) => account_tables d' = account_tables d
    | (d', inr _) => account_tables d' = (<[(u, c) := p]> (privileges d), roles d, metric_servers d)
    end;
  delete_privilege_law u c d : quotable u ->
    match DELETE_privilege u c d with
    | (d', inl _) => account_tables d' = account_tables d
    | (d', inr n) => account_tables d' = (delete (u, c) (privileges d), roles d, metric_servers d) /\
        n = if decide (is_Some (privileges d !! (u, c))) then 1 else 0
    end;
  delete_role_law r d :
    match DELETE_role r d with
    | (d', inl _) => account_tables d' = account_tables d
    | (d', inr n) => account_tables d' = (privileges d, delete r (roles d), metric_servers d) /\
        n = if decide (is_Some (roles d !! r)) then 1 else 0
    end;
  delete_metric_server_law addr d : quotable addr ->
    match DELETE_metric_server addr d with
    | (d', inl _) => account_tables d' = account_tables d
    | (d', inr n) => account_tables d' = (privileges d, roles d, metric_servers d ∖ {[addr]}) /\
        n = if decide (addr ∈ metric_servers d) then 1 else 0
    end
}.

(** ** The service *)

Section Accounts.
Context {db : Type} `{!AccountsDb db}.

(** These methods ask no master. *)
Local Abbreviation method := (Applications.method (db := db) (ms := unit)).
Local Abbreviation state := (Applications.state (db := db) (ms := unit)).

(** [if err != nil { return common.DB_ERROR }] *)
Definition or_db_error {A : Type} (m : method A) : method A :=
  try_bind m (fun r => match r with inl _ => err (Fbase DB_ERROR) | inr a => ok a end).

(** [make([]*T, offset, limit)]: [offset] nil pointers; a length that is negative or
    above the capacity panics, and so does a capacity beyond the address space (2^48
    bytes, for pointers of 8). *)
Definition make (offset limit : Z) : method (list val) :=
  if (offset <? 0) || (limit <? offset) || (2 ^ 45 <? limit) then panic else ok (replicate (Z.to_nat offset) Null).

(** [rows.Scan] of a column of numbers into a uint64. *)
Definition scans (z : Z) : bool := (0 <=? z) && (z <? 2 ^ 64).

Definition privilege_json (r : privilege_columns_of) : val :=
  Obj [("user_name", Str r.1.1); ("cluster_id", int r.1.2); ("privilege", int r.2)].
Definition role_json (r : role_columns_of) : val := Obj [("role_id", int r.1); ("role_name", Str r.2)].

(** The loop over [rows.Next]. *)
Definition scan_all {A : Type} (scan : A -> bool) (json : A -> val) (rows : list A) : method (list val) :=
  if forallb scan rows then ok (List.map json rows) else err (Fbase DB_ERROR).

(** The list from [offset] on, at most [limit] rows of it. *)
Definition list_page {A : Type} (select : string -> Z -> Z -> db -> go_error + list A) (scan : A -> bool) (json : A -> val)
    (offset limit : Z) (order : string) : method (list val) :=
  then_ (make offset limit) (fun result =>
  then_ (or_db_error (query (select order offset limit))) (fun rows =>
  then_ (scan_all scan json rows) (fun infos =>
  ok (result ++ infos)))).

Definition GetPrivilegeInfo : Z -> Z -> string -> method (list val) :=
  list_page SELECT_privileges (fun r => scans r.1.2 && scans r.2) privilege_json.

(** An INSERT of one row. *)
Definition insert_one (f : db -> db * (go_error + Z)) : method unit :=
  then_ (or_db_error (statement f)) (fun rowsAffected =>
    if Z.eqb rowsAffected 1 then ok tt else err (Fbase CLUSTER_DUPCREATE_ERROR)).

Definition UpdatePrivilege (userName : string) (clusterId roleId : Z) : method unit :=
  insert_one (INSERT_privilege userName clusterId roleId).

(** One DELETE for each key; [wrong] is the test of the rows it touched. *)
Fixpoint delete_each {K : Type} (f : K -> db -> db * (go_error + Z)) (wrong : Z -> bool) (keys : list K) : method unit :=
  match keys with
  | [] => ok tt
  | k :: keys' =>
      then_ (or_db_error (statement (f k))) (fun rowsAffected =>
        if wrong rowsAffected then err (Fbase CLUSTER_DUPCREATE_ERROR) else delete_each f wrong keys')
  end.

Definition DelPrivilege (privileges : list (string * Z)) : method unit :=
  delete_each (fun p => DELETE_privilege p.1 p.2) (fun n => n >? 1) privileges.

Definition GetRoleInfo : Z -> Z -> string -> method (list val) :=
  list_page SELECT_roles (fun r => scans r.1) role_json.

Definition AddRole (roleId : Z) (roleName : string) : method unit := insert_one (INSERT_role roleId roleName).
Definition DelRole (roleIds : list Z) : method unit := delete_each DELETE_role (fun n => n >? 1) roleIds.

(** No server at all is a nil slice. *)
Definition GetAllMetricServer : method val :=
  then_ (or_db_error (query SELECT_metric_servers)) (fun rows =>
  ok (match rows with [] => Null | _ => Arr (List.map (fun addr => Obj [("addr", Str addr)]) rows) end)).
Definition CreateMetricServer (addr : string) : method unit := insert_one (INSERT_metric_server addr).
Definition DeleteMetricServer (addrs : list string) : method unit :=
  delete_each DELETE_metric_server (fun n => negb (Z.eqb n 1)) addrs.

(** ** Actions *)

(** The limits of a list; a parameter that is not given is 0. *)
Definition limit_of (ps : param -> string) (k : string) : Z :=
  if String.eqb (ps (Backend.Query k)) "" then 0 else int_of ps (Backend.Query k).

(** The keys that the checks of the action have let through. *)
Definition privileges_of (ps : param -> string) : list (string * Z) :=
  match unmarshal_text (GSlice UserPrivilege) (ps (PostForm "privileges")) with
  | Some (Arr l) =>
      omap (fun v => match field v "user_name", field v "cluster_id" with Str u, Num (Fin c) => Some (u, c) | _, _ => None end) l
  | _ => []
  end.
Definition ints_of (ps : param -> string) (p : param) : list Z :=
  match unmarshal_text (GSlice GInt) (ps p) with
  | Some (Arr l) => omap (fun v => match v with Num (Fin z) => Some z | _ => None end) l
  | _ => []
  end.

(** What the actions do after their checks. *)
Definition accounts (a : api_action) (ps : param -> string) : option (method val) :=
  match a with
  | Backend.User PrivilegeInfoAction =>
      Some (then_ (GetPrivilegeInfo (limit_of ps "offset") (limit_of ps "limit") (ps (Backend.Query "order")))
              (fun l => ok (Arr l)))
  | Backend.User PrivilegeUpdateAction =>
      Some (nil_answer (UpdatePrivilege (ps (PostForm "userName")) (int_of ps (PostForm "clusterId")) (int_of ps (PostForm "roleId"))))
  | Backend.User PrivilegeDelAction => Some (nil_answer (DelPrivilege (privileges_of ps)))
  | Backend.User RoleAddAction => Some (nil_answer (AddRole (int_of ps (PostForm "roleId")) (ps (PostForm "roleName"))))
  | Backend.User RoleDelAction => Some (nil_answer (DelRole (ints_of ps (PostForm "roleIds"))))
  | Backend.User RoleInfoAction =>
      Some (then_ (GetRoleInfo (limit_of ps "offset") (limit_of ps "limit") (ps (Backend.Query "order"))) (fun l => ok (Arr l)))
  | Metric GetMetricServerAction => Some GetAllMetricServer
  | Metric AddMetricServerAction => Some (nil_answer (CreateMetricServer (ps (PostForm "addr"))))
  | Metric DelMetricServerAction => Some (nil_answer (DeleteMetricServer (strings_of ps (PostForm "addrs"))))
  | _ => None
  end.

Definition account_respond (session : string -> string) (r : request) (s : state) : option (state * ajax_result) :=
  respond_with accounts session r s.

End Accounts.

(** ** Requests of the pages *)

(** The answer to an action that has passed its checks. *)
Definition answer_of (o : go_outcome val) : ajax_result :=
  match o with
  | GOk v => Success (handleAction (inr v))
  | GErr e => Success (handleAction (inl e))
  | GPanic => Failure (Obj [("status", int 500)]) (Str "error")
  end.

(** What a table without a search sends for its query [q]: [jQuery.param] of its search,
    its order and its limits. *)
Definition limits_url (url : string) (limit offset : Z) : string :=
  url +:+ "?" +:+ build_query
    [("search", ""); ("sort", ""); ("order", "asc"); ("limit", string_of_Z limit); ("offset", string_of_Z offset)].
Definition list_request (url : string) (q : BootstrapTable.query) : request :=
  match q with
  | BootstrapTable.Query _ (Num (Fin limit)) (Num (Fin offset)) => http_get (limits_url url limit offset)
  | _ => http_get url
  end.

(** The rows that the table finds in an answer. *)
Definition answer_rows (d : val) : option (list val) :=
  match field d "data" with Arr l => Some l | _ => None end.

(** A button that deletes the selected rows: its page and table, the key that it sends
    of a row, and the statement behind it.  A statement that touched a [wrong] number of
    rows ends the deletion. *)
Record delete_button (db : Type) := DeleteButton
  { d_page : page; d_action : p_action d_page; d_table : string; d_title : string; d_path : string; d_param : string;
    d_grants : val -> bool; d_shown : list output;
    d_key : Type; d_of_row : val -> val; d_json : d_key -> val; d_valid : d_key -> Prop;
    d_statement : d_key -> db -> db * (go_error + Z); d_wrong : Z -> bool; d_remove : d_key -> contents -> contents }.
Arguments DeleteButton {db}.
Arguments d_page {db}. Arguments d_action {db}. Arguments d_table {db}. Arguments d_title {db}. Arguments d_path {db}.
Arguments d_param {db}. Arguments d_grants {db}. Arguments d_shown {db}. Arguments d_key {db}. Arguments d_of_row {db}.
Arguments d_json {db}. Arguments d_valid {db}. Arguments d_statement {db}. Arguments d_wrong {db}. Arguments d_remove {db}.

Definition privilege_key_json (k : string * Z) : val := Obj [("user_name", Str k.1); ("cluster_id", int k.2)].

Definition privilege_button {db : Type} `{!AccountsDb db} : delete_button db :=
  DeleteButton privilege_page ADelPrivileges table_id "删除用户" "/userInfo/delPrivileges" "privileges"
    (fun c => strict_eq c (int 0)) [told_deleted; Refreshed table_id privilege_url]
    (string * Z) privilege_key privilege_key_json (fun k => quotable k.1 /\ 0 <= k.2 < 2 ^ 64)
    (fun k => DELETE_privilege k.1 k.2) (fun n => n >? 1) (fun k t => (delete k t.1.1, t.1.2, t.2)).
Definition role_button {db : Type} `{!AccountsDb db} : delete_button db :=
  DeleteButton role_page ADelRoles table_id "删除角色" "/userInfo/delRole" "roleIds"
    (fun c => loose_eq c (int 0)) [told_deleted; Refreshed table_id role_url]
    Z (fun r => field r "role_id") int (fun k => 0 <= k < 2 ^ 63)
    DELETE_role (fun n => n >? 1) (fun k t => (t.1.1, delete k t.1.2, t.2)).
Definition server_button {db : Type} `{!AccountsDb db} : delete_button db :=
  DeleteButton server_page ADelServers metric_table "删除监控服务实例" "/metric/server/del" "addrs"
    (fun c => strict_eq c (int 0)) [told_deleted; Reloaded]
    string (fun r => field r "addr") Str quotable
    DELETE_metric_server (fun n => negb (Z.eqb n 1)) (fun k t => (t.1.1, t.1.2, t.2 ∖ {[k]})).
Definition delete_buttons {db : Type} `{!AccountsDb db} : list (delete_button db) :=
  [privilege_button; role_button; server_button].

Definition delete_request {db : Type} (b : delete_button db) (text : val) : request :=
  post_sync (d_path b) [(d_param b, text)].

(** The two lists that are paged, their rows as the answers have them, and a state in
    which the database reads them. *)
Inductive listing : Type := Privileges | Roles.
Definition list_url (l : listing) : string := match l with Privileges => privilege_url | Roles => role_url end.
Definition listed {db : Type} `{!AccountsDb db} (l : listing) (d : db) : list val :=
  match l with
  | Privileges => privilege_json <$> ordered_privileges "asc" d
  | Roles => role_json <$> ordered_roles "asc" d
  end.
Definition list_read {db : Type} `{!AccountsDb db} (l : listing) (d : db) : Prop :=
  match l with
  | Privileges =>
      (forall offset limit, exists rows, SELECT_privileges "asc" offset limit d = inr rows) /\
      Forall (fun r => scans r.1.2 && scans r.2 = true) (ordered_privileges "asc" d)
  | Roles =>
      (forall offset limit, exists rows, SELECT_roles "asc" offset limit d = inr rows) /\
      Forall (fun r => scans r.1 = true) (ordered_roles "asc" d)
  end.

(** The answer to a request for page [n] of [size] rows. *)
Definition page_answer (rows : list val) (size n : Z) : ajax_result :=
  let m := Z.to_nat size in
  if n =? 1 then Success (handleAction (inr (Arr (take m rows))))
  else if n =? 2 then Success (handleAction (inr (Arr (replicate m Null ++ take m (drop m rows)))))
  else Failure (Obj [("status", int 500)]) (Str "error").

(** Everything that a table that cuts its pages itself does on its own. *)
Definition no_refresh (ev : bt_event) : Prop := match ev with ERefresh _ => False | _ => True end.

Section Theorems.
Context {db : Type} `{!AccountsDb db}.
Local Abbreviation method := (Applications.method (db := db) (ms := unit)).
Local Abbreviation state := (Applications.state (db := db) (ms := unit)).

Lemma account_responds session r (s : state) rt m :
  find_route (r_type r) (path_of (r_url r)) = Some rt -> accounts (rt_action rt) (param_value session r) = Some m ->
  failing (param_value session r) (checks (rt_action rt)) = None ->
  account_respond session r s = Some ((m s).1, answer_of (m s).2).
Proof.
  intros Hrt Hm Hf. unfold account_respond, respond_with. rewrite Hrt. cbn [mbind option_bind]. rewrite Hm.
  cbn [mbind option_bind]. rewrite Hf. by destruct (m s) as [s' []].
Qed.

(** *** Deletions *)

(** The loop deletes the keys in order, up to the first that fails. *)
Lemma delete_each_gone {K : Type} (f : K -> db -> db * (go_error + Z)) (wrong : Z -> bool) (rm : K -> contents -> contents) (P : K -> Prop) keys (s : state) :
  (forall k d, P k ->
     match f k d with
     | (d', inl _) => account_tables d' = account_tables d
     | (d', inr n) => account_tables d' = if wrong n then account_tables d else rm k (account_tables d)
     end) ->
  Forall P keys ->
  exists gone, gone `prefix_of` keys /\
    account_tables (st_db (delete_each f wrong keys s).1) = fold_left (fun t k => rm k t) gone (account_tables (st_db s)) /\
    ((delete_each f wrong keys s).2 = GOk tt /\ gone = keys \/
     (exists e, (delete_each f wrong keys s).2 = GErr (Fbase e) /\ fe_code e <> 0) /\ gone <> keys).
Proof.
  intros Hf Hall. revert s. induction Hall as [|k keys Hk _ IH]; intros s; [by exists []; split_ands; [|..|left]|].
  cbn [delete_each]. rewrite then_spec. unfold or_db_error, try_bind, statement.
  specialize (Hf k (st_db s) Hk). destruct (f k (st_db s)) as [d [e|n]]; cbn.
  - exists []. split_ands; [apply prefix_nil|done|]. right. split; [by exists DB_ERROR|done].
  - destruct (wrong n); cbn.
    + exists []. split_ands; [apply prefix_nil|done|]. right. split; [by exists CLUSTER_DUPCREATE_ERROR|done].
    + destruct (IH (State d (st_ms s))) as (gone & Hpre & Ht & Ho). cbn in Ht. rewrite Hf in Ht.
      exists (k :: gone). split_ands; [by apply prefix_cons|done|].
      destruct Ho as [[Ho ->]|[Ho Hne]]; [by left|right; split; [done|congruence]].
Qed.

(** A deletion of a page whose request the service answers: told if and only if it is
    complete. *)
Lemma deletion_served E pg w (a : p_action pg) input title mk sent grants shown session (s : state)
    {K : Type} (keys : list K) (m : method unit) (rm : K -> contents -> contents) gone :
  deletion E pg w a input title mk sent grants shown ->
  (forall log r s' res, account_respond session r s = Some (s', res) -> e_server E log r = res) ->
  (forall text, parse text = Some (Arr sent) ->
     account_respond session (mk (Str text)) s = Some ((m s).1, answer_of (nil_answer m s).2)) ->
  (forall c, grants (int c) = (c =? 0)) ->
  account_tables (st_db (m s).1) = fold_left (fun t (k : K) => rm k t) gone (account_tables (st_db s)) ->
  ((m s).2 = GOk tt /\ gone = keys \/ (exists e, (m s).2 = GErr (Fbase e) /\ fe_code e <> 0) /\ gone <> keys) ->
  exists r s' res, account_respond session r s = Some (s', res) /\
    account_tables (st_db s') = fold_left (fun t k => rm k t) gone (account_tables (st_db s)) /\
    (gone = keys /\ news E pg (step E pg w (Act a)) (Confirm input) = Sent r :: Answered r res :: shown \/
     gone <> keys /\ news E pg (step E pg w (Act a)) (Confirm input) = [Sent r; Answered r res]).
Proof.
  intros (_ & text & Hp & Hnews) HE Hr Hg Ht Ho. specialize (Hr text Hp).
  exists (mk (Str text)), (m s).1, (answer_of (nil_answer m s).2). split; [exact Hr|]. split; [exact Ht|].
  rewrite Hnews, (HE _ _ _ _ Hr). unfold nil_answer. rewrite then_spec. destruct (m s) as [s' o]. cbn [snd] in Ho.
  destruct Ho as [[-> ->]|[(e & -> & Hne) Hgone]]; cbn; rewrite Hg.
  - by left.
  - right. rewrite (proj2 (Z.eqb_neq _ _) Hne). done.
Qed.

(** The keys of a request, as the action reads them. *)
Lemma unmarshal_keys {K : Type} T (enc enc' : K -> val) (P : K -> Prop) text keys :
  (forall k, P k -> unmarshal T (enc k) = Some (enc' k)) -> Forall P keys -> parse text = Some (Arr (enc <$> keys)) ->
  unmarshal_text (GSlice T) text = Some (Arr (enc' <$> keys)).
Proof.
  intros Henc Hall Hp. unfold unmarshal_text. rewrite Hp. cbn [mbind option_bind unmarshal].
  assert (mapM (unmarshal T) (enc <$> keys) = Some (enc' <$> keys)) as ->; [|done].
  clear Hp. induction Hall as [|k keys Hk _ IH]; [done|]. cbn [fmap list_fmap mapM]. by rewrite Henc, IH.
Qed.

Lemma omap_keys {K A : Type} (enc : K -> A) (dec : A -> option K) (keys : list K) :
  (forall k, dec (enc k) = Some k) -> omap dec (enc <$> keys) = keys.
Proof. intros Hd. induction keys as [|k keys IH]; [done|]. cbn. by rewrite Hd, IH. Qed.

Lemma keys_pass ps p T e text v :
  ps p = text -> unmarshal_text T text = Some v -> failing ps [given [p]; Unmarshal p T e] = None.
Proof.
  intros <- Hu. cbn [failing passes given forallb]. rewrite bool_decide_eq_true_2 by (by eexists).
  by destruct (String.eqb_spec (ps p) "") as [He|_]; [rewrite He in Hu|].
Qed.

Lemma privilege_keys_read ps text keys :
  ps (PostForm "privileges") = text -> Forall (d_valid privilege_button) keys ->
  parse text = Some (Arr (privilege_key_json <$> keys)) ->
  failing ps (user_checks PrivilegeDelAction) = None /\ privileges_of ps = keys.
Proof.
  intros Hps Hall Hp.
  set (read := fun k : string * Z => Obj [("user_name", Str k.1); ("cluster_id", int k.2); ("privilege", int 0)]).
  assert (unmarshal_text (GSlice UserPrivilege) text = Some (Arr (read <$> keys))) as Hu.
  { apply (unmarshal_keys UserPrivilege privilege_key_json read (d_valid privilege_button)); [|done|done].
    intros [u c] [_ Hc]. cbn in Hc. cbv -[Z.leb Z.ltb Z.pow]. rewrite (proj2 (Z.leb_le 0 c)), (proj2 (Z.ltb_lt c _)) by lia. done. }
  split; [by eapply keys_pass|]. unfold privileges_of. rewrite Hps, Hu. by apply omap_keys; intros [].
Qed.

Lemma role_keys_read ps text keys :
  ps (PostForm "roleIds") = text -> Forall (d_valid role_button) keys -> parse text = Some (Arr (int <$> keys)) ->
  failing ps (user_checks RoleDelAction) = None /\ ints_of ps (PostForm "roleIds") = keys.
Proof.
  intros Hps Hall Hp.
  assert (unmarshal_text (GSlice GInt) text = Some (Arr (int <$> keys))) as Hu.
  { apply (unmarshal_keys GInt int int (d_valid role_button)); [|done|done]. intros k Hk. cbn -[Z.leb Z.ltb Z.pow] in Hk |- *.
    rewrite (proj2 (Z.leb_le _ k)), (proj2 (Z.ltb_lt k _)) by lia. done. }
  split; [by eapply keys_pass|]. unfold ints_of. rewrite Hps, Hu. by apply omap_keys.
Qed.

(** The service runs the deletion of exactly these keys. *)
Lemma delete_responds (b : delete_button db) session text keys (s : state) :
  b ∈ delete_buttons -> Forall (d_valid b) keys -> parse text = Some (Arr (d_json b <$> keys)) ->
  account_respond session (delete_request b (Str text)) s =
    Some ((delete_each (d_statement b) (d_wrong b) keys s).1,
          answer_of (nil_answer (delete_each (d_statement b) (d_wrong b) keys) s).2).
Proof.
  intros Hb Hall Hp. unfold delete_buttons in Hb. rewrite !elem_of_cons, elem_of_nil in Hb.
  set (ps := param_value session (delete_request b (Str text))).
  assert (forall m, (nil_answer m s).1 = (m s).1) as Hfst.
  { intros m. unfold nil_answer. rewrite then_spec. by destruct (m s) as [? []]. }
  rewrite <- Hfst. destruct Hb as [->|[->|[->|[]]]].
  - destruct (privilege_keys_read ps text keys) as [Hf Hk]; [done..|]. fold ps.
    eapply account_responds; [vm_compute; reflexivity| |exact Hf]. cbn [accounts rt_action]. fold ps. by rewrite Hk.
  - destruct (role_keys_read ps text keys) as [Hf Hk]; [done..|].
    eapply account_responds; [vm_compute; reflexivity| |exact Hf]. cbn [accounts rt_action]. fold ps. by rewrite Hk.
  - destruct (ids_read ps (PostForm "addrs") text keys) as (Hne & [v Hv] & Hk); [done..|].
    eapply account_responds; [vm_compute; reflexivity| |by eapply keys_pass]. cbn [accounts rt_action]. fold ps. by rewrite Hk.
Qed.

(** The page asks, and sends the keys of the selected rows. *)
Lemma button_deletion (b : delete_button db) E w t input keys :
  b ∈ delete_buttons -> w_tables w !! d_table b = Some t -> d_of_row b <$> selected_rows t = d_json b <$> keys -> keys <> [] ->
  deletion E (d_page b) w (d_action b) input (d_title b) (delete_request b) (d_json b <$> keys) (d_grants b) (d_shown b).
Proof.
  intros Hb Ht Hk Hne. unfold delete_buttons in Hb. rewrite !elem_of_cons, elem_of_nil in Hb.
  destruct Hb as [->|[->|[->|[]]]]; rewrite <- Hk; cbn in Ht, Hk, keys |- *.
  - apply privilege_deletion; [done|]. change (List.map ?f ?l) with (f <$> l). rewrite Hk. clear. by induction keys.
  - apply role_deletion; [done|]. unfold pluck. change (List.map ?f ?l) with (f <$> l). rewrite Hk. clear. by induction keys.
  - eapply (deletion_news _ server_page); [reflexivity|done| | |done|].
    + cbv beta. destruct (selected_rows t) as [|r l]; [by destruct keys|reflexivity].
    + rewrite Hk. clear. by induction keys.
    + unfold delMetricServer_done. reacts.
Qed.

Context `{!AccountsLaws db}.

Lemma button_law (b : delete_button db) k d :
  b ∈ delete_buttons -> d_valid b k ->
  match d_statement b k d with
  | (d', inl _) => account_tables d' = account_tables d
  | (d', inr n) => account_tables d' = if d_wrong b n then account_tables d else d_remove b k (account_tables d)
  end.
Proof.
  intros Hb Hk. unfold delete_buttons in Hb. rewrite !elem_of_cons, elem_of_nil in Hb.
  destruct Hb as [->|[->|[->|[]]]]; cbn in k, Hk |- *.
  - destruct k as [u c], Hk as [Hq _]. cbn in Hq |- *. pose proof (delete_privilege_law u c d Hq) as H.
    destruct (DELETE_privilege u c d) as [d' [e|n]]; [done|]. destruct H as [-> ->]. by destruct (decide _).
  - pose proof (delete_role_law k d) as H. destruct (DELETE_role k d) as [d' [e|n]]; [done|].
    destruct H as [-> ->]. by destruct (decide _).
  - pose proof (delete_metric_server_law k d Hk) as Hd. destruct (DELETE_metric_server k d) as [d' [e|n]]; [done|].
    destruct Hd as [-> ->]. destruct (decide _); [done|]. unfold account_tables. cbn. f_equal. set_solver.
Qed.

Lemma button_grants (b : delete_button db) c : b ∈ delete_buttons -> d_grants b (int c) = (c =? 0).
Proof.
  intros Hb. unfold delete_buttons in Hb. rewrite !elem_of_cons, elem_of_nil in Hb.
  by destruct Hb as [->|[->|[->|[]]]].
Qed.

(** What the pages are answered while the database is in the state [s]. *)
Definition served_by (session : string -> string) (s : state) (E : env) : Prop :=
  forall log r s' res, account_respond session r s = Some (s', res) -> e_server E log r = res.

(** C13: a deletion of privileges, roles or metric servers, from the button to the
    database.  The operator selects rows and confirms.  Exactly one request is sent.  Its
    keys are deleted in the order of the rows, up to the first statement that fails: those
    and no other rows of any table are gone.  The page announces the deletion, and loads
    its list again, exactly if all keys have been deleted; of a deletion that stopped on
    the way it shows nothing, and the rows that are gone stay on the screen. *)
Theorem deletions_end_to_end (b : delete_button db) (E : env) (w : world) (t : table) (input : string) (keys : list (d_key b))
    (session : string -> string) (s : state) :
  b ∈ delete_buttons -> w_tables w !! d_table b = Some t -> d_of_row b <$> selected_rows t = d_json b <$> keys -> keys <> [] ->
  Forall (d_valid b) keys -> served_by session s E ->
  news E (d_page b) w (Act (d_action b)) = [Asked (warn (d_title b) "执行")] /\
  exists r s' res gone,
    account_respond session r s = Some (s', res) /\ gone `prefix_of` keys /\
    account_tables (st_db s') = fold_left (fun t k => d_remove b k t) gone (account_tables (st_db s)) /\
    news E (d_page b) (step E (d_page b) w (Act (d_action b))) (Confirm input) =
      Sent r :: Answered r res :: (if decide (length gone = length keys) then d_shown b else []).
Proof.
  intros Hb Ht Hk Hne Hall HE. pose proof (button_deletion b E w t input keys Hb Ht Hk Hne) as Hdel.
  split; [apply Hdel|].
  destruct (delete_each_gone (d_statement b) (d_wrong b) (d_remove b) (d_valid b) keys s) as (gone & Hpre & Hc & Ho);
    [intros k d Hv; by apply button_law|done|].
  destruct (deletion_served E (d_page b) w (d_action b) input (d_title b) (delete_request b) _ _ _ session s keys
    (delete_each (d_statement b) (d_wrong b) keys) (d_remove b) gone Hdel HE) as (r & s' & res & Hr & Ht' & Hn);
    [intros text Hp; by apply delete_responds|intros c; by apply button_grants|done|done|].
  exists r, s', res, gone. split_ands; try done.
  destruct Hn as [[-> ->]|[Hg ->]]; [by rewrite decide_True|]. rewrite decide_False; [done|].
  intros Hl. apply Hg. destruct Hpre as [more ->]. rewrite length_app in Hl. destruct more; [by rewrite app_nil_r|cbn in Hl; lia].
Qed.

(** *** Saving a privilege *)

Lemma insert_one_spec f (s : state) (new : contents) :
  match f (st_db s) with (d', inl _) => account_tables d' = account_tables (st_db s) | (d', inr _) => account_tables d' = new end ->
  (insert_one f s).2 = GOk tt /\ account_tables (st_db (insert_one f s).1) = new \/
  (exists e, (insert_one f s).2 = GErr (Fbase e) /\ fe_code e <> 0) /\
    (account_tables (st_db (insert_one f s).1) = account_tables (st_db s) \/ account_tables (st_db (insert_one f s).1) = new).
Proof.
  intros Hf. unfold insert_one. rewrite then_spec. unfold or_db_error, try_bind, statement.
  destruct (f (st_db s)) as [d [e|n]]; cbn.
  - right. split; [by exists DB_ERROR|by left].
  - destruct (Z.eqb n 1); [by left|]. right. split; [by exists CLUSTER_DUPCREATE_ERROR|by right].
Qed.

Definition save_request (u : string) (c p : Z) : request :=
  post_sync "/userInfo/updatePrivilege" [("userName", Str u); ("roleId", Str (string_of_Z p)); ("clusterId", Str (string_of_Z c))].

Lemma save_responds session u c p (s : state) :
  u <> "" -> - 2 ^ 63 <= c < 2 ^ 63 -> - 2 ^ 63 <= p < 2 ^ 63 ->
  account_respond session (save_request u c p) s =
    Some ((UpdatePrivilege u c p s).1, answer_of (nil_answer (UpdatePrivilege u c p) s).2).
Proof.
  intros Hu Hc Hp. set (r := save_request u c p). set (ps := param_value session r).
  assert ((nil_answer (UpdatePrivilege u c p) s).1 = (UpdatePrivilege u c p s).1) as <-.
  { unfold nil_answer. rewrite then_spec. by destruct (UpdatePrivilege u c p s) as [? []]. }
  apply (account_responds session r s (POST "/userInfo/updatePrivilege" (Backend.User PrivilegeUpdateAction))); [done| |].
  - cbn [accounts rt_action POST]. unfold int_of.
    change (param_value session r (PostForm "clusterId")) with (string_of_Z c).
    change (param_value session r (PostForm "roleId")) with (string_of_Z p). by rewrite !atoi_print.
  - fold ps. cbn [rt_action POST checks user_checks failing passes number forallb].
    change (ps (PostForm "userName")) with u. change (ps (PostForm "roleId")) with (string_of_Z p).
    change (ps (PostForm "clusterId")) with (string_of_Z c). rewrite !atoi_print by done.
    by rewrite (proj2 (String.eqb_neq u "")) by done.
Qed.

Lemma saveUserPrivilege_news E w u c p :
  value_of w "#erp" = Str u -> value_of w "#clusterId" = Str (string_of_Z c) -> value_of w "#roleName" = Str (string_of_Z p) ->
  let r := save_request u c p in
  let res := e_server E (w_out w) r in
  forall code msg data, res = Success (response code msg data) ->
  news E privilege_page w (Act ASavePrivilege) = Sent r :: Answered r res ::
    (if code =? 0 then [Told (Str "设置") (Str "设置成功") "success"; ModalSet "#userEditDetail" false; Refreshed table_id privilege_url]
     else []).
Proof.
  intros Hu Hc Hp r res code msg data Hres. unfold news. cbn [step p_handler privilege_page privilege_handler].
  assert (task E saveUserPrivilege w = task E (ajax r (fun data =>
    ok <- code_is data 0 ;;
    if ok then swal3 "设置" (Str "设置成功") "success" ;; hide_modal "#userEditDetail" ;; refresh table_id privilege_url
    else done) (failed_res "设置失败")) w) as ->.
  { unfold task, saveUserPrivilege, val_of, op1. cbn [bind run exec_op]. fold (value_of w "#erp").
    fold (value_of w "#clusterId"). fold (value_of w "#roleName"). by rewrite Hu, Hc, Hp. }
  rewrite task_ajax_sync by done. fold res. rewrite Hres. unfold task, code_is, get. cbn [bind run get_prop response].
  destruct (Z.eqb_spec code 0) as [->|Hne]; cbn.
  - by rewrite <- !app_assoc, drop_app_length.
  - rewrite (proj2 (Z.eqb_neq code 0) Hne). cbn. by rewrite <- !app_assoc, drop_app_length.
Qed.

(** C31: saving a privilege, from the form to the database.  The form of the page sends the
    user, the cluster and the role it shows.  Only if the privilege of that user for that
    cluster is then the one of the form, and nothing else has changed, is the user told
    that it was saved, the form closed and the list loaded again.  Otherwise nothing is
    shown, and no other row of any table has changed. *)
Theorem privilege_saved (E : env) (w : world) (u : string) (c p : Z) (session : string -> string) (s : state) :
  value_of w "#erp" = Str u -> value_of w "#clusterId" = Str (string_of_Z c) -> value_of w "#roleName" = Str (string_of_Z p) ->
  u <> "" -> quotable u -> - 2 ^ 63 <= c < 2 ^ 63 -> - 2 ^ 63 <= p < 2 ^ 63 -> served_by session s E ->
  let saved := (<[(u, c) := p]> (privileges (st_db s)), roles (st_db s), metric_servers (st_db s)) in
  exists s' res, account_respond session (save_request u c p) s = Some (s', res) /\
    (news E privilege_page w (Act ASavePrivilege) =
       [Sent (save_request u c p); Answered (save_request u c p) res; Told (Str "设置") (Str "设置成功") "success";
        ModalSet "#userEditDetail" false; Refreshed table_id privilege_url] /\ account_tables (st_db s') = saved \/
     news E privilege_page w (Act ASavePrivilege) = [Sent (save_request u c p); Answered (save_request u c p) res] /\
       (account_tables (st_db s') = account_tables (st_db s) \/ account_tables (st_db s') = saved)).
Proof.
  intros Hu Hc Hp Hne Hq Hcb Hpb HE saved.
  pose proof (save_responds session u c p s Hne Hcb Hpb) as Hr.
  pose proof (saveUserPrivilege_news E w u c p Hu Hc Hp) as Hn. cbv zeta in Hn. rewrite (HE _ _ _ _ Hr) in Hn.
  eexists _, _. split; [exact Hr|].
  destruct (insert_one_spec (INSERT_privilege u c p) s saved) as [[Ho Ht]|[(e & Ho & Hcode) Ht]];
    [by apply insert_privilege_law| |]; fold (UpdatePrivilege u c p) in Ho, Ht;
    revert Hn; unfold nil_answer; rewrite then_spec; destruct (UpdatePrivilege u c p s) as [s' o]; cbn [snd fst] in Ho, Ht |- *;
    rewrite Ho; cbn [ok err snd answer_of]; intros Hn.
  - left. split; [|exact Ht]. by rewrite (Hn 0 "success" Null).
  - right. split; [|exact Ht]. rewrite (Hn (fe_code e) (fe_msg e) (Str "")) by done. by rewrite (proj2 (Z.eqb_neq _ _) Hcode).
Qed.

(** *** Lists *)

Lemma list_page_spec {A : Type} (select : string -> Z -> Z -> db -> go_error + list A) scan json L offset limit order (s : state) :
  0 <= offset -> limit <= 2 ^ 45 -> (exists rows, select order offset limit (st_db s) = inr rows) ->
  (forall rows, select order offset limit (st_db s) = inr rows -> rows = limited (Some (offset, limit)) L) ->
  Forall (fun r => scan r = true) L ->
  list_page select scan json offset limit order s =
    (s, if limit <? offset then GPanic
        else GOk (replicate (Z.to_nat offset) Null ++ take (Z.to_nat limit) (drop (Z.to_nat offset) (json <$> L)))).
Proof.
  intros Hoff Hlim [rows Hsel] Hlaw Hscan. apply Hlaw in Hsel as Hrows. unfold list_page, make.
  rewrite (proj2 (Z.ltb_ge offset 0) Hoff), (proj2 (Z.ltb_ge _ limit) Hlim), orb_false_r. cbn [orb]. destruct (limit <? offset); [done|].
  rewrite then_spec. cbn. rewrite then_spec. unfold or_db_error, try_bind, query. rewrite Hsel. cbn.
  rewrite then_spec. unfold scan_all. assert (forallb scan rows = true) as ->.
  { apply forallb_forall. intros r Hr. subst rows. cbn in Hr. rewrite List.Forall_forall in Hscan. apply Hscan.
    apply list_elem_of_In. apply list_elem_of_In, elem_of_take in Hr as (i & Hi & _).
    rewrite lookup_drop in Hi. by eapply list_elem_of_lookup_2. }
  cbn. subst rows. cbn. change (List.map json ?l) with (json <$> l). by rewrite fmap_take, fmap_drop.
Qed.

Lemma limits_read session url limit offset :
  path_ok url = true ->
  let ps := param_value session (http_get (limits_url url limit offset)) in
  path_of (limits_url url limit offset) = url /\ ps (Backend.Query "order") = "asc" /\
  ps (Backend.Query "limit") = string_of_Z limit /\ ps (Backend.Query "offset") = string_of_Z offset.
Proof.
  intros Hurl ps. split.
  - unfold path_of, limits_url. rewrite str_app_cons, str_app_nil_l, cut_app by done. done.
  - subst ps. cbn [param_value r_url http_get]. unfold limits_url. rewrite params_build; [done|done|done|].
    repeat (constructor; [split; first [apply plain_string_of_Z|done]|]). constructor.
Qed.

(** The service answers a list with its page. *)
Lemma list_responds l session limit offset (s : state) :
  0 <= offset < 2 ^ 63 -> 0 <= limit <= 2 ^ 45 -> list_read l (st_db s) ->
  account_respond session (http_get (limits_url (list_url l) limit offset)) s =
    Some (s, if limit <? offset then Failure (Obj [("status", int 500)]) (Str "error")
             else Success (handleAction (inr (Arr
               (replicate (Z.to_nat offset) Null ++ take (Z.to_nat limit) (drop (Z.to_nat offset) (listed l (st_db s)))))))).
Proof.
  intros Hoff Hlim Hread. set (r := http_get _). set (ps := param_value session r).
  destruct (limits_read session (list_url l) limit offset) as (Hpath & Ho & Hl & Hf); [by destruct l|]. fold r ps in Ho, Hl, Hf.
  assert (forall k, ps (Backend.Query k) = string_of_Z limit \/ ps (Backend.Query k) = string_of_Z offset ->
    ps (Backend.Query k) <> "" /\ is_Some (atoi (ps (Backend.Query k)))) as Hnum.
  { intros k [-> | ->]; (split; [apply string_of_Z_nonempty|]); rewrite atoi_print by lia; by eexists. }
  assert (limit_of ps "limit" = limit /\ limit_of ps "offset" = offset) as [Hl' Hf'].
  { unfold limit_of, int_of. rewrite Hl, Hf, !(proj2 (String.eqb_neq _ "")), !atoi_print by (lia || apply string_of_Z_nonempty).
    done. }
  assert (failing ps (user_checks PrivilegeInfoAction) = None) as Hpass.
  { cbn [failing user_checks passes]. rewrite Ho, !bool_decide_eq_true_2, !orb_true_r by (apply Hnum; auto). done. }
  assert (exists m, find_route (r_type r) (path_of (r_url r)) = Some (GET (list_url l) (Backend.User m)) /\
    user_checks m = user_checks PrivilegeInfoAction /\
    exists f, accounts (db := db) (Backend.User m) ps = Some (then_ f (fun l => ok (Arr l))) /\
      f s = (s, if limit <? offset then GPanic else GOk (replicate (Z.to_nat offset) Null ++
              take (Z.to_nat limit) (drop (Z.to_nat offset) (listed l (st_db s)))))) as (m & Hrt & Hc & f & Hm & Hfs).
  { cbn [r r_url r_type http_get]. rewrite Hpath. destruct l, Hread as [Hsel Hscan].
    - exists PrivilegeInfoAction. split_ands; [done..|]. eexists. split; [cbn [accounts]; by rewrite Hl', Hf', Ho|].
      apply (list_page_spec SELECT_privileges); [lia|lia|done|by apply select_privileges_law|done].
    - exists RoleInfoAction. split_ands; [done..|]. eexists. split; [cbn [accounts]; by rewrite Hl', Hf', Ho|].
      apply (list_page_spec SELECT_roles); [lia|lia|done|by apply select_roles_law|done]. }
  rewrite (account_responds session r s _ _ Hrt Hm) by (cbn [rt_action GET checks]; by rewrite Hc).
  rewrite then_spec, Hfs. by destruct (limit <? offset).
Qed.

(** C33: the lists of privileges and roles are asked for by page, and answered with what
    no page expects.  The tables cut their pages themselves, but a table that is refreshed
    on page [n] asks for the rows of that page alone.  On page 1 it gets the first rows of
    the list, as many as a page has, and no more; on page 2 it gets a null for every row of
    page 1 and then the rows of page 2; on every later page the service panics, and the
    answer is status 500. *)
Theorem lists_refreshed (l : listing) (session : string -> string) (s : state) (st : bt) :
  pagination (b_pager st) = true -> 1 <= pageSize (b_pager st) -> 1 <= pageNumber (b_pager st) ->
  pageSize (b_pager st) * pageNumber (b_pager st) <= 2 ^ 45 -> list_read l (st_db s) ->
  exists q, b_sent (bt_refresh client false st) = b_sent st ++ [q] /\
    account_respond session (list_request (list_url l) q) s =
      Some (s, page_answer (listed l (st_db s)) (pageSize (b_pager st)) (pageNumber (b_pager st))).
Proof.
  intros Hpag Hsize Hn Hbound Hread. unfold bt_refresh, initServer. cbn [cf_url client]. rewrite Hpag.
  set (m := pageSize (b_pager st)) in *. set (n := pageNumber (b_pager st)) in *.
  eexists. split; [reflexivity|]. cbn [list_request int]. rewrite list_responds by (nia || done). do 2 f_equal.
  unfold page_answer. destruct (Z.eqb_spec n 1) as [->|H1].
  { rewrite Z.sub_diag, Z.mul_0_r. by rewrite (proj2 (Z.ltb_ge m 0)) by lia. }
  destruct (Z.eqb_spec n 2) as [->|H2].
  { replace (m * (2 - 1)) with m by lia. by rewrite Z.ltb_irrefl. }
  by rewrite (proj2 (Z.ltb_lt m _)) by nia.
Qed.

(** Without a refresh such a table asks for nothing. *)
Lemma initBody_sent cf st st' : initBody cf st = Ok st' -> b_sent st' = b_sent st.
Proof. unfold initBody. destruct (draw_rows _ _ _ _ _) as [h [[rows its]|]]; [|done]. intros [= <-]. done. Qed.

Lemma initPagination_sent cf st : b_sent (initPagination cf st) = b_sent st.
Proof. unfold initPagination. by destruct (pagination (b_pager st)). Qed.

Lemma redraw_sent cf st st' : redraw cf st = Ok st' -> b_sent st' = b_sent st.
Proof.
  intros ->%initBody_sent. rewrite initPagination_sent. unfold initSearch. by destruct (cf_server cf).
Qed.

Lemma updatePagination_sent cf b st st' :
  cf_server cf = false -> updatePagination cf b st = Ok st' -> b_sent st' = b_sent st.
Proof.
  intros Hc. unfold updatePagination. rewrite Hc. destruct b; [by intros [= <-]|].
  intros ->%initBody_sent. rewrite initPagination_sent. destruct (cf_maintainSelected cf); [done|].
  apply (proj2 (resetRows_pager st)).
Qed.

Lemma step_sent cf st ev st' : cf_server cf = false -> no_refresh ev -> bt_step cf st ev = Ok st' -> b_sent st' = b_sent st.
Proof.
  intros Hc Hev. destruct ev; cbn [bt_step no_refresh] in *; try done; try (by intros ->%updatePagination_sent).
  - intros [= <-]. unfold clickItem. destruct (b_items st !! j) as [it|]; [|done].
    destruct (negb (it_enabled it)), (singleSelect (b_cols st)); done.
  - by intros [= <-].
  - unfold onPageNumber. destruct (_ =? _); [by intros [= <-]|by intros ->%updatePagination_sent].
  - unfold onPageListChange. by intros ->%updatePagination_sent.
  - unfold onSearch. set (same := match b_searchText st with Some _ => _ | None => _ end).
    destruct same; [by intros [= <-]|]. intros ->%updatePagination_sent; [|done]. unfold initSearch. by destruct (cf_server cf).
  - by intros ->%redraw_sent.
  - unfold load. intros ->%redraw_sent. rewrite Hc. by destruct rows.
  - unfold bt_remove. destruct (_ =? _)%nat; [by intros [= <-]|by intros ->%redraw_sent].
Qed.

Lemma steps_sent cf st evs st' :
  cf_server cf = false -> Forall no_refresh evs -> bt_steps cf st evs = Ok st' -> b_sent st' = b_sent st.
Proof.
  intros Hc Hevs. revert st. induction Hevs as [|ev evs Hev _ IH]; intros st; [by intros [= <-]|]. cbn [bt_steps].
  destruct (bt_step cf st ev) as [st1|] eqn:Hst; [|done]. cbn. intros H%IH. by rewrite H, (step_sent _ _ _ _ Hc Hev Hst).
Qed.

Lemma privilege_json_ok r : row_ok "state" privilege_cols (privilege_json r).
Proof. apply row_ok_plain; [done|by repeat constructor|by left]. Qed.

(** C32: of the privileges the page shows the first ten at most.  The table asks for ten
    rows when the page is opened, and takes what it gets for the whole list: it shows the
    first ten privileges on one page, whatever their number, and nothing that the user
    does with the table (a page, a page size, a search, a column, a box) but a refresh
    asks the server for more. *)
Theorem privilege_list_cut (session : string -> string) (s : state) :
  list_read Privileges (st_db s) ->
  exists st0 q d st,
    bt_init client privilege_cols true 10 [] = Ok st0 /\ b_sent st0 = [q] /\
    account_respond session (list_request privilege_url q) s = Some (s, Success d) /\
    load client 0 (answer_rows d) st0 = Ok st /\
    Forall2 (same_row "state") (row_of (b_store st) <$> view st) (take 10 (listed Privileges (st_db s))) /\
    totalPages (b_pager st) <= 1 /\
    forall evs st', Forall no_refresh evs -> bt_steps client st evs = Ok st' -> b_sent st' = [q].
Proof.
  intros Hread. set (rows := take 10 (listed Privileges (st_db s))).
  assert (length rows <= 10)%nat as Hlen by (subst rows; rewrite length_take; lia).
  destruct (init_sound client "state" true privilege_cols true 10 []) as (st0 & Hok & Hso & Hp & _);
    [exact privilege_tame|by split; [|cbn]|lia|].
  assert (st0 = BootstrapTable.after (bt_init client privilege_cols true 10 [])) as Hst0 by by rewrite Hok.
  assert (loadable "state" (b_cols st0) rows) as Hl.
  { split; [|lia]. rewrite Hst0. apply Forall_take, Forall_fmap, Forall_true. intros r. apply privilege_json_ok. }
  destruct (load_shows client "state" true st0 0 rows Hso Hp) as (st & Hload & _ & _ & [_ Hsh] & _ & Hpg);
    [done|by rewrite Hst0|done|].
  set (q := BootstrapTable.Query Undef (int 10) (int 0)).
  assert (b_sent st0 = [q]) as Hq by by rewrite Hst0.
  assert (b_sent st = [q]) as Hq'.
  { rewrite <- Hq. apply (step_sent client st0 (ELoad 0 (Some rows))); done. }
  exists st0, q, (handleAction (inr (Arr rows))), st. split; [exact Hok|]. split; [exact Hq|]. split.
  { exact (list_responds Privileges session 10 0 s ltac:(lia) ltac:(lia) Hread). }
  split; [exact Hload|]. split; [exact Hsh|]. split.
  - assert (b_pager st = paginate client (length rows) (b_pager st0)) as ->.
    { revert Hpg. unfold fresh_page. by rewrite Hst0. }
    rewrite paginate_totalPages by done. replace (pageSize (b_pager st0)) with 10 by (by rewrite Hst0).
    destruct (page_count_bounds (length rows) 10) as [[Hub Hlb]|[Hz Hpc]]; lia.
  - intros evs st' Hevs Hst. by rewrite (steps_sent client st evs st').
Qed.

End Theorems.

(** ** The tables in memory *)

#[export] Instance contents_db : AccountsDb contents := {
  privileges d := d.1.1;
  roles d := d.1.2;
  metric_servers d := d.2;
  ordered_privileges _ d := map_to_list d.1.1;
  ordered_roles _ d := map_to_list d.1.2;
  SELECT_privileges _ offset limit d := inr (limited (Some (offset, limit)) (map_to_list d.1.1));
  INSERT_privilege u c p d := ((<[(u, c) := p]> d.1.1, d.1.2, d.2), inr 1);
  DELETE_privilege u c d := ((delete (u, c) d.1.1, d.1.2, d.2), inr (if decide (is_Some (d.1.1 !! (u, c))) then 1 else 0));
  SELECT_roles _ offset limit d := inr (limited (Some (offset, limit)) (map_to_list d.1.2));
  INSERT_role r name d := ((d.1.1, <[r := name]> d.1.2, d.2), inr 1);
  DELETE_role r d := ((d.1.1, delete r d.1.2, d.2), inr (if decide (is_Some (d.1.2 !! r)) then 1 else 0));
  SELECT_metric_servers d := inr (base.elements d.2);
  INSERT_metric_server addr d := ((d.1.1, d.1.2, {[addr]} ∪ d.2), inr 1);
  DELETE_metric_server addr d := ((d.1.1, d.1.2, d.2 ∖ {[addr]}), inr (if decide (addr ∈ d.2) then 1 else 0))
}.

#[export] Instance contents_laws : AccountsLaws contents.
Proof. split; try done; by intros; injection H. Qed.

(** Two metric servers, of which the page still shows one more. *)
Definition two_servers : state (db := contents) (ms := unit) :=
  State (({[("ann", 1) := 2; ("bob", 2) := 3]}, {[1 := "admin"]}, {["10.0.0.1:80"; "10.0.0.3:80"]}) : contents) tt.
Definition server_row (addr : string) : val := Obj [("addr", Str addr); ("", Bool true)].
Definition three_selected : world :=
  World ∅ ∅ [] {[metric_table := Table "" (server_row <$> ["10.0.0.1:80"; "10.0.0.2:80"; "10.0.0.3:80"])]} None [] [].
Definition account_env (s : state (db := contents) (ms := unit)) : env :=
  served (fun r => match account_respond (fun _ => "") r s with Some (_, res) => res | None => Success Null end).

Lemma account_env_served s : served_by (fun _ => "") s (account_env s).
Proof. intros log r s' res Hr. unfold account_env, served. cbn [e_server]. by rewrite Hr. Qed.

Lemma deletions_end_to_end_witness :
  exists r s' res gone, account_respond (fun _ => "") r two_servers = Some (s', res) /\
    gone `prefix_of` ["10.0.0.1:80"; "10.0.0.2:80"; "10.0.0.3:80"] /\
    account_tables (st_db s') =
      fold_left (fun (t : contents) k => (t.1.1, t.1.2, t.2 ∖ {[k]})) gone (account_tables (st_db two_servers)) /\
    news (account_env two_servers) server_page (step (account_env two_servers) server_page three_selected (Act ADelServers)) (Confirm "") =
      Sent r :: Answered r res :: (if decide (length gone = 3%nat) then [told_deleted; Reloaded] else []).
Proof.
  apply (deletions_end_to_end server_button (account_env two_servers) three_selected
    (Table "" (server_row <$> ["10.0.0.1:80"; "10.0.0.2:80"; "10.0.0.3:80"])) "" ["10.0.0.1:80"; "10.0.0.2:80"; "10.0.0.3:80"]
    (fun _ => "") two_servers); [unfold delete_buttons; set_solver|vm_compute; reflexivity|reflexivity|done|by repeat constructor|
    apply account_env_served].
Defined.

Definition privilege_form : world :=
  World {[("#erp", "value") := Str "ann"; ("#clusterId", "value") := Str "1"; ("#roleName", "value") := Str "3"]} ∅ [] ∅ None [] [].

Lemma privilege_saved_witness :
  exists s' res, account_respond (fun _ => "") (save_request "ann" 1 3) two_servers = Some (s', res) /\
    (news (account_env two_servers) privilege_page privilege_form (Act ASavePrivilege) =
       [Sent (save_request "ann" 1 3); Answered (save_request "ann" 1 3) res; Told (Str "设置") (Str "设置成功") "success";
        ModalSet "#userEditDetail" false; Refreshed table_id privilege_url] /\
       account_tables (st_db s') = (<[("ann", 1) := 3]> (privileges (st_db two_servers)), roles (st_db two_servers), metric_servers (st_db two_servers)) \/
     news (account_env two_servers) privilege_page privilege_form (Act ASavePrivilege) =
       [Sent (save_request "ann" 1 3); Answered (save_request "ann" 1 3) res] /\
       (account_tables (st_db s') = account_tables (st_db two_servers) \/
        account_tables (st_db s') = (<[("ann", 1) := 3]> (privileges (st_db two_servers)), roles (st_db two_servers), metric_servers (st_db two_servers)))).
Proof.
  apply (privilege_saved (account_env two_servers) privilege_form "ann" 1 3 (fun _ => "") two_servers);
    [vm_compute; reflexivity..|done|done|lia|lia|apply account_env_served].
Defined.

Lemma two_servers_read l : list_read l (st_db two_servers).
Proof.
  destruct l; cbn [list_read]; (split; [intros offset limit; eexists; exact eq_refl|]).
  - apply List.Forall_forall, forallb_forall. vm_compute. reflexivity.
  - apply List.Forall_forall, forallb_forall. vm_compute. reflexivity.
Qed.

(** Page 3 of a table of roles with one row to a page. *)
Definition third_page : bt := Bt [] [] [] None None [] (Pager true 3 1 3 3 3 3 3 false true []) [] [] false [].

Lemma lists_refreshed_witness :
  exists q, b_sent (bt_refresh client false third_page) = b_sent third_page ++ [q] /\
    account_respond (fun _ => "") (list_request role_url q) two_servers = Some (two_servers, Failure (Obj [("status", int 500)]) (Str "error")).
Proof. apply (lists_refreshed Roles (fun _ => "") two_servers third_page); [done|cbn; lia..|apply two_servers_read]. Defined.

Lemma privilege_list_cut_witness :
  exists st0 q d st,
    bt_init client privilege_cols true 10 [] = Ok st0 /\ b_sent st0 = [q] /\
    account_respond (fun _ => "") (list_request privilege_url q) two_servers = Some (two_servers, Success d) /\
    load client 0 (answer_rows d) st0 = Ok st /\
    Forall2 (same_row "state") (row_of (b_store st) <$> view st) (take 10 (listed Privileges (st_db two_servers))) /\
    totalPages (b_pager st) <= 1 /\
    forall evs st', Forall no_refresh evs -> bt_steps client st evs = Ok st' -> b_sent st' = [q].
Proof. apply (privilege_list_cut (fun _ => "") two_servers), two_servers_read. Defined.
